(* ===== verification/_CoqProject ===== *)
-Q . S2P
Prelude.v
Uart.v
PhysMem.v
PageTable.v
KernelMap.v
UserMem.v
Teardown.v
Clone.v
Reclaim.v
Thread.v
ThreadSpec.v
ThreadSpace.v
Lock.v
Timer.v
Intr.v
CString.v
Io.v
Device.v
Virtio.v
Kfs.v
KfsSpec.v
Mkfs.v
Vioblk.v
Storage.v
Elf.v
Process.v
Fork.v
Exit.v
Boot.v
Attach.v
Main.v
Types.v
Console.v
Excp.v
User.v
