(* ===== verification/Prelude.v ===== *)
(** * The kernel: a verification development

    The program is a small operating-system kernel for 64-bit RISC-V under
    src/src/kern: a page allocator and heap, Sv39 virtual memory, cooperative
    threads with condition variables and locks, a timer, interrupt and exception
    dispatch, a serial port, a VirtIO block device, a file system, I/O objects
    with formatted output, an ELF loader, processes and system calls; the program
    that builds its disk images (src/src/util/mkfs.c); and user programs
    (src/src/user).  This library models the C code as executable definitions and
    proves the properties on which each part relies in the others, up to the run of
    the whole kernel from power-on to the first instruction of the first program
    ([Main.main_boots]).

    ** Parts, files and sources

    - [Prelude]: machine integers with their wrap-around, the outcome and state
      monad, lists of bytes, the shared tactics.
    - [Uart] (uart.c): the ring buffers, the driver, and the driver with its
      interrupt routine as an interleaving of single memory accesses.
    - [PhysMem] (memory.c page pool, ezheap.c): a free list threaded through
      memory, and the bump allocator [kmalloc].
    - [PageTable] (memory.c, memory.h): page-table entries, [walk_pt], mapping,
      protection, page faults, pointer checks, switching, unmapping and reclaiming
      spaces.
    - [KernelMap] (memory.c): [memory_init] and the kernel's own map.
    - [UserMem]: the bytes of user memory, behind the page tables of a space; what a
      space does not notice.
    - [Teardown], [Reclaim] (memory.c): what unmapping a program and giving up a space
      free and leave.
    - [Clone] (memory.c): [memory_space_clone], the copy of a space for fork.
    - [Thread], [ThreadSpec] (thread.c, thread.h): thread lists, the scheduler
      and every thread operation; its invariant, its steps, its refinement to
      queues.
    - [ThreadSpace]: the running thread is in the address space of its process.
    - [Lock] (lock.h): locks over the scheduler, and threads that use one.
    - [Timer] (timer.c, timer.h): the sleep list and the timer interrupt.
    - [Intr] (intr.c, plic.c): the interrupt controller and the dispatch.
    - [CString] (string.c): memory and string functions, formatting.
    - [Io] (io.h, io.c): I/O objects, memory-backed objects, the terminal; the
      contract of an object as classes.
    - [Device] (device.c): the device registry.
    - [Virtio] (virtio.c, virtio.h), [Vioblk] (vioblk.c): feature negotiation,
      queues, and the block device driver.
    - [Kfs], [KfsSpec] (kfs.c, fs.h): the file system over any disk.
    - [Mkfs] (src/src/util/mkfs.c): the host program that builds an image.
    - [Storage]: the file system on the block device driver.
    - [Elf] (elf.c): the loader.
    - [Process] (process.c, syscall.c): descriptor tables and system calls.
    - [Fork], [Exit] (process.c, syscall.c): fork and the end of a process across
      processes, threads and memory.
    - [Boot] (main.c, process.c): the initialisation calls, the first program, exec.
    - [Attach] (main.c, uart.c, virtio.c): the loops that attach the devices.
    - [Main] (main.c): [main] on the state of the whole machine.
    - [Types]: the types of the state, kept by every system call.
    - [Console] (console.c, halt.c, the polled half of uart.c).
    - [Excp] (excp.c): exceptions of user programs.
    - [User] (src/src/user): the user programs on the system calls.

    A definition has the name of the function it models ([f_main] for the [main] of
    the user program f); a helper for a loop or
    for the common part of several functions has a comment.  The comment before
    a record says which variables or members its fields are.

    ** How C is modelled

    - A [w]-bit integer is a [Z]; an operation that can leave its range is
      followed by [u8] ... [u64], [s32] or [s64].
    - [M St A] is code on a state [St]: it returns ([Ok]), panics ([Panic]),
      halts ([Halt]), does what C leaves undefined, such as an access outside
      an object ([Undef]), or has used up the iterations of a loop ([Fuel]).
    - Memory is a map from the addresses of 64-bit words to words ([kmem]); user
      memory is the bytes of the frames the page tables of a space lead to.
      Structures of the scheduler, the timer, processes and drivers are functions
      from addresses to records.  A buffer passed to a function is a list of bytes.
    - A context switch ends the model of an operation: the thread that called it
      continues with the second half ([suspend_in], [join_any_resumed],
      [lock_retry]) when it is next scheduled.  A system call ends with a value, with
      its thread suspended, or in user mode at a new program's entry point
      ([sysret]).  Interleavings of whole
      operations are step relations ([ThreadSpec.step], [Lock.lstep],
      [Types.sys_step], the steps
      of [Timer]); [UartSteps.step] interleaves single accesses, since the
      interrupt routine runs between any two of them.
    - The structure of a process is shared by process.c and thread.c: the scheduler's
      view of its address space ([proc_mtag]) and the member [mtag] are written
      together ([set_mtag]), and [Types] shows that they agree.
    - Loops over an index run over [range] and need no bound.  Other loops take
      fuel, and the theorems that say an operation returns show how much is
      enough: the length of the format for [vgprintf], 40 digits for
      [format_int], the length of the buffer for [ioread_full] and [iowrite],
      the number of alarms for the timer, the number of blocks touched for
      file-system and device transfers, the length of the line for line
      editing, the number of polls the port needs for the console, and one round more
      than the array has characters for the lines user programs read.
    - Code outside the C files is a parameter: the block device
      ([BlockDev] with the laws [BlockHw]), the serial port ([Com0] with
      [Polled16550], and arguments for what a status register reads), an I/O
      object below the terminal or the file system ([Source], [Sink],
      [Terminal], [Seekable], [Writable]), interrupt service routines, and the
      open functions of devices; for a user program, the system calls ([Syscalls]
      with [Recorder] and [UserTerminal]).  Each class has an instance: memory-backed
      objects, the block device driver and the block device of a board for
      [Seekable], a tape for [Terminal] and [UserTerminal], a memory disk for
      [BlockHw], a port for [Polled16550].

    ** What the theorems show

    - The whole kernel: from power-on, with a disk that mkfs built, [main] ends in the
      first program in user mode; the loops attach each device under its name;
      system calls, interrupts and time keep the state well typed.
    - Memory: allocations are disjoint and aligned; mapping a page changes exactly that
      page and keeps spaces isolated; [memory_init] gives the kernel the map it needs;
      a clone has the parent's bytes in frames of its own; unmapping and reclaiming
      free exactly what the space owned.
    - Scheduling: in every reachable state each thread is in the list its state
      says and no assertion fails; operations refine queues; the active address space
      is that of the running thread's process; a lock has at most
      one holder; no alarm is missed.
    - Devices: the serial driver loses and reorders no byte in either direction;
      block reads and writes transfer exactly the bytes asked for.
    - Files: reads, writes, opens and their round trip, over any disk and over
      the block device driver; the files of an image the builder writes are read
      back from it.
    - Text: numbers are printed as digits that read back, [snprintf] never
      writes past its buffer, line endings are normalised, lines are edited in
      their buffer.
    - Programs: the loader puts every segment where its header says; exec leaves
      exactly the new program mapped; descriptors
      name the object they were opened on; fork shares them and copies the space; exit
      gives everything back; page faults and system calls resume the program; what the
      user programs print and how they read lines.
    - Some theorems state behaviour that a caller would not expect, such as
      [Process.descriptor_out_of_bounds], [Boot.exec_failure_unmaps] or
      [User.read_line_spec]; their comments say so.

    ** Not modelled

    - start.s, trapasm.s, thrasm.s, syscall.S and the control-register instructions: the
      registers the C code depends on (satp, the interrupt-enable bit, the registers
      [sret] takes) are fields or results of the model, and the context switch is the
      change of the running thread.  The copy of the trap frame onto the child's stack
      in [_thread_finish_fork] is not modelled.
    - main_shell.c, an earlier [main] that calls a function the kernel no longer has,
      and the test programs of kernel and user code.
    - The user's string.c and io.c, which repeat the kernel's; ls.c, which calls the
      kernel's allocator.
    - [halt_success] and [halt_failure], stores to the test device: they are the
      outcomes [Halt] and [Panic].
    - Trace and debug output, which is compiled out. *)

From Stdlib Require Export ZArith Lia.
From stdpp Require Export base list gmap strings.

#[global] Open Scope Z_scope.

(** * Machine integers

    A [w]-bit unsigned C integer is a [Z] in [0, 2^w); every operation of the
    source that can leave the range is followed by the wrap-around written
    here.  [s32] and [s64] are the two's-complement readings. *)

Definition u8 (z : Z) : Z := z mod 256.
Definition u16 (z : Z) : Z := z mod 65536.
Definition u32 (z : Z) : Z := z mod 4294967296.
Definition u64 (z : Z) : Z := z mod 18446744073709551616.
Definition s32 (z : Z) : Z := (z + 2147483648) mod 4294967296 - 2147483648.
Definition s64 (z : Z) : Z :=
  (z + 9223372036854775808) mod 18446744073709551616 - 9223372036854775808.

Definition UINT64_MAX : Z := 18446744073709551615.
Definition LONG_MAX : Z := 9223372036854775807.

Lemma u8_range z : 0 <= u8 z < 256.
Proof. unfold u8. apply Z.mod_pos_bound. lia. Qed.
Lemma u16_range z : 0 <= u16 z < 65536.
Proof. unfold u16. apply Z.mod_pos_bound. lia. Qed.
Lemma u32_range z : 0 <= u32 z < 4294967296.
Proof. unfold u32. apply Z.mod_pos_bound. lia. Qed.
Lemma u64_range z : 0 <= u64 z < 18446744073709551616.
Proof. unfold u64. apply Z.mod_pos_bound. lia. Qed.

Lemma u8_small z : 0 <= z < 256 -> u8 z = z.
Proof. apply Z.mod_small. Qed.
Lemma u16_small z : 0 <= z < 65536 -> u16 z = z.
Proof. apply Z.mod_small. Qed.
Lemma u32_small z : 0 <= z < 4294967296 -> u32 z = z.
Proof. apply Z.mod_small. Qed.
Lemma u64_small z : 0 <= z < 18446744073709551616 -> u64 z = z.
Proof. apply Z.mod_small. Qed.
Lemma s32_small z : -2147483648 <= z < 2147483648 -> s32 z = z.
Proof. intros. unfold s32. rewrite Z.mod_small; lia. Qed.
Lemma s64_small z :
  -9223372036854775808 <= z < 9223372036854775808 -> s64 z = z.
Proof. intros. unfold s64. rewrite Z.mod_small; lia. Qed.

(** Turns every wrap-around, division and remainder by a constant into linear
    arithmetic and calls [lia]. *)
Ltac wrap_lia :=
  unfold u8, u16, u32, u64, s32, s64, UINT64_MAX, LONG_MAX in *;
  Z.div_mod_to_equations; lia.

(** * Outcomes of kernel code

    [Ok] is a normal return; [Panic] is a call of [panic] (halt.c), which never
    returns; [Halt] is [halt_success]; [Undef] is an access outside an object,
    which C leaves undefined; [Fuel] is a loop that used up the iteration
    bound of its model. *)

Inductive outcome (A : Type) : Type :=
| Ok (a : A)
| Panic (msg : string)
| Halt
| Undef (why : string)
| Fuel.
Arguments Ok {A} a.
Arguments Panic {A} msg.
Arguments Halt {A}.
Arguments Undef {A} why.
Arguments Fuel {A}.

Definition obind {A B} (m : outcome A) (f : A -> outcome B) : outcome B :=
  match m with
  | Ok a => f a
  | Panic w => Panic w
  | Halt => Halt
  | Undef w => Undef w
  | Fuel => Fuel
  end.

(** The state-and-outcome monad in which the stateful components are written. *)
Definition M (St A : Type) : Type := St -> outcome (A * St).

#[global] Instance M_ret St : MRet (M St) := fun A a s => Ok (a, s).
#[global] Instance M_bind St : MBind (M St) :=
  fun A B f m s => obind (m s) (fun '(a, s') => f a s').

Definition get {St} : M St St := fun s => Ok (s, s).
Definition put {St} (s : St) : M St unit := fun _ => Ok (tt, s).
Definition gets {St A} (f : St -> A) : M St A := fun s => Ok (f s, s).
Definition modify {St} (f : St -> St) : M St unit := fun s => Ok (tt, f s).
Definition panic {St A} (msg : string) : M St A := fun _ => Panic msg.
Definition undef {St A} (why : string) : M St A := fun _ => Undef why.
(** [assert (c)] of halt.h: panics when the condition is false. *)
Definition cassert {St} (c : bool) : M St unit :=
  if c then mret tt else panic "ASSERTION FAILED".

Lemma bind_run {St A B} (m : M St A) (f : A -> M St B) s :
  (m ≫= f) s = obind (m s) (fun '(a, s') => f a s').
Proof. reflexivity. Qed.

Lemma bind_Ok {St A B} (m : M St A) (f : A -> M St B) s a s' :
  m s = Ok (a, s') -> (m ≫= f) s = f a s'.
Proof. intros E. rewrite bind_run, E. reflexivity. Qed.

(** The primitive operations, applied to a state. *)
Lemma run_get {St} (s : St) : get s = Ok (s, s).
Proof. reflexivity. Qed.
Lemma run_gets {St A} (f : St -> A) s : gets f s = Ok (f s, s).
Proof. reflexivity. Qed.
Lemma run_modify {St} (f : St -> St) s : modify f s = Ok (tt, f s).
Proof. reflexivity. Qed.
Lemma run_ret {St A} (a : A) (s : St) : (mret a : M St A) s = Ok (a, s).
Proof. reflexivity. Qed.
Lemma run_assert {St} (c : bool) (s : St) : c = true -> cassert c s = Ok (tt, s).
Proof. by intros ->. Qed.

Lemma bind_Ok_inv {St A B} (m : M St A) (f : A -> M St B) s r :
  (m ≫= f) s = Ok r -> exists a s', m s = Ok (a, s') /\ f a s' = Ok r.
Proof.
  rewrite bind_run. destruct (m s) as [[a s']|w| |w|]; simpl; intros H;
    try discriminate. eauto.
Qed.

(** A [for] loop whose index runs over a list of values. *)
Fixpoint forM {St A} (l : list A) (body : A -> M St unit) : M St unit :=
  match l with
  | [] => mret tt
  | x :: l' => body x ;; forM l' body
  end.

(** The indices [from, from + step, ...] below [to], at most [n] of them: the
    values of [i] in [for (i = from; i < to; i += step)]. *)
Fixpoint range (n : nat) (from to step : Z) : list Z :=
  match n with
  | O => []
  | S n' => if from <? to then from :: range n' (from + step) to step else []
  end.

Lemma range_elem n from to step x :
  0 < step ->
  x ∈ range n from to step <->
  exists i, 0 <= i < Z.of_nat n /\ x = from + step * i /\ x < to.
Proof.
  intros Hs. revert from. induction n as [|n IH]; intros from; cbn [range].
  - rewrite elem_of_nil. split; [done|]. intros (i & Hi & _). lia.
  - destruct (Z.ltb_spec from to) as [Hlt|Hge].
    + rewrite elem_of_cons, IH. split.
      * intros [->|(i & Hi & -> & Hx)]; [exists 0; lia|exists (i + 1); lia].
      * intros (i & Hi & -> & Hx). destruct (decide (i = 0)) as [->|]; [left; lia|].
        right. exists (i - 1). lia.
    + rewrite elem_of_nil. split; [done|]. intros (i & Hi & -> & Hx). nia.
Qed.

Lemma range_NoDup n from to step : 0 < step -> NoDup (range n from to step).
Proof.
  intros Hs. revert from. induction n as [|n IH]; intros from; cbn [range]; [constructor|].
  destruct (from <? to); [|constructor]. constructor; [|done].
  rewrite range_elem by done. intros (i & Hi & E & _). nia.
Qed.

Lemma forM_inv {St A} (I : list A -> St -> Prop) (l : list A)
    (body : A -> M St unit) s s' :
  I [] s ->
  (forall done x rest s0 s1,
      l = done ++ x :: rest -> I done s0 -> body x s0 = Ok (tt, s1) ->
      I (done ++ [x]) s1) ->
  forM l body s = Ok (tt, s') -> I l s'.
Proof.
  intros H0 Hstep.
  assert (G : forall rest done s0, l = done ++ rest -> I done s0 ->
             forM rest body s0 = Ok (tt, s') -> I l s').
  { induction rest as [|x rest IH]; intros done s0 El Hi Hrun; simpl in Hrun.
    - unfold mret, M_ret in Hrun. rewrite app_nil_r in El. congruence.
    - apply bind_Ok_inv in Hrun as ([] & s1 & Hb & Hr).
      apply (IH (done ++ [x]) s1); [by rewrite <- app_assoc | | done].
      by apply (Hstep done x rest s0 s1). }
  intros Hrun. by apply (G l [] s).
Qed.

Lemma forM_cons {St A} (x : A) l (body : A -> M St unit) s s1 :
  body x s = Ok (tt, s1) -> forM (x :: l) body s = forM l body s1.
Proof. intros E. cbn [forM]. by rewrite (bind_Ok _ _ _ _ _ E). Qed.

Lemma forM_app {St A} (l1 l2 : list A) (body : A -> M St unit) s s1 :
  forM l1 body s = Ok (tt, s1) -> forM (l1 ++ l2) body s = forM l2 body s1.
Proof.
  revert s. induction l1 as [|x l1 IH]; intros s E.
  - by injection E as ->.
  - cbn [forM] in E. apply bind_Ok_inv in E as ([] & s2 & E1 & E2). cbn [app].
    rewrite (forM_cons _ _ _ _ _ E1). by apply IH.
Qed.

(** A loop over pure state never stops early if its body never does. *)
Lemma forM_total {St A} (P : St -> Prop) (l : list A) (body : A -> M St unit) s :
  P s ->
  (forall x s0, x ∈ l -> P s0 -> exists s1, body x s0 = Ok (tt, s1) /\ P s1) ->
  exists s', forM l body s = Ok (tt, s') /\ P s'.
Proof.
  revert s. induction l as [|x l IH]; intros s Hs Hstep; simpl.
  - by exists s.
  - destruct (Hstep x s) as (s1 & E & H1); [set_solver | done |].
    destruct (IH s1 H1) as (s' & E' & H').
    { intros. apply Hstep; [set_solver | done]. }
    exists s'. split; [|done]. by rewrite (bind_Ok _ _ _ _ _ E).
Qed.

(** * Arrays and buffers

    A C array is a list; [slice off n] is the [n] elements from [off], and
    [splice off d] overwrites the elements from [off] with [d]. *)

Section arrays.
Context {A : Type}.
Implicit Types (l d : list A) (i n off : nat).

Definition slice off n l : list A := take n (drop off l).
Definition splice off d l : list A :=
  take off l ++ d ++ drop (off + length d) l.

Lemma slice_length off n l :
  (off + n <= length l)%nat -> length (slice off n l) = n.
Proof. intros. unfold slice. rewrite length_take, length_drop. lia. Qed.

Lemma slice_lookup off n l i :
  (i < n)%nat -> slice off n l !! i = l !! (off + i)%nat.
Proof.
  intros. unfold slice. rewrite lookup_take_lt by lia. by rewrite lookup_drop.
Qed.

Lemma slice_app off n1 n2 l :
  slice off (n1 + n2) l = slice off n1 l ++ slice (off + n1) n2 l.
Proof.
  unfold slice. rewrite <- (drop_drop l n1 off).
  symmetry. apply take_take_drop.
Qed.

Lemma slice_0 off l : slice off 0 l = [].
Proof. done. Qed.

Lemma slice_all l : slice 0 (length l) l = l.
Proof. unfold slice. rewrite drop_0. by rewrite firstn_all. Qed.

Lemma splice_length off d l :
  (off + length d <= length l)%nat -> length (splice off d l) = length l.
Proof.
  intros. unfold splice. rewrite !length_app, length_take, length_drop. lia.
Qed.

Lemma splice_lookup_in off d l i :
  (off + length d <= length l)%nat -> (off <= i < off + length d)%nat ->
  splice off d l !! i = d !! (i - off)%nat.
Proof.
  intros. unfold splice.
  rewrite lookup_app_r by (rewrite length_take; lia).
  rewrite length_take, Nat.min_l by lia.
  by rewrite lookup_app_l by lia.
Qed.

Lemma splice_lookup_out off d l i :
  (off + length d <= length l)%nat -> (i < off \/ off + length d <= i)%nat ->
  splice off d l !! i = l !! i.
Proof.
  intros ? [Hi|Hi]; unfold splice.
  - rewrite lookup_app_l by (rewrite length_take; lia).
    by rewrite lookup_take_lt by lia.
  - rewrite lookup_app_r by (rewrite length_take; lia).
    rewrite length_take, Nat.min_l by lia.
    rewrite lookup_app_r by lia. rewrite lookup_drop. f_equal. lia.
Qed.

Lemma splice_nil off l : (off <= length l)%nat -> splice off [] l = l.
Proof.
  intros. unfold splice. simpl. rewrite Nat.add_0_r. apply take_drop.
Qed.

Lemma splice_all d l : length d = length l -> splice 0 d l = d.
Proof.
  intros H. unfold splice. rewrite take_0, (drop_ge l) by lia. simpl. apply app_nil_r.
Qed.

Lemma slice_splice_same off d l :
  (off + length d <= length l)%nat -> slice off (length d) (splice off d l) = d.
Proof.
  intros. apply list_eq. intros i.
  destruct (decide (i < length d)%nat).
  - rewrite slice_lookup by lia. rewrite splice_lookup_in by lia.
    f_equal. lia.
  - rewrite !lookup_ge_None_2; [done | lia |].
    rewrite slice_length; [lia|]. rewrite splice_length; lia.
Qed.

Lemma slice_splice_disjoint off d off' n l :
  (off + length d <= length l)%nat ->
  (off' + n <= off \/ off + length d <= off')%nat ->
  slice off' n (splice off d l) = slice off' n l.
Proof.
  intros Hd Hx. apply list_eq. intros i.
  destruct (decide (i < n)%nat).
  - rewrite !slice_lookup by lia. apply splice_lookup_out; [done | lia].
  - rewrite !lookup_ge_None_2; [done | |];
      unfold slice; rewrite length_take; lia.
Qed.
End arrays.

(** Nothing is left of a list no element of which passes. *)
Lemma filter_none {A} (P : A -> Prop) `{forall x, Decision (P x)} (l : list A) :
  (forall y, y ∈ l -> ~ P y) -> filter P l = [].
Proof.
  induction l as [|x l IH]; intros Hn; [done|]. rewrite filter_cons_False by (apply Hn; by left).
  apply IH. intros y Hy. apply Hn. by right.
Qed.

(** * Hints and tactics *)

Create HintDb kern.
Create Rewrite HintDb kern_rw.
#[export] Hint Resolve u8_range u16_range u32_range u64_range : kern.
#[export] Hint Rewrite @slice_0 @slice_all : kern_rw.

(** Splits on the next [if] or [match] scrutinee and clears impossible cases. *)
Ltac casesplit :=
  match goal with
  | |- context [if ?b then _ else _] => destruct b eqn:?
  | H : context [if ?b then _ else _] |- _ => destruct b eqn:?
  end.

(** Boolean comparisons of [Z] to propositions, everywhere. *)
Ltac zbool :=
  repeat match goal with
  | H : (_ =? _) = true |- _ => apply Z.eqb_eq in H
  | H : (_ =? _) = false |- _ => apply Z.eqb_neq in H
  | H : (_ <? _) = true |- _ => apply Z.ltb_lt in H
  | H : (_ <? _) = false |- _ => apply Z.ltb_ge in H
  | H : (_ <=? _) = true |- _ => apply Z.leb_le in H
  | H : (_ <=? _) = false |- _ => apply Z.leb_gt in H
  | H : (_ && _) = true |- _ => apply andb_prop in H as [? ?]
  | H : (_ || _) = false |- _ => apply orb_false_elim in H as [? ?]
  | H : negb _ = true |- _ => apply negb_true_iff in H
  | H : negb _ = false |- _ => apply negb_false_iff in H
  | H : bool_decide _ = true |- _ => apply bool_decide_eq_true_1 in H
  | H : bool_decide _ = false |- _ => apply bool_decide_eq_false_1 in H
  end.

(** * Step relations: reflexive-transitive closure and invariants *)

Section steps.
Context {St : Type} (step : St -> St -> Prop).

Inductive steps : St -> St -> Prop :=
| steps_refl s : steps s s
| steps_cons s1 s2 s3 : step s1 s2 -> steps s2 s3 -> steps s1 s3.

Lemma steps_trans s1 s2 s3 : steps s1 s2 -> steps s2 s3 -> steps s1 s3.
Proof. induction 1; [done|]. intros. econstructor; eauto. Qed.

Lemma steps_one s1 s2 : step s1 s2 -> steps s1 s2.
Proof. intros. econstructor; [done|]. constructor. Qed.

Lemma steps_inv (I : St -> Prop) s s' :
  (forall a b, I a -> step a b -> I b) -> I s -> steps s s' -> I s'.
Proof. intros Hp H0 Hs. induction Hs; eauto. Qed.
End steps.
#[export] Hint Constructors steps : kern.
