(* ===== verification/Uart.v ===== *)
(** uart.c: the NS16550a serial port.

    [RingBuf] is the 64-byte ring buffer with 16-bit free-running positions
    and its refinement to a bounded queue.  [Uart] is the driver: attach, open,
    close, read, write and the interrupt service routine.  [UartSteps] is the
    driver as a concurrent system: a thread filling and draining the ring
    buffers one memory access at a time, interrupted between any two of them
    by the interrupt service routine. *)

From S2P Require Import Prelude.

Module RingBuf.

Definition SERIAL_RBUFSZ : Z := 64.

Record ringbuf := mkRb { hpos : Z; tpos : Z; data : list Z }.

Definition rbuf_init (rb : ringbuf) : ringbuf :=
  {| hpos := 0; tpos := 0; data := data rb |}.

Definition rbuf_empty (rb : ringbuf) : bool := hpos rb =? tpos rb.

Definition rbuf_full (rb : ringbuf) : bool :=
  u16 (tpos rb - hpos rb) =? SERIAL_RBUFSZ.

(** [rbuf_put] is two memory writes, in this order: the data byte, then the
    tail position.  The compiler barrier between them keeps the order, and the
    interrupt service routine may run between them. *)
Definition rbuf_put_data (rb : ringbuf) (tp c : Z) : ringbuf :=
  {| hpos := hpos rb; tpos := tpos rb;
     data := <[Z.to_nat (tp mod SERIAL_RBUFSZ) := c]> (data rb) |}.
Definition rbuf_put_pos (rb : ringbuf) (tp : Z) : ringbuf :=
  {| hpos := hpos rb; tpos := u16 (tp + 1); data := data rb |}.
Definition rbuf_put (rb : ringbuf) (c : Z) : ringbuf :=
  let tp := tpos rb in
  rbuf_put_pos (rbuf_put_data rb tp c) tp.

(** [rbuf_get] is a read of the data byte, then a write of the head position. *)
Definition rbuf_get_data (rb : ringbuf) (hp : Z) : Z :=
  nth (Z.to_nat (hp mod SERIAL_RBUFSZ)) (data rb) 0.
Definition rbuf_get_pos (rb : ringbuf) (hp : Z) : ringbuf :=
  {| hpos := u16 (hp + 1); tpos := tpos rb; data := data rb |}.
Definition rbuf_get (rb : ringbuf) : Z * ringbuf :=
  let hp := hpos rb in
  (rbuf_get_data rb hp, rbuf_get_pos rb hp).

(** ** The bounded queue a ring buffer stands for *)

(** The slot that holds the [i]-th queued byte. *)
Definition slot (rb : ringbuf) (i : Z) : nat :=
  Z.to_nat ((hpos rb + i) mod SERIAL_RBUFSZ).

Record wf (rb : ringbuf) : Prop := {
  wf_h : 0 <= hpos rb < 65536;
  wf_t : 0 <= tpos rb < 65536;
  wf_len : length (data rb) = 64%nat;
  wf_cnt : u16 (tpos rb - hpos rb) <= SERIAL_RBUFSZ
}.

Definition count (rb : ringbuf) : Z := u16 (tpos rb - hpos rb).

(** The queue, oldest byte first. *)
Definition contents (rb : ringbuf) : list Z :=
  (fun i => nth (slot rb (Z.of_nat i)) (data rb) 0) <$> seq 0 (Z.to_nat (count rb)).

Lemma contents_length rb : length (contents rb) = Z.to_nat (count rb).
Proof. unfold contents. by rewrite length_fmap, length_seq. Qed.

Lemma contents_lookup rb i :
  (i < Z.to_nat (count rb))%nat ->
  contents rb !! i = Some (nth (slot rb (Z.of_nat i)) (data rb) 0).
Proof.
  intros. unfold contents. rewrite list_lookup_fmap.
  rewrite lookup_seq_lt by lia. simpl. done.
Qed.

Lemma count_range rb : 0 <= count rb < 65536.
Proof. apply u16_range. Qed.

Lemma rbuf_empty_spec rb : wf rb -> rbuf_empty rb = true <-> contents rb = [].
Proof.
  intros [Hh Ht _ _]. unfold rbuf_empty. rewrite <- length_zero_iff_nil, contents_length.
  unfold count. destruct (Z.eqb_spec (hpos rb) (tpos rb)); split; intros H;
    try done; wrap_lia.
Qed.

Lemma rbuf_full_spec rb :
  rbuf_full rb = true <-> length (contents rb) = Z.to_nat SERIAL_RBUFSZ.
Proof.
  rewrite contents_length. unfold rbuf_full. fold (count rb).
  pose proof (count_range rb). unfold SERIAL_RBUFSZ in *.
  destruct (Z.eqb_spec (count rb) 64); split; intros; try done; lia.
Qed.

Lemma rbuf_init_spec rb :
  length (data rb) = 64%nat -> wf (rbuf_init rb) /\ contents (rbuf_init rb) = [].
Proof. intros. split; [constructor; simpl; try lia; done | done]. Qed.

(** Slots of distinct queue indices below the capacity are distinct, also when
    the 16-bit positions have wrapped around. *)
Lemma slot_inj rb i j :
  0 <= i < 64 -> 0 <= j < 64 -> slot rb i = slot rb j -> i = j.
Proof. unfold slot, SERIAL_RBUFSZ. intros. wrap_lia. Qed.

Lemma slot_tail rb :
  wf rb -> Z.to_nat (tpos rb mod SERIAL_RBUFSZ) = slot rb (count rb).
Proof. intros [Hh Ht _ _]. unfold slot, count, SERIAL_RBUFSZ. wrap_lia. Qed.

Lemma slot_lt rb i : (slot rb i < 64)%nat.
Proof. unfold slot, SERIAL_RBUFSZ. wrap_lia. Qed.

(** Writing the byte of a pending put does not change the queue: the slot
    written is outside it. *)
Lemma put_data_contents rb c :
  wf rb -> count rb < SERIAL_RBUFSZ ->
  contents (rbuf_put_data rb (tpos rb) c) = contents rb.
Proof.
  intros Hwf Hc. apply list_eq. intros i.
  destruct (decide (i < Z.to_nat (count rb))%nat) as [Hi|Hi].
  - rewrite !contents_lookup by done. f_equal.
    unfold rbuf_put_data; simpl. rewrite slot_tail by done.
    unfold SERIAL_RBUFSZ in *. rewrite !nth_lookup.
    rewrite list_lookup_insert_ne; [done|].
    intros E. apply (slot_inj rb) in E; lia.
  - rewrite !lookup_ge_None_2; [done| |]; rewrite contents_length;
      unfold count in *; simpl in *; lia.
Qed.

Lemma put_data_wf rb tp c : wf rb -> wf (rbuf_put_data rb tp c).
Proof. intros [? ? ? ?]. constructor; simpl; try done. by rewrite length_insert. Qed.

Lemma put_wf rb c : wf rb -> count rb < SERIAL_RBUFSZ -> wf (rbuf_put rb c).
Proof.
  intros [? ? ? ?] Hc. unfold count, SERIAL_RBUFSZ in *.
  constructor; simpl; try done; try apply u16_range.
  - by rewrite length_insert.
  - unfold SERIAL_RBUFSZ. wrap_lia.
Qed.

Lemma put_contents rb c :
  wf rb -> count rb < SERIAL_RBUFSZ ->
  contents (rbuf_put rb c) = contents rb ++ [c].
Proof.
  intros Hwf Hc.
  assert (Ecnt : count (rbuf_put rb c) = count rb + 1).
  { destruct Hwf. unfold count, SERIAL_RBUFSZ in *; simpl. wrap_lia. }
  pose proof (count_range rb).
  apply list_eq. intros i.
  destruct (decide (i < Z.to_nat (count rb))%nat) as [Hi|Hi].
  - rewrite lookup_app_l by (rewrite contents_length; lia).
    rewrite <- (put_data_contents rb c) by done.
    rewrite !contents_lookup; [done | simpl; done | lia].
  - destruct (decide (i = Z.to_nat (count rb))) as [->|Hne].
    + rewrite lookup_app_r by (rewrite contents_length; lia).
      rewrite contents_length, Nat.sub_diag. simpl.
      rewrite contents_lookup by lia. f_equal.
      unfold rbuf_put, rbuf_put_pos, rbuf_put_data; simpl.
      rewrite slot_tail by done. rewrite Z2Nat.id by lia.
      rewrite nth_lookup. unfold slot at 1; simpl. fold (slot rb (count rb)).
      rewrite list_lookup_insert_eq; [done|].
      destruct Hwf as [_ _ -> _]. apply slot_lt.
    + rewrite !lookup_ge_None_2; [done| |];
        rewrite ?length_app, ?contents_length, ?Ecnt; simpl; lia.
Qed.

Lemma get_wf rb : wf rb -> 0 < count rb -> wf (rbuf_get rb).2.
Proof.
  intros [? ? ? ?] Hc. unfold count, SERIAL_RBUFSZ in *.
  constructor; simpl; try done; try apply u16_range.
  unfold SERIAL_RBUFSZ. wrap_lia.
Qed.

Lemma get_contents rb :
  wf rb -> 0 < count rb -> contents rb = (rbuf_get rb).1 :: contents (rbuf_get rb).2.
Proof.
  intros Hwf Hc.
  assert (Ecnt : count (rbuf_get rb).2 = count rb - 1).
  { destruct Hwf. unfold count, SERIAL_RBUFSZ in *; simpl. wrap_lia. }
  pose proof (count_range rb).
  apply list_eq. intros [|i]; simpl.
  - rewrite contents_lookup by lia. f_equal.
    unfold rbuf_get_data, slot. simpl. by rewrite Z.add_0_r.
  - destruct (decide (i < Z.to_nat (count rb - 1))%nat) as [Hi|Hi].
    + rewrite !contents_lookup; [|unfold rbuf_get in Ecnt; simpl in Ecnt; lia|lia].
      f_equal. simpl. f_equal. destruct Hwf.
      unfold slot, SERIAL_RBUFSZ; simpl. wrap_lia.
    + rewrite !lookup_ge_None_2; [done| |]; rewrite contents_length;
        unfold rbuf_get in Ecnt; simpl in Ecnt; lia.
Qed.

End RingBuf.

Module Uart.
Import RingBuf.

Definition EBUSY : Z := 2.
Definition LCR_DLAB : Z := Z.shiftl 1 7.
Definition LSR_OE : Z := Z.shiftl 1 1.
Definition LSR_DR : Z := Z.shiftl 1 0.
Definition LSR_THRE : Z := Z.shiftl 1 5.
Definition IER_DREIE : Z := Z.shiftl 1 0.
Definition IER_THREIE : Z := Z.shiftl 1 1.

(** The registers the driver writes.  [thr] is the sequence of bytes stored in
    the transmit holding register, oldest first.  The registers the driver
    reads ([lsr] and [rbr]) belong to the hardware and are arguments of the
    operations that read them. *)
Record uart_regs := mkRegs
  { ier : Z; lcr : Z; dll : Z; dlm : Z; thr : list Z }.

(** The two condition variables of a device. *)
Inductive uart_cond := rxbnotempty | txbnotfull.

(** [refcnt] is [io_intf.refcnt]; [irq_on] is whether the device's interrupt
    source is enabled (intr_enable_irq, intr_disable_irq); [signals] is the
    sequence of [condition_broadcast] calls, oldest first. *)
Record uart_device := mkDev {
  regs : uart_regs; irqno : Z; rxovrcnt : Z; refcnt : Z;
  rxbuf : ringbuf; txbuf : ringbuf;
  irq_on : bool; signals : list uart_cond
}.

Definition set_regs f d := mkDev (f (regs d)) (irqno d) (rxovrcnt d) (refcnt d)
  (rxbuf d) (txbuf d) (irq_on d) (signals d).
Definition set_ovr f d := mkDev (regs d) (irqno d) (f (rxovrcnt d)) (refcnt d)
  (rxbuf d) (txbuf d) (irq_on d) (signals d).
Definition set_refcnt x d := mkDev (regs d) (irqno d) (rxovrcnt d) x
  (rxbuf d) (txbuf d) (irq_on d) (signals d).
Definition set_rxbuf f d := mkDev (regs d) (irqno d) (rxovrcnt d) (refcnt d)
  (f (rxbuf d)) (txbuf d) (irq_on d) (signals d).
Definition set_txbuf f d := mkDev (regs d) (irqno d) (rxovrcnt d) (refcnt d)
  (rxbuf d) (f (txbuf d)) (irq_on d) (signals d).
Definition set_irq b d := mkDev (regs d) (irqno d) (rxovrcnt d) (refcnt d)
  (rxbuf d) (txbuf d) b (signals d).
Definition condition_broadcast c d := mkDev (regs d) (irqno d) (rxovrcnt d) (refcnt d)
  (rxbuf d) (txbuf d) (irq_on d) (signals d ++ [c]).

Definition set_ier f r := mkRegs (f (ier r)) (lcr r) (dll r) (dlm r) (thr r).
Definition set_lcr x r := mkRegs (ier r) x (dll r) (dlm r) (thr r).
Definition set_dll x r := mkRegs (ier r) (lcr r) x (dlm r) (thr r).
Definition set_dlm x r := mkRegs (ier r) (lcr r) (dll r) x (thr r).
Definition put_thr c r := mkRegs (ier r) (lcr r) (dll r) (dlm r) (thr r ++ [c]).

(** [dev->regs->ier |= m] and [dev->regs->ier &= ~m] on the 8-bit register. *)
Definition ier_or (m : Z) : uart_device -> uart_device :=
  set_regs (set_ier (fun x => u8 (Z.lor x m))).
Definition ier_andnot (m : Z) : uart_device -> uart_device :=
  set_regs (set_ier (fun x => Z.land x (u8 (Z.lnot m)))).

(** A device structure fresh from [kcalloc]. *)
Definition zero_rb : ringbuf := mkRb 0 0 (replicate 64 0).
Definition zero_dev (r : uart_regs) : uart_device :=
  mkDev r 0 0 0 zero_rb zero_rb false [].

(** What [uart_attach] stores in the new structure and in the registers; the
    allocation and the registrations are in [Attach]. *)
Definition uart_setup (r : uart_regs) (irq : Z) : uart_device :=
  let d0 := zero_dev r in
  let d1 := mkDev (regs d0) irq (rxovrcnt d0) (refcnt d0)
              (rbuf_init (rxbuf d0)) (rbuf_init (txbuf d0)) (irq_on d0) (signals d0) in
  let d2 := set_regs (set_ier (fun _ => 0)) d1 in
  let d3 := set_regs (set_lcr LCR_DLAB) d2 in
  let d4 := set_regs (set_dll 1) d3 in
  let d5 := set_regs (set_dlm 0) d4 in
  set_regs (set_lcr 0) d5.

Definition uart_open_ebusy : Z := - EBUSY.

(** Returns the result code; the interface pointer is handed out exactly when
    it is 0. *)
Definition uart_open (d : uart_device) : Z * uart_device :=
  if negb (refcnt d =? 0) then (- EBUSY, d)
  else
    let d1 := set_txbuf rbuf_init (set_rxbuf rbuf_init d) in
    let d2 := set_regs (set_ier (fun _ => IER_DREIE)) d1 in
    let d3 := set_irq true d2 in
    (0, set_refcnt 1 d3).

Definition uart_close (d : uart_device) : uart_device :=
  set_irq false (set_regs (set_ier (fun _ => 0)) d).

(** [while (!rbuf_empty(&dev->rxbuf) && p - buf < bufsz) *p++ = rbuf_get(...)],
    with [k] bytes already in the buffer. *)
Fixpoint drain (fuel : nat) (rb : ringbuf) (k bufsz : Z) : list Z * ringbuf :=
  match fuel with
  | O => ([], rb)
  | S fuel' =>
      if negb (rbuf_empty rb) && (k <? bufsz) then
        let '(c, rb1) := rbuf_get rb in
        let '(cs, rb2) := drain fuel' rb1 (k + 1) bufsz in
        (c :: cs, rb2)
      else ([], rb)
  end.

(** A call that cannot proceed sleeps on a condition variable and evaluates
    its wait loop again when it is woken. *)
Inductive uart_result :=
| Wait (c : uart_cond)
| Done (ret : Z) (bytes : list Z) (d : uart_device).

Definition uart_read (d : uart_device) (bufsz0 : Z) : uart_result :=
  let bufsz := if LONG_MAX <? bufsz0 then LONG_MAX else bufsz0 in
  if bufsz =? 0 then Done 0 [] d
  else if rbuf_empty (rxbuf d) then Wait rxbnotempty
  else
    let '(cs, rb) := drain (Z.to_nat (count (rxbuf d))) (rxbuf d) 0 bufsz in
    let d1 := set_rxbuf (fun _ => rb) d in
    Done (Z.of_nat (length cs)) cs (ier_or IER_DREIE d1).

(** [while (!rbuf_full(&dev->txbuf) && p - buf < n) rbuf_put(..., *p++)]: the
    bytes left over and the new ring buffer. *)
Fixpoint fill (rb : ringbuf) (bs : list Z) : list Z * ringbuf :=
  match bs with
  | [] => ([], rb)
  | c :: bs' => if rbuf_full rb then (bs, rb) else fill (rbuf_put rb c) bs'
  end.

(** One round of the outer loop of [uart_write] with the bytes [bs] still to
    be queued: [None] means it sleeps on [txbnotfull]. *)
Definition uart_write_round (d : uart_device) (bs : list Z)
  : option (list Z * uart_device) :=
  if rbuf_full (txbuf d) then None
  else
    let '(rest, rb) := fill (txbuf d) bs in
    Some (rest, ier_or IER_THREIE (set_txbuf (fun _ => rb) d)).

(** The interrupt service routine, in the three parts of its body; [lsr] is the
    line status register it reads on entry and [rbr] the byte in the receive
    buffer register. *)
Definition isr_overrun (lsr : Z) (d : uart_device) : uart_device :=
  if negb (Z.land lsr LSR_OE =? 0) then set_ovr (fun n => u32 (n + 1)) d else d.

Definition isr_receive (lsr rbr : Z) (d : uart_device) : uart_device :=
  if negb (Z.land lsr LSR_DR =? 0) then
    if negb (rbuf_full (rxbuf d)) then
      let d1 := if rbuf_empty (rxbuf d) then condition_broadcast rxbnotempty d else d in
      set_rxbuf (fun rb => rbuf_put rb rbr) d1
    else ier_andnot IER_DREIE d
  else d.

Definition isr_transmit (lsr : Z) (d : uart_device) : uart_device :=
  if negb (Z.land lsr LSR_THRE =? 0) then
    if negb (rbuf_empty (txbuf d)) then
      let d1 := if rbuf_full (txbuf d) then condition_broadcast txbnotfull d else d in
      let '(c, rb) := rbuf_get (txbuf d1) in
      set_regs (put_thr c) (set_txbuf (fun _ => rb) d1)
    else ier_andnot IER_THREIE d
  else d.

Definition uart_isr (lsr rbr : Z) (d : uart_device) : uart_device :=
  isr_transmit lsr (isr_receive lsr rbr (isr_overrun lsr d)).

(** ** Lemmas *)

Definition dev_wf (d : uart_device) : Prop := wf (rxbuf d) /\ wf (txbuf d).

Lemma not_full_count rb : wf rb -> rbuf_full rb = false -> count rb < SERIAL_RBUFSZ.
Proof.
  intros [_ _ _ H] Hf. unfold rbuf_full in Hf. fold (count rb) in *. zbool.
  unfold count in *. lia.
Qed.

Lemma not_empty_count rb : wf rb -> rbuf_empty rb = false -> 0 < count rb.
Proof.
  intros [Hh Ht _ _] He. unfold rbuf_empty in He. zbool.
  unfold count. wrap_lia.
Qed.
#[export] Hint Resolve not_full_count not_empty_count put_wf get_wf : kern.

Lemma fill_spec bs rb :
  wf rb ->
  let '(rest, rb') := fill rb bs in
  wf rb' /\ contents rb' ++ rest = contents rb ++ bs /\
  (rest = [] \/ rbuf_full rb' = true).
Proof.
  revert rb. induction bs as [|c bs IH]; intros rb Hwf; simpl.
  - by auto.
  - destruct (rbuf_full rb) eqn:Hf; [by auto|].
    assert (Hc : count rb < SERIAL_RBUFSZ) by eauto with kern.
    specialize (IH (rbuf_put rb c) (put_wf rb c Hwf Hc)).
    destruct (fill (rbuf_put rb c) bs) as [rest rb'].
    destruct IH as (? & E & ?). split_and!; [done| |done].
    rewrite E, put_contents by done. by rewrite <- app_assoc.
Qed.

Lemma drain_spec fuel rb k bufsz :
  wf rb -> (Z.to_nat (count rb) <= fuel)%nat ->
  let '(cs, rb') := drain fuel rb k bufsz in
  wf rb' /\ contents rb = cs ++ contents rb' /\
  Z.of_nat (length cs) = Z.min (count rb) (Z.max 0 (bufsz - k)).
Proof.
  revert rb k. induction fuel as [|fuel IH]; intros rb k Hwf Hfuel; simpl.
  - pose proof (count_range rb). split_and!; [done..|simpl; lia].
  - destruct (rbuf_empty rb) eqn:He; simpl.
    + apply rbuf_empty_spec in He as He'; [|done].
      pose proof (contents_length rb) as L. rewrite He' in L. simpl in L.
      pose proof (count_range rb). split_and!; [done..|simpl; lia].
    + assert (Hc : 0 < count rb) by eauto with kern.
      destruct (Z.ltb_spec k bufsz); simpl.
      * pose proof (get_contents rb Hwf Hc) as Eg.
        pose proof (contents_length rb) as L1.
        pose proof (contents_length (rbuf_get rb).2) as L2.
        pose proof (f_equal (@length Z) Eg) as L3. simpl in L2, L3, Eg.
        pose proof (count_range (rbuf_get_pos rb (hpos rb))).
        specialize (IH (rbuf_get rb).2 (k + 1) (get_wf rb Hwf Hc)). simpl in IH.
        destruct (drain fuel _ (k + 1) bufsz) as [cs rb2].
        destruct IH as (? & E & ?); [lia|]. split_and!; [done| |simpl; lia].
        by rewrite Eg, E.
      * pose proof (count_range rb). split_and!; [done..|simpl; lia].
Qed.

Lemma empty_not_full rb : wf rb -> rbuf_empty rb = true -> rbuf_full rb = false.
Proof.
  intros Hwf He. apply rbuf_empty_spec in He; [|done].
  destruct (rbuf_full rb) eqn:Hf; [|done].
  apply rbuf_full_spec in Hf. by rewrite He in Hf.
Qed.

Lemma isr_overrun_frame lsr d :
  rxbuf (isr_overrun lsr d) = rxbuf d /\ txbuf (isr_overrun lsr d) = txbuf d /\
  signals (isr_overrun lsr d) = signals d /\ regs (isr_overrun lsr d) = regs d.
Proof. unfold isr_overrun. by casesplit. Qed.

Lemma isr_receive_spec lsr rbr d :
  wf (rxbuf d) ->
  let d' := isr_receive lsr rbr d in
  let rx := negb (Z.land lsr LSR_DR =? 0) in
  wf (rxbuf d') /\
  contents (rxbuf d') =
    contents (rxbuf d) ++ (if rx && negb (rbuf_full (rxbuf d)) then [rbr] else []) /\
  txbuf d' = txbuf d /\ thr (regs d') = thr (regs d) /\
  signals d' = signals d ++ (if rx && rbuf_empty (rxbuf d) then [rxbnotempty] else []).
Proof.
  intros Hwf d' rx. subst d'. unfold isr_receive. fold rx.
  destruct rx; simpl; [|by rewrite !app_nil_r].
  destruct (rbuf_full (rxbuf d)) eqn:Hf; simpl.
  - destruct (rbuf_empty (rxbuf d)) eqn:He; simpl; [|by rewrite !app_nil_r].
    by rewrite (empty_not_full _ Hwf He) in Hf.
  - assert (Hc : (count (rxbuf d) < SERIAL_RBUFSZ)) by eauto with kern.
    destruct (rbuf_empty (rxbuf d)) eqn:He; simpl; rewrite ?app_nil_r;
      split_and!; try done; by apply put_wf || by apply put_contents.
Qed.

Lemma isr_transmit_spec lsr d :
  wf (txbuf d) ->
  let d' := isr_transmit lsr d in
  let tx := negb (Z.land lsr LSR_THRE =? 0) in
  wf (txbuf d') /\ rxbuf d' = rxbuf d /\
  thr (regs d') ++ contents (txbuf d') = thr (regs d) ++ contents (txbuf d) /\
  length (contents (txbuf d')) =
    (length (contents (txbuf d)) - (if tx then 1 else 0))%nat /\
  signals d' = signals d ++ (if tx && rbuf_full (txbuf d) then [txbnotfull] else []).
Proof.
  intros Hwf d' tx. subst d'. unfold isr_transmit. fold tx.
  destruct tx; simpl; [|by rewrite app_nil_r, Nat.sub_0_r].
  destruct (rbuf_empty (txbuf d)) eqn:He; simpl.
  - rewrite (empty_not_full _ Hwf He), app_nil_r.
    apply rbuf_empty_spec in He; [|done]. by rewrite He.
  - assert (Hc : 0 < count (txbuf d)) by eauto with kern.
    pose proof (get_contents (txbuf d) Hwf Hc) as Eg.
    destruct (rbuf_full (txbuf d)) eqn:Hf; simpl; rewrite ?app_nil_r;
      (split_and!; try done;
       [by apply (get_wf (txbuf d))
       |rewrite Eg, <- app_assoc; done
       |rewrite Eg; simpl; lia]).
Qed.

Lemma uart_isr_spec (lsr rbr : Z) (d : uart_device) (Hwf : dev_wf d) :
  let d' := uart_isr lsr rbr d in
  let rx := negb (Z.land lsr LSR_DR =? 0) in
  let tx := negb (Z.land lsr LSR_THRE =? 0) in
  dev_wf d' /\
  contents (rxbuf d') =
    contents (rxbuf d) ++ (if rx && negb (rbuf_full (rxbuf d)) then [rbr] else []) /\
  thr (regs d') ++ contents (txbuf d') = thr (regs d) ++ contents (txbuf d) /\
  length (contents (txbuf d')) =
    (length (contents (txbuf d)) - (if tx then 1 else 0))%nat /\
  signals d' = signals d
    ++ (if rx && rbuf_empty (rxbuf d) then [rxbnotempty] else [])
    ++ (if tx && rbuf_full (txbuf d) then [txbnotfull] else []).
Proof.
  destruct Hwf as [Hr Ht]. intros d' rx tx.
  destruct (isr_overrun_frame lsr d) as (Er & Et & Es & Eg).
  destruct (isr_receive_spec lsr rbr (isr_overrun lsr d)) as (Hr2 & Ec2 & Et2 & Eh2 & Es2);
    [by rewrite Er|].
  destruct (isr_transmit_spec lsr (isr_receive lsr rbr (isr_overrun lsr d)))
    as (Ht3 & Er3 & Eh3 & El3 & Es3); [by rewrite Et2, Et|].
  subst d'. unfold dev_wf, uart_isr.
  rewrite Er3, Ec2, Eh3, El3, Es3, Es2, Eh2, Et2, Er, Et, Es, Eg.
  by rewrite <- app_assoc.
Qed.

(** ** Results *)

(** [uart_isr] on every branch, for a device whose ring buffers are well
    formed: a received byte is appended to the receive queue exactly when the
    data-ready bit is set and there is room (and the readers are signalled
    exactly when the queue was empty), otherwise the queue is unchanged and a
    full queue turns the receive interrupt off; the oldest byte of the transmit
    queue goes to the transmit register exactly when the transmitter is empty
    and the queue is not (and the writers are signalled exactly when it was
    full). *)
Theorem uart_isr_branches (lsr rbr : Z) (d : uart_device) (Hwf : dev_wf d) :
  let d' := uart_isr lsr rbr d in
  let rx := negb (Z.land lsr LSR_DR =? 0) in
  let tx := negb (Z.land lsr LSR_THRE =? 0) in
  dev_wf d' /\
  contents (rxbuf d') =
    contents (rxbuf d) ++ (if rx && negb (rbuf_full (rxbuf d)) then [rbr] else []) /\
  thr (regs d') ++ contents (txbuf d') = thr (regs d) ++ contents (txbuf d) /\
  length (contents (txbuf d')) =
    (length (contents (txbuf d)) - (if tx then 1 else 0))%nat /\
  signals d' = signals d
    ++ (if rx && rbuf_empty (rxbuf d) then [rxbnotempty] else [])
    ++ (if tx && rbuf_full (txbuf d) then [txbnotfull] else []).
Proof. by apply uart_isr_spec. Qed.

Lemma uart_isr_branches_witness :
  let d := mkDev (mkRegs 3 0 1 0 []) 11 0 1 (mkRb 65535 65535 (replicate 64 0))
             (mkRb 65535 63 (replicate 64 7)) true [] in
  dev_wf d /\ signals (uart_isr 33 65 d) = [rxbnotempty; txbnotfull].
Proof.
  intros d.
  assert (H : dev_wf d).
  { split; constructor; simpl; try lia; try done; vm_compute; congruence. }
  split; [exact H|].
  destruct (uart_isr_branches 33 65 d H) as (_ & _ & _ & _ & E). exact E.
Defined.

(** [uart_read] on every branch: a zero-byte read returns at once; an empty
    receive queue makes the caller sleep on [rxbnotempty]; otherwise it returns
    the oldest [min(count, bufsz)] bytes, at least one, in order, leaves the
    others queued, and turns the receive interrupt on. *)
Theorem uart_read_spec (d : uart_device) (bufsz : Z) (Hwf : dev_wf d) (Hb : 0 <= bufsz) :
  match uart_read d bufsz with
  | Wait c => c = rxbnotempty /\ contents (rxbuf d) = [] /\ bufsz <> 0
  | Done ret bytes d' =>
      ret = Z.of_nat (length bytes) /\ dev_wf d' /\
      ret = (if bufsz =? 0 then 0
             else Z.min (Z.of_nat (length (contents (rxbuf d)))) (Z.min bufsz LONG_MAX)) /\
      (bufsz <> 0 -> 0 < ret /\ Z.testbit (ier (regs d')) 0 = true) /\
      contents (rxbuf d) = bytes ++ contents (rxbuf d')
  end.
Proof.
  destruct Hwf as [Hr Ht]. unfold uart_read.
  set (n := if LONG_MAX <? bufsz then LONG_MAX else bufsz).
  assert (En : n = Z.min bufsz LONG_MAX) by (subst n; casesplit; zbool; lia).
  assert (Hn0 : (n =? 0) = (bufsz =? 0)) by (unfold LONG_MAX in *; lia).
  rewrite Hn0. destruct (Z.eqb_spec bufsz 0) as [->|Hne]; [done|].
  destruct (rbuf_empty (rxbuf d)) eqn:He.
  - apply rbuf_empty_spec in He; done.
  - pose proof (drain_spec (Z.to_nat (count (rxbuf d))) (rxbuf d) 0 n Hr) as D.
    destruct (drain _ _ 0 n) as [cs rb]. destruct D as (Hwf' & Ec & El); [lia|].
    assert (Hc : 0 < count (rxbuf d)) by eauto with kern.
    rewrite contents_length. unfold LONG_MAX in *. split_and!; try done; [lia|].
    intros _. split; [lia|]. cbn [ier regs ier_or set_regs set_ier set_rxbuf].
    unfold u8. change 256 with (2 ^ 8).
    rewrite Z.mod_pow2_bits_low by lia.
    rewrite Z.lor_spec. apply orb_true_r.
Qed.

Lemma uart_read_spec_witness :
  let d := mkDev (mkRegs 0 0 1 0 []) 11 0 1 (mkRb 65535 2 (replicate 64 7)) zero_rb true [] in
  match uart_read d 2 with
  | Done ret bytes _ => ret = 2 /\ bytes = [7; 7]
  | Wait _ => False
  end.
Proof.
  intros d.
  assert (H : dev_wf d) by (split; constructor; simpl; try lia; try done; vm_compute; congruence).
  pose proof (uart_read_spec d 2 H ltac:(lia)) as P.
  vm_compute in P |- *. tauto.
Defined.

(** A port that has been opened and closed cannot be opened again:
    [uart_close] leaves the reference count at one, so every later [uart_open]
    answers -EBUSY and changes nothing. *)
Theorem uart_reopen_ebusy (d : uart_device) (Hfree : refcnt d = 0) :
  (uart_open d).1 = 0 /\
  uart_open (uart_close (uart_open d).2) = (- EBUSY, uart_close (uart_open d).2).
Proof. unfold uart_open. rewrite Hfree. done. Qed.

Lemma uart_reopen_ebusy_witness :
  (uart_open (uart_close (uart_open (zero_dev (mkRegs 0 0 0 0 []))).2)).1 = -2.
Proof. by rewrite (proj2 (uart_reopen_ebusy (zero_dev (mkRegs 0 0 0 0 [])) eq_refl)). Defined.

End Uart.

Module UartSteps.
Import RingBuf Uart.

(** Where a thread is inside [uart_write], with the bytes it has still to queue
    ([WIdle]: not inside).  [WTop] is the head of the outer loop, [WFill] the
    head of the inner loop, [WGo] after its test has succeeded, [WPut] inside
    [rbuf_put] between the two stores, [WKick] after the inner loop. *)
Inductive wpc :=
| WIdle
| WTop (rest : list Z)
| WFill (rest : list Z)
| WGo (c : Z) (rest : list Z)
| WPut (tp c : Z) (rest : list Z)
| WKick (rest : list Z).

(** Where a thread is inside [uart_read], with the room left in its buffer. *)
Inductive rpc :=
| RIdle
| RTop (k : Z)
| RDrain (k : Z)
| RGo (k : Z)
| RGet (hp c k : Z)
| RKick.

(** [requested]: every byte passed to [uart_write] so far; [accepted]: every
    byte the interrupt routine put in the receive buffer; [delivered]: every
    byte stored in a reader's buffer. *)
Record sys := mkSys {
  dev : uart_device; w : wpc; r : rpc;
  requested : list Z; accepted : list Z; delivered : list Z
}.

Inductive step : sys -> sys -> Prop :=
| w_call d rp q a l bs :
    step (mkSys d WIdle rp q a l) (mkSys d (WTop bs) rp (q ++ bs) a l)
| w_return d rp q a l :
    step (mkSys d (WTop []) rp q a l) (mkSys d WIdle rp q a l)
| w_top d rp q a l c rest :
    rbuf_full (txbuf d) = false ->
    step (mkSys d (WTop (c :: rest)) rp q a l) (mkSys d (WFill (c :: rest)) rp q a l)
| w_test d rp q a l c rest :
    rbuf_full (txbuf d) = false ->
    step (mkSys d (WFill (c :: rest)) rp q a l) (mkSys d (WGo c rest) rp q a l)
| w_exit d rp q a l rest :
    rbuf_full (txbuf d) = true \/ rest = [] ->
    step (mkSys d (WFill rest) rp q a l) (mkSys d (WKick rest) rp q a l)
| w_data d rp q a l c rest :
    step (mkSys d (WGo c rest) rp q a l)
         (mkSys (set_txbuf (fun rb => rbuf_put_data rb (tpos rb) c) d)
                (WPut (tpos (txbuf d)) c rest) rp q a l)
| w_pos d rp q a l tp c rest :
    step (mkSys d (WPut tp c rest) rp q a l)
         (mkSys (set_txbuf (fun rb => rbuf_put_pos rb tp) d) (WFill rest) rp q a l)
| w_kick d rp q a l rest :
    step (mkSys d (WKick rest) rp q a l)
         (mkSys (ier_or IER_THREIE d) (WTop rest) rp q a l)
| r_call d wp q a l k :
    0 < k ->
    step (mkSys d wp RIdle q a l) (mkSys d wp (RTop k) q a l)
| r_top d wp q a l k :
    rbuf_empty (rxbuf d) = false ->
    step (mkSys d wp (RTop k) q a l) (mkSys d wp (RDrain k) q a l)
| r_test d wp q a l k :
    rbuf_empty (rxbuf d) = false -> 0 < k ->
    step (mkSys d wp (RDrain k) q a l) (mkSys d wp (RGo k) q a l)
| r_exit d wp q a l k :
    rbuf_empty (rxbuf d) = true \/ k <= 0 ->
    step (mkSys d wp (RDrain k) q a l) (mkSys d wp RKick q a l)
| r_data d wp q a l k :
    step (mkSys d wp (RGo k) q a l)
         (mkSys d wp (RGet (hpos (rxbuf d)) (rbuf_get_data (rxbuf d) (hpos (rxbuf d))) k)
                q a l)
| r_pos d wp q a l hp c k :
    step (mkSys d wp (RGet hp c k) q a l)
         (mkSys (set_rxbuf (fun rb => rbuf_get_pos rb hp) d) wp (RDrain (k - 1))
                q a (l ++ [c]))
| r_kick d wp q a l :
    step (mkSys d wp RKick q a l) (mkSys (ier_or IER_DREIE d) wp RIdle q a l)
| isr d wp rp q a l lsr rbr :
    step (mkSys d wp rp q a l)
         (mkSys (uart_isr lsr rbr d) wp rp q
            (a ++ if negb (Z.land lsr LSR_DR =? 0) && negb (rbuf_full (rxbuf d))
                  then [rbr] else []) l).

(** The bytes of the current [uart_write] call that are not yet in the queue. *)
Definition pending (wp : wpc) : list Z :=
  match wp with
  | WIdle => []
  | WTop rest | WFill rest | WKick rest => rest
  | WGo c rest | WPut _ c rest => c :: rest
  end.

Definition w_ok (rb : ringbuf) (wp : wpc) : Prop :=
  match wp with
  | WGo _ _ => count rb < SERIAL_RBUFSZ
  | WPut tp c _ => count rb < SERIAL_RBUFSZ /\ tp = tpos rb /\
                   data rb !! Z.to_nat (tp mod SERIAL_RBUFSZ) = Some c
  | _ => True
  end.

Definition r_ok (rb : ringbuf) (rp : rpc) : Prop :=
  match rp with
  | RGo _ => 0 < count rb
  | RGet hp c _ => 0 < count rb /\ hp = hpos rb /\ c = rbuf_get_data rb hp
  | _ => True
  end.

Record inv (s : sys) : Prop := {
  inv_wf : dev_wf (dev s);
  inv_tx : thr (regs (dev s)) ++ contents (txbuf (dev s)) ++ pending (w s) = requested s;
  inv_rx : delivered s ++ contents (rxbuf (dev s)) = accepted s;
  inv_w : w_ok (txbuf (dev s)) (w s);
  inv_r : r_ok (rxbuf (dev s)) (r s)
}.

(** The store of the tail position completes the put that the store of the
    byte began. *)
Lemma put_pos_after rb c :
  wf rb -> data rb !! Z.to_nat (tpos rb mod SERIAL_RBUFSZ) = Some c ->
  rbuf_put_pos rb (tpos rb) = rbuf_put rb c.
Proof.
  intros Hwf Hd. unfold rbuf_put, rbuf_put_pos, rbuf_put_data; simpl.
  by rewrite list_insert_id.
Qed.

(** The interrupt routine only removes from the transmit queue, so a writer
    that saw room still has room, and the byte it stored is still there. *)
Lemma isr_w_ok lsr rbr d wp :
  dev_wf d -> w_ok (txbuf d) wp -> w_ok (txbuf (uart_isr lsr rbr d)) wp.
Proof.
  intros [Hr Ht] Hw. unfold uart_isr, isr_transmit.
  destruct (isr_overrun_frame lsr d) as (Er & Et & _ & _).
  destruct (isr_receive_spec lsr rbr (isr_overrun lsr d)) as (_ & _ & Et2 & _ & _);
    [by rewrite Er|].
  rewrite Et in Et2. rewrite Et2.
  set (d2 := isr_receive lsr rbr (isr_overrun lsr d)) in *.
  destruct (negb (Z.land lsr LSR_THRE =? 0)); [|by rewrite Et2].
  destruct (rbuf_empty (txbuf d)) eqn:He; [by simpl; rewrite Et2|].
  assert (Hc : 0 < count (txbuf d)) by eauto with kern. simpl.
  assert (Hlt : count (rbuf_get (txbuf d)).2 = count (txbuf d) - 1).
  { destruct Ht. unfold count, SERIAL_RBUFSZ in *; simpl. wrap_lia. }
  assert (G : w_ok (rbuf_get (txbuf d)).2 wp).
  { destruct wp; simpl in *; try done; [lia|].
    destruct Hw as (? & -> & ?). split_and!; [lia|done|done]. }
  destruct (rbuf_full (txbuf d)); simpl; rewrite Et2; exact G.
Qed.

(** The interrupt routine only appends to the receive queue, so the byte a
    reader has taken is still the oldest one. *)
Lemma isr_r_ok lsr rbr d rp :
  dev_wf d -> r_ok (rxbuf d) rp -> r_ok (rxbuf (uart_isr lsr rbr d)) rp.
Proof.
  intros [Hr Ht] Hp.
  destruct (isr_overrun_frame lsr d) as (Er & Et & _ & _).
  destruct (isr_receive_spec lsr rbr (isr_overrun lsr d)) as (Hr2 & Ec & Et2 & _ & _);
    [by rewrite Er|].
  destruct (isr_transmit_spec lsr (isr_receive lsr rbr (isr_overrun lsr d)))
    as (_ & Er3 & _ & _ & _); [by rewrite Et2, Et|].
  unfold uart_isr. rewrite Er3. rewrite Er in Ec.
  assert (Hh : hpos (rxbuf (isr_receive lsr rbr (isr_overrun lsr d))) = hpos (rxbuf d)).
  { unfold isr_receive. repeat casesplit; simpl; by rewrite ?Er. }
  set (rb' := rxbuf (isr_receive lsr rbr (isr_overrun lsr d))) in *.
  pose proof (f_equal (@length Z) Ec) as L.
  rewrite length_app, !contents_length in L.
  pose proof (count_range rb'). pose proof (count_range (rxbuf d)).
  destruct rp as [| | |k|hp c k|]; simpl in *; try done; [lia|].
  destruct Hp as (Hc & -> & ->). split_and!; [lia|done|].
  assert (Hc' : 0 < count rb') by lia.
  rewrite (get_contents rb' Hr2 Hc'), (get_contents (rxbuf d) Hr Hc) in Ec.
  simpl in Ec. rewrite Hh in Ec. by injection Ec.
Qed.

Lemma inv_step s s' : inv s -> step s s' -> inv s'.
Proof.
  intros [[Hr Ht] Htx Hrx Hw Hrd] Hs. destruct Hs; simpl in *.
  all: try (constructor; simpl; try done; try (split; done); fail).
  - constructor; simpl; try done. rewrite <- Htx, <- !app_assoc. done.
  - constructor; simpl; try done. eauto with kern.
  - (* the byte is stored *)
    constructor; simpl; try done.
    + split; [done|]. by apply put_data_wf.
    + by rewrite put_data_contents.
    + split_and!; [done|done|].
      apply list_lookup_insert_eq. rewrite slot_tail, wf_len by done. apply slot_lt.
  - (* the tail position is stored *)
    destruct Hw as (Hc & -> & Hd).
    constructor; simpl; try done.
    + split; [done|]. simpl. rewrite (put_pos_after _ c) by done. by apply put_wf.
    + rewrite (put_pos_after _ c), put_contents by done. rewrite <- !app_assoc in *. exact Htx.
  - constructor; simpl; try done. eauto with kern.
  - destruct Hrd as (Hc & -> & ->).
    change (rbuf_get_pos (rxbuf d) (hpos (rxbuf d))) with (rbuf_get (rxbuf d)).2.
    constructor; simpl; try done.
    + split; [|done]. by apply (get_wf (rxbuf d)).
    + rewrite (get_contents (rxbuf d) Hr Hc) in Hrx. simpl in Hrx.
      by rewrite <- app_assoc.
  - (* an interrupt *)
    destruct (uart_isr_spec lsr rbr d) as (Hwf' & Ec & Eh & _ & _); [by split|].
    constructor; simpl; [done| | | |].
    + rewrite app_assoc, Eh, <- app_assoc. done.
    + rewrite Ec, app_assoc, Hrx. done.
    + apply isr_w_ok; done.
    + apply isr_r_ok; done.
Qed.

(** A device just opened, with no call in progress. *)
Definition initial (d : uart_device) : sys := mkSys d WIdle RIdle [] [] [].

Lemma inv_initial d :
  dev_wf d -> contents (txbuf d) = [] -> contents (rxbuf d) = [] -> thr (regs d) = [] ->
  inv (initial d).
Proof. intros. constructor; simpl; try done. by rewrite H0, H2. Qed.

Lemma inv_reachable d s :
  dev_wf d -> contents (txbuf d) = [] -> contents (rxbuf d) = [] -> thr (regs d) = [] ->
  steps step (initial d) s -> inv s.
Proof. intros. eapply (steps_inv _ inv); eauto using inv_step, inv_initial. Qed.

(** ** Results *)

(** C14. Transmission loses, duplicates and reorders nothing: in every state the
    driver can reach after an open, whatever the interleaving of the writing
    thread's memory accesses with interrupts, the bytes sent to the port,
    followed by the bytes in the transmit ring buffer, followed by the bytes
    the call in progress has not queued yet, are exactly the bytes passed to
    [uart_write], in order.  In particular, once no call is in progress and the
    buffer is empty, exactly the bytes requested have been sent. *)
Theorem uart_tx_fifo (d : uart_device) (s : sys)
    (Hwf : dev_wf d) (Htx : contents (txbuf d) = []) (Hrx : contents (rxbuf d) = [])
    (Hthr : thr (regs d) = []) (Hs : steps step (initial d) s) :
  thr (regs (dev s)) ++ contents (txbuf (dev s)) ++ pending (w s) = requested s /\
  (w s = WIdle -> rbuf_empty (txbuf (dev s)) = true -> thr (regs (dev s)) = requested s).
Proof.
  destruct (inv_reachable d s) as [[_ Ht] Hinv _ _ _]; try done.
  split; [done|]. intros Hidle He. rewrite Hidle in Hinv. simpl in Hinv.
  apply rbuf_empty_spec in He; [|done]. by rewrite He, !app_nil_r in Hinv.
Qed.

(** C26. Reception loses, duplicates and reorders nothing the interrupt routine
    accepted: in every reachable state the bytes delivered to readers followed
    by the bytes in the receive ring buffer are the accepted bytes, in order,
    and the ring buffer never holds more than its 64 bytes. *)
Theorem uart_rx_fifo (d : uart_device) (s : sys)
    (Hwf : dev_wf d) (Htx : contents (txbuf d) = []) (Hrx : contents (rxbuf d) = [])
    (Hthr : thr (regs d) = []) (Hs : steps step (initial d) s) :
  delivered s ++ contents (rxbuf (dev s)) = accepted s /\
  (length (contents (rxbuf (dev s))) <= 64)%nat.
Proof.
  destruct (inv_reachable d s) as [[Hr _] _ Hinv _ _]; try done.
  split; [done|]. rewrite contents_length. destruct Hr as [_ _ _ Hc].
  fold (count (rxbuf (dev s))) in Hc. unfold SERIAL_RBUFSZ in Hc. lia.
Qed.

(** The inner loop of an uninterrupted [uart_write] is [fill]. *)
Lemma fill_steps bs d rp q a l :
  let '(rest, rb) := fill (txbuf d) bs in
  steps step (mkSys d (WFill bs) rp q a l)
             (mkSys (set_txbuf (fun _ => rb) d) (WKick rest) rp q a l).
Proof.
  revert d. induction bs as [|c bs IH]; intros d; simpl.
  - destruct d; simpl. apply steps_one. apply w_exit. by right.
  - destruct (rbuf_full (txbuf d)) eqn:Hf.
    + destruct d; simpl in *. apply steps_one. apply w_exit. by left.
    + specialize (IH (set_txbuf (fun rb => rbuf_put rb c) d)). simpl in IH.
      destruct (fill (rbuf_put (txbuf d) c) bs) as [rest rb].
      eapply steps_cons; [by apply w_test|].
      eapply steps_cons; [apply w_data|].
      eapply steps_cons; [apply w_pos|]. exact IH.
Qed.

(** The sequential reading of [uart_write] is one of the runs of the
    concurrent system: whenever a round of its loop does not have to sleep and
    has bytes to queue, the system has the run without interrupts that performs
    exactly that round. *)
Theorem uart_write_round_run (d d' : uart_device) (bs rest : list Z) (rp : rpc)
    (q a l : list Z) (Hne : bs <> []) (Hrun : uart_write_round d bs = Some (rest, d')) :
  steps step (mkSys d (WTop bs) rp q a l) (mkSys d' (WTop rest) rp q a l).
Proof.
  unfold uart_write_round in Hrun.
  destruct (rbuf_full (txbuf d)) eqn:Hf; [done|].
  pose proof (fill_steps bs d rp q a l) as F.
  destruct (fill (txbuf d) bs) as [rest' rb]. simplify_eq.
  destruct bs as [|c bs]; [done|].
  eapply steps_cons; [by apply w_top|].
  eapply steps_trans; [exact F|]. apply steps_one, w_kick.
Qed.

(** A run used by the witnesses: the port is opened, one byte is written, and
    an interrupt arrives between the two stores of [rbuf_put], delivering a
    received byte and finding nothing to transmit. *)
Definition demo_dev : uart_device :=
  mkDev (mkRegs IER_DREIE 0 1 0 []) 11 0 1 zero_rb zero_rb true [].

Definition demo_end : sys :=
  let d1 := set_txbuf (fun rb => rbuf_put_data rb (tpos rb) 88) demo_dev in
  let d2 := uart_isr 33 65 d1 in
  let d3 := set_txbuf (fun rb => rbuf_put_pos rb 0) d2 in
  mkSys d3 (WFill []) RIdle [88] [65] [].

Lemma demo_run : steps step (initial demo_dev) demo_end.
Proof.
  eapply steps_cons; [apply (w_call _ _ _ _ _ [88])|].
  eapply steps_cons; [by apply w_top|].
  eapply steps_cons; [by apply w_test|].
  eapply steps_cons; [apply w_data|].
  eapply steps_cons; [apply (isr _ _ _ _ _ _ 33 65)|].
  eapply steps_cons; [apply w_pos|].
  apply steps_refl.
Defined.

Lemma demo_wf : dev_wf demo_dev.
Proof. split; constructor; simpl; try lia; done. Qed.

Lemma uart_tx_fifo_witness :
  thr (regs (dev demo_end)) ++ contents (txbuf (dev demo_end)) ++ pending (w demo_end) = [88].
Proof.
  exact (proj1 (uart_tx_fifo demo_dev demo_end demo_wf eq_refl eq_refl eq_refl demo_run)).
Defined.

Lemma uart_rx_fifo_witness :
  delivered demo_end ++ contents (rxbuf (dev demo_end)) = [65].
Proof.
  exact (proj1 (uart_rx_fifo demo_dev demo_end demo_wf eq_refl eq_refl eq_refl demo_run)).
Defined.

Lemma uart_write_round_run_witness :
  exists d', steps step (mkSys demo_dev (WTop [72; 105]) RIdle [72; 105] [] [])
                        (mkSys d' (WTop []) RIdle [72; 105] [] []) /\
             contents (txbuf d') = [72; 105].
Proof.
  eexists. split.
  - apply (uart_write_round_run demo_dev _ [72; 105] []); [done|]. vm_compute. reflexivity.
  - vm_compute. reflexivity.
Defined.

End UartSteps.
