(* ===== verification/PhysMem.v ===== *)
(** memory.c (physical pages) and ezheap.c (the kernel heap).

    The state is the machine memory, as 64-bit words at 8-byte aligned
    addresses, with the globals of the two files.  A free page holds the
    address of the next free page in its first word; [pool] relates that chain
    to the list of free pages it stands for. *)

From S2P Require Import Prelude.

Definition PAGE_ORDER : Z := 12.
Definition PAGE_SIZE : Z := 4096.
Definition SIZE_MAX : Z := 18446744073709551615.

(** [mem] holds the words that have been written; any other reads as 0.
    [satp] is the address-translation register. *)
Record kmem := mkKmem {
  mem : gmap Z Z;
  free_list : Z;
  heap_start : Z;
  heap_end : Z;
  satp : Z;
  main_mtag : Z
}.

Definition rd (m : gmap Z Z) (a : Z) : Z := default 0 (m !! a).

Definition set_mem (f : gmap Z Z -> gmap Z Z) (s : kmem) : kmem :=
  mkKmem (f (mem s)) (free_list s) (heap_start s) (heap_end s) (satp s) (main_mtag s).
Definition set_free_list (p : Z) (s : kmem) : kmem :=
  mkKmem (mem s) p (heap_start s) (heap_end s) (satp s) (main_mtag s).
Definition set_heap (a b : Z) (s : kmem) : kmem :=
  mkKmem (mem s) (free_list s) a b (satp s) (main_mtag s).
Definition set_satp (x : Z) (s : kmem) : kmem :=
  mkKmem (mem s) (free_list s) (heap_start s) (heap_end s) x (main_mtag s).

Definition load (a : Z) : M kmem Z := gets (fun s => rd (mem s) a).
Definition store (a v : Z) : M kmem unit := modify (set_mem <[a := v]>).

Lemma rd_insert_eq m a v : rd (<[a := v]> m) a = v.
Proof. unfold rd. by rewrite lookup_insert_eq. Qed.
Lemma rd_insert_ne m a b v : a <> b -> rd (<[a := v]> m) b = rd m b.
Proof. intros. unfold rd. by rewrite lookup_insert_ne. Qed.

(** ** The page allocator (memory.c) *)

Definition memory_alloc_page : M kmem Z :=
  s ← get;
  if free_list s =? 0 then
    panic "No Available Free Space: Probably Caused by Infinite Access to Non-Permitted Page"
  else
    let physical_mem := free_list s in
    next ← load (free_list s);
    modify (set_free_list next) ;;
    mret physical_mem.

Definition memory_free_page (pp : Z) : M kmem unit :=
  s ← get;
  store pp (free_list s) ;;
  modify (set_free_list pp).

(** ** The heap (ezheap.c) *)

Definition heap_init (start end_ : Z) : M kmem unit :=
  cassert (start <? end_) ;;
  modify (set_heap start end_).

(** [(size + 16-1) / 16 * 16] in [size_t]. *)
Definition round16 (size : Z) : Z := u64 (size + 16 - 1) / 16 * 16.

Definition kmalloc (size0 : Z) : M kmem Z :=
  let size := round16 size0 in
  if PAGE_SIZE <? size then panic "heap alloc request too large"
  else
    s ← get;
    if size <=? u64 (heap_end s - heap_start s) then
      let e := heap_end s - size in
      modify (set_heap (heap_start s) e) ;;
      mret e
    else
      new_block ← memory_alloc_page;
      s1 ← get;
      if u64 (heap_end s1 - heap_start s1) <? PAGE_SIZE - size then
        let e := new_block + PAGE_SIZE - size in
        modify (set_heap new_block e) ;;
        mret e
      else mret new_block.

(** [memset(ptr, 0, n)] on an 8-byte aligned block: whole words first, then the
    low bytes of a last partial word. *)
Fixpoint zero_words (n : nat) (a : Z) (m : gmap Z Z) : gmap Z Z :=
  match n with
  | O => m
  | S n' => zero_words n' (a + 8) (<[a := 0]> m)
  end.
Definition memset_zero (ptr n : Z) : M kmem unit :=
  modify (set_mem (fun m =>
    let m1 := zero_words (Z.to_nat (n / 8)) ptr m in
    let a := ptr + 8 * (n / 8) in
    if n mod 8 =? 0 then m1
    else <[a := rd m1 a / 2 ^ (8 * (n mod 8)) * 2 ^ (8 * (n mod 8))]> m1)).

Definition kcalloc (n size : Z) : M kmem Z :=
  if SIZE_MAX / size <? n then panic "heap alloc request too large"
  else
    ptr ← kmalloc (u64 (n * size));
    memset_zero ptr (u64 (n * size)) ;;
    mret ptr.

Definition krealloc (ptr size : Z) : M kmem Z := panic "krealloc not implemented".
Definition kfree (ptr : Z) : M kmem unit := mret tt.

(** ** The free list as a list of pages *)

Fixpoint chain (m : gmap Z Z) (p : Z) (l : list Z) : Prop :=
  match l with
  | [] => p = 0
  | x :: l' => p = x /\ x <> 0 /\ chain m (rd m x) l'
  end.

Lemma chain_frame m m' p l :
  (forall x, x ∈ l -> rd m' x = rd m x) -> chain m p l -> chain m' p l.
Proof.
  revert p. induction l as [|x l IH]; intros p Hf; simpl; [done|].
  intros (-> & Hx & Hc). split_and!; [done|done|].
  rewrite (Hf x) by set_solver. apply IH; [|done]. intros. apply Hf. set_solver.
Qed.

(** A page frame: aligned, not the null page, inside 56-bit physical memory. *)
Definition page_ok (p : Z) : Prop := p mod PAGE_SIZE = 0 /\ 0 < p /\ p < 2 ^ 56.

Record pool (s : kmem) (l : list Z) : Prop := {
  pool_chain : chain (mem s) (free_list s) l;
  pool_nodup : NoDup l;
  pool_pages : Forall page_ok l
}.

Lemma alloc_page_spec s p l :
  pool s (p :: l) ->
  memory_alloc_page s = Ok (p, set_free_list (rd (mem s) p) s) /\
  pool (set_free_list (rd (mem s) p) s) l.
Proof.
  intros [(Hp & Hne & Hc) Hnd Hf]. split.
  - unfold memory_alloc_page. rewrite bind_run. simpl.
    rewrite Hp. destruct (Z.eqb_spec p 0); [done|]. reflexivity.
  - constructor; simpl; [done | by inversion Hnd | by inversion Hf].
Qed.

Lemma alloc_page_empty s :
  pool s [] -> exists msg, memory_alloc_page s = Panic msg.
Proof.
  intros [Hp _ _]. simpl in Hp. unfold memory_alloc_page. rewrite bind_run. simpl.
  rewrite Hp. simpl. by eexists.
Qed.

Lemma free_page_spec s p l :
  pool s l -> page_ok p -> p ∉ l ->
  exists s', memory_free_page p s = Ok (tt, s') /\ pool s' (p :: l) /\
    heap_start s' = heap_start s /\ heap_end s' = heap_end s /\
    forall a, a <> p -> rd (mem s') a = rd (mem s) a.
Proof.
  intros [Hc Hnd Hf] Hp Hni. eexists. split; [reflexivity|]. simpl. split.
  - constructor; simpl; [|by constructor|by constructor].
    split_and!; [done | destruct Hp; lia |].
    rewrite rd_insert_eq. eapply chain_frame; [|done].
    intros x Hx. apply rd_insert_ne. set_solver.
  - split_and!; [done|done|]. intros. by apply rd_insert_ne.
Qed.

(** ** Heap lemmas *)

Record heap_wf (s : kmem) : Prop := {
  hw_lo : 0 <= heap_start s;
  hw_le : heap_start s <= heap_end s;
  hw_hi : heap_end s < 2 ^ 57;
  hw_al : heap_end s mod 16 = 0
}.

(** The current block is at most a page, and a whole page only when it is an
    aligned one. *)
Definition heap_paged (s : kmem) : Prop :=
  heap_end s - heap_start s <= PAGE_SIZE /\
  (heap_end s - heap_start s = PAGE_SIZE -> heap_start s mod PAGE_SIZE = 0).

Lemma heap_room s :
  heap_wf s -> u64 (heap_end s - heap_start s) = heap_end s - heap_start s.
Proof. intros []. apply u64_small. lia. Qed.

Lemma round16_spec size :
  0 <= size < 2 ^ 64 - 16 ->
  round16 size mod 16 = 0 /\ size <= round16 size < size + 16.
Proof. unfold round16. intros. wrap_lia. Qed.

(** ** Memory regions *)

Definition region : Type := Z * Z. (* address, size *)

Definition disj (r1 r2 : region) : Prop :=
  r1.1 + r1.2 <= r2.1 \/ r2.1 + r2.2 <= r1.1.

#[global] Instance disj_sym : Symmetric disj.
Proof. intros r1 r2 [?|?]; [by right|by left]. Qed.

Fixpoint pairwise (rs : list region) : Prop :=
  match rs with
  | [] => True
  | r :: rs' => Forall (disj r) rs' /\ pairwise rs'
  end.

#[global] Instance pairwise_perm : Proper (Permutation ==> iff) pairwise.
Proof.
  assert (H : forall l1 l2, Permutation l1 l2 -> pairwise l1 -> pairwise l2).
  { induction 1; simpl.
    - done.
    - intros [Hf Hp]. split; [|by apply IHPermutation]. by rewrite <- H.
    - intros [Hf1 [Hf2 Hp]]. apply Forall_cons_1 in Hf1 as [Hd Hf1].
      split_and!; [|done|done]. constructor; [by symmetry|done].
    - auto. }
  intros l1 l2 Hp. split; apply H; [done|by symmetry].
Qed.

(** Replacing a region by disjoint parts of it keeps the regions disjoint. *)
Lemma pairwise_shrink r rs parts :
  pairwise (r :: rs) -> pairwise parts ->
  Forall (fun q => r.1 <= q.1 /\ q.1 + q.2 <= r.1 + r.2) parts ->
  pairwise (parts ++ rs).
Proof.
  intros [Hf Hp]. induction parts as [|q parts IH]; simpl; [done|].
  intros [Hq Hps] Hin. apply Forall_cons_1 in Hin as [Hin1 Hin].
  split; [|by apply IH]. apply Forall_app. split; [done|].
  eapply Forall_impl; [done|]. intros x [?|?]; [left|right]; simpl in *; lia.
Qed.

Lemma pairwise_swap r1 r2 rs : pairwise (r1 :: r2 :: rs) -> pairwise (r2 :: r1 :: rs).
Proof. apply pairwise_perm. constructor. Qed.

Lemma pairwise_middle h r rs1 rs2 :
  pairwise (h :: r :: rs1 ++ rs2) -> pairwise (h :: rs1 ++ r :: rs2).
Proof. apply pairwise_perm. constructor. symmetry. apply Permutation_middle. Qed.

Lemma pairwise_drop r rs : pairwise (r :: rs) -> pairwise rs.
Proof. by intros [_ ?]. Qed.

(** The regions the kernel's allocators account for: what is left of the
    current heap block, the free pages, and the blocks handed out. *)
Definition page_region (p : Z) : region := (p, PAGE_SIZE).
Definition heap_region (s : kmem) : region := (heap_start s, heap_end s - heap_start s).
Definition regions (s : kmem) (l : list Z) (blocks : list region) : list region :=
  heap_region s :: (page_region <$> l) ++ blocks.

(** The invariant of the two allocators, with [blocks] the blocks in use. *)
Record alloc_inv (s : kmem) (l : list Z) (blocks : list region) : Prop := {
  ai_pool : pool s l;
  ai_heap : heap_wf s;
  ai_disj : pairwise (regions s l blocks)
}.

Definition in_bounds (size : Z) : Prop := 0 <= size < 2 ^ 64 - 16.

Lemma sub_aligned e r : e mod 16 = 0 -> r mod 16 = 0 -> (e - r) mod 16 = 0.
Proof. wrap_lia. Qed.
Lemma page_end_aligned p r :
  p mod PAGE_SIZE = 0 -> r mod 16 = 0 -> (p + PAGE_SIZE - r) mod 16 = 0.
Proof. unfold PAGE_SIZE. wrap_lia. Qed.
Lemma page_aligned_16 p : p mod PAGE_SIZE = 0 -> p mod 16 = 0.
Proof. unfold PAGE_SIZE. wrap_lia. Qed.
#[export] Hint Resolve sub_aligned page_aligned_16 page_end_aligned : kern.

(** The heap part of a request that fits in the current block. *)
Lemma kmalloc_fits s l blocks size :
  alloc_inv s l blocks -> in_bounds size ->
  round16 size <= PAGE_SIZE -> round16 size <= heap_end s - heap_start s ->
  kmalloc size s =
    Ok (heap_end s - round16 size, set_heap (heap_start s) (heap_end s - round16 size) s) /\
  alloc_inv (set_heap (heap_start s) (heap_end s - round16 size) s) l
    ((heap_end s - round16 size, round16 size) :: blocks).
Proof.
  intros [[Hc Hnd Hpg] Hh Hd] Hsz Hone Hfit. pose proof (round16_spec size Hsz) as [Hm Hr].
  pose proof (heap_room s Hh) as Hroom. destruct Hh.
  unfold in_bounds, PAGE_SIZE in *. split.
  - unfold kmalloc, PAGE_SIZE. destruct (Z.ltb_spec 4096 (round16 size)); [lia|].
    rewrite bind_run. simpl. rewrite Hroom.
    destruct (Z.leb_spec (round16 size) (heap_end s - heap_start s)); [done|lia].
  - constructor.
    + by constructor.
    + constructor; unfold PAGE_SIZE; simpl; try lia. auto with kern.
    + unfold regions in *. apply pairwise_middle.
      apply (pairwise_shrink (heap_region s) _
        [heap_region (set_heap (heap_start s) (heap_end s - round16 size) s);
         (heap_end s - round16 size, round16 size)]); [done| |].
      * simpl. split_and!; [|done|done]. constructor; [left; simpl; lia|done].
      * repeat constructor; simpl; lia.
Qed.

(** A request that needs a new page takes the first free one, and either
    abandons the rest of the current block for the rest of the page or keeps
    the block. *)
Lemma kmalloc_grows s p l blocks size :
  alloc_inv s (p :: l) blocks -> in_bounds size ->
  heap_end s - heap_start s < round16 size <= PAGE_SIZE ->
  exists a s', kmalloc size s = Ok (a, s') /\
    alloc_inv s' l ((a, round16 size) :: blocks) /\ p <= a < p + PAGE_SIZE /\
    a mod 16 = 0 /\ (round16 size = PAGE_SIZE -> a = p) /\ mem s' = mem s.
Proof.
  intros [Hpool Hh Hd] Hsz Hnofit. pose proof (round16_spec size Hsz) as [Hm Hr].
  pose proof (heap_room s Hh) as Hroom.
  destruct (alloc_page_spec s p l Hpool) as [Ea Hpool'].
  assert (Hp : page_ok p) by (destruct Hpool as [_ _ Hf]; by inversion Hf).
  destruct Hp as (Hpa & Hp0 & Hp1).
  set (s1 := set_free_list (rd (mem s) p) s) in *.
  assert (Hh1 : heap_wf s1) by (destruct Hh; by constructor).
  assert (Hd1 : pairwise (page_region p :: heap_region s1 :: (page_region <$> l) ++ blocks)).
  { apply pairwise_swap. exact Hd. }
  pose proof (hw_le s Hh). unfold kmalloc. unfold in_bounds, PAGE_SIZE in *.
  destruct (Z.ltb_spec 4096 (round16 size)); [lia|].
  rewrite bind_run. simpl. rewrite Hroom.
  destruct (Z.leb_spec (round16 size) (heap_end s - heap_start s)); [lia|].
  rewrite (bind_Ok _ _ _ _ _ Ea), bind_run. simpl. rewrite Hroom.
  destruct (Z.ltb_spec (heap_end s - heap_start s) (4096 - round16 size)).
  - eexists _, _. split_and!; [reflexivity| |lia|lia|by apply page_end_aligned|lia|done].
    constructor.
    + by destruct Hpool'; constructor.
    + destruct Hh. constructor; unfold PAGE_SIZE; simpl; try lia. by apply page_end_aligned.
    + unfold regions. apply pairwise_middle.
      apply (pairwise_shrink (page_region p) ((page_region <$> l) ++ blocks)
        [heap_region (set_heap p (p + 4096 - round16 size) s1);
         (p + 4096 - round16 size, round16 size)]).
      * by apply (pairwise_drop (heap_region s1)), pairwise_swap.
      * simpl. split_and!; [|done|done]. constructor; [left; simpl; lia|done].
      * unfold page_region, PAGE_SIZE. repeat constructor; simpl; lia.
  - eexists _, _. split_and!; [reflexivity| |lia|lia|by apply page_aligned_16|lia|done].
    constructor; [done|done|].
    unfold regions. apply pairwise_middle.
    apply pairwise_swap.
    apply (pairwise_shrink (page_region p) _ [(p, round16 size)]); [done|done|].
    unfold page_region, PAGE_SIZE. repeat constructor; simpl; lia.
Qed.

(** ** Results *)

(** C12. [kmalloc] hands out memory safely: for any request the allocator can
    represent, when it returns it returns a 16-byte aligned block of at least
    the requested size that is disjoint from every block in use, from every
    free page and from what is left of the heap block, and the allocators'
    invariant holds again.  It returns exactly when the rounded size is at most
    a page and either the current block has room or a page is free; otherwise
    it panics. *)
Theorem kmalloc_safe (s : kmem) (l : list Z) (blocks : list region) (size : Z)
    (Hinv : alloc_inv s l blocks) (Hsz : in_bounds size) :
  (exists msg, kmalloc size s = Panic msg /\
     (PAGE_SIZE < round16 size \/ (heap_end s - heap_start s < round16 size /\ l = []))) \/
  (exists a s' l', kmalloc size s = Ok (a, s') /\ round16 size <= PAGE_SIZE /\
     a mod 16 = 0 /\ size <= round16 size /\
     alloc_inv s' l' ((a, round16 size) :: blocks) /\
     (l' = l \/ exists p, l = p :: l')).
Proof.
  pose proof (round16_spec size Hsz) as [Hm Hr].
  destruct (Z.ltb_spec PAGE_SIZE (round16 size)) as [Hbig|Hsmall].
  { left. eexists. unfold kmalloc. split; [|by left].
    destruct (Z.ltb_spec PAGE_SIZE (round16 size)); [done|lia]. }
  destruct (Z.leb_spec (round16 size) (heap_end s - heap_start s)) as [Hfit|Hno].
  - right. destruct (kmalloc_fits s l blocks size Hinv Hsz Hsmall Hfit) as [E Hi].
    eexists _, _, l. split_and!; [exact E|done| |lia|done|by left].
    destruct Hinv as [_ [] _]. by apply sub_aligned.
  - destruct l as [|p l].
    + left. destruct Hinv as [Hp Hh _]. destruct (alloc_page_empty s Hp) as [msg E].
      exists msg. split; [|by right]. unfold kmalloc.
      destruct (Z.ltb_spec PAGE_SIZE (round16 size)); [lia|].
      rewrite bind_run. simpl. rewrite (heap_room s Hh).
      destruct (Z.leb_spec (round16 size) (heap_end s - heap_start s)); [lia|].
      by rewrite bind_run, E.
    + right. destruct (kmalloc_grows s p l blocks size Hinv Hsz) as
        (a & s' & E & Hi & Hin & Hal & _); [lia|].
      exists a, s', l. split_and!; [done|done|done|lia|done|by right; eexists].
Qed.

(** A small machine for the witnesses: one heap block of a page at 0x80010000
    and two free pages after it. *)
Definition demo_mem : kmem :=
  mkKmem {[ 2147557376 := 2147561472 ]} 2147557376 2147549184 2147553280 0 0.

Lemma demo_alloc_inv : alloc_inv demo_mem [2147557376; 2147561472] [].
Proof.
  constructor.
  - constructor.
    + vm_compute. by split_and!.
    + apply (bool_decide_unpack _). vm_compute. done.
    + repeat constructor; lia.
  - constructor; unfold PAGE_SIZE; simpl; lia || done.
  - simpl. rewrite !Forall_cons, !Forall_nil. unfold disj; simpl.
    unfold PAGE_SIZE. split_and!; try done; lia.
Qed.

Lemma kmalloc_safe_witness :
  in_bounds 100 /\
  exists a s', kmalloc 100 demo_mem = Ok (a, s') /\ a mod 16 = 0.
Proof.
  assert (H : in_bounds 100) by (unfold in_bounds; lia).
  split; [exact H|].
  destruct (kmalloc_safe demo_mem _ _ 100 demo_alloc_inv H)
    as [(msg & E & _)|(a & s' & l' & E & _ & Ha & _)].
  - vm_compute in E. discriminate E.
  - exists a, s'. by split.
Defined.

(** Allocation leaves the active space. *)
Lemma alloc_page_satp k p k' : memory_alloc_page k = Ok (p, k') -> satp k' = satp k.
Proof.
  unfold memory_alloc_page. rewrite bind_run. cbn [get obind].
  destruct (free_list k =? 0); [done|]. by intros [= _ <-].
Qed.
Lemma kmalloc_satp n k p k' : kmalloc n k = Ok (p, k') -> satp k' = satp k.
Proof.
  unfold kmalloc. destruct (PAGE_SIZE <? round16 n); [done|]. rewrite bind_run. cbn [get obind].
  destruct (round16 n <=? _); [by intros [= _ <-]|]. rewrite bind_run.
  destruct (memory_alloc_page k) as [[q k1]| | | |] eqn:E; try done. cbn [obind]. rewrite bind_run. cbn [get obind].
  rewrite <- (alloc_page_satp _ _ _ E). destruct (_ <? _); by intros [= _ <-].
Qed.

(** The two page operations refine a stack of distinct pages: allocating
    from a non-empty pool returns its top page and leaves the rest, allocating
    from an empty pool panics, and freeing a page that is not in the pool
    pushes it, so that the next allocation returns that page and restores the
    pool it was pushed on. *)
Theorem page_pool_stack (s : kmem) (l : list Z) (p : Z)
    (Hpool : pool s l) (Hp : page_ok p) (Hfresh : p ∉ l) :
  (l = [] -> exists msg, memory_alloc_page s = Panic msg) /\
  (forall q l', l = q :: l' ->
     exists s', memory_alloc_page s = Ok (q, s') /\ pool s' l' /\ mem s' = mem s) /\
  (exists s1 s2, memory_free_page p s = Ok (tt, s1) /\ pool s1 (p :: l) /\
     memory_alloc_page s1 = Ok (p, s2) /\ pool s2 l /\ free_list s2 = free_list s).
Proof.
  split_and!.
  - intros ->. by apply alloc_page_empty.
  - intros q l' ->. destruct (alloc_page_spec s q l' Hpool) as [E Hp']. eauto.
  - destruct (free_page_spec s p l Hpool Hp Hfresh) as (s1 & E1 & Hp1 & _).
    destruct (alloc_page_spec s1 p l Hp1) as [E2 Hp2].
    eexists s1, _. split_and!; try done.
    injection E1 as <-. simpl. apply rd_insert_eq.
Qed.

Lemma page_pool_stack_witness :
  exists s1 s2, memory_free_page 2147565568 demo_mem = Ok (tt, s1) /\
    memory_alloc_page s1 = Ok (2147565568, s2).
Proof.
  destruct (page_pool_stack demo_mem [2147557376; 2147561472] 2147565568) as (_ & _ & H).
  - apply demo_alloc_inv.
  - repeat split; lia.
  - apply (bool_decide_unpack _). vm_compute. done.
  - destruct H as (s1 & s2 & E1 & _ & E2 & _). eauto.
Defined.

(** A request for exactly one page is served with an aligned page: this is
    what the page-table code relies on when it uses [kmalloc(PAGE_SIZE)] for a
    page table, although [kmalloc] itself only promises 16-byte alignment. *)
Theorem kmalloc_page_aligned (s s' : kmem) (l : list Z) (blocks : list region) (a : Z)
    (Hinv : alloc_inv s l blocks) (Hpg : heap_paged s) (Hrun : kmalloc PAGE_SIZE s = Ok (a, s')) :
  a mod PAGE_SIZE = 0 /\ mem s' = mem s /\
  ((heap_end s - heap_start s = PAGE_SIZE /\ a = heap_start s) \/ (exists l', l = a :: l')).
Proof.
  assert (Hb : in_bounds PAGE_SIZE) by (unfold in_bounds, PAGE_SIZE; lia).
  assert (Er : round16 PAGE_SIZE = PAGE_SIZE) by reflexivity.
  destruct (Z.leb_spec PAGE_SIZE (heap_end s - heap_start s)) as [Hfit|Hno].
  - rewrite <- Er in Hfit.
    destruct (kmalloc_fits s l blocks PAGE_SIZE Hinv Hb ltac:(done) Hfit) as [E _].
    rewrite Hrun in E. injection E as -> ->. rewrite Er in *. destruct Hinv as [_ [] _].
    destruct Hpg as [Hle Heq]. specialize (Heq ltac:(lia)).
    replace (heap_end s - PAGE_SIZE) with (heap_start s) by lia.
    split_and!; [done|done|]. left. split; [lia|done].
  - destruct l as [|p l].
    + exfalso. destruct Hinv as [Hp Hh _]. destruct (alloc_page_empty s Hp) as [msg E].
      revert Hrun. unfold kmalloc. rewrite Er.
      destruct (Z.ltb_spec PAGE_SIZE PAGE_SIZE); [lia|]. rewrite bind_run. simpl.
      rewrite (heap_room s Hh).
      destruct (Z.leb_spec PAGE_SIZE (heap_end s - heap_start s)); [lia|].
      by rewrite bind_run, E.
    + destruct (kmalloc_grows s p l blocks PAGE_SIZE Hinv Hb)
        as (a' & s1 & E & _ & _ & _ & Hpe & Hm); [rewrite Er; lia|].
      rewrite Hrun in E. injection E as -> ->. rewrite (Hpe Er).
      destruct Hinv as [[_ _ Hf] _ _]. apply Forall_cons_1 in Hf as [(Hpa & _ & _) _].
      split_and!; [done|done|]. right. by eexists.
Qed.

Lemma kmalloc_page_aligned_witness :
  exists s', kmalloc PAGE_SIZE demo_mem = Ok (2147549184, s') /\ 2147549184 mod PAGE_SIZE = 0.
Proof.
  assert (E : exists s', kmalloc PAGE_SIZE demo_mem = Ok (2147549184, s'))
    by (eexists; vm_compute; reflexivity).
  destruct E as [s' E]. exists s'. split; [exact E|].
  refine (proj1 (kmalloc_page_aligned demo_mem s' _ _ _ demo_alloc_inv _ E)).
  split; vm_compute; [discriminate|reflexivity].
Defined.
