(* ===== verification/PageTable.v ===== *)
(** memory.c and memory.h: Sv39 page tables and memory spaces.

    A page table is 512 64-bit entries in a page; [pte] is [struct pte] and
    [pte_encode]/[pte_decode] its layout in a word.  The operations are those
    of memory.c over the memory of [PhysMem].  [umap] is the abstract view the
    theorems use: the user part of an address space as a partial function from
    4 kB page numbers to leaf entries. *)

From S2P Require Import Prelude PhysMem.

(** ** Constants (memory.h, config.h, csr.h) *)

Definition PTE_V : Z := Z.shiftl 1 0.
Definition PTE_R : Z := Z.shiftl 1 1.
Definition PTE_W : Z := Z.shiftl 1 2.
Definition PTE_X : Z := Z.shiftl 1 3.
Definition PTE_U : Z := Z.shiftl 1 4.
Definition PTE_G : Z := Z.shiftl 1 5.
Definition PTE_A : Z := Z.shiftl 1 6.
Definition PTE_D : Z := Z.shiftl 1 7.

Definition MEGA_SIZE : Z := 512 * PAGE_SIZE.
Definition GIGA_SIZE : Z := 512 * MEGA_SIZE.
Definition PTE_CNT : Z := PAGE_SIZE / 8.
Definition CREATE_PTE : Z := 1.
Definition HEAP_INIT_MIN : Z := 256.

Definition RAM_SIZE : Z := 8 * 1024 * 1024.
Definition RAM_START_PMA : Z := 2147483648. (* 0x80000000 *)
Definition RAM_START : Z := RAM_START_PMA.
Definition RAM_END : Z := RAM_START + RAM_SIZE.
Definition USER_START_VMA : Z := 3221225472. (* 0xC0000000 *)
Definition USER_END_VMA : Z := 3489660928. (* 0xD0000000 *)

Definition RISCV_SATP_MODE_Sv39 : Z := 8.
Definition RISCV_SATP_MODE_shift : Z := 60.
Definition EACCESS : Z := 8.

(** ** Page table entries *)

Record pte := mkPte { flags : Z; rsw : Z; ppn : Z; reserved : Z; pbmt : Z; pn : Z }.

Definition pte_decode (x : Z) : pte :=
  mkPte (x mod 256) (x / 256 mod 4) (x / 1024 mod 17592186044416)
        (x / 18014398509481984 mod 128) (x / 2305843009213693952 mod 4)
        (x / 9223372036854775808 mod 2).

Definition pte_encode (e : pte) : Z :=
  flags e + rsw e * 256 + ppn e * 1024 + reserved e * 18014398509481984
  + pbmt e * 2305843009213693952 + pn e * 9223372036854775808.

Definition with_flags (f : Z) (e : pte) : pte :=
  mkPte (u8 f) (rsw e) (ppn e) (reserved e) (pbmt e) (pn e).
Definition with_ppn (p : Z) (e : pte) : pte :=
  mkPte (flags e) (rsw e) (p mod 17592186044416) (reserved e) (pbmt e) (pn e).

(** [(f & mask) != 0]. *)
Definition has (f mask : Z) : bool := negb (Z.land f mask =? 0).

Definition load_pte (a : Z) : M kmem pte := w ← load a; mret (pte_decode w).
Definition store_pte (a : Z) (e : pte) : M kmem unit := store a (pte_encode e).

(** ** Address arithmetic (memory.c, memory.h) *)

Definition VPN2 (vma : Z) : Z := Z.land (Z.shiftr vma 30) 511.
Definition VPN1 (vma : Z) : Z := Z.land (Z.shiftr vma 21) 511.
Definition VPN0 (vma : Z) : Z := Z.land (Z.shiftr vma 12) 511.

(** [(intptr_t)vma >> 38] as an unsigned value, then [!bits || !(bits+1)]. *)
Definition wellformed_vma (vma : Z) : bool :=
  let bits := u64 (Z.shiftr (s64 vma) 38) in
  (bits =? 0) || (u64 (bits + 1) =? 0).

Definition wellformed_vptr (vp : Z) : bool := wellformed_vma vp.
Definition aligned_addr (vma blksz : Z) : bool := vma mod blksz =? 0.
Definition aligned_ptr (p blksz : Z) : bool := aligned_addr p blksz.
Definition aligned_size (size blksz : Z) : bool := size mod blksz =? 0.

Definition pagenum_to_pageptr (n : Z) : Z := u64 (Z.shiftl n PAGE_ORDER).
Definition pageptr_to_pagenum (p : Z) : Z := Z.shiftr p PAGE_ORDER.

Definition round_up_ptr (p blksz : Z) : Z := u64 (p + blksz - 1) / blksz * blksz.
Definition round_up_addr (addr blksz : Z) : Z := u64 (addr + blksz - 1) / blksz * blksz.
Definition round_up_size (n blksz : Z) : Z := u64 (n + blksz - 1) / blksz * blksz.
Definition round_down_ptr (p blksz : Z) : Z := p / blksz * blksz.
Definition round_down_size (n blksz : Z) : Z := n / blksz * blksz.
Definition round_down_addr (addr blksz : Z) : Z := addr / blksz * blksz.

Definition leaf_pte (pptr rwxug_flags : Z) : pte :=
  with_ppn (pageptr_to_pagenum pptr)
    (with_flags (Z.lor (Z.lor (Z.lor rwxug_flags PTE_A) PTE_D) PTE_V) (mkPte 0 0 0 0 0 0)).
Definition ptab_pte (ptab g_flag : Z) : pte :=
  with_ppn (pageptr_to_pagenum ptab)
    (with_flags (Z.lor g_flag PTE_V) (mkPte 0 0 0 0 0 0)).
Definition null_pte : pte := mkPte 0 0 0 0 0 0.

Definition mtag_to_root (mtag : Z) : Z := Z.shiftr (u64 (Z.shiftl mtag 20)) 8.
Definition active_space_mtag : M kmem Z := gets satp.
Definition active_space_root : M kmem Z := mtag ← active_space_mtag; mret (mtag_to_root mtag).
Definition active_memory_space : M kmem Z := gets satp.
Definition memory_space_switch (mtag : Z) : M kmem Z :=
  old ← gets satp;
  modify (set_satp mtag) ;;
  mret old.

(** The tag of the space rooted at a page table:
    [((uintptr_t)RISCV_SATP_MODE_Sv39 << RISCV_SATP_MODE_shift) | pageptr_to_pagenum(root)]. *)
Definition mk_mtag (root : Z) : Z :=
  Z.lor (u64 (Z.shiftl RISCV_SATP_MODE_Sv39 RISCV_SATP_MODE_shift)) (pageptr_to_pagenum root).

(** ** Walking and mapping *)

(** One level of [walk_pt]: with [create], a missing table is allocated and
    linked into the entry at [slot]; the result is the table the entry points
    to. *)
Definition walk_level (slot create : Z) : M kmem Z :=
  e ← load_pte slot;
  (if negb (create =? 0) && negb (has (flags e) PTE_V) then
     new_pt ← kmalloc PAGE_SIZE;
     store_pte slot (ptab_pte new_pt 0)
   else mret tt) ;;
  e' ← load_pte slot;
  mret (pagenum_to_pageptr (ppn e')).

Definition walk_pt (root vma create : Z) : M kmem Z :=
  subdirectory_pt1 ← walk_level (root + 8 * VPN2 vma) create;
  leafdirectory_pt0 ← walk_level (subdirectory_pt1 + 8 * VPN1 vma) create;
  mret (leafdirectory_pt0 + 8 * VPN0 vma).

Definition memory_alloc_and_map_page (vma rwxug_flags : Z) : M kmem Z :=
  newly_allocated ← memory_alloc_page;
  root ← active_space_root;
  dest_pte ← walk_pt root vma CREATE_PTE;
  e ← load_pte dest_pte;
  store_pte dest_pte
    (with_flags (Z.lor (flags e) (Z.lor (Z.lor (Z.lor rwxug_flags PTE_A) PTE_D) PTE_V)) e) ;;
  e1 ← load_pte dest_pte;
  store_pte dest_pte (with_ppn (pageptr_to_pagenum newly_allocated) e1) ;;
  mret vma.

(** The offsets [0, PAGE_SIZE, ...] below [size]. *)
Definition page_offsets (size : Z) : list Z :=
  range (Z.to_nat (size / PAGE_SIZE)) 0 size PAGE_SIZE.

Definition memory_alloc_and_map_range (vma size0 rwxug_flags : Z) : M kmem Z :=
  let size := round_up_size size0 PAGE_SIZE in
  forM (page_offsets size) (fun addr_idx =>
    memory_alloc_and_map_page (u64 (vma + addr_idx)) rwxug_flags ;; mret tt) ;;
  mret vma.

(** [dest_pte->flags = 0; dest_pte->flags |= rwxug_flags | PTE_A | PTE_D | PTE_V]. *)
Definition reset_flags (dest_pte rwxug_flags : Z) : M kmem unit :=
  e ← load_pte dest_pte;
  store_pte dest_pte (with_flags 0 e) ;;
  e1 ← load_pte dest_pte;
  store_pte dest_pte
    (with_flags (Z.lor (flags e1) (Z.lor (Z.lor (Z.lor rwxug_flags PTE_A) PTE_D) PTE_V)) e1).

Definition memory_set_page_flags (vp rwxug_flags : Z) : M kmem unit :=
  root ← active_space_root;
  dest_pte ← walk_pt root vp CREATE_PTE;
  reset_flags dest_pte rwxug_flags.

Definition memory_set_range_flags (vp size0 rwxug_flags : Z) : M kmem unit :=
  let size := round_up_size size0 PAGE_SIZE in
  forM (page_offsets size) (fun addr_idx =>
    root ← active_space_root;
    dest_pte ← walk_pt root (u64 (vp + addr_idx)) 0;
    reset_flags dest_pte rwxug_flags).

Definition memory_handle_page_fault (vptr : Z) : M kmem unit :=
  if (USER_START_VMA <=? vptr) && (vptr <=? USER_END_VMA) then
    memory_alloc_and_map_page vptr (Z.lor (Z.lor PTE_R PTE_W) PTE_U) ;; mret tt
  else panic "Memory Handle Page Fault Exited Anomaly".

(** The loop of [memory_validate_vptr_len] tests the entry of the first page in
    every round. *)
Definition entry_allows (e : pte) (rwxug_flags : Z) : bool :=
  negb (ppn e =? 0) && has (flags e) PTE_V && (Z.land (flags e) rwxug_flags =? rwxug_flags).

Fixpoint validate_rounds (offsets : list Z) (dest_pte rwxug_flags : Z) : M kmem Z :=
  match offsets with
  | [] => mret 0
  | _ :: rest =>
      e ← load_pte dest_pte;
      if entry_allows e rwxug_flags then validate_rounds rest dest_pte rwxug_flags
      else mret (- EACCESS)
  end.

Definition memory_validate_vptr_len (vp len rwxug_flags : Z) : M kmem Z :=
  root ← active_space_root;
  dest_pte ← walk_pt root vp 0;
  validate_rounds (page_offsets (round_up_size len PAGE_SIZE)) dest_pte rwxug_flags.

Definition memory_validate_vstr (vs ug_flags : Z) : M kmem Z := mret 0.

(** ** Tearing down and cloning spaces *)

(** An entry that points to a table of the next level. *)
Definition is_ptab (e : pte) : bool :=
  has (flags e) PTE_V && negb (has (flags e) PTE_X)
  && negb (has (flags e) PTE_R) && negb (has (flags e) PTE_W).

Definition indices : list Z := range (Z.to_nat PTE_CNT) 0 PTE_CNT 1.

(** Freeing a leaf page, as both teardown functions do it: with an empty free
    list the page becomes the list without its link word being written. *)
Definition free_leaf_page (p : Z) : M kmem unit :=
  s ← get;
  if free_list s =? 0 then modify (set_free_list p) else memory_free_page p.

Definition clear_pte (a : Z) : M kmem unit :=
  e ← load_pte a;
  store_pte a (with_ppn 0 e) ;;
  e1 ← load_pte a;
  store_pte a (with_flags 0 e1).

(** [while (aux->next != NULL) aux = aux->next;] over a list of at most as many
    pages as there are in RAM. *)
Fixpoint list_end (fuel : nat) (p : Z) : M kmem unit :=
  match fuel with
  | O => fun _ => Fuel
  | S fuel' => next ← load p; if next =? 0 then mret tt else list_end fuel' next
  end.
Definition ram_pages : nat := Z.to_nat (RAM_SIZE / PAGE_SIZE).

(** The common shape of the two teardown loops: [leaf_sel] selects the leaf
    entries whose pages are freed, [tab_sel] the table entries whose tables
    are. *)
Definition teardown_pt0 (leaf_sel : pte -> bool) (pt0 : Z) : M kmem unit :=
  forM indices (fun i =>
    e ← load_pte (pt0 + 8 * i);
    if leaf_sel e then
      free_leaf_page (pagenum_to_pageptr (ppn e)) ;;
      clear_pte (pt0 + 8 * i)
    else mret tt).

Definition teardown_pt1 (leaf_sel tab_sel : pte -> bool) (pt1 : Z) : M kmem unit :=
  forM indices (fun i =>
    e ← load_pte (pt1 + 8 * i);
    if is_ptab e then
      let pt0 := pagenum_to_pageptr (ppn e) in
      teardown_pt0 leaf_sel pt0 ;;
      e1 ← load_pte (pt1 + 8 * i);
      if tab_sel e1 then memory_free_page pt0 else mret tt
    else mret tt).

Definition teardown_pt2 (leaf_sel tab_sel : pte -> bool) (pt2 : Z) : M kmem unit :=
  forM indices (fun i =>
    e ← load_pte (pt2 + 8 * i);
    if is_ptab e then
      let pt1 := pagenum_to_pageptr (ppn e) in
      teardown_pt1 leaf_sel tab_sel pt1 ;;
      e1 ← load_pte (pt2 + 8 * i);
      if tab_sel e1 then memory_free_page pt1 else mret tt
    else mret tt).

Definition user_leaf (e : pte) : bool :=
  has (flags e) PTE_V && negb (ppn e =? 0) && has (flags e) PTE_U.
Definition user_tab (e : pte) : bool := has (flags e) PTE_U.

Definition memory_unmap_and_free_user : M kmem unit :=
  s ← get;
  list_end (S ram_pages) (free_list s) ;;
  cur_active_pt2 ← active_space_root;
  teardown_pt2 user_leaf user_tab cur_active_pt2.

Definition nonglobal_leaf (e : pte) : bool := has (flags e) PTE_V && negb (has (flags e) PTE_G).
Definition nonglobal_tab (e : pte) : bool := negb (has (flags e) PTE_G).

Definition memory_space_reclaim : M kmem unit :=
  s ← get;
  prev_mtag ← memory_space_switch (main_mtag s);
  teardown_pt2 nonglobal_leaf nonglobal_tab (pagenum_to_pageptr prev_mtag).

(** ** Start-up *)

(** The addresses the linker script defines and those of the three static page
    tables. *)
Record kimage := mkImage {
  kimg_start : Z; text_start : Z; text_end : Z; rodata_start : Z; rodata_end : Z;
  data_start : Z; kimg_end : Z;
  main_pt2 : Z; main_pt1_0x80000 : Z; main_pt0_0x80000 : Z
}.

(** The page addresses from [a] up to but not including [b]. *)
Definition pages_between (a b : Z) : list Z :=
  range (Z.to_nat ((b - a + PAGE_SIZE - 1) / PAGE_SIZE)) a b PAGE_SIZE.

(** The page-table part of [memory_init]. *)
Definition init_page_tables (k : kimage) : M kmem unit :=
  forM (range 2 0 RAM_START_PMA GIGA_SIZE) (fun pma =>
    store_pte (main_pt2 k + 8 * VPN2 pma)
      (leaf_pte pma (Z.lor (Z.lor PTE_R PTE_W) PTE_G))) ;;
  store_pte (main_pt2 k + 8 * VPN2 RAM_START_PMA) (ptab_pte (main_pt1_0x80000 k) PTE_G) ;;
  store_pte (main_pt1_0x80000 k + 8 * VPN1 RAM_START_PMA)
    (ptab_pte (main_pt0_0x80000 k) PTE_G) ;;
  forM (pages_between (text_start k) (text_end k)) (fun pp =>
    store_pte (main_pt0_0x80000 k + 8 * VPN0 pp)
      (leaf_pte pp (Z.lor (Z.lor PTE_R PTE_X) PTE_G))) ;;
  forM (pages_between (rodata_start k) (rodata_end k)) (fun pp =>
    store_pte (main_pt0_0x80000 k + 8 * VPN0 pp) (leaf_pte pp (Z.lor PTE_R PTE_G))) ;;
  forM (pages_between (data_start k) (RAM_START + MEGA_SIZE)) (fun pp =>
    store_pte (main_pt0_0x80000 k + 8 * VPN0 pp)
      (leaf_pte pp (Z.lor (Z.lor PTE_R PTE_W) PTE_G))) ;;
  forM (range 3 (RAM_START + MEGA_SIZE) RAM_END MEGA_SIZE) (fun pp =>
    store_pte (main_pt1_0x80000 k + 8 * VPN1 pp)
      (leaf_pte pp (Z.lor (Z.lor PTE_R PTE_W) PTE_G))).

(** The loop that links the free pages: [aux_ptr->next = free_pg_idx + heap_end;
    aux_ptr = aux_ptr->next].  The link of the last page is not written. *)
Fixpoint link_pages (aux_ptr : Z) (offsets : list Z) (base : Z) : M kmem unit :=
  match offsets with
  | [] => mret tt
  | o :: rest => store aux_ptr (o + base) ;; link_pages (o + base) rest base
  end.

Definition memory_init (k : kimage) : M kmem unit :=
  cassert (RAM_START =? kimg_start k) ;;
  (if MEGA_SIZE <? kimg_end k - kimg_start k then panic "Kernel too large" else mret tt) ;;
  init_page_tables k ;;
  let mtag := mk_mtag (main_pt2 k) in
  modify (fun s => mkKmem (mem s) (free_list s) (heap_start s) (heap_end s) mtag mtag) ;;
  let hs := kimg_end k in
  let he0 := round_up_ptr hs PAGE_SIZE in
  let he := if he0 - hs <? HEAP_INIT_MIN
            then he0 + round_up_size (HEAP_INIT_MIN - (he0 - hs)) PAGE_SIZE else he0 in
  (if RAM_END <? he then panic "Not enough memory" else mret tt) ;;
  heap_init hs he ;;
  modify (set_free_list he) ;;
  link_pages he (range ram_pages PAGE_SIZE (RAM_END - he) PAGE_SIZE) he.

(** ** Entries and their words *)

Record pte_wf (e : pte) : Prop := {
  pw_flags : 0 <= flags e < 256; pw_rsw : 0 <= rsw e < 4;
  pw_ppn : 0 <= ppn e < 17592186044416; pw_res : 0 <= reserved e < 128;
  pw_pbmt : 0 <= pbmt e < 4; pw_n : 0 <= pn e < 2
}.

Lemma pte_decode_wf x : pte_wf (pte_decode x).
Proof. constructor; simpl; apply Z.mod_pos_bound; lia. Qed.

Lemma with_flags_wf f e : pte_wf e -> pte_wf (with_flags f e).
Proof. intros []. constructor; simpl; try done. apply u8_range. Qed.

Lemma with_ppn_wf p e : pte_wf e -> pte_wf (with_ppn p e).
Proof. intros []. constructor; simpl; try done. apply Z.mod_pos_bound; lia. Qed.

Lemma null_pte_wf : pte_wf null_pte.
Proof. constructor; simpl; lia. Qed.
#[export] Hint Resolve pte_decode_wf with_flags_wf with_ppn_wf null_pte_wf : kern.

Lemma leaf_pte_wf p f : pte_wf (leaf_pte p f).
Proof. unfold leaf_pte. auto with kern. Qed.
Lemma ptab_pte_wf p f : pte_wf (ptab_pte p f).
Proof. unfold ptab_pte. auto with kern. Qed.
#[export] Hint Resolve leaf_pte_wf ptab_pte_wf : kern.

Lemma decode_encode e : pte_wf e -> pte_decode (pte_encode e) = e.
Proof.
  intros []. destruct e as [f r p v b n]; simpl in *.
  unfold pte_decode, pte_encode; simpl. f_equal; Z.div_mod_to_equations; lia.
Qed.

Lemma encode_decode x : 0 <= x < 2 ^ 64 -> pte_encode (pte_decode x) = x.
Proof. intros. unfold pte_encode, pte_decode; simpl. Z.div_mod_to_equations; lia. Qed.

Definition ent (m : gmap Z Z) (a : Z) : pte := pte_decode (rd m a).
Definition valid (e : pte) : bool := has (flags e) PTE_V.
Definition tab_of (e : pte) : Z := pagenum_to_pageptr (ppn e).
(** An entry with an access permission is a leaf; without one it leads to a table. *)
Definition is_leaf (e : pte) : bool :=
  has (flags e) PTE_R || has (flags e) PTE_W || has (flags e) PTE_X.

Lemma ent_insert_eq m a e : pte_wf e -> ent (<[a := pte_encode e]> m) a = e.
Proof. intros. unfold ent. rewrite rd_insert_eq. by apply decode_encode. Qed.
Lemma ent_insert_ne m a b v : a <> b -> ent (<[a := v]> m) b = ent m b.
Proof. intros. unfold ent. by rewrite rd_insert_ne. Qed.

Lemma run_load_pte a s : load_pte a s = Ok (ent (mem s) a, s).
Proof. done. Qed.
Lemma run_store_pte a e s : store_pte a e s = Ok (tt, set_mem <[a := pte_encode e]> s).
Proof. done. Qed.

Lemma page_ptr_roundtrip p :
  page_ok p -> pagenum_to_pageptr (pageptr_to_pagenum p mod 17592186044416) = p.
Proof.
  intros (Ha & H0 & H1). unfold pagenum_to_pageptr, pageptr_to_pagenum, PAGE_ORDER, PAGE_SIZE in *.
  rewrite Z.shiftr_div_pow2, Z.shiftl_mul_pow2 by lia.
  change (2 ^ 12) with 4096 in *. change (2 ^ 56) with 72057594037927936 in *.
  wrap_lia.
Qed.

Lemma tab_of_ptab p g : page_ok p -> tab_of (ptab_pte p g) = p.
Proof. apply page_ptr_roundtrip. Qed.

Lemma valid_ptab p : valid (ptab_pte p 0) = true.
Proof. done. Qed.

Lemma land511 x : Z.land x 511 = x mod 512.
Proof. change 511 with (Z.ones 9). by rewrite Z.land_ones by lia. Qed.
Lemma VPN2_spec v : VPN2 v = v / 1073741824 mod 512.
Proof. unfold VPN2. rewrite land511, Z.shiftr_div_pow2 by lia. done. Qed.
Lemma VPN1_spec v : VPN1 v = v / 2097152 mod 512.
Proof. unfold VPN1. rewrite land511, Z.shiftr_div_pow2 by lia. done. Qed.
Lemma VPN0_spec v : VPN0 v = v / 4096 mod 512.
Proof. unfold VPN0. rewrite land511, Z.shiftr_div_pow2 by lia. done. Qed.

Definition idx (i : Z) : Prop := 0 <= i < 512.

Lemma VPN2_idx v : idx (VPN2 v).
Proof. rewrite VPN2_spec. apply Z.mod_pos_bound; lia. Qed.
Lemma VPN1_idx v : idx (VPN1 v).
Proof. rewrite VPN1_spec. apply Z.mod_pos_bound; lia. Qed.
Lemma VPN0_idx v : idx (VPN0 v).
Proof. rewrite VPN0_spec. apply Z.mod_pos_bound; lia. Qed.
#[export] Hint Resolve VPN2_idx VPN1_idx VPN0_idx : kern.

(** Entries of different tables are at different addresses. *)
Lemma slot_ne p q i j :
  page_ok p -> page_ok q -> p <> q -> idx i -> idx j -> p + 8 * i <> q + 8 * j.
Proof. intros (? & _) (? & _). unfold idx, PAGE_SIZE in *. intros. Z.div_mod_to_equations; lia. Qed.

Lemma slot_ne' p i j : i <> j -> p + 8 * i <> p + 8 * j.
Proof. lia. Qed.

Lemma slot_ne_page p q i :
  page_ok p -> page_ok q -> p <> q -> idx i -> p + 8 * i <> q.
Proof.
  intros Hp Hq Hne Hi. rewrite <- (Z.add_0_r q). change 0 with (8 * 0).
  apply slot_ne; try done.
Qed.
#[export] Hint Resolve slot_ne slot_ne' slot_ne_page : kern.

(** ** The user part of an address space

    User addresses all have the same level-2 index; the user part of the space
    rooted at [root] is what its entry leads to. *)

Definition USER_VPN2 : Z := 3.

Definition uslot (root : Z) : Z := root + 8 * USER_VPN2.

(** The address of the leaf entry for level-1 index [i1] and level-0 index
    [i0], when both tables on the way exist. *)
Definition upt1 (m : gmap Z Z) (root : Z) : Z := tab_of (ent m (uslot root)).
Definition upt0 (m : gmap Z Z) (root i1 : Z) : Z := tab_of (ent m (upt1 m root + 8 * i1)).
Definition has1 (m : gmap Z Z) (root : Z) : bool := valid (ent m (uslot root)).
Definition has0 (m : gmap Z Z) (root i1 : Z) : bool :=
  has1 m root && valid (ent m (upt1 m root + 8 * i1)).

Definition umap (m : gmap Z Z) (root i1 i0 : Z) : option pte :=
  if has0 m root i1 then
    let e := ent m (upt0 m root i1 + 8 * i0) in
    if valid e then Some e else None
  else None.

(** The pages [kmalloc(PAGE_SIZE)] will return, in order: the heap block when
    it is a whole page, then the free pages. *)
Definition fresh (s : kmem) (l : list Z) : list Z :=
  (if heap_end s - heap_start s =? PAGE_SIZE then [heap_start s] else []) ++ l.

(** The tables of a space and the pages still to be handed out: the tables are
    page frames, distinct from each other and from the pages to be handed out,
    no unused entry, in a table or in a page to be handed out, has a flag set,
    and the entries that lead to a table have the valid bit and no other. *)
Record space_wf (s : kmem) (l : list Z) (root : Z) : Prop := {
  sw_pool : pool s l;
  sw_heap : heap_wf s;
  sw_paged : heap_paged s;
  sw_nodup : NoDup (fresh s l);
  sw_fresh : Forall page_ok (fresh s l);
  sw_clean : forall p i, p ∈ fresh s l -> idx i -> flags (ent (mem s) (p + 8 * i)) = 0;
  sw_root : page_ok root /\ root ∉ fresh s l;
  sw_pt1 : has1 (mem s) root = true ->
    page_ok (upt1 (mem s) root) /\ upt1 (mem s) root <> root /\
    upt1 (mem s) root ∉ fresh s l;
  sw_pt0 : forall i, idx i -> has0 (mem s) root i = true ->
    page_ok (upt0 (mem s) root i) /\ upt0 (mem s) root i <> root /\
    upt0 (mem s) root i <> upt1 (mem s) root /\ upt0 (mem s) root i ∉ fresh s l;
  sw_inj : forall i j, idx i -> idx j -> has0 (mem s) root i = true ->
    has0 (mem s) root j = true -> upt0 (mem s) root i = upt0 (mem s) root j -> i = j;
  sw_unused : forall i j, idx i -> idx j -> has0 (mem s) root i = true ->
    valid (ent (mem s) (upt0 (mem s) root i + 8 * j)) = false ->
    flags (ent (mem s) (upt0 (mem s) root i + 8 * j)) = 0;
  sw_tab1 : has1 (mem s) root = true -> flags (ent (mem s) (uslot root)) = PTE_V;
  sw_tab0 : forall i, idx i -> has0 (mem s) root i = true ->
    flags (ent (mem s) (upt1 (mem s) root + 8 * i)) = PTE_V
}.

Lemma table_entry e : flags e = PTE_V -> is_leaf e = false /\ is_ptab e = true.
Proof. unfold is_leaf, is_ptab. by intros ->. Qed.

Lemma flags0_invalid e : flags e = 0 -> valid e = false.
Proof. unfold valid. by intros ->. Qed.
#[export] Hint Resolve flags0_invalid : kern.

Lemma idx3 : idx USER_VPN2.
Proof. unfold idx, USER_VPN2. lia. Qed.
#[export] Hint Resolve idx3 : kern.

(** ** Taking pages *)

Lemma kmalloc_fresh s l p ps :
  pool s l -> heap_wf s -> heap_paged s -> fresh s l = p :: ps ->
  exists s' l', kmalloc PAGE_SIZE s = Ok (p, s') /\ mem s' = mem s /\ satp s' = satp s /\
    main_mtag s' = main_mtag s /\ pool s' l' /\ heap_wf s' /\ heap_paged s' /\ fresh s' l' = ps /\
    (l' = l \/ l = p :: l').
Proof.
  intros Hpool Hh [Hle Hal] Ef. pose proof (heap_room s Hh) as Hroom.
  unfold kmalloc. change (round16 PAGE_SIZE) with PAGE_SIZE. rewrite Z.ltb_irrefl, bind_run.
  simpl. rewrite Hroom. unfold fresh in Ef. pose proof (hw_le s Hh).
  destruct (Z.eqb_spec (heap_end s - heap_start s) PAGE_SIZE) as [Hfull|Hnot]; simpl in Ef.
  - destruct (Z.leb_spec PAGE_SIZE (heap_end s - heap_start s)); [|lia].
    simplify_eq. exists (set_heap (heap_start s) (heap_start s) s), ps.
    replace (heap_end s - PAGE_SIZE) with (heap_start s) by lia. split_and!; try done.
    + by destruct Hpool; constructor.
    + destruct Hh. unfold PAGE_SIZE in *. constructor; unfold PAGE_SIZE; simpl; try lia.
      apply page_aligned_16. unfold PAGE_SIZE. auto.
    + split; simpl; rewrite Z.sub_diag; unfold PAGE_SIZE; [lia|discriminate].
    + unfold fresh. simpl. by rewrite Z.sub_diag.
    + by left.
  - subst l. destruct (Z.leb_spec PAGE_SIZE (heap_end s - heap_start s)); [lia|].
    destruct (alloc_page_spec s p ps Hpool) as [Ea Hp'].
    rewrite (bind_Ok _ _ _ _ _ Ea), bind_run. simpl. rewrite Hroom, Z.sub_diag.
    destruct (Z.ltb_spec (heap_end s - heap_start s) 0); [lia|].
    eexists _, ps. split_and!; try done.
    + by destruct Hh; constructor.
    + unfold fresh. simpl. by destruct (Z.eqb_spec (heap_end s - heap_start s) PAGE_SIZE).
    + by right.
Qed.

(** Replacing the pages to be handed out by a sublist keeps a space well
    formed. *)
Lemma space_wf_shrink s l root s' l' :
  space_wf s l root -> mem s' = mem s -> pool s' l' -> heap_wf s' -> heap_paged s' ->
  sublist (fresh s' l') (fresh s l) -> space_wf s' l' root.
Proof.
  intros [] Em Hp Hh Hpd Hsub.
  assert (Hin : forall x, x ∈ fresh s' l' -> x ∈ fresh s l)
    by (intros; by eapply elem_of_sublist).
  constructor; rewrite ?Em; try done.
  - by eapply sublist_NoDup.
  - apply Forall_forall. intros x Hx. rewrite Forall_forall in sw_fresh0. auto.
  - auto.
  - destruct sw_root0. split; auto.
  - intros H1. destruct (sw_pt2 H1) as (? & ? & ?). split_and!; auto.
  - intros i Hi H1. destruct (sw_pt3 i Hi H1) as (? & ? & ? & ?). split_and!; auto.
Qed.

(** Writing outside the link words keeps the pool. *)
Lemma pool_store s l a v : pool s l -> a ∉ l -> pool (set_mem <[a := v]> s) l.
Proof.
  intros [Hc Hn Hf] Ha. constructor; simpl; try done.
  eapply chain_frame; [|done]. intros x Hx. apply rd_insert_ne. set_solver.
Qed.

Lemma in_fresh s l x : x ∈ l -> x ∈ fresh s l.
Proof. unfold fresh. set_solver. Qed.

(** A table entry is not a page to be handed out, nor inside one. *)
Lemma tab_slot_fresh s l root p i :
  space_wf s l root -> page_ok p -> p ∉ fresh s l -> idx i ->
  (p + 8 * i ∉ l) /\ forall q j, q ∈ fresh s l -> idx j -> p + 8 * i <> q + 8 * j.
Proof.
  intros Hw Hp Hn Hi. assert (Hf := sw_fresh _ _ _ Hw). rewrite Forall_forall in Hf.
  assert (G : forall q j, q ∈ fresh s l -> idx j -> p + 8 * i <> q + 8 * j).
  { intros q j Hq Hj. apply slot_ne; auto. intros ->. done. }
  split; [|done]. intros Hin.
  apply (G (p + 8 * i) 0); [by apply in_fresh|unfold idx; lia|lia].
Qed.

(** The tables of the user part of a space. *)
Definition is_table (m : gmap Z Z) (root t : Z) : Prop :=
  t = root \/ (has1 m root = true /\ t = upt1 m root) \/
  exists i, idx i /\ has0 m root i = true /\ t = upt0 m root i.

(** Linking a new level-1 table into the root. *)
Lemma link_pt1 s l root p :
  space_wf s l root -> has1 (mem s) root = false ->
  page_ok p -> p <> root -> p ∉ fresh s l ->
  (forall i, idx i -> flags (ent (mem s) (p + 8 * i)) = 0) ->
  let s' := set_mem <[uslot root := pte_encode (ptab_pte p 0)]> s in
  space_wf s' l root /\ has1 (mem s') root = true /\ upt1 (mem s') root = p /\
  (forall i, idx i -> has0 (mem s') root i = false) /\
  (forall t, is_table (mem s') root t -> is_table (mem s) root t \/ t = p).
Proof.
  intros Hw H1 Hp Hpr Hpf Hclean s'.
  assert (Em : mem s' = <[uslot root := pte_encode (ptab_pte p 0)]> (mem s)) by done.
  destruct (sw_root _ _ _ Hw) as [Hr Hrf].
  destruct (tab_slot_fresh s l root root USER_VPN2 Hw Hr Hrf idx3) as [Hsl Hsf].
  assert (E2 : ent (mem s') (uslot root) = ptab_pte p 0) by (apply ent_insert_eq; auto with kern).
  assert (Eh1 : has1 (mem s') root = true) by (unfold has1; by rewrite E2).
  assert (Ep1 : upt1 (mem s') root = p) by (unfold upt1; rewrite E2; by apply tab_of_ptab).
  assert (Eh0 : forall i, idx i -> has0 (mem s') root i = false).
  { intros i Hi. unfold has0. rewrite Eh1, Ep1, andb_true_l, Em, ent_insert_ne by (unfold uslot; auto with kern). auto with kern. }
  assert (Et : forall t, is_table (mem s') root t -> is_table (mem s) root t \/ t = p).
  { intros t [->|[[_ ->]|(i & Hi & Hh & _)]]; [by left; left|by right|].
    by rewrite Eh0 in Hh. }
  split_and!; try done. destruct Hw.
  constructor; try done.
  - by apply pool_store.
  - by destruct sw_heap0; constructor.
  - intros q i Hq Hi. change (fresh s' l) with (fresh s l) in Hq. rewrite Em, ent_insert_ne by (unfold uslot; auto). auto.
  - rewrite Ep1. auto.
  - intros i Hi. by rewrite Eh0.
  - intros i j Hi _. by rewrite Eh0.
  - intros i j Hi _. by rewrite Eh0.
  - by rewrite E2.
  - intros i Hi. by rewrite Eh0.
Qed.

(** Linking a new level-0 table into the level-1 table. *)
Lemma link_pt0 s l root i1 p :
  space_wf s l root -> idx i1 -> has1 (mem s) root = true -> has0 (mem s) root i1 = false ->
  page_ok p -> p <> root -> p <> upt1 (mem s) root ->
  (forall i, idx i -> has0 (mem s) root i = true -> upt0 (mem s) root i <> p) ->
  p ∉ fresh s l ->
  (forall i, idx i -> flags (ent (mem s) (p + 8 * i)) = 0) ->
  let s' := set_mem <[upt1 (mem s) root + 8 * i1 := pte_encode (ptab_pte p 0)]> s in
  space_wf s' l root /\ has0 (mem s') root i1 = true /\ upt0 (mem s') root i1 = p /\
  (forall j, idx j -> flags (ent (mem s') (p + 8 * j)) = 0) /\
  (forall i j, idx i -> idx j -> umap (mem s') root i j = umap (mem s) root i j) /\
  (forall t, is_table (mem s') root t -> is_table (mem s) root t \/ t = p) /\
  (forall j, idx j -> j <> i1 -> has0 (mem s') root j = has0 (mem s) root j).
Proof.
  intros Hw Hi1 H1 H0 Hp Hpr Hp1 Hp0 Hpf Hclean s'.
  assert (Em : mem s' = <[upt1 (mem s) root + 8 * i1 := pte_encode (ptab_pte p 0)]> (mem s))
    by done.
  destruct (sw_root _ _ _ Hw) as [Hr Hrf]. destruct (sw_pt1 _ _ _ Hw H1) as (Ht & Htr & Htf).
  set (t := upt1 (mem s) root) in *.
  destruct (tab_slot_fresh s l root t i1 Hw Ht Htf Hi1) as [Hsl Hsf].
  assert (Eu : ent (mem s') (uslot root) = ent (mem s) (uslot root))
    by (apply ent_insert_ne; unfold uslot; auto with kern).
  assert (Eh1 : has1 (mem s') root = true) by (unfold has1; by rewrite Eu).
  assert (Et : upt1 (mem s') root = t) by (unfold upt1; by rewrite Eu).
  assert (Ei1 : ent (mem s') (t + 8 * i1) = ptab_pte p 0) by (apply ent_insert_eq; auto with kern).
  assert (Ej : forall j, idx j -> j <> i1 -> ent (mem s') (t + 8 * j) = ent (mem s) (t + 8 * j))
    by (intros; apply ent_insert_ne; auto with kern).
  assert (Eh0 : has0 (mem s') root i1 = true) by (unfold has0; by rewrite Eh1, Et, Ei1).
  assert (Ep0 : upt0 (mem s') root i1 = p) by (unfold upt0; rewrite Et, Ei1; by apply tab_of_ptab).
  assert (Ehj : forall j, idx j -> j <> i1 -> has0 (mem s') root j = has0 (mem s) root j)
    by (intros; unfold has0; rewrite Eh1, H1, Et, Ej by done; done).
  assert (Epj : forall j, idx j -> j <> i1 -> upt0 (mem s') root j = upt0 (mem s) root j)
    by (intros; unfold upt0; rewrite Et, Ej by done; done).
  assert (Epp : forall j, idx j -> flags (ent (mem s') (p + 8 * j)) = 0)
    by (intros; rewrite Em, ent_insert_ne by auto with kern; auto).
  assert (El : forall i j, idx i -> idx j -> has0 (mem s) root i = true ->
      ent (mem s') (upt0 (mem s) root i + 8 * j) = ent (mem s) (upt0 (mem s) root i + 8 * j)).
  { intros i j Hi Hj H. destruct (sw_pt0 _ _ _ Hw i Hi H) as (Ho & _ & Hne & _).
    apply ent_insert_ne. auto with kern. }
  split_and!; try done.
  - destruct Hw. constructor; try done.
    + by apply pool_store.
    + by destruct sw_heap0; constructor.
    + intros q i Hq Hi. rewrite Em, ent_insert_ne by auto. auto.
    + by rewrite Et.
    + intros i Hi. destruct (decide (i = i1)) as [->|Hne].
      * rewrite Ep0, Et. auto.
      * rewrite Ehj, Epj, Et by done. auto.
    + intros i j Hi Hj. destruct (decide (i = i1)) as [->|Hni], (decide (j = i1)) as [->|Hnj].
      * done.
      * rewrite Ep0, (Ehj j), (Epj j) by done. intros _ Hh E. by destruct (Hp0 j Hj Hh).
      * rewrite Ep0, (Ehj i), (Epj i) by done. intros Hh _ E. by destruct (Hp0 i Hi Hh).
      * rewrite !Ehj, !Epj by done. auto.
    + intros i j Hi Hj. destruct (decide (i = i1)) as [->|Hni].
      * rewrite Ep0. auto.
      * rewrite Ehj, Epj by done. intros Hh. rewrite El by done. auto.
    + rewrite Eu. auto.
    + intros i Hi. rewrite Et. destruct (decide (i = i1)) as [->|Hni]; [by rewrite Ei1|].
      rewrite Ehj, Ej by done. auto.
  - intros i j Hi Hj. unfold umap. destruct (decide (i = i1)) as [->|Hni].
    + rewrite Eh0, Ep0, H0. by rewrite flags0_invalid by auto.
    + rewrite Ehj, Epj by done. destruct (has0 (mem s) root i) eqn:Hh; [|done].
      by rewrite El.
  - intros t' [->|[[_ ->]|(i & Hi & Hh & ->)]].
    + by left; left.
    + left; right; left. by rewrite Et.
    + destruct (decide (i = i1)) as [->|Hne]; [by right|].
      left; right; right. exists i. by rewrite <- Ehj, Epj.
Qed.

(** Writing a leaf entry changes that mapping and no other. *)
Lemma write_leaf s l root i1 i0 e :
  space_wf s l root -> idx i1 -> idx i0 -> has0 (mem s) root i1 = true -> pte_wf e ->
  (valid e = false -> flags e = 0) ->
  let a := upt0 (mem s) root i1 + 8 * i0 in
  let s' := set_mem <[a := pte_encode e]> s in
  space_wf s' l root /\ has0 (mem s') root i1 = true /\
  upt0 (mem s') root i1 = upt0 (mem s) root i1 /\
  umap (mem s') root i1 i0 = (if valid e then Some e else None) /\
  (forall i j, idx i -> idx j -> (i, j) <> (i1, i0) ->
     umap (mem s') root i j = umap (mem s) root i j) /\
  (forall t, is_table (mem s') root t -> is_table (mem s) root t) /\
  (forall j, idx j -> has0 (mem s') root j = has0 (mem s) root j /\ upt0 (mem s') root j = upt0 (mem s) root j).
Proof.
  intros Hw Hi1 Hi0 H0 He Hun a s'.
  assert (Em : mem s' = <[a := pte_encode e]> (mem s)) by done.
  assert (H1 : has1 (mem s) root = true) by (unfold has0 in H0; by apply andb_prop in H0 as [? _]).
  destruct (sw_root _ _ _ Hw) as [Hr Hrf]. destruct (sw_pt1 _ _ _ Hw H1) as (Ht & Htr & Htf).
  destruct (sw_pt0 _ _ _ Hw i1 Hi1 H0) as (Hq & Hqr & Hqt & Hqf).
  destruct (tab_slot_fresh s l root _ i0 Hw Hq Hqf Hi0) as [Hsl Hsf]. fold a in Hsl, Hsf.
  assert (Eu : ent (mem s') (uslot root) = ent (mem s) (uslot root))
    by (apply ent_insert_ne; unfold uslot, a; auto with kern).
  assert (Et : upt1 (mem s') root = upt1 (mem s) root) by (unfold upt1; by rewrite Eu).
  assert (Ej : forall j, idx j -> ent (mem s') (upt1 (mem s) root + 8 * j)
                               = ent (mem s) (upt1 (mem s) root + 8 * j))
    by (intros; apply ent_insert_ne; unfold a; auto with kern).
  assert (Ehj : forall j, idx j -> has0 (mem s') root j = has0 (mem s) root j)
    by (intros; unfold has0, has1; rewrite Eu, Et, Ej by done; done).
  assert (Epj : forall j, idx j -> upt0 (mem s') root j = upt0 (mem s) root j)
    by (intros; unfold upt0; rewrite Et, Ej by done; done).
  assert (Ea : ent (mem s') a = e) by (by apply ent_insert_eq).
  assert (El : forall i j, idx i -> idx j -> has0 (mem s) root i = true -> (i, j) <> (i1, i0) ->
      ent (mem s') (upt0 (mem s) root i + 8 * j) = ent (mem s) (upt0 (mem s) root i + 8 * j)).
  { intros i j Hi Hj Hh Hne. apply ent_insert_ne. unfold a.
    destruct (decide (i = i1)) as [->|Hni]; [apply slot_ne'; congruence|].
    destruct (sw_pt0 _ _ _ Hw i Hi Hh) as (Hqi & _). apply slot_ne; try done.
    intros E. apply Hni. symmetry. eapply (sw_inj _ _ _ Hw); eauto. }
  split_and!.
  - destruct Hw. constructor; try done.
    + by apply pool_store.
    + by destruct sw_heap0; constructor.
    + intros q i Hq' Hi. rewrite Em, ent_insert_ne by auto. auto.
    + unfold has1. by rewrite Eu, Et.
    + intros i Hi. rewrite Ehj, Epj, Et by done. auto.
    + intros i j Hi Hj. rewrite !Ehj, !Epj by done. auto.
    + intros i j Hi Hj. rewrite Ehj, Epj by done. intros Hh.
      destruct (decide ((i, j) = (i1, i0))) as [E|Hne].
      * injection E as -> ->. fold a. rewrite Ea. auto.
      * rewrite El by done. auto.
    + unfold has1. by rewrite Eu.
    + intros i Hi. rewrite Ehj, Et, Ej by done. auto.
  - by rewrite Ehj.
  - by rewrite Epj.
  - unfold umap. rewrite Ehj, H0, Epj by done. fold a. by rewrite Ea.
  - intros i j Hi Hj Hne. unfold umap. rewrite Ehj, Epj by done.
    destruct (has0 (mem s) root i) eqn:Hh; [|done]. by rewrite El.
  - intros t [->|[[_ ->]|(i & Hi & Hh & ->)]].
    + by left.
    + right; left. by rewrite Et.
    + right; right. exists i. by rewrite <- Ehj, Epj.
  - auto.
Qed.

(** ** The walk *)

Lemma walk_level_valid slot c s :
  valid (ent (mem s) slot) = true -> walk_level slot c s = Ok (tab_of (ent (mem s) slot), s).
Proof.
  intros Hv. unfold walk_level. rewrite bind_run, run_load_pte. cbn [obind].
  unfold valid in Hv. rewrite Hv, andb_false_r. done.
Qed.

Lemma walk_level_new slot s p s1 :
  valid (ent (mem s) slot) = false -> kmalloc PAGE_SIZE s = Ok (p, s1) -> page_ok p ->
  walk_level slot CREATE_PTE s = Ok (p, set_mem <[slot := pte_encode (ptab_pte p 0)]> s1).
Proof.
  intros Hv Hk Hp. unfold walk_level. rewrite bind_run, run_load_pte. cbn [obind].
  unfold valid in Hv. rewrite Hv. change (negb (CREATE_PTE =? 0) && negb false) with true.
  cbn iota. rewrite bind_run, (bind_Ok _ _ _ _ _ Hk), run_store_pte. cbn [obind].
  rewrite bind_run, run_load_pte. cbn [obind]. unfold mret, M_ret. do 2 f_equal.
  cbn [mem set_mem]. rewrite ent_insert_eq by auto with kern. by apply tab_of_ptab.
Qed.

(** What a walk keeps: the registers, and the pages handed out are taken from
    the front of those to be handed out. *)
Definition took (n : nat) (s : kmem) (l : list Z) (s' : kmem) (l' : list Z) : Prop :=
  satp s' = satp s /\ main_mtag s' = main_mtag s /\
  exists used, fresh s l = used ++ fresh s' l' /\ (length used <= n)%nat.

(** The contents of the pages that are neither tables of the space nor still to
    be handed out: an operation on the user part of the tables leaves them, and
    they stay such pages; in the root table it may change the user entry only. *)
Record kept (root : Z) (s : kmem) (l : list Z) (s' : kmem) (l' : list Z) : Prop := {
  kp_page : forall p, page_ok p -> p ∉ fresh s l -> ~ is_table (mem s) root p ->
    (p ∉ fresh s' l') /\ ~ is_table (mem s') root p /\
    forall i, idx i -> rd (mem s') (p + 8 * i) = rd (mem s) (p + 8 * i);
  kp_root : forall i, idx i -> i <> USER_VPN2 -> rd (mem s') (root + 8 * i) = rd (mem s) (root + 8 * i)
}.

Lemma kept_same root s l s' l' :
  mem s' = mem s -> (forall x, x ∈ fresh s' l' -> x ∈ fresh s l) -> kept root s l s' l'.
Proof.
  intros Em Hfr. constructor; rewrite Em; [|done]. intros p _ Hn Ht. split_and!; auto.
Qed.

Lemma kept_refl root s l : kept root s l s l.
Proof. by apply kept_same. Qed.
#[export] Hint Resolve kept_refl : kern.

Lemma kept_trans root s l s1 l1 s2 l2 :
  kept root s l s1 l1 -> kept root s1 l1 s2 l2 -> kept root s l s2 l2.
Proof.
  intros [K1 R1] [K2 R2]. constructor.
  - intros p Hp Hn Ht. destruct (K1 p Hp Hn Ht) as (Hn1 & Ht1 & E1).
    destruct (K2 p Hp Hn1 Ht1) as (Hn2 & Ht2 & E2). split_and!; try done.
    intros i Hi. by rewrite E2, E1.
  - intros i Hi Hne. by rewrite R2, R1.
Qed.

(** A write to an entry of a table, of which the tables that are new come from
    the pages to be handed out. *)
Lemma kept_store root s l s1 l' t j v :
  mem s1 = mem s -> (forall x, x ∈ fresh s1 l' -> x ∈ fresh s l) ->
  page_ok root -> page_ok t -> is_table (mem s) root t -> idx j -> (t = root -> j = USER_VPN2) ->
  (forall q, is_table (<[t + 8 * j := v]> (mem s)) root q -> is_table (mem s) root q \/ q ∈ fresh s l) ->
  kept root s l (set_mem <[t + 8 * j := v]> s1) l'.
Proof.
  intros Em Hfr Hr Ht Htab Hj Hroot Hnew. constructor; cbn [mem set_mem]; rewrite Em.
  - intros p Hp Hn Hnt. split_and!.
    + intros Hin. by apply Hn, Hfr.
    + intros Hq. by destruct (Hnew p Hq).
    + intros i Hi. apply rd_insert_ne. apply slot_ne; try done. intros ->. done.
  - intros i Hi Hne. apply rd_insert_ne. destruct (decide (t = root)) as [->|Hnr].
    + apply slot_ne'. by rewrite Hroot.
    + by apply slot_ne.
Qed.

Lemma took_refl n s l : took n s l s l.
Proof. split_and!; try done. exists []. split; [done|simpl; lia]. Qed.

Lemma took_trans n1 n2 s l s1 l1 s2 l2 :
  took n1 s l s1 l1 -> took n2 s1 l1 s2 l2 -> took (n1 + n2) s l s2 l2.
Proof.
  intros (? & ? & u1 & E1 & ?) (? & ? & u2 & E2 & ?). split_and!; try congruence.
  exists (u1 ++ u2). rewrite <- app_assoc, <- E2. split; [done|]. rewrite length_app. lia.
Qed.

Lemma took_fresh n s l s' l' x :
  took n s l s' l' -> x ∈ fresh s' l' -> x ∈ fresh s l.
Proof. intros (_ & _ & u & -> & _) Hx. apply elem_of_app. by right. Qed.

Lemma took_length n s l s' l' :
  took n s l s' l' -> (length (fresh s l) <= length (fresh s' l') + n)%nat.
Proof. intros (_ & _ & u & -> & H). rewrite length_app. lia. Qed.

(** Taking one page from a well-formed space. *)
Lemma take_page s l root :
  space_wf s l root -> (1 <= length (fresh s l))%nat ->
  exists p s1 l1, kmalloc PAGE_SIZE s = Ok (p, s1) /\ mem s1 = mem s /\
    space_wf s1 l1 root /\ page_ok p /\ p ∈ fresh s l /\ (p ∉ fresh s1 l1) /\ took 1 s l s1 l1.
Proof.
  intros Hw Hlen. destruct (fresh s l) as [|p ps] eqn:Ef; [simpl in Hlen; lia|].
  destruct (kmalloc_fresh s l p ps (sw_pool _ _ _ Hw) (sw_heap _ _ _ Hw) (sw_paged _ _ _ Hw) Ef)
    as (s1 & l1 & Ek & Em & Es & Et & Hp1 & Hh1 & Hpd1 & Ef1 & _).
  pose proof (sw_nodup _ _ _ Hw) as Hnd. pose proof (sw_fresh _ _ _ Hw) as Hpg.
  rewrite Ef in Hnd, Hpg. apply NoDup_cons in Hnd as [Hni Hnd].
  apply Forall_cons in Hpg as [Hpp _].
  assert (Hw1 : space_wf s1 l1 root).
  { eapply space_wf_shrink; eauto. rewrite Ef, Ef1. by apply sublist_cons. }
  exists p, s1, l1. rewrite Ef1. split_and!; try done; [set_solver|].
  unfold took. split_and!; [done|done|]. exists [p]. rewrite Ef1. split; [done|simpl; lia].
Qed.

Lemma walk_level2 s l root :
  space_wf s l root -> (1 <= length (fresh s l))%nat ->
  exists s' l', walk_level (uslot root) CREATE_PTE s = Ok (upt1 (mem s') root, s') /\
    space_wf s' l' root /\ has1 (mem s') root = true /\ took 1 s l s' l' /\
    (forall i j, idx i -> idx j -> umap (mem s') root i j = umap (mem s) root i j) /\
    (forall t, is_table (mem s') root t -> is_table (mem s) root t \/ t ∈ fresh s l) /\
    kept root s l s' l' /\ (has1 (mem s) root = true -> s' = s /\ l' = l) /\
    (forall j, idx j -> has0 (mem s') root j = has0 (mem s) root j).
Proof.
  intros Hw Hlen. destruct (has1 (mem s) root) eqn:H1.
  - exists s, l. rewrite walk_level_valid by done. split_and!; auto with kern; apply took_refl.
  - destruct (take_page s l root Hw Hlen) as (p & s1 & l1 & Ek & Em & Hw1 & Hp & Hin & Hni & Htk).
    assert (Hpr : p <> root) by (intros ->; by destruct (sw_root _ _ _ Hw)).
    destruct (link_pt1 s1 l1 root p) as (Hw2 & Eh1 & Ep1 & Eh0 & Et); try done.
    { by rewrite Em. }
    { intros i Hi. rewrite Em. by apply (sw_clean _ _ _ Hw). }
    eexists _, l1. split_and!.
    + rewrite (walk_level_new _ _ p s1) by done. by rewrite Ep1.
    + done.
    + done.
    + destruct Htk as (? & ? & ?). by split_and!.
    + intros i j Hi Hj. unfold umap. rewrite Eh0 by done.
      unfold has0. by rewrite H1.
    + intros t Ht. rewrite Em in Et. destruct (Et t Ht) as [?| ->]; [by left|by right].
    + apply kept_store; auto with kern; [|apply Hw|apply Hw|by left|].
      * intros x. by apply took_fresh with (n := 1%nat).
      * intros t Ht. cbn [mem set_mem] in Et. rewrite Em in Et.
        destruct (Et t Ht) as [?| ->]; [by left|by right].
    + done.
    + intros j Hj. rewrite Eh0 by done. unfold has0. by rewrite H1.
Qed.

Lemma walk_level1 s l root i1 :
  space_wf s l root -> (1 <= length (fresh s l))%nat -> has1 (mem s) root = true -> idx i1 ->
  exists s' l', walk_level (upt1 (mem s) root + 8 * i1) CREATE_PTE s
      = Ok (upt0 (mem s') root i1, s') /\
    space_wf s' l' root /\ has0 (mem s') root i1 = true /\ took 1 s l s' l' /\
    (forall i j, idx i -> idx j -> umap (mem s') root i j = umap (mem s) root i j) /\
    (forall t, is_table (mem s') root t -> is_table (mem s) root t \/ t ∈ fresh s l) /\
    kept root s l s' l' /\ (has0 (mem s) root i1 = true -> s' = s /\ l' = l) /\
    (forall j, idx j -> j <> i1 -> has0 (mem s') root j = has0 (mem s) root j).
Proof.
  intros Hw Hlen H1 Hi1. destruct (has0 (mem s) root i1) eqn:H0.
  - exists s, l. unfold has0 in H0. rewrite H1, andb_true_l in H0.
    rewrite walk_level_valid by done. split_and!; try done.
    + unfold has0. by rewrite H1, H0.
    + apply took_refl.
    + by left.
  - destruct (take_page s l root Hw Hlen) as (p & s1 & l1 & Ek & Em & Hw1 & Hp & Hin & Hni & Htk).
    assert (Hpr : p <> root) by (intros ->; by destruct (sw_root _ _ _ Hw)).
    assert (Hp1 : p <> upt1 (mem s) root).
    { intros ->. destruct (sw_pt1 _ _ _ Hw H1) as (_ & _ & ?). done. }
    rewrite <- Em in H0, H1, Hp1.
    destruct (link_pt0 s1 l1 root i1 p) as (Hw2 & Eh0 & Ep0 & _ & Eu & Et & Ehj); try done.
    { intros i Hi Hh E. rewrite Em in Hh, E. subst p.
      destruct (sw_pt0 _ _ _ Hw i Hi Hh) as (_ & _ & _ & ?). done. }
    { intros i Hi. rewrite Em. by apply (sw_clean _ _ _ Hw). }
    rewrite Em in *.
    eexists _, l1. split_and!.
    + rewrite (walk_level_new _ _ p s1); [by rewrite Ep0| |done|done].
      unfold has0 in H0. by rewrite H1, andb_true_l in H0.
    + done.
    + done.
    + destruct Htk as (? & ? & ?). by split_and!.
    + done.
    + intros t Ht. destruct (Et t Ht) as [?| ->]; [by left|by right].
    + apply kept_store; auto; [|apply Hw|by apply (sw_pt1 _ _ _ Hw)|by right; left| |].
      * intros x. by apply took_fresh with (n := 1%nat).
      * by destruct (sw_pt1 _ _ _ Hw H1) as (_ & ? & _).
      * intros t Ht. cbn [mem set_mem] in Et. rewrite Em in Et.
        destruct (Et t Ht) as [?| ->]; [by left|by right].
    + done.
    + done.
Qed.

Definition user_vma (vma : Z) : Prop := VPN2 vma = USER_VPN2.

(** [walk_pt] with [create] reaches the leaf entry of the address, building at
    most two tables, and leaves every mapping as it was. *)
Lemma walk_pt_create s l root vma :
  space_wf s l root -> (2 <= length (fresh s l))%nat -> user_vma vma ->
  exists s' l', walk_pt root vma CREATE_PTE s
      = Ok (upt0 (mem s') root (VPN1 vma) + 8 * VPN0 vma, s') /\
    space_wf s' l' root /\ has0 (mem s') root (VPN1 vma) = true /\ took 2 s l s' l' /\
    (forall i j, idx i -> idx j -> umap (mem s') root i j = umap (mem s) root i j) /\
    (forall t, is_table (mem s') root t -> is_table (mem s) root t \/ t ∈ fresh s l) /\
    kept root s l s' l' /\
    (length (fresh s l) <= length (fresh s' l') + Nat.b2n (negb (has1 (mem s) root))
       + Nat.b2n (negb (has0 (mem s) root (VPN1 vma))))%nat /\
    (forall j, idx j -> j <> VPN1 vma -> has0 (mem s') root j = has0 (mem s) root j).
Proof.
  intros Hw Hlen Hu. unfold walk_pt. rewrite Hu.
  destruct (walk_level2 s l root Hw) as (s1 & l1 & E1 & Hw1 & H1 & Ht1 & Eu1 & Tt1 & K1 & Sk1 & Eh1); [lia|].
  destruct (walk_level1 s1 l1 root (VPN1 vma)) as (s2 & l2 & E2 & Hw2 & H0 & Ht2 & Eu2 & Tt2 & K2 & Sk2 & Eh2);
    auto with kern.
  { destruct Ht1 as (_ & _ & u & E & Hl). apply (f_equal length) in E.
    rewrite length_app in E. lia. }
  exists s2, l2. split_and!; try done.
  - change (root + 8 * USER_VPN2) with (uslot root).
    rewrite (bind_Ok _ _ _ _ _ E1), (bind_Ok _ _ _ _ _ E2). done.
  - by apply (took_trans 1 1 _ _ s1 l1).
  - intros. by rewrite Eu2, Eu1.
  - intros t Ht. destruct (Tt2 t Ht) as [Ht'|Hin]; [by apply Tt1|right].
    destruct Ht1 as (_ & _ & u & -> & _). set_solver.
  - by eapply kept_trans.
  - pose proof (took_length _ _ _ _ _ Ht1). pose proof (took_length _ _ _ _ _ Ht2).
    rewrite <- Eh1 by auto with kern.
    assert (Hc2 : (length (fresh s1 l1) <= length (fresh s2 l2)
       + Nat.b2n (negb (has0 (mem s1) root (VPN1 vma))))%nat).
    { destruct (has0 (mem s1) root (VPN1 vma)); [destruct Sk2 as [-> ->]; [done|]|]; cbn; lia. }
    destruct (has1 (mem s) root); [destruct Sk1 as [-> ->]; [done|]|]; cbn; lia.
  - intros j Hj Hne. by rewrite Eh2, Eh1.
Qed.

(** ** Mapping a page *)

(** Isolation: a mapped frame is neither a table nor a page still to be handed
    out, and no frame is mapped at two addresses. *)
Record frames_ok (s : kmem) (l : list Z) (root : Z) : Prop := {
  fo_fresh : forall i j e, idx i -> idx j -> umap (mem s) root i j = Some e ->
    tab_of e ∉ fresh s l;
  fo_table : forall i j e, idx i -> idx j -> umap (mem s) root i j = Some e ->
    ~ is_table (mem s) root (tab_of e);
  fo_inj : forall i j i' j' e e', idx i -> idx j -> idx i' -> idx j' ->
    umap (mem s) root i j = Some e -> umap (mem s) root i' j' = Some e' ->
    tab_of e = tab_of e' -> (i, j) = (i', j');
  fo_page : forall i j e, idx i -> idx j -> umap (mem s) root i j = Some e -> page_ok (tab_of e)
}.

Lemma is_table_fresh s l root t :
  space_wf s l root -> is_table (mem s) root t -> t ∉ fresh s l.
Proof.
  intros Hw [->|[[H1 ->]|(i & Hi & H0 & ->)]].
  - by destruct (sw_root _ _ _ Hw).
  - by destruct (sw_pt1 _ _ _ Hw H1) as (_ & _ & ?).
  - by destruct (sw_pt0 _ _ _ Hw i Hi H0) as (_ & _ & _ & ?).
Qed.

(** The flags an address has before it is mapped: none when it is unmapped. *)
Definition old_flags (m : gmap Z Z) (root vma : Z) : Z :=
  match umap m root (VPN1 vma) (VPN0 vma) with Some e => flags e | None => 0 end.

Lemma leaf_old_flags s l root vma :
  space_wf s l root -> has0 (mem s) root (VPN1 vma) = true ->
  flags (ent (mem s) (upt0 (mem s) root (VPN1 vma) + 8 * VPN0 vma)) = old_flags (mem s) root vma.
Proof.
  intros Hw H0. unfold old_flags, umap. rewrite H0. cbn zeta.
  destruct (valid (ent _ _)) eqn:Hv; [done|].
  apply (sw_unused _ _ _ Hw); auto with kern.
Qed.

Lemma has_V f : has f PTE_V = Z.odd f.
Proof.
  unfold has, PTE_V. change (Z.shiftl 1 0) with (Z.ones 1). rewrite Z.land_ones by lia.
  change (2 ^ 1) with 2. rewrite Zmod_odd. by destruct (Z.odd f).
Qed.

Lemma odd_u8 z : Z.odd (u8 z) = Z.odd z.
Proof.
  unfold u8. rewrite (Z.div_mod z 256) at 2 by lia.
  rewrite Z.add_comm, Z.odd_add_mul_even; [done|by exists 128].
Qed.

Lemma has_V_lor x y : has (u8 (Z.lor x (Z.lor y PTE_V))) PTE_V = true.
Proof.
  rewrite has_V, odd_u8, <- !Z.bit0_odd, !Z.lor_spec. change (Z.testbit PTE_V 0) with true.
  by rewrite !orb_true_r.
Qed.

(** The flags [memory_alloc_and_map_page] and [memory_set_page_flags] write. *)
Definition map_flags (old rwxug_flags : Z) : Z :=
  u8 (Z.lor old (Z.lor (Z.lor (Z.lor rwxug_flags PTE_A) PTE_D) PTE_V)).

(** Writing a valid leaf with frame [p] keeps isolation when [p] is new. *)
Lemma write_leaf_frames s l root i1 i0 e p :
  space_wf s l root -> frames_ok s l root -> idx i1 -> idx i0 ->
  has0 (mem s) root i1 = true -> pte_wf e -> valid e = true -> tab_of e = p ->
  page_ok p -> p ∉ fresh s l -> ~ is_table (mem s) root p ->
  (forall i j e', idx i -> idx j -> umap (mem s) root i j = Some e' ->
     (i, j) <> (i1, i0) -> tab_of e' <> p) ->
  frames_ok (set_mem <[upt0 (mem s) root i1 + 8 * i0 := pte_encode e]> s) l root.
Proof.
  intros Hw Hf Hi1 Hi0 H0 He Hv Hp Hpok Hpf Hpt Hpm.
  destruct (write_leaf s l root i1 i0 e Hw Hi1 Hi0 H0 He) as (_ & _ & _ & Eu & Eo & Et & _);
    [by rewrite Hv|].
  rewrite Hv in Eu. set (s' := set_mem _ s) in *.
  assert (Hcase : forall i j e', idx i -> idx j -> umap (mem s') root i j = Some e' ->
     ((i, j) = (i1, i0) /\ e' = e) \/ ((i, j) <> (i1, i0) /\ umap (mem s) root i j = Some e')).
  { intros i j e' Hi Hj E. destruct (decide ((i, j) = (i1, i0))) as [Eq|Hne].
    - left. injection Eq as -> ->. split; [done|congruence].
    - right. rewrite Eo in E by done. done. }
  destruct Hf as [Hf1 Hf2 Hf3 Hf4]. constructor.
  - intros i j e' Hi Hj E. change (fresh s' l) with (fresh s l).
    destruct (Hcase i j e' Hi Hj E) as [[_ ->]|[_ E']]; [by rewrite Hp|eauto].
  - intros i j e' Hi Hj E Htab. apply Et in Htab.
    destruct (Hcase i j e' Hi Hj E) as [[_ ->]|[_ E']]; [by rewrite Hp in Htab|].
    exact (Hf2 i j e' Hi Hj E' Htab).
  - intros i j i' j' e1 e2 Hi Hj Hi' Hj' E1 E2 Heq.
    destruct (Hcase i j e1 Hi Hj E1) as [[Ea ->]|[Na E1']],
      (Hcase i' j' e2 Hi' Hj' E2) as [[Eb ->]|[Nb E2']].
    + by rewrite Ea, Eb.
    + destruct (Hpm i' j' e2 Hi' Hj' E2' Nb). by rewrite <- Heq.
    + destruct (Hpm i j e1 Hi Hj E1' Na). by rewrite Heq.
    + exact (Hf3 i j i' j' e1 e2 Hi Hj Hi' Hj' E1' E2' Heq).
  - intros i j e' Hi Hj E. destruct (Hcase i j e' Hi Hj E) as [[_ ->]|[_ E']]; [by rewrite Hp|eauto].
Qed.

(** A walk keeps isolation: its new tables come from the pages to be handed
    out. *)
Lemma walk_frames s l root s' l' :
  frames_ok s l root -> took 2 s l s' l' ->
  (forall i j, idx i -> idx j -> umap (mem s') root i j = umap (mem s) root i j) ->
  (forall t, is_table (mem s') root t -> is_table (mem s) root t \/ t ∈ fresh s l) ->
  frames_ok s' l' root.
Proof.
  intros [H1 H2 H3 H4] (_ & _ & u & Ef & _) Eu Et. constructor.
  - intros i j e Hi Hj. rewrite Eu by done. intros E Hin. apply (H1 i j e Hi Hj E).
    rewrite Ef. apply elem_of_app. by right.
  - intros i j e Hi Hj. rewrite Eu by done. intros E Htab.
    destruct (Et _ Htab); [exact (H2 i j e Hi Hj E H)|exact (H1 i j e Hi Hj E H)].
  - intros i j i' j' e e' Hi Hj Hi' Hj'. rewrite !Eu by done. by apply H3.
  - intros i j e Hi Hj. rewrite Eu by done. by apply H4.
Qed.

(** The invariant of the active address space: the space register names the
    root [root], its tables are well formed and its frames isolated. *)
Record vm_inv (s : kmem) (l : list Z) (root : Z) : Prop := {
  vm_active : mtag_to_root (satp s) = root;
  vm_space : space_wf s l root;
  vm_frames : frames_ok s l root
}.

Lemma insert_twice a x y s :
  set_mem <[a := y]> (set_mem <[a := x]> s) = set_mem <[a := y]> s.
Proof. unfold set_mem. simpl. by rewrite insert_insert_eq. Qed.

Lemma run_active_root s root :
  mtag_to_root (satp s) = root -> active_space_root s = Ok (root, s).
Proof. by intros <-. Qed.

(** Taking the first free page, as [memory_alloc_page] does. *)
Lemma take_frame s l root p ps :
  space_wf s l root -> frames_ok s l root -> l = p :: ps ->
  exists s1, memory_alloc_page s = Ok (p, s1) /\ mem s1 = mem s /\ satp s1 = satp s /\
    space_wf s1 ps root /\ frames_ok s1 ps root /\ page_ok p /\
    (p ∉ fresh s1 ps) /\ p ∈ fresh s l /\ length (fresh s l) = S (length (fresh s1 ps)) /\
    kept root s l s1 ps.
Proof.
  intros Hw Hf ->. destruct (alloc_page_spec s p ps (sw_pool _ _ _ Hw)) as [Ea Hp].
  set (s1 := set_free_list _ _) in *.
  assert (Esub : sublist (fresh s1 ps) (fresh s (p :: ps))).
  { unfold fresh. apply sublist_app; [done|]. by apply sublist_cons. }
  assert (Hnd := sw_nodup _ _ _ Hw). assert (Hpg := sw_fresh _ _ _ Hw).
  assert (Hperm : fresh s (p :: ps) ≡ₚ p :: fresh s1 ps).
  { unfold fresh. symmetry. apply Permutation_middle. }
  rewrite Hperm in Hnd, Hpg. apply NoDup_cons in Hnd as [Hni _].
  apply Forall_cons in Hpg as [Hpp _].
  exists s1. split_and!; try done.
  - eapply space_wf_shrink; try done; [|apply Hw]. by destruct (sw_heap _ _ _ Hw); constructor.
  - destruct Hf as [H1 H2 H3 H4]. constructor; try done.
    intros i j e Hi Hj E Hin. apply (H1 i j e Hi Hj E). by eapply elem_of_sublist.
  - rewrite Hperm. by left.
  - by rewrite Hperm.
  - apply kept_same; [done|]. intros x Hx. by eapply elem_of_sublist.
Qed.

(** What [memory_alloc_and_map_page] does to the space at a user address. *)
Lemma map_page_run s p ps root vma f :
  vm_inv s (p :: ps) root -> (3 <= length (fresh s (p :: ps)))%nat -> user_vma vma ->
  exists s' l' e, memory_alloc_and_map_page vma f s = Ok (vma, s') /\ vm_inv s' l' root /\
    umap (mem s') root (VPN1 vma) (VPN0 vma) = Some e /\ tab_of e = p /\
    flags e = map_flags (old_flags (mem s) root vma) f /\ satp s' = satp s /\
    (forall i j, idx i -> idx j -> (i, j) <> (VPN1 vma, VPN0 vma) ->
       umap (mem s') root i j = umap (mem s) root i j) /\
    (length (fresh s (p :: ps)) <= length (fresh s' l') + 3)%nat /\
    kept root s (p :: ps) s' l'.
Proof.
  intros [Ha Hw Hf] Hlen Hu.
  destruct (take_frame s _ root p ps Hw Hf eq_refl)
    as (s1 & E1 & Em1 & Es1 & Hw1 & Hf1 & Hp & Hpn & Hpi & Hl1 & K1).
  destruct (walk_pt_create s1 ps root vma Hw1) as
    (s2 & l2 & E2 & Hw2 & H0 & Htk & Eu & Et & K2 & _ & _); [lia|done|].
  assert (Hf2 := walk_frames s1 ps root s2 l2 Hf1 Htk Eu Et).
  set (i1 := VPN1 vma) in *. set (i0 := VPN0 vma) in *.
  set (a := upt0 (mem s2) root i1 + 8 * i0) in *.
  set (e0 := ent (mem s2) a).
  set (e := with_ppn (pageptr_to_pagenum p)
     (with_flags (Z.lor (flags e0) (Z.lor (Z.lor (Z.lor f PTE_A) PTE_D) PTE_V)) e0)).
  assert (He : pte_wf e) by (unfold e, e0, ent; auto with kern).
  assert (Hv : valid e = true) by apply has_V_lor.
  assert (Hpe : tab_of e = p) by (by apply page_ptr_roundtrip).
  assert (Ef : flags e = map_flags (old_flags (mem s) root vma) f).
  { unfold e. cbn [flags with_ppn with_flags]. unfold e0, a, map_flags, i1, i0.
    rewrite (leaf_old_flags s2 l2 root vma Hw2 H0). unfold old_flags.
    rewrite Eu, Em1 by auto with kern. done. }
  assert (Hnt : ~ is_table (mem s2) root p).
  { intros Ht. destruct (Et p Ht) as [Ht'|]; [|done]. rewrite Em1 in Ht'.
    by apply (is_table_fresh s (p :: ps) root p Hw). }
  destruct (write_leaf s2 l2 root i1 i0 e Hw2) as (Hw3 & _ & _ & Ee & Eo & Et3 & _);
    try (unfold i1, i0; auto with kern; fail); [by rewrite Hv|].
  fold a in Hw3, Ee, Eo, Et3. rewrite Hv in Ee.
  assert (Hf3 : frames_ok (set_mem <[a := pte_encode e]> s2) l2 root).
  { apply (write_leaf_frames s2 l2 root i1 i0 e p); try done; try (unfold i1, i0; auto with kern; fail).
    - intros Hin. apply Hpn. by eapply took_fresh.
    - intros i j e' Hi Hj E Hne Hpeq. rewrite Eu, Em1 in E by done.
      apply (fo_fresh _ _ _ Hf i j e' Hi Hj E). by rewrite Hpeq. }
  exists (set_mem <[a := pte_encode e]> s2), l2, e.
  destruct Htk as (Es2 & _ & u & Efr & Hul).
  split_and!; try done.
  - unfold memory_alloc_and_map_page.
    rewrite (bind_Ok _ _ _ _ _ E1), (bind_Ok _ _ _ _ _ (run_active_root s1 root ltac:(congruence))).
    rewrite (bind_Ok _ _ _ _ _ E2). fold i1 i0 a.
    rewrite (bind_Ok _ _ _ _ _ (run_load_pte a s2)). fold e0.
    rewrite (bind_Ok _ _ _ _ _ (run_store_pte a _ s2)), (bind_Ok _ _ _ _ _ (run_load_pte a _)).
    rewrite (bind_Ok _ _ _ _ _ (run_store_pte a _ _)). cbn [mem set_mem].
    rewrite ent_insert_eq by (unfold e0, ent; auto with kern).
    unfold mret, M_ret. do 2 f_equal. by rewrite insert_twice.
  - constructor; [simpl; congruence|done|done].
  - simpl. congruence.
  - intros i j Hi Hj Hne. rewrite Eo, Eu, Em1 by done. done.
  - apply (f_equal length) in Efr. rewrite length_app in Efr.
    change (fresh (set_mem _ s2) l2) with (fresh s2 l2). lia.
  - apply (kept_trans root _ _ s1 ps); [done|]. apply (kept_trans root _ _ s2 l2); [done|].
    apply kept_store; auto with kern.
    + apply Hw2.
    + by apply (sw_pt0 _ _ _ Hw2); unfold i1; auto with kern.
    + right; right. exists i1. unfold i1. auto with kern.
    + unfold i0. auto with kern.
    + by destruct (sw_pt0 _ _ _ Hw2 i1 (VPN1_idx _) H0) as (_ & ? & _).
Qed.

(** ** Ranges of user addresses *)

(** The page an address is in, as its level-1 and level-0 indices. *)
Definition pg (vma : Z) : Z * Z := (VPN1 vma, VPN0 vma).
Definition umap_at (m : gmap Z Z) (root vma : Z) : option pte := umap m root (VPN1 vma) (VPN0 vma).

Lemma user_range_vma v : USER_START_VMA <= v < 4294967296 -> user_vma v.
Proof. unfold user_vma, USER_VPN2, USER_START_VMA. intros. rewrite VPN2_spec. wrap_lia. Qed.

Lemma pg_inj v v' :
  USER_START_VMA <= v < 4294967296 -> USER_START_VMA <= v' < 4294967296 ->
  pg v = pg v' -> v / PAGE_SIZE = v' / PAGE_SIZE.
Proof.
  unfold pg, USER_START_VMA, PAGE_SIZE. intros ?? [= E1 E0].
  rewrite !VPN1_spec in E1. rewrite !VPN0_spec in E0. wrap_lia.
Qed.

Lemma pg_ne v o o' :
  USER_START_VMA <= v ->
  0 <= o -> 0 <= o' -> v + PAGE_SIZE * o < 4294967296 -> v + PAGE_SIZE * o' < 4294967296 ->
  o <> o' -> pg (v + PAGE_SIZE * o) <> pg (v + PAGE_SIZE * o').
Proof.
  intros Hv Ho Ho' H1 H2 Hne E. apply pg_inj in E; unfold PAGE_SIZE, USER_START_VMA in *; try lia.
  Z.div_mod_to_equations. lia.
Qed.

Lemma fresh_length s l : (length (fresh s l) <= S (length l))%nat.
Proof. unfold fresh. casesplit; simpl; lia. Qed.

Definition map_offset (vma f addr_idx : Z) : M kmem unit :=
  memory_alloc_and_map_page (u64 (vma + addr_idx)) f ;; mret tt.

(** The loop of [memory_alloc_and_map_range] from page [k] on. *)
Lemma map_range_loop vma f root n :
  USER_START_VMA <= vma ->
  forall k s l, 0 <= k -> vma + PAGE_SIZE * (k + Z.of_nat n) <= 4294967296 ->
  vm_inv s l root -> (3 * n + 1 <= length (fresh s l))%nat ->
  exists s' l', forM (range n (PAGE_SIZE * k) (PAGE_SIZE * (k + Z.of_nat n)) PAGE_SIZE)
      (map_offset vma f) s = Ok (tt, s') /\ vm_inv s' l' root /\ satp s' = satp s /\
    (forall o, k <= o < k + Z.of_nat n -> exists e,
       umap_at (mem s') root (vma + PAGE_SIZE * o) = Some e /\
       flags e = map_flags (old_flags (mem s) root (vma + PAGE_SIZE * o)) f) /\
    (forall i j, idx i -> idx j ->
       (forall o, k <= o < k + Z.of_nat n -> (i, j) <> pg (vma + PAGE_SIZE * o)) ->
       umap (mem s') root i j = umap (mem s) root i j) /\
    (length (fresh s l) <= length (fresh s' l') + 3 * n)%nat /\ kept root s l s' l'.
Proof.
  intros Hlo. induction n as [|n IH]; intros k s l Hk Hhi Hinv Hlen.
  - exists s, l. split_and!; try done; lia.
  - destruct l as [|p ps]; [pose proof (fresh_length s []); simpl in *; lia|].
    assert (Hu : USER_START_VMA <= vma + PAGE_SIZE * k < 4294967296)
      by (unfold PAGE_SIZE, USER_START_VMA in *; lia).
    destruct (map_page_run s p ps root (vma + PAGE_SIZE * k) f Hinv) as
      (s1 & l1 & e & E1 & Hinv1 & Ee & _ & Efl & Es1 & Eo & Hl1 & K1); [lia|by apply user_range_vma|].
    destruct (IH (k + 1) s1 l1) as (s2 & l2 & E2 & Hinv2 & Es2 & Hin2 & Hout2 & Hl2 & K2);
      [lia|unfold PAGE_SIZE in *; lia|done|lia|].
    assert (Hfar : forall o, k + 1 <= o < k + 1 + Z.of_nat n ->
       pg (vma + PAGE_SIZE * k) <> pg (vma + PAGE_SIZE * o))
      by (intros; apply pg_ne; unfold PAGE_SIZE in *; lia).
    exists s2, l2. split_and!; try done; [| congruence | | |lia|by eapply kept_trans].
    + cbn [range]. destruct (Z.ltb_spec (PAGE_SIZE * k) (PAGE_SIZE * (k + Z.of_nat (S n))));
        [|unfold PAGE_SIZE in *; lia].
      rewrite (forM_cons _ _ _ _ s1); [rewrite <- E2; do 2 f_equal; lia|].
      unfold map_offset. rewrite u64_small by (unfold USER_START_VMA in *; lia).
      by rewrite (bind_Ok _ _ _ _ _ E1).
    + intros o Ho. destruct (decide (o = k)) as [->|Hne].
      * exists e. split; [|done]. unfold umap_at. rewrite Hout2; auto with kern.
      * destruct (Hin2 o) as (e' & Ee' & Ef'); [lia|]. exists e'. split; [done|].
        rewrite Ef'. unfold old_flags. rewrite Eo; auto with kern.
        intros E. apply (Hfar o); [lia|by symmetry].
    + intros i j Hi Hj Hne. rewrite Hout2, Eo; try done.
      * apply Hne. lia.
      * intros o Ho. apply Hne. lia.
Qed.

Lemma round_up_size_spec n :
  0 <= n <= 2 ^ 64 - PAGE_SIZE ->
  round_up_size n PAGE_SIZE mod PAGE_SIZE = 0 /\ n <= round_up_size n PAGE_SIZE < n + PAGE_SIZE.
Proof. unfold round_up_size, PAGE_SIZE. intros. wrap_lia. Qed.

(** The offsets the loops over a range use are the multiples of the page size
    below the rounded size. *)
Definition page_count (size : Z) : Z := (size + PAGE_SIZE - 1) / PAGE_SIZE.

Lemma page_count_nonneg n : 0 <= n -> 0 <= page_count n.
Proof. unfold page_count, PAGE_SIZE. wrap_lia. Qed.

Lemma page_offsets_round n :
  0 <= n <= 2 ^ 64 - PAGE_SIZE ->
  let c := page_count n in
  page_offsets (round_up_size n PAGE_SIZE)
    = range (Z.to_nat c) (PAGE_SIZE * 0) (PAGE_SIZE * (0 + Z.of_nat (Z.to_nat c))) PAGE_SIZE.
Proof.
  intros Hn c. unfold page_offsets, round_up_size. fold (page_count n).
  assert (0 <= c) by (apply page_count_nonneg; lia).
  rewrite u64_small by (unfold PAGE_SIZE in *; lia). fold (page_count n). fold c.
  rewrite Z_div_mult by (unfold PAGE_SIZE; lia).
  f_equal. unfold PAGE_SIZE. lia.
Qed.

(** The whole of [memory_alloc_and_map_range]: the mappings, the pages taken and
    the contents kept. *)
Lemma map_range_run s l root vma size f :
  vm_inv s l root -> USER_START_VMA <= vma -> 0 <= size ->
  vma + PAGE_SIZE * page_count size <= 4294967296 ->
  (3 * Z.to_nat (page_count size) + 1 <= length (fresh s l))%nat ->
  exists s' l', memory_alloc_and_map_range vma size f s = Ok (vma, s') /\ vm_inv s' l' root /\
    satp s' = satp s /\
    (forall k, 0 <= k < page_count size -> exists e,
       umap_at (mem s') root (vma + PAGE_SIZE * k) = Some e /\
       flags e = map_flags (old_flags (mem s) root (vma + PAGE_SIZE * k)) f) /\
    (forall i j, idx i -> idx j ->
       (forall k, 0 <= k < page_count size -> (i, j) <> pg (vma + PAGE_SIZE * k)) ->
       umap (mem s') root i j = umap (mem s) root i j) /\
    (length (fresh s l) <= length (fresh s' l') + 3 * Z.to_nat (page_count size))%nat /\
    kept root s l s' l'.
Proof.
  intros Hinv Hlo Hsz Hhi Hroom. pose proof (page_count_nonneg size Hsz) as Hn.
  destruct (map_range_loop vma f root (Z.to_nat (page_count size)) Hlo 0 s l) as
    (s' & l' & E & Hi & Es & Hin & Hout & Hl & Hk); try done; [by rewrite Z2Nat.id|].
  exists s', l'. split_and!; try done.
  - unfold memory_alloc_and_map_range. rewrite page_offsets_round; [exact (bind_Ok _ _ _ _ _ E)|].
    unfold page_count, PAGE_SIZE, USER_START_VMA in *. wrap_lia.
  - intros k Hk'. apply Hin. lia.
  - intros i j Hi' Hj Hne. apply Hout; try done. intros o Ho. apply Hne. lia.
Qed.

(** ** Changing flags, faults and validation *)

(** [reset_flags] on a leaf entry replaces its flags and keeps its frame. *)
Lemma reset_flags_run a f s :
  reset_flags a f s
  = Ok (tt, set_mem <[a := pte_encode (with_flags (map_flags 0 f) (ent (mem s) a))]> s).
Proof.
  unfold reset_flags. rewrite (bind_Ok _ _ _ _ _ (run_load_pte a s)).
  rewrite (bind_Ok _ _ _ _ _ (run_store_pte a _ s)), (bind_Ok _ _ _ _ _ (run_load_pte a _)).
  cbn [mem set_mem]. rewrite ent_insert_eq by (unfold ent; auto with kern).
  rewrite run_store_pte, insert_twice. do 5 f_equal.
  unfold with_flags, map_flags. cbn [flags]. f_equal. change (u8 0) with 0.
  symmetry. apply u8_small, u8_range.
Qed.

(** A walk over a mapped address changes nothing and finds its entry. *)
Lemma walk_pt_mapped s root vma c :
  user_vma vma -> has0 (mem s) root (VPN1 vma) = true ->
  walk_pt root vma c s = Ok (upt0 (mem s) root (VPN1 vma) + 8 * VPN0 vma, s).
Proof.
  intros Hu H0. unfold has0 in H0. apply andb_prop in H0 as [H1 H0].
  unfold walk_pt. rewrite Hu. change (root + 8 * USER_VPN2) with (uslot root).
  rewrite (bind_Ok _ _ _ _ _ (walk_level_valid _ c s H1)).
  fold (upt1 (mem s) root). by rewrite (bind_Ok _ _ _ _ _ (walk_level_valid _ c s H0)).
Qed.

Lemma umap_at_Some m root vma e :
  umap_at m root vma = Some e ->
  has0 m root (VPN1 vma) = true /\ valid e = true /\
  ent m (upt0 m root (VPN1 vma) + 8 * VPN0 vma) = e.
Proof.
  unfold umap_at, umap. destruct (has0 _ _ _); [|done]. cbn zeta.
  destruct (valid (ent _ _)) eqn:Hv; [|done]. by intros [= <-].
Qed.

(** Replacing the flags of a mapped page by valid flags. *)
Lemma with_flags_inv s l root vma e f :
  vm_inv s l root -> umap_at (mem s) root vma = Some e ->
  let e' := with_flags (map_flags 0 f) e in
  let s' := set_mem <[upt0 (mem s) root (VPN1 vma) + 8 * VPN0 vma := pte_encode e']> s in
  vm_inv s' l root /\ umap_at (mem s') root vma = Some e' /\
  (forall i j, idx i -> idx j -> (i, j) <> pg vma -> umap (mem s') root i j = umap (mem s) root i j) /\
  kept root s l s' l /\ (forall t, is_table (mem s') root t -> is_table (mem s) root t) /\
  (forall j, idx j -> has0 (mem s') root j = has0 (mem s) root j /\ upt0 (mem s') root j = upt0 (mem s) root j).
Proof.
  intros [Ha Hw Hf] E e' s'. pose proof (umap_at_Some _ _ _ _ E) as (H0 & Hv & Ee).
  assert (He' : pte_wf e') by (unfold e'; rewrite <- Ee; unfold ent; auto with kern).
  assert (Hv' : valid e' = true).
  { unfold valid, e', with_flags. cbn [flags].
    rewrite u8_small by apply u8_range. apply has_V_lor. }
  destruct (write_leaf s l root (VPN1 vma) (VPN0 vma) e' Hw) as (Hw' & _ & _ & Eu & Eo & Et & Ehj);
    auto with kern; [by rewrite Hv'|]. rewrite Hv' in Eu.
  split_and!; try done.
  2: { apply kept_store; auto with kern; [apply Hw|by apply (sw_pt0 _ _ _ Hw); auto with kern| |].
       - right; right. exists (VPN1 vma). auto with kern.
       - by destruct (sw_pt0 _ _ _ Hw _ (VPN1_idx vma) H0) as (_ & ? & _). }
  constructor; try done.
  apply (write_leaf_frames s l root _ _ _ (tab_of e)); auto with kern.
  - by apply (fo_page _ _ _ Hf (VPN1 vma) (VPN0 vma)); auto with kern.
  - by apply (fo_fresh _ _ _ Hf (VPN1 vma) (VPN0 vma)); auto with kern.
  - by apply (fo_table _ _ _ Hf (VPN1 vma) (VPN0 vma)); auto with kern.
  - intros i j e2 Hi Hj E2 Hne Heq. apply Hne.
    apply (fo_inj _ _ _ Hf i j _ _ e2 e); auto with kern.
Qed.

(** ** Results *)

(** C10. Mapping a page does what its name says and nothing else: from a
    well-formed active space with a free page and room for the two page tables
    it may need, [memory_alloc_and_map_page] returns the address; the page of
    the address is then mapped to the first free page, with the requested flags
    and A, D, V added to those it had; every other mapping of the space is as
    it was; and the tables stay well formed and the frames isolated (no frame
    mapped twice, no page table or free page reachable by the user). *)
Theorem memory_alloc_and_map_page_spec (s : kmem) (p : Z) (ps : list Z) (root vma f : Z)
    (Hinv : vm_inv s (p :: ps) root) (Hroom : (3 <= length (fresh s (p :: ps)))%nat)
    (Huser : user_vma vma) :
  exists s' l' e, memory_alloc_and_map_page vma f s = Ok (vma, s') /\ vm_inv s' l' root /\
    umap_at (mem s') root vma = Some e /\ tab_of e = p /\
    flags e = map_flags (old_flags (mem s) root vma) f /\
    (forall i j, idx i -> idx j -> (i, j) <> pg vma ->
       umap (mem s') root i j = umap (mem s) root i j).
Proof.
  destruct (map_page_run s p ps root vma f Hinv Hroom Huser)
    as (s' & l' & e & E & Hi & Ee & Ep & Ef & _ & Eo & _).
  by exists s', l', e.
Qed.

(** A machine whose active space is empty: its root is the page at 0x80010000,
    and seven free pages follow. *)
Definition demo_pages : list Z :=
  [2147557376; 2147561472; 2147565568; 2147569664; 2147573760; 2147577856; 2147581952].
Definition demo_root : Z := 2147549184.
Definition demo_vm : kmem :=
  mkKmem (list_to_map [(2147557376, 2147561472); (2147561472, 2147565568);
      (2147565568, 2147569664); (2147569664, 2147573760); (2147573760, 2147577856);
      (2147577856, 2147581952)])
    2147557376 2147553280 2147553280 (mk_mtag demo_root) (mk_mtag demo_root).

Lemma clean_words (m : gmap Z Z) a :
  map_Forall (fun _ w => w mod 256 = 0) m -> flags (ent m a) = 0.
Proof.
  intros Hm. unfold ent, pte_decode, rd. cbn [flags].
  destruct (m !! a) as [w|] eqn:E; [|done]. exact (Hm a w E).
Qed.

(** A machine in whose memory no word has a flag bit set has an empty active
    space. *)
Lemma empty_vm_inv s l root :
  mtag_to_root (satp s) = root -> map_Forall (fun _ w => w mod 256 = 0) (mem s) ->
  pool s l -> heap_wf s -> heap_paged s -> NoDup (fresh s l) -> Forall page_ok (fresh s l) ->
  page_ok root -> root ∉ fresh s l -> vm_inv s l root.
Proof.
  intros Ha Hm Hp Hh Hpd Hnd Hpg Hr Hrf.
  assert (Hc : forall a, flags (ent (mem s) a) = 0) by (intros a; by apply clean_words).
  assert (H1 : has1 (mem s) root = false) by (unfold has1; auto with kern).
  assert (H0 : forall i, has0 (mem s) root i = false) by (intros; unfold has0; by rewrite H1).
  constructor; [done| |].
  - constructor; try done; rewrite ?H1; intros *; rewrite ?H0; done.
  - constructor; intros *; unfold umap; rewrite H0; done.
Qed.

Lemma demo_vm_inv : vm_inv demo_vm demo_pages demo_root.
Proof.
  apply empty_vm_inv; try (apply (bool_decide_unpack _); vm_compute; done).
  - constructor; [vm_compute; by split_and!| |repeat constructor; lia].
    apply (bool_decide_unpack _). vm_compute. done.
  - constructor; vm_compute; done.
Qed.

Lemma memory_alloc_and_map_page_spec_witness :
  exists s' e, memory_alloc_and_map_page 3221225472 (Z.lor PTE_R PTE_U) demo_vm
      = Ok (3221225472, s') /\
    umap_at (mem s') demo_root 3221225472 = Some e /\ tab_of e = 2147557376.
Proof.
  destruct (memory_alloc_and_map_page_spec demo_vm 2147557376
    [2147561472; 2147565568; 2147569664; 2147573760; 2147577856; 2147581952]
    demo_root 3221225472 (Z.lor PTE_R PTE_U)) as (s' & l' & e & E & _ & Eu & Ep & _).
  - exact demo_vm_inv.
  - vm_compute. lia.
  - vm_compute. reflexivity.
  - exact (ex_intro _ s' (ex_intro _ e (conj E (conj Eu Ep)))).
Defined.

(** Mapping a range maps every page of it: from a well-formed active space
    with room for three pages per page of the range, for a user address and a
    size whose pages stay below 4 GB, [memory_alloc_and_map_range] returns; the
    page of the address and those that follow it, as many as the size needs when
    the address is aligned, are then mapped with the requested flags added, each
    to a frame of its own (the frames stay isolated), and no other mapping has
    changed. *)
Theorem memory_alloc_and_map_range_spec (s : kmem) (l : list Z) (root vma size f : Z)
    (Hinv : vm_inv s l root) (Hlo : USER_START_VMA <= vma) (Hsz : 0 <= size)
    (Hhi : vma + PAGE_SIZE * page_count size <= 4294967296)
    (Hroom : (3 * Z.to_nat (page_count size) + 1 <= length (fresh s l))%nat) :
  exists s' l', memory_alloc_and_map_range vma size f s = Ok (vma, s') /\ vm_inv s' l' root /\
    (forall k, 0 <= k < page_count size -> exists e,
       umap_at (mem s') root (vma + PAGE_SIZE * k) = Some e /\
       flags e = map_flags (old_flags (mem s) root (vma + PAGE_SIZE * k)) f) /\
    (forall i j, idx i -> idx j ->
       (forall k, 0 <= k < page_count size -> (i, j) <> pg (vma + PAGE_SIZE * k)) ->
       umap (mem s') root i j = umap (mem s) root i j).
Proof.
  destruct (map_range_run s l root vma size f Hinv Hlo Hsz Hhi Hroom)
    as (s' & l' & E & Hi & _ & Hin & Hout & _). by exists s', l'.
Qed.

Lemma memory_alloc_and_map_range_spec_witness :
  exists s' e, memory_alloc_and_map_range 3221225472 5000 (Z.lor PTE_R PTE_U) demo_vm
      = Ok (3221225472, s') /\
    umap_at (mem s') demo_root (3221225472 + PAGE_SIZE * 1) = Some e.
Proof.
  destruct (memory_alloc_and_map_range_spec demo_vm demo_pages demo_root 3221225472 5000
    (Z.lor PTE_R PTE_U) demo_vm_inv) as (s' & l' & E & _ & Hin & _).
  - done.
  - done.
  - done.
  - vm_compute. lia.
  - assert (H1 : 0 <= 1 < page_count 5000) by (clear; done).
    destruct (Hin 1 H1) as (e & Ee & _). exact (ex_intro _ s' (ex_intro _ e (conj E Ee))).
Defined.

Lemma has_testbit f k : 0 <= k -> has f (Z.shiftl 1 k) = Z.testbit f k.
Proof.
  intros Hk. unfold has. rewrite Z.shiftl_1_l. destruct (Z.testbit f k) eqn:Hb.
  - destruct (Z.eqb_spec (Z.land f (2 ^ k)) 0) as [E|]; [|done].
    apply (f_equal (fun z => Z.testbit z k)) in E.
    rewrite Z.land_spec, Hb, Z.pow2_bits_true, Z.bits_0 in E by done. done.
  - replace (Z.land f (2 ^ k)) with 0; [done|]. symmetry. apply Z.bits_inj'. intros n Hn.
    rewrite Z.land_spec, Z.bits_0, Z.pow2_bits_eqb by done.
    destruct (Z.eqb_spec k n) as [<-|]; [by rewrite Hb|by rewrite andb_false_r].
Qed.

Lemma u8_testbit z k : 0 <= k < 8 -> Z.testbit (u8 z) k = Z.testbit z k.
Proof. intros. unfold u8. change 256 with (2 ^ 8). by rewrite Z.mod_pow2_bits_low by lia. Qed.

(** Bit [k] of the flags a mapping ends up with. *)
Lemma map_flags_bit old f k :
  0 <= k < 8 ->
  has (map_flags old f) (Z.shiftl 1 k)
  = Z.testbit old k || Z.testbit f k || (k =? 6) || (k =? 7) || (k =? 0).
Proof.
  intros Hk. rewrite has_testbit by lia. unfold map_flags. rewrite u8_testbit by lia.
  rewrite !Z.lor_spec. unfold PTE_A, PTE_D, PTE_V.
  rewrite !Z.shiftl_1_l, !Z.pow2_bits_eqb by lia. rewrite !orb_assoc.
  by rewrite !(Z.eqb_sym _ k).
Qed.

(** The page-fault handler serves exactly the user region: for an address
    between USER_START_VMA and USER_END_VMA (the end included) it maps the page
    of the address to the first free page, readable, writable and accessible
    to the user, changing no other mapping; for any other address it panics. *)
Theorem memory_handle_page_fault_spec (s : kmem) (p : Z) (ps : list Z) (root vptr : Z)
    (Hinv : vm_inv s (p :: ps) root) (Hroom : (3 <= length (fresh s (p :: ps)))%nat) :
  (USER_START_VMA <= vptr <= USER_END_VMA -> exists s' l' e,
     memory_handle_page_fault vptr s = Ok (tt, s') /\ vm_inv s' l' root /\
     umap_at (mem s') root vptr = Some e /\ tab_of e = p /\
     has (flags e) PTE_R = true /\ has (flags e) PTE_W = true /\ has (flags e) PTE_U = true /\
     (forall i j, idx i -> idx j -> (i, j) <> pg vptr ->
        umap (mem s') root i j = umap (mem s) root i j)) /\
  (~ (USER_START_VMA <= vptr <= USER_END_VMA) ->
     exists msg, memory_handle_page_fault vptr s = Panic msg).
Proof.
  unfold memory_handle_page_fault. split.
  - intros Hr. destruct (map_page_run s p ps root vptr (Z.lor (Z.lor PTE_R PTE_W) PTE_U) Hinv Hroom)
      as (s' & l' & e & E & Hi & Ee & Ep & Ef & _ & Eo & _).
    { apply user_range_vma. unfold USER_END_VMA in *. lia. }
    exists s', l', e. rewrite Ef. unfold PTE_R, PTE_W, PTE_U. rewrite !map_flags_bit by lia.
    split_and!; try done; try (by rewrite ?orb_true_r).
    destruct Hr as [H1 H2]. apply Z.leb_le in H1, H2. rewrite H1, H2. cbn [andb].
    by rewrite (bind_Ok _ _ _ _ _ E).
  - intros Hr. destruct (Z.leb_spec USER_START_VMA vptr), (Z.leb_spec vptr USER_END_VMA);
      simpl; try (by eexists). lia.
Qed.

Lemma memory_handle_page_fault_spec_witness :
  (exists s', memory_handle_page_fault USER_END_VMA demo_vm = Ok (tt, s')) /\
  (exists msg, memory_handle_page_fault 0 demo_vm = Panic msg).
Proof.
  destruct (memory_handle_page_fault_spec demo_vm 2147557376
    [2147561472; 2147565568; 2147569664; 2147573760; 2147577856; 2147581952] demo_root
    USER_END_VMA demo_vm_inv) as [Hin _]; [vm_compute; lia|].
  destruct (memory_handle_page_fault_spec demo_vm 2147557376
    [2147561472; 2147565568; 2147569664; 2147573760; 2147577856; 2147581952] demo_root
    0 demo_vm_inv) as [_ Hout]; [vm_compute; lia|].
  split.
  - destruct Hin as (s' & l' & e & E & _); [split; vm_compute; discriminate|]. by exists s'.
  - apply Hout. intros [H _]. by apply H.
Defined.

(** A fault on a page that is already mapped, such as a user store to a
    read-only page, is not refused: the handler adds write permission, replaces
    the frame by a fresh one (so the page's contents are gone) and leaves the
    old frame mapped nowhere. *)
Theorem page_fault_grants_write (s : kmem) (p : Z) (ps : list Z) (root vptr : Z) (e0 : pte)
    (Hinv : vm_inv s (p :: ps) root) (Hroom : (3 <= length (fresh s (p :: ps)))%nat)
    (Hrange : USER_START_VMA <= vptr <= USER_END_VMA)
    (Hmapped : umap_at (mem s) root vptr = Some e0) (Hro : has (flags e0) PTE_W = false) :
  exists s' e, memory_handle_page_fault vptr s = Ok (tt, s') /\
    umap_at (mem s') root vptr = Some e /\ has (flags e) PTE_W = true /\
    (forall i j e', idx i -> idx j -> umap (mem s') root i j = Some e' -> tab_of e' <> tab_of e0).
Proof.
  destruct (map_page_run s p ps root vptr (Z.lor (Z.lor PTE_R PTE_W) PTE_U) Hinv Hroom)
    as (s' & l' & e & E & Hi & Ee & Ep & Ef & _ & Eo & _).
  { apply user_range_vma. unfold USER_END_VMA in *. lia. }
  destruct Hinv as [_ Hw Hf]. exists s', e. split_and!; try done.
  - unfold memory_handle_page_fault. destruct Hrange as [H1 H2]. apply Z.leb_le in H1, H2.
    rewrite H1, H2. cbn [andb]. by rewrite (bind_Ok _ _ _ _ _ E).
  - rewrite Ef. unfold PTE_W. rewrite map_flags_bit by lia. by rewrite orb_true_r.
  - intros i j e' Hi' Hj E' Heq. destruct (decide ((i, j) = pg vptr)) as [Epg|Hne].
    + injection Epg as -> ->. rewrite Ee in E'. injection E' as <-.
      apply (fo_fresh _ _ _ Hf (VPN1 vptr) (VPN0 vptr) e0); auto with kern.
      rewrite <- Heq, Ep. apply in_fresh. by left.
    + rewrite Eo in E' by done. apply Hne.
      apply (fo_inj _ _ _ Hf i j _ _ e' e0); auto with kern.
Qed.

(** The demo machine after a read-only user page has been mapped. *)
Lemma demo_mapped :
  exists s p ps e, vm_inv s (p :: ps) demo_root /\ (3 <= length (fresh s (p :: ps)))%nat /\
    umap_at (mem s) demo_root USER_START_VMA = Some e /\ flags e = map_flags 0 (Z.lor PTE_R PTE_U) /\
    tab_of e = 2147557376.
Proof.
  destruct (map_page_run demo_vm 2147557376
    [2147561472; 2147565568; 2147569664; 2147573760; 2147577856; 2147581952]
    demo_root USER_START_VMA (Z.lor PTE_R PTE_U) demo_vm_inv)
    as (s & l & e & _ & Hi & Ee & Ep & Ef & _ & _ & Hl); [vm_compute; lia|vm_compute; done|].
  change (length (fresh demo_vm _)) with 7%nat in Hl.
  change (old_flags _ _ _) with 0 in Ef.
  destruct l as [|p ps]; [pose proof (fresh_length s []); simpl in *; lia|].
  exists s, p, ps, e. split_and!; try done; lia.
Qed.

Lemma page_fault_grants_write_witness :
  exists s s' e, memory_handle_page_fault USER_START_VMA s = Ok (tt, s') /\
    umap_at (mem s') demo_root USER_START_VMA = Some e /\ has (flags e) PTE_W = true.
Proof.
  destruct demo_mapped as (s & p & ps & e0 & Hi & Hl & Em & Hf & _).
  destruct (page_fault_grants_write s p ps demo_root USER_START_VMA e0 Hi Hl) as
    (s' & e & E & Ee & Hw & _); [by split|done|by rewrite Hf|]. by exists s, s', e.
Defined.

Lemma set_page_flags_run s l root vp f e :
  vm_inv s l root -> user_vma vp -> umap_at (mem s) root vp = Some e ->
  exists s', memory_set_page_flags vp f s = Ok (tt, s') /\ vm_inv s' l root /\
    umap_at (mem s') root vp = Some (with_flags (map_flags 0 f) e) /\
    (forall i j, idx i -> idx j -> (i, j) <> pg vp -> umap (mem s') root i j = umap (mem s) root i j) /\
    satp s' = satp s /\ fresh s' l = fresh s l /\ kept root s l s' l /\
    (forall t, is_table (mem s') root t -> is_table (mem s) root t) /\
    (forall j, idx j -> has0 (mem s') root j = has0 (mem s) root j /\ upt0 (mem s') root j = upt0 (mem s) root j).
Proof.
  intros Hinv Hu E. pose proof (umap_at_Some _ _ _ _ E) as (H0 & _ & Ee).
  destruct (with_flags_inv s l root vp e f Hinv E) as (Hi & Eu & Eo & Hk & Ht & Hj).
  eexists. split_and!; [|exact Hi|exact Eu|exact Eo|done|done|exact Hk|exact Ht|exact Hj].
  unfold memory_set_page_flags.
  rewrite (bind_Ok _ _ _ _ _ (run_active_root s root (vm_active _ _ _ Hinv))).
  rewrite (bind_Ok _ _ _ _ _ (walk_pt_mapped s root vp CREATE_PTE Hu H0)).
  by rewrite reset_flags_run, Ee.
Qed.

(** The loop body of [memory_set_range_flags] is [memory_set_page_flags] on a
    mapped page. *)
Definition set_offset (vp f addr_idx : Z) : M kmem unit :=
  root ← active_space_root;
  dest_pte ← walk_pt root (u64 (vp + addr_idx)) 0;
  reset_flags dest_pte f.

Lemma set_offset_mapped s root vp f o e :
  mtag_to_root (satp s) = root -> user_vma (vp + o) -> u64 (vp + o) = vp + o ->
  umap_at (mem s) root (vp + o) = Some e ->
  set_offset vp f o s = memory_set_page_flags (vp + o) f s.
Proof.
  intros Ha Hu Ho E. pose proof (umap_at_Some _ _ _ _ E) as (H0 & _ & Ee).
  unfold set_offset, memory_set_page_flags. rewrite Ho.
  rewrite !(bind_Ok _ _ _ _ _ (run_active_root s root Ha)).
  by rewrite !(bind_Ok _ _ _ _ _ (walk_pt_mapped s root (vp + o) _ Hu H0)).
Qed.

Lemma set_range_loop vp f root l n :
  USER_START_VMA <= vp ->
  forall k s, 0 <= k -> vp + PAGE_SIZE * (k + Z.of_nat n) <= 4294967296 ->
  vm_inv s l root ->
  (forall o, k <= o < k + Z.of_nat n -> is_Some (umap_at (mem s) root (vp + PAGE_SIZE * o))) ->
  exists s', forM (range n (PAGE_SIZE * k) (PAGE_SIZE * (k + Z.of_nat n)) PAGE_SIZE)
      (set_offset vp f) s = Ok (tt, s') /\ vm_inv s' l root /\
    (forall o, k <= o < k + Z.of_nat n ->
       umap_at (mem s') root (vp + PAGE_SIZE * o)
       = with_flags (map_flags 0 f) <$> umap_at (mem s) root (vp + PAGE_SIZE * o)) /\
    (forall i j, idx i -> idx j ->
       (forall o, k <= o < k + Z.of_nat n -> (i, j) <> pg (vp + PAGE_SIZE * o)) ->
       umap (mem s') root i j = umap (mem s) root i j) /\
    satp s' = satp s /\ fresh s' l = fresh s l /\ kept root s l s' l.
Proof.
  intros Hlo. induction n as [|n IH]; intros k s Hk Hhi Hinv Hmap.
  - exists s. split_and!; try done. lia.
  - assert (Hu : USER_START_VMA <= vp + PAGE_SIZE * k < 4294967296)
      by (unfold PAGE_SIZE, USER_START_VMA in *; lia).
    destruct (Hmap k) as [e Ee]; [lia|].
    destruct (set_page_flags_run s l root (vp + PAGE_SIZE * k) f e Hinv) as
      (s1 & E1 & Hi1 & Eu1 & Eo1 & Es1 & Ef1 & K1 & _); [by apply user_range_vma|done|].
    assert (Hfar : forall o, k + 1 <= o < k + 1 + Z.of_nat n ->
       pg (vp + PAGE_SIZE * o) <> pg (vp + PAGE_SIZE * k))
      by (intros; apply pg_ne; unfold PAGE_SIZE in *; lia).
    assert (Ekeep : forall o, k + 1 <= o < k + 1 + Z.of_nat n ->
       umap_at (mem s1) root (vp + PAGE_SIZE * o) = umap_at (mem s) root (vp + PAGE_SIZE * o))
      by (intros o Ho; apply Eo1; auto with kern; by apply Hfar).
    destruct (IH (k + 1) s1) as (s2 & E2 & Hi2 & Hin2 & Hout2 & Es2 & Ef2 & K2); try done; try lia.
    { intros o Ho. rewrite Ekeep by done. apply Hmap. lia. }
    exists s2. split_and!; [|done| | |congruence|congruence|by eapply kept_trans].
    + cbn [range]. destruct (Z.ltb_spec (PAGE_SIZE * k) (PAGE_SIZE * (k + Z.of_nat (S n))));
        [|unfold PAGE_SIZE in *; lia].
      rewrite (forM_cons _ _ _ _ s1); [rewrite <- E2; do 2 f_equal; lia|].
      rewrite (set_offset_mapped s root vp f _ e); try done; [apply Hinv|by apply user_range_vma|].
      apply u64_small. unfold USER_START_VMA in *. lia.
    + intros o Ho. destruct (decide (o = k)) as [->|Hne].
      * rewrite Ee. unfold umap_at. rewrite Hout2; auto with kern.
        intros o Ho' E. by apply (Hfar o Ho').
      * rewrite Hin2 by lia. by rewrite Ekeep by lia.
    + intros i j Hi Hj Hne. rewrite Hout2, Eo1; try done.
      * apply Hne. lia.
      * intros o Ho. apply Hne. lia.
Qed.

(** The whole of [memory_set_range_flags]. *)
Lemma set_range_run s l root vp size f :
  vm_inv s l root -> USER_START_VMA <= vp -> 0 <= size ->
  vp + PAGE_SIZE * page_count size <= 4294967296 ->
  (forall k, 0 <= k < page_count size -> is_Some (umap_at (mem s) root (vp + PAGE_SIZE * k))) ->
  exists s', memory_set_range_flags vp size f s = Ok (tt, s') /\ vm_inv s' l root /\
    (forall k, 0 <= k < page_count size ->
       umap_at (mem s') root (vp + PAGE_SIZE * k)
       = with_flags (map_flags 0 f) <$> umap_at (mem s) root (vp + PAGE_SIZE * k)) /\
    (forall i j, idx i -> idx j ->
       (forall k, 0 <= k < page_count size -> (i, j) <> pg (vp + PAGE_SIZE * k)) ->
       umap (mem s') root i j = umap (mem s) root i j) /\
    satp s' = satp s /\ fresh s' l = fresh s l /\ kept root s l s' l.
Proof.
  intros Hinv Hlo Hsz Hhi Hmap. pose proof (page_count_nonneg size Hsz) as Hn.
  destruct (set_range_loop vp f root l (Z.to_nat (page_count size)) Hlo 0 s) as
    (s' & E & Hi & Hin & Hout & Es & Ef & Hk); try done.
  { by rewrite Z2Nat.id. }
  { intros o Ho. apply Hmap. lia. }
  exists s'. split_and!; try done.
  - unfold memory_set_range_flags. rewrite page_offsets_round; [exact E|].
    unfold page_count, PAGE_SIZE, USER_START_VMA in *. wrap_lia.
  - intros k Hk'. apply Hin. lia.
  - intros i j Hi' Hj Hne. apply Hout; try done. intros o Ho. apply Hne. lia.
Qed.

(** Changing the protection of a mapped range replaces the flags of every
    page of the rounded-up range by the given ones with A, D and V, keeps each
    page's frame, and touches no other mapping.  [elf_load] relies on this to
    take write permission back after loading a segment. *)
Theorem memory_set_range_flags_spec (s : kmem) (l : list Z) (root vp size f : Z)
    (Hinv : vm_inv s l root) (Hlo : USER_START_VMA <= vp) (Hsz : 0 <= size)
    (Hhi : vp + PAGE_SIZE * page_count size <= 4294967296)
    (Hmap : forall k, 0 <= k < page_count size ->
       is_Some (umap_at (mem s) root (vp + PAGE_SIZE * k))) :
  exists s', memory_set_range_flags vp size f s = Ok (tt, s') /\ vm_inv s' l root /\
    (forall k, 0 <= k < page_count size -> exists e,
       umap_at (mem s) root (vp + PAGE_SIZE * k) = Some e /\
       umap_at (mem s') root (vp + PAGE_SIZE * k) = Some (with_flags (map_flags 0 f) e)) /\
    (forall i j, idx i -> idx j ->
       (forall k, 0 <= k < page_count size -> (i, j) <> pg (vp + PAGE_SIZE * k)) ->
       umap (mem s') root i j = umap (mem s) root i j).
Proof.
  destruct (set_range_run s l root vp size f Hinv Hlo Hsz Hhi Hmap)
    as (s' & E & Hi & Hin & Hout & _).
  exists s'. split_and!; try done. intros k Hk. destruct (Hmap k Hk) as [e Ee]. exists e.
  split; [done|]. rewrite Hin by lia. by rewrite Ee.
Qed.

Lemma memory_set_range_flags_spec_witness :
  exists s s' e, memory_set_range_flags USER_START_VMA 100 (Z.lor PTE_X PTE_U) s = Ok (tt, s') /\
    umap_at (mem s') demo_root (USER_START_VMA + PAGE_SIZE * 0) = Some e.
Proof.
  destruct demo_mapped as (s & p & ps & e0 & Hi & Hl & Em & _).
  destruct (memory_set_range_flags_spec s (p :: ps) demo_root USER_START_VMA 100
    (Z.lor PTE_X PTE_U) Hi) as (s' & E & _ & Hin & _); try done.
  { intros k Hk. change (page_count 100) with 1 in Hk.
    replace k with 0 by lia. by exists e0. }
  destruct (Hin 0) as (e & _ & Ee); [done|]. eexists s, s', _. by split.
Defined.

Lemma validate_rounds_run s a f offsets :
  validate_rounds offsets a f s
  = Ok (if bool_decide (offsets = []) || entry_allows (ent (mem s) a) f then 0 else - EACCESS, s).
Proof.
  induction offsets as [|o offsets IH]; [done|]. cbn [validate_rounds].
  rewrite (bind_Ok _ _ _ _ _ (run_load_pte a s)).
  destruct (entry_allows _ _) eqn:Ha; [|done]. rewrite IH, orb_true_r. by destruct offsets.
Qed.

(** What the pointer check of the system calls establishes: for a pointer
    into a mapped page, [memory_validate_vptr_len] accepts (with result 0)
    exactly when the length is 0 or the entry of the FIRST page allows the
    access, whatever the other pages of the range are; and a length within a
    page of the end of the address space is accepted without any check, its
    rounding having wrapped to 0.  The state is not changed. *)
Theorem memory_validate_first_page_only (s : kmem) (l : list Z) (root vp len f : Z) (e : pte)
    (Hinv : vm_inv s l root) (Huser : user_vma vp) (Hlen : 0 <= len < 2 ^ 64)
    (Hmapped : umap_at (mem s) root vp = Some e) :
  memory_validate_vptr_len vp len f s
  = Ok (if (len =? 0) || (2 ^ 64 - PAGE_SIZE <? len) || entry_allows e f then 0 else - EACCESS, s).
Proof.
  pose proof (umap_at_Some _ _ _ _ Hmapped) as (H0 & _ & Ee).
  unfold memory_validate_vptr_len.
  rewrite (bind_Ok _ _ _ _ _ (run_active_root s root (vm_active _ _ _ Hinv))).
  rewrite (bind_Ok _ _ _ _ _ (walk_pt_mapped s root vp 0 Huser H0)).
  rewrite validate_rounds_run, Ee. do 2 f_equal.
  assert (Hb : bool_decide (page_offsets (round_up_size len PAGE_SIZE) = [])
               = (len =? 0) || (2 ^ 64 - PAGE_SIZE <? len)); [|by rewrite Hb].
  destruct (Z.ltb_spec (2 ^ 64 - PAGE_SIZE) len) as [Hbig|Hsm].
  - replace (round_up_size len PAGE_SIZE) with 0; [by rewrite orb_true_r|].
    unfold round_up_size, PAGE_SIZE in *. wrap_lia.
  - rewrite page_offsets_round, orb_false_r by lia.
    set (c := page_count len).
    assert (Hc : 0 <= c /\ (c = 0 <-> len = 0)) by (unfold c, page_count, PAGE_SIZE in *; wrap_lia).
    destruct (Z.eqb_spec len 0) as [->|Hne]; [done|]. apply bool_decide_eq_false_2.
    destruct (Z.to_nat c) eqn:Ec; [lia|]. cbn [range].
    destruct (Z.ltb_spec (PAGE_SIZE * 0) (PAGE_SIZE * (0 + Z.of_nat (S n)))); [done|].
    unfold PAGE_SIZE in *; lia.
Qed.

Lemma memory_validate_first_page_only_witness :
  exists s, memory_validate_vptr_len USER_START_VMA 1000000 PTE_R s = Ok (0, s).
Proof.
  destruct demo_mapped as (s & p & ps & e & Hi & Hl & Em & Hf & Hp).
  exists s. rewrite (memory_validate_first_page_only s (p :: ps) demo_root
    USER_START_VMA 1000000 PTE_R e Hi); try done.
  replace (entry_allows e PTE_R) with true; [by rewrite orb_true_r|].
  symmetry. unfold entry_allows. rewrite Hf.
  destruct (Z.eqb_spec (ppn e) 0) as [E|]; [|reflexivity].
  exfalso. unfold tab_of in Hp. rewrite E in Hp. vm_compute in Hp. discriminate Hp.
Defined.

(** The tag of a space as a number, and the root it names. *)
Lemma mk_mtag_val root :
  page_ok root -> mk_mtag root = 9223372036854775808 + root / 4096.
Proof.
  intros (Hal & H0 & H1). unfold mk_mtag, pageptr_to_pagenum, PAGE_ORDER.
  rewrite Z.shiftr_div_pow2 by lia. change (2 ^ 12) with 4096.
  change (u64 _) with (Z.shiftl 1 63).
  rewrite <- Z.lxor_lor, <- Z.add_nocarry_lxor; [done| |].
  all: apply Z.bits_inj'; intros n Hn; rewrite Z.land_spec, Z.bits_0;
    rewrite Z.shiftl_1_l, Z.pow2_bits_eqb by lia;
    destruct (Z.eqb_spec 63 n) as [<-|]; [|done];
    rewrite andb_true_l; apply Z.testbit_false; [lia|];
    change (2 ^ 56) with 72057594037927936 in H1;
    rewrite (Z.div_small (root / 4096)); [done|];
    change (2 ^ 63) with 9223372036854775808; wrap_lia.
Qed.

Lemma mtag_root root : page_ok root -> mtag_to_root (mk_mtag root) = root.
Proof.
  intros Hr. rewrite (mk_mtag_val root Hr). destruct Hr as (Hal & H0 & H1).
  unfold mtag_to_root. rewrite Z.shiftl_mul_pow2, Z.shiftr_div_pow2 by lia.
  change (2 ^ 20) with 1048576. change (2 ^ 8) with 256.
  change (2 ^ 56) with 72057594037927936 in H1. unfold PAGE_SIZE in Hal. wrap_lia.
Qed.

(** Tags and switching: switching to the tag of a space returns the old
    tag and makes its root the active root, so that switching back restores the
    machine exactly; and the page number in the tag gives the root back, which
    is how [memory_space_reclaim] finds it. *)
Theorem space_switch_roundtrip (s : kmem) (root : Z)
    (Hroot : page_ok root) (Hsatp : 0 <= satp s < 2 ^ 64) :
  exists s', memory_space_switch (mk_mtag root) s = Ok (satp s, s') /\
    active_space_root s' = Ok (root, s') /\ active_memory_space s' = Ok (mk_mtag root, s') /\
    memory_space_switch (satp s) s' = Ok (mk_mtag root, s) /\
    pagenum_to_pageptr (mk_mtag root) = root.
Proof.
  assert (Ek := mk_mtag_val root Hroot). assert (Em := mtag_root root Hroot).
  destruct Hroot as (Hal & H0 & H1).
  eexists. split_and!; [reflexivity| | | |].
  - by apply run_active_root.
  - done.
  - by destruct s.
  - rewrite Ek. unfold pagenum_to_pageptr, PAGE_ORDER. rewrite Z.shiftl_mul_pow2 by lia.
    change (2 ^ 12) with 4096. change (2 ^ 56) with 72057594037927936 in H1.
    unfold PAGE_SIZE in Hal. wrap_lia.
Qed.

Lemma space_switch_roundtrip_witness :
  exists s', memory_space_switch (mk_mtag 2147557376) demo_vm = Ok (mk_mtag demo_root, s') /\
    memory_space_switch (mk_mtag demo_root) s' = Ok (mk_mtag 2147557376, demo_vm).
Proof.
  destruct (space_switch_roundtrip demo_vm 2147557376) as (s' & E1 & _ & _ & E2 & _).
  - repeat split; lia.
  - split; vm_compute; [discriminate|reflexivity].
  - exists s'. exact (conj E1 E2).
Defined.

(** [struct pte] and the 64-bit entry the hardware reads are the same
    information: decoding an encoded entry gives it back for every entry whose
    fields fit, and encoding a decoded word gives the word back. *)
Theorem pte_roundtrip (e : pte) (x : Z) (He : pte_wf e) (Hx : 0 <= x < 2 ^ 64) :
  pte_decode (pte_encode e) = e /\ pte_encode (pte_decode x) = x /\ 0 <= pte_encode e < 2 ^ 64.
Proof.
  split_and!; [by apply decode_encode|by apply encode_decode| |];
    destruct He; unfold pte_encode; lia.
Qed.

Lemma pte_roundtrip_witness :
  pte_decode (pte_encode (leaf_pte 2147483648 PTE_R)) = leaf_pte 2147483648 PTE_R /\
  pte_encode (pte_decode 536870979) = 536870979.
Proof.
  destruct (pte_roundtrip (leaf_pte 2147483648 PTE_R) 536870979 (leaf_pte_wf _ _) ltac:(lia))
    as (E1 & E2 & _). by split.
Defined.
