(* ===== verification/KernelMap.v ===== *)
(** memory.c, start-up: what [memory_init] builds.

    [translate] is the Sv39 address translation of the RISC-V privileged
    architecture over the page tables in memory.  The theorem of this file
    gives the kernel's address space after [memory_init], and shows that the
    invariant the allocators of [PhysMem] need holds from then on. *)

From S2P Require Import Prelude PhysMem PageTable.

Ltac consts :=
  unfold RAM_END, RAM_SIZE, RAM_START, RAM_START_PMA, GIGA_SIZE, MEGA_SIZE, PAGE_SIZE in *.

(** ** Sv39 translation *)

(** The physical address and the permissions of [va] in the space rooted at
    [root], with 1 GB, 2 MB and 4 kB leaves. *)
Definition translate (m : gmap Z Z) (root va : Z) : option (Z * Z) :=
  let e2 := ent m (root + 8 * VPN2 va) in
  if negb (valid e2) then None
  else if is_leaf e2 then Some (tab_of e2 + va mod GIGA_SIZE, flags e2)
  else
    let e1 := ent m (tab_of e2 + 8 * VPN1 va) in
    if negb (valid e1) then None
    else if is_leaf e1 then Some (tab_of e1 + va mod MEGA_SIZE, flags e1)
    else
      let e0 := ent m (tab_of e1 + 8 * VPN0 va) in
      if negb (valid e0) then None
      else if is_leaf e0 then Some (tab_of e0 + va mod PAGE_SIZE, flags e0)
      else None.

(** ** The kernel image (kernel.ld) *)

(** The section addresses are those of the linker script: the text starts at
    RAM_START, the other sections at the next page boundary, the image ends at
    a page boundary, and the three static page tables are different pages of
    its data. *)
Record image_ok (k : kimage) : Prop := {
  io_start : kimg_start k = RAM_START;
  io_text : text_start k = RAM_START;
  io_text_end : RAM_START <= text_end k < RAM_END;
  io_ro : rodata_start k = round_up_ptr (text_end k) PAGE_SIZE;
  io_ro_end : rodata_start k <= rodata_end k < RAM_END;
  io_data : data_start k = round_up_ptr (rodata_end k) PAGE_SIZE;
  io_end : data_start k < kimg_end k <= RAM_START + MEGA_SIZE;
  io_end_al : kimg_end k mod PAGE_SIZE = 0;
  io_tabs : forall t, t ∈ [main_pt2 k; main_pt1_0x80000 k; main_pt0_0x80000 k] ->
    t mod PAGE_SIZE = 0 /\ data_start k <= t < kimg_end k;
  io_nodup : NoDup [main_pt2 k; main_pt1_0x80000 k; main_pt0_0x80000 k]
}.

(** The memory before [memory_init]: the static tables are zero (they are in
    .bss), and so is the first word of the last page of RAM. *)
Record ram_clear (k : kimage) (m : gmap Z Z) : Prop := {
  rc_tabs : forall t i, t ∈ [main_pt2 k; main_pt1_0x80000 k; main_pt0_0x80000 k] ->
    idx i -> rd m (t + 8 * i) = 0;
  rc_last : rd m (RAM_END - PAGE_SIZE) = 0
}.

(** The permissions the comments of [memory_init] give for an address. *)
Definition kperm (k : kimage) (va : Z) : Z :=
  if (RAM_START <=? va) && (va <? rodata_start k) then Z.lor (Z.lor PTE_R PTE_X) PTE_G
  else if (RAM_START <=? va) && (va <? data_start k) then Z.lor PTE_R PTE_G
  else Z.lor (Z.lor PTE_R PTE_W) PTE_G.

(** ** Loops of stores *)

Definition put_all {A} (addr : A -> Z) (v : A -> pte) (l : list A) (m : gmap Z Z) : gmap Z Z :=
  foldl (fun m x => <[addr x := pte_encode (v x)]> m) m l.

Lemma forM_store_pte {A} (addr : A -> Z) (v : A -> pte) l s :
  forM l (fun x => store_pte (addr x) (v x)) s = Ok (tt, set_mem (put_all addr v l) s).
Proof.
  revert s. induction l as [|x l IH]; intros s; [by destruct s|].
  cbn [forM]. rewrite (bind_Ok _ _ _ _ _ (run_store_pte (addr x) (v x) s)). apply IH.
Qed.

Lemma put_all_out {A} (addr : A -> Z) v l m a :
  (forall x, x ∈ l -> addr x <> a) -> ent (put_all addr v l m) a = ent m a.
Proof.
  revert m. induction l as [|x l IH]; intros m Hout; [done|].
  change (put_all addr v (x :: l) m) with (put_all addr v l (<[addr x := pte_encode (v x)]> m)).
  rewrite IH by (intros; apply Hout; by right).
  apply ent_insert_ne, Hout. by left.
Qed.

Lemma put_all_in {A} (addr : A -> Z) v (l : list A) m x :
  x ∈ l -> pte_wf (v x) -> (forall y, y ∈ l -> addr y = addr x -> v y = v x) ->
  ent (put_all addr v l m) (addr x) = v x.
Proof.
  intros Hin Hwf. induction l as [|y l IH] using rev_ind; intros Hinj;
    [by apply not_elem_of_nil in Hin|].
  unfold put_all. rewrite foldl_app. cbn [foldl]. fold (put_all addr v l m).
  destruct (decide (addr y = addr x)) as [E|Hne].
  - rewrite E, (Hinj y) by (done || set_solver). by apply ent_insert_eq.
  - rewrite ent_insert_ne by done. apply elem_of_app in Hin as [Hin|Hin].
    + apply IH; [done|]. intros z Hz. apply Hinj. set_solver.
    + apply list_elem_of_singleton in Hin as ->. done.
Qed.

Lemma pages_between_elem a b x :
  x ∈ pages_between a b <-> a <= x < b /\ (x - a) mod PAGE_SIZE = 0.
Proof.
  unfold pages_between. rewrite range_elem by (unfold PAGE_SIZE; lia). unfold PAGE_SIZE. split.
  - intros (i & Hi & -> & Hx). wrap_lia.
  - intros [Hx Hm]. exists ((x - a) / 4096). wrap_lia.
Qed.

(** ** The page tables *)

Section Tables.
Context (k : kimage) (Hk : image_ok k).

Definition low_gigas : list Z := range 2 0 RAM_START_PMA GIGA_SIZE.
Definition high_megas : list Z := range 3 (RAM_START + MEGA_SIZE) RAM_END MEGA_SIZE.
Definition slot0 (pp : Z) : Z := main_pt0_0x80000 k + 8 * VPN0 pp.
Definition RWG : Z := Z.lor (Z.lor PTE_R PTE_W) PTE_G.
Definition RXG : Z := Z.lor (Z.lor PTE_R PTE_X) PTE_G.
Definition RG : Z := Z.lor PTE_R PTE_G.
Definition text_pages : list Z := pages_between (text_start k) (text_end k).
Definition ro_pages : list Z := pages_between (rodata_start k) (rodata_end k).
Definition rw_pages : list Z := pages_between (data_start k) (RAM_START + MEGA_SIZE).

(** The memory after the page-table part of [memory_init]. *)
Definition tables_mem (m : gmap Z Z) : gmap Z Z :=
  put_all (fun pp => main_pt1_0x80000 k + 8 * VPN1 pp) (fun pp => leaf_pte pp RWG) high_megas
  (put_all slot0 (fun pp => leaf_pte pp RWG) rw_pages
  (put_all slot0 (fun pp => leaf_pte pp RG) ro_pages
  (put_all slot0 (fun pp => leaf_pte pp RXG) text_pages
  (<[main_pt1_0x80000 k + 8 * VPN1 RAM_START_PMA :=
       pte_encode (ptab_pte (main_pt0_0x80000 k) PTE_G)]>
  (<[main_pt2 k + 8 * VPN2 RAM_START_PMA :=
       pte_encode (ptab_pte (main_pt1_0x80000 k) PTE_G)]>
  (put_all (fun pma => main_pt2 k + 8 * VPN2 pma) (fun pma => leaf_pte pma RWG) low_gigas m)))))).

Lemma init_page_tables_run s :
  init_page_tables k s = Ok (tt, set_mem tables_mem s).
Proof.
  unfold init_page_tables.
  rewrite (bind_Ok _ _ _ _ _ (forM_store_pte (fun pma => main_pt2 k + 8 * VPN2 pma)
    (fun pma => leaf_pte pma RWG) low_gigas s)).
  rewrite (bind_Ok _ _ _ _ _ (run_store_pte _ _ _)), (bind_Ok _ _ _ _ _ (run_store_pte _ _ _)).
  rewrite (bind_Ok _ _ _ _ _ (forM_store_pte slot0 (fun pp => leaf_pte pp RXG) text_pages _)).
  rewrite (bind_Ok _ _ _ _ _ (forM_store_pte slot0 (fun pp => leaf_pte pp RG) ro_pages _)).
  rewrite (bind_Ok _ _ _ _ _ (forM_store_pte slot0 (fun pp => leaf_pte pp RWG) rw_pages _)).
  rewrite (forM_store_pte (fun pp => main_pt1_0x80000 k + 8 * VPN1 pp)
    (fun pp => leaf_pte pp RWG) high_megas _). done.
Qed.

Lemma tabs_ok : page_ok (main_pt2 k) /\ page_ok (main_pt1_0x80000 k) /\
  page_ok (main_pt0_0x80000 k) /\ main_pt2 k <> main_pt1_0x80000 k /\
  main_pt2 k <> main_pt0_0x80000 k /\ main_pt1_0x80000 k <> main_pt0_0x80000 k.
Proof.
  destruct Hk as [_ Hts Hte Hro Hroe Hd Hend _ Htab Hnd].
  assert (G : forall t, t ∈ [main_pt2 k; main_pt1_0x80000 k; main_pt0_0x80000 k] -> page_ok t).
  { intros t Ht. destruct (Htab t Ht) as [? ?].
    unfold page_ok, round_up_ptr in *. consts. split_and!; [done|wrap_lia..]. }
  apply NoDup_cons in Hnd as [Hn1 Hnd]. apply NoDup_cons in Hnd as [Hn2 _].
  split_and!; try (apply G; set_solver); set_solver.
Qed.

Lemma ent_pt2 m va :
  0 <= va < 2 ^ 39 ->
  ent (tables_mem m) (main_pt2 k + 8 * VPN2 va)
  = if va <? RAM_START then leaf_pte (va / GIGA_SIZE * GIGA_SIZE) RWG
    else if va <? RAM_START + GIGA_SIZE then ptab_pte (main_pt1_0x80000 k) PTE_G
    else ent m (main_pt2 k + 8 * VPN2 va).
Proof.
  intros Hva. destruct tabs_ok as (H2 & H1 & H0 & N21 & N20 & N10). unfold tables_mem.
  rewrite !put_all_out by (intros; unfold slot0; auto with kern).
  rewrite ent_insert_ne by auto with kern.
  assert (Elow : forall pma, pma ∈ low_gigas <-> pma = 0 \/ pma = GIGA_SIZE).
  { intros. unfold low_gigas. rewrite range_elem by (consts; lia). consts. split.
    - intros (i & Hi & -> & _). destruct (decide (i = 0)); [left|right]; lia.
    - intros [->| ->]; [exists 0|exists 1]; lia. }
  assert (EV : VPN2 va = va / 1073741824) by (rewrite VPN2_spec; wrap_lia).
  destruct (Z.ltb_spec va RAM_START) as [Hlo|Hhi].
  - rewrite ent_insert_ne by (apply slot_ne'; rewrite EV, VPN2_spec; consts; wrap_lia).
    replace (VPN2 va) with (VPN2 (va / GIGA_SIZE * GIGA_SIZE))
      by (rewrite EV, VPN2_spec; consts; wrap_lia).
    apply (put_all_in (fun pma => main_pt2 k + 8 * VPN2 pma) (fun pma => leaf_pte pma RWG)).
    + rewrite Elow. consts. wrap_lia.
    + auto with kern.
    + intros y Hy E. f_equal. apply Elow in Hy. rewrite !VPN2_spec in E. consts. wrap_lia.
  - destruct (Z.ltb_spec va (RAM_START + GIGA_SIZE)) as [Hmid|Hbig].
    + replace (VPN2 RAM_START_PMA) with (VPN2 va) by (rewrite EV, VPN2_spec; consts; wrap_lia).
      apply ent_insert_eq. auto with kern.
    + rewrite ent_insert_ne by (apply slot_ne'; rewrite EV, VPN2_spec; consts; wrap_lia).
      apply put_all_out. intros x Hx. apply Elow in Hx. apply slot_ne'.
      rewrite EV, VPN2_spec. consts. wrap_lia.
Qed.

Lemma ent_pt1 m va :
  RAM_START <= va < RAM_START + GIGA_SIZE ->
  ent (tables_mem m) (main_pt1_0x80000 k + 8 * VPN1 va)
  = if va <? RAM_START + MEGA_SIZE then ptab_pte (main_pt0_0x80000 k) PTE_G
    else if va <? RAM_END then leaf_pte (va / MEGA_SIZE * MEGA_SIZE) RWG
    else ent m (main_pt1_0x80000 k + 8 * VPN1 va).
Proof.
  intros Hva. destruct tabs_ok as (H2 & H1 & H0 & N21 & N20 & N10). unfold tables_mem.
  assert (EV : VPN1 va = (va - RAM_START) / 2097152) by (rewrite VPN1_spec; consts; wrap_lia).
  assert (Ehi : forall pp, pp ∈ high_megas <-> exists i, 1 <= i < 4 /\ pp = RAM_START + MEGA_SIZE * i).
  { intros. unfold high_megas. rewrite range_elem by (consts; lia). consts. split.
    - intros (i & Hi & -> & _). exists (i + 1). lia.
    - intros (i & Hi & ->). exists (i - 1). lia. }
  assert (Ein : forall i, 0 <= i < 4 -> VPN1 (RAM_START + MEGA_SIZE * i) = i)
    by (intros; rewrite VPN1_spec; consts; wrap_lia).
  destruct (Z.ltb_spec va (RAM_START + MEGA_SIZE)) as [Hlo|Hhi].
  - rewrite put_all_out.
    2: { intros x (i & Hi & ->)%Ehi. apply slot_ne'. rewrite EV, Ein by lia. consts. wrap_lia. }
    rewrite !put_all_out by (intros; unfold slot0; auto with kern).
    replace (VPN1 RAM_START_PMA) with (VPN1 va) by (rewrite EV, VPN1_spec; consts; wrap_lia).
    apply ent_insert_eq. auto with kern.
  - destruct (Z.ltb_spec va RAM_END) as [Hmid|Hbig].
    + replace (VPN1 va) with (VPN1 (va / MEGA_SIZE * MEGA_SIZE))
        by (rewrite EV, VPN1_spec; consts; wrap_lia).
      apply (put_all_in (fun pp => main_pt1_0x80000 k + 8 * VPN1 pp) (fun pp => leaf_pte pp RWG)).
      * apply Ehi. exists (VPN1 va). rewrite EV. consts. wrap_lia.
      * auto with kern.
      * intros y (i & Hi & ->)%Ehi E. f_equal. rewrite Ein, VPN1_spec in E by lia. consts. wrap_lia.
    + rewrite put_all_out.
      2: { intros x (i & Hi & ->)%Ehi. apply slot_ne'. rewrite EV, Ein by lia. consts. wrap_lia. }
      rewrite !put_all_out by (intros; unfold slot0; auto with kern).
      rewrite !ent_insert_ne; [|auto with kern|apply slot_ne'; rewrite EV, VPN1_spec; consts; wrap_lia].
      apply put_all_out. auto with kern.
Qed.

(** The section boundaries as arithmetic facts. *)
Lemma sections :
  rodata_start k mod 4096 = 0 /\ data_start k mod 4096 = 0 /\
  text_end k <= rodata_start k < text_end k + 4096 /\
  rodata_end k <= data_start k < rodata_end k + 4096 /\
  RAM_START <= rodata_start k <= data_start k /\ data_start k < RAM_START + MEGA_SIZE.
Proof.
  destruct Hk as [_ Hts Hte Hro Hroe Hd Hend _ _ _]. unfold round_up_ptr in *. consts.
  split_and!; wrap_lia.
Qed.

Lemma ent_pt0 m va :
  RAM_START <= va < RAM_START + MEGA_SIZE ->
  ent (tables_mem m) (main_pt0_0x80000 k + 8 * VPN0 va)
  = leaf_pte (va / PAGE_SIZE * PAGE_SIZE) (kperm k va).
Proof.
  intros Hva. destruct tabs_ok as (H2 & H1 & H0 & N21 & N20 & N10).
  destruct sections as (Mr & Md & Hte & Hre & Hrd & Hdm).
  assert (Hts := io_text k Hk).
  set (q := va / PAGE_SIZE * PAGE_SIZE).
  assert (Hq : q <= va < q + 4096 /\ q mod 4096 = 0) by (unfold q; consts; wrap_lia).
  assert (EV : forall x, RAM_START <= x < RAM_START + MEGA_SIZE -> VPN0 x = (x - RAM_START) / 4096)
    by (intros; rewrite VPN0_spec; consts; wrap_lia).
  assert (Eq : main_pt0_0x80000 k + 8 * VPN0 va = slot0 q).
  { unfold slot0. rewrite !EV by (consts; wrap_lia). consts. wrap_lia. }
  assert (Hinj : forall (l : list Z) f, (forall y, y ∈ l -> RAM_START <= y < RAM_START + MEGA_SIZE /\ y mod 4096 = 0) ->
    forall y, y ∈ l -> slot0 y = slot0 q -> leaf_pte y f = leaf_pte q f).
  { intros l f Hl y Hy E. f_equal. destruct (Hl y Hy). unfold slot0 in E.
    rewrite !EV in E by (consts; wrap_lia). consts. wrap_lia. }
  assert (Hout : forall (l : list Z), (forall y, y ∈ l -> RAM_START <= y < RAM_START + MEGA_SIZE /\
     y mod 4096 = 0 /\ y <> q) -> forall y, y ∈ l -> slot0 y <> slot0 q).
  { intros l Hl y Hy E. destruct (Hl y Hy) as (? & ? & Hne). apply Hne. unfold slot0 in E.
    rewrite !EV in E by (consts; wrap_lia). consts. wrap_lia. }
  rewrite Eq. unfold tables_mem. rewrite put_all_out by (intros; unfold slot0; auto with kern).
  unfold kperm. replace (RAM_START <=? va) with true by (symmetry; apply Z.leb_le; lia).
  rewrite !andb_true_l.
  destruct (Z.ltb_spec va (rodata_start k)) as [Ht|Ht]; [|destruct (Z.ltb_spec va (data_start k)) as [Hd|Hd]].
  - rewrite put_all_out by (apply Hout; intros y; unfold rw_pages; rewrite pages_between_elem; consts; wrap_lia).
    rewrite put_all_out by (apply Hout; intros y; unfold ro_pages; rewrite pages_between_elem; consts; wrap_lia).
    apply (put_all_in slot0 (fun pp => leaf_pte pp RXG)); [|auto with kern|apply Hinj].
    all: intros; unfold text_pages in *; rewrite pages_between_elem in *; consts; wrap_lia.
  - rewrite put_all_out by (apply Hout; intros y; unfold rw_pages; rewrite pages_between_elem; consts; wrap_lia).
    apply (put_all_in slot0 (fun pp => leaf_pte pp RG)); [|auto with kern|apply Hinj].
    all: intros; unfold ro_pages in *; rewrite pages_between_elem in *; consts; wrap_lia.
  - apply (put_all_in slot0 (fun pp => leaf_pte pp RWG)); [|auto with kern|apply Hinj].
    all: intros; unfold rw_pages in *; rewrite pages_between_elem in *; consts; wrap_lia.
Qed.
End Tables.

(** ** The kernel's address space *)

Lemma leaf_tab p f : p mod 4096 = 0 -> 0 <= p < 2 ^ 56 -> tab_of (leaf_pte p f) = p.
Proof.
  intros Hal Hp. unfold tab_of, leaf_pte. cbn [ppn with_ppn].
  unfold pagenum_to_pageptr, pageptr_to_pagenum, PAGE_ORDER.
  rewrite Z.shiftr_div_pow2, Z.shiftl_mul_pow2 by lia. change (2 ^ 12) with 4096.
  change (2 ^ 56) with 72057594037927936 in Hp. wrap_lia.
Qed.

Lemma leaf_flags p f : flags (leaf_pte p f) = map_flags 0 f.
Proof. done. Qed.

Lemma kperm_facts k va :
  has (map_flags 0 (kperm k va)) PTE_V = true /\ has (map_flags 0 (kperm k va)) PTE_R = true /\
  (has (map_flags 0 (kperm k va)) PTE_W && has (map_flags 0 (kperm k va)) PTE_X = false).
Proof. unfold kperm. repeat casesplit; by vm_compute. Qed.

Lemma leaf_kperm k p va :
  valid (leaf_pte p (kperm k va)) = true /\ is_leaf (leaf_pte p (kperm k va)) = true.
Proof.
  unfold valid, is_leaf. rewrite !leaf_flags. destruct (kperm_facts k va) as (-> & -> & _). done.
Qed.

Lemma zero_invalid m a : rd m a = 0 -> valid (ent m a) = false.
Proof. unfold ent, valid. by intros ->. Qed.

(** Memory that agrees with the tables built by [memory_init] translates every
    address of RAM and of the device region to itself and no other. *)
Lemma translate_tables k m m' va :
  image_ok k -> ram_clear k m -> 0 <= va < 2 ^ 39 ->
  (forall t i, t ∈ [main_pt2 k; main_pt1_0x80000 k; main_pt0_0x80000 k] -> idx i ->
     ent m' (t + 8 * i) = ent (tables_mem k m) (t + 8 * i)) ->
  translate m' (main_pt2 k) va
  = if va <? RAM_END then Some (va, map_flags 0 (kperm k va)) else None.
Proof.
  intros Hk [Hz _] Hva Hm. destruct (tabs_ok k Hk) as (H2 & H1 & H0 & _).
  unfold translate. rewrite Hm, ent_pt2 by (auto with kern; set_solver).
  assert (Eperm : forall v, RAM_START + MEGA_SIZE <= v \/ v < RAM_START -> kperm k v = RWG).
  { intros v Hv. unfold kperm. destruct (sections k Hk) as (_ & _ & _ & _ & ? & ?).
    destruct (Z.leb_spec RAM_START v); [|done]. destruct (Z.ltb_spec v (rodata_start k)); [lia|].
    destruct (Z.ltb_spec v (data_start k)); [lia|done]. }
  destruct (Z.ltb_spec va RAM_START) as [Hlo|Hhi].
  { rewrite leaf_tab by (consts; wrap_lia). rewrite <- (Eperm va) by lia.
    destruct (leaf_kperm k (va / GIGA_SIZE * GIGA_SIZE) va) as [-> ->].
    destruct (Z.ltb_spec va RAM_END); [|consts; lia]. rewrite leaf_flags. cbn [negb].
    do 2 f_equal. consts. wrap_lia. }
  destruct (Z.ltb_spec va (RAM_START + GIGA_SIZE)) as [Hgig|Hbig].
  2: { rewrite zero_invalid by (apply Hz; [set_solver|auto with kern]). cbn [negb].
       destruct (Z.ltb_spec va RAM_END); [consts; lia|done]. }
  change (valid (ptab_pte (main_pt1_0x80000 k) PTE_G)) with true.
  change (is_leaf (ptab_pte (main_pt1_0x80000 k) PTE_G)) with false. cbn [negb].
  rewrite tab_of_ptab, Hm, ent_pt1 by (auto with kern; set_solver).
  destruct (Z.ltb_spec va (RAM_START + MEGA_SIZE)) as [Hmeg|Hpast].
  - change (valid (ptab_pte (main_pt0_0x80000 k) PTE_G)) with true.
    change (is_leaf (ptab_pte (main_pt0_0x80000 k) PTE_G)) with false. cbn [negb].
    rewrite tab_of_ptab, Hm, ent_pt0 by (auto with kern; set_solver).
    destruct (leaf_kperm k (va / PAGE_SIZE * PAGE_SIZE) va) as [-> ->]. cbn [negb].
    rewrite leaf_tab by (consts; wrap_lia). rewrite leaf_flags.
    destruct (Z.ltb_spec va RAM_END); [|consts; lia]. do 2 f_equal. consts. wrap_lia.
  - destruct (Z.ltb_spec va RAM_END) as [Hin|Hout].
    + rewrite <- (Eperm va) by lia.
      destruct (leaf_kperm k (va / MEGA_SIZE * MEGA_SIZE) va) as [-> ->]. cbn [negb].
      rewrite leaf_tab by (consts; wrap_lia). rewrite leaf_flags.
      do 2 f_equal. consts. wrap_lia.
    + rewrite zero_invalid by (apply Hz; [set_solver|auto with kern]). done.
Qed.

(** ** The free list *)

Lemma link_pages_run n : forall fuel aux base m,
  aux = RAM_END - PAGE_SIZE * (Z.of_nat n + 1) -> 0 < aux -> (n <= fuel)%nat ->
  rd m (RAM_END - PAGE_SIZE) = 0 ->
  exists m', (forall s, mem s = m ->
      link_pages aux (range fuel (aux + PAGE_SIZE - base) (RAM_END - base) PAGE_SIZE) base s
      = Ok (tt, set_mem (fun _ => m') s)) /\
    (forall a, a < aux -> rd m' a = rd m a) /\
    (forall a, rd m' a = rd m a \/ rd m' a mod PAGE_SIZE = 0) /\
    chain m' aux (range (S n) aux RAM_END PAGE_SIZE).
Proof.
  induction n as [|n IH]; intros fuel aux base m Haux Hpos Hf Hlast.
  - exists m. split_and!; [|done|by left|].
    + intros s <-. replace (range fuel _ _ _) with (@nil Z); [by destruct s|].
      destruct fuel; [done|]. cbn [range].
      by destruct (Z.ltb_spec (aux + PAGE_SIZE - base) (RAM_END - base)); [lia|].
    + cbn [range]. destruct (Z.ltb_spec aux RAM_END); [|consts; lia].
      split_and!; [done|lia|]. by replace aux with (RAM_END - PAGE_SIZE) by lia.
  - destruct fuel as [|fuel]; [lia|].
    destruct (IH fuel (aux + PAGE_SIZE) base (<[aux := aux + PAGE_SIZE]> m)) as (m' & E & Hfr & Hw & Hc).
    { consts; lia. } { consts; lia. } { lia. }
    { rewrite rd_insert_ne by (consts; lia). done. }
    exists m'. split_and!.
    + intros s <-. cbn [range].
      destruct (Z.ltb_spec (aux + PAGE_SIZE - base) (RAM_END - base)); [|consts; lia].
      cbn [link_pages]. rewrite Z.sub_add.
      replace (aux + PAGE_SIZE - base + PAGE_SIZE) with (aux + PAGE_SIZE + PAGE_SIZE - base) by lia.
      rewrite (bind_Ok _ _ _ tt (set_mem <[aux := aux + PAGE_SIZE]> s)) by done. by rewrite E.
    + intros a Ha. rewrite Hfr by (consts; lia). apply rd_insert_ne. lia.
    + intros a. destruct (Hw a) as [E'|]; [|by right]. rewrite E'.
      destruct (decide (aux = a)) as [->|Hne]; [right|left; by apply rd_insert_ne].
      rewrite rd_insert_eq, Haux. consts. wrap_lia.
    + cbn [range]. destruct (Z.ltb_spec aux RAM_END); [|consts; lia].
      split_and!; [done|lia|]. by rewrite Hfr, rd_insert_eq by (consts; lia).
Qed.

Lemma pairwise_pages n from to :
  pairwise (page_region <$> range n from to PAGE_SIZE) /\
  Forall (fun r => from <= r.1) (page_region <$> range n from to PAGE_SIZE).
Proof.
  revert from. induction n as [|n IH]; intros from; cbn [range]; [by split|].
  casesplit; [|by split]. destruct (IH (from + PAGE_SIZE)) as [Hp Hf]. cbn. split.
  - split; [|done]. eapply Forall_impl; [exact Hf|]. intros r Hr. left. cbn in *. lia.
  - constructor; [simpl; lia|]. eapply Forall_impl; [exact Hf|]. intros r Hr. cbn in *. consts. lia.
Qed.

Lemma heap_init_run a b s : a < b -> heap_init a b s = Ok (tt, set_heap a b s).
Proof. intros H. unfold heap_init. by destruct (Z.ltb_spec a b); [|lia]. Qed.

(** ** Result *)

Lemma tables_mem_high k m a :
  image_ok k -> kimg_end k <= a -> rd (tables_mem k m) a = rd m a.
Proof.
  intros Hk Ha.
  assert (Hne : forall t i, t ∈ [main_pt2 k; main_pt1_0x80000 k; main_pt0_0x80000 k] -> idx i ->
     t + 8 * i <> a).
  { intros t i Ht Hi. destruct (io_tabs k Hk t Ht) as [Hal Hr]. pose proof (io_end_al k Hk).
    unfold idx, PAGE_SIZE in *. wrap_lia. }
  assert (Hput : forall (addr : Z -> Z) v l m', (forall x, addr x <> a) ->
     rd (put_all addr v l m') a = rd m' a).
  { intros addr v l. induction l as [|x l IH]; intros m' Hn; [done|].
    change (put_all addr v (x :: l) m') with (put_all addr v l (<[addr x := pte_encode (v x)]> m')).
    rewrite IH by done. by apply rd_insert_ne. }
  unfold tables_mem.
  rewrite !Hput, !rd_insert_ne, !Hput; try done;
    intros; unfold slot0; apply Hne; auto with kern; set_solver.
Qed.

(** The pages to be handed out: all those after the image. *)
Lemma fresh_init k s :
  image_ok k -> heap_region s = (kimg_end k, PAGE_SIZE) ->
  fresh s (pages_between (kimg_end k + PAGE_SIZE) RAM_END) = pages_between (kimg_end k) RAM_END.
Proof.
  intros Hk Hreg. pose proof (io_end k Hk). injection Hreg as Hs He.
  unfold fresh. rewrite Hs in He |- *. rewrite He, Z.eqb_refl. unfold pages_between at 2.
  destruct (Z.to_nat _) eqn:En; [exfalso; consts; wrap_lia|]. cbn [range].
  destruct (Z.ltb_spec (kimg_end k) RAM_END); [|consts; lia]. cbn [app]. f_equal.
  unfold pages_between. f_equal. consts. wrap_lia.
Qed.

(** The empty user part of the space [memory_init] leaves, when no word of the
    memory after the image has a flag set. *)
Lemma init_vm_inv k m s :
  image_ok k -> ram_clear k m ->
  (forall p i, p ∈ pages_between (kimg_end k) RAM_END -> idx i -> flags (ent m (p + 8 * i)) = 0) ->
  (forall t i, t ∈ [main_pt2 k; main_pt1_0x80000 k; main_pt0_0x80000 k] -> idx i ->
     ent (mem s) (t + 8 * i) = ent (tables_mem k m) (t + 8 * i)) ->
  (forall a, rd (mem s) a = rd (tables_mem k m) a \/ rd (mem s) a mod PAGE_SIZE = 0) ->
  satp s = mk_mtag (main_pt2 k) ->
  pool s (pages_between (kimg_end k + PAGE_SIZE) RAM_END) -> heap_wf s -> heap_paged s ->
  heap_region s = (kimg_end k, PAGE_SIZE) ->
  vm_inv s (pages_between (kimg_end k + PAGE_SIZE) RAM_END) (main_pt2 k) /\
  has1 (mem s) (main_pt2 k) = false.
Proof.
  intros Hk Hc Hclean Htab Hw Hsatp Hpool Hheap Hpaged Hreg.
  destruct (tabs_ok k Hk) as (Hp2 & _). pose proof (io_end k Hk) as Hend. pose proof (io_end_al k Hk) as Hal.
  destruct (sections k Hk) as (_ & _ & _ & _ & Hro & Hda).
  pose proof (fresh_init k s Hk Hreg) as Ef. injection Hreg as Hs He.
  assert (H1 : has1 (mem s) (main_pt2 k) = false).
  { unfold has1. unfold uslot. rewrite Htab by (auto with kern; set_solver).
    change USER_VPN2 with (VPN2 (3 * GIGA_SIZE)). rewrite ent_pt2 by (done || (consts; lia)).
    destruct (Z.ltb_spec (3 * GIGA_SIZE) RAM_START); [consts; lia|].
    destruct (Z.ltb_spec (3 * GIGA_SIZE) (RAM_START + GIGA_SIZE)); [consts; lia|].
    apply zero_invalid. apply Hc; [set_solver|auto with kern]. }
  assert (H0 : forall i, has0 (mem s) (main_pt2 k) i = false) by (intros; unfold has0; by rewrite H1).
  split; [|done]. constructor; [rewrite Hsatp; by apply mtag_root| |].
  - constructor; try done; rewrite ?Ef.
    + unfold pages_between. apply range_NoDup. consts; lia.
    + apply Forall_forall. intros x Hx. apply pages_between_elem in Hx. unfold page_ok. consts. wrap_lia.
    + intros p i Hp Hi. pose proof Hp as Hp'. apply pages_between_elem in Hp'.
      unfold ent, pte_decode. cbn [flags]. destruct (Hw (p + 8 * i)) as [E|E].
      * rewrite E, tables_mem_high by (done || (unfold idx in *; lia)). by apply Hclean.
      * unfold PAGE_SIZE in E. wrap_lia.
    + split; [done|]. rewrite pages_between_elem. destruct (io_tabs k Hk (main_pt2 k)); [set_solver|]. lia.
    + by rewrite H1.
    + intros i _. by rewrite H0.
    + intros i j _ _. by rewrite H0.
    + intros i j _ _. by rewrite H0.
    + by rewrite H1.
    + intros i _. by rewrite H0.
  - constructor; intros *; unfold umap; rewrite H0; done.
Qed.

(** What [memory_init] does, with the entries of the three static tables. *)
Lemma memory_init_run (k : kimage) (s : kmem)
    (Hk : image_ok k) (Hclear : ram_clear k (mem s)) :
  exists s', memory_init k s = Ok (tt, s') /\
    satp s' = mk_mtag (main_pt2 k) /\ main_mtag s' = mk_mtag (main_pt2 k) /\
    (forall va, 0 <= va < 2 ^ 39 -> translate (mem s') (main_pt2 k) va
       = if va <? RAM_END then Some (va, map_flags 0 (kperm k va)) else None) /\
    (forall va, has (map_flags 0 (kperm k va)) PTE_W && has (map_flags 0 (kperm k va)) PTE_X = false) /\
    alloc_inv s' (pages_between (kimg_end k + PAGE_SIZE) RAM_END) [] /\ heap_paged s' /\
    heap_region s' = (kimg_end k, PAGE_SIZE) /\
    (forall t i, t ∈ [main_pt2 k; main_pt1_0x80000 k; main_pt0_0x80000 k] -> idx i ->
       ent (mem s') (t + 8 * i) = ent (tables_mem k (mem s)) (t + 8 * i)) /\
    ((forall p i, p ∈ pages_between (kimg_end k) RAM_END -> idx i -> flags (ent (mem s) (p + 8 * i)) = 0) ->
     vm_inv s' (pages_between (kimg_end k + PAGE_SIZE) RAM_END) (main_pt2 k) /\
     has1 (mem s') (main_pt2 k) = false).
Proof.
  pose proof (io_end k Hk) as Hend. pose proof (io_end_al k Hk) as Hal.
  destruct (sections k Hk) as (_ & _ & _ & _ & Hro & Hdm). set (e := kimg_end k) in *.
  assert (He0 : round_up_ptr e PAGE_SIZE = e) by (unfold round_up_ptr; consts; wrap_lia).
  set (he := e + PAGE_SIZE).
  set (n := Z.to_nat ((RAM_END - he) / PAGE_SIZE - 1)).
  assert (Hn : he = RAM_END - PAGE_SIZE * (Z.of_nat n + 1)) by (unfold n, he; consts; wrap_lia).
  destruct (link_pages_run n ram_pages he he (tables_mem k (mem s))) as (m' & El & Hfr & Hwm & Hc).
  { done. } { unfold he; consts; lia. } { unfold n, ram_pages, he; consts; wrap_lia. }
  { rewrite tables_mem_high; [apply Hclear|done|unfold e in *; consts; lia]. }
  replace (he + PAGE_SIZE - he) with PAGE_SIZE in El by lia.
  assert (Epg : pages_between he RAM_END = range (S n) he RAM_END PAGE_SIZE).
  { unfold pages_between. f_equal. consts. wrap_lia. }
  assert (Htab : forall t i, t ∈ [main_pt2 k; main_pt1_0x80000 k; main_pt0_0x80000 k] -> idx i ->
     ent m' (t + 8 * i) = ent (tables_mem k (mem s)) (t + 8 * i)).
  { intros t i Ht Hi. unfold ent. rewrite Hfr; [done|].
    destruct (io_tabs k Hk t Ht) as [Htal Htr]. unfold he, e in *. unfold idx in Hi. consts. wrap_lia. }
  set (s' := mkKmem m' he e he (mk_mtag (main_pt2 k)) (mk_mtag (main_pt2 k))).
  assert (Hpool : pool s' (pages_between he RAM_END)).
  { constructor.
    - cbn. by rewrite Epg.
    - rewrite Epg. apply range_NoDup. consts; lia.
    - apply Forall_forall. intros x Hx. apply pages_between_elem in Hx.
      unfold page_ok, he in *. consts. wrap_lia. }
  assert (Hheap : heap_wf s') by (constructor; cbn; unfold he in *; consts; wrap_lia).
  assert (Hpaged : heap_paged s') by (split; cbn; unfold he; consts; [lia|done]).
  assert (Hreg : heap_region s' = (e, PAGE_SIZE)) by (unfold heap_region; cbn; f_equal; unfold he; lia).
  exists s'. split_and!; try done.
  - unfold memory_init. rewrite (io_start k Hk), Z.eqb_refl.
    change (cassert true) with (mret tt : M kmem unit). rewrite bind_run. cbn [mret M_ret obind].
    fold e. destruct (Z.ltb_spec MEGA_SIZE (e - RAM_START)); [lia|].
    rewrite bind_run. cbn [mret M_ret obind].
    rewrite (bind_Ok _ _ _ _ _ (init_page_tables_run k s)), bind_run. cbn [modify obind].
    rewrite He0, Z.sub_diag. change (0 <? HEAP_INIT_MIN) with true. cbn match.
    change (e + round_up_size (HEAP_INIT_MIN - 0) PAGE_SIZE) with he.
    destruct (Z.ltb_spec RAM_END he); [unfold he in *; consts; lia|].
    rewrite bind_run. cbn [mret M_ret obind].
    rewrite (bind_Ok _ _ _ _ _ (heap_init_run e he _ ltac:(unfold he; consts; lia))).
    rewrite bind_run. cbn [modify obind]. rewrite El by done. done.
  - intros va Hva. by apply (translate_tables k (mem s)).
  - intros va. apply (kperm_facts k va).
  - constructor; [done|done|].
    cbn. rewrite app_nil_r. fold he. rewrite Epg. destruct (pairwise_pages (S n) he RAM_END) as [Hp Hf].
    split; [|done]. eapply Forall_impl; [exact Hf|]. intros r Hr. left.
    change (he <= r.1) in Hr. change (e + (he - e) <= r.1). lia.
  - intros Hclean. by apply (init_vm_inv k (mem s)).
Qed.

(** C25. Start-up.  For a kernel image laid out as the linker script lays it
    out, [memory_init] returns, and then: the active space is the static root
    table; every address of the device region and of RAM translates to itself,
    with exactly the permissions the comments give (text read/execute,
    read-only data read, everything else read/write), and every other address
    of the lower half does not translate; no page is both writable and
    executable; and the invariant of the page and heap allocators holds, the
    heap block being the page after the image and the free list all the pages
    from there to the end of RAM.  If moreover no word of the memory after the
    image has a flag bit set, as in memory that starts as zero, the invariant of
    the page tables holds too, with nothing mapped for the user. *)
Theorem memory_init_spec (k : kimage) (s : kmem)
    (Hk : image_ok k) (Hclear : ram_clear k (mem s)) :
  exists s', memory_init k s = Ok (tt, s') /\
    satp s' = mk_mtag (main_pt2 k) /\ main_mtag s' = mk_mtag (main_pt2 k) /\
    (forall va, 0 <= va < 2 ^ 39 -> translate (mem s') (main_pt2 k) va
       = if va <? RAM_END then Some (va, map_flags 0 (kperm k va)) else None) /\
    (forall va, has (map_flags 0 (kperm k va)) PTE_W && has (map_flags 0 (kperm k va)) PTE_X = false) /\
    alloc_inv s' (pages_between (kimg_end k + PAGE_SIZE) RAM_END) [] /\ heap_paged s' /\
    heap_region s' = (kimg_end k, PAGE_SIZE) /\
    ((forall p i, p ∈ pages_between (kimg_end k) RAM_END -> idx i -> flags (ent (mem s) (p + 8 * i)) = 0) ->
     vm_inv s' (pages_between (kimg_end k + PAGE_SIZE) RAM_END) (main_pt2 k) /\
     has1 (mem s') (main_pt2 k) = false).
Proof.
  destruct (memory_init_run k s Hk Hclear) as (s' & E & Es & Em & Ht & Hp & Ha & Hpd & Hr & _ & Hv).
  by exists s'.
Qed.

(** An image of 16 pages: four of text, two of read-only data, ten of data that
    begin with the page tables. *)
Definition demo_image : kimage :=
  mkImage RAM_START RAM_START (RAM_START + 16000) (RAM_START + 16384) (RAM_START + 24000)
    (RAM_START + 24576) (RAM_START + 65536)
    (RAM_START + 24576) (RAM_START + 28672) (RAM_START + 32768).

Lemma demo_image_ok : image_ok demo_image.
Proof.
  assert (Hr : forall a, round_up_ptr a PAGE_SIZE = u64 (a + 4095) / 4096 * 4096).
  { intros. unfold round_up_ptr. consts. do 3 f_equal. lia. }
  constructor; rewrite ?Hr; unfold demo_image;
    cbn [kimg_start text_start text_end rodata_start rodata_end data_start kimg_end
         main_pt2 main_pt1_0x80000 main_pt0_0x80000]; consts; try reflexivity; try lia.
  - intros t. rewrite !elem_of_cons, elem_of_nil. intros [->|[->|[->|[]]]]; split; try reflexivity; lia.
  - repeat constructor; rewrite ?elem_of_cons, ?elem_of_nil; lia.
Qed.

Lemma memory_init_spec_witness :
  exists s', memory_init demo_image (mkKmem ∅ 0 0 0 0 0) = Ok (tt, s') /\
    translate (mem s') (main_pt2 demo_image) 2147483700
    = Some (2147483700, map_flags 0 (Z.lor (Z.lor PTE_R PTE_X) PTE_G)).
Proof.
  destruct (memory_init_spec demo_image (mkKmem ∅ 0 0 0 0 0) demo_image_ok)
    as (s' & E & _ & _ & Ht & _).
  - constructor; [|reflexivity]. intros t i _ _. unfold rd. cbn [mem]. by rewrite lookup_empty.
  - exists s'. split; [exact E|]. rewrite Ht; [reflexivity|lia].
Defined.
