(* ===== verification/UserMem.v ===== *)
(** Bytes of memory, and the accesses of the kernel to user memory.

    The kernel copies between its buffers and user memory by plain loads and
    stores at user addresses: the processor translates them in the active space.
    [vload] and [vstore] are these accesses, a byte at a time; an address that
    is not mapped, or not with the permission, raises a page fault in supervisor
    mode, for which the exception handler of excp.c panics.  ([memory_init] sets
    the SUM bit, so that the user bit of an entry does not stop the kernel.)

    [ubyte] is the byte a user address stands for in the space rooted at a page
    table; the lemmas say how it changes when memory is written or tables are
    changed. *)

From S2P Require Import Prelude PhysMem PageTable KernelMap.

(** ** Bytes in words *)

Definition byte_of (w k : Z) : Z := w / 256 ^ k mod 256.
Definition set_byte (k b w : Z) : Z := w + (u8 b - byte_of w k) * 256 ^ k.

Definition rd_byte (m : gmap Z Z) (a : Z) : Z := byte_of (rd m (a / 8 * 8)) (a mod 8).
Definition wr_byte (a b : Z) (m : gmap Z Z) : gmap Z Z :=
  <[a / 8 * 8 := set_byte (a mod 8) b (rd m (a / 8 * 8))]> m.

Lemma byte_of_set_eq k b w : 0 <= k -> byte_of (set_byte k b w) k = u8 b.
Proof.
  intros Hk. unfold set_byte, byte_of. assert (0 < 256 ^ k) by (apply Z.pow_pos_nonneg; lia).
  rewrite Z.div_add by lia. pose proof (u8_range b).
  set (q := w / 256 ^ k). clearbody q. wrap_lia.
Qed.

Lemma byte_of_set_ne k k' b w :
  0 <= k -> 0 <= k' -> k <> k' -> byte_of (set_byte k b w) k' = byte_of w k'.
Proof.
  intros Hk Hk' Hne. unfold set_byte. set (d := u8 b - byte_of w k). unfold byte_of in *.
  assert (P : forall n, 0 <= n -> 0 < 256 ^ n) by (intros; apply Z.pow_pos_nonneg; lia).
  destruct (decide (k' < k)) as [Hlt|Hgt].
  - replace (256 ^ k) with (256 ^ (k - k' - 1) * 256 * 256 ^ k').
    2: { replace k with ((k - k' - 1) + 1 + k') at 2 by lia.
         rewrite !Z.pow_add_r by lia. lia. }
    rewrite Z.mul_assoc, Z.div_add by (specialize (P k' Hk'); lia).
    rewrite Z.mul_assoc. apply Z.mod_add. lia.
  - assert (Ek : 256 ^ k' = 256 ^ k * (256 * 256 ^ (k' - k - 1))).
    { replace k' with (k + (1 + (k' - k - 1))) at 1 by lia. rewrite !Z.pow_add_r by lia. lia. }
    pose proof (P k Hk). pose proof (P (k' - k - 1) ltac:(lia)).
    rewrite Ek, <- !Z.div_div by lia. rewrite Z.div_add by lia.
    f_equal. f_equal. subst d. pose proof (u8_range b).
    set (q := w / 256 ^ k). clearbody q. wrap_lia.
Qed.

Lemma rd_wr_byte_eq a b m : rd_byte (wr_byte a b m) a = u8 b.
Proof.
  unfold rd_byte, wr_byte. rewrite rd_insert_eq. apply byte_of_set_eq.
  apply Z.mod_pos_bound. lia.
Qed.

Lemma rd_wr_byte_ne a a' b m : a <> a' -> rd_byte (wr_byte a b m) a' = rd_byte m a'.
Proof.
  intros Hne. unfold rd_byte, wr_byte. destruct (decide (a / 8 * 8 = a' / 8 * 8)) as [E|E].
  - rewrite <- E, rd_insert_eq. apply byte_of_set_ne; try (apply Z.mod_pos_bound; lia). wrap_lia.
  - by rewrite rd_insert_ne.
Qed.

Lemma rd_byte_range m a : 0 <= rd_byte m a < 256.
Proof. unfold rd_byte, byte_of. apply Z.mod_pos_bound. lia. Qed.

(** ** Accesses through the active space *)

(** The physical address behind [va] for an access that needs the permission
    [need].  An entry that allows writing but not reading is reserved and
    faults. *)
Definition vaddr (need : Z) (fault : string) (va : Z) : M kmem Z :=
  s ← get;
  match (if wellformed_vma va then translate (mem s) (mtag_to_root (satp s)) va else None) with
  | Some (pa, f) => if has f need && has f PTE_R then mret pa else panic fault
  | None => panic fault
  end.

Definition vload_byte (va : Z) : M kmem Z :=
  pa ← vaddr PTE_R "Load page fault" va;
  gets (fun s => rd_byte (mem s) pa).
Definition vstore_byte (va b : Z) : M kmem unit :=
  pa ← vaddr PTE_W "Store page fault" va;
  modify (set_mem (wr_byte pa b)).

(** [n] bytes from [va] on, and the bytes [bs] to [va] on. *)
Fixpoint vload (n : nat) (va : Z) : M kmem (list Z) :=
  match n with
  | O => mret []
  | S n' => b ← vload_byte va; bs ← vload n' (u64 (va + 1)); mret (b :: bs)
  end.
(** The bytes, when all can be loaded. *)
Definition peek (n : nat) (va : Z) : M kmem (option (list Z)) := fun s =>
  match vload n va s with Ok (bs, s') => Ok (Some bs, s') | _ => Ok (None, s) end.
Fixpoint vstore (va : Z) (bs : list Z) : M kmem unit :=
  match bs with
  | [] => mret tt
  | b :: bs' => vstore_byte va b ;; vstore (u64 (va + 1)) bs'
  end.

(** ** Framing: what a space does not notice *)

(** A space is well formed again after its words outside the tables have
    changed and pages have been taken, as long as the pages still to be handed
    out are clean; its tables and mappings are the same. *)
Section Frame.
Context (s s' : kmem) (l l' : list Z) (root : Z).
Hypothesis Hw : space_wf s l root.
Hypothesis Htab : forall t i, is_table (mem s) root t -> idx i ->
  rd (mem s') (t + 8 * i) = rd (mem s) (t + 8 * i).

Lemma frame_ent t i :
  is_table (mem s) root t -> idx i -> ent (mem s') (t + 8 * i) = ent (mem s) (t + 8 * i).
Proof. intros. unfold ent. by rewrite Htab. Qed.

Lemma frame_has1 : has1 (mem s') root = has1 (mem s) root.
Proof. unfold has1, uslot. by rewrite frame_ent by (auto with kern; by left). Qed.

Lemma frame_upt1 : upt1 (mem s') root = upt1 (mem s) root.
Proof. unfold upt1, uslot. by rewrite frame_ent by (auto with kern; by left). Qed.

Lemma frame_has0 i : idx i -> has0 (mem s') root i = has0 (mem s) root i.
Proof.
  intros Hi. unfold has0. rewrite frame_has1, frame_upt1.
  destruct (has1 (mem s) root) eqn:H1; [|done]. by rewrite frame_ent by (auto; right; by left).
Qed.

Lemma frame_upt0 i : idx i -> has1 (mem s) root = true -> upt0 (mem s') root i = upt0 (mem s) root i.
Proof.
  intros Hi H1. unfold upt0. rewrite frame_upt1. by rewrite frame_ent by (auto; right; by left).
Qed.

Lemma has0_has1 m i : has0 m root i = true -> has1 m root = true.
Proof. unfold has0. by intros [? _]%andb_prop. Qed.

Lemma frame_leaf i j : idx i -> idx j -> has0 (mem s) root i = true ->
  ent (mem s') (upt0 (mem s) root i + 8 * j) = ent (mem s) (upt0 (mem s) root i + 8 * j).
Proof. intros Hi Hj H0. apply frame_ent; [|done]. right; right. by exists i. Qed.

Lemma frame_umap i j : idx i -> idx j -> umap (mem s') root i j = umap (mem s) root i j.
Proof.
  intros Hi Hj. unfold umap. rewrite frame_has0 by done.
  destruct (has0 (mem s) root i) eqn:H0; [|done].
  by rewrite frame_upt0, frame_leaf by eauto using has0_has1.
Qed.

Lemma frame_table t : is_table (mem s') root t <-> is_table (mem s) root t.
Proof.
  unfold is_table. rewrite frame_has1, frame_upt1.
  split; (intros [?|[?|(i & Hi & H0 & ->)]]; [by left|by right; left|right; right; exists i]).
  - rewrite frame_has0 in H0 by done. by rewrite frame_upt0 by eauto using has0_has1.
  - rewrite frame_has0 by done. by rewrite frame_upt0 by eauto using has0_has1.
Qed.

Lemma space_frame :
  pool s' l' -> heap_wf s' -> heap_paged s' -> sublist (fresh s' l') (fresh s l) ->
  (forall p i, p ∈ fresh s' l' -> idx i -> flags (ent (mem s') (p + 8 * i)) = 0) ->
  space_wf s' l' root.
Proof using Hw Htab.
  intros Hp Hh Hpd Hsub Hcl.
  assert (Hin : forall x, x ∈ fresh s' l' -> x ∈ fresh s l) by (intros; by eapply elem_of_sublist).
  destruct Hw as [_ _ _ Hnd Hfr _ [Hr Hrf] Hp1 Hp0 Hinj Hun Ht1 Ht0].
  constructor; try done; rewrite ?frame_has1, ?frame_upt1.
  - by eapply sublist_NoDup.
  - apply Forall_forall. intros x Hx. rewrite Forall_forall in Hfr. auto.
  - split; auto.
  - intros H1. destruct (Hp1 H1) as (? & ? & ?). split_and!; auto.
  - intros i Hi. rewrite frame_has0 by done. intros H0. rewrite frame_upt0 by eauto using has0_has1.
    destruct (Hp0 i Hi H0) as (? & ? & ? & ?). split_and!; auto.
  - intros i j Hi Hj. rewrite !frame_has0 by done. intros H0 H0'.
    rewrite !frame_upt0 by eauto using has0_has1. auto.
  - intros i j Hi Hj. rewrite frame_has0 by done. intros H0.
    rewrite frame_upt0, frame_leaf by eauto using has0_has1. auto.
  - intros H1. unfold uslot. rewrite frame_ent by (auto with kern; by left). auto.
  - intros i Hi. rewrite frame_has0 by done. intros H0.
    rewrite frame_ent by (auto; right; left; eauto using has0_has1). auto.
Qed.

Lemma frames_frame :
  frames_ok s l root -> (forall x, x ∈ fresh s' l' -> x ∈ fresh s l) -> frames_ok s' l' root.
Proof using Hw Htab.
  intros [H1 H2 H3 H4] Hin. constructor; intros *; intros Hi Hj; try rewrite frame_umap by done.
  - intros E Hx. apply (H1 i j e Hi Hj E). auto.
  - intros E. rewrite frame_table. eauto.
  - intros Hi' Hj'. rewrite !frame_umap by done. eauto.
  - eauto.
Qed.
End Frame.

(** Writing a word of a page that is neither a table of the space nor still to
    be handed out. *)
Definition data_page (s : kmem) (l : list Z) (root p : Z) : Prop :=
  page_ok p /\ (p ∉ fresh s l) /\ ~ is_table (mem s) root p.

Lemma is_table_page s l root t : space_wf s l root -> is_table (mem s) root t -> page_ok t.
Proof.
  intros Hw [->|[[H1 ->]|(i & Hi & H0 & ->)]].
  - apply Hw.
  - by apply (sw_pt1 _ _ _ Hw H1).
  - by apply (sw_pt0 _ _ _ Hw i Hi H0).
Qed.

Lemma data_store s l root p j v :
  space_wf s l root -> data_page s l root p -> idx j ->
  let s' := set_mem <[p + 8 * j := v]> s in
  space_wf s' l root /\
  (forall i j, idx i -> idx j -> umap (mem s') root i j = umap (mem s) root i j) /\
  (forall t, is_table (mem s') root t <-> is_table (mem s) root t) /\
  (frames_ok s l root -> frames_ok s' l root).
Proof.
  intros Hw (Hp & Hn & Ht) Hj s'.
  assert (Htab : forall t i, is_table (mem s) root t -> idx i ->
    rd (mem s') (t + 8 * i) = rd (mem s) (t + 8 * i)).
  { intros t i Hit Hi. apply rd_insert_ne. apply slot_ne; try done; [by eapply is_table_page|].
    by intros ->. }
  destruct (tab_slot_fresh s l root p j Hw Hp Hn Hj) as [Hsl Hsf].
  split_and!.
  - apply (space_frame s s' l l root Hw Htab); try done.
    + apply pool_store; [apply Hw|done].
    + by destruct (sw_heap _ _ _ Hw); constructor.
    + apply Hw.
    + intros q i Hq Hi. cbn [mem set_mem s']. rewrite ent_insert_ne by auto.
      by apply (sw_clean _ _ _ Hw).
  - by apply frame_umap.
  - by apply frame_table.
  - intros Hf. by apply (frames_frame s s' l l root).
Qed.

Lemma data_store_inv s l root p j v :
  vm_inv s l root -> data_page s l root p -> idx j ->
  let s' := set_mem <[p + 8 * j := v]> s in
  vm_inv s' l root /\ (forall i j, idx i -> idx j -> umap (mem s') root i j = umap (mem s) root i j).
Proof.
  intros [Ha Hw Hf] Hd Hj. destruct (data_store s l root p j v Hw Hd Hj) as (Hw' & Eu & _ & Hf').
  split; [|done]. constructor; auto.
Qed.

(** A mapped frame is a page of data. *)
Lemma mapped_data s l root va e :
  vm_inv s l root -> umap_at (mem s) root va = Some e -> data_page s l root (tab_of e).
Proof.
  intros [_ _ Hf] E. split_and!.
  - apply (fo_page _ _ _ Hf (VPN1 va) (VPN0 va)); auto with kern.
  - apply (fo_fresh _ _ _ Hf (VPN1 va) (VPN0 va)); auto with kern.
  - apply (fo_table _ _ _ Hf (VPN1 va) (VPN0 va)); auto with kern.
Qed.

(** ** Translation of user addresses *)

Definition user_addr (va : Z) : Prop := USER_START_VMA <= va < 4294967296.

Lemma user_addr_vma va : user_addr va -> user_vma va.
Proof. apply user_range_vma. Qed.
#[export] Hint Resolve user_addr_vma : kern.

Lemma user_wellformed va : user_addr va -> wellformed_vma va = true.
Proof.
  unfold user_addr, USER_START_VMA, wellformed_vma. intros H.
  rewrite Z.shiftr_div_pow2 by lia. change (2 ^ 38) with 274877906944.
  rewrite s64_small by lia.
  rewrite Z.div_small by lia. done.
Qed.

Lemma translate_user s l root va :
  space_wf s l root -> user_vma va ->
  translate (mem s) root va
  = match umap_at (mem s) root va with
    | Some e => if is_leaf e then Some (tab_of e + va mod PAGE_SIZE, flags e) else None
    | None => None
    end.
Proof.
  intros Hw Hu. unfold translate, umap_at, umap, has0. rewrite Hu.
  change (root + 8 * USER_VPN2) with (uslot root).
  change (valid (ent (mem s) (uslot root))) with (has1 (mem s) root).
  destruct (has1 (mem s) root) eqn:H1; [|done]. rewrite (proj1 (table_entry _ (sw_tab1 _ _ _ Hw H1))). cbn [negb andb].
  change (tab_of (ent (mem s) (uslot root))) with (upt1 (mem s) root).
  destruct (valid (ent (mem s) (upt1 (mem s) root + 8 * VPN1 va))) eqn:H0; [|done].
  assert (Hh : has0 (mem s) root (VPN1 va) = true) by (unfold has0; by rewrite H1, H0).
  rewrite (proj1 (table_entry _ (sw_tab0 _ _ _ Hw _ (VPN1_idx _) ltac:(done)))). cbn [negb].
  change (tab_of (ent (mem s) (upt1 (mem s) root + 8 * VPN1 va))) with (upt0 (mem s) root (VPN1 va)).
  cbn zeta. by destruct (valid (ent (mem s) (upt0 _ _ _ + _))).
Qed.

Lemma vaddr_run need why s l root va e :
  vm_inv s l root -> user_addr va -> umap_at (mem s) root va = Some e ->
  has (flags e) need = true -> has (flags e) PTE_R = true ->
  vaddr need why va s = Ok (tab_of e + va mod PAGE_SIZE, s).
Proof.
  intros [Ha Hw _] Hu E Hn Hr. unfold vaddr. rewrite bind_run. cbn [get obind].
  rewrite user_wellformed, Ha, (translate_user s l) by auto with kern. rewrite E.
  unfold is_leaf. rewrite Hr. cbn [orb]. by rewrite Hn, Hr.
Qed.

(** An access to an address that is not mapped, or not with the permission,
    stops the kernel. *)
Lemma vaddr_fault need why s l root va :
  vm_inv s l root -> user_addr va ->
  (forall e, umap_at (mem s) root va = Some e -> has (flags e) need && has (flags e) PTE_R = false) ->
  vaddr need why va s = Panic why.
Proof.
  intros [Ha Hw _] Hu Hn. unfold vaddr. rewrite bind_run. cbn [get obind].
  rewrite user_wellformed, Ha, (translate_user s l) by auto with kern.
  destruct (umap_at (mem s) root va) as [e|]; [|done].
  destruct (is_leaf e); [|done]. by rewrite Hn.
Qed.

(** ** The bytes of a user space *)

Definition ubyte (m : gmap Z Z) (root va : Z) : option Z :=
  (fun e => rd_byte m (tab_of e + va mod PAGE_SIZE)) <$> umap_at m root va.

(** The address has the mapping and the byte it had. *)
Definition as_before (m m' : gmap Z Z) (root x : Z) : Prop :=
  umap_at m' root x = umap_at m root x /\ ubyte m' root x = ubyte m root x.

Lemma as_before_trans m m1 m2 root x :
  as_before m m1 root x -> as_before m1 m2 root x -> as_before m m2 root x.
Proof. intros [] []. split; congruence. Qed.

(** The word a user byte is in. *)
Lemma byte_word p o :
  p mod PAGE_SIZE = 0 -> 0 <= o < PAGE_SIZE -> (p + o) / 8 * 8 = p + 8 * (o / 8) /\ idx (o / 8).
Proof. unfold PAGE_SIZE, idx. wrap_lia. Qed.

Lemma page_off va : 0 <= va mod PAGE_SIZE < PAGE_SIZE.
Proof. apply Z.mod_pos_bound. done. Qed.

Lemma same_byte (m m' : gmap Z Z) p p' o :
  p mod PAGE_SIZE = 0 -> p' mod PAGE_SIZE = 0 -> 0 <= o < PAGE_SIZE ->
  (forall i, idx i -> rd m' (p' + 8 * i) = rd m (p + 8 * i)) ->
  rd_byte m' (p' + o) = rd_byte m (p + o).
Proof.
  intros Hp Hp' Ho Hm. destruct (byte_word p o Hp Ho) as [E Hi]. destruct (byte_word p' o Hp' Ho) as [E' _].
  unfold rd_byte. rewrite E, E', Hm by done. f_equal. unfold PAGE_SIZE in *. wrap_lia.
Qed.

(** Addresses on the same page have the same mapping. *)
Lemma same_page_pg x y : x / PAGE_SIZE = y / PAGE_SIZE -> pg x = pg y.
Proof.
  unfold pg, PAGE_SIZE. intros E. rewrite !VPN1_spec, !VPN0_spec, E.
  assert (F : forall z, z / 2097152 = z / 4096 / 512) by (intros; by rewrite Z.div_div).
  by rewrite !F, E.
Qed.
Lemma same_page_umap m root x y :
  x / PAGE_SIZE = y / PAGE_SIZE -> umap_at m root x = umap_at m root y.
Proof. intros E%same_page_pg. unfold umap_at. injection E as -> ->. done. Qed.

(** An operation that keeps the pages of data keeps the bytes of every address
    that has its frame before and after. *)
Lemma ubyte_kept s l s' l' root va e e' :
  vm_inv s l root -> kept root s l s' l' -> umap_at (mem s) root va = Some e ->
  umap_at (mem s') root va = Some e' -> tab_of e' = tab_of e ->
  ubyte (mem s') root va = ubyte (mem s) root va.
Proof.
  intros Hv Hk E E' Et. destruct (mapped_data s l root va e Hv E) as (Hp & Hn & Ht).
  destruct (kp_page _ _ _ _ _ Hk _ Hp Hn Ht) as (_ & _ & Hrd). unfold ubyte. rewrite E, E'. cbn [fmap option_fmap option_map].
  f_equal. rewrite Et. apply same_byte; [apply Hp|apply Hp|apply page_off|done].
Qed.

(** A pair of addresses on different pages, or at different offsets, stands for
    different bytes of memory. *)
Lemma frame_addr_ne s l root va va' e e' :
  vm_inv s l root -> user_addr va -> user_addr va' -> va <> va' ->
  umap_at (mem s) root va = Some e -> umap_at (mem s) root va' = Some e' ->
  tab_of e + va mod PAGE_SIZE <> tab_of e' + va' mod PAGE_SIZE.
Proof.
  intros Hv Hu Hu' Hne E E' Eq.
  destruct (mapped_data s l root va e Hv E) as ((Hp & _) & _).
  destruct (mapped_data s l root va' e' Hv E') as ((Hp' & _) & _).
  assert (Et : tab_of e = tab_of e' /\ va mod PAGE_SIZE = va' mod PAGE_SIZE).
  { pose proof (page_off va). pose proof (page_off va').
    generalize dependent (va mod PAGE_SIZE). generalize dependent (va' mod PAGE_SIZE).
    unfold PAGE_SIZE in *. clear -Hp Hp'. intros. wrap_lia. }
  destruct Et as [Et Eo]. apply Hne.
  assert (Epg : pg va = pg va').
  { apply (fo_inj _ _ _ (vm_frames _ _ _ Hv) _ _ _ _ e e'); auto with kern. }
  apply pg_inj in Epg; [|done|done]. unfold PAGE_SIZE in *. wrap_lia.
Qed.

(** The address is mapped with the permissions [f]. *)
Definition mapped (m : gmap Z Z) (root f va : Z) : Prop :=
  exists e, umap_at m root va = Some e /\ has (flags e) f = true /\ has (flags e) PTE_R = true.

(** A change of memory that leaves the space as it was: the invariant holds
    again for the same pages to be handed out, and every mapping is the same. *)
Record same_space (root : Z) (l : list Z) (s s' : kmem) : Prop := {
  ss_inv : vm_inv s' l root;
  ss_satp : satp s' = satp s;
  ss_main : main_mtag s' = main_mtag s;
  ss_fresh : fresh s' l = fresh s l;
  ss_umap : forall i j, idx i -> idx j -> umap (mem s') root i j = umap (mem s) root i j
}.

Lemma same_space_refl root l s : vm_inv s l root -> same_space root l s s.
Proof. by constructor. Qed.
Lemma same_space_trans root l s s1 s2 :
  same_space root l s s1 -> same_space root l s1 s2 -> same_space root l s s2.
Proof.
  intros [] []. constructor; try done; try congruence. intros. rewrite ss_umap1, ss_umap0 by done. done.
Qed.
Lemma ss_umap_at root l s s' va :
  same_space root l s s' -> umap_at (mem s') root va = umap_at (mem s) root va.
Proof. intros H. apply (ss_umap _ _ _ _ H); auto with kern. Qed.
Lemma ss_mapped root l s s' f va :
  same_space root l s s' -> mapped (mem s) root f va -> mapped (mem s') root f va.
Proof. intros H (e & E & ?). exists e. by rewrite (ss_umap_at _ _ _ _ _ H). Qed.

Lemma vstore_byte_run s l root va b :
  vm_inv s l root -> user_addr va -> mapped (mem s) root PTE_W va ->
  exists s', vstore_byte va b s = Ok (tt, s') /\ same_space root l s s' /\
    (forall x, user_addr x ->
       ubyte (mem s') root x = if decide (x = va) then Some (u8 b) else ubyte (mem s) root x).
Proof.
  intros Hv Hu (e & E & Hw & Hr).
  pose proof (mapped_data s l root va e Hv E) as Hd. destruct (byte_word (tab_of e) (va mod PAGE_SIZE)) as [Ew Hi];
    [apply Hd|apply page_off|].
  set (pa := tab_of e + va mod PAGE_SIZE) in *.
  destruct (data_store_inv s l root (tab_of e) (va mod PAGE_SIZE / 8)
    (set_byte (pa mod 8) b (rd (mem s) (pa / 8 * 8))) Hv Hd Hi) as [Hv' Eu]. rewrite <- Ew in Hv', Eu.
  exists (set_mem (wr_byte pa b) s). split_and!.
  - unfold vstore_byte. by rewrite (bind_Ok _ _ _ _ _ (vaddr_run PTE_W _ s l root va e Hv Hu E Hw Hr)).
  - by constructor.
  - intros x Hx. unfold ubyte. change (mem (set_mem (wr_byte pa b) s)) with (wr_byte pa b (mem s)).
    assert (Ex : umap_at (wr_byte pa b (mem s)) root x = umap_at (mem s) root x) by (apply Eu; auto with kern).
    rewrite Ex. destruct (decide (x = va)) as [->|Hne].
    + rewrite E. cbn. f_equal. apply rd_wr_byte_eq.
    + destruct (umap_at (mem s) root x) as [e'|] eqn:E'; [|done]. cbn. f_equal. apply rd_wr_byte_ne.
      by apply (frame_addr_ne s l root va x e e' Hv Hu Hx (not_eq_sym Hne)).
Qed.

(** A range of user addresses. *)
Definition user_range (va n : Z) : Prop := USER_START_VMA <= va /\ 0 <= n /\ va + n <= 4294967296.

(** Storing bytes at mapped writable addresses: exactly these bytes of the space
    change. *)
Lemma vstore_run root l bs : forall s va,
  vm_inv s l root -> user_range va (Z.of_nat (length bs)) ->
  (forall i, 0 <= i < Z.of_nat (length bs) -> mapped (mem s) root PTE_W (va + i)) ->
  Forall (fun b => 0 <= b < 256) bs ->
  exists s', vstore va bs s = Ok (tt, s') /\ same_space root l s s' /\
    (forall x, user_addr x -> ubyte (mem s') root x
       = if decide (va <= x < va + Z.of_nat (length bs)) then bs !! Z.to_nat (x - va)
         else ubyte (mem s) root x).
Proof.
  induction bs as [|b bs IH]; intros s va Hv (Hlo & _ & Hhi) Hm Hb.
  { exists s. split_and!; [done|by apply same_space_refl|]. intros x _. by destruct (decide _); [cbn in *; lia|]. }
  cbn [length] in *. apply Forall_cons in Hb as [Hb Hbs].
  assert (Hu : user_addr va) by (unfold user_addr; lia).
  destruct (vstore_byte_run s l root va b Hv Hu) as (s1 & E1 & Hs1 & Hb1).
  { rewrite <- (Z.add_0_r va). apply Hm. lia. }
  destruct (IH s1 (va + 1)) as (s2 & E2 & Hs2 & Hb2); try done.
  { apply Hs1. } { unfold user_range. lia. }
  { intros i Hi. eapply ss_mapped; [exact Hs1|]. rewrite <- Z.add_assoc. apply Hm. lia. }
  exists s2. split_and!.
  - cbn [vstore]. rewrite (bind_Ok _ _ _ _ _ E1).
    destruct (decide (va + 1 < 2 ^ 64)) as [Hlt|Hge]; [|unfold user_addr in *; lia].
    rewrite u64_small by (unfold user_addr, USER_START_VMA in *; lia). exact E2.
  - by eapply same_space_trans.
  - intros x Hx. rewrite Hb2, Hb1 by done.
    destruct (decide (va + 1 <= x < _)), (decide (va <= x < _)); try lia.
    + replace (Z.to_nat (x - va)) with (S (Z.to_nat (x - (va + 1)))) by lia. done.
    + destruct (decide (x = va)) as [->|]; [|lia]. rewrite Z.sub_diag. cbn. by rewrite u8_small.
    + by destruct (decide (x = va)); [lia|].
Qed.

(** Loading bytes from mapped addresses: the bytes of the space. *)
Lemma vload_run s l root n : forall va,
  vm_inv s l root -> user_range va (Z.of_nat n) ->
  (forall i, 0 <= i < Z.of_nat n -> mapped (mem s) root PTE_R (va + i)) ->
  exists bs, vload n va s = Ok (bs, s) /\ length bs = n /\
    (forall i, (i < n)%nat -> bs !! i = ubyte (mem s) root (va + Z.of_nat i)).
Proof.
  induction n as [|n IH]; intros va Hv (Hlo & _ & Hhi) Hm.
  { exists []. split_and!; try done. intros; lia. }
  assert (Hu : user_addr va) by (unfold user_addr; lia).
  destruct (Hm 0) as (e & E & Hr & _); [lia|]. rewrite Z.add_0_r in E.
  destruct (IH (va + 1)) as (bs & E2 & Hl & Hb); try done.
  { unfold user_range. lia. }
  { intros i Hi. rewrite <- Z.add_assoc. apply Hm. lia. }
  exists (rd_byte (mem s) (tab_of e + va mod PAGE_SIZE) :: bs). split_and!.
  - cbn [vload]. unfold vload_byte. rewrite bind_run.
    rewrite (bind_Ok _ _ _ _ _ (vaddr_run PTE_R _ s l root va e Hv Hu E Hr Hr)). cbn [gets obind].
    rewrite u64_small by (unfold user_addr, USER_START_VMA in *; lia).
    by rewrite (bind_Ok _ _ _ _ _ E2).
  - cbn. by rewrite Hl.
  - intros [|i] Hi.
    + cbn. unfold ubyte. by rewrite Z.add_0_r, E.
    + cbn. rewrite Hb by lia. f_equal. lia.
Qed.

(** The first unmapped address of a range stops a store there. *)
Lemma vstore_fault root l bs k : forall s va,
  vm_inv s l root -> user_range va (Z.of_nat (length bs)) -> (k < length bs)%nat ->
  (forall i, 0 <= i < Z.of_nat k -> mapped (mem s) root PTE_W (va + i)) ->
  umap_at (mem s) root (va + Z.of_nat k) = None ->
  vstore va bs s = Panic "Store page fault".
Proof.
  revert bs. induction k as [|k IH]; intros [|b bs] s va Hv (Hlo & _ & Hhi) Hk Hm Hn; cbn [length] in *; try lia.
  - rewrite Z.add_0_r in Hn. cbn [vstore]. rewrite bind_run. unfold vstore_byte. rewrite bind_run.
    rewrite (vaddr_fault PTE_W _ s l root va Hv); [done|unfold user_addr; lia|].
    intros e E. congruence.
  - assert (Hu : user_addr va) by (unfold user_addr; lia).
    destruct (vstore_byte_run s l root va b Hv Hu) as (s1 & E1 & Hs1 & _).
    { rewrite <- (Z.add_0_r va). apply Hm. lia. }
    cbn [vstore]. rewrite (bind_Ok _ _ _ _ _ E1), u64_small by (unfold USER_START_VMA in *; lia).
    apply IH; [apply Hs1|unfold user_range; lia|lia| |].
    + intros i Hi. eapply ss_mapped; [exact Hs1|]. rewrite <- Z.add_assoc. apply Hm. lia.
    + rewrite (ss_umap_at _ _ _ _ _ Hs1), <- Hn. f_equal. lia.
Qed.

(** The bytes of a range of user addresses. *)
Definition ubytes (m : gmap Z Z) (root va : Z) (n : nat) : list Z :=
  (fun i => default 0 (ubyte m root (va + Z.of_nat i))) <$> seq 0 n.

Lemma vload_ubytes s l root n va :
  vm_inv s l root -> user_range va (Z.of_nat n) ->
  (forall i, 0 <= i < Z.of_nat n -> mapped (mem s) root PTE_R (va + i)) ->
  vload n va s = Ok (ubytes (mem s) root va n, s).
Proof.
  intros Hv Hr Hm. destruct (vload_run s l root n va Hv Hr Hm) as (bs & E & Hl & Hb). rewrite E. do 2 f_equal.
  apply list_eq. intros i. unfold ubytes. rewrite list_lookup_fmap.
  destruct (decide (i < n)%nat) as [Hlt|Hge].
  - rewrite lookup_seq_lt by done. cbn. rewrite <- Hb by done.
    destruct (lookup_lt_is_Some_2 bs i) as [b ->]; [lia|done].
  - rewrite lookup_seq_ge by lia. apply lookup_ge_None_2. lia.
Qed.
