(* ===== verification/Teardown.v ===== *)
(** memory.c, tearing down a space: what [memory_unmap_and_free_user] does.

    The pages it frees keep the contents they had, so that the invariant of the
    page tables, which asks for clean pages in the free list, does not hold
    afterwards.  The state with the freed pages set aside, whose free list is the
    one from before, still has it: [aside] is this state, and the loops of the
    teardown are followed in it. *)

From S2P Require Import Prelude PhysMem PageTable KernelMap UserMem.

(** ** The entries that a teardown leaves alone *)

(** The table that a level-2 entry leads to, if it leads to one, has nothing to
    free: its own entry, the entries of its tables and their leaves are not
    selected. *)
Definition quiet (leaf_sel tab_sel : pte -> bool) (m : gmap Z Z) (e : pte) : Prop :=
  is_ptab e = true -> tab_sel e = false /\
  forall j, idx j -> let e1 := ent m (tab_of e + 8 * j) in
    is_ptab e1 = true -> tab_sel e1 = false /\
    forall k, idx k -> leaf_sel (ent m (tab_of e1 + 8 * k)) = false.

(** The kernel's part of a space: the entries before the user's lead to nothing
    that belongs to the user, and those after it lead nowhere. *)
Definition kernel_part (leaf_sel tab_sel : pte -> bool) (m : gmap Z Z) (root : Z) : Prop :=
  (forall i, 0 <= i < USER_VPN2 -> quiet leaf_sel tab_sel m (ent m (root + 8 * i))) /\
  (forall i, USER_VPN2 < i < 512 -> is_ptab (ent m (root + 8 * i)) = false).

Lemma in_indices i : i ∈ indices <-> idx i.
Proof.
  unfold indices. rewrite range_elem by lia. change (Z.of_nat (Z.to_nat PTE_CNT)) with 512.
  change PTE_CNT with 512. unfold idx. split; [intros (k & ? & -> & ?); lia|]. intros. exists i. lia.
Qed.

Lemma forM_idle {St A} (l : list A) (body : A -> M St unit) s :
  (forall x, x ∈ l -> body x s = Ok (tt, s)) -> forM l body s = Ok (tt, s).
Proof.
  induction l as [|x l IH]; intros H; [done|]. rewrite (forM_cons x l body s s) by (apply H; by left).
  apply IH. intros. apply H. by right.
Qed.

(** The loop body of [teardown_pt2]. *)
Definition pt2_body (leaf_sel tab_sel : pte -> bool) (pt2 i : Z) : M kmem unit :=
  e ← load_pte (pt2 + 8 * i);
  if is_ptab e then
    let pt1 := pagenum_to_pageptr (ppn e) in
    teardown_pt1 leaf_sel tab_sel pt1 ;;
    e1 ← load_pte (pt2 + 8 * i);
    if tab_sel e1 then memory_free_page pt1 else mret tt
  else mret tt.

Lemma quiet_run leaf_sel tab_sel pt2 i s :
  quiet leaf_sel tab_sel (mem s) (ent (mem s) (pt2 + 8 * i)) ->
  pt2_body leaf_sel tab_sel pt2 i s = Ok (tt, s).
Proof.
  intros Hq. unfold pt2_body. rewrite (bind_Ok _ _ _ _ _ (run_load_pte _ s)).
  destruct (is_ptab (ent (mem s) (pt2 + 8 * i))) eqn:Ep; [|done]. destruct (Hq Ep) as [Ht Hq1].
  cbn zeta. rewrite (bind_Ok _ _ _ tt s).
  - by rewrite (bind_Ok _ _ _ _ _ (run_load_pte _ s)), Ht.
  - apply forM_idle. intros j Hj%in_indices. rewrite (bind_Ok _ _ _ _ _ (run_load_pte _ s)).
    change (pagenum_to_pageptr (ppn (ent (mem s) (pt2 + 8 * i)))) with (tab_of (ent (mem s) (pt2 + 8 * i))).
    destruct (is_ptab (ent (mem s) (tab_of _ + 8 * j))) eqn:Ep1; [|done].
    destruct (Hq1 j Hj Ep1) as [Ht1 Hl]. cbn zeta. rewrite (bind_Ok _ _ _ tt s).
    + by rewrite (bind_Ok _ _ _ _ _ (run_load_pte _ s)), Ht1.
    + apply forM_idle. intros k Hk%in_indices. rewrite (bind_Ok _ _ _ _ _ (run_load_pte _ s)).
      change (pagenum_to_pageptr (ppn ?e)) with (tab_of e). by rewrite Hl.
Qed.

(** The walk to the end of the free list. *)
Lemma list_end_run l : forall fuel s p,
  chain (mem s) p l -> l <> [] -> (length l <= fuel)%nat -> list_end fuel p s = Ok (tt, s).
Proof.
  induction l as [|x l IH]; intros fuel s p Hc Hne Hf; [done|]. destruct Hc as (-> & Hx & Hc).
  destruct fuel as [|fuel]; [simpl in Hf; lia|]. cbn [list_end]. unfold load. rewrite bind_run. cbn [gets obind].
  destruct l as [|y l].
  - cbn [chain] in Hc. by rewrite Hc.
  - destruct Hc as (E & Hy & Hc). rewrite E. rewrite (proj2 (Z.eqb_neq y 0)) by done.
    apply IH; [|done|simpl in *; lia]. split_and!; [done|done|]. exact Hc.
Qed.

(** ** Freeing the pages of one table *)

Definition aside (l : list Z) (s : kmem) : kmem := set_free_list (List.hd 0 l) s.

Section Torn.
Context (sel : pte -> bool) (Hsel : forall e, sel e = true -> valid e = true).
(** The state before the teardown, its free pages and its root. *)
Context (s0 : kmem) (l : list Z) (root : Z) (Hv0 : vm_inv s0 l root) (Hl : l <> []).

(** A mapping after its entry has been visited. *)
Definition strip (o : option pte) : option pte :=
  match o with Some e => if sel e then None else Some e | None => None end.

(** The frames that the entries [done] lead to and that are freed, and the level-0
    tables [tabs]. *)
Definition freed_frame (done : list (Z * Z)) (p : Z) : Prop := exists i j e, (i, j) ∈ done /\ idx i /\ idx j /\
  umap (mem s0) root i j = Some e /\ sel e = true /\ p = tab_of e.
Definition given_table (tabs : list Z) (p : Z) : Prop := exists i, i ∈ tabs /\ p = upt0 (mem s0) root i.

(** The teardown has visited the entries [done] and given up the level-0 tables
    [tabs], and the pages [freed] are back in the free list. *)
Record torn (done : list (Z * Z)) (tabs : list Z) (s : kmem) (freed : list Z) : Prop := {
  tn_pool : pool s (freed ++ l);
  tn_inv : vm_inv (aside l s) l root;
  tn_heap : heap_start s = heap_start s0 /\ heap_end s = heap_end s0;
  tn_regs : satp s = satp s0 /\ main_mtag s = main_mtag s0;
  tn_tabs : has1 (mem s) root = has1 (mem s0) root /\ upt1 (mem s) root = upt1 (mem s0) root /\
    forall i, idx i -> has0 (mem s) root i = has0 (mem s0) root i /\ upt0 (mem s) root i = upt0 (mem s0) root i;
  tn_umap : forall i j, idx i -> idx j -> umap (mem s) root i j
    = if decide ((i, j) ∈ done) then strip (umap (mem s0) root i j) else umap (mem s0) root i j;
  tn_freed : forall p, p ∈ freed <-> freed_frame done p \/ given_table tabs p;
  tn_given : forall i, i ∈ tabs -> idx i /\ has0 (mem s0) root i = true;
  tn_kept : forall p, data_page s0 l root p -> p ∉ freed ->
    forall i, idx i -> rd (mem s) (p + 8 * i) = rd (mem s0) (p + 8 * i);
  tn_root : forall i, idx i -> rd (mem s) (root + 8 * i) = rd (mem s0) (root + 8 * i)
}.

Lemma aside_start : aside l s0 = s0.
Proof.
  unfold aside. pose proof (pool_chain _ _ (sw_pool _ _ _ (vm_space _ _ _ Hv0))) as Hc.
  destruct s0. unfold set_free_list. cbn in *. f_equal. destruct l; [done|]. by destruct Hc.
Qed.

Lemma torn_start : torn [] [] s0 [].
Proof.
  constructor; try done.
  - apply Hv0.
  - by rewrite aside_start.
  - intros p. split; [by intros ?%not_elem_of_nil|].
    intros [(i & j & e & H & _)|(i & H & _)]; by apply not_elem_of_nil in H.
  - by intros i ?%not_elem_of_nil.
Qed.

(** Entries without a mapping count as visited. *)
Lemma torn_more done done' tabs s freed :
  torn done tabs s freed -> (forall x, x ∈ done -> x ∈ done') ->
  (forall i j, idx i -> idx j -> (i, j) ∈ done' -> (i, j) ∉ done -> strip (umap (mem s0) root i j) = umap (mem s0) root i j) ->
  torn done' tabs s freed.
Proof.
  intros [] Hsub Hnew. constructor; try done.
  - intros i j Hi Hj. rewrite tn_umap0 by done.
    destruct (decide ((i, j) ∈ done)), (decide ((i, j) ∈ done')); try done; [by exfalso; auto|].
    symmetry. auto.
  - intros p. rewrite tn_freed0. split; (intros [(i & j & e & Hd & Hi & Hj & Eu & Es & ->)|Hg]; [left|by right]).
    + exists i, j, e. split_and!; auto.
    + destruct (decide ((i, j) ∈ done)); [by exists i, j, e; split_and!|].
      specialize (Hnew i j Hi Hj Hd n). rewrite Eu in Hnew. cbn in Hnew. by rewrite Es in Hnew.
Qed.

Lemma free_list_nonzero s x : pool s (x ++ l) -> free_list s <> 0.
Proof.
  intros [Hc _ _]. destruct (x ++ l) as [|y r] eqn:E; [apply app_eq_nil in E; naive_solver|].
  by destruct Hc as (-> & ? & _).
Qed.

Lemma run_free_leaf s x p :
  pool s (x ++ l) -> free_leaf_page p s = Ok (tt, set_free_list p (set_mem <[p := free_list s]> s)).
Proof.
  intros Hp. unfold free_leaf_page. rewrite bind_run. cbn [get obind].
  by rewrite (proj2 (Z.eqb_neq _ 0) (free_list_nonzero s x Hp)).
Qed.

Lemma run_clear_pte a s :
  clear_pte a s = Ok (tt, set_mem <[a := pte_encode (with_flags 0 (with_ppn 0 (ent (mem s) a)))]> s).
Proof.
  unfold clear_pte. rewrite (bind_Ok _ _ _ _ _ (run_load_pte _ _)), (bind_Ok _ _ _ _ _ (run_store_pte _ _ _)).
  rewrite (bind_Ok _ _ _ _ _ (run_load_pte _ _)), run_store_pte, insert_twice.
  cbn [mem set_mem]. by rewrite ent_insert_eq by (unfold ent; auto with kern).
Qed.

(** Removing a mapping keeps the frames of the others apart. *)
Lemma frames_shrink s s' root' :
  frames_ok s l root' -> fresh s' l = fresh s l ->
  (forall i j e, idx i -> idx j -> umap (mem s') root' i j = Some e -> umap (mem s) root' i j = Some e) ->
  (forall t, is_table (mem s') root' t -> is_table (mem s) root' t) -> frames_ok s' l root'.
Proof.
  intros [Hf Htab Hinj Hpg] Ef Hu Ht. constructor; rewrite ?Ef.
  - intros i j e Hi Hj E. eauto.
  - intros i j e Hi Hj E Hx. by apply (Htab i j e Hi Hj); auto.
  - intros i j i' j' e e' Hi Hj Hi' Hj' E E'. eapply Hinj; eauto.
  - intros i j e Hi Hj E. eauto.
Qed.

(** The state after a mapped page has been put back and its entry cleared. *)
Definition unmapped (s : kmem) (i1 j : Z) (e : pte) : kmem :=
  let a := upt0 (mem s) root i1 + 8 * j in
  set_mem <[a := pte_encode (with_flags 0 (with_ppn 0 e))]>
    (set_free_list (tab_of e) (set_mem <[tab_of e := free_list s]> s)).

Lemma unmap_inv s i1 j e :
  vm_inv (aside l s) l root -> idx i1 -> idx j -> umap (mem s) root i1 j = Some e ->
  let s' := unmapped s i1 j e in
  vm_inv (aside l s') l root /\
  has1 (mem s') root = has1 (mem s) root /\ upt1 (mem s') root = upt1 (mem s) root /\
  (forall i, idx i -> has0 (mem s') root i = has0 (mem s) root i /\ upt0 (mem s') root i = upt0 (mem s) root i) /\
  umap (mem s') root i1 j = None /\
  (forall i k, idx i -> idx k -> (i, k) <> (i1, j) -> umap (mem s') root i k = umap (mem s) root i k).
Proof.
  intros Hv Hi Hj E s'.
  assert (Hd : data_page (aside l s) l root (tab_of e)).
  { pose proof (vm_frames _ _ _ Hv) as Hf. split_and!; [by apply (fo_page _ _ _ Hf i1 j)|by apply (fo_fresh _ _ _ Hf i1 j)|].
    by apply (fo_table _ _ _ Hf i1 j). }
  assert (H0 : has0 (mem s) root i1 = true) by (unfold umap in E; by destruct (has0 (mem s) root i1)).
  destruct (data_store (aside l s) l root (tab_of e) 0 (free_list s) (vm_space _ _ _ Hv) Hd) as (Hw1 & Eu1 & Et1 & Hf1);
    [unfold idx; lia|]. rewrite Z.mul_0_r, Z.add_0_r in Hw1, Eu1, Et1, Hf1.
  set (s1 := set_mem <[tab_of e := free_list s]> (aside l s)) in *.
  assert (Hrd : forall t i, is_table (mem s) root t -> idx i -> rd (mem s1) (t + 8 * i) = rd (mem s) (t + 8 * i)).
  { intros t i Ht Hii. apply rd_insert_ne, not_eq_sym, slot_ne_page; [|apply Hd| |done].
    - exact (is_table_page (aside l s) l root t (vm_space _ _ _ Hv) Ht).
    - intros ->. by apply Hd. }
  assert (Er : forall t i, is_table (mem s) root t -> idx i -> ent (mem s1) (t + 8 * i) = ent (mem s) (t + 8 * i))
    by (intros; unfold ent; by rewrite Hrd).
  assert (A1 : has1 (mem s1) root = has1 (mem s) root /\ upt1 (mem s1) root = upt1 (mem s) root).
  { unfold has1, upt1, uslot. by rewrite Er by (auto with kern; by left). }
  assert (H1 : has1 (mem s) root = true) by (unfold has0 in H0; by apply andb_prop in H0 as [? _]).
  assert (A0 : forall i, idx i -> has0 (mem s1) root i = has0 (mem s) root i /\ upt0 (mem s1) root i = upt0 (mem s) root i).
  { intros i Hii. unfold has0, upt0. destruct A1 as [-> ->].
    by rewrite Er by (done || (right; by left)). }
  assert (Ea : upt0 (mem s1) root i1 = upt0 (mem s) root i1) by (by apply A0).
  destruct (write_leaf s1 l root i1 j (with_flags 0 (with_ppn 0 e))) as (Hw2 & _ & _ & Em2 & Eo2 & Et2 & A2); try done.
  { by rewrite (proj1 (A0 i1 Hi)). }
  { unfold umap in E. rewrite H0 in E. cbn zeta in E. destruct (valid _); [|done]. injection E as <-. unfold ent. auto with kern. }
  rewrite Ea in Hw2, Em2, Eo2, Et2, A2.
  assert (Es' : aside l s' = set_mem <[upt0 (mem s) root i1 + 8 * j := pte_encode (with_flags 0 (with_ppn 0 e))]> s1) by done.
  assert (Em' : mem s' = mem (aside l s')) by done. rewrite Em', Es'.
  assert (Hslot : uslot root <> upt0 (mem s) root i1 + 8 * j).
  { unfold uslot. destruct (sw_pt0 _ _ _ (vm_space _ _ _ Hv) i1 Hi H0) as (Hp & Hne & _).
    apply slot_ne; auto with kern; apply (vm_space _ _ _ Hv). }
  assert (B1 : has1 (mem (set_mem <[upt0 (mem s) root i1 + 8 * j := pte_encode (with_flags 0 (with_ppn 0 e))]> s1)) root
      = has1 (mem s) root /\
      upt1 (mem (set_mem <[upt0 (mem s) root i1 + 8 * j := pte_encode (with_flags 0 (with_ppn 0 e))]> s1)) root
      = upt1 (mem s) root).
  { destruct A1 as [<- <-]. unfold has1, upt1. cbn [mem set_mem]. rewrite ent_insert_ne by done. done. }
  assert (Eoth : forall i k, idx i -> idx k -> (i, k) <> (i1, j) ->
    umap (mem (set_mem <[upt0 (mem s) root i1 + 8 * j := pte_encode (with_flags 0 (with_ppn 0 e))]> s1)) root i k
    = umap (mem s) root i k) by (intros; by rewrite Eo2, Eu1).
  split_and!; try apply B1; try done.
  - constructor; [apply Hv|done|]. apply (frames_shrink s1); [apply Hf1, Hv|done| |done].
    intros i k x Hii Hk Ex. destruct (decide ((i, k) = (i1, j))) as [Eq|Hne].
    + injection Eq as -> ->. rewrite Em2 in Ex. done.
    + by rewrite <- Eo2.
  - intros i Hii. destruct (A2 i Hii) as [-> ->]. by apply A0.
Qed.

Lemma torn_table done tabs s freed t : torn done tabs s freed -> is_table (mem s) root t -> is_table (mem s0) root t.
Proof.
  intros Ht [->|[[H1 ->]|(i & Hi & H0 & ->)]]; destruct (tn_tabs _ _ _ _ Ht) as (E1 & Ep & E0).
  - by left.
  - right; left. by rewrite <- E1, <- Ep.
  - right; right. exists i. destruct (E0 i Hi) as [<- <-]. done.
Qed.

(** The pages that are back in the free list. *)
Lemma frame_data done p : freed_frame done p -> data_page s0 l root p.
Proof.
  intros (i & j & e & _ & Hi & Hj & E & _ & ->). pose proof (vm_frames _ _ _ Hv0) as Hf.
  split_and!; [by apply (fo_page _ _ _ Hf i j)|by apply (fo_fresh _ _ _ Hf i j)|by apply (fo_table _ _ _ Hf i j)].
Qed.

Lemma torn_freed done tabs s freed p :
  torn done tabs s freed -> p ∈ freed -> page_ok p /\ (p ∉ fresh s0 l) /\
  (is_table (mem s0) root p -> given_table tabs p).
Proof.
  intros Ht Hp. apply (tn_freed _ _ _ _ Ht) in Hp as [Hd%frame_data|Hg].
  - destruct Hd as (? & ? & ?). by split_and!.
  - pose proof Hg as (i & Hi & ->). destruct (tn_given _ _ _ _ Ht i Hi) as [Hii H0].
    destruct (sw_pt0 _ _ _ (vm_space _ _ _ Hv0) i Hii H0) as (? & _ & _ & ?). by split_and!.
Qed.

Lemma torn_leaf done tabs s freed i1 j e :
  torn done tabs s freed -> idx i1 -> idx j -> (i1, j) ∉ done -> i1 ∉ tabs ->
  umap (mem s) root i1 j = Some e -> sel e = true ->
  torn ((i1, j) :: done) tabs (unmapped s i1 j e) (tab_of e :: freed).
Proof.
  intros Ht Hi Hj Hnd Hng E He.
  destruct (unmap_inv s i1 j e (tn_inv _ _ _ _ Ht) Hi Hj E) as (Hv' & Eh1 & Ep1 & Eh0 & En & Eo).
  assert (E0 : umap (mem s0) root i1 j = Some e) by (by rewrite (tn_umap _ _ _ _ Ht), decide_False in E by done).
  assert (H0 : has0 (mem s0) root i1 = true) by (unfold umap in E0; by destruct (has0 (mem s0) root i1)).
  destruct (tn_tabs _ _ _ _ Ht) as (T1 & Tp & T0). destruct (T0 i1 Hi) as [Th Tu].
  pose proof (vm_frames _ _ _ Hv0) as Hf. pose proof (vm_space _ _ _ Hv0) as Hw.
  assert (Hpg : page_ok (tab_of e)) by (by apply (fo_page _ _ _ Hf i1 j)).
  assert (Hnt : ~ is_table (mem s0) root (tab_of e)) by (by apply (fo_table _ _ _ Hf i1 j)).
  assert (Hnf : tab_of e ∉ fresh s0 l) by (by apply (fo_fresh _ _ _ Hf i1 j)).
  destruct (sw_pt0 _ _ _ Hw i1 Hi H0) as (Hp0 & Hr0 & _ & Hf0).
  assert (Hit : is_table (mem s0) root (upt0 (mem s0) root i1)) by (right; right; by exists i1).
  assert (Hne : forall p k, page_ok p -> p <> upt0 (mem s0) root i1 -> p <> tab_of e -> idx k ->
    rd (mem (unmapped s i1 j e)) (p + 8 * k) = rd (mem s) (p + 8 * k)).
  { intros p k Hp Hn1 Hn2 Hk. unfold unmapped. cbn [mem set_mem set_free_list]. rewrite Tu.
    rewrite !rd_insert_ne; [done| |]; apply not_eq_sym; [by apply slot_ne_page|by apply slot_ne]. }
  assert (Hnfr : tab_of e ∉ freed).
  { intros Hin. apply (tn_freed _ _ _ _ Ht) in Hin as [(i' & j' & e' & Hd & Hi' & Hj' & E' & _ & Et)|(i & Hin & Ei)].
    - destruct (fo_inj _ _ _ Hf i1 j i' j' e e'); try done.
    - apply Hnt. rewrite Ei. right; right. exists i. by destruct (tn_given _ _ _ _ Ht i Hin). }
  assert (Hnt0 : upt0 (mem s0) root i1 ∉ freed).
  { intros Hin. destruct (torn_freed _ _ _ _ _ Ht Hin) as (_ & _ & Hg). destruct (Hg Hit) as (i & Hin' & Ei).
    destruct (tn_given _ _ _ _ Ht i Hin') as [Hii Hi0]. by apply (sw_inj _ _ _ Hw i1 i) in Ei as ->. }
  assert (Hall : forall x, x ∈ freed ++ l -> page_ok x /\ x <> tab_of e /\ x <> upt0 (mem s0) root i1).
  { intros x [Hx|Hx]%elem_of_app.
    - destruct (torn_freed _ _ _ _ _ Ht Hx) as (Hxp & _). split_and!; [done|by intros ->|by intros ->].
    - pose proof (sw_fresh _ _ _ Hw) as Hfr. rewrite Forall_forall in Hfr. split_and!.
      + by apply Hfr, in_fresh.
      + intros ->. by apply Hnf, in_fresh.
      + intros ->. by apply Hf0, in_fresh. }
  constructor; try done.
  - destruct (tn_pool _ _ _ _ Ht) as [Hc Hn Hpgs]. constructor.
    + cbn [app chain]. split_and!; [done|destruct Hpg as (_ & ? & _); lia|].
      assert (Er : rd (mem (unmapped s i1 j e)) (tab_of e) = free_list s).
      { unfold unmapped. cbn [mem set_mem set_free_list]. rewrite Tu.
        rewrite rd_insert_ne by (apply slot_ne_page; try done; by intros Hx; apply Hnt; rewrite <- Hx).
        apply rd_insert_eq. }
      rewrite Er. eapply chain_frame; [|exact Hc]. intros x Hx. destruct (Hall x Hx) as (Hxp & Hx1 & Hx2).
      pose proof (Hne x 0 Hxp Hx2 Hx1 ltac:(unfold idx; lia)) as Hr0'. by rewrite Z.add_0_r in Hr0'.
    + cbn [app]. constructor; [|done]. intros [?|Hin]%elem_of_app; [done|]. by apply Hnf, in_fresh.
    + cbn [app]. by constructor.
  - by destruct (tn_heap _ _ _ _ Ht).
  - by destruct (tn_regs _ _ _ _ Ht).
  - rewrite Eh1, Ep1. split_and!; [done|done|]. intros i Hii. destruct (Eh0 i Hii) as [-> ->]. by apply T0.
  - intros i k Hii Hk. destruct (decide ((i, k) = (i1, j))) as [Eq|Hn].
    + injection Eq as -> ->. rewrite decide_True by (by left). rewrite En, E0. cbn. by rewrite He.
    + rewrite Eo, (tn_umap _ _ _ _ Ht) by done. 
      destruct (decide ((i, k) ∈ done)) as [Hd|Hd]; [by rewrite decide_True by (by right)|].
      rewrite decide_False; [done|]. intros [?|?]%elem_of_cons; done.
  - intros p. rewrite elem_of_cons, (tn_freed _ _ _ _ Ht). split.
    + intros [->|[(i & k & x & Hd & Hrest)|Hg]]; [left; exists i1, j, e; split_and!; try done; by left| |by right].
      left. exists i, k, x. split; [by right|done].
    + intros [(i & k & x & [Eq|Hd]%elem_of_cons & Hii & Hk & Ex & Hs & ->)|Hg]; [| |by right; right].
      * injection Eq as -> ->. left. congruence.
      * right; left. by exists i, k, x.
  - apply Ht.
  - intros p Hd Hn i Hii. apply not_elem_of_cons in Hn as [Hn1 Hn2].
    rewrite Hne; [by apply (tn_kept _ _ _ _ Ht)|apply Hd| |done|done].
    intros ->. by apply Hd.
  - intros i Hii. rewrite Hne; [by apply (tn_root _ _ _ _ Ht)|apply Hw|done| |done].
    intros Hx. apply Hnt. left. done.
Qed.

(** One visit of the loop over a level-0 table. *)
Lemma torn_visit done tabs s freed i1 j :
  torn done tabs s freed -> idx i1 -> idx j -> (i1, j) ∉ done -> i1 ∉ tabs -> has0 (mem s0) root i1 = true ->
  exists s' freed', (e ← load_pte (upt0 (mem s0) root i1 + 8 * j);
    if sel e then free_leaf_page (pagenum_to_pageptr (ppn e)) ;; clear_pte (upt0 (mem s0) root i1 + 8 * j)
    else mret tt) s = Ok (tt, s') /\ torn ((i1, j) :: done) tabs s' freed'.
Proof.
  intros Ht Hi Hj Hnd Hng H0. destruct (tn_tabs _ _ _ _ Ht) as (_ & _ & T0). destruct (T0 i1 Hi) as [Th Tu].
  rewrite (bind_Ok _ _ _ _ _ (run_load_pte _ s)). rewrite <- Tu, <- Th in *.
  set (e := ent (mem s) (upt0 (mem s) root i1 + 8 * j)).
  assert (Eu : umap (mem s) root i1 j = if valid e then Some e else None) by (unfold umap; by rewrite H0).
  destruct (sel e) eqn:Es.
  - rewrite (Hsel _ Es) in Eu. exists (unmapped s i1 j e), (tab_of e :: freed). split.
    + rewrite (bind_Ok _ _ _ _ _ (run_free_leaf s freed _ (tn_pool _ _ _ _ Ht))), run_clear_pte.
      unfold unmapped. cbn [mem set_mem set_free_list]. change (pagenum_to_pageptr (ppn e)) with (tab_of e).
      rewrite ent_insert_ne; [done|]. apply not_eq_sym.
      pose proof (vm_frames _ _ _ (tn_inv _ _ _ _ Ht)) as Hf. pose proof (vm_space _ _ _ (tn_inv _ _ _ _ Ht)) as Hw.
      apply slot_ne_page; [by apply (sw_pt0 _ _ _ Hw i1 Hi)|by apply (fo_page _ _ _ Hf i1 j)| |done].
      intros Hx. apply (fo_table _ _ _ Hf i1 j e Hi Hj Eu). right; right. by exists i1.
    + by apply torn_leaf.
  - exists s, freed. split; [done|]. apply (torn_more done); [done|intros; by right|].
    intros i k Hii Hk [Eq|?]%elem_of_cons Hn; [|done]. injection Eq as -> ->.
    rewrite (tn_umap _ _ _ _ Ht), decide_False in Eu by done. rewrite Eu. 
    destruct (valid e); cbn; [by rewrite Es|done].
Qed.

Lemma torn_pt0 i1 js : forall done tabs s freed,
  torn done tabs s freed -> idx i1 -> Forall idx js -> NoDup js -> Forall (fun j => (i1, j) ∉ done) js ->
  i1 ∉ tabs -> has0 (mem s0) root i1 = true ->
  exists s' freed', forM js (fun j => e ← load_pte (upt0 (mem s0) root i1 + 8 * j);
      if sel e then free_leaf_page (pagenum_to_pageptr (ppn e)) ;; clear_pte (upt0 (mem s0) root i1 + 8 * j)
      else mret tt) s = Ok (tt, s') /\
    exists done', torn done' tabs s' freed' /\ forall i j, (i, j) ∈ done' <-> (i, j) ∈ done \/ i = i1 /\ j ∈ js.
Proof.
  induction js as [|j js IH]; intros done tabs s freed Ht Hi Hjs Hn Hnew Hng H0.
  { exists s, freed. split; [done|]. exists done. split; [done|]. intros. set_solver. }
  apply Forall_cons in Hjs as [Hj Hjs]. apply Forall_cons in Hnew as [Hj' Hnew]. apply NoDup_cons in Hn as [Hnj Hn].
  destruct (torn_visit done tabs s freed i1 j Ht Hi Hj Hj' Hng H0) as (s1 & freed1 & E1 & Ht1).
  destruct (IH ((i1, j) :: done) tabs s1 freed1) as (s' & freed' & E & done' & Ht' & Hd'); try done.
  { rewrite Forall_forall in Hnew |- *. intros k Hk [Eq|Hx]%elem_of_cons; [|by apply (Hnew k)].
    injection Eq as ->. done. }
  exists s', freed'. split; [by etransitivity; [apply (forM_cons j); exact E1|]|]. exists done'. split; [done|].
  intros i k. rewrite Hd', !elem_of_cons. naive_solver.
Qed.
End Torn.

(** ** Unmapping the user's pages *)

Lemma user_leaf_valid e : user_leaf e = true -> valid e = true.
Proof. unfold user_leaf. intros H. apply andb_prop in H as [H _]. by apply andb_prop in H as [H _]. Qed.

Lemma user_tab_table e : flags e = PTE_V -> user_tab e = false.
Proof. unfold user_tab. by intros ->. Qed.

Section Unmap.
Context (s0 : kmem) (l : list Z) (root : Z) (Hv0 : vm_inv s0 l root) (Hl : l <> []).
Notation torn := (torn user_leaf s0 l root).

(** One round of the loop over the level-1 table. *)
Lemma unmap_round done s freed i1 :
  torn done [] s freed -> has1 (mem s0) root = true -> idx i1 -> (forall j, (i1, j) ∉ done) ->
  exists s' freed', (e ← load_pte (upt1 (mem s0) root + 8 * i1);
      if is_ptab e then
        let pt0 := pagenum_to_pageptr (ppn e) in
        teardown_pt0 user_leaf pt0 ;;
        e1 ← load_pte (upt1 (mem s0) root + 8 * i1);
        if user_tab e1 then memory_free_page pt0 else mret tt
      else mret tt) s = Ok (tt, s') /\
    exists done', torn done' [] s' freed' /\ forall i j, (i, j) ∈ done' <-> (i, j) ∈ done \/ i = i1 /\ j ∈ indices.
Proof.
  intros Ht H1 Hi Hnew. destruct (tn_tabs _ _ _ _ _ _ _ _ Ht) as (T1 & Tp & T0). destruct (T0 i1 Hi) as [Th Tu].
  rewrite (bind_Ok _ _ _ _ _ (run_load_pte _ s)). rewrite <- Tp.
  destruct (has0 (mem s0) root i1) eqn:H0.
  - pose proof (sw_tab0 _ _ _ (vm_space _ _ _ (tn_inv _ _ _ _ _ _ _ _ Ht)) i1 Hi Th) as Ef.
    cbn [mem aside set_free_list] in Ef. rewrite (proj2 (table_entry _ Ef)). cbn zeta.
    change (pagenum_to_pageptr (ppn _)) with (upt0 (mem s) root i1). rewrite Tu.
    destruct (torn_pt0 user_leaf user_leaf_valid s0 l root Hv0 Hl i1 indices done [] s freed) as (s' & freed' & E & done' & Ht' & Hd');
      try done.
    { apply Forall_forall. intros j. apply in_indices. }
    { apply range_NoDup. lia. }
    { by apply Forall_forall. }
    { apply not_elem_of_nil. }
    exists s', freed'. split; [|by exists done'].
    destruct (tn_tabs _ _ _ _ _ _ _ _ Ht') as (_ & Tp' & T0'). destruct (T0' i1 Hi) as [Th' _].
    rewrite (bind_Ok _ _ _ _ _ E), (bind_Ok _ _ _ _ _ (run_load_pte _ s')).
    pose proof (sw_tab0 _ _ _ (vm_space _ _ _ (tn_inv _ _ _ _ _ _ _ _ Ht')) i1 Hi ltac:(by rewrite <- H0)) as Ef'.
    cbn [mem aside set_free_list] in Ef'. rewrite Tp' in Ef'. rewrite Tp. by rewrite (user_tab_table _ Ef').
  - assert (Hnv : is_ptab (ent (mem s) (upt1 (mem s) root + 8 * i1)) = false).
    { unfold has0 in Th. rewrite T1, H1 in Th. cbn in Th. unfold is_ptab. unfold valid in Th. by rewrite Th. }
    rewrite Hnv. exists s, freed. split; [done|]. exists (((i1,.) <$> indices) ++ done).
    assert (Hmem : forall i j, (i, j) ∈ ((i1,.) <$> indices) ++ done <-> (i, j) ∈ done \/ i = i1 /\ j ∈ indices).
    { intros i j. rewrite elem_of_app, list_elem_of_fmap. naive_solver. }
    split; [|done]. apply (torn_more user_leaf s0 l root done); [done|intros [i j] Hx; apply Hmem; by left|].
    intros i j _ _ [?|[-> _]]%Hmem Hn; [done|]. unfold umap. by rewrite H0.
Qed.

Lemma unmap_rounds ids : forall done s freed,
  torn done [] s freed -> has1 (mem s0) root = true -> Forall idx ids -> NoDup ids ->
  Forall (fun i => forall j, (i, j) ∉ done) ids ->
  exists s' freed', forM ids (fun i1 => e ← load_pte (upt1 (mem s0) root + 8 * i1);
      if is_ptab e then
        let pt0 := pagenum_to_pageptr (ppn e) in
        teardown_pt0 user_leaf pt0 ;;
        e1 ← load_pte (upt1 (mem s0) root + 8 * i1);
        if user_tab e1 then memory_free_page pt0 else mret tt
      else mret tt) s = Ok (tt, s') /\
    exists done', torn done' [] s' freed' /\ forall i j, (i, j) ∈ done' <-> (i, j) ∈ done \/ i ∈ ids /\ j ∈ indices.
Proof.
  induction ids as [|i1 ids IH]; intros done s freed Ht H1 His Hn Hnew.
  { exists s, freed. split; [done|]. exists done. split; [done|]. intros. rewrite elem_of_nil. tauto. }
  apply Forall_cons in His as [Hi His]. apply Forall_cons in Hnew as [Hi' Hnew]. apply NoDup_cons in Hn as [Hni Hn].
  destruct (unmap_round done s freed i1 Ht H1 Hi Hi') as (s1 & freed1 & E1 & done1 & Ht1 & Hd1).
  destruct (IH done1 s1 freed1) as (s' & freed' & E & done' & Ht' & Hd'); try done.
  { rewrite Forall_forall in Hnew |- *. intros i Hii j [Hx|[-> _]]%Hd1; [by apply (Hnew i Hii j)|done]. }
  exists s', freed'. split; [by etransitivity; [apply (forM_cons i1); exact E1|]|]. exists done'. split; [done|].
  intros i j. rewrite Hd', Hd1, elem_of_cons. naive_solver.
Qed.

(** The entry of the user part in the root table. *)
Lemma unmap_user_entry :
  exists s' freed, pt2_body user_leaf user_tab root USER_VPN2 s0 = Ok (tt, s') /\
    exists done, torn done [] s' freed /\ forall i j, idx i -> idx j -> (i, j) ∉ done -> umap (mem s0) root i j = None.
Proof.
  unfold pt2_body. rewrite (bind_Ok _ _ _ _ _ (run_load_pte _ s0)). fold (uslot root).
  pose proof (torn_start user_leaf s0 l root Hv0 Hl) as Ht0.
  destruct (has1 (mem s0) root) eqn:H1.
  - pose proof (sw_tab1 _ _ _ (vm_space _ _ _ Hv0) H1) as Ef. rewrite (proj2 (table_entry _ Ef)). cbn zeta.
    change (pagenum_to_pageptr (ppn _)) with (upt1 (mem s0) root).
    destruct (unmap_rounds indices [] s0 [] Ht0 H1) as (s' & freed' & E & done' & Ht' & Hd').
    { apply Forall_forall. intros j. apply in_indices. }
    { apply range_NoDup. lia. }
    { apply Forall_forall. intros i _ j. apply not_elem_of_nil. }
    exists s', freed'. split.
    + unfold teardown_pt1. rewrite (bind_Ok _ _ _ _ _ E), (bind_Ok _ _ _ _ _ (run_load_pte _ s')).
      pose proof (sw_tab1 _ _ _ (vm_space _ _ _ (tn_inv _ _ _ _ _ _ _ _ Ht'))) as Ef'.
      cbn [mem aside set_free_list] in Ef'. rewrite (proj1 (tn_tabs _ _ _ _ _ _ _ _ Ht')) in Ef'.
      by rewrite (user_tab_table _ (Ef' H1)).
    + exists done'. split; [done|]. intros i j Hi Hj Hn. exfalso. apply Hn, Hd'. right.
      split; by apply in_indices.
  - assert (Hnv : is_ptab (ent (mem s0) (uslot root)) = false).
    { unfold has1, valid in H1. unfold is_ptab. by rewrite H1. }
    rewrite Hnv. exists s0, []. split; [done|]. exists []. split; [done|].
    intros i j _ _ _. unfold umap, has0. by rewrite H1.
Qed.

Lemma unmap_user_run :
  kernel_part user_leaf user_tab (mem s0) root -> (length l <= ram_pages)%nat ->
  exists s' freed, memory_unmap_and_free_user s0 = Ok (tt, s') /\
    exists done, torn done [] s' freed /\ (forall i j, idx i -> idx j -> (i, j) ∉ done -> umap (mem s0) root i j = None) /\
    (has1 (mem s0) root = false -> s' = s0).
Proof.
  intros [Hlow Hhigh] Hlen.
  destruct unmap_user_entry as (s' & freed & E & done & Ht & Hd). exists s', freed.
  split; [|exists done; split_and!; [done|done|]].
  - unfold memory_unmap_and_free_user. rewrite bind_run. cbn [get obind].
    rewrite (bind_Ok _ _ _ tt s0).
    2: { apply (list_end_run l); [apply (vm_space _ _ _ Hv0)|done|lia]. }
    rewrite (bind_Ok _ _ _ _ _ (run_active_root s0 root (vm_active _ _ _ Hv0))). unfold teardown_pt2.
    change (forM indices (pt2_body user_leaf user_tab root) s0 = Ok (tt, s')).
    change indices with (range 3 0 3 1 ++ USER_VPN2 :: range 508 4 512 1).
    rewrite (forM_app _ _ _ s0 s0).
    2: { apply forM_idle. intros i Hi. apply quiet_run, Hlow. rewrite range_elem in Hi by lia.
         destruct Hi as (k & ? & -> & ?). unfold USER_VPN2. lia. }
    rewrite (forM_cons _ _ _ _ _ E). apply forM_idle. intros i Hi. apply quiet_run. intros Hp. exfalso.
    rewrite range_elem in Hi by lia. destruct Hi as (k & ? & -> & ?).
    unfold ent in Hp. rewrite (tn_root _ _ _ _ _ _ _ _ Ht) in Hp by (unfold idx; lia).
    specialize (Hhigh (4 + 1 * k) ltac:(unfold USER_VPN2; lia)). unfold ent in Hhigh. congruence.
  - intros H1. unfold pt2_body in E. rewrite (bind_Ok _ _ _ _ _ (run_load_pte _ s0)) in E. fold (uslot root) in E.
    assert (Hnv : is_ptab (ent (mem s0) (uslot root)) = false).
    { unfold has1, valid in H1. unfold is_ptab. by rewrite H1. }
    rewrite Hnv in E. by injection E.
Qed.
End Unmap.

(** C20. Unmapping the user's pages.  In a well-formed space whose kernel part holds
    no user entry and with free pages left, [memory_unmap_and_free_user] returns;
    then no page with user permission is mapped any more and every other mapping
    is as it was; the pages freed are exactly the frames that were mapped with
    user permission, they are in front of the free list, and the list holds no
    page twice; every page of data that was not freed and the root table have the
    contents they had; and with the freed pages set aside the space is well
    formed. *)
Theorem memory_unmap_and_free_user_spec (s : kmem) (l : list Z) (root : Z)
    (Hv : vm_inv s l root) (Hk : kernel_part user_leaf user_tab (mem s) root)
    (Hl : l <> []) (Hlen : (length l <= ram_pages)%nat) :
  exists s' freed, memory_unmap_and_free_user s = Ok (tt, s') /\
    pool s' (freed ++ l) /\
    (forall p, p ∈ freed <-> exists i j e, idx i /\ idx j /\ umap (mem s) root i j = Some e /\
       has (flags e) PTE_U = true /\ p = tab_of e) /\
    (forall i j, idx i -> idx j -> umap (mem s') root i j
       = match umap (mem s) root i j with
         | Some e => if has (flags e) PTE_U then None else Some e
         | None => None
         end) /\
    (forall p, data_page s l root p -> p ∉ freed ->
       forall i, idx i -> rd (mem s') (p + 8 * i) = rd (mem s) (p + 8 * i)) /\
    (forall i, idx i -> rd (mem s') (root + 8 * i) = rd (mem s) (root + 8 * i)) /\
    vm_inv (set_free_list (free_list s) s') l root.
Proof.
  assert (Hsel : forall i j e, idx i -> idx j -> umap (mem s) root i j = Some e ->
    user_leaf e = has (flags e) PTE_U).
  { intros i j e Hi Hj E. pose proof (fo_page _ _ _ (vm_frames _ _ _ Hv) i j e Hi Hj E) as (_ & Hp & _).
    assert (Hve : has (flags e) PTE_V = true).
    { unfold umap in E. destruct (has0 _ _ _); [|done]. cbn zeta in E.
      case_match eqn:Hve; [|done]. by injection E as <-. }
    unfold user_leaf. rewrite Hve. destruct (Z.eqb_spec (ppn e) 0) as [Ep|]; [|done].
    unfold tab_of in Hp. rewrite Ep in Hp. done. }
  destruct (unmap_user_run s l root Hv Hl Hk Hlen) as (s' & freed & E & done & Ht & Hd & _).
  exists s', freed. split_and!; [done|apply Ht| | |exact (tn_kept _ _ _ _ _ _ _ _ Ht)|exact (tn_root _ _ _ _ _ _ _ _ Ht)|].
  - intros p. rewrite (tn_freed _ _ _ _ _ _ _ _ Ht). split.
    + intros [(i & j & e & _ & Hi & Hj & Eu & He & ->)|(i & H & _)]; [|by apply not_elem_of_nil in H].
      exists i, j, e. by rewrite <- (Hsel i j).
    + intros (i & j & e & Hi & Hj & Eu & He & ->). left. exists i, j, e. rewrite (Hsel i j) by done.
      split_and!; try done. destruct (decide ((i, j) ∈ done)) as [|Hn]; [done|]. rewrite (Hd i j Hi Hj Hn) in Eu. done.
  - intros i j Hi Hj. rewrite (tn_umap _ _ _ _ _ _ _ _ Ht) by done. destruct (decide ((i, j) ∈ done)) as [Hin|Hn].
    + unfold strip. destruct (umap (mem s) root i j) as [e|] eqn:Eu; [|done]. by rewrite (Hsel i j).
    + by rewrite (Hd i j Hi Hj Hn).
  - assert (Ef : free_list s = List.hd 0 l) by (by rewrite <- (aside_start s l root Hv Hl)). rewrite Ef. apply Ht.
Qed.

(** ** The space [memory_init] leaves *)

Lemma invalid_ptab e : valid e = false -> is_ptab e = false.
Proof. unfold valid, is_ptab. by intros ->. Qed.

Lemma kperm_user k va p : user_leaf (leaf_pte p (kperm k va)) = false.
Proof.
  unfold user_leaf. rewrite leaf_flags. unfold kperm.
  destruct ((RAM_START <=? va) && (va <? rodata_start k)); [|destruct ((RAM_START <=? va) && (va <? data_start k))];
    by rewrite andb_false_r.
Qed.

(** The kernel's part has nothing of the user. *)
Lemma init_kernel_part k m m' :
  image_ok k -> ram_clear k m ->
  (forall t i, t ∈ [main_pt2 k; main_pt1_0x80000 k; main_pt0_0x80000 k] -> idx i ->
     ent m' (t + 8 * i) = ent (tables_mem k m) (t + 8 * i)) ->
  kernel_part user_leaf user_tab m' (main_pt2 k).
Proof.
  intros Hk [Hz _] Hm. destruct (tabs_ok k Hk) as (H2 & H1 & H0 & _).
  assert (E2 : forall i, idx i -> ent m' (main_pt2 k + 8 * i)
    = if i <? 2 then leaf_pte (GIGA_SIZE * i) RWG else if i <? 3 then ptab_pte (main_pt1_0x80000 k) PTE_G
      else ent m (main_pt2 k + 8 * i)).
  { intros i Hi. rewrite Hm by (done || set_solver).
    assert (Ev : VPN2 (GIGA_SIZE * i) = i) by (rewrite VPN2_spec; unfold idx in Hi; consts; wrap_lia).
    rewrite <- Ev at 1. rewrite ent_pt2 by (done || (unfold idx in Hi; consts; lia)). rewrite Ev.
    replace (GIGA_SIZE * i / GIGA_SIZE * GIGA_SIZE) with (GIGA_SIZE * i) by (consts; wrap_lia).
    destruct (Z.ltb_spec (GIGA_SIZE * i) RAM_START), (Z.ltb_spec i 2); try (consts; lia); [done|].
    destruct (Z.ltb_spec (GIGA_SIZE * i) (RAM_START + GIGA_SIZE)), (Z.ltb_spec i 3); try (consts; lia); done. }
  assert (E1 : forall j, idx j -> ent m' (main_pt1_0x80000 k + 8 * j)
    = if j <? 1 then ptab_pte (main_pt0_0x80000 k) PTE_G
      else if j <? 4 then leaf_pte (RAM_START + MEGA_SIZE * j) RWG else ent m (main_pt1_0x80000 k + 8 * j)).
  { intros j Hj. rewrite Hm by (done || set_solver).
    set (va := RAM_START + MEGA_SIZE * j).
    assert (Ev : VPN1 va = j) by (unfold va; rewrite VPN1_spec; unfold idx in Hj; consts; wrap_lia).
    rewrite <- Ev at 1. rewrite ent_pt1 by (done || (unfold va, idx in *; consts; lia)). rewrite Ev.
    replace (va / MEGA_SIZE * MEGA_SIZE) with va by (unfold va; consts; wrap_lia).
    destruct (Z.ltb_spec va (RAM_START + MEGA_SIZE)), (Z.ltb_spec j 1); try (unfold va in *; consts; lia); [done|].
    destruct (Z.ltb_spec va RAM_END), (Z.ltb_spec j 4); try (unfold va in *; consts; lia); done. }
  assert (E0 : forall n, idx n -> exists va p, ent m' (main_pt0_0x80000 k + 8 * n) = leaf_pte p (kperm k va)).
  { intros n Hn. rewrite Hm by (done || set_solver). set (va := RAM_START + PAGE_SIZE * n).
    assert (Ev : VPN0 va = n) by (unfold va; rewrite VPN0_spec; unfold idx in Hn; consts; wrap_lia).
    rewrite <- Ev. rewrite ent_pt0 by (done || (unfold va, idx in *; consts; lia)). eauto. }
  assert (Hno : forall t i, t ∈ [main_pt2 k; main_pt1_0x80000 k; main_pt0_0x80000 k] -> idx i ->
    is_ptab (ent m (t + 8 * i)) = false) by (intros; apply invalid_ptab, zero_invalid; auto).
  split.
  - intros i Hi Hp. unfold USER_VPN2 in Hi. rewrite E2 in Hp |- * by (unfold idx; lia).
    destruct (Z.ltb_spec i 2); [done|]. destruct (Z.ltb_spec i 3); [|lia]. split; [done|].
    rewrite tab_of_ptab by done. intros j Hj. cbn zeta. rewrite E1 by done.
    destruct (Z.ltb_spec j 1); [intros _|destruct (Z.ltb_spec j 4); [done|]].
    + split; [done|]. rewrite tab_of_ptab by done. intros n Hn.
      destruct (E0 n Hn) as (va & p & ->). apply kperm_user.
    + rewrite Hno by (done || set_solver). done.
  - intros i Hi. unfold USER_VPN2 in Hi. rewrite E2 by (unfold idx; lia).
    destruct (Z.ltb_spec i 2); [lia|]. destruct (Z.ltb_spec i 3); [lia|].
    apply Hno; [set_solver|unfold idx; lia].
Qed.

(** The space of [demo_vm] with one user page mapped. *)
Definition demo_torn : kmem :=
  match memory_alloc_and_map_page USER_START_VMA (Z.lor PTE_R PTE_U) demo_vm with
  | Ok (_, s) => s
  | _ => demo_vm
  end.

Lemma chain_unique m p l1 l2 : chain m p l1 -> chain m p l2 -> l1 = l2.
Proof.
  revert p l2. induction l1 as [|x l1 IH]; intros p [|y l2]; cbn [chain]; [done| | |].
  - intros -> (<- & ? & _). done.
  - intros (-> & ? & _) ->. done.
  - intros (-> & _ & H1) (-> & _ & H2). f_equal. by apply (IH _ _ H1).
Qed.

Lemma demo_torn_inv : vm_inv demo_torn (drop 3 demo_pages) demo_root.
Proof.
  destruct (map_page_run demo_vm 2147557376 (drop 1 demo_pages) demo_root USER_START_VMA (Z.lor PTE_R PTE_U))
    as (s & l & e & E & Hv & _).
  - exact demo_vm_inv.
  - vm_compute. lia.
  - vm_compute. done.
  - unfold demo_torn. rewrite E. assert (El : l = drop 3 demo_pages); [|by subst].
    apply (chain_unique (mem s) (free_list s)); [apply (vm_space _ _ _ Hv)|].
    assert (s = demo_torn) as -> by (unfold demo_torn; by rewrite E). vm_compute. by split_and!.
Qed.

(** Nothing but the user entry of the root leads to a table. *)
Lemma kernel_part_none leaf_sel tab_sel m root :
  Forall (fun i => i = USER_VPN2 \/ is_ptab (ent m (root + 8 * i)) = false) indices ->
  kernel_part leaf_sel tab_sel m root.
Proof.
  intros H. rewrite Forall_forall in H.
  assert (G : forall i, idx i -> i <> USER_VPN2 -> is_ptab (ent m (root + 8 * i)) = false).
  { intros i Hi Hn. destruct (H i); [by apply in_indices|done|done]. }
  unfold USER_VPN2 in *. split.
  - intros i Hi. unfold quiet. rewrite G; [done| |]; unfold idx, USER_VPN2 in *; lia.
  - intros i Hi. apply G; unfold idx, USER_VPN2 in *; lia.
Qed.

Lemma memory_unmap_and_free_user_spec_witness :
  exists s', memory_unmap_and_free_user demo_torn = Ok (tt, s') /\
    umap_at (mem s') demo_root USER_START_VMA = None /\
    umap_at (mem demo_torn) demo_root USER_START_VMA <> None.
Proof.
  destruct (memory_unmap_and_free_user_spec demo_torn (drop 3 demo_pages) demo_root demo_torn_inv)
    as (s' & freed & E & _ & _ & Hu & _).
  - apply kernel_part_none. apply (bool_decide_unpack _). vm_compute. done.
  - discriminate.
  - vm_compute. lia.
  - exists s'. split; [exact E|]. split; [|vm_compute; discriminate].
    specialize (Hu (VPN1 USER_START_VMA) (VPN0 USER_START_VMA) (VPN1_idx USER_START_VMA) (VPN0_idx USER_START_VMA)).
    unfold umap_at. rewrite Hu. vm_compute. reflexivity.
Defined.
