(* ===== verification/Clone.v ===== *)
(** memory.c: cloning an address space, for fork.

    [memory_space_clone] builds a second space beside the active one: a root
    table with the kernel's entries, and for every mapped user page a frame of
    its own with the same contents.  While it runs both spaces share the memory
    and the pages still to be handed out; [two_spaces] is the invariant, and the
    framing lemmas of [UserMem] carry each space over the writes to the other. *)

From S2P Require Import Prelude PhysMem PageTable KernelMap UserMem.

Section Clone.
(** The address of the kernel's level-1 table [main_pt1_0x80000]. *)
Context (main_pt1 : Z).

(** [memcpy] of PAGE_SIZE bytes from virtual address [vma] to the page at [dst];
    both are aligned, and the model copies a word at a time. *)
Definition copy_page (dst vma : Z) : M kmem unit :=
  forM indices (fun i =>
    pa ← vaddr PTE_R "Load page fault" (vma + 8 * i);
    w ← load pa;
    store (dst + 8 * i) w).

(** The copy of a mapped page, given the addresses of the two leaf entries. *)
Definition clone_mapped (child_leaf_pte parent_leaf_pte vma original_flag : Z) : M kmem unit :=
  page ← memory_alloc_page;
  c0 ← load_pte child_leaf_pte;
  store_pte child_leaf_pte (with_ppn (pageptr_to_pagenum page) c0) ;;
  p1 ← load_pte parent_leaf_pte;
  c1 ← load_pte child_leaf_pte;
  store_pte child_leaf_pte (with_flags (Z.lor (Z.lor (flags p1) PTE_W) PTE_R) c1) ;;
  memory_set_page_flags vma (Z.lor (Z.lor original_flag PTE_W) PTE_R) ;;
  c2 ← load_pte child_leaf_pte;
  copy_page (pagenum_to_pageptr (ppn c2)) vma ;;
  p3 ← load_pte parent_leaf_pte;
  c3 ← load_pte child_leaf_pte;
  store_pte child_leaf_pte (with_flags (flags p3) c3) ;;
  memory_set_page_flags vma original_flag.

Definition clone_page (new_root vma : Z) : M kmem unit :=
  child_leaf_pte ← walk_pt new_root vma CREATE_PTE;
  root ← active_space_root;
  parent_leaf_pte ← walk_pt root vma 0;
  parent ← load_pte parent_leaf_pte;
  if (parent_leaf_pte <=? RAM_END) && (RAM_START <=? parent_leaf_pte)
     && has (flags parent) PTE_V && negb (ppn parent =? 0)
  then clone_mapped child_leaf_pte parent_leaf_pte vma (flags parent)
  else mret tt.

Definition user_vmas : list Z :=
  range (Z.to_nat ((USER_END_VMA - USER_START_VMA) / PAGE_SIZE))
    USER_START_VMA USER_END_VMA PAGE_SIZE.

(** The kernel's entries of the new root table. *)
Definition clone_kernel (new_root : Z) : M kmem unit :=
  forM (range 2 0 RAM_START_PMA GIGA_SIZE) (fun pma =>
    store_pte (new_root + 8 * VPN2 pma)
      (leaf_pte pma (Z.lor (Z.lor PTE_R PTE_W) PTE_G))) ;;
  store_pte (new_root + 8 * VPN2 RAM_START_PMA) (ptab_pte main_pt1 PTE_G).

Definition memory_space_clone (asid : Z) : M kmem Z :=
  new_root ← kmalloc PAGE_SIZE;
  let new_mtag := mk_mtag new_root in
  clone_kernel new_root ;;
  forM user_vmas (clone_page new_root) ;;
  memory_space_switch new_mtag ;;
  mret new_mtag.
End Clone.

(** ** Two spaces in one memory *)

(** The pages a space owns: its tables and the frames it maps. *)
Definition owned (m : gmap Z Z) (root p : Z) : Prop :=
  is_table m root p \/ exists i j e, idx i /\ idx j /\ umap m root i j = Some e /\ tab_of e = p.

Record two_spaces (s : kmem) (l : list Z) (root new : Z) : Prop := {
  ts_vm : vm_inv s l root;
  ts_new : space_wf s l new;
  ts_frames : frames_ok s l new;
  ts_disj : forall p, owned (mem s) root p -> owned (mem s) new p -> False
}.

Lemma owned_page s l root p :
  space_wf s l root -> frames_ok s l root -> owned (mem s) root p -> page_ok p /\ (p ∉ fresh s l).
Proof.
  intros Hw Hf [Ht|(i & j & e & Hi & Hj & E & <-)].
  - split; [by eapply is_table_page|by eapply is_table_fresh].
  - split; [by eapply (fo_page _ _ _ Hf i j)|by eapply (fo_fresh _ _ _ Hf i j)].
Qed.

(** The space [b] and all it owns are as they were. *)
Record still (b : Z) (s s' : kmem) : Prop := {
  st_umap : forall i j, idx i -> idx j -> umap (mem s') b i j = umap (mem s) b i j;
  st_owned : forall p, owned (mem s') b p -> owned (mem s) b p;
  st_rd : forall i j e w, idx i -> idx j -> umap (mem s) b i j = Some e -> idx w ->
    rd (mem s') (tab_of e + 8 * w) = rd (mem s) (tab_of e + 8 * w);
  st_upt0 : forall i, idx i -> has1 (mem s) b = true -> upt0 (mem s') b i = upt0 (mem s) b i;
  st_has0 : forall i, idx i -> has0 (mem s') b i = has0 (mem s) b i;
  st_has1 : has1 (mem s') b = has1 (mem s) b
}.

Lemma still_refl b s : still b s s.
Proof. done. Qed.
Lemma still_mem b s s' : mem s' = mem s -> still b s s'.
Proof. intros E. by constructor; rewrite E. Qed.
Lemma still_trans b s s1 s2 : still b s s1 -> still b s1 s2 -> still b s s2.
Proof.
  intros H1 H2. constructor; intros *.
  - intros. by rewrite (st_umap _ _ _ H2), (st_umap _ _ _ H1).
  - intros Ho. by apply (st_owned _ _ _ H1), (st_owned _ _ _ H2).
  - intros. rewrite (st_rd _ _ _ H2 i j), (st_rd _ _ _ H1 i j); try done. by rewrite (st_umap _ _ _ H1).
  - intros. by rewrite (st_upt0 _ _ _ H2), (st_upt0 _ _ _ H1) by (done || by rewrite (st_has1 _ _ _ H1)).
  - intros. by rewrite (st_has0 _ _ _ H2), (st_has0 _ _ _ H1).
  - by rewrite (st_has1 _ _ _ H2), (st_has1 _ _ _ H1).
Qed.

(** Words outside what the space owns, tables included, do not matter to it. *)
Lemma still_outside b s s' :
  (forall p i, owned (mem s) b p -> idx i -> rd (mem s') (p + 8 * i) = rd (mem s) (p + 8 * i)) ->
  still b s s'.
Proof.
  intros Hrd.
  assert (Htab : forall t i, is_table (mem s) b t -> idx i -> rd (mem s') (t + 8 * i) = rd (mem s) (t + 8 * i))
    by (intros t i Ht; apply Hrd; by left).
  assert (Eu := frame_umap s s' b Htab). assert (Et := frame_table s s' b Htab).
  constructor; try done.
  - intros p. unfold owned. rewrite Et. intros [?|(i & j & e & Hi & Hj & E & Ep)]; [by left|right].
    exists i, j, e. by rewrite <- Eu.
  - intros i j e w Hi Hj E. apply Hrd. right. by exists i, j, e.
  - intros i Hi H1. by apply (frame_upt0 s s').
  - intros i Hi. by apply (frame_has0 s s').
  - by apply (frame_has1 s s').
Qed.

(** An operation on the space [a] leaves the space [b] and all it owns. *)
Lemma kept_other s l s' l' a b :
  space_wf s l b -> frames_ok s l b -> space_wf s' l' a -> kept a s l s' l' ->
  sublist (fresh s' l') (fresh s l) ->
  (forall p, owned (mem s) b p -> owned (mem s) a p -> False) ->
  space_wf s' l' b /\ frames_ok s' l' b /\ still b s s'.
Proof.
  intros Hw Hf Hwa Hk Hsub Hd.
  assert (Hin : forall x, x ∈ fresh s' l' -> x ∈ fresh s l) by (intros; by eapply elem_of_sublist).
  assert (Hrd : forall p i, owned (mem s) b p -> idx i -> rd (mem s') (p + 8 * i) = rd (mem s) (p + 8 * i)).
  { intros p i Ho Hi. destruct (owned_page s l b p Hw Hf Ho) as [Hp Hn].
    apply (kp_page _ _ _ _ _ Hk p Hp Hn); [|done]. intros Ht. apply (Hd p Ho). by left. }
  assert (Htab : forall t i, is_table (mem s) b t -> idx i -> rd (mem s') (t + 8 * i) = rd (mem s) (t + 8 * i))
    by (intros t i Ht; apply Hrd; by left).
  split_and!.
  - by apply (space_frame s s' l l' b Hw Htab); try apply Hwa.
  - by apply (frames_frame s s' l l' b).
  - by apply still_outside.
Qed.

(** The frames of the acting space keep their contents. *)
Lemma kept_frames s l s' l' a i j e w :
  frames_ok s l a -> kept a s l s' l' -> idx i -> idx j -> umap (mem s) a i j = Some e -> idx w ->
  rd (mem s') (tab_of e + 8 * w) = rd (mem s) (tab_of e + 8 * w).
Proof.
  intros Hf Hk Hi Hj E Hwd. apply (kp_page _ _ _ _ _ Hk); [..|done].
  - by eapply (fo_page _ _ _ Hf i j).
  - by eapply (fo_fresh _ _ _ Hf i j).
  - by eapply (fo_table _ _ _ Hf i j).
Qed.

(** ** The steps of a page's copy *)

Section Steps.
(** The parent's root, which is active, and the child's. *)
Context (P C : Z).

(** The child's other pages, with their contents, and the kernel's entries of
    its root are as they were. *)
Record child_kept (x : Z * Z) (s s' : kmem) : Prop := {
  ck_umap : forall i j, idx i -> idx j -> (i, j) <> x -> umap (mem s') C i j = umap (mem s) C i j;
  ck_rd : forall i j e w, idx i -> idx j -> (i, j) <> x -> umap (mem s) C i j = Some e -> idx w ->
    rd (mem s') (tab_of e + 8 * w) = rd (mem s) (tab_of e + 8 * w);
  ck_root : forall i, idx i -> i <> USER_VPN2 -> rd (mem s') (C + 8 * i) = rd (mem s) (C + 8 * i)
}.

Lemma child_kept_trans x s s1 s2 : child_kept x s s1 -> child_kept x s1 s2 -> child_kept x s s2.
Proof.
  intros H1 H2. constructor; intros *.
  - intros. by rewrite (ck_umap _ _ _ H2), (ck_umap _ _ _ H1).
  - intros. rewrite (ck_rd _ _ _ H2 i j), (ck_rd _ _ _ H1 i j); try done. by rewrite (ck_umap _ _ _ H1).
  - intros. by rewrite (ck_root _ _ _ H2), (ck_root _ _ _ H1).
Qed.

(** What leaves the child alone. *)
Lemma child_kept_still x s s' :
  still C s s' -> (forall i, idx i -> rd (mem s') (C + 8 * i) = rd (mem s) (C + 8 * i)) -> child_kept x s s'.
Proof.
  intros Hs Hr. constructor; intros *.
  - intros. by apply Hs.
  - intros. by apply (st_rd _ _ _ Hs i j).
  - intros. by apply Hr.
Qed.

(** What works on the child's tables. *)
Lemma child_kept_kept x s l s' l' :
  frames_ok s l C -> kept C s l s' l' ->
  (forall i j, idx i -> idx j -> (i, j) <> x -> umap (mem s') C i j = umap (mem s) C i j) ->
  child_kept x s s'.
Proof.
  intros Hf Hk Hu. constructor; [done| |].
  - intros i j e w Hi Hj _ E Hwd. by apply (kept_frames s l s' l' C i j).
  - apply Hk.
Qed.

Lemma owned_root m r : owned m r r.
Proof. by left; left. Qed.

(** Walking the child's tables. *)
Lemma walk_child x s l vma :
  two_spaces s l P C -> (2 <= length (fresh s l))%nat -> user_vma vma ->
  exists s' l', walk_pt C vma CREATE_PTE s = Ok (upt0 (mem s') C (VPN1 vma) + 8 * VPN0 vma, s') /\
    two_spaces s' l' P C /\ has0 (mem s') C (VPN1 vma) = true /\ still P s s' /\ child_kept x s s' /\
    (forall i j, idx i -> idx j -> umap (mem s') C i j = umap (mem s) C i j) /\
    satp s' = satp s /\ main_mtag s' = main_mtag s /\
    (length (fresh s l) <= length (fresh s' l') + Nat.b2n (negb (has1 (mem s) C))
       + Nat.b2n (negb (has0 (mem s) C (VPN1 vma))))%nat /\
    (forall j, idx j -> j <> VPN1 vma -> has0 (mem s') C j = has0 (mem s) C j) /\
    fresh s' l' ⊆ fresh s l.
Proof.
  intros [[Ha Hw Hf] Hwc Hfc Hd] Hlen Hu.
  destruct (walk_pt_create s l C vma Hwc Hlen Hu) as (s' & l' & E & Hwc' & H0 & Htk & Eu & Et & Hk & Hcost & Hh).
  assert (Hsub : sublist (fresh s' l') (fresh s l)).
  { destruct Htk as (_ & _ & u & -> & _). by apply sublist_inserts_l. }
  destruct (kept_other s l s' l' C P Hw Hf Hwc' Hk Hsub Hd) as (Hw' & Hf' & Hst).
  pose proof (walk_frames s l C s' l' Hfc Htk Eu Et) as Hfc'.
  exists s', l'. destruct Htk as (Es & Em & _). split_and!; try done.
  - constructor; try done; [constructor; try done; congruence|].
    intros p Ho Hoc. apply (st_owned _ _ _ Hst) in Ho. destruct Hoc as [Ht|(i & j & e & Hi & Hj & E' & Ep)].
    + destruct (Et p Ht) as [Ht'|Hin]; [apply (Hd p Ho); by left|].
      by destruct (owned_page s l P p Hw Hf Ho).
    + apply (Hd p Ho). right. exists i, j, e. by rewrite <- Eu.
  - apply (child_kept_kept x s l s' l'); auto.
  - intros y Hy. by eapply elem_of_sublist.
Qed.

(** Writing the child's leaf entry for an address. *)
Lemma child_leaf s l i1 i0 p e :
  two_spaces s l P C -> idx i1 -> idx i0 -> has0 (mem s) C i1 = true -> pte_wf e -> valid e = true ->
  tab_of e = p -> page_ok p -> p ∉ fresh s l -> ~ owned (mem s) P p -> ~ is_table (mem s) C p ->
  (forall i j e', idx i -> idx j -> umap (mem s) C i j = Some e' -> (i, j) <> (i1, i0) -> tab_of e' <> p) ->
  let s' := set_mem <[upt0 (mem s) C i1 + 8 * i0 := pte_encode e]> s in
  two_spaces s' l P C /\ still P s s' /\ child_kept (i1, i0) s s' /\ umap (mem s') C i1 i0 = Some e /\
  (forall j, idx j -> has0 (mem s') C j = has0 (mem s) C j /\ upt0 (mem s') C j = upt0 (mem s) C j).
Proof.
  intros [[Ha Hw Hf] Hwc Hfc Hd] Hi1 Hi0 H0 He Hv Ep Hp Hpf Hpo Hpt Hpi s'.
  destruct (write_leaf s l C i1 i0 e Hwc Hi1 Hi0 H0 He) as (Hwc' & _ & _ & Eu & Eo & Et & Hh); [by rewrite Hv|].
  fold s' in Hwc', Eu, Eo, Et, Hh. rewrite Hv in Eu.
  assert (Hfc' : frames_ok s' l C) by (by apply (write_leaf_frames s l C i1 i0 e p)).
  assert (Hk : kept C s l s' l).
  { destruct (sw_pt0 _ _ _ Hwc i1 Hi1 H0) as (Hq & Hqr & _).
    apply kept_store; auto; [apply Hwc|right; right; by exists i1|done]. }
  destruct (kept_other s l s' l C P Hw Hf Hwc' Hk ltac:(done) Hd) as (Hw' & Hf' & Hst).
  split_and!; try done.
  - constructor; try done.
    intros q Ho Hoc. apply (st_owned _ _ _ Hst) in Ho. destruct Hoc as [Ht|(i & j & e' & Hi & Hj & E' & Eq)].
    + apply (Hd q Ho). left. auto.
    + destruct (decide ((i, j) = (i1, i0))) as [Eij|Hne].
      * injection Eij as -> ->. assert (e' = e) as -> by congruence. by rewrite Eq in Ep; subst q.
      * apply (Hd q Ho). right. exists i, j, e'. by rewrite <- Eo.
  - by apply (child_kept_kept (i1, i0) s l s' l).
Qed.

(** Everything of the parent but the flags of one page is as it was. *)
Record reflagged (vma : Z) (s s' : kmem) : Prop := {
  rf_umap : forall i j, idx i -> idx j -> (i, j) <> pg vma -> umap (mem s') P i j = umap (mem s) P i j;
  rf_rd : forall i j e w, idx i -> idx j -> umap (mem s) P i j = Some e -> idx w ->
    rd (mem s') (tab_of e + 8 * w) = rd (mem s) (tab_of e + 8 * w);
  rf_owned : forall p, owned (mem s') P p -> owned (mem s) P p;
  rf_has : forall j, idx j -> has0 (mem s') P j = has0 (mem s) P j /\ upt0 (mem s') P j = upt0 (mem s) P j
}.

(** Changing the flags of the parent's page. *)
Lemma parent_flags x s l vma f e :
  two_spaces s l P C -> user_vma vma -> umap_at (mem s) P vma = Some e ->
  exists s', memory_set_page_flags vma f s = Ok (tt, s') /\ two_spaces s' l P C /\ still C s s' /\
    child_kept x s s' /\ umap_at (mem s') P vma = Some (with_flags (map_flags 0 f) e) /\
    reflagged vma s s' /\ fresh s' l = fresh s l /\ satp s' = satp s.
Proof.
  intros [Hv Hwc Hfc Hd] Hu E.
  destruct (set_page_flags_run s l P vma f e Hv Hu E) as (s' & Er & Hv' & Eu & Eo & Es & Ef & Hk & Ht & Hh).
  assert (Hd' : forall p, owned (mem s) C p -> owned (mem s) P p -> False) by (intros p H1 H2; by apply (Hd p)).
  destruct (kept_other s l s' l P C Hwc Hfc (vm_space _ _ _ Hv') Hk ltac:(by rewrite Ef) Hd') as (Hwc' & Hfc' & Hst).
  assert (Ho : forall p, owned (mem s') P p -> owned (mem s) P p).
  { intros p [Htp|(i & j & e' & Hi & Hj & E' & Ep)]; [left; auto|right].
    destruct (decide ((i, j) = pg vma)) as [Eij|Hne].
    - injection Eij as -> ->. exists (VPN1 vma), (VPN0 vma), e. split_and!; auto with kern.
      unfold umap_at in Eu. rewrite Eu in E'. by injection E' as <-.
    - exists i, j, e'. by rewrite <- Eo. }
  exists s'. split_and!; try done.
  - constructor; try done. intros p Hp Hc. apply (Hd p); [auto|by apply (st_owned _ _ _ Hst)].
  - apply child_kept_still; [done|]. intros i Hi.
    destruct (owned_page s l C C Hwc Hfc (owned_root _ _)) as [HC HCf].
    apply (kp_page _ _ _ _ _ Hk C HC HCf); [|done]. intros HCt. apply (Hd C); [by left|apply owned_root].
  - constructor; try done.
    intros i j e' w Hi Hj E' Hwd. by apply (kept_frames s l s' l P i j e' w); [apply Hv|..].
Qed.

(** Setting flags and setting them back, with the parent left alone between. *)
Lemma reflag_back vma s s1 s2 s3 e f :
  umap_at (mem s) P vma = Some e -> reflagged vma s s1 ->
  umap_at (mem s1) P vma = Some (with_flags f e) -> still P s1 s2 ->
  reflagged vma s2 s3 -> umap_at (mem s3) P vma = Some e -> still P s s3.
Proof.
  intros E R1 E1 S2 R3 E3.
  assert (U : forall i j, idx i -> idx j -> umap (mem s3) P i j = umap (mem s) P i j).
  { intros i j Hi Hj. destruct (decide ((i, j) = pg vma)) as [Eij|Hne].
    - injection Eij as -> ->. unfold umap_at in *. congruence.
    - by rewrite (rf_umap _ _ _ R3), (st_umap _ _ _ S2), (rf_umap _ _ _ R1). }
  assert (H0 : has0 (mem s) P (VPN1 vma) = true) by (by apply umap_at_Some in E as (? & _)).
  assert (H03 : has0 (mem s3) P (VPN1 vma) = true) by (by apply umap_at_Some in E3 as (? & _)).
  assert (K : forall m i, has0 m P i = true -> has1 m P = true) by (intros *; unfold has0; by intros [? _]%andb_prop).
  assert (H1 : has1 (mem s1) P = true) by (apply (K _ (VPN1 vma)); by apply umap_at_Some in E1 as (? & _)).
  constructor; try done.
  - intros p Ho. by apply (rf_owned _ _ _ R1), (st_owned _ _ _ S2), (rf_owned _ _ _ R3).
  - intros i j e' w Hi Hj E' Hw.
    assert (E1' : exists e1, umap (mem s1) P i j = Some e1 /\ tab_of e1 = tab_of e').
    { destruct (decide ((i, j) = pg vma)) as [Eij|Hne].
      - injection Eij as -> ->. exists (with_flags f e). split; [done|].
        unfold umap_at in E. rewrite E in E'. by injection E' as <-.
      - exists e'. by rewrite (rf_umap _ _ _ R1). }
    destruct E1' as (e1 & E1' & Et). rewrite <- Et.
    rewrite (rf_rd _ _ _ R3 i j e1), (st_rd _ _ _ S2 i j e1), Et; try done.
    + by apply (rf_rd _ _ _ R1 i j).
    + by rewrite (st_umap _ _ _ S2).
  - intros i Hi _. destruct (rf_has _ _ _ R3 i Hi) as [_ ->]. rewrite (st_upt0 _ _ _ S2) by done.
    by destruct (rf_has _ _ _ R1 i Hi).
  - intros i Hi. destruct (rf_has _ _ _ R3 i Hi) as [-> _]. rewrite (st_has0 _ _ _ S2) by done.
    by destruct (rf_has _ _ _ R1 i Hi).
  - by rewrite (K _ _ H0), (K _ _ H03).
Qed.

(** Copying words [idxs] of the parent's page [q], seen at [vma], to the child's
    frame [p]. *)
Lemma copy_loop l vma eP eC idxs : forall s,
  two_spaces s l P C -> user_addr vma -> vma mod PAGE_SIZE = 0 ->
  umap_at (mem s) P vma = Some eP -> has (flags eP) PTE_R = true ->
  umap_at (mem s) C vma = Some eC -> Forall idx idxs -> NoDup idxs ->
  exists s', forM idxs (fun i => pa ← vaddr PTE_R "Load page fault" (vma + 8 * i);
                                 w ← load pa; store (tab_of eC + 8 * i) w) s = Ok (tt, s') /\
    two_spaces s' l P C /\ still P s s' /\ child_kept (pg vma) s s' /\
    umap_at (mem s') C vma = Some eC /\ fresh s' l = fresh s l /\ satp s' = satp s /\
    (forall j, idx j -> has0 (mem s') C j = has0 (mem s) C j) /\
    (forall j, idx j -> has1 (mem s) C = true -> upt0 (mem s') C j = upt0 (mem s) C j) /\
    (forall w, w ∈ idxs -> rd (mem s') (tab_of eC + 8 * w) = rd (mem s) (tab_of eP + 8 * w)) /\
    (forall w, idx w -> w ∉ idxs -> rd (mem s') (tab_of eC + 8 * w) = rd (mem s) (tab_of eC + 8 * w)).
Proof.
  induction idxs as [|i idxs IH]; intros s Hts Hu Hal EP HR EC Hidx Hnd.
  { exists s. split_and!; try done. intros w Hw. by apply not_elem_of_nil in Hw. }
  apply Forall_cons in Hidx as [Hi Hidx]. apply NoDup_cons in Hnd as [Hni Hnd].
  pose proof Hts as [Hv Hwc Hfc Hd].
  set (p := tab_of eC). set (q := tab_of eP).
  assert (Hoc : owned (mem s) C p) by (right; exists (VPN1 vma), (VPN0 vma), eC; auto with kern).
  assert (Hoq : owned (mem s) P q) by (right; exists (VPN1 vma), (VPN0 vma), eP; auto with kern).
  destruct (owned_page s l C p Hwc Hfc Hoc) as [Hp Hpf].
  destruct (owned_page s l P q (vm_space _ _ _ Hv) (vm_frames _ _ _ Hv) Hoq) as [Hq _].
  assert (Hpt : ~ is_table (mem s) C p) by (apply (fo_table _ _ _ Hfc (VPN1 vma) (VPN0 vma)); auto with kern).
  assert (HdP : data_page s l P p) by (split_and!; try done; intros Ht; apply (Hd p); [by left|done]).
  assert (HdC : data_page s l C p) by done.
  assert (Hpg : (vma + 8 * i) / PAGE_SIZE = vma / PAGE_SIZE /\ (vma + 8 * i) mod PAGE_SIZE = 8 * i /\
                user_addr (vma + 8 * i)).
  { unfold user_addr, USER_START_VMA, idx, PAGE_SIZE in *. wrap_lia. }
  destruct Hpg as (Epg & Emod & Hu').
  set (w := rd (mem s) (q + 8 * i)). set (s1 := set_mem <[p + 8 * i := w]> s).
  assert (E1 : (pa ← vaddr PTE_R "Load page fault" (vma + 8 * i); w ← load pa; store (p + 8 * i) w) s = Ok (tt, s1)).
  { pose proof (vaddr_run PTE_R "Load page fault" s l P (vma + 8 * i) eP Hv Hu') as Ev.
    rewrite Emod, (same_page_umap _ _ _ _ Epg) in Ev. by rewrite (bind_Ok _ _ _ _ _ (Ev EP HR HR)). }
  destruct (data_store_inv s l P p i w Hv HdP Hi) as [Hv1 _].
  destruct (data_store s l C p i w Hwc HdC Hi) as (Hwc1 & Eu1 & Et1 & Hfc1).
  fold s1 in Hv1, Hwc1, Eu1, Et1, Hfc1.
  assert (Hst1 : still P s s1).
  { apply still_outside. intros pp j Ho Hj. cbn. apply rd_insert_ne. apply slot_ne; try done.
    - by destruct (owned_page s l P pp (vm_space _ _ _ Hv) (vm_frames _ _ _ Hv) Ho).
    - intros <-. by apply (Hd p). }
  assert (Hck1 : child_kept (pg vma) s s1).
  { constructor; [auto| |].
    - intros a b e v Ha Hb Hne E Hvw. cbn. apply rd_insert_ne. apply slot_ne; try done.
      + by apply (fo_page _ _ _ Hfc a b).
      + intros Epq. apply Hne. symmetry. apply (fo_inj _ _ _ Hfc _ _ a b eC e); auto with kern.
    - intros j Hj _. cbn. apply rd_insert_ne. apply slot_ne; try done; [apply Hwc|].
      intros ->. apply Hpt. by left. }
  assert (Hts1 : two_spaces s1 l P C).
  { constructor; auto. intros pp Ho1 Ho2. apply (st_owned _ _ _ Hst1) in Ho1. apply (Hd pp Ho1).
    destruct Ho2 as [Ht|(a & b & e & Ha & Hb & E & Epp)]; [left; by apply Et1|right].
    exists a, b, e. by rewrite <- Eu1. }
  assert (Htab : forall t j, is_table (mem s) C t -> idx j -> rd (mem s1) (t + 8 * j) = rd (mem s) (t + 8 * j)).
  { intros t j Ht Hj. cbn. apply rd_insert_ne. apply slot_ne; try done; [by apply (is_table_page s l C)|].
    intros ->. done. }
  destruct (IH s1) as (s2 & E2 & Hts2 & Hst2 & Hck2 & EC2 & Ef2 & Es2 & Hh2 & Hup2 & Hin2 & Hout2); try done.
  { unfold umap_at. rewrite (st_umap _ _ _ Hst1) by auto with kern. done. }
  { unfold umap_at. rewrite Eu1 by auto with kern. done. }
  exists s2. split_and!; try done.
  - by rewrite (forM_cons _ _ _ _ s1).
  - by eapply still_trans.
  - by eapply child_kept_trans.
  - intros j Hj. rewrite Hh2 by done. by apply (frame_has0 s s1).
  - intros j Hj H1. rewrite Hup2; [by apply (frame_upt0 s s1)|done|]. by rewrite (frame_has1 s s1 C Htab).
  - intros v Hv'. apply elem_of_cons in Hv' as [->|Hin].
    + rewrite Hout2 by done. cbn. by rewrite rd_insert_eq.
    + rewrite Hin2 by done. apply (st_rd _ _ _ Hst1 (VPN1 vma) (VPN0 vma)); auto with kern.
      rewrite Forall_forall in Hidx. auto.
  - intros v Hv' Hnin. apply not_elem_of_cons in Hnin as [Hne Hnin]. rewrite Hout2 by done. cbn.
    apply rd_insert_ne. apply slot_ne'. congruence.
Qed.

(** The flags the child's copy of a page with flags [f] ends up with. *)
Definition clone_flags (f : Z) : Z := map_flags 0 (Z.lor (Z.lor f PTE_W) PTE_R).

Lemma flags_with_map o f e : flags (with_flags (map_flags o f) e) = map_flags o f.
Proof. apply u8_small. unfold map_flags. apply u8_range. Qed.

Lemma indices_idx : Forall idx indices /\ NoDup indices.
Proof.
  split.
  - apply Forall_forall. intros i. unfold indices. rewrite range_elem by lia.
    change PTE_CNT with 512. intros (k & Hk & -> & Hlt). unfold idx. lia.
  - apply range_NoDup. lia.
Qed.
Lemma indices_all w : idx w -> w ∈ indices.
Proof.
  intros Hw. unfold indices. rewrite range_elem by lia. unfold idx in Hw. exists w.
  change PTE_CNT with 512. change (Z.of_nat (Z.to_nat 512)) with 512. lia.
Qed.

Lemma alloc_page_heap s p s1 l : memory_alloc_page s = Ok (p, s1) -> fresh s1 l = fresh s l.
Proof.
  unfold memory_alloc_page. rewrite bind_run. cbn [get obind].
  destruct (free_list s =? 0); [done|]. by intros [= _ <-].
Qed.

(** The page a frame not owned by either space goes to. *)
Lemma take_both s p ps :
  two_spaces s (p :: ps) P C ->
  exists s1, memory_alloc_page s = Ok (p, s1) /\ mem s1 = mem s /\ satp s1 = satp s /\
    main_mtag s1 = main_mtag s /\ two_spaces s1 ps P C /\ page_ok p /\ (p ∉ fresh s1 ps) /\
    ~ owned (mem s) P p /\ ~ owned (mem s) C p /\ length (fresh s (p :: ps)) = S (length (fresh s1 ps)) /\
    fresh s1 ps ⊆ fresh s (p :: ps).
Proof.
  intros [[Ha Hw Hf] Hwc Hfc Hd].
  destruct (take_frame s (p :: ps) P p ps Hw Hf eq_refl) as (s1 & E1 & Em & Es & Hw1 & Hf1 & Hp & Hpf & Hin & Hl & _).
  destruct (take_frame s (p :: ps) C p ps Hwc Hfc eq_refl) as (s1' & E1' & _ & _ & Hwc1 & Hfc1 & _).
  assert (s1' = s1) as -> by congruence. exists s1. split_and!; try done.
  - unfold memory_alloc_page in E1. rewrite bind_run in E1. cbn [get obind] in E1.
    destruct (free_list s =? 0); [done|]. by injection E1 as _ <-.
  - constructor; try done; [constructor; try done; congruence|]. rewrite Em. exact Hd.
  - intros Ho. by destruct (owned_page s _ P p Hw Hf Ho).
  - intros Ho. by destruct (owned_page s _ C p Hwc Hfc Ho).
  - rewrite (alloc_page_heap _ _ _ _ E1). intros x. unfold fresh. rewrite !elem_of_app, elem_of_cons. tauto.
Qed.

Lemma pte_has1 m r i : has0 m r i = true -> has1 m r = true.
Proof. unfold has0. by intros [? _]%andb_prop. Qed.

(** The leaf entries of an address are at different places in the two spaces. *)
Lemma leaf_slots_ne s l i1 i0 :
  two_spaces s l P C -> idx i1 -> idx i0 -> has0 (mem s) C i1 = true -> has0 (mem s) P i1 = true ->
  upt0 (mem s) C i1 + 8 * i0 <> upt0 (mem s) P i1 + 8 * i0.
Proof.
  intros [Hv Hwc Hfc Hd] Hi1 Hi0 H0 H0P. apply slot_ne; try done.
  - by apply (sw_pt0 _ _ _ Hwc).
  - by apply (sw_pt0 _ _ _ (vm_space _ _ _ Hv)).
  - intros Eq. apply (Hd (upt0 (mem s) P i1)); [|rewrite <- Eq]; left; right; right; by exists i1.
Qed.

(** The entry the child gets first, for the frame [p]. *)
Definition attached (s : kmem) (vma p f : Z) : pte :=
  with_flags f (with_ppn (pageptr_to_pagenum p) (ent (mem s) (upt0 (mem s) C (VPN1 vma) + 8 * VPN0 vma))).

(** Taking a frame and entering it in the child's table. *)
Lemma child_attach s p ps vma f :
  two_spaces s (p :: ps) P C -> has0 (mem s) C (VPN1 vma) = true -> Z.odd f = true ->
  exists s1, memory_alloc_page s = Ok (p, s1) /\ mem s1 = mem s /\ satp s1 = satp s /\
    length (fresh s (p :: ps)) = S (length (fresh s1 ps)) /\ fresh s1 ps ⊆ fresh s (p :: ps) /\
    ~ owned (mem s) C p /\ page_ok p /\
    let e1 := attached s vma p f in
    let s3 := set_mem <[upt0 (mem s) C (VPN1 vma) + 8 * VPN0 vma := pte_encode e1]> s1 in
    pte_wf e1 /\ tab_of e1 = p /\ two_spaces s3 ps P C /\ still P s s3 /\ child_kept (pg vma) s s3 /\
    umap_at (mem s3) C vma = Some e1 /\
    (forall j, idx j -> has0 (mem s3) C j = has0 (mem s) C j /\ upt0 (mem s3) C j = upt0 (mem s) C j).
Proof.
  intros Hts H0 Hodd.
  destruct (take_both s p ps Hts) as (s1 & E1 & Em1 & Es1 & _ & Hts1 & Hp & Hpf & HpP & HpC & Hl1 & Hsub1).
  exists s1. split_and!; try done. set (e1 := attached s vma p f). cbn zeta.
  assert (Hwf : pte_wf e1) by (unfold e1, attached, ent; auto with kern).
  assert (Hpe : tab_of e1 = p) by (by apply page_ptr_roundtrip).
  assert (Hv1 : valid e1 = true) by (unfold valid, e1, attached; cbn [flags with_flags]; by rewrite has_V, odd_u8).
  destruct (child_leaf s1 ps (VPN1 vma) (VPN0 vma) p e1 Hts1) as (Hts3 & St3 & Ck3 & Eu3 & Hh3);
    try (rewrite ?Em1; auto with kern; fail).
  { intros Ht. apply HpC. left. by rewrite <- Em1. }
  { intros i j e' Hi Hj E' _ Ep. apply HpC. right. exists i, j, e'. by rewrite <- Em1. }
  rewrite Em1 in *. split_and!; try done.
  - eapply still_trans; [by apply still_mem|done].
  - eapply child_kept_trans; [|exact Ck3]. constructor; rewrite Em1; done.
Qed.

(** Changing the flags of the child's page. *)
Lemma child_reflag s l vma e f :
  two_spaces s l P C -> umap_at (mem s) C vma = Some e -> Z.odd f = true ->
  let s' := set_mem <[upt0 (mem s) C (VPN1 vma) + 8 * VPN0 vma := pte_encode (with_flags f e)]> s in
  two_spaces s' l P C /\ still P s s' /\ child_kept (pg vma) s s' /\
  umap_at (mem s') C vma = Some (with_flags f e) /\
  (forall j, idx j -> has0 (mem s') C j = has0 (mem s) C j) /\
  (forall w, idx w -> rd (mem s') (tab_of e + 8 * w) = rd (mem s) (tab_of e + 8 * w)).
Proof.
  intros Hts E Hodd s'. pose proof Hts as [Hv Hwc Hfc Hd].
  pose proof (umap_at_Some _ _ _ _ E) as (H0 & _ & Ee).
  assert (Ho : owned (mem s) C (tab_of e)) by (right; exists (VPN1 vma), (VPN0 vma), e; auto with kern).
  destruct (owned_page s l C _ Hwc Hfc Ho) as [Hp Hpf].
  assert (Hnt : ~ is_table (mem s) C (tab_of e))
    by (apply (fo_table _ _ _ Hfc (VPN1 vma) (VPN0 vma)); auto with kern).
  destruct (child_leaf s l (VPN1 vma) (VPN0 vma) (tab_of e) (with_flags f e) Hts)
    as (Hts' & St & Ck & Eu & Hh); auto with kern.
  { rewrite <- Ee. unfold ent. auto with kern. }
  { unfold valid. cbn [flags with_flags]. by rewrite has_V, odd_u8. }
  { intros HoP. by apply (Hd (tab_of e)). }
  { intros i j e' Hi Hj E' Hne Ep. apply Hne.
    apply (fo_inj _ _ _ Hfc i j _ _ e' e); auto with kern. }
  split_and!; try done; [intros j Hj; by apply Hh|].
  intros w Hw. apply rd_insert_ne. apply slot_ne; auto with kern.
  - by apply (sw_pt0 _ _ _ Hwc); auto with kern.
  - intros Eq. apply Hnt. rewrite <- Eq. right; right. exists (VPN1 vma). auto with kern.
Qed.

Lemma with_flags_back e f : map_flags 0 (flags e) = flags e -> with_flags (flags e) (with_flags f e) = e.
Proof.
  intros H. unfold with_flags. cbn. rewrite u8_small by (rewrite <- H; apply u8_range). by destruct e.
Qed.

(** How the steps are put together. *)
Lemma clone_mapped_seq s s1 s4 s5 s7 ac ap vma p e :
  let f1 := Z.lor (Z.lor (flags e) PTE_W) PTE_R in
  let e1 := with_flags f1 (with_ppn (pageptr_to_pagenum p) (ent (mem s) ac)) in
  let e4 := with_flags (map_flags 0 f1) e in
  memory_alloc_page s = Ok (p, s1) -> mem s1 = mem s -> ac <> ap -> ent (mem s) ap = e ->
  memory_set_page_flags vma f1 (set_mem <[ac := pte_encode e1]> s1) = Ok (tt, s4) ->
  ent (mem s4) ac = e1 -> copy_page (tab_of e1) vma s4 = Ok (tt, s5) ->
  ent (mem s5) ap = e4 -> ent (mem s5) ac = e1 ->
  memory_set_page_flags vma (flags e) (set_mem <[ac := pte_encode (with_flags (flags e4) e1)]> s5) = Ok (tt, s7) ->
  clone_mapped ac ap vma (flags e) s = Ok (tt, s7).
Proof.
  intros f1 e1 e4 E1 Em1 Hne EeP E4 L2 E5 L3 L4 E7. unfold clone_mapped. rewrite (bind_Ok _ _ _ _ _ E1).
  rewrite (bind_Ok _ _ _ _ _ (run_load_pte ac s1)), (bind_Ok _ _ _ _ _ (run_store_pte ac _ s1)), Em1.
  rewrite (bind_Ok _ _ _ _ _ (run_load_pte ap _)), (bind_Ok _ _ _ _ _ (run_load_pte ac _)).
  cbn [mem set_mem]. rewrite Em1, ent_insert_ne, EeP, ent_insert_eq by (done || (unfold ent; auto with kern)).
  rewrite (bind_Ok _ _ _ _ _ (run_store_pte ac _ _)), insert_twice. fold f1 e1.
  rewrite (bind_Ok _ _ _ _ _ E4), (bind_Ok _ _ _ _ _ (run_load_pte ac s4)), L2.
  change (pagenum_to_pageptr (ppn e1)) with (tab_of e1). rewrite (bind_Ok _ _ _ _ _ E5).
  rewrite (bind_Ok _ _ _ _ _ (run_load_pte ap s5)), (bind_Ok _ _ _ _ _ (run_load_pte ac s5)), L3, L4.
  by rewrite (bind_Ok _ _ _ _ _ (run_store_pte ac _ s5)).
Qed.

(** The mapped case of a page's copy. *)
Lemma clone_mapped_run s p ps vma e :
  two_spaces s (p :: ps) P C -> user_addr vma -> vma mod PAGE_SIZE = 0 ->
  umap_at (mem s) P vma = Some e -> map_flags 0 (flags e) = flags e ->
  has0 (mem s) C (VPN1 vma) = true ->
  exists s' e', clone_mapped (upt0 (mem s) C (VPN1 vma) + 8 * VPN0 vma)
      (upt0 (mem s) P (VPN1 vma) + 8 * VPN0 vma) vma (flags e) s = Ok (tt, s') /\
    two_spaces s' ps P C /\ still P s s' /\ child_kept (pg vma) s s' /\
    umap_at (mem s') C vma = Some e' /\ flags e' = clone_flags (flags e) /\
    (forall w, idx w -> rd (mem s') (tab_of e' + 8 * w) = rd (mem s) (tab_of e + 8 * w)) /\
    satp s' = satp s /\ length (fresh s (p :: ps)) = S (length (fresh s' ps)) /\
    (forall j, idx j -> has0 (mem s') C j = has0 (mem s) C j) /\ fresh s' ps ⊆ fresh s (p :: ps).
Proof.
  intros Hts Hu Hal E Hfl H0.
  assert (Hi1 : idx (VPN1 vma)) by apply VPN1_idx. assert (Hi0 : idx (VPN0 vma)) by apply VPN0_idx.
  pose proof (umap_at_Some _ _ _ _ E) as (H0P & HvP & EeP).
  pose proof (leaf_slots_ne s (p :: ps) _ _ Hts Hi1 Hi0 H0 H0P) as Hac.
  set (f1 := Z.lor (Z.lor (flags e) PTE_W) PTE_R).
  assert (Hodd : Z.odd f1 = true).
  { unfold f1. rewrite <- Z.bit0_odd, !Z.lor_spec, Z.bit0_odd. unfold valid in HvP. by rewrite <- has_V, HvP. }
  (* the child's entry, the parent readable and writable *)
  destruct (child_attach s p ps vma f1 Hts H0 Hodd) as
    (s1 & E1 & Em1 & Es1 & Hl1 & Hsub1 & HpC & Hp & Hwf1 & Hpe1 & Hts3 & St3 & Ck3 & EC3 & Hh3).
  set (e1 := attached s vma p f1) in *. set (ac := upt0 (mem s) C (VPN1 vma) + 8 * VPN0 vma) in *.
  set (ap := upt0 (mem s) P (VPN1 vma) + 8 * VPN0 vma) in *.
  set (s3 := set_mem <[ac := pte_encode e1]> s1) in *.
  assert (E3 : umap_at (mem s3) P vma = Some e) by (unfold umap_at; by rewrite (st_umap _ _ _ St3)).
  destruct (parent_flags (pg vma) s3 ps vma f1 e Hts3 (user_addr_vma _ Hu) E3)
    as (s4 & E4 & Hts4 & StC4 & Ck4 & EP4 & R4 & Ef4 & Es4).
  set (e4 := with_flags (map_flags 0 f1) e) in *.
  assert (Hf4 : flags e4 = clone_flags (flags e)) by apply flags_with_map.
  assert (EC4 : umap_at (mem s4) C vma = Some e1) by (unfold umap_at; by rewrite (st_umap _ _ _ StC4)).
  destruct (Hh3 _ Hi1) as [H03 A3]. rewrite H0 in H03.
  assert (A4 : upt0 (mem s4) C (VPN1 vma) = upt0 (mem s) C (VPN1 vma)).
  { by rewrite (st_upt0 _ _ _ StC4) by (done || by eapply pte_has1). }
  assert (B4 : upt0 (mem s4) P (VPN1 vma) = upt0 (mem s) P (VPN1 vma)).
  { destruct (rf_has _ _ _ R4 _ Hi1) as [_ ->]. by rewrite (st_upt0 _ _ _ St3) by (done || by eapply pte_has1). }
  (* the copy *)
  destruct (copy_loop ps vma e4 e1 indices s4 Hts4 Hu Hal EP4) as
    (s5 & E5 & Hts5 & St5 & Ck5 & EC5 & Ef5 & Es5 & Hh5 & Hup5 & Hcp & _); try done; try apply indices_idx.
  { rewrite Hf4. unfold clone_flags, PTE_R. rewrite map_flags_bit by lia.
    rewrite Z.lor_spec. change (Z.testbit (Z.shiftl 1 1) 1) with true. by rewrite !orb_true_r. }
  assert (EP5 : umap_at (mem s5) P vma = Some e4) by (unfold umap_at; by rewrite (st_umap _ _ _ St5)).
  assert (A5 : upt0 (mem s5) C (VPN1 vma) = upt0 (mem s) C (VPN1 vma)).
  { rewrite Hup5; [done|done|]. apply umap_at_Some in EC4 as (? & _). by eapply pte_has1. }
  assert (B5 : upt0 (mem s5) P (VPN1 vma) = upt0 (mem s) P (VPN1 vma)).
  { rewrite (st_upt0 _ _ _ St5); [done|done|]. apply umap_at_Some in EP4 as (? & _). by eapply pte_has1. }
  (* the child's final flags, the parent's flags back *)
  destruct (child_reflag s5 ps vma e1 (flags e4) Hts5 EC5) as (Hts6 & St6 & Ck6 & EC6 & Hh6 & Hrd6).
  { rewrite Hf4, <- has_V. apply has_V_lor. }
  rewrite A5 in Hts6, St6, Ck6, EC6, Hh6, Hrd6. fold ac in Hts6, St6, Ck6, EC6, Hh6, Hrd6.
  set (e2 := with_flags (flags e4) e1) in *. set (s6 := set_mem <[ac := pte_encode e2]> s5) in *.
  assert (EP6 : umap_at (mem s6) P vma = Some e4) by (unfold umap_at; by rewrite (st_umap _ _ _ St6)).
  destruct (parent_flags (pg vma) s6 ps vma (flags e) e4 Hts6 (user_addr_vma _ Hu) EP6)
    as (s7 & E7 & Hts7 & StC7 & Ck7 & EP7 & R7 & Ef7 & Es7).
  rewrite Hfl in EP7. unfold e4 in EP7. rewrite (with_flags_back e (map_flags 0 f1) Hfl) in EP7.
  exists s7, e2. split_and!; try done.
  - pose proof (umap_at_Some _ _ _ _ EC4) as (_ & _ & L2). rewrite A4 in L2.
    pose proof (umap_at_Some _ _ _ _ EP5) as (_ & _ & L3). rewrite B5 in L3.
    pose proof (umap_at_Some _ _ _ _ EC5) as (_ & _ & L4). rewrite A5 in L4.
    by apply (clone_mapped_seq s s1 s4 s5 s7 ac ap vma p e).
  - eapply still_trans; [exact St3|].
    apply (reflag_back vma s3 s4 s6 s7 e (map_flags 0 f1)); try done. by eapply still_trans.
  - do 3 (eapply child_kept_trans; [eassumption|]). eapply child_kept_trans; eassumption.
  - unfold umap_at. by rewrite (st_umap _ _ _ StC7).
  - cbn [flags e2 with_flags]. rewrite Hf4. apply u8_small. unfold clone_flags, map_flags. apply u8_range.
  - intros w Hw. pose proof (st_rd _ _ _ StC7 _ _ e2 w Hi1 Hi0 EC6 Hw) as X.
    change (tab_of e2) with (tab_of e1) in X |- *. rewrite X, Hrd6, Hcp by (done || by apply indices_all).
    change (tab_of e4) with (tab_of e).
    rewrite (rf_rd _ _ _ R4 (VPN1 vma) (VPN0 vma) e w) by done. by apply (st_rd _ _ _ St3 (VPN1 vma) (VPN0 vma)).
  - rewrite Es7. change (satp s6) with (satp s5). rewrite Es5, Es4. exact Es1.
  - rewrite Hl1, Ef7. change (fresh s6 ps) with (fresh s5 ps). by rewrite Ef5, Ef4.
  - intros j Hj. rewrite (st_has0 _ _ _ StC7), Hh6, Hh5, (st_has0 _ _ _ StC4) by done. by apply Hh3.
  - rewrite Ef7. change (fresh s6 ps) with (fresh s5 ps). by rewrite Ef5, Ef4.
Qed.

(** ** A page *)

(** What the loop relies on in the parent: it has a level-1 table; its level-0
    tables lie in RAM, and what an unused level-1 entry would lead to does not,
    which is how the loop tells them apart; and its flags are as the kernel sets
    them, with A, D and V. *)
Record parent_ok (s : kmem) : Prop := {
  po_has1 : has1 (mem s) P = true;
  po_ram : forall i, idx i -> has0 (mem s) P i = true ->
    RAM_START <= upt0 (mem s) P i /\ upt0 (mem s) P i + PAGE_SIZE <= RAM_END;
  po_gap : forall i j, idx i -> idx j -> has0 (mem s) P i = false ->
    ~ (RAM_START <= upt0 (mem s) P i + 8 * j <= RAM_END);
  po_flags : forall i j e, idx i -> idx j -> umap (mem s) P i j = Some e ->
    map_flags 0 (flags e) = flags e
}.

Lemma parent_ok_still s s' : parent_ok s -> still P s s' -> parent_ok s'.
Proof.
  intros [H1 Hr Hg Hf] Hs. constructor.
  - by rewrite (st_has1 _ _ _ Hs).
  - intros i Hi. rewrite (st_has0 _ _ _ Hs), (st_upt0 _ _ _ Hs) by done. by apply Hr.
  - intros i j Hi Hj. rewrite (st_has0 _ _ _ Hs), (st_upt0 _ _ _ Hs) by done. by apply Hg.
  - intros i j e Hi Hj. rewrite (st_umap _ _ _ Hs) by done. by apply Hf.
Qed.

Lemma walk_level_look slot s : walk_level slot 0 s = Ok (tab_of (ent (mem s) slot), s).
Proof. done. Qed.

Lemma walk_look s vma :
  user_vma vma -> walk_pt P vma 0 s = Ok (upt0 (mem s) P (VPN1 vma) + 8 * VPN0 vma, s).
Proof.
  intros Hu. unfold walk_pt. rewrite Hu. change (P + 8 * USER_VPN2) with (uslot P).
  rewrite (bind_Ok _ _ _ _ _ (walk_level_look _ s)). fold (upt1 (mem s) P).
  by rewrite (bind_Ok _ _ _ _ _ (walk_level_look _ s)).
Qed.

(** The test of the loop finds exactly the mapped pages. *)
Lemma clone_test s l vma :
  vm_inv s l P -> parent_ok s ->
  let a := upt0 (mem s) P (VPN1 vma) + 8 * VPN0 vma in
  (a <=? RAM_END) && (RAM_START <=? a) && has (flags (ent (mem s) a)) PTE_V && negb (ppn (ent (mem s) a) =? 0)
  = bool_decide (is_Some (umap_at (mem s) P vma)).
Proof.
  intros Hv [H1 Hr Hg _] a. unfold umap_at, umap. destruct (has0 (mem s) P (VPN1 vma)) eqn:H0.
  - destruct (Hr (VPN1 vma) (VPN1_idx _) H0) as [Hlo Hhi]. pose proof (VPN0_idx vma) as Hi0.
    rewrite (proj2 (Z.leb_le _ _)), (proj2 (Z.leb_le _ _)) by (unfold a, idx, PAGE_SIZE in *; lia).
    cbn [andb]. fold a. cbn zeta. change (has (flags (ent (mem s) a)) PTE_V) with (valid (ent (mem s) a)).
    destruct (valid (ent (mem s) a)) eqn:Hva; [|done]. cbn [andb].
    rewrite bool_decide_eq_true_2 by (by eexists).
    assert (Hp : page_ok (tab_of (ent (mem s) a))).
    { apply (fo_page _ _ _ (vm_frames _ _ _ Hv) (VPN1 vma) (VPN0 vma)); auto with kern.
      unfold umap. rewrite H0. fold a. cbn zeta. by rewrite Hva. }
    destruct (Z.eqb_spec (ppn (ent (mem s) a)) 0) as [E|]; [|done].
    destruct Hp as (_ & Hp & _). unfold tab_of in Hp. rewrite E in Hp. vm_compute in Hp. discriminate Hp.
  - specialize (Hg (VPN1 vma) (VPN0 vma) (VPN1_idx _) (VPN0_idx _) H0). fold a in Hg.
    destruct (Z.leb_spec a RAM_END), (Z.leb_spec RAM_START a); try done. lia.
Qed.

(** The child's page is a copy of the parent's: the same contents in a frame of
    its own, the same flags with R and W added. *)
Definition copied (s s' : kmem) (vma : Z) : Prop :=
  match umap_at (mem s) P vma with
  | Some e => exists e', umap_at (mem s') C vma = Some e' /\ flags e' = clone_flags (flags e) /\
      forall w, idx w -> rd (mem s') (tab_of e' + 8 * w) = rd (mem s) (tab_of e + 8 * w)
  | None => umap_at (mem s') C vma = None
  end.

Lemma clone_page_run s l vma :
  two_spaces s l P C -> parent_ok s -> user_addr vma -> vma mod PAGE_SIZE = 0 ->
  umap_at (mem s) C vma = None ->
  let cost := (Nat.b2n (negb (has1 (mem s) C)) + Nat.b2n (negb (has0 (mem s) C (VPN1 vma)))
               + Nat.b2n (bool_decide (is_Some (umap_at (mem s) P vma))))%nat in
  (cost + 2 <= length (fresh s l))%nat ->
  exists s' l', clone_page C vma s = Ok (tt, s') /\ two_spaces s' l' P C /\ still P s s' /\
    child_kept (pg vma) s s' /\ copied s s' vma /\ satp s' = satp s /\
    (length (fresh s l) <= length (fresh s' l') + cost)%nat /\
    has0 (mem s') C (VPN1 vma) = true /\
    (forall j, idx j -> j <> VPN1 vma -> has0 (mem s') C j = has0 (mem s) C j) /\
    fresh s' l' ⊆ fresh s l.
Proof.
  intros Hts Hpo Hu Hal Hnone cost Hroom.
  destruct (walk_child (pg vma) s l vma Hts) as
    (s1 & l1 & E1 & Hts1 & H0 & St1 & Ck1 & Eu1 & Es1 & _ & Hl1 & Hh1 & Sub1); [lia|by apply user_addr_vma|].
  pose proof (parent_ok_still _ _ Hpo St1) as Hpo1.
  assert (EuP : umap_at (mem s1) P vma = umap_at (mem s) P vma) by (apply (st_umap _ _ _ St1); auto with kern).
  assert (Run : clone_page C vma s
    = (if bool_decide (is_Some (umap_at (mem s) P vma))
       then clone_mapped (upt0 (mem s1) C (VPN1 vma) + 8 * VPN0 vma) (upt0 (mem s1) P (VPN1 vma) + 8 * VPN0 vma)
              vma (flags (ent (mem s1) (upt0 (mem s1) P (VPN1 vma) + 8 * VPN0 vma)))
       else mret tt) s1).
  { unfold clone_page. rewrite (bind_Ok _ _ _ _ _ E1).
    rewrite (bind_Ok _ _ _ _ _ (run_active_root s1 P (vm_active _ _ _ (ts_vm _ _ _ _ Hts1)))).
    rewrite (bind_Ok _ _ _ _ _ (walk_look s1 vma (user_addr_vma _ Hu))).
    rewrite (bind_Ok _ _ _ _ _ (run_load_pte _ s1)).
    by rewrite (clone_test s1 l1 vma (ts_vm _ _ _ _ Hts1) Hpo1), EuP. }
  destruct (umap_at (mem s) P vma) as [e|] eqn:E.
  - rewrite bool_decide_eq_true_2 in Run by (by eexists). unfold cost in *.
    rewrite bool_decide_eq_true_2 in Hroom |- * by (by eexists).
    pose proof (umap_at_Some _ _ _ _ EuP) as (_ & _ & Ee). rewrite Ee in Run.
    destruct l1 as [|p ps]; [pose proof (fresh_length s1 []); cbn in *; lia|].
    destruct (clone_mapped_run s1 p ps vma e Hts1 Hu Hal EuP) as
      (s2 & e' & E2 & Hts2 & St2 & Ck2 & EC2 & Hf2 & Hc2 & Es2 & Hl2 & Hh2 & Sub2); try done.
    { by apply (po_flags _ Hpo1 (VPN1 vma) (VPN0 vma)); auto with kern. }
    exists s2, ps. split_and!; try done.
    + by rewrite Run.
    + by eapply still_trans.
    + by eapply child_kept_trans.
    + unfold copied. rewrite E. exists e'. split_and!; try done. intros w Hw. rewrite Hc2 by done.
      apply (st_rd _ _ _ St1 (VPN1 vma) (VPN0 vma)); auto with kern.
    + congruence.
    + cbn [Nat.b2n] in *. lia.
    + by rewrite Hh2 by auto with kern.
    + intros j Hj Hne. by rewrite Hh2, Hh1.
    + by etrans.
  - exists s1, l1. rewrite bool_decide_eq_false_2 in Run by (by intros [??]). unfold cost in *.
    split_and!; try done.
    + unfold copied. rewrite E. unfold umap_at. rewrite Eu1 by auto with kern. done.
    + lia.
Qed.

(** ** The loop *)

(** The tables the child still lacks: the level-1 table, and the level-0 tables of
    the 128 megapages of the user region. *)
Definition lacks (m : gmap Z Z) (i : Z) : nat := Nat.b2n (negb (has0 m C i)).
Definition missing (m : gmap Z Z) : nat :=
  (Nat.b2n (negb (has1 m C)) + sum_list (lacks m <$> seqZ 0 128))%nat.

Lemma sum_flip (f f' : Z -> nat) x l :
  NoDup l -> x ∈ l -> (forall y, y ∈ l -> y <> x -> f' y = f y) -> f' x = 0%nat ->
  (sum_list (f' <$> l) + f x = sum_list (f <$> l))%nat.
Proof.
  intros Hnd Hin Hf Hx. induction Hnd as [|y l Hni Hnd IH]; [by apply not_elem_of_nil in Hin|].
  rewrite !fmap_cons. cbn [sum_list fst]. destruct (decide (y = x)) as [->|Hne].
  - assert (E : f' <$> l = f <$> l).
    { apply list_fmap_ext. intros i y Hy. apply Hf; [right; by eapply list_elem_of_lookup_2|].
      intros ->. by apply Hni, list_elem_of_lookup_2 with i. }
    cbn. rewrite E, Hx. lia.
  - apply elem_of_cons in Hin as [->|Hin]; [done|].
    assert (IH' := IH Hin ltac:(intros; apply Hf; [by right|done])). cbn.
    rewrite (Hf y) by (done || by left). lia.
Qed.

Lemma missing_step m m' i1 :
  0 <= i1 < 128 -> (forall j, idx j -> j <> i1 -> has0 m' C j = has0 m C j) -> has0 m' C i1 = true ->
  (missing m' + (Nat.b2n (negb (has1 m C)) + Nat.b2n (negb (has0 m C i1))) = missing m)%nat.
Proof.
  intros Hi Ho H0. unfold missing.
  assert (H1 : has1 m' C = true) by (unfold has0 in H0; by apply andb_prop in H0 as [? _]).
  rewrite H1. pose proof (sum_flip (lacks m) (lacks m') i1 (seqZ 0 128)) as S.
  change (Nat.b2n (negb (has0 m C i1))) with (lacks m i1).
  rewrite <- S; [cbn [negb Nat.b2n]; lia|apply NoDup_seqZ|apply elem_of_seqZ; lia| |].
  - intros y Hy Hne. apply elem_of_seqZ in Hy. unfold lacks. rewrite Ho; [done|unfold idx; lia|done].
  - unfold lacks. by rewrite H0.
Qed.

Lemma missing_ge m i1 :
  0 <= i1 < 128 -> (Nat.b2n (negb (has1 m C)) + Nat.b2n (negb (has0 m C i1)) <= missing m)%nat.
Proof.
  intros Hi. unfold missing. fold (lacks m i1).
  rewrite <- (sum_flip (lacks m) (fun y => if decide (y = i1) then 0%nat else lacks m y) i1 (seqZ 0 128));
    [lia|apply NoDup_seqZ|apply elem_of_seqZ; lia| |].
  - intros y _ Hne. by destruct (decide (y = i1)).
  - by destruct (decide (i1 = i1)).
Qed.

Definition page_addr (v : Z) : Prop :=
  USER_START_VMA <= v < USER_END_VMA /\ v mod PAGE_SIZE = 0.

Lemma page_addr_user v : page_addr v -> user_addr v /\ 0 <= VPN1 v < 128.
Proof.
  unfold page_addr, user_addr, USER_START_VMA, USER_END_VMA. intros [H _]. split; [lia|].
  rewrite VPN1_spec. wrap_lia.
Qed.

Definition mapped_count (s : kmem) (vmas : list Z) : nat :=
  sum_list ((fun v => Nat.b2n (bool_decide (is_Some (umap_at (mem s) P v)))) <$> vmas).

Lemma mapped_count_cons s v vmas :
  mapped_count s (v :: vmas)
  = (Nat.b2n (bool_decide (is_Some (umap_at (mem s) P v))) + mapped_count s vmas)%nat.
Proof. done. Qed.

Lemma mapped_count_still s s' vmas : still P s s' -> mapped_count s' vmas = mapped_count s vmas.
Proof.
  intros Hs. unfold mapped_count. f_equal. apply list_fmap_ext. intros i v _.
  unfold umap_at. by rewrite (st_umap _ _ _ Hs) by auto with kern.
Qed.

Lemma copied_before s s1 s2 v : still P s s1 -> copied s1 s2 v -> copied s s2 v.
Proof.
  intros Hs. unfold copied. unfold umap_at at 1 4. rewrite (st_umap _ _ _ Hs) by auto with kern.
  fold (umap_at (mem s) P v). destruct (umap_at (mem s) P v) as [e|] eqn:E; [|done].
  intros (e' & E' & Hf & Hw). exists e'. split_and!; try done. intros w Hi. rewrite Hw by done.
  apply (st_rd _ _ _ Hs (VPN1 v) (VPN0 v)); auto with kern.
Qed.

(** The pages of the child that are not in [vmas], and the kernel's entries, are
    as they were. *)
Record others_kept (vmas : list Z) (s s' : kmem) : Prop := {
  ok_umap : forall i j, idx i -> idx j -> (forall v, v ∈ vmas -> (i, j) <> pg v) ->
    umap (mem s') C i j = umap (mem s) C i j;
  ok_rd : forall i j e w, idx i -> idx j -> (forall v, v ∈ vmas -> (i, j) <> pg v) ->
    umap (mem s) C i j = Some e -> idx w -> rd (mem s') (tab_of e + 8 * w) = rd (mem s) (tab_of e + 8 * w);
  ok_root : forall i, idx i -> i <> USER_VPN2 -> rd (mem s') (C + 8 * i) = rd (mem s) (C + 8 * i)
}.

Lemma others_kept_cons v vmas s s1 s2 :
  child_kept (pg v) s s1 -> others_kept vmas s1 s2 -> others_kept (v :: vmas) s s2.
Proof.
  intros H1 H2.
  assert (Hs : forall x, (forall u, u ∈ v :: vmas -> x <> pg u) -> x <> pg v /\ (forall u, u ∈ vmas -> x <> pg u))
    by (intros x Hx; split; [apply Hx; by left|intros u Hu; apply Hx; by right]).
  constructor.
  - intros i j Hi Hj [Hv Hvs]%Hs. by rewrite (ok_umap _ _ _ H2), (ck_umap _ _ _ H1).
  - intros i j e w Hi Hj [Hv Hvs]%Hs E Hw. rewrite (ok_rd _ _ _ H2 i j e w), (ck_rd _ _ _ H1 i j e w); try done.
    by rewrite (ck_umap _ _ _ H1).
  - intros i Hi Hne. by rewrite (ok_root _ _ _ H2), (ck_root _ _ _ H1).
Qed.

(** A copied page stays copied while other pages are. *)
Lemma copied_after s s1 s2 v vmas :
  others_kept vmas s1 s2 -> (forall u, u ∈ vmas -> pg v <> pg u) -> copied s s1 v -> copied s s2 v.
Proof.
  intros Ho Hne. unfold copied, umap_at. rewrite (ok_umap _ _ _ Ho (VPN1 v) (VPN0 v)) by auto with kern.
  case_match; [|done]. intros (e' & E' & Hf & Hw). exists e'. split_and!; try done.
  intros w Hi. rewrite (ok_rd _ _ _ Ho (VPN1 v) (VPN0 v)) by auto with kern. auto.
Qed.

Lemma clone_loop vmas : forall s l,
  two_spaces s l P C -> parent_ok s -> Forall page_addr vmas -> NoDup (pg <$> vmas) ->
  (forall v, v ∈ vmas -> umap_at (mem s) C v = None) ->
  (missing (mem s) + mapped_count s vmas + 2 <= length (fresh s l))%nat ->
  exists s' l', forM vmas (clone_page C) s = Ok (tt, s') /\ two_spaces s' l' P C /\ still P s s' /\
    others_kept vmas s s' /\ (forall v, v ∈ vmas -> copied s s' v) /\ satp s' = satp s /\
    fresh s' l' ⊆ fresh s l /\
    (length (fresh s l) <= length (fresh s' l') + missing (mem s) + mapped_count s vmas)%nat.
Proof.
  induction vmas as [|v vmas IH]; intros s l Hts Hpo Hpa Hnd Hnone Hroom.
  { exists s, l. split_and!; try done; [|lia]. intros v Hv. by apply not_elem_of_nil in Hv. }
  apply Forall_cons in Hpa as [Hv Hpa]. rewrite fmap_cons in Hnd. apply NoDup_cons in Hnd as [Hni Hnd].
  destruct (page_addr_user v Hv) as [Hu Hi1].
  assert (Hfar : forall u, u ∈ vmas -> pg v <> pg u).
  { intros u Hin E. apply Hni. rewrite E. by apply list_elem_of_fmap_2. }
  rewrite mapped_count_cons in Hroom. pose proof (missing_ge (mem s) (VPN1 v) Hi1) as Hge.
  destruct (clone_page_run s l v Hts Hpo Hu) as (s1 & l1 & E1 & Hts1 & St1 & Ck1 & Hc1 & Es1 & Hl1 & H01 & Hh1 & Sub1).
  { apply Hv. }
  { apply Hnone. by left. }
  { lia. }
  pose proof (missing_step (mem s) (mem s1) (VPN1 v) Hi1 Hh1 H01) as Hms.
  destruct (IH s1 l1) as (s2 & l2 & E2 & Hts2 & St2 & Ok2 & Hc2 & Es2 & Sub2 & Len2); try done.
  { by eapply parent_ok_still. }
  { intros u Hin. unfold umap_at. rewrite (ck_umap _ _ _ Ck1) by (auto with kern; intros E; by apply (Hfar u)).
    apply Hnone. by right. }
  { rewrite (mapped_count_still s s1) by done. lia. }
  exists s2, l2. split_and!; try done.
  - by rewrite (forM_cons _ _ _ _ s1).
  - by eapply still_trans.
  - by eapply others_kept_cons.
  - intros u Hin. apply elem_of_cons in Hin as [->|Hin].
    + by eapply copied_after.
    + eapply copied_before; [exact St1|auto].
  - congruence.
  - by etrans.
  - rewrite mapped_count_cons. rewrite (mapped_count_still s s1) in Len2 by done. lia.
Qed.
End Steps.

(** ** The new root *)

(** A page that nothing owns, with no user entry, is the root of an empty space. *)
Lemma empty_space s l P C :
  space_wf s l P -> page_ok C -> C ∉ fresh s l -> has1 (mem s) C = false ->
  space_wf s l C /\ frames_ok s l C /\ (forall p, owned (mem s) C p -> p = C).
Proof.
  intros Hw Hp Hn H1.
  assert (H0 : forall i, has0 (mem s) C i = false) by (intros; unfold has0; by rewrite H1).
  assert (Hu : forall i j, umap (mem s) C i j = None) by (intros; unfold umap; by rewrite H0).
  split_and!.
  - destruct Hw. constructor; try done; rewrite ?H1; intros *; rewrite ?H0; done.
  - constructor; intros *; rewrite ?Hu; done.
  - intros p [[->|[[H _]|(i & _ & H & _)]]|(i & j & e & _ & _ & H & _)]; [done|congruence..|].
    by rewrite Hu in H.
Qed.

(** The words [clone_kernel] writes. *)
Definition kernel_entry (main_pt1 i : Z) : pte :=
  if i =? 2 then ptab_pte main_pt1 PTE_G
  else leaf_pte (i * GIGA_SIZE) (Z.lor (Z.lor PTE_R PTE_W) PTE_G).

Definition put_kernel (main_pt1 C i : Z) (s : kmem) : kmem :=
  set_mem <[C + 8 * i := pte_encode (kernel_entry main_pt1 i)]> s.

Lemma clone_kernel_run main_pt1 C s :
  clone_kernel main_pt1 C s
  = Ok (tt, put_kernel main_pt1 C 2 (put_kernel main_pt1 C 1 (put_kernel main_pt1 C 0 s))).
Proof. reflexivity. Qed.

(** Writing the kernel's entries into a page that the parent does not own. *)
Lemma put_kernel_inv main_pt1 C P s l i :
  0 <= i < 3 -> vm_inv s l P -> data_page s l P C -> ~ owned (mem s) P C ->
  let s' := put_kernel main_pt1 C i s in
  vm_inv s' l P /\ data_page s' l P C /\ (~ owned (mem s') P C) /\ still P s s' /\
  fresh s' l = fresh s l /\ satp s' = satp s /\ ent (mem s') (C + 8 * i) = kernel_entry main_pt1 i /\
  (forall j, j <> i -> ent (mem s') (C + 8 * j) = ent (mem s) (C + 8 * j)).
Proof.
  intros Hi Hv Hd Ho s'. assert (Hix : idx i) by (unfold idx; lia).
  destruct (data_store_inv s l P C i (pte_encode (kernel_entry main_pt1 i)) Hv Hd Hix) as [Hv' _].
  destruct (data_store s l P C i (pte_encode (kernel_entry main_pt1 i)) (vm_space _ _ _ Hv) Hd Hix) as (_ & _ & Et & _).
  fold (put_kernel main_pt1 C i s) in Hv', Et. fold s' in Hv', Et.
  assert (Hst : still P s s').
  { apply still_outside. intros p j Hp Hj. cbn. apply rd_insert_ne. apply slot_ne; try done; [apply Hd| |].
    - by destruct (owned_page s l P p (vm_space _ _ _ Hv) (vm_frames _ _ _ Hv) Hp).
    - by intros ->. }
  split_and!; try done.
  - destruct Hd as (? & ? & Ht). split_and!; try done. by rewrite Et.
  - intros H. by apply Ho, (st_owned _ _ _ Hst).
  - cbn. apply ent_insert_eq. unfold kernel_entry. destruct (i =? 2); auto with kern.
  - intros j Hne. cbn. apply ent_insert_ne. apply slot_ne'. congruence.
Qed.

Lemma user_vmas_elem v : v ∈ user_vmas <-> page_addr v.
Proof.
  unfold user_vmas, page_addr. rewrite range_elem by (unfold PAGE_SIZE; lia).
  unfold USER_START_VMA, USER_END_VMA, PAGE_SIZE. split.
  - intros (i & Hi & -> & Hlt). wrap_lia.
  - intros [Hr Hm]. exists ((v - 3221225472) / 4096). wrap_lia.
Qed.

Lemma user_vmas_nodup : NoDup (pg <$> user_vmas).
Proof.
  assert (Hnd : NoDup user_vmas) by (apply range_NoDup; unfold PAGE_SIZE; lia).
  assert (Hin : forall v, v ∈ user_vmas -> page_addr v) by (intros v; apply user_vmas_elem).
  induction Hnd as [|v vs Hni _ IH]; [constructor|]. rewrite fmap_cons. constructor.
  - intros (u & E & Hu)%list_elem_of_fmap. apply Hni.
    destruct (Hin v) as [Hv Hvm]; [by left|]. destruct (Hin u) as [Hu' Hum]; [by right|].
    assert (v = u) as ->; [|done]. apply pg_inj in E; unfold USER_END_VMA, PAGE_SIZE in *; wrap_lia.
  - apply IH. intros u Hu. apply Hin. by right.
Qed.

Lemma sum_le_length {A} (f : A -> nat) l : (forall x, (f x <= 1)%nat) -> (sum_list (f <$> l) <= length l)%nat.
Proof. intros Hf. induction l as [|x l IH]; [done|]. cbn. specialize (Hf x). lia. Qed.

Lemma missing_le C m : (missing C m <= 129)%nat.
Proof.
  unfold missing. pose proof (sum_le_length (lacks C m) (seqZ 0 128)) as H.
  rewrite length_seqZ in H. specialize (H ltac:(intros; unfold lacks; destruct (has0 m C x); cbn; lia)).
  destruct (has1 m C); cbn [negb Nat.b2n]; lia.
Qed.

(** ** The clone *)

(** The whole of [memory_space_clone] before the switch. *)
Lemma clone_build main_pt1 s l P :
  vm_inv s l P -> parent_ok P s -> (mapped_count P s user_vmas + 132 <= length (fresh s l))%nat ->
  exists C s1 s2 s3 l3, kmalloc PAGE_SIZE s = Ok (C, s1) /\ clone_kernel main_pt1 C s1 = Ok (tt, s2) /\
    forM user_vmas (clone_page C) s2 = Ok (tt, s3) /\ two_spaces s3 l3 P C /\ still P s s3 /\
    (forall v, page_addr v -> copied P C s s3 v) /\
    (forall i, 0 <= i < 3 -> ent (mem s3) (C + 8 * i) = kernel_entry main_pt1 i) /\
    page_ok C /\ fresh s3 l3 ⊆ fresh s l /\
    (length (fresh s l) <= length (fresh s3 l3) + 130 + mapped_count P s user_vmas)%nat.
Proof.
  intros Hv Hpo Hroom.
  destruct (take_page s l P (vm_space _ _ _ Hv)) as (C & s1 & l1 & E1 & Em1 & Hw1 & Hp & Hin & Hni & Htk); [lia|].
  pose proof (took_length _ _ _ _ _ Htk) as Hl1.
  assert (HoC : ~ owned (mem s) P C).
  { intros Ho. by destruct (owned_page s l P C (vm_space _ _ _ Hv) (vm_frames _ _ _ Hv) Ho). }
  assert (Hv1 : vm_inv s1 l1 P).
  { destruct Hv as [Ha Hw Hf]. destruct Htk as (Es & _ & u & Ef & _). constructor; [congruence|done|].
    apply (frames_frame s s1 l l1 P Hw); [by intros; rewrite Em1|done|].
    intros x Hx. rewrite Ef. apply elem_of_app. by right. }
  rewrite <- Em1 in HoC.
  assert (Hd1 : data_page s1 l1 P C) by (split_and!; try done; intros Ht; apply HoC; by left).
  assert (Hc1 : has1 (mem s1) C = false).
  { unfold has1. rewrite Em1. apply flags0_invalid. apply (sw_clean _ _ _ (vm_space _ _ _ Hv)); auto with kern. }
  destruct (put_kernel_inv main_pt1 C P s1 l1 0 ltac:(lia) Hv1 Hd1 HoC) as (Va & Da & Oa & Sa & Fa & _ & Ka & Na).
  destruct (put_kernel_inv main_pt1 C P _ l1 1 ltac:(lia) Va Da Oa) as (Vb & Db & Ob & Sb & Fb & _ & Kb & Nb).
  destruct (put_kernel_inv main_pt1 C P _ l1 2 ltac:(lia) Vb Db Ob) as (Vc & Dc & Oc & Sc & Fc & _ & Kc & Nc).
  set (s2 := put_kernel main_pt1 C 2 _) in *.
  assert (Hk2 : forall i, 0 <= i < 3 -> ent (mem s2) (C + 8 * i) = kernel_entry main_pt1 i).
  { intros i Hi. assert (i = 0 \/ i = 1 \/ i = 2) as [->|[->| ->]] by lia; [|by rewrite Nc|done].
    by rewrite Nc, Nb. }
  assert (Hc2 : has1 (mem s2) C = false).
  { unfold has1, uslot, USER_VPN2. rewrite Nc, Nb, Na by lia. exact Hc1. }
  destruct (empty_space s2 l1 P C (vm_space _ _ _ Vc)) as (Hwc & Hfc & Hoc); [done|apply Dc|done|].
  assert (Hts : two_spaces s2 l1 P C).
  { constructor; try done. intros p Ho Hoc'. apply Hoc in Hoc' as ->. done. }
  assert (St2 : still P s s2).
  { eapply still_trans; [by apply still_mem|]. eapply still_trans; [exact Sa|]. by eapply still_trans. }
  destruct (clone_loop P C user_vmas s2 l1 Hts) as (s3 & l3 & E3 & Hts3 & St3 & Ok3 & Hcp & _ & Sub3 & Len3).
  { by eapply parent_ok_still. }
  { apply Forall_forall. intros v. apply user_vmas_elem. }
  { apply user_vmas_nodup. }
  { intros v _. unfold umap_at, umap, has0. by rewrite Hc2. }
  { rewrite (mapped_count_still P s s2) by done. pose proof (missing_le C (mem s2)).
    rewrite Fc, Fb, Fa. lia. }
  exists C, s1, s2, s3, l3. split_and!; try done.
  - by eapply still_trans.
  - intros v Hpv. eapply copied_before; [exact St2|]. apply Hcp. by apply user_vmas_elem.
  - intros i Hi. rewrite <- Hk2 by done. unfold ent. f_equal. apply (ok_root _ _ _ _ Ok3); unfold idx, USER_VPN2; lia.
  - rewrite Sub3, Fc, Fb, Fa. destruct Htk as (_ & _ & u & -> & _). by apply list_subseteq_app_r.
  - rewrite (mapped_count_still P s s2) in Len3 by done. pose proof (missing_le C (mem s2)).
    rewrite Fc, Fb, Fa in Len3. lia.
Qed.

(** A copied page has the parent's bytes and, with R and W added, its flags. *)
Lemma copied_bytes P C s s3 l l3 x :
  vm_inv s l P -> two_spaces s3 l3 P C -> USER_START_VMA <= x < USER_END_VMA ->
  copied P C s s3 (x / PAGE_SIZE * PAGE_SIZE) ->
  ubyte (mem s3) C x = ubyte (mem s) P x /\
  flags <$> umap_at (mem s3) C x = (fun e => clone_flags (flags e)) <$> umap_at (mem s) P x.
Proof.
  intros Hv Hts Hx Hc. set (v := x / PAGE_SIZE * PAGE_SIZE) in *.
  assert (Epg : x / PAGE_SIZE = v / PAGE_SIZE) by (unfold v, PAGE_SIZE; wrap_lia).
  unfold ubyte, copied in *. rewrite !(same_page_umap _ _ _ _ Epg).
  destruct (umap_at (mem s) P v) as [e|] eqn:E; [|by rewrite Hc].
  destruct Hc as (e' & E' & Hf & Hw). rewrite E'. cbn. split; [|by f_equal]. f_equal.
  apply same_byte; [| |apply page_off|done].
  - by destruct (mapped_data s l P v e Hv E) as ((? & _) & _).
  - by apply (fo_page _ _ _ (ts_frames _ _ _ _ Hts) (VPN1 v) (VPN0 v)); auto with kern.
Qed.

(** What is left alone keeps its bytes. *)
Lemma still_as_before P s s' l x : vm_inv s l P -> still P s s' -> as_before (mem s) (mem s') P x.
Proof.
  intros Hv Hs. assert (E : umap_at (mem s') P x = umap_at (mem s) P x) by (apply (st_umap _ _ _ Hs); auto with kern).
  split; [done|]. unfold ubyte. rewrite E. destruct (umap_at (mem s) P x) as [e|] eqn:E'; [|done]. cbn. f_equal.
  destruct (mapped_data s l P x e Hv E') as ((Hp & _) & _).
  apply same_byte; try done; [apply page_off|]. intros w Hw.
  apply (st_rd _ _ _ Hs (VPN1 x) (VPN0 x)); auto with kern.
Qed.

(** Switching to a well-formed space makes it the active one. *)
Lemma switch_inv s l C :
  page_ok C -> space_wf s l C -> frames_ok s l C -> vm_inv (set_satp (mk_mtag C) s) l C.
Proof.
  intros HC Hw Hf. constructor; [by apply mtag_root| |by destruct Hf; constructor].
  apply (space_wf_shrink s l C); try done; try apply Hw.
  - by destruct (sw_pool _ _ _ Hw); constructor.
  - by destruct (sw_heap _ _ _ Hw); constructor.
Qed.


(** A machine with 140 free pages and one page mapped for the user. *)
Fixpoint chainb (m : gmap Z Z) (p : Z) (l : list Z) : bool :=
  match l with
  | [] => p =? 0
  | x :: l' => (p =? x) && negb (x =? 0) && chainb m (rd m x) l'
  end.
Lemma chainb_chain m p l : chainb m p l = true -> chain m p l.
Proof.
  revert p. induction l as [|x l IH]; intros p; cbn [chainb chain]; [by intros ->%Z.eqb_eq|].
  intros [[->%Z.eqb_eq Hx%negb_true_iff%Z.eqb_neq]%andb_prop Hc]%andb_prop. auto.
Qed.

Definition big_pages : list Z := (fun k => 2147557376 + 4096 * k) <$> seqZ 0 140.
Definition big_vm : kmem :=
  mkKmem (list_to_map (zip big_pages (drop 1 big_pages)))
    2147557376 2147553280 2147553280 (mk_mtag demo_root) (mk_mtag demo_root).

Lemma big_vm_inv : vm_inv big_vm big_pages demo_root.
Proof.
  assert (Hpg : Forall page_ok big_pages).
  { apply Forall_fmap, Forall_forall. intros k Hk%elem_of_seqZ. unfold page_ok, PAGE_SIZE. cbn. wrap_lia. }
  apply empty_vm_inv; try (apply (bool_decide_unpack _); vm_compute; done).
  - constructor; [apply chainb_chain; vm_compute; done| |done].
    apply (bool_decide_unpack _). vm_compute. done.
  - constructor; vm_compute; done.
Qed.

Definition big_parent : kmem :=
  match memory_alloc_and_map_page USER_START_VMA (Z.lor PTE_R PTE_U) big_vm with
  | Ok (_, s) => s
  | _ => big_vm
  end.

Lemma big_parent_inv :
  exists l, vm_inv big_parent l demo_root /\ (137 <= length (fresh big_parent l))%nat /\
    forall i j, idx i -> idx j -> (i, j) <> pg USER_START_VMA -> umap (mem big_parent) demo_root i j = None.
Proof.
  destruct (map_page_run big_vm 2147557376 (drop 1 big_pages) demo_root USER_START_VMA (Z.lor PTE_R PTE_U))
    as (s & l & e & E & Hv & _ & _ & _ & _ & Eo & Hl & _).
  - exact big_vm_inv.
  - vm_compute. lia.
  - vm_compute. done.
  - exists l. unfold big_parent. rewrite E. split_and!; [done| |].
    + change (length (fresh big_vm (2147557376 :: drop 1 big_pages))) with 140%nat in Hl. lia.
    + intros i j Hi Hj Hne. rewrite Eo by done. unfold umap, has0.
      assert (H1 : has1 (mem big_vm) demo_root = false) by (vm_compute; reflexivity). by rewrite H1.
Qed.

(** At most one page counts when no other is mapped. *)
Lemma mapped_count_one P s v0 vmas :
  NoDup vmas -> (forall v, v ∈ vmas -> v <> v0 -> umap_at (mem s) P v = None) -> (mapped_count P s vmas <= 1)%nat.
Proof.
  intros Hnd Hn. destruct (decide (v0 ∈ vmas)) as [Hin|Hout].
  - unfold mapped_count.
    rewrite <- (sum_flip _ (fun _ => 0%nat) v0 vmas Hnd Hin); [|intros y Hy Hne; by rewrite Hn|done].
    assert (E : sum_list ((fun _ : Z => 0%nat) <$> vmas) = 0%nat) by (clear; by induction vmas).
    rewrite E. destruct (bool_decide _); cbn; lia.
  - unfold mapped_count. assert (E : sum_list ((fun v => Nat.b2n (bool_decide (is_Some (umap_at (mem s) P v)))) <$> vmas) = 0%nat).
    { clear Hnd. induction vmas as [|v vs IH]; [done|]. cbn. rewrite Hn by (set_solver). cbn. apply IH.
      - intros u Hu. apply Hn. by right.
      - set_solver. }
    lia.
Qed.

(** The conditions on the parent, as a test over the indices. *)
Definition parent_test (s : kmem) (root : Z) : bool :=
  has1 (mem s) root &&
  forallb (fun i =>
    let t := upt0 (mem s) root i in
    if has0 (mem s) root i then
      (RAM_START <=? t) && (t + PAGE_SIZE <=? RAM_END) &&
      forallb (fun j => match umap (mem s) root i j with
                        | Some e => map_flags 0 (flags e) =? flags e
                        | None => true
                        end) indices
    else (t + PAGE_SIZE <=? RAM_START) || (RAM_END <? t)) indices.

Lemma parent_test_ok s root : parent_test s root = true -> parent_ok root s.
Proof.
  unfold parent_test. intros [H1 Hall]%andb_prop. rewrite forallb_forall in Hall.
  assert (G : forall i, idx i -> _) by (intros i Hi; apply (Hall i), list_elem_of_In, indices_all, Hi).
  clear Hall. cbn zeta in G. constructor; [done| | |].
  - intros i Hi H0. specialize (G i Hi). rewrite H0 in G. apply andb_prop in G as [[Ga Gb]%andb_prop _]. lia.
  - intros i j Hi Hj H0 Hr. specialize (G i Hi). rewrite H0 in G. unfold idx, PAGE_SIZE in *.
    apply orb_prop in G as [G|G]; lia.
  - intros i j e Hi Hj E. specialize (G i Hi). destruct (has0 (mem s) root i) eqn:H0.
    + apply andb_prop in G as [_ G]. rewrite forallb_forall in G.
      specialize (G j ltac:(by apply list_elem_of_In, indices_all)). rewrite E in G. by apply Z.eqb_eq.
    + unfold umap in E. by rewrite H0 in E.
Qed.

Lemma big_parent_ok : parent_ok demo_root big_parent.
Proof. apply parent_test_ok. vm_compute. reflexivity. Qed.

Lemma big_parent_count :
  (forall i j, idx i -> idx j -> (i, j) <> pg USER_START_VMA -> umap (mem big_parent) demo_root i j = None) ->
  (mapped_count demo_root big_parent user_vmas <= 1)%nat.
Proof.
  intros Hone. apply (mapped_count_one demo_root big_parent USER_START_VMA user_vmas).
  - apply range_NoDup. unfold PAGE_SIZE. lia.
  - intros v Hv' Hne. apply Hone; auto with kern. intros Epg. apply Hne.
    apply user_vmas_elem in Hv' as [Hr Hm].
    apply (pg_inj v USER_START_VMA) in Epg; unfold USER_START_VMA, USER_END_VMA, PAGE_SIZE in *; wrap_lia.
Qed.

