(* ===== verification/Reclaim.v ===== *)
(** memory.c, giving up a space: what [memory_space_reclaim] does.

    The process that ends gives back its frames and its tables.  The loops are
    followed as in [Teardown], with the freed pages set aside; a level-0 table that
    has been freed holds in its first entry the link to the next free page, which
    is aligned and so reads as an empty entry.  The main space, which is active
    afterwards, keeps its pages. *)

From S2P Require Import Prelude PhysMem PageTable KernelMap UserMem Teardown Clone.

(** ** Giving up a level-0 table *)

(** A link to a page, read as an entry. *)
Lemma link_entry x : page_ok x -> pte_encode (pte_decode x) = x /\ flags (pte_decode x) = 0.
Proof.
  intros (Ha & H0 & H1). split; [apply encode_decode; lia|]. unfold pte_decode, PAGE_SIZE in *. cbn [flags]. wrap_lia.
Qed.

Lemma run_free_page p s : memory_free_page p s = Ok (tt, set_free_list p (set_mem <[p := free_list s]> s)).
Proof. done. Qed.

Section Give.
Context (sel : pte -> bool) (Hsel : forall e, sel e = true -> valid e = true).
Context (s0 : kmem) (l : list Z) (root : Z) (Hv0 : vm_inv s0 l root) (Hl : l <> []).
Notation torn := (torn sel s0 l root).

Lemma torn_head done tabs s freed : torn done tabs s freed -> page_ok (free_list s).
Proof.
  intros Ht. destruct (tn_pool _ _ _ _ _ _ _ _ Ht) as [Hc _ Hp].
  destruct (freed ++ l) as [|y r] eqn:E; [apply app_eq_nil in E; naive_solver|].
  destruct Hc as (-> & _). by inversion Hp.
Qed.

(** The pages of the pool with the page [p] in front. *)
Lemma pool_front s p x :
  pool s x -> page_ok p -> p ∉ x -> pool (set_free_list p (set_mem <[p := free_list s]> s)) (p :: x).
Proof.
  intros Hp Hpg Hn. destruct (free_page_spec s p x Hp Hpg Hn) as (s1 & E & Hp1 & _).
  rewrite run_free_page in E. by injection E as <-.
Qed.

Lemma torn_give done tabs s freed i1 :
  torn done tabs s freed -> idx i1 -> has0 (mem s0) root i1 = true -> i1 ∉ tabs ->
  (forall j, idx j -> umap (mem s) root i1 j = None) ->
  let t0 := upt0 (mem s0) root i1 in
  torn done (i1 :: tabs) (set_free_list t0 (set_mem <[t0 := free_list s]> s)) (t0 :: freed).
Proof.
  intros Ht Hi H0 Hng Hnone t0. pose proof (torn_head _ _ _ _ Ht) as Hlk.
  destruct (link_entry _ Hlk) as [Ee Ef]. set (e := pte_decode (free_list s)) in *.
  destruct (tn_tabs _ _ _ _ _ _ _ _ Ht) as (T1 & Tp & T0). destruct (T0 i1 Hi) as [Th Tu].
  pose proof (vm_space _ _ _ Hv0) as Hw0. pose proof (vm_frames _ _ _ Hv0) as Hf0.
  destruct (sw_pt0 _ _ _ Hw0 i1 Hi H0) as (Hp0 & Hr0 & Hp1 & Hfr0). fold t0 in Hp0, Hr0, Hp1, Hfr0.
  assert (Hnv : valid e = false) by (unfold valid; by rewrite Ef).
  assert (Hii0 : idx 0) by (unfold idx; lia).
  destruct (tn_inv _ _ _ _ _ _ _ _ Ht) as [Ha Hw Hf].
  destruct (write_leaf (aside l s) l root i1 0 e Hw Hi Hii0) as (Hw' & _ & _ & Em & Eo & Et & A0); try done.
  { cbn [mem aside set_free_list]. congruence. } { unfold e. auto with kern. }
  cbn [mem aside set_free_list set_mem] in *. rewrite Tu, Z.mul_0_r, Z.add_0_r, Ee in Hw', Em, Eo, Et, A0.
  fold t0 in Hw', Em, Eo, Et, A0. rewrite Hnv in Em.
  set (s' := set_free_list t0 (set_mem <[t0 := free_list s]> s)).
  assert (Eu : forall i j, idx i -> idx j -> umap (mem s') root i j = umap (mem s) root i j).
  { intros i j Hii Hj. destruct (decide ((i, j) = (i1, 0))) as [Eq|Hne]; [|by apply Eo].
    injection Eq as -> ->. rewrite (Hnone 0 Hii0). exact Em. }
  assert (Hrd : forall p i, page_ok p -> p <> t0 -> idx i -> rd (mem s') (p + 8 * i) = rd (mem s) (p + 8 * i)).
  { intros p i Hp Hne Hii. apply rd_insert_ne, not_eq_sym. by apply slot_ne_page. }
  assert (Hit : is_table (mem s0) root t0) by (right; right; by exists i1).
  assert (Hnin : t0 ∉ freed ++ l).
  { intros [Hin|Hin]%elem_of_app; [|by apply Hfr0, in_fresh].
    destruct (torn_freed sel s0 l root Hv0 _ _ _ _ _ Ht Hin) as (_ & _ & Hg). destruct (Hg Hit) as (i & Hin' & Ei).
    destruct (tn_given _ _ _ _ _ _ _ _ Ht i Hin') as [Hix Hi0]. by apply (sw_inj _ _ _ Hw0 i1 i) in Ei as ->. }
  assert (Hus : uslot root <> t0).
  { intros Hx. unfold uslot in Hx. apply (slot_ne_page root t0 USER_VPN2); [apply Hw0|done| |auto with kern|done]. congruence. }
  constructor.
  - apply (pool_front s t0 (freed ++ l)); [apply Ht|done|done].
  - constructor; [done|exact Hw'|]. apply (frames_shrink l (aside l s)); [done|done| |exact Et].
    intros i j x Hii Hj Ex. by rewrite <- Eu.
  - apply Ht.
  - apply Ht.
  - split_and!.
    + rewrite <- T1. unfold has1, s'. cbn [mem set_free_list set_mem]. unfold ent. by rewrite rd_insert_ne by congruence.
    + rewrite <- Tp. unfold upt1, s'. cbn [mem set_free_list set_mem]. unfold ent. by rewrite rd_insert_ne by congruence.
    + intros i Hix. destruct (A0 i Hix) as [Eh Eup]. destruct (T0 i Hix) as [<- <-]. split; [exact Eh|exact Eup].
  - intros i j Hix Hj. rewrite Eu by done. by apply Ht.
  - intros p. rewrite elem_of_cons, (tn_freed _ _ _ _ _ _ _ _ Ht). unfold given_table. split.
    + intros [->|[?|(i & Hin & ->)]]; [right; exists i1|by left|right; exists i]; (split; [|done]); [by left|by right].
    + intros [?|(i & [->|Hin]%elem_of_cons & ->)]; [by right; left|by left|right; right; by exists i].
  - intros i [->|Hin]%elem_of_cons; [done|by apply Ht].
  - intros p Hd [Hn1 Hn2]%not_elem_of_cons i Hix. rewrite Hrd; [|apply Hd|done|done]. by apply (tn_kept _ _ _ _ _ _ _ _ Ht).
  - intros i Hix. rewrite Hrd; [by apply (tn_root _ _ _ _ _ _ _ _ Ht)|apply Hw0|done|done].
Qed.
End Give.

(** ** The loops *)

Lemma nonglobal_valid e : nonglobal_leaf e = true -> valid e = true.
Proof. unfold nonglobal_leaf. by intros [? _]%andb_prop. Qed.
Lemma nonglobal_table e : flags e = PTE_V -> nonglobal_tab e = true.
Proof. unfold nonglobal_tab. by intros ->. Qed.

Section Rounds.
Context (s0 : kmem) (l : list Z) (root : Z) (Hv0 : vm_inv s0 l root) (Hl : l <> []).
(** No page of the user part is global. *)
Context (Hglob : forall i j e, idx i -> idx j -> umap (mem s0) root i j = Some e -> has (flags e) PTE_G = false).
Notation torn := (torn nonglobal_leaf s0 l root).

Lemma strip_all i j : idx i -> idx j -> strip nonglobal_leaf (umap (mem s0) root i j) = None.
Proof.
  intros Hi Hj. destruct (umap (mem s0) root i j) as [e|] eqn:E; [|done]. cbn.
  assert (Hn : nonglobal_leaf e = true); [|by rewrite Hn]. unfold nonglobal_leaf. rewrite (Hglob i j e Hi Hj E).
  unfold umap in E. destruct (has0 _ _ _); [|done]. cbn zeta in E. unfold valid in E. case_match eqn:Hve; [|done].
  injection E as <-. by rewrite Hve.
Qed.

Definition pt1_body (i1 : Z) : M kmem unit :=
  e ← load_pte (upt1 (mem s0) root + 8 * i1);
  if is_ptab e then
    let pt0 := pagenum_to_pageptr (ppn e) in
    teardown_pt0 nonglobal_leaf pt0 ;;
    e1 ← load_pte (upt1 (mem s0) root + 8 * i1);
    if nonglobal_tab e1 then memory_free_page pt0 else mret tt
  else mret tt.

Lemma reclaim_round done tabs s freed i1 :
  torn done tabs s freed -> has1 (mem s0) root = true -> idx i1 -> (forall j, (i1, j) ∉ done) -> i1 ∉ tabs ->
  exists s' freed' done' tabs', pt1_body i1 s = Ok (tt, s') /\ torn done' tabs' s' freed' /\
    (forall i j, (i, j) ∈ done' <-> (i, j) ∈ done \/ i = i1 /\ j ∈ indices) /\
    (forall i, i ∈ tabs' <-> i ∈ tabs \/ i = i1 /\ has0 (mem s0) root i1 = true).
Proof.
  intros Ht H1 Hi Hnew Hng. destruct (tn_tabs _ _ _ _ _ _ _ _ Ht) as (T1 & Tp & T0). destruct (T0 i1 Hi) as [Th Tu].
  unfold pt1_body. rewrite (bind_Ok _ _ _ _ _ (run_load_pte _ s)). rewrite <- Tp.
  destruct (has0 (mem s0) root i1) eqn:H0.
  - pose proof (sw_tab0 _ _ _ (vm_space _ _ _ (tn_inv _ _ _ _ _ _ _ _ Ht)) i1 Hi Th) as Ef.
    cbn [mem aside set_free_list] in Ef. rewrite (proj2 (table_entry _ Ef)). cbn zeta.
    change (pagenum_to_pageptr (ppn _)) with (upt0 (mem s) root i1). rewrite Tu.
    destruct (torn_pt0 nonglobal_leaf nonglobal_valid s0 l root Hv0 Hl i1 indices done tabs s freed)
      as (s' & freed' & E & done' & Ht' & Hd'); try done.
    { apply Forall_forall. intros j. apply in_indices. }
    { apply range_NoDup. lia. }
    { by apply Forall_forall. }
    destruct (tn_tabs _ _ _ _ _ _ _ _ Ht') as (_ & Tp' & T0'). destruct (T0' i1 Hi) as [Th' _].
    rewrite (bind_Ok _ _ _ _ _ E), (bind_Ok _ _ _ _ _ (run_load_pte _ s')).
    pose proof (sw_tab0 _ _ _ (vm_space _ _ _ (tn_inv _ _ _ _ _ _ _ _ Ht')) i1 Hi ltac:(by rewrite <- H0)) as Ef'.
    cbn [mem aside set_free_list] in Ef'. rewrite Tp' in Ef'. rewrite Tp, (nonglobal_table _ Ef').
    eexists _, _, done', (i1 :: tabs). split_and!; [apply run_free_page| |done|intros i; rewrite elem_of_cons; tauto].
    refine (torn_give nonglobal_leaf s0 l root Hv0 Hl done' tabs s' freed' i1 Ht' Hi H0 Hng _).
    intros j Hj. rewrite (tn_umap _ _ _ _ _ _ _ _ Ht') by done.
    rewrite decide_True by (apply Hd'; right; by rewrite in_indices). by apply strip_all.
  - assert (Hnv : is_ptab (ent (mem s) (upt1 (mem s) root + 8 * i1)) = false).
    { unfold has0 in Th. rewrite T1, H1 in Th. cbn in Th. unfold is_ptab. unfold valid in Th. by rewrite Th. }
    rewrite Hnv. exists s, freed, (((i1,.) <$> indices) ++ done), tabs.
    assert (Hmem : forall i j, (i, j) ∈ ((i1,.) <$> indices) ++ done <-> (i, j) ∈ done \/ i = i1 /\ j ∈ indices).
    { intros i j. rewrite elem_of_app, list_elem_of_fmap. naive_solver. }
    split_and!; [done| |done|]; [|intros i; split; [by left|by intros [?|[_ ?]]]].
    apply (torn_more nonglobal_leaf s0 l root done); [done|intros [i j] Hx; apply Hmem; by left|].
    intros i j _ _ [?|[-> _]]%Hmem Hn; [done|]. unfold umap. by rewrite H0.
Qed.

Lemma reclaim_rounds ids : forall done tabs s freed,
  torn done tabs s freed -> has1 (mem s0) root = true -> Forall idx ids -> NoDup ids ->
  Forall (fun i => (forall j, (i, j) ∉ done) /\ i ∉ tabs) ids ->
  exists s' freed' done' tabs', forM ids pt1_body s = Ok (tt, s') /\ torn done' tabs' s' freed' /\
    (forall i j, (i, j) ∈ done' <-> (i, j) ∈ done \/ i ∈ ids /\ j ∈ indices) /\
    (forall i, i ∈ tabs' <-> i ∈ tabs \/ i ∈ ids /\ has0 (mem s0) root i = true).
Proof.
  induction ids as [|i1 ids IH]; intros done tabs s freed Ht H1 His Hn Hnew.
  { exists s, freed, done, tabs. split_and!; try done; intros; rewrite elem_of_nil; tauto. }
  apply Forall_cons in His as [Hi His]. apply Forall_cons in Hnew as [[Hi' Hng] Hnew]. apply NoDup_cons in Hn as [Hni Hn].
  destruct (reclaim_round done tabs s freed i1 Ht H1 Hi Hi' Hng) as (s1 & freed1 & done1 & tabs1 & E1 & Ht1 & Hd1 & Hg1).
  destruct (IH done1 tabs1 s1 freed1) as (s' & freed' & done' & tabs' & E & Ht' & Hd' & Hg'); try done.
  { rewrite Forall_forall in Hnew |- *. intros i Hii. destruct (Hnew i Hii) as [Ha Hb]. split.
    - intros j [Hx|[-> _]]%Hd1; [by apply (Ha j)|done].
    - intros [?|[-> _]]%Hg1; done. }
  exists s', freed', done', tabs'. split_and!; [by etransitivity; [apply (forM_cons i1); exact E1|]|done| |].
  - intros i j. rewrite Hd', Hd1, elem_of_cons. naive_solver.
  - intros i. rewrite Hg', Hg1, elem_of_cons. naive_solver.
Qed.

(** The user entry of the root table: every page the space owns but the root is
    freed. *)
Record given_up (s' : kmem) (freed : list Z) : Prop := {
  gu_pool : pool s' (freed ++ l);
  gu_freed : forall p, p ∈ freed <-> owned (mem s0) root p /\ p <> root;
  gu_heap : heap_start s' = heap_start s0 /\ heap_end s' = heap_end s0;
  gu_kept : forall p, data_page s0 l root p -> p ∉ freed ->
    forall i, idx i -> rd (mem s') (p + 8 * i) = rd (mem s0) (p + 8 * i);
  gu_root : forall i, idx i -> rd (mem s') (root + 8 * i) = rd (mem s0) (root + 8 * i);
  gu_clean : forall p i, p ∈ fresh s0 l -> idx i -> flags (ent (mem s') (p + 8 * i)) = 0
}.

(** What the loops have freed, when they have seen everything. *)
Lemma all_freed done tabs s freed :
  torn done tabs s freed -> has1 (mem s0) root = true ->
  (forall i j, idx i -> idx j -> (i, j) ∈ done) -> (forall i, i ∈ tabs <-> idx i /\ has0 (mem s0) root i = true) ->
  forall p, p ∈ upt1 (mem s0) root :: freed <-> owned (mem s0) root p /\ p <> root.
Proof.
  intros Ht H1 Hall Htabs p. pose proof (vm_space _ _ _ Hv0) as Hw. pose proof (vm_frames _ _ _ Hv0) as Hf.
  rewrite elem_of_cons, (tn_freed _ _ _ _ _ _ _ _ Ht). split.
  - intros [->|[(i & j & e & _ & Hi & Hj & E & _ & ->)|(i & Hi & ->)]].
    + split; [left; right; by left|]. by apply (sw_pt1 _ _ _ Hw H1).
    + split; [right; by exists i, j, e|]. intros Hx. apply (fo_table _ _ _ Hf i j e Hi Hj E). by left.
    + apply Htabs in Hi as [Hi H0]. split; [left; right; right; by exists i|]. by apply (sw_pt0 _ _ _ Hw i Hi H0).
  - intros [[[->|[[_ ->]|(i & Hi & H0 & ->)]]|(i & j & e & Hi & Hj & E & <-)] Hne]; [done|by left| |].
    + right; right. exists i. split; [|done]. by apply Htabs.
    + right; left. exists i, j, e. split_and!; auto. pose proof (strip_all i j Hi Hj) as Hs. rewrite E in Hs. cbn in Hs.
      by destruct (nonglobal_leaf e).
Qed.

Lemma reclaim_entry :
  exists s' freed, pt2_body nonglobal_leaf nonglobal_tab root USER_VPN2 s0 = Ok (tt, s') /\ given_up s' freed.
Proof.
  unfold pt2_body. rewrite (bind_Ok _ _ _ _ _ (run_load_pte _ s0)). fold (uslot root).
  pose proof (torn_start nonglobal_leaf s0 l root Hv0 Hl) as Ht0. pose proof (vm_space _ _ _ Hv0) as Hw.
  destruct (has1 (mem s0) root) eqn:H1.
  - pose proof (sw_tab1 _ _ _ Hw H1) as Ef. rewrite (proj2 (table_entry _ Ef)). cbn zeta.
    change (pagenum_to_pageptr (ppn _)) with (upt1 (mem s0) root).
    destruct (reclaim_rounds indices [] [] s0 [] Ht0 H1) as (s' & freed & done & tabs & E & Ht & Hd & Hg).
    { apply Forall_forall. intros j. apply in_indices. }
    { apply range_NoDup. lia. }
    { apply Forall_forall. intros i _. split; [intros j; apply not_elem_of_nil|apply not_elem_of_nil]. }
    unfold teardown_pt1. fold pt1_body. rewrite (bind_Ok _ _ _ _ _ E), (bind_Ok _ _ _ _ _ (run_load_pte _ s')).
    pose proof (sw_tab1 _ _ _ (vm_space _ _ _ (tn_inv _ _ _ _ _ _ _ _ Ht))) as Ef'.
    cbn [mem aside set_free_list] in Ef'. rewrite (proj1 (tn_tabs _ _ _ _ _ _ _ _ Ht)) in Ef'.
    rewrite (nonglobal_table _ (Ef' H1)). destruct (sw_pt1 _ _ _ Hw H1) as (Hp1 & Hr1 & Hf1).
    pose proof (all_freed done tabs s' freed Ht H1) as Hall.
    eexists _, (upt1 (mem s0) root :: freed). split; [apply run_free_page|].
    assert (Hrd : forall p i, page_ok p -> p <> upt1 (mem s0) root -> idx i ->
      rd (<[upt1 (mem s0) root := free_list s']> (mem s')) (p + 8 * i) = rd (mem s') (p + 8 * i)).
    { intros p i Hp Hne Hi. apply rd_insert_ne, not_eq_sym. by apply slot_ne_page. }
    constructor.
    + cbn [app]. apply pool_front; [apply Ht|done|]. intros [Hin|Hin]%elem_of_app; [|by apply Hf1, in_fresh].
      apply (torn_freed nonglobal_leaf s0 l root Hv0 _ _ _ _ _ Ht) in Hin as (_ & _ & Hgt).
      destruct Hgt as (i & Hi & Ei); [right; by left|]. destruct (tn_given _ _ _ _ _ _ _ _ Ht i Hi) as [Hi' H0].
      destruct (sw_pt0 _ _ _ Hw i Hi' H0) as (_ & _ & Hx & _). congruence.
    + apply Hall.
      * intros i j Hi Hj. apply Hd. right. by rewrite !in_indices.
      * intros i. rewrite Hg, in_indices, elem_of_nil. tauto.
    + apply Ht.
    + intros p Hdp [Hn1 Hn2]%not_elem_of_cons i Hi. cbn [mem set_free_list set_mem].
      rewrite Hrd by (done || apply Hdp). by apply (tn_kept _ _ _ _ _ _ _ _ Ht).
    + intros i Hi. cbn [mem set_free_list set_mem].
      rewrite Hrd by (done || apply Hw). by apply (tn_root _ _ _ _ _ _ _ _ Ht).
    + intros p i Hp Hi. cbn [mem set_free_list set_mem]. unfold ent.
      pose proof (sw_fresh _ _ _ Hw) as Hfp. rewrite Forall_forall in Hfp. rewrite Hrd; [|by apply Hfp|by intros ->|done].
      apply (sw_clean _ _ _ (vm_space _ _ _ (tn_inv _ _ _ _ _ _ _ _ Ht)) p i); [|done].
      destruct (tn_heap _ _ _ _ _ _ _ _ Ht) as [E1 E2]. unfold fresh, aside in *. cbn [heap_start heap_end set_free_list].
      by rewrite E1, E2.
  - assert (Hnv : is_ptab (ent (mem s0) (uslot root)) = false).
    { unfold has1, valid in H1. unfold is_ptab. by rewrite H1. }
    rewrite Hnv. exists s0, []. split; [done|]. constructor; try done; [apply Hw| |apply Hw].
    intros p. rewrite elem_of_nil. split; [done|].
    assert (H0 : forall i, has0 (mem s0) root i = false) by (intros; unfold has0; by rewrite H1).
    intros [[[->|[[H _]|(i & _ & H & _)]]|(i & j & e & _ & _ & H & _)] Hne]; [done|congruence|congruence|].
    unfold umap in H. by rewrite H0 in H.
Qed.
End Rounds.

(** ** The whole *)

(** Code that does not look at [satp] runs the same in another space. *)
Definition blind {A} (m : M kmem A) : Prop := forall x s a s',
  m s = Ok (a, s') -> m (set_satp x s) = Ok (a, set_satp x s').

Lemma blind_ret {A} (a : A) : blind (mret a).
Proof. by intros x s b s' [= <- <-]. Qed.
Lemma blind_load a : blind (load a).
Proof. by intros x s b s' [= <- <-]. Qed.
Lemma blind_store a w : blind (store a w).
Proof. by intros x s b s' [= <- <-]. Qed.
Lemma blind_free p : blind (memory_free_page p).
Proof. by intros x s b s' [= <- <-]. Qed.
Lemma blind_free_leaf p : blind (free_leaf_page p).
Proof.
  intros x s b s'. unfold free_leaf_page. rewrite !bind_run. cbn [get obind set_satp free_list].
  destruct (free_list s =? 0); by intros [= <- <-].
Qed.
Lemma blind_bind {A B} (m : M kmem A) (f : A -> M kmem B) : blind m -> (forall a, blind (f a)) -> blind (m ≫= f).
Proof.
  intros Hm Hf x s b s' (a & s1 & H1 & H2)%bind_Ok_inv. rewrite (bind_Ok _ _ _ _ _ (Hm x s a s1 H1)). by apply Hf.
Qed.
Lemma blind_forM {A} (l : list A) (body : A -> M kmem unit) : (forall y, blind (body y)) -> blind (forM l body).
Proof. intros Hb. induction l; cbn [forM]; [apply blind_ret|by apply blind_bind]. Qed.

Create HintDb blind.
#[export] Hint Resolve blind_ret blind_load blind_store blind_free blind_free_leaf : blind.
Ltac blind := repeat
  match goal with
  | |- blind (forM _ _) => apply blind_forM; intros ?
  | |- blind (_ ≫= _) => apply blind_bind; [|intros ?]
  | |- blind (if ?c then _ else _) => destruct c
  | |- blind _ => solve [auto with blind]
  end.

Lemma blind_teardown leaf_sel tab_sel pt2 : blind (teardown_pt2 leaf_sel tab_sel pt2).
Proof. unfold teardown_pt2, teardown_pt1, teardown_pt0, clear_pte, load_pte, store_pte. cbn zeta. blind. Qed.

(** The tail of a free list. *)
Lemma pool_tail s x l : pool s (x ++ l) -> l <> [] -> pool (aside l s) l.
Proof.
  intros [Hc Hn Hp] Hl. apply NoDup_app in Hn as (_ & _ & Hn). apply Forall_app in Hp as [_ Hp].
  constructor; [|done|done]. unfold aside. cbn [mem free_list set_free_list].
  revert Hc. generalize (free_list s). induction x as [|y x IH]; intros q Hc.
  - destruct l as [|y l]; [done|]. cbn [app chain] in *. destruct Hc as (-> & ? & ?). done.
  - cbn [app chain] in Hc. destruct Hc as (_ & _ & Hc). by eapply IH.
Qed.

Lemma mtag_root_ptr r : page_ok r -> pagenum_to_pageptr (mk_mtag r) = r.
Proof.
  intros Hr. rewrite (mk_mtag_val r Hr). destruct Hr as (Hal & H0 & H1).
  unfold pagenum_to_pageptr, PAGE_ORDER. rewrite Z.shiftl_mul_pow2 by lia.
  change (2 ^ 12) with 4096. change (2 ^ 56) with 72057594037927936 in H1. unfold PAGE_SIZE in Hal. wrap_lia.
Qed.

Lemma reclaim_run s l P :
  vm_inv s l P -> l <> [] -> kernel_part nonglobal_leaf nonglobal_tab (mem s) P -> satp s = mk_mtag P ->
  (forall i j e, idx i -> idx j -> umap (mem s) P i j = Some e -> has (flags e) PTE_G = false) ->
  exists s' freed, memory_space_reclaim s = Ok (tt, set_satp (main_mtag s) s') /\ given_up s l P s' freed.
Proof.
  intros Hv Hl [Hlow Hhigh] Hsatp Hg. destruct (reclaim_entry s l P Hv Hl Hg) as (s' & freed & E & Hgu).
  exists s', freed. split; [|done]. unfold memory_space_reclaim, memory_space_switch. rewrite bind_run. cbn [get obind].
  rewrite (bind_Ok _ _ _ (mk_mtag P) (set_satp (main_mtag s) s)) by (by rewrite <- Hsatp).
  rewrite mtag_root_ptr by apply (vm_space _ _ _ Hv). apply blind_teardown.
  unfold teardown_pt2. change (forM indices (pt2_body nonglobal_leaf nonglobal_tab P) s = Ok (tt, s')).
  change indices with (range 3 0 3 1 ++ USER_VPN2 :: range 508 4 512 1).
  rewrite (forM_app _ _ _ s s).
  2: { apply forM_idle. intros i Hi. apply quiet_run, Hlow. rewrite range_elem in Hi by lia.
       destruct Hi as (k & ? & -> & ?). unfold USER_VPN2. lia. }
  rewrite (forM_cons _ _ _ _ _ E). apply forM_idle. intros i Hi. apply quiet_run. intros Hp. exfalso.
  rewrite range_elem in Hi by lia. destruct Hi as (k & ? & -> & ?).
  unfold ent in Hp. rewrite (gu_root _ _ _ _ _ Hgu) in Hp by (unfold idx; lia).
  specialize (Hhigh (4 + 1 * k) ltac:(unfold USER_VPN2; lia)). unfold ent in Hhigh. congruence.
Qed.

(** The memory after a space has been given up. *)
Record ended_memory (k k' : kmem) (l : list Z) (P main : Z) : Prop := {
  em_active : satp k' = mk_mtag main;
  em_freed : exists freed, pool k' (freed ++ l) /\ forall p, p ∈ freed <-> owned (mem k) P p /\ p <> P;
  em_main : forall x, as_before (mem k) (mem k') main x;
  em_inv : vm_inv (set_free_list (free_list k) k') l main
}.

Lemma reclaim_ended s l P main :
  two_spaces s l P main -> l <> [] -> satp s = mk_mtag P -> main_mtag s = mk_mtag main ->
  kernel_part nonglobal_leaf nonglobal_tab (mem s) P ->
  (forall i j e, idx i -> idx j -> umap (mem s) P i j = Some e -> has (flags e) PTE_G = false) ->
  exists s', memory_space_reclaim s = Ok (tt, s') /\ ended_memory s s' l P main.
Proof.
  intros [Hv Hwm Hfm Hdis] Hl Hsatp Hmain Hkernel Hglob.
  destruct (reclaim_run s l P Hv Hl Hkernel Hsatp Hglob) as (s' & freed & E & Hgu).
  assert (Hrd : forall p i, owned (mem s) main p -> idx i -> rd (mem s') (p + 8 * i) = rd (mem s) (p + 8 * i)).
  { intros p i Ho Hi. destruct (owned_page s l main p Hwm Hfm Ho) as [Hp Hn]. apply (gu_kept _ _ _ _ _ Hgu); [|  |done].
    - split_and!; try done. intros Ht. apply (Hdis p); [by left|done].
    - rewrite (gu_freed _ _ _ _ _ Hgu). intros [Ho' _]. by apply (Hdis p). }
  assert (Hmp : page_ok main) by apply Hwm.
  assert (Htab : forall t i, is_table (mem s) main t -> idx i -> rd (mem s') (t + 8 * i) = rd (mem s) (t + 8 * i))
    by (intros t i Ht; apply Hrd; by left).
  assert (Ef : free_list s = List.hd 0 l) by (by rewrite <- (aside_start s l P Hv Hl)).
  set (sa := aside l s').
  assert (Efr : fresh sa l = fresh s l).
  { destruct (gu_heap _ _ _ _ _ Hgu) as [E1 E2]. unfold fresh, sa, aside. cbn. by rewrite E1, E2. }
  assert (Hwa : space_wf sa l main).
  { destruct (gu_heap _ _ _ _ _ Hgu) as [E1 E2]. apply (space_frame s sa l l main Hwm Htab).
    - by apply (pool_tail s' freed l (gu_pool _ _ _ _ _ Hgu)).
    - destruct (sw_heap _ _ _ Hwm). constructor; cbn; by rewrite ?E1, ?E2.
    - destruct (sw_paged _ _ _ Hwm) as [A1 A2]. unfold heap_paged. cbn. by rewrite E1, E2.
    - by rewrite Efr.
    - rewrite Efr. apply (gu_clean _ _ _ _ _ Hgu). }
  assert (Hfa : frames_ok sa l main) by (apply (frames_frame s sa l l main Hwm Htab); [done|by rewrite Efr]).
  rewrite Hmain in E. exists (set_satp (mk_mtag main) s'). split; [exact E|]. constructor.
  - reflexivity.
  - exists freed. split.
    + by destruct (gu_pool _ _ _ _ _ Hgu); constructor.
    + apply (gu_freed _ _ _ _ _ Hgu).
  - intros x. apply (still_as_before main (set_satp (mk_mtag main) s) s' l x); [by apply switch_inv|].
    eapply still_trans; [by apply (still_mem main _ s)|]. by apply still_outside.
  - rewrite Ef. exact (switch_inv sa l main Hmp Hwa Hfa).
Qed.

(** C21. Giving up an address space.  When a process ends in a space of its own,
    [memory_space_reclaim] makes the main space active and frees exactly the
    pages the ended space owned, its frames and its tables of levels 0 and 1, but
    not its root table: they are in front of the free list, each once.  The main
    space keeps its mappings and its bytes, and with the freed pages set aside it
    is well formed. *)
Theorem memory_space_reclaim_spec (s : kmem) (l : list Z) (P main : Z)
    (Htwo : two_spaces s l P main) (Hl : l <> []) (Hsatp : satp s = mk_mtag P) (Hmain : main_mtag s = mk_mtag main)
    (Hkernel : kernel_part nonglobal_leaf nonglobal_tab (mem s) P)
    (Hglob : forall i j e, idx i -> idx j -> umap (mem s) P i j = Some e -> has (flags e) PTE_G = false) :
  exists s' freed, memory_space_reclaim s = Ok (tt, s') /\ satp s' = mk_mtag main /\
    pool s' (freed ++ l) /\ (forall p, p ∈ freed <-> owned (mem s) P p /\ p <> P) /\
    (forall x, as_before (mem s) (mem s') main x) /\
    vm_inv (set_free_list (free_list s) s') l main.
Proof.
  destruct (reclaim_ended s l P main Htwo Hl Hsatp Hmain Hkernel Hglob) as (s' & E & [Ha (freed & Hp & Hf) Hm Hv]).
  exists s', freed. by split_and!.
Qed.

(** ** A process that ends *)

(** Whether a space owns a page, as a test. *)
Definition owns (m : gmap Z Z) (root p : Z) : bool :=
  (p =? root) || (has1 m root && (p =? upt1 m root)) ||
  existsb (fun i => if has0 m root i then
      (p =? upt0 m root i) ||
      existsb (fun j => match umap m root i j with Some e => tab_of e =? p | None => false end) indices
    else false) indices.

Lemma owns_owned m root p : owned m root p -> owns m root p = true.
Proof.
  unfold owns. intros [[->|[[H1 ->]|(i & Hi & H0 & ->)]]|(i & j & e & Hi & Hj & E & <-)].
  - by rewrite Z.eqb_refl.
  - by rewrite H1, Z.eqb_refl, orb_true_r.
  - apply orb_true_iff. right. apply existsb_exists. exists i. split; [by apply list_elem_of_In, in_indices|].
    by rewrite H0, Z.eqb_refl.
  - apply orb_true_iff. right. apply existsb_exists. exists i. split; [by apply list_elem_of_In, in_indices|].
    assert (H0 : has0 m root i = true) by (unfold umap in E; by destruct (has0 m root i)). rewrite H0.
    apply orb_true_iff. right. apply existsb_exists. exists j. split; [by apply list_elem_of_In, in_indices|].
    by rewrite E, Z.eqb_refl.
Qed.

(** [main_mtag] is not part of the invariant. *)
Lemma retag_inv s l r m :
  vm_inv s l r -> vm_inv (mkKmem (mem s) (free_list s) (heap_start s) (heap_end s) (satp s) m) l r.
Proof.
  intros [Ha Hw Hf]. constructor; [exact Ha| |by destruct Hf; constructor].
  apply (space_wf_shrink s l); try done; try apply Hw.
  - by destruct (sw_pool _ _ _ Hw); constructor.
  - by destruct (sw_heap _ _ _ Hw); constructor.
Qed.

(** The process of [Teardown.demo_torn] beside a main space with no user pages. *)
Definition demo_main_root : Z := 2147545088.
Definition demo_ended : kmem :=
  mkKmem (mem demo_torn) (free_list demo_torn) (heap_start demo_torn) (heap_end demo_torn) (satp demo_torn)
    (mk_mtag demo_main_root).

Lemma demo_ended_spaces : two_spaces demo_ended (drop 3 demo_pages) demo_root demo_main_root.
Proof.
  assert (Hv : vm_inv demo_ended (drop 3 demo_pages) demo_root) by exact (retag_inv _ _ _ _ demo_torn_inv).
  destruct (empty_space demo_ended (drop 3 demo_pages) demo_root demo_main_root (vm_space _ _ _ Hv)) as (Hw & Hf & Ho).
  - split_and!; vm_compute; reflexivity.
  - apply (bool_decide_unpack _). vm_compute. exact I.
  - vm_compute. reflexivity.
  - constructor; [exact Hv|exact Hw|exact Hf|]. intros p Hp ->%Ho. apply owns_owned in Hp. vm_compute in Hp. discriminate Hp.
Qed.

Lemma demo_ended_kernel : kernel_part nonglobal_leaf nonglobal_tab (mem demo_ended) demo_root.
Proof. apply kernel_part_none. apply (bool_decide_unpack _). vm_compute. done. Qed.

Lemma demo_ended_user i j e :
  idx i -> idx j -> umap (mem demo_ended) demo_root i j = Some e -> has (flags e) PTE_G = false.
Proof.
  assert (H : forallb (fun i => if has0 (mem demo_ended) demo_root i then forallb (fun j =>
    match umap (mem demo_ended) demo_root i j with Some e => negb (has (flags e) PTE_G) | None => true end) indices
    else true) indices = true) by (vm_compute; reflexivity).
  intros Hi Hj Eu. rewrite forallb_forall in H. specialize (H i ltac:(by apply list_elem_of_In, in_indices)).
  assert (H0 : has0 (mem demo_ended) demo_root i = true) by (unfold umap in Eu; by destruct (has0 _ _ i)).
  rewrite H0, forallb_forall in H. specialize (H j ltac:(by apply list_elem_of_In, in_indices)). rewrite Eu in H.
  by destruct (has (flags e) PTE_G).
Qed.

Lemma memory_space_reclaim_spec_witness :
  exists s' freed, memory_space_reclaim demo_ended = Ok (tt, s') /\ satp s' = mk_mtag demo_main_root /\
    pool s' (freed ++ drop 3 demo_pages) /\ 2147557376 ∈ freed.
Proof.
  destruct (memory_space_reclaim_spec demo_ended (drop 3 demo_pages) demo_root demo_main_root demo_ended_spaces)
    as (s' & freed & E & Hs & Hp & Hf & _).
  - discriminate.
  - vm_compute. reflexivity.
  - reflexivity.
  - exact demo_ended_kernel.
  - exact demo_ended_user.
  - exists s', freed. split; [exact E|]. split; [exact Hs|]. split; [exact Hp|]. apply Hf. split; [|discriminate].
    right. exists (VPN1 USER_START_VMA), (VPN0 USER_START_VMA),
      (ent (mem demo_ended) (upt0 (mem demo_ended) demo_root (VPN1 USER_START_VMA) + 8 * VPN0 USER_START_VMA)).
    split; [apply VPN1_idx|]. split; [apply VPN0_idx|]. split; vm_compute; reflexivity.
Defined.
