(* ===== verification/Thread.v ===== *)
(** thread.c and thread.h: threads, thread lists, condition variables and the
    scheduler.

    A pointer is its address; [threads] and [conds] give the [struct thread] and
    the [struct condition] at every address, so that a structure that
    [kmalloc] returns has whatever contents its memory had.  The
    registers a suspended thread keeps in its context belong to thrasm.s; of
    what a suspended thread keeps on its stack the model has the
    [saved_intr_state] of its call of [suspend_self] ([frames]), which is [None]
    for a thread that does not continue in [suspend_self]: one that has not run
    yet, or the parent of a fork.  [suspend_self] is the whole switch, from the
    call in the suspended thread to the point where the resumed thread continues:
    [suspend_out] is what runs before [_thread_swtch] and [suspend_in] what runs
    after it, in the resumed thread. *)

From S2P Require Import Prelude PhysMem PageTable.

(** ** Data *)

Definition NTHR : Z := 16.
Definition MAIN_TID : Z := 0.
Definition IDLE_TID : Z := NTHR - 1.

Inductive thread_state :=
| THREAD_UNINITIALIZED | THREAD_STOPPED | THREAD_WAITING
| THREAD_RUNNING | THREAD_READY | THREAD_EXITED.
#[global] Instance thread_state_eq_dec : EqDecision thread_state.
Proof. solve_decision. Defined.

Definition thread_state_name (st : thread_state) : string :=
  match st with
  | THREAD_UNINITIALIZED => "UNINITIALIZED"
  | THREAD_STOPPED => "STOPPED"
  | THREAD_WAITING => "WAITING"
  | THREAD_RUNNING => "RUNNING"
  | THREAD_READY => "READY"
  | THREAD_EXITED => "EXITED"
  end%string.

Record thread_list := mkList { head : Z; tail : Z }.
Record condition := mkCond { cname : Z; wait_list : thread_list }.

Record thread := mkThread {
  name : Z;
  stack_base : Z;
  stack_size : Z;
  state : thread_state;
  id : Z;
  proc : Z;
  parent : Z;
  list_next : Z;
  wait_cond : Z
}.

(** [sizeof(struct thread)] and the place of [child_exit] in it: 14 saved
    registers, then the members in their order. *)
Definition THREAD_SZ : Z := 200.
Definition child_exit (thr : Z) : Z := thr + 176.
(** [sizeof(struct thread_stack_anchor)]. *)
Definition ANCHOR_SZ : Z := 16.

Record kthreads := mkThreads {
  threads : Z -> thread;
  conds : Z -> condition;
  ready_list : thread_list;
  thrtab : list Z;
  tp : Z;
  sie : bool;
  frames : Z -> option bool;
  pages : kmem;
  proc_mtag : Z -> Z
}.

Definition upd {A} (f : Z -> A) (a : Z) (x : A) : Z -> A := fun b => if b =? a then x else f b.

Definition with_threads th s := mkThreads th (conds s) (ready_list s) (thrtab s)
  (tp s) (sie s) (frames s) (pages s) (proc_mtag s).
Definition with_conds c s := mkThreads (threads s) c (ready_list s) (thrtab s)
  (tp s) (sie s) (frames s) (pages s) (proc_mtag s).
Definition with_ready l s := mkThreads (threads s) (conds s) l (thrtab s)
  (tp s) (sie s) (frames s) (pages s) (proc_mtag s).
Definition with_thrtab t s := mkThreads (threads s) (conds s) (ready_list s) t
  (tp s) (sie s) (frames s) (pages s) (proc_mtag s).
Definition with_tp t s := mkThreads (threads s) (conds s) (ready_list s) (thrtab s)
  t (sie s) (frames s) (pages s) (proc_mtag s).
Definition with_sie b s := mkThreads (threads s) (conds s) (ready_list s) (thrtab s)
  (tp s) b (frames s) (pages s) (proc_mtag s).
Definition with_frames f s := mkThreads (threads s) (conds s) (ready_list s) (thrtab s)
  (tp s) (sie s) f (pages s) (proc_mtag s).
Definition with_pages k s := mkThreads (threads s) (conds s) (ready_list s) (thrtab s)
  (tp s) (sie s) (frames s) k (proc_mtag s).
Definition with_mtag p m s := mkThreads (threads s) (conds s) (ready_list s) (thrtab s)
  (tp s) (sie s) (frames s) (pages s) (upd (proc_mtag s) p m).

Definition set_state x t := mkThread (name t) (stack_base t) (stack_size t) x (id t)
  (proc t) (parent t) (list_next t) (wait_cond t).
Definition set_proc x t := mkThread (name t) (stack_base t) (stack_size t) (state t) (id t)
  x (parent t) (list_next t) (wait_cond t).
Definition set_parent x t := mkThread (name t) (stack_base t) (stack_size t) (state t) (id t)
  (proc t) x (list_next t) (wait_cond t).
Definition set_list_next x t := mkThread (name t) (stack_base t) (stack_size t) (state t) (id t)
  (proc t) (parent t) x (wait_cond t).
Definition set_wait_cond x t := mkThread (name t) (stack_base t) (stack_size t) (state t) (id t)
  (proc t) (parent t) (list_next t) x.
Definition set_stack b z t := mkThread (name t) b z (state t) (id t)
  (proc t) (parent t) (list_next t) (wait_cond t).

Notation T := (M kthreads).

(** Access to the structure a pointer points to. *)
Definition rd_thr (a : Z) : T thread :=
  if a =? 0 then undef "null thread" else gets (fun s => threads s a).
Definition upd_thr (a : Z) (f : thread -> thread) : T unit :=
  if a =? 0 then undef "null thread"
  else modify (fun s => with_threads (upd (threads s) a (f (threads s a))) s).
Definition on_pages {A} (m : M kmem A) : T A := fun s =>
  obind (m (pages s)) (fun '(a, k) => Ok (a, with_pages k s)).

Definition CURTHR : T Z := gets tp.
Definition set_thread_state (a : Z) (x : thread_state) : T unit := upd_thr a (set_state x).
Definition set_running_thread (thr : Z) : T unit := modify (with_tp thr).

(** intr.h *)
Definition intr_enable : T bool := b ← gets sie; modify (with_sie true) ;; mret b.
Definition intr_disable : T bool := b ← gets sie; modify (with_sie false) ;; mret b.
Definition intr_restore (saved : bool) : T unit := modify (with_sie saved).

(** ** Thread lists *)

(** Where a list is: the ready-to-run list or the list of a condition. *)
Inductive place := Ready | Waiters (cond : Z).

Definition get_list (p : place) (s : kthreads) : thread_list :=
  match p with Ready => ready_list s | Waiters c => wait_list (conds s c) end.
Definition set_list (p : place) (l : thread_list) : T unit :=
  modify (fun s => match p with
  | Ready => with_ready l s
  | Waiters c => with_conds (upd (conds s) c (mkCond (cname (conds s c)) l)) s
  end).

Definition tlclear (l : place) : T unit := set_list l (mkList 0 0).

Definition tlempty (l : place) : T bool := gets (fun s => head (get_list l s) =? 0).

Definition tlinsert (l : place) (thr : Z) : T unit :=
  upd_thr thr (set_list_next 0) ;;
  if thr =? 0 then mret tt
  else
    q ← gets (get_list l);
    (if negb (tail q =? 0) then
       cassert (negb (head q =? 0)) ;;
       upd_thr (tail q) (set_list_next thr)
     else
       cassert (head q =? 0) ;;
       set_list l (mkList thr (tail q))) ;;
    q' ← gets (get_list l);
    set_list l (mkList (head q') thr).

Definition tlremove (l : place) : T Z :=
  q ← gets (get_list l);
  let thr := head q in
  if thr =? 0 then mret 0
  else
    t ← rd_thr thr;
    set_list l (mkList (list_next t) (tail q)) ;;
    (if negb (list_next t =? 0) then upd_thr thr (set_list_next 0)
     else set_list l (mkList (list_next t) 0)) ;;
    upd_thr thr (set_list_next 0) ;;
    mret thr.

Definition tlappend (l0 l1 : place) : T unit :=
  q0 ← gets (get_list l0);
  q1 ← gets (get_list l1);
  (if negb (head q0 =? 0) then
     cassert (negb (tail q0 =? 0)) ;;
     if negb (head q1 =? 0) then
       cassert (negb (tail q1 =? 0)) ;;
       upd_thr (tail q0) (set_list_next (head q1)) ;;
       set_list l0 (mkList (head q0) (tail q1))
     else mret tt
   else
     cassert (tail q0 =? 0) ;;
     set_list l0 (mkList (head q1) (tail q1))) ;;
  set_list l1 (mkList 0 0).

(** ** Switching threads *)

(** The part of [suspend_self] that runs in the suspending thread, with the
    switch itself; the result is the suspended thread, which [_thread_swtch]
    returns in the resumed one. *)
Definition suspend_out : T Z :=
  e ← tlempty Ready;
  cassert (negb e) ;;
  susp_thread ← CURTHR;
  saved_intr_state ← intr_disable;
  next_thread ← tlremove Ready;
  tn ← rd_thr next_thread;
  cassert (bool_decide (state tn = THREAD_READY)) ;;
  set_thread_state next_thread THREAD_RUNNING ;;
  ts ← rd_thr susp_thread;
  (if bool_decide (state ts = THREAD_RUNNING) then
     set_thread_state susp_thread THREAD_READY ;;
     tlinsert Ready susp_thread
   else mret tt) ;;
  intr_enable ;;
  tn' ← rd_thr next_thread;
  (if negb (proc tn' =? 0) then
     s ← get;
     on_pages (memory_space_switch (proc_mtag s (proc tn'))) ;; mret tt
   else mret tt) ;;
  modify (fun s => with_frames (upd (frames s) susp_thread (Some saved_intr_state)) s) ;;
  modify (with_tp next_thread) ;;
  mret susp_thread.

(** The part that runs in the resumed thread. *)
Definition suspend_in (prev_thread : Z) (saved_intr_state : bool) : T unit :=
  t ← rd_thr prev_thread;
  (if bool_decide (state t = THREAD_EXITED) then
     on_pages (memory_free_page (stack_base t - PAGE_SIZE)) ;;
     upd_thr prev_thread (set_stack 0 0)
   else mret tt) ;;
  intr_restore saved_intr_state.

(** A thread without a frame of [suspend_self] continues elsewhere, a new one at
    the entry code that [_thread_setup] prepared, with interrupts enabled. *)
Definition suspend_self : T unit :=
  prev ← suspend_out;
  s ← get;
  match frames s (tp s) with
  | Some saved => suspend_in prev saved
  | None => mret tt
  end.

Definition thread_yield : T unit :=
  cur ← CURTHR;
  t ← rd_thr cur;
  cassert (bool_decide (state t = THREAD_RUNNING)) ;;
  suspend_self.

(** One pass of the loops of [idle_thread_func], up to the next test of the
    ready list; the result says whether the pass went to sleep ([wfi], which
    leaves the state as it is until an interrupt comes). *)
Definition idle_thread_func : T bool :=
  e ← tlempty Ready;
  if negb e then thread_yield ;; mret false
  else
    intr_disable ;;
    wfi ← tlempty Ready;
    intr_enable ;;
    mret wfi.

(** ** Condition variables *)

Definition condition_init (cond nm : Z) : T unit :=
  modify (fun s => with_conds (upd (conds s) cond (mkCond nm (wait_list (conds s cond)))) s) ;;
  tlclear (Waiters cond).

Definition condition_wait (cond : Z) : T unit :=
  cur ← CURTHR;
  t ← rd_thr cur;
  cassert (bool_decide (state t = THREAD_RUNNING)) ;;
  set_thread_state cur THREAD_WAITING ;;
  upd_thr cur (set_wait_cond cond) ;;
  upd_thr cur (set_list_next 0) ;;
  saved_intr_state ← intr_disable;
  tlinsert (Waiters cond) cur ;;
  intr_restore saved_intr_state ;;
  suspend_self.

(** The loop of [condition_broadcast] over the waiting threads. *)
Fixpoint wake_all (fuel : nat) (cond thr : Z) : T unit :=
  if thr =? 0 then mret tt
  else match fuel with
  | O => fun _ => Fuel
  | S fuel' =>
    t ← rd_thr thr;
    cassert (bool_decide (state t = THREAD_WAITING)) ;;
    cassert (wait_cond t =? cond) ;;
    set_thread_state thr THREAD_READY ;;
    upd_thr thr (set_wait_cond 0) ;;
    t' ← rd_thr thr;
    wake_all fuel' cond (list_next t')
  end.

Definition condition_broadcast (cond : Z) : T unit :=
  e ← tlempty (Waiters cond);
  if e : bool then mret tt
  else
    saved_intr_state ← intr_disable;
    q ← gets (get_list (Waiters cond));
    wake_all (Z.to_nat NTHR) cond (head q) ;;
    tlappend Ready (Waiters cond) ;;
    tlclear (Waiters cond) ;;
    intr_restore saved_intr_state.

(** ** Creating and ending threads *)

Definition running_thread : T Z := cur ← CURTHR; t ← rd_thr cur; mret (id t).

(** [while (++tid < NTHR) if (thrtab[tid] == NULL) break;]: the first free slot
    among [tids]. *)
Fixpoint free_tid (tab : list Z) (tids : list Z) : option Z :=
  match tids with
  | [] => None
  | tid :: tids' =>
    match tab !! Z.to_nat tid with
    | Some 0 => Some tid
    | _ => free_tid tab tids'
    end
  end.

Definition thread_spawn (nm : Z) : T Z :=
  s ← get;
  match free_tid (thrtab s) (range 15 1 NTHR 1) with
  | None => panic "Too many threads"
  | Some tid =>
    child ← on_pages (kmalloc THREAD_SZ);
    stack_page ← on_pages memory_alloc_page;
    let stack_anchor := stack_page + PAGE_SIZE - ANCHOR_SZ in
    on_pages (store stack_anchor child) ;;
    on_pages (store (stack_anchor + 8) 0) ;;
    modify (fun s => with_thrtab (<[Z.to_nat tid := child]> (thrtab s)) s) ;;
    cur ← CURTHR;
    tc ← rd_thr cur;
    upd_thr child (fun t => mkThread nm stack_anchor (stack_anchor - stack_page) (state t)
                     tid (proc tc) cur (list_next t) (wait_cond t)) ;;
    set_thread_state child THREAD_READY ;;
    saved_intr_state ← intr_disable;
    tlinsert Ready child ;;
    intr_restore saved_intr_state ;;
    modify (fun s => with_frames (upd (frames s) child None) s) ;;
    mret tid
  end.

Definition halt_success {A} : T A := fun _ => Halt.

(** The static structures of thread.c and the ends of the two static stacks of
    thrasm.s. *)
Section Statics.
Variable main_thread idle_thread : Z.
Variable main_anchor main_lowest idle_anchor idle_lowest : Z.

(** [thread_exit] does not return: what follows the switch is the code of the
    thread that runs next. *)
Definition thread_exit : T unit :=
  cur ← CURTHR;
  if cur =? main_thread then halt_success
  else
    set_thread_state cur THREAD_EXITED ;;
    t ← rd_thr cur;
    cassert (negb (parent t =? 0)) ;;
    condition_broadcast (child_exit (parent t)) ;;
    suspend_self.

Definition init_main_thread : T unit :=
  upd_thr main_thread (set_stack main_anchor (main_anchor - main_lowest)).

Definition init_idle_thread : T unit :=
  upd_thr idle_thread (set_stack idle_anchor (idle_anchor - idle_lowest)) ;;
  modify (fun s => with_frames (upd (frames s) idle_thread None) s) ;;
  tlinsert Ready idle_thread.

Definition thread_init : T unit :=
  init_main_thread ;;
  init_idle_thread ;;
  set_running_thread main_thread.

(** The static initialisers of [main_thread], [idle_thread], [thrtab] and
    [ready_list]; every other structure and the rest of the state is [s]'s. *)
Definition static_main : thread :=
  mkThread 0 0 0 THREAD_RUNNING MAIN_TID 0 0 0 0.
Definition static_idle : thread :=
  mkThread 0 0 0 THREAD_READY IDLE_TID 0 main_thread 0 0.
Definition static_state (s : kthreads) : kthreads :=
  mkThreads (upd (upd (threads s) main_thread static_main) idle_thread static_idle)
    (fun _ => mkCond 0 (mkList 0 0)) (mkList 0 0)
    (main_thread :: replicate 14 0 ++ [idle_thread]) (tp s) false (fun _ => None)
    (pages s) (proc_mtag s).
End Statics.

(** [thrtab[tid]]; an index outside the array is undefined. *)
Definition thrtab_at (tid : Z) : T Z :=
  if (tid <? 0) || (NTHR <=? tid) then undef "thrtab index"
  else s ← get; match thrtab s !! Z.to_nat tid with
                | Some a => mret a
                | None => undef "thrtab index"
                end.

(** The children of [thr] in the slots [tids] become children of [par]. *)
Fixpoint reparent (thr par : Z) (tids : list Z) : T unit :=
  match tids with
  | [] => mret tt
  | ctid :: tids' =>
    c ← thrtab_at ctid;
    (if negb (c =? 0) then
       t ← rd_thr c;
       if parent t =? thr then upd_thr c (set_parent par) else mret tt
     else mret tt) ;;
    reparent thr par tids'
  end.

Definition recycle_thread (tid : Z) : T unit :=
  thr ← thrtab_at tid;
  cassert ((0 <? tid) && (tid <? NTHR) && negb (thr =? 0)) ;;
  t ← rd_thr thr;
  cassert (bool_decide (state t = THREAD_EXITED)) ;;
  reparent thr (parent t) (range 15 1 NTHR 1) ;;
  modify (fun s => with_thrtab (<[Z.to_nat tid := 0]> (thrtab s)) s) ;;
  on_pages (kfree thr).

(** One round of the loop of [thread_join]: the result, or [None] when the
    caller has gone to wait for [child_exit] and another thread runs. *)
Definition join_round (child tid : Z) : T (option Z) :=
  t ← rd_thr child;
  if negb (bool_decide (state t = THREAD_EXITED)) then
    cur ← CURTHR;
    condition_wait (child_exit cur) ;;
    mret None
  else
    recycle_thread tid ;;
    mret (Some tid).

Definition thread_join (tid : Z) : T (option Z) :=
  child ← thrtab_at tid;
  if (tid <=? 0) || (NTHR <=? tid) then mret (Some (-1))
  else
    cur ← CURTHR;
    if child =? 0 then mret (Some (-1))
    else
      t ← rd_thr child;
      if negb (parent t =? cur) then mret (Some (-1))
      else join_round child tid.

(** The first loop of [thread_join_any]: an exited child, or the number of
    children. *)
Fixpoint scan_children (cur : Z) (tids : list Z) (childcnt : Z) : T (Z + Z) :=
  match tids with
  | [] => mret (inr childcnt)
  | tid :: tids' =>
    c ← thrtab_at tid;
    if c =? 0 then scan_children cur tids' childcnt
    else
      t ← rd_thr c;
      if parent t =? cur then
        if bool_decide (state t = THREAD_EXITED) then mret (inl tid)
        else scan_children cur tids' (childcnt + 1)
      else scan_children cur tids' childcnt
  end.

Definition thread_join_any : T (option Z) :=
  cur ← CURTHR;
  r ← scan_children cur (range 15 1 NTHR 1) 0;
  match r with
  | inl tid => thread_join tid
  | inr childcnt =>
    if childcnt =? 0 then panic "thread_wait called by childless thread"
    else condition_wait (child_exit cur) ;; mret None
  end.

(** What [thread_join_any] does when the wait returns. *)
Definition join_any_resumed : T Z :=
  cur ← CURTHR;
  r ← scan_children cur (range 15 1 NTHR 1) 0;
  match r with
  | inl tid => recycle_thread tid ;; mret tid
  | inr _ => panic "spurious child_exit signal"
  end.

(** [assert (0 <= tid || tid < NTHR)] holds for every [tid]. *)
Definition tid_thread (tid : Z) : T Z :=
  cassert ((0 <=? tid) || (tid <? NTHR)) ;;
  a ← thrtab_at tid;
  cassert (negb (a =? 0)) ;;
  mret a.
Definition thread_process (tid : Z) : T Z := a ← tid_thread tid; t ← rd_thr a; mret (proc t).
Definition thread_set_process (tid pr : Z) : T unit := a ← tid_thread tid; upd_thr a (set_proc pr).
Definition thread_name (tid : Z) : T Z := a ← tid_thread tid; t ← rd_thr a; mret (name t).

(** [thread_fork_to_user]: [tid0] is the member [tid] of the child's process
    before the call, the result its value afterwards.  [_thread_finish_fork]
    makes the child the running thread; the parent continues after it when it
    is next scheduled. *)
Definition thread_fork_to_user (child_proc tid0 parent_thread : Z) : T Z :=
  child_thread ← on_pages (kmalloc THREAD_SZ);
  stack_page ← on_pages memory_alloc_page;
  let stack_anchor := stack_page + PAGE_SIZE - ANCHOR_SZ in
  on_pages (store stack_anchor child_thread) ;;
  on_pages (store (stack_anchor + 8) 0) ;;
  s ← get;
  let slot := free_tid (thrtab s) (range 16 0 NTHR 1) in
  let tid := default tid0 slot in
  (match slot with
   | Some i => modify (fun s => with_thrtab (<[Z.to_nat i := child_thread]> (thrtab s)) s)
   | None => mret tt
   end) ;;
  tpar ← rd_thr parent_thread;
  upd_thr child_thread (fun t => mkThread (name tpar) stack_anchor (stack_anchor - stack_page)
    (state t) tid child_proc parent_thread (list_next t) (wait_cond t)) ;;
  saved_intr_state ← intr_disable;
  tlinsert Ready parent_thread ;;
  set_thread_state parent_thread THREAD_READY ;;
  set_thread_state child_thread THREAD_RUNNING ;;
  intr_restore saved_intr_state ;;
  modify (fun s => with_frames (upd (frames s) parent_thread None) s) ;;
  modify (with_tp child_thread) ;;
  mret tid.

(** ** Entering user mode *)

(** The processor after the [sret] that ends [_thread_finish_jump]: the program
    counter, the privilege (whether it is supervisor mode), the stack pointer and
    [sscratch], from which the next trap takes its stack and its thread. *)
Record umode := mkUmode { u_pc : Z; u_supervisor : bool; u_sp : Z; u_sscratch : Z }.

(** [sret]: the program counter comes from [sepc], the privilege from
    [sstatus.SPP] and the interrupt enable from [sstatus.SPIE]. *)
Definition sret (sepc : Z) (spie spp : bool) (sp sscratch : Z) : T umode :=
  modify (with_sie spie) ;;
  mret (mkUmode sepc spp sp sscratch).

Definition thread_jump_to_user (usp upc : Z) : T umode :=
  intr_disable ;;
  let sepc := upc in
  let spie := true in
  let spp := false in
  cur ← CURTHR;
  t ← rd_thr cur;
  sret sepc spie spp usp (stack_base t).

(** ** Lists of threads as queues *)

#[global] Instance place_eq_dec : EqDecision place.
Proof. solve_decision. Defined.

(** The threads of [l] are linked through [list_next] in this order. *)
Fixpoint seg (th : Z -> thread) (l : list Z) : Prop :=
  match l with
  | [] => True
  | t :: r => t <> 0 /\ list_next (th t) = List.hd 0 r /\ seg th r
  end.

Definition queue (th : Z -> thread) (q : thread_list) (l : list Z) : Prop :=
  head q = List.hd 0 l /\ tail q = List.last l 0 /\ seg th l.

Lemma upd_eq {A} (f : Z -> A) a x : upd f a x a = x.
Proof. unfold upd. by rewrite Z.eqb_refl. Qed.
Lemma upd_ne {A} (f : Z -> A) a b x : b <> a -> upd f a x b = f b.
Proof. intros. unfold upd. by rewrite (proj2 (Z.eqb_neq b a)). Qed.

Lemma seg_frame th th' l :
  (forall t, t ∈ l -> list_next (th' t) = list_next (th t)) -> seg th l -> seg th' l.
Proof.
  induction l as [|t r IH]; simpl; [done|]. intros Hf (H0 & Hn & Hs).
  rewrite (Hf t) by set_solver. split_and!; [done..|]. apply IH; [|done].
  intros. apply Hf. set_solver.
Qed.

Lemma seg_nonzero th l t : seg th l -> t ∈ l -> t <> 0.
Proof.
  induction l as [|x r IH]; simpl; [set_solver|]. intros (H0 & _ & Hs) Ht.
  apply elem_of_cons in Ht as [->|Ht]; [done|]. by apply IH.
Qed.

Lemma seg_hd th l : seg th l -> List.hd 0 l = 0 <-> l = [].
Proof. destruct l; simpl; [done|]. intros (? & _). naive_solver. Qed.

Lemma last_snoc (l : list Z) x : List.last (l ++ [x]) 0 = x.
Proof. apply List.last_last. Qed.

Lemma seg_last th l : seg th l -> List.last l 0 = 0 <-> l = [].
Proof.
  destruct l as [|x l] using rev_ind; simpl; [done|]. rewrite last_snoc.
  intros Hs. split; [|by destruct l]. intros ->.
  exfalso. apply (seg_nonzero _ _ 0 Hs); [set_solver|done].
Qed.

(** Two lists joined by setting [list_next] of the last thread of the first. *)
Lemma seg_join th l0 x l1 :
  seg th (l0 ++ [x]) -> seg th l1 -> NoDup (l0 ++ [x]) -> (forall t, t ∈ l1 -> t <> x) ->
  seg (upd th x (set_list_next (List.hd 0 l1) (th x))) ((l0 ++ [x]) ++ l1).
Proof.
  intros Hs H1 Hnd Hne. induction l0 as [|t r IH]; simpl in *.
  - destruct Hs as (H0 & _ & _). rewrite upd_eq. split_and!; [done..|].
    eapply seg_frame; [|done]. intros t Ht. by rewrite upd_ne by (by apply Hne).
  - destruct Hs as (H0 & Hn & Hs). apply NoDup_cons in Hnd as [Ht Hnd].
    rewrite upd_ne by set_solver. split_and!; [done| |by apply IH].
    rewrite Hn. by destruct r.
Qed.

(** The operations change nothing but links and lists. *)
Definition body (t : thread) : thread := set_list_next 0 t.

Record same_rest (s s' : kthreads) : Prop := {
  sr_body : forall t, body (threads s' t) = body (threads s t);
  sr_tab : thrtab s' = thrtab s;
  sr_tp : tp s' = tp s;
  sr_sie : sie s' = sie s;
  sr_frames : frames s' = frames s;
  sr_pages : pages s' = pages s;
  sr_mtag : proc_mtag s' = proc_mtag s
}.

#[global] Instance same_rest_refl : Reflexive same_rest.
Proof. by intros s; constructor. Qed.
#[global] Instance same_rest_trans : Transitive same_rest.
Proof. intros a b c [] []; constructor; intros; congruence. Qed.

Definition at_place (qs : place -> list Z) (p : place) (l : list Z) : place -> list Z :=
  fun p' => if decide (p' = p) then l else qs p'.

Lemma at_place_eq qs p l : at_place qs p l p = l.
Proof. unfold at_place. by rewrite decide_True. Qed.
Lemma at_place_ne qs p p' l : p' <> p -> at_place qs p l p' = qs p'.
Proof. intros. unfold at_place. by rewrite decide_False. Qed.

Definition put_list (p : place) (l : thread_list) (s : kthreads) : kthreads :=
  match p with
  | Ready => with_ready l s
  | Waiters c => with_conds (upd (conds s) c (mkCond (cname (conds s c)) l)) s
  end.

Lemma get_put_eq p l s : get_list p (put_list p l s) = l.
Proof. destruct p; simpl; [done|]. by rewrite upd_eq. Qed.
Lemma get_put_ne p p' l s : p' <> p -> get_list p' (put_list p l s) = get_list p' s.
Proof. destruct p, p'; simpl; try done. intros. rewrite upd_ne; [done|]. congruence. Qed.
Lemma threads_put p l s : threads (put_list p l s) = threads s.
Proof. by destruct p. Qed.
Lemma same_rest_put p l s : same_rest s (put_list p l s).
Proof. by destruct p; constructor. Qed.

Definition put_thr (a : Z) (f : thread -> thread) (s : kthreads) : kthreads :=
  with_threads (upd (threads s) a (f (threads s a))) s.

Lemma get_list_put_thr p a f s : get_list p (put_thr a f s) = get_list p s.
Proof. by destruct p. Qed.
Lemma same_rest_link a x s : same_rest s (put_thr a (set_list_next x) s).
Proof.
  constructor; try done. intros t. unfold put_thr. simpl. unfold upd.
  destruct (Z.eqb_spec t a) as [->|]; done.
Qed.

Lemma run_rd_thr a s : a <> 0 -> rd_thr a s = Ok (threads s a, s).
Proof. intros. unfold rd_thr. by rewrite (proj2 (Z.eqb_neq a 0)). Qed.
Lemma run_upd_thr a f s : a <> 0 -> upd_thr a f s = Ok (tt, put_thr a f s).
Proof. intros. unfold upd_thr. by rewrite (proj2 (Z.eqb_neq a 0)). Qed.

Lemma run_set_state a x s : a <> 0 -> set_thread_state a x s = Ok (tt, put_thr a (set_state x) s).
Proof. apply run_upd_thr. Qed.
Lemma run_set_list p l s : set_list p l s = Ok (tt, put_list p l s).
Proof. by destruct p. Qed.

(** Splits a decision in the goal. *)
Tactic Notation "case_goal" "as" ident(H) :=
  match goal with |- context [decide ?P] => destruct (decide P) as [H|H] end.
Tactic Notation "case_goal" := let H := fresh in case_goal as H.

(** Runs the primitive operations at the front of a goal. *)
Ltac run_prim :=
  unfold CURTHR;
  repeat (first [ rewrite bind_run
          | rewrite run_rd_thr by (first [assumption | done])
          | rewrite run_upd_thr by (first [assumption | done])
          | rewrite run_set_list
          | rewrite run_get | rewrite run_gets | rewrite run_modify | rewrite run_ret
          | rewrite run_assert by (first [reflexivity | assumption]) ];
    cbn [obind]).

Section Sched.
(** The conditions that have been initialised. *)
Variable live : Z -> Prop.

Definition live_place (p : place) : Prop := match p with Ready => True | Waiters c => live c end.

(** Every list is a queue of its own threads, and no thread is in two. *)
Record queues (s : kthreads) (qs : place -> list Z) : Prop := {
  q_queue : forall p, live_place p -> queue (threads s) (get_list p s) (qs p);
  q_nodup : forall p, NoDup (qs p);
  q_disj : forall p p' t, t ∈ qs p -> t ∈ qs p' -> p = p';
  q_live : forall p t, t ∈ qs p -> live_place p
}.

(** The queues of a state are determined place by place. *)
#[local] Instance queues_proper s : Proper (pointwise_relation place eq ==> iff) (queues s).
Proof.
  intros qs qs' E. split; intros [Hq Hn Hd Hl]; constructor; intros *;
    rewrite <- ?E || rewrite ?E; eauto.
Qed.

Lemma at_place_id qs p : pointwise_relation place eq (at_place qs p (qs p)) qs.
Proof. intros p'. unfold at_place. by case_decide; subst. Qed.

Lemma queues_frame s s' qs :
  queues s qs ->
  (forall t p, t ∈ qs p -> list_next (threads s' t) = list_next (threads s t)) ->
  (forall p, live_place p -> get_list p s' = get_list p s) ->
  queues s' qs.
Proof.
  intros [Hq Hn Hd Hl] Ht Hg. constructor; try done.
  intros p Hp. rewrite (Hg p Hp). destruct (Hq p Hp) as (E1 & E2 & Hs).
  split_and!; [done..|]. eapply seg_frame; [|done]. intros. by apply (Ht _ p).
Qed.

(** A change of the links of one queue leaves the others alone. *)
Lemma queues_change s s' qs p l :
  queues s qs -> live_place p ->
  (forall t, t ∉ l -> t ∉ qs p -> list_next (threads s' t) = list_next (threads s t)) ->
  (forall p', live_place p' -> p' <> p -> get_list p' s' = get_list p' s) ->
  (forall t p', t ∈ l -> t ∈ qs p' -> p' = p) ->
  NoDup l -> queue (threads s') (get_list p s') l ->
  queues s' (at_place qs p l).
Proof.
  intros [Hq Hn Hd Hl] Hp Hlink Hother Hfresh Hnl Hql. constructor.
  - intros p' Hp'. destruct (decide (p' = p)) as [->|Hne].
    + by rewrite at_place_eq.
    + rewrite at_place_ne, Hother by done. destruct (Hq p' Hp') as (E1 & E2 & Hs).
      split_and!; [done..|]. eapply seg_frame; [|done]. intros t Ht. apply Hlink.
      * intros Hin. apply Hne. by apply (Hfresh t).
      * intros Hin. apply Hne. by apply (Hd _ _ t).
  - intros p'. unfold at_place. by case_decide.
  - intros p1 p2 t. unfold at_place. do 2 case_decide; subst; try done.
    + intros H1 H2. symmetry. by apply (Hfresh t).
    + intros H1 H2. by apply (Hfresh t).
    + apply Hd.
  - intros p' t. unfold at_place. case_decide; subst; [done|apply Hl].
Qed.


(** [tlinsert] on an empty and on a non-empty list. *)
Lemma tlinsert_nil p thr s :
  get_list p s = mkList 0 0 -> thr <> 0 ->
  tlinsert p thr s = Ok (tt, put_list p (mkList thr thr) (put_list p (mkList thr 0)
    (put_thr thr (set_list_next 0) s))).
Proof.
  intros E H0. unfold tlinsert. run_prim. rewrite (proj2 (Z.eqb_neq thr 0)) by done. run_prim.
  rewrite get_list_put_thr, E. cbn [tail head Z.eqb negb]. run_prim.
  by rewrite get_put_eq.
Qed.

Lemma tlinsert_snoc p thr s h x :
  get_list p s = mkList h x -> thr <> 0 -> h <> 0 -> x <> 0 ->
  tlinsert p thr s = Ok (tt, put_list p (mkList h thr) (put_thr x (set_list_next thr)
    (put_thr thr (set_list_next 0) s))).
Proof.
  intros E H0 Hh Hx. unfold tlinsert. run_prim. rewrite (proj2 (Z.eqb_neq thr 0)) by done. run_prim.
  rewrite get_list_put_thr, E. cbn [tail head]. rewrite (proj2 (Z.eqb_neq x 0)) by done.
  rewrite (proj2 (Z.eqb_neq h 0)) by done. cbn [negb]. run_prim.
  by rewrite !get_list_put_thr, E.
Qed.

Lemma mkList_eta q : q = mkList (head q) (tail q).
Proof. by destruct q. Qed.

Lemma tlinsert_run p thr s qs :
  queues s qs -> live_place p -> thr <> 0 -> (forall p', thr ∉ qs p') ->
  exists s', tlinsert p thr s = Ok (tt, s') /\ queues s' (at_place qs p (qs p ++ [thr])) /\
    same_rest s s'.
Proof.
  intros Hqs Hp H0 Hnew. destruct (q_queue _ _ Hqs p Hp) as (Eh & Et & Hs).
  pose proof (q_nodup _ _ Hqs p) as Hnd. pose proof (Hnew p) as Hnp.
  assert (Hnd' : NoDup (qs p ++ [thr])).
  { apply NoDup_app. split_and!; [done|set_solver|apply NoDup_singleton]. }
  assert (Hf : forall t p', t ∈ qs p ++ [thr] -> t ∈ qs p' -> p' = p).
  { intros t p' Ht Ht'. apply elem_of_app in Ht as [Ht|Ht].
    - by apply (q_disj _ _ Hqs _ _ t).
    - exfalso. apply (Hnew p'). set_solver. }
  pose proof (mkList_eta (get_list p s)) as Eq.
  destruct (qs p) as [|x0 l0] eqn:El; [|destruct (exists_last (l := x0 :: l0)) as (l & x & Ex); [done|]].
  - simpl in Eh, Et. rewrite Eh, Et in Eq. eexists. split; [by apply tlinsert_nil|]. split.
    + apply (queues_change s); try done.
      * intros t Ht _. rewrite !threads_put. unfold put_thr. simpl. rewrite upd_ne; [done|set_solver].
      * intros p' _ Hne. by rewrite !get_put_ne, get_list_put_thr.
      * rewrite !threads_put, get_put_eq. unfold put_thr. simpl.
        split_and!; try done. simpl. by rewrite upd_eq.
    + etrans; [apply same_rest_link|]. etrans; apply same_rest_put.
  - assert (Hx : x <> 0). { apply (seg_nonzero _ _ _ Hs). rewrite Ex. set_solver. }
    assert (Hx0 : x0 <> 0). { apply (seg_nonzero _ _ _ Hs). set_solver. }
    rewrite Eh, Et in Eq. rewrite Ex in Eq at 2. rewrite last_snoc in Eq. simpl in Eq.
    eexists. split; [by apply (tlinsert_snoc _ _ _ _ _ Eq)|]. split.
    + apply (queues_change s); try done.
      * intros t Ht _. rewrite !threads_put. unfold put_thr. simpl.
        rewrite !upd_ne; [done|set_solver|rewrite Ex in Ht; set_solver].
      * intros p' _ Hne. by rewrite get_put_ne, !get_list_put_thr.
      * rewrite threads_put, get_put_eq. split_and!; [done|by rewrite last_snoc|].
        rewrite Ex in Hs, Hnd, Hnp |- *. unfold put_thr. simpl.
        set (th := upd (threads s) thr (set_list_next 0 (threads s thr))).
        apply (seg_join th l x [thr]); [|simpl|done|set_solver].
        -- eapply seg_frame; [|done]. intros t Ht. subst th. rewrite upd_ne; [done|set_solver].
        -- subst th. by rewrite upd_eq.
    + etrans; [apply same_rest_link|]. etrans; [apply same_rest_link|]. apply same_rest_put.
Qed.

Lemma tlremove_run p s qs t r :
  queues s qs -> live_place p -> qs p = t :: r ->
  exists s', tlremove p s = Ok (t, s') /\ queues s' (at_place qs p r) /\ same_rest s s'.
Proof.
  intros Hqs Hp El. destruct (q_queue _ _ Hqs p Hp) as (Eh & Et & Hs).
  pose proof (q_nodup _ _ Hqs p) as Hnd. rewrite El in *. simpl in Eh, Hs.
  destruct Hs as (H0 & Hn & Hs). apply NoDup_cons in Hnd as [Ht Hnd].
  unfold tlremove. run_prim. rewrite Eh. rewrite (proj2 (Z.eqb_neq t 0)) by done. run_prim.
  rewrite Hn.
  assert (G : forall s', (forall b, b <> t -> threads s' b = threads s b) ->
    list_next (threads s' t) = 0 ->
    (forall p', p' <> p -> get_list p' s' = get_list p' s) ->
    get_list p s' = mkList (List.hd 0 r) (List.last r 0) -> queues s' (at_place qs p r)).
  { intros s' Eth Enx Hg Hgp. apply (queues_change s); try done.
    - intros t' _ Hn'. rewrite Eth; [done|]. rewrite El in Hn'. set_solver.
    - intros p' _ Hne. by apply Hg.
    - intros t' p' Ht' Hp'. apply (q_disj _ _ Hqs _ _ t'); [done|]. rewrite El. set_solver.
    - rewrite Hgp. split_and!; [done..|]. eapply seg_frame; [|done].
      intros t' Ht'. rewrite Eth; [done|]. by intros ->. }
  destruct r as [|x r']; cbn [List.hd Z.eqb negb].
  - run_prim. eexists. split; [reflexivity|]. split.
    + apply G.
      * intros b Hb. unfold put_thr. simpl. by rewrite upd_ne, !threads_put.
      * unfold put_thr. simpl. by rewrite upd_eq.
      * intros p' Hne. by rewrite get_list_put_thr, !get_put_ne.
      * by rewrite get_list_put_thr, get_put_eq.
    + do 2 (etrans; [apply same_rest_put|]). apply same_rest_link.
  - assert (Hx : x <> 0) by (by apply Hs). rewrite (proj2 (Z.eqb_neq x 0)) by done. cbn [negb].
    run_prim. eexists. split; [reflexivity|]. split.
    + apply G.
      * intros b Hb. unfold put_thr. simpl. by rewrite !upd_ne, !threads_put.
      * unfold put_thr. simpl. by rewrite upd_eq.
      * intros p' Hne. by rewrite !get_list_put_thr, !get_put_ne.
      * rewrite !get_list_put_thr, get_put_eq. f_equal. rewrite Et. by destruct r'.
    + etrans; [apply same_rest_put|]. etrans; apply same_rest_link.
Qed.

Lemma tlappend_run p0 p1 s qs :
  queues s qs -> live_place p0 -> live_place p1 -> p0 <> p1 ->
  exists s', tlappend p0 p1 s = Ok (tt, s') /\
    queues s' (at_place (at_place qs p0 (qs p0 ++ qs p1)) p1 []) /\ same_rest s s'.
Proof.
  intros Hqs Hp0 Hp1 Hne.
  destruct (q_queue _ _ Hqs p0 Hp0) as (Eh0 & Et0 & Hs0).
  destruct (q_queue _ _ Hqs p1 Hp1) as (Eh1 & Et1 & Hs1).
  assert (Hdj : forall t, t ∈ qs p1 -> t ∉ qs p0).
  { intros t H1 H0. apply Hne. by apply (q_disj _ _ Hqs _ _ t). }
  assert (G : forall s', same_rest s s' ->
    (forall t, t ∉ qs p0 -> list_next (threads s' t) = list_next (threads s t)) ->
    (forall p, p <> p0 -> p <> p1 -> get_list p s' = get_list p s) ->
    get_list p1 s' = mkList 0 0 ->
    queue (threads s') (get_list p0 s') (qs p0 ++ qs p1) ->
    queues s' (at_place (at_place qs p0 (qs p0 ++ qs p1)) p1 [])).
  { intros s' Hr Hlink Hg Hg1 Hq0. constructor.
    - intros p Hp. destruct (decide (p = p1)) as [->|Hn1]; [rewrite at_place_eq, Hg1; done|].
      rewrite at_place_ne by done. destruct (decide (p = p0)) as [->|Hn0].
      + by rewrite at_place_eq.
      + rewrite at_place_ne, Hg by done. destruct (q_queue _ _ Hqs p Hp) as (E1 & E2 & E3).
        split_and!; [done..|]. eapply seg_frame; [|done]. intros t Ht. apply Hlink.
        intros Ht'. apply Hn0. by apply (q_disj _ _ Hqs _ _ t).
    - intros p. unfold at_place. repeat case_decide; [constructor| |apply Hqs].
      apply NoDup_app. split_and!; [apply Hqs| |apply Hqs]. intros t Ha Hb. by apply (Hdj t).
    - intros p p' t. unfold at_place. pose proof (q_disj _ _ Hqs) as Hd.
      repeat case_decide; subst; try set_solver.
    - intros p t. unfold at_place. repeat case_decide; subst; [set_solver|done|apply Hqs]. }
  unfold tlappend. run_prim. rewrite Eh0, Eh1, Et0, Et1.
  destruct (qs p0) as [|x0 l0] eqn:E0.
  - cbn [List.hd List.last Z.eqb negb]. run_prim. eexists. split; [reflexivity|].
    assert (Hr : same_rest s (put_list p1 (mkList 0 0) (put_list p0
      (mkList (List.hd 0 (qs p1)) (List.last (qs p1) 0)) s)))
      by (etrans; apply same_rest_put).
    split; [|done]. apply G; try done.
    + intros t _. by rewrite !threads_put.
    + intros p H0 H1. by rewrite !get_put_ne.
    + by rewrite get_put_eq.
    + rewrite !threads_put, get_put_ne, get_put_eq by done. done.
  - destruct (exists_last (l := x0 :: l0)) as (l & x & Ex); [done|].
    assert (Hx0 : x0 <> 0) by (apply (seg_nonzero _ _ _ Hs0); set_solver).
    assert (Hx : x <> 0) by (apply (seg_nonzero _ _ _ Hs0); rewrite Ex; set_solver).
    assert (Lx : List.last (x0 :: l0) 0 = x) by (rewrite Ex; apply last_snoc).
    cbn [List.hd]. rewrite (proj2 (Z.eqb_neq x0 0)), Lx by done.
    rewrite (proj2 (Z.eqb_neq x 0)) by done. cbn [negb]. run_prim.
    destruct (qs p1) as [|y0 r0] eqn:E1.
    + cbn [List.hd Z.eqb negb]. run_prim. eexists. split; [reflexivity|].
      split; [|apply same_rest_put]. apply G.
      * apply same_rest_put.
      * intros t _. by rewrite threads_put.
      * intros p H0 H1. by rewrite get_put_ne.
      * by rewrite get_put_eq.
      * rewrite threads_put, get_put_ne, app_nil_r by done. done.
    + assert (Hy0 : y0 <> 0) by (apply (seg_nonzero _ _ _ Hs1); set_solver).
      destruct (exists_last (l := y0 :: r0)) as (r & y & Ey); [done|].
      assert (Hy : y <> 0) by (apply (seg_nonzero _ _ _ Hs1); rewrite Ey; set_solver).
      assert (Ly : List.last (y0 :: r0) 0 = y) by (rewrite Ey; apply last_snoc).
      cbn [List.hd]. rewrite (proj2 (Z.eqb_neq y0 0)), Ly by done.
      rewrite (proj2 (Z.eqb_neq y 0)) by done. cbn [negb]. run_prim. eexists. split; [reflexivity|].
      assert (Hr : same_rest s (put_list p1 (mkList 0 0) (put_list p0 (mkList x0 y)
          (put_thr x (set_list_next y0) s)))).
      { etrans; [apply same_rest_link|]. etrans; apply same_rest_put. }
      split; [|done]. apply G; [done|..].
      * intros t Ht. rewrite !threads_put. unfold put_thr. simpl. rewrite upd_ne; [done|].
        rewrite Ex in Ht. set_solver.
      * intros p H0 H1. by rewrite !get_put_ne, get_list_put_thr.
      * by rewrite get_put_eq.
      * rewrite !threads_put, get_put_ne, get_put_eq by done. split_and!; [done| |].
        -- rewrite Ey, app_assoc, last_snoc. done.
        -- rewrite Ex in Hs0 |- *. unfold put_thr. simpl.
           apply (seg_join _ l x (y0 :: r0)); [done|done| |].
           ++ rewrite <- Ex, <- E0. apply Hqs.
           ++ intros t Ht ->. apply (Hdj x Ht). rewrite Ex. set_solver.
Qed.
(** ** Waking the threads of a condition *)

Definition wake (t : thread) : thread := set_wait_cond 0 (set_state THREAD_READY t).

Lemma wake_all_run c l fuel s :
  seg (threads s) l -> NoDup l -> (length l <= fuel)%nat ->
  (forall t, t ∈ l -> state (threads s t) = THREAD_WAITING /\ wait_cond (threads s t) = c) ->
  exists s', wake_all fuel c (List.hd 0 l) s = Ok (tt, s') /\ s' = with_threads (threads s') s /\
    (forall t, t ∈ l -> threads s' t = wake (threads s t)) /\
    (forall t, t ∉ l -> threads s' t = threads s t).
Proof.
  revert fuel s. induction l as [|x l IH]; intros fuel s Hs Hnd Hf Hw.
  { exists s. destruct fuel; (split_and!; [done|by destruct s|set_solver|done]). }
  destruct fuel as [|fuel]; [simpl in Hf; lia|]. simpl in Hs. destruct Hs as (H0 & Hn & Hs).
  apply NoDup_cons in Hnd as [Hx Hnd]. destruct (Hw x) as [Hst Hwc]; [set_solver|].
  cbn [wake_all List.hd]. rewrite (proj2 (Z.eqb_neq x 0)) by done.
  unfold set_thread_state. run_prim. rewrite bool_decide_eq_true_2 by done. run_prim.
  rewrite (proj2 (Z.eqb_eq _ _) Hwc). run_prim.
  set (s2 := put_thr x (set_wait_cond 0) (put_thr x (set_state THREAD_READY) s)).
  assert (E2 : threads s2 x = wake (threads s x)).
  { unfold s2, put_thr. simpl. by rewrite !upd_eq. }
  assert (N2 : forall t, t <> x -> threads s2 t = threads s t).
  { intros t Ht. unfold s2, put_thr. simpl. by rewrite !upd_ne. }
  rewrite E2. replace (list_next (wake (threads s x))) with (List.hd 0 l) by (by rewrite <- Hn).
  destruct (IH fuel s2) as (s' & Er & Es' & Hin & Hout); [|done|simpl in Hf; lia| |].
  - eapply seg_frame; [|done]. intros t Ht. rewrite N2; [done|]. by intros ->.
  - intros t Ht. rewrite N2 by (by intros ->). apply Hw. set_solver.
  - exists s'. split_and!; [done|by rewrite Es' at 1| |].
    + intros t Ht. destruct (decide (t = x)) as [->|Hne].
      * by rewrite Hout, E2.
      * rewrite Hin, N2 by set_solver. done.
    + intros t Ht. rewrite Hout, N2 by set_solver. done.
Qed.

Lemma broadcast_run c s qs :
  queues s qs -> live c -> (length (qs (Waiters c)) <= 16)%nat ->
  (forall t, t ∈ qs (Waiters c) -> state (threads s t) = THREAD_WAITING /\ wait_cond (threads s t) = c) ->
  exists s', condition_broadcast c s = Ok (tt, s') /\
    queues s' (at_place (at_place qs Ready (qs Ready ++ qs (Waiters c))) (Waiters c) []) /\
    (forall t, body (threads s' t) =
       body (if decide (t ∈ qs (Waiters c)) then wake (threads s t) else threads s t)) /\
    thrtab s' = thrtab s /\ tp s' = tp s /\ sie s' = sie s /\ frames s' = frames s /\
    pages s' = pages s /\ proc_mtag s' = proc_mtag s.
Proof.
  intros Hqs Hc Hlen Hw. set (l := qs (Waiters c)) in *.
  destruct (q_queue _ _ Hqs (Waiters c) Hc) as (Eh & Et & Hs). fold l in Eh, Et, Hs.
  unfold condition_broadcast, tlempty. run_prim. rewrite Eh.
  destruct l as [|x r] eqn:El.
  - simpl. exists s. split_and!; try done. rewrite app_nil_r.
    destruct Hqs as [Hq Hn Hd Hl]. constructor.
    + intros p Hp. unfold at_place. repeat case_decide; subst; [done|by apply Hq..].
    + intros p. unfold at_place. repeat case_decide; subst; [constructor|apply Hn..].
    + intros p p' t. unfold at_place. repeat case_decide; subst; try set_solver; apply Hd.
    + intros p t. unfold at_place. repeat case_decide; subst; try set_solver; apply Hl.
  - assert (Hx : x <> 0) by (apply (seg_nonzero _ _ _ Hs); set_solver).
    cbn [List.hd]. rewrite (proj2 (Z.eqb_neq x 0)) by done. unfold intr_disable. run_prim.
    set (s1 := with_sie false s).
    replace (head (get_list (Waiters c) s1)) with (List.hd 0 (x :: r)) by (by rewrite <- Eh).
    assert (Hq1 : queues s1 qs) by (by apply (queues_frame s)).
    rewrite <- El in *. change (Z.to_nat NTHR) with 16%nat.
    destruct (wake_all_run c l 16 s1) as (s2 & E2 & Es2 & Hin & Hout); [done|apply Hqs|done|done|].
    rewrite E2. cbn [obind].
    assert (Hq2 : queues s2 qs).
    { apply (queues_frame s1); [done| |].
      - intros t _ _. destruct (decide (t ∈ l)); [by rewrite Hin|by rewrite Hout].
      - intros p _. rewrite Es2. by destruct p. }
    destruct (tlappend_run Ready (Waiters c) s2 qs) as (s3 & E3 & Hq3 & Hr3); [done..|].
    rewrite bind_run, E3. cbn [obind]. unfold tlclear, intr_restore. run_prim. eexists. split; [reflexivity|].
    split; [|split_and!].
    + apply (queues_frame s3); [done| |].
      * done.
      * intros p Hp. destruct (q_queue _ _ Hq3 (Waiters c) Hc) as (G1 & G2 & _).
        rewrite at_place_eq in G1, G2. destruct p as [|c']; [done|]. simpl in G1, G2 |- *.
        unfold upd. case_match; [|done]. zbool. subst. simpl.
        rewrite (mkList_eta (wait_list (conds s3 c))). by rewrite G1, G2.
    + intros t. change (threads (with_sie _ _) t) with (threads s3 t). rewrite (sr_body _ _ Hr3 t).
      case_decide; [by rewrite Hin|by rewrite Hout].
    + simpl. rewrite (sr_tab _ _ Hr3), Es2. done.
    + simpl. rewrite (sr_tp _ _ Hr3), Es2. done.
    + done.
    + simpl. rewrite (sr_frames _ _ Hr3), Es2. done.
    + simpl. rewrite (sr_pages _ _ Hr3), Es2. done.
    + simpl. rewrite (sr_mtag _ _ Hr3), Es2. done.
Qed.
(** ** The invariant of the scheduler *)

(** The list a thread belongs in, by its state. *)
Definition place_of (t : thread) : option place :=
  match state t with
  | THREAD_READY => Some Ready
  | THREAD_WAITING => Some (Waiters (wait_cond t))
  | _ => None
  end.

Definition in_tab (s : kthreads) (t : Z) : Prop := t ∈ thrtab s /\ t <> 0.

(** What the operations leave alone unless they say otherwise: everything but
    the link and the stack. *)
Definition info (t : thread) : thread_state * Z * Z * Z * Z * Z :=
  (state t, id t, proc t, parent t, wait_cond t, name t).

Lemma body_info a b : body a = body b -> info a = info b.
Proof. destruct a, b. unfold body, set_list_next, info. simpl. congruence. Qed.
Lemma info_place a b : info a = info b -> place_of a = place_of b.
Proof. unfold info, place_of. intros E. by simplify_eq; repeat (match goal with H : _ = _ |- _ => rewrite H end). Qed.
Lemma info_state a b : info a = info b -> state a = state b.
Proof. unfold info. congruence. Qed.

(** [qs] are the lists of the ready and waiting threads of the table: a thread is
    in the list of its state, and in no other. *)
Record placed (s : kthreads) (qs : place -> list Z) : Prop := {
  pl_queues : queues s qs;
  pl_members : forall p t, t ∈ qs p <-> in_tab s t /\ place_of (threads s t) = Some p;
  pl_tab : length (thrtab s) = 16%nat
}.

#[local] Instance placed_proper s : Proper (pointwise_relation place eq ==> iff) (placed s).
Proof.
  intros qs qs' E. split; intros [Hq Hm Ht]; constructor; try done;
    first [by rewrite <- E | by rewrite E | intros p t; specialize (E p); by rewrite <- Hm, E].
Qed.

Lemma placed_frame s s' qs :
  placed s qs -> queues s' qs -> (forall t, place_of (threads s' t) = place_of (threads s t)) ->
  thrtab s' = thrtab s -> placed s' qs.
Proof.
  intros [Hq Hm Ht] Hq' Hp Htab. constructor; [done| |by rewrite Htab].
  intros p t. rewrite Hm, Hp. unfold in_tab. by rewrite Htab.
Qed.

Lemma placed_length s qs p : placed s qs -> (length (qs p) <= 16)%nat.
Proof.
  intros [Hq Hm Ht]. rewrite <- Ht. apply submseteq_length, NoDup_submseteq; [apply Hq|].
  intros t Hi. by apply Hm in Hi as [[? _] _].
Qed.

(** The lists after [thr] has been put at the end of the list of its state. *)
Lemma insert_placed p thr s s1 qs :
  placed s qs -> live_place p -> in_tab s thr -> place_of (threads s thr) = None ->
  (forall t, t <> thr -> threads s1 t = threads s t) -> place_of (threads s1 thr) = Some p ->
  (forall p', get_list p' s1 = get_list p' s) -> thrtab s1 = thrtab s ->
  exists s', tlinsert p thr s1 = Ok (tt, s') /\ placed s' (at_place qs p (qs p ++ [thr])) /\
    same_rest s1 s'.
Proof.
  intros [Hq Hm Ht] Hp Hin Hno Hoth Hpl Hg Htab.
  assert (Hnew : forall p', thr ∉ qs p').
  { intros p' Hi. apply Hm in Hi as [_ Hi]. congruence. }
  assert (Hq1 : queues s1 qs).
  { apply (queues_frame s); [done| |by intros]. intros t p' Ht'. rewrite Hoth; [done|].
    intros ->. by apply (Hnew p'). }
  destruct (tlinsert_run p thr s1 qs) as (s' & E & Hq' & Hr); [done|done|apply Hin|done|].
  exists s'. split_and!; [done| |done]. constructor; [done| |by rewrite (sr_tab _ _ Hr), Htab].
  intros p' t. unfold in_tab. rewrite (sr_tab _ _ Hr), Htab.
  rewrite (info_place (threads s' t) (threads s1 t)) by apply body_info, Hr.
  destruct (decide (t = thr)) as [->|Hne].
  - rewrite Hpl. unfold at_place. case_decide; subst.
    + split; [|set_solver]. intros _. split; [apply Hin|done].
    + split; [|intros [_ ?]; congruence]. intros Hi. exfalso. by apply (Hnew p').
  - rewrite Hoth by done. rewrite <- (Hm p' t). unfold at_place. case_decide; subst; set_solver.
Qed.

Section Idle.
Variable idle_thread : Z.

(** The idle thread is always ready or running. *)
Definition idle_ok (s : kthreads) : Prop :=
  in_tab s idle_thread /\
  (state (threads s idle_thread) = THREAD_READY \/ state (threads s idle_thread) = THREAD_RUNNING).

Record sched_inv (s : kthreads) (qs : place -> list Z) : Prop := {
  si_placed : placed s qs;
  si_cur : in_tab s (tp s);
  si_running : forall t, in_tab s t -> state (threads s t) = THREAD_RUNNING <-> t = tp s;
  si_idle : idle_ok s
}.

Lemma ready_nonempty s qs :
  placed s qs -> idle_ok s -> state (threads s idle_thread) <> THREAD_RUNNING -> qs Ready <> [].
Proof.
  intros [Hq Hm Ht] [Hin Hst] Hn Hnil. assert (idle_thread ∈ qs Ready) as Hi.
  { apply Hm. split; [done|]. unfold place_of. by destruct Hst as [->|?]. }
  rewrite Hnil in Hi. by apply not_elem_of_nil in Hi.
Qed.

(** The threads after a switch from [cur] to [n]. *)
Definition switched (th : Z -> thread) (cur n t : Z) : thread :=
  if decide (t = n) then set_state THREAD_RUNNING (th t)
  else if decide (t = cur /\ state (th t) = THREAD_RUNNING) then set_state THREAD_READY (th t)
  else th t.

Lemma switched_frame th cur n t :
  list_next (switched th cur n t) = list_next (th t) /\ id (switched th cur n t) = id (th t).
Proof. unfold switched. by repeat case_decide. Qed.

Lemma run_on_pages_switch x s :
  on_pages (memory_space_switch x) s = Ok (satp (pages s), with_pages (set_satp x (pages s)) s).
Proof. reflexivity. Qed.

(** The next thread leaves the ready list and is marked running. *)
Lemma take_next s qs n r :
  placed s qs -> qs Ready = n :: r ->
  exists s1, tlremove Ready s = Ok (n, s1) /\ same_rest s s1 /\
    placed (put_thr n (set_state THREAD_RUNNING) s1) (at_place qs Ready r).
Proof.
  intros Hpl Er. pose proof (pl_queues _ _ Hpl) as Hqs. pose proof (pl_members _ _ Hpl) as Hm.
  destruct (tlremove_run Ready s qs n r) as (s1 & E1 & Hq1 & Hr1); [done..|].
  exists s1. split_and!; [done..|]. constructor.
  - apply (queues_frame s1); [done| |by intros []]. intros t _ _. unfold put_thr. simpl.
    destruct (decide (t = n)) as [->|]; [by rewrite upd_eq|by rewrite upd_ne].
  - pose proof (q_nodup _ _ Hqs Ready) as Hnd. rewrite Er in Hnd. apply NoDup_cons in Hnd as [Hnr _].
    intros p t. unfold put_thr, in_tab. simpl. rewrite (sr_tab _ _ Hr1).
    destruct (decide (t = n)) as [->|Hne].
    + rewrite upd_eq. split; [|intros [_ ?]; done]. unfold at_place. case_decide; [done|].
      intros Hi. exfalso. assert (p = Ready); [|done].
      apply (q_disj _ _ Hqs _ _ n Hi). rewrite Er. set_solver.
    + rewrite upd_ne by done. rewrite (info_place _ (threads s t)) by apply body_info, Hr1.
      pose proof (Hm p t) as Hmt. unfold in_tab in Hmt. rewrite <- Hmt.
      unfold at_place. case_decide; [subst; rewrite Er; set_solver|done].
  - unfold put_thr. simpl. rewrite (sr_tab _ _ Hr1). apply Hpl.
Qed.

(** The suspended thread goes back to the ready list if it is still running. *)
Definition requeue (cur : Z) (ts : thread) : T unit :=
  if bool_decide (state ts = THREAD_RUNNING) then
    set_thread_state cur THREAD_READY ;; tlinsert Ready cur
  else mret tt.

Lemma requeue_run s qs cur :
  placed s qs -> in_tab s cur ->
  exists s', requeue cur (threads s cur) s = Ok (tt, s') /\
    placed s' (at_place qs Ready (qs Ready ++
      (if decide (state (threads s cur) = THREAD_RUNNING) then [cur] else []))) /\
    (forall t, body (threads s' t) = body
      (if decide (t = cur /\ state (threads s t) = THREAD_RUNNING)
       then set_state THREAD_READY (threads s t) else threads s t)) /\
    thrtab s' = thrtab s /\ tp s' = tp s /\ frames s' = frames s /\ pages s' = pages s.
Proof.
  intros Hpl [Hin H0]. unfold requeue. case_decide as Hc.
  - rewrite bool_decide_eq_true_2 by done. unfold set_thread_state. run_prim.
    destruct (insert_placed Ready cur s (put_thr cur (set_state THREAD_READY) s) qs)
      as (s' & E & Hpl' & Hr); [done|done|done| | | | |done|].
    + unfold place_of. by rewrite Hc.
    + intros t Ht. unfold put_thr. simpl. by rewrite upd_ne.
    + unfold put_thr. simpl. by rewrite upd_eq.
    + by intros [].
    + exists s'. split_and!; [done|done| |by destruct Hr..].
      intros t. rewrite (sr_body _ _ Hr). unfold put_thr. simpl. case_decide as Hd.
      * destruct Hd as [-> _]. by rewrite upd_eq.
      * rewrite upd_ne; [done|]. intros ->. naive_solver.
  - rewrite bool_decide_eq_false_2 by done. exists s. split_and!; try done.
    + by rewrite app_nil_r, at_place_id.
    + intros t. case_decide; [|done]. naive_solver.
Qed.

(** What follows [requeue]: interrupts on, the address space of the next thread,
    the switch. *)
Definition leave (n cur : Z) (saved : bool) : T Z :=
  intr_enable ;;
  tn' ← rd_thr n;
  (if negb (proc tn' =? 0) then
     s ← get;
     on_pages (memory_space_switch (proc_mtag s (proc tn'))) ;; mret tt
   else mret tt) ;;
  modify (fun s => with_frames (upd (frames s) cur (Some saved)) s) ;;
  modify (with_tp n) ;;
  mret cur.

Lemma leave_run n cur saved s :
  n <> 0 ->
  exists s', leave n cur saved s = Ok (cur, s') /\ threads s' = threads s /\ conds s' = conds s /\
    ready_list s' = ready_list s /\ thrtab s' = thrtab s /\ tp s' = n /\ sie s' = true /\
    frames s' = upd (frames s) cur (Some saved) /\
    mem (pages s') = mem (pages s) /\ free_list (pages s') = free_list (pages s) /\
    proc_mtag s' = proc_mtag s /\
    (proc (threads s n) <> 0 -> satp (pages s') = proc_mtag s (proc (threads s n))).
Proof.
  intros H0. unfold leave, intr_enable. run_prim. destruct (Z.eqb_spec (proc (threads (with_sie true s) n)) 0); cbn [negb].
  - run_prim. eexists. split; [reflexivity|]. by split_and!.
  - run_prim. rewrite run_on_pages_switch. cbn [obind]. run_prim.
    eexists. split; [reflexivity|]. by split_and!.
Qed.

Definition pre_suspend (s : kthreads) (qs : place -> list Z) : Prop :=
  placed s qs /\ idle_ok s /\ in_tab s (tp s) /\ state (threads s (tp s)) <> THREAD_READY /\
  (forall t, in_tab s t -> state (threads s t) = THREAD_RUNNING -> t = tp s).

(** The switch: the head of the ready list runs, the suspended thread goes to
    its end if it was still running. *)
Lemma suspend_out_run s qs n r :
  pre_suspend s qs -> qs Ready = n :: r ->
  exists s' , suspend_out s = Ok (tp s, s') /\ tp s' = n /\
    sched_inv s' (at_place qs Ready (r ++
      (if decide (state (threads s (tp s)) = THREAD_RUNNING) then [tp s] else []))) /\
    (forall t, body (threads s' t) = body (switched (threads s) (tp s) n t)) /\
    thrtab s' = thrtab s /\ frames s' = upd (frames s) (tp s) (Some (sie s)) /\
    mem (pages s') = mem (pages s) /\ free_list (pages s') = free_list (pages s).
Proof.
  intros (Hpl & Hidle & Hcur & Hcst & Hrun) Er.
  assert (Hnr : in_tab s n /\ place_of (threads s n) = Some Ready)
    by (apply (pl_members _ _ Hpl); rewrite Er; set_solver).
  destruct Hnr as [Hntab Hnp].
  assert (Hnst : state (threads s n) = THREAD_READY).
  { unfold place_of in Hnp. by destruct (state (threads s n)). }
  assert (Hncur : tp s <> n) by congruence.
  destruct (q_queue _ _ (pl_queues _ _ Hpl) Ready I) as (Eh & _ & _). rewrite Er in Eh. simpl in Eh.
  unfold suspend_out, tlempty. run_prim. simpl (get_list Ready s). rewrite Eh.
  rewrite (proj2 (Z.eqb_neq n 0)) by apply Hntab. cbn [negb]. unfold intr_disable. run_prim.
  destruct (take_next (with_sie false s) qs n r) as (s1 & E1 & Hr1 & Hp2); [|done|].
  { apply (placed_frame s); try done. apply (queues_frame s); [apply Hpl|done|by intros []]. }
  set (s2 := put_thr n (set_state THREAD_RUNNING) s1) in *.
  assert (I1 : forall t, body (threads s1 t) = body (threads s t)) by (intros t; apply Hr1).
  assert (Hn0 : n <> 0) by apply Hntab. assert (Hc0 : tp s <> 0) by apply Hcur.
  assert (C2 : threads s2 (tp s) = threads s1 (tp s)) by (unfold s2, put_thr; simpl; by rewrite upd_ne).
  assert (S1 : forall t, state (threads s1 t) = state (threads s t))
    by (intros t; apply info_state, body_info, I1).
  rewrite E1. cbn [obind]. run_prim.
  rewrite S1, Hnst, bool_decide_eq_true_2 by done. run_prim. rewrite run_set_state by done. cbn [obind]. run_prim. fold s2.
  destruct (requeue_run s2 (at_place qs Ready r) (tp s)) as (s3 & E3 & Hp3 & B3 & T3 & P3 & F3 & G3).
  { done. } { unfold s2, put_thr, in_tab. simpl. by rewrite (sr_tab _ _ Hr1). }
  unfold requeue in E3. rewrite E3. cbn [obind].
  destruct (leave_run n (tp s) (sie s) s3) as (s4 & E4 & Th4 & Co4 & Rl4 & Tb4 & Tp4 & _ & Fr4 & Me4 & Fl4 & _);
    [done|].
  exists s4. split; [exact E4|].
  assert (B4 : forall t, body (threads s4 t) = body (switched (threads s) (tp s) n t)).
  { intros t. rewrite Th4, B3. unfold s2, put_thr, switched. simpl.
    destruct (decide (t = n)) as [->|Hne].
    - rewrite decide_False by naive_solver. rewrite upd_eq.
      specialize (I1 n). destruct (threads s1 n), (threads s n). unfold body, set_list_next in *.
      simpl in *. congruence.
    - rewrite upd_ne by done. rewrite S1. case_goal; [|apply I1].
      specialize (I1 t). destruct (threads s1 t), (threads s t). unfold body, set_list_next in *.
      simpl in *. congruence. }
  assert (S4 : forall t, state (threads s4 t) = state (switched (threads s) (tp s) n t))
    by (intros t; apply info_state, body_info, B4).
  assert (Tab : thrtab s4 = thrtab s).
  { rewrite Tb4, T3. unfold s2, put_thr. simpl. by rewrite (sr_tab _ _ Hr1). }
  split_and!; [done| |done|done| | |].
  - constructor.
    + rewrite at_place_eq, C2, S1 in Hp3.
      assert (Hq4 : placed s4 (at_place (at_place qs Ready r) Ready (r ++
        (if decide (state (threads s (tp s)) = THREAD_RUNNING) then [tp s] else [])))).
      { apply (placed_frame s3); [done| |by rewrite Th4|done].
        apply (queues_frame s3); [apply Hp3|by rewrite Th4|]. intros [|c] _; simpl; congruence. }
      eapply placed_proper, Hq4. intros p. unfold at_place. by repeat case_decide.
    + unfold in_tab. by rewrite Tab, Tp4.
    + intros t Ht. rewrite S4, Tp4. unfold switched. unfold in_tab in Ht. rewrite Tab in Ht.
      case_goal; [done|]. case_goal as Hd; simpl; (split; [|done]); [done|]. intros Hr.
      exfalso. apply Hd. by split; [apply Hrun|].
    + destruct Hidle as [Hi Hs]. unfold idle_ok, in_tab. rewrite Tab, S4. split; [done|].
      unfold switched. repeat case_goal; simpl; auto.
  - rewrite Fr4, F3. unfold s2, put_thr. simpl. by rewrite (sr_frames _ _ Hr1).
  - rewrite Me4, G3. unfold s2, put_thr. simpl. by rewrite (sr_pages _ _ Hr1).
  - rewrite Fl4, G3. unfold s2, put_thr. simpl. by rewrite (sr_pages _ _ Hr1).
Qed.

Lemma sched_frame_state s s' qs :
  sched_inv s qs ->
  (forall t, state (threads s' t) = state (threads s t) /\ place_of (threads s' t) = place_of (threads s t) /\
             list_next (threads s' t) = list_next (threads s t)) ->
  (forall p, get_list p s' = get_list p s) -> thrtab s' = thrtab s -> tp s' = tp s ->
  sched_inv s' qs.
Proof.
  intros [Hp Hc Hr [Hi Hs]] Ht Hg Htab Htp.
  assert (S : forall t, state (threads s' t) = state (threads s t)) by (intros; apply Ht).
  constructor.
  - apply (placed_frame s); try done; [|intros; apply Ht].
    apply (queues_frame s); [apply Hp|intros; apply Ht|by intros].
  - unfold in_tab. by rewrite Htab, Htp.
  - intros t. unfold in_tab. rewrite Htab, Htp, S. apply Hr.
  - unfold idle_ok, in_tab. by rewrite Htab, S.
Qed.

Lemma sched_frame s s' qs :
  sched_inv s qs ->
  (forall t, info (threads s' t) = info (threads s t) /\
             list_next (threads s' t) = list_next (threads s t)) ->
  (forall p, get_list p s' = get_list p s) -> thrtab s' = thrtab s -> tp s' = tp s ->
  sched_inv s' qs.
Proof.
  intros Hi Ht. apply sched_frame_state; [done|]. intros t. destruct (Ht t) as [E ?].
  split_and!; [by apply info_state|by apply info_place|done].
Qed.

(** Everything an operation that only moves threads between lists keeps. *)
Definition kept (s s' : kthreads) : Prop :=
  thrtab s' = thrtab s /\ forall t, id (threads s' t) = id (threads s t) /\
    parent (threads s' t) = parent (threads s t).

Lemma suspend_in_inv prev saved s qs :
  sched_inv s qs -> prev <> 0 ->
  exists s', suspend_in prev saved s = Ok (tt, s') /\ sched_inv s' qs /\ tp s' = tp s /\ kept s s' /\
    (forall t, info (threads s' t) = info (threads s t)).
Proof.
  intros Hi H0. unfold suspend_in. run_prim. case_bool_decide as Hs.
  - unfold on_pages. run_prim. unfold memory_free_page, store, intr_restore. run_prim.
    eexists. split; [reflexivity|].
    match goal with |- sched_inv ?x _ /\ _ => set (s' := x) end.
    assert (F : forall t, info (threads s' t) = info (threads s t) /\
               list_next (threads s' t) = list_next (threads s t)).
    { intros t. unfold s', put_thr. simpl. unfold upd. by destruct (Z.eqb_spec t prev) as [->|]. }
    split_and!; try done.
    + apply (sched_frame s); [done|done|by intros []|done|done].
    + split; [done|]. intros t. destruct (F t) as [E _]. unfold info in E. split; congruence.
    + intros t. apply F.
  - unfold intr_restore. run_prim. eexists. split; [reflexivity|]. split_and!; try done.
    apply (sched_frame s); [done|done|by intros []|done|done].
Qed.

Lemma suspend_self_run s qs n r :
  pre_suspend s qs -> qs Ready = n :: r ->
  exists s', suspend_self s = Ok (tt, s') /\ tp s' = n /\ kept s s' /\
    sched_inv s' (at_place qs Ready (r ++
      (if decide (state (threads s (tp s)) = THREAD_RUNNING) then [tp s] else []))) /\
    (forall t, state (threads s' t) = state (switched (threads s) (tp s) n t)).
Proof.
  intros Hpre Er. destruct (suspend_out_run s qs n r Hpre Er)
    as (s1 & E1 & Etp & Hi & Hb & Htab & _ & _ & _).
  assert (K1 : kept s s1).
  { split; [done|]. intros t. specialize (Hb t). apply body_info in Hb. unfold info, switched in Hb.
    repeat case_decide; simpl in Hb; split; congruence. }
  assert (S1 : forall t, state (threads s1 t) = state (switched (threads s) (tp s) n t))
    by (intros t; apply info_state, body_info, Hb).
  unfold suspend_self. rewrite bind_run, E1. cbn [obind]. run_prim.
  destruct (frames s1 (tp s1)) as [saved|].
  - destruct (suspend_in_inv (tp s) saved s1 _ Hi) as (s2 & E2 & Hi2 & Htp2 & K2 & I2); [apply Hpre|].
    exists s2. rewrite E2. split_and!; [done|by rewrite Htp2| |done|intros t; by rewrite (info_state _ _ (I2 t))].
    destruct K1 as [T1 K1], K2 as [T2 K2]. split; [congruence|]. intros t.
    destruct (K1 t), (K2 t). split; congruence.
  - exists s1. run_prim. done.
Qed.

(** ** The operations of the running thread *)

Lemma cur_running s qs : sched_inv s qs -> state (threads s (tp s)) = THREAD_RUNNING.
Proof. intros [Hp Hc Hr Hi]. by apply Hr. Qed.

Lemma yield_run s qs n r :
  sched_inv s qs -> qs Ready = n :: r ->
  exists s', thread_yield s = Ok (tt, s') /\ tp s' = n /\ kept s s' /\
    sched_inv s' (at_place qs Ready (r ++ [tp s])).
Proof.
  intros Hi Er. pose proof (cur_running _ _ Hi) as Hc. destruct (suspend_self_run s qs n r)
    as (s' & E & Htp & K & Hi' & _); [|done|].
  { do 3 (split; [apply Hi|]). split; [by rewrite Hc|]. intros t Ht. by apply Hi. }
  exists s'. rewrite decide_True in Hi' by done. split_and!; try done.
  unfold thread_yield. assert (tp s <> 0) by apply Hi. run_prim.
  by rewrite Hc, bool_decide_eq_true_2.
Qed.

Lemma wait_run c s qs :
  sched_inv s qs -> live c -> tp s <> idle_thread ->
  exists s' n r, qs Ready = n :: r /\ condition_wait c s = Ok (tt, s') /\ tp s' = n /\ kept s s' /\
    sched_inv s' (at_place (at_place qs (Waiters c) (qs (Waiters c) ++ [tp s])) Ready r).
Proof.
  intros Hi Hlc Hni. pose proof (cur_running _ _ Hi) as Hc.
  assert (H0 : tp s <> 0) by apply Hi. pose proof (si_placed _ _ Hi) as Hpl.
  unfold condition_wait. run_prim. rewrite Hc, bool_decide_eq_true_2 by done.
  unfold set_thread_state. run_prim. unfold intr_disable. run_prim.
  match goal with |- context [tlinsert _ _ (with_sie false ?x)] => set (s1 := x) end.
  assert (N1 : forall t, t <> tp s -> threads s1 t = threads s t).
  { intros t Ht. unfold s1, put_thr. simpl. by rewrite !upd_ne. }
  assert (C1 : threads s1 (tp s) = set_list_next 0 (set_wait_cond c (set_state THREAD_WAITING (threads s (tp s))))).
  { unfold s1, put_thr. simpl. by rewrite !upd_eq. }
  assert (Hno : forall p, tp s ∉ qs p).
  { intros p Hp. apply Hpl in Hp as [_ Hp]. unfold place_of in Hp. by rewrite Hc in Hp. }
  destruct (insert_placed (Waiters c) (tp s) s (with_sie false s1) qs) as (s2 & E2 & Hp2 & Hr2);
    [done|done|apply Hi| |done| |by intros []|done|].
  { unfold place_of. by rewrite Hc. }
  { change (place_of (threads s1 (tp s)) = Some (Waiters c)). by rewrite C1. }
  rewrite E2. cbn [obind]. unfold intr_restore. run_prim.
  set (s3 := with_sie (sie s1) s2). set (qs3 := at_place qs (Waiters c) (qs (Waiters c) ++ [tp s])) in *.
  assert (St : forall t, info (threads s3 t) = info (threads s1 t)) by (intros t; apply body_info, Hr2).
  assert (Hst : forall t, t <> tp s -> state (threads s3 t) = state (threads s t)).
  { intros t Ht. rewrite <- (N1 t Ht). apply info_state, St. }
  assert (Hst' : state (threads s3 (tp s)) = THREAD_WAITING).
  { rewrite (info_state _ _ (St (tp s))). by rewrite C1. }
  assert (Ht3 : tp s3 = tp s) by (unfold s3; simpl; by rewrite (sr_tp _ _ Hr2)).
  assert (Hb3 : thrtab s3 = thrtab s) by (unfold s3; simpl; by rewrite (sr_tab _ _ Hr2)).
  assert (Hidle : idle_ok s3).
  { destruct (si_idle _ _ Hi) as [Hin Hs]. unfold idle_ok, in_tab. rewrite Hb3. split; [done|].
    by rewrite Hst. }
  assert (Hpl3 : placed s3 qs3).
  { apply (placed_frame s2); try done. apply (queues_frame s2); [apply Hp2|done|by intros []]. }
  assert (Hne : qs3 Ready <> []).
  { apply (ready_nonempty s3); [done|done|]. rewrite Hst by done. intros Hx.
    apply Hni. symmetry. apply (si_running _ _ Hi); [apply (si_idle _ _ Hi)|done]. }
  clearbody s3. clearbody s1. destruct (qs3 Ready) as [|n r] eqn:Er; [done|].
  destruct (suspend_self_run s3 qs3 n r) as (s4 & E4 & Htp4 & K4 & Hi4 & _); [|done|].
  { do 2 (split; [done|]). split; [|split].
    - unfold in_tab. rewrite Hb3, Ht3. apply Hi.
    - by rewrite Ht3, Hst'.
    - intros t. unfold in_tab. rewrite Hb3, Ht3. intros Hin Hr. destruct (decide (t = tp s)); [done|].
      rewrite Hst in Hr by done. by apply Hi. }
  exists s4, n, r. split_and!; [by rewrite <- Er|done|done| |].
  - destruct K4 as [T4 K4]. split; [congruence|]. intros t. destruct (K4 t) as [-> ->].
    specialize (St t). destruct (decide (t = tp s)) as [->|Hn].
    + rewrite C1 in St. unfold info in St. simpl in St. split; congruence.
    + rewrite N1 in St by done. unfold info in St. split; congruence.
  - rewrite Ht3, decide_False, app_nil_r in Hi4 by (by rewrite Hst'). done.
Qed.

Definition woken (qs : place -> list Z) (c : Z) : place -> list Z :=
  at_place (at_place qs Ready (qs Ready ++ qs (Waiters c))) (Waiters c) [].

Lemma broadcast_placed c s qs :
  placed s qs -> live c ->
  exists s', condition_broadcast c s = Ok (tt, s') /\ placed s' (woken qs c) /\
    (forall t, info (threads s' t) =
       info (if decide (t ∈ qs (Waiters c)) then wake (threads s t) else threads s t)) /\
    thrtab s' = thrtab s /\ tp s' = tp s /\ sie s' = sie s /\ frames s' = frames s /\
    pages s' = pages s.
Proof.
  intros Hpl Hc. pose proof (pl_members _ _ Hpl) as Hm.
  assert (Hw : forall t, t ∈ qs (Waiters c) ->
    state (threads s t) = THREAD_WAITING /\ wait_cond (threads s t) = c).
  { intros t Ht. apply Hm in Ht as [_ Ht]. unfold place_of in Ht.
    destruct (state (threads s t)); try done. split; [done|congruence]. }
  destruct (broadcast_run c s qs) as (s' & E & Hq & Hb & Htab & Htp & Hsie & Hf & Hpg & _);
    [apply Hpl|done|by apply (placed_length s)|done|].
  assert (Hinf : forall t, info (threads s' t) =
    info (if decide (t ∈ qs (Waiters c)) then wake (threads s t) else threads s t))
    by (intros; apply body_info, Hb).
  exists s'. split_and!; try done.
  constructor; [done| |rewrite Htab; apply Hpl]. intros p t. unfold in_tab. rewrite Htab.
  rewrite (info_place _ _ (Hinf t)). pose proof (Hm p t) as Hmp. unfold in_tab in Hmp.
  destruct (decide (t ∈ qs (Waiters c))) as [Hin|Hin].
  - change (place_of (wake (threads s t))) with (Some Ready).
    destruct (proj1 (Hm (Waiters c) t) Hin) as [Htin Hpo]. unfold in_tab in Htin.
    unfold woken, at_place. repeat case_goal; subst.
    + split; [set_solver|intros [_ ?]; done].
    + split; [done|]. intros _. apply elem_of_app. by right.
    + split; [|intros [_ ?]; congruence]. intros Ht. apply Hm in Ht as [_ Ht]. congruence.
  - unfold woken, at_place. repeat case_goal; subst.
    + rewrite <- Hmp. split; [set_solver|done].
    + rewrite elem_of_app, Hmp. naive_solver.
    + done.
Qed.

Lemma waiting_not_running s qs c t :
  placed s qs -> t ∈ qs (Waiters c) -> state (threads s t) = THREAD_WAITING.
Proof.
  intros Hpl Ht. apply (pl_members _ _ Hpl) in Ht as [_ Ht]. unfold place_of in Ht.
  by destruct (state (threads s t)).
Qed.

Lemma broadcast_inv c s qs :
  sched_inv s qs -> live c ->
  exists s', condition_broadcast c s = Ok (tt, s') /\ tp s' = tp s /\ kept s s' /\
    sched_inv s' (woken qs c) /\
    (forall t, info (threads s' t) =
       info (if decide (t ∈ qs (Waiters c)) then wake (threads s t) else threads s t)) /\
    sie s' = sie s /\ pages s' = pages s /\ frames s' = frames s.
Proof.
  intros Hi Hc. pose proof (si_placed _ _ Hi) as Hpl.
  destruct (broadcast_placed c s qs Hpl Hc) as (s' & E & Hpl' & Hinf & Htab & Htp & Hsie & Hf & Hpg).
  assert (Hst : forall t, state (threads s' t) =
    if decide (t ∈ qs (Waiters c)) then THREAD_READY else state (threads s t)).
  { intros t. rewrite (info_state _ _ (Hinf t)). by case_goal. }
  exists s'. split_and!; try done.
  - split; [done|]. intros t. specialize (Hinf t). unfold info in Hinf.
    case_decide; simpl in Hinf; split; congruence.
  - constructor; [done| | |].
    + unfold in_tab. rewrite Htab, Htp. apply Hi.
    + intros t. unfold in_tab. rewrite Htab, Htp, Hst. intros Ht. case_goal as Hin.
      * split; [done|]. intros ->. pose proof (waiting_not_running _ _ _ _ Hpl Hin) as Hx.
        by rewrite (cur_running _ _ Hi) in Hx.
      * by apply Hi.
    + destruct (si_idle _ _ Hi) as [Hin Hs]. unfold idle_ok, in_tab. rewrite Htab, Hst.
      split; [done|]. case_goal; [by left|done].
Qed.

(** The end of a thread: its parent's waiters become ready and the next thread
    runs. *)
Lemma exit_run main s qs :
  sched_inv s qs -> tp s <> main -> tp s <> idle_thread ->
  parent (threads s (tp s)) <> 0 -> live (child_exit (parent (threads s (tp s)))) ->
  exists s' n r, thread_exit main s = Ok (tt, s') /\ kept s s' /\ tp s' = n /\
    woken qs (child_exit (parent (threads s (tp s)))) Ready = n :: r /\
    sched_inv s' (at_place (woken qs (child_exit (parent (threads s (tp s))))) Ready r) /\
    state (threads s' (tp s)) = THREAD_EXITED.
Proof.
  intros Hi Hmain Hni Hpar Hlc. set (c := child_exit (parent (threads s (tp s)))) in *.
  assert (H0 : tp s <> 0) by apply Hi. pose proof (si_placed _ _ Hi) as Hpl.
  pose proof (cur_running _ _ Hi) as Hcur.
  unfold thread_exit. run_prim. rewrite (proj2 (Z.eqb_neq _ _) Hmain). run_prim.
  rewrite run_set_state by done. cbn [obind]. run_prim.
  set (s1 := put_thr (tp s) (set_state THREAD_EXITED) s).
  assert (C1 : threads s1 (tp s) = set_state THREAD_EXITED (threads s (tp s)))
    by (unfold s1, put_thr; simpl; by rewrite upd_eq).
  assert (N1 : forall t, t <> tp s -> threads s1 t = threads s t)
    by (intros; unfold s1, put_thr; simpl; by rewrite upd_ne).
  rewrite C1. simpl (parent _). rewrite (proj2 (Z.eqb_neq _ _) Hpar). cbn [negb]. run_prim. fold c.
  assert (Hpl1 : placed s1 qs).
  { apply (placed_frame s); [done| | |done].
    - apply (queues_frame s); [apply Hpl| |by intros []]. intros t _ _.
      destruct (decide (t = tp s)) as [->|]; [by rewrite C1|by rewrite N1].
    - intros t. destruct (decide (t = tp s)) as [->|]; [|by rewrite N1].
      rewrite C1. unfold place_of. simpl. by rewrite Hcur. }
  assert (T1 : tp s1 = tp s) by done. assert (B1 : thrtab s1 = thrtab s) by done.
  clearbody s1.
  destruct (broadcast_placed c s1 qs Hpl1 Hlc) as (s2 & E2 & Hpl2 & Hinf & Htab & Htp & _).
  rewrite E2. cbn [obind].
  assert (Hst : forall t, state (threads s2 t) = if decide (t ∈ qs (Waiters c)) then THREAD_READY
    else if decide (t = tp s) then THREAD_EXITED else state (threads s t)).
  { intros t. rewrite (info_state _ _ (Hinf t)). case_goal; [done|].
    case_goal; [subst; by rewrite C1|by rewrite N1]. }
  assert (Hcw : tp s ∉ qs (Waiters c)).
  { intros Hin. pose proof (waiting_not_running _ _ _ _ Hpl Hin). congruence. }
  assert (Hidle : idle_ok s2).
  { destruct (si_idle _ _ Hi) as [Hin Hs]. unfold idle_ok, in_tab. rewrite Htab, B1, Hst.
    split; [done|]. case_goal; [by left|]. rewrite decide_False by done. done. }
  assert (Hne : woken qs c Ready <> []).
  { apply (ready_nonempty s2); [done|done|]. rewrite Hst. case_goal; [done|].
    rewrite decide_False by done. intros Hx. apply Hni. symmetry.
    apply (si_running _ _ Hi); [apply (si_idle _ _ Hi)|done]. }
  destruct (woken qs c Ready) as [|n r] eqn:Er; [done|].
  destruct (suspend_self_run s2 (woken qs c) n r) as (s3 & E3 & Htp3 & K3 & Hi3 & S3); [|done|].
  { do 2 (split; [done|]). rewrite Htp, T1. split; [|split].
    - unfold in_tab. rewrite Htab, B1. apply Hi.
    - rewrite Hst. rewrite decide_False by done. by rewrite decide_True.
    - intros t. unfold in_tab. rewrite Htab, B1, Hst. intros Ht. case_goal; [done|].
      case_goal; [done|]. by apply Hi. }
  assert (Hx : state (threads s2 (tp s)) = THREAD_EXITED).
  { rewrite Hst, decide_False by done. by rewrite decide_True. }
  exists s3, n, r. split_and!; [done| |done|done| |].
  - destruct K3 as [T3 K3]. split; [congruence|]. intros t. destruct (K3 t) as [-> ->].
    specialize (Hinf t). unfold info in Hinf.
    assert (Q : id (threads s1 t) = id (threads s t) /\ parent (threads s1 t) = parent (threads s t)).
    { destruct (decide (t = tp s)) as [->|]; [by rewrite C1|by rewrite N1]. }
    destruct Q as [<- <-]. destruct (decide (t ∈ qs (Waiters c))); simpl in Hinf; split; congruence.
  - rewrite Htp, T1, decide_False, app_nil_r in Hi3 by (by rewrite Hx). done.
  - rewrite S3. unfold switched. rewrite Hx, (decide_False (P := _ /\ _)) by naive_solver.
    rewrite decide_False; [done|]. intros En.
    assert (Hn : place_of (threads s2 n) = Some Ready) by (apply (pl_members _ _ Hpl2); rewrite Er; by left).
    unfold place_of in Hn. by rewrite <- En, Hx in Hn.
Qed.

(** ** Creating a thread *)

Lemma free_tid_spec tab tids tid :
  free_tid tab tids = Some tid -> tid ∈ tids /\ tab !! Z.to_nat tid = Some 0.
Proof.
  induction tids as [|x tids IH]; simpl; [done|].
  destruct (tab !! Z.to_nat x) as [[| |]|] eqn:E; intros H; try (apply IH in H; set_solver).
  injection H as ->. set_solver.
Qed.

Lemma in_insert (tab : list Z) i (x t : Z) :
  tab !! i = Some 0 -> x <> 0 ->
  (t ∈ <[i := x]> tab /\ t <> 0) <-> ((t ∈ tab /\ t <> 0) \/ t = x).
Proof.
  intros Hi Hx. assert (Hlt := lookup_lt_Some _ _ _ Hi). split.
  - intros [Ht H0]. apply list_elem_of_lookup in Ht as [k Hk].
    destruct (decide (k = i)) as [->|].
    + rewrite list_lookup_insert_eq in Hk by done. right. congruence.
    + rewrite list_lookup_insert_ne in Hk by done. left. split; [|done].
      by apply list_elem_of_lookup_2 with k.
  - intros [[Ht H0]| ->]; (split; [|done]).
    + apply list_elem_of_lookup in Ht as [k Hk]. apply list_elem_of_lookup_2 with k.
      rewrite list_lookup_insert_ne; [done|]. intros <-. congruence.
    + apply list_elem_of_lookup_2 with i. by rewrite list_lookup_insert_eq.
Qed.

Lemma spawn_run nm s qs tid child k1 page k2 :
  sched_inv s qs -> free_tid (thrtab s) (range 15 1 NTHR 1) = Some tid ->
  kmalloc THREAD_SZ (pages s) = Ok (child, k1) -> memory_alloc_page k1 = Ok (page, k2) ->
  child <> 0 -> child ∉ thrtab s ->
  exists s', thread_spawn nm s = Ok (tid, s') /\ tp s' = tp s /\ sie s' = sie s /\
    sched_inv s' (at_place qs Ready (qs Ready ++ [child])) /\
    thrtab s' = <[Z.to_nat tid := child]> (thrtab s) /\
    stack_base (threads s' child) = page + PAGE_SIZE - ANCHOR_SZ /\
    info (threads s' child) =
      (THREAD_READY, tid, proc (threads s (tp s)), tp s, wait_cond (threads s child), nm) /\
    (forall t, t <> child -> info (threads s' t) = info (threads s t)).
Proof.
  intros Hi Hf Ek Ea H0 Hnt. pose proof (si_placed _ _ Hi) as Hpl.
  destruct (free_tid_spec _ _ _ Hf) as [_ Hz]. assert (Hc0 : tp s <> 0) by apply Hi.
  unfold thread_spawn. run_prim. rewrite Hf. run_prim.
  unfold on_pages at 1. rewrite Ek. cbn [obind]. run_prim.
  unfold on_pages at 1. cbn [pages with_pages]. rewrite Ea. cbn [obind]. run_prim.
  unfold on_pages, store. run_prim. rewrite run_set_state by done. cbn [obind].
  unfold intr_disable. run_prim.
  match goal with |- context [tlinsert Ready child ?x] => set (s1 := x) end.
  assert (C1 : info (threads s1 child) =
    (THREAD_READY, tid, proc (threads s (tp s)), tp s, wait_cond (threads s child), nm) /\
    stack_base (threads s1 child) = page + PAGE_SIZE - ANCHOR_SZ).
  { unfold s1, put_thr. simpl. by rewrite !upd_eq. }
  assert (N1 : forall t, t <> child -> threads s1 t = threads s t).
  { intros t Ht. unfold s1, put_thr. simpl. by rewrite !upd_ne. }
  assert (Tb1 : thrtab s1 = <[Z.to_nat tid := child]> (thrtab s)) by done.
  assert (R1 : tp s1 = tp s /\ forall p, get_list p s1 = get_list p s) by (by split; [|intros []]).
  clearbody s1. destruct R1 as [Tp1 G1], C1 as [C1 St1].
  assert (Hno : forall p, child ∉ qs p).
  { intros p Hp. by apply (pl_members _ _ Hpl) in Hp as [[Hx _] _]. }
  assert (Hq1 : queues s1 qs).
  { apply (queues_frame s); [apply Hpl| |by intros]. intros t p Ht. rewrite N1; [done|].
    intros ->. by apply (Hno p). }
  destruct (tlinsert_run Ready child s1 qs) as (s2 & E2 & Hq2 & Hr2); [done..|].
  rewrite E2. cbn [obind]. unfold intr_restore. run_prim. eexists. split; [reflexivity|].
  match goal with |- tp ?x = _ /\ _ => set (s3 := x) end.
  assert (I3 : forall t, info (threads s3 t) = info (threads s1 t)) by (intros t; apply body_info, Hr2).
  assert (Tb3 : thrtab s3 = <[Z.to_nat tid := child]> (thrtab s)).
  { unfold s3. simpl. by rewrite (sr_tab _ _ Hr2). }
  assert (Tp3 : tp s3 = tp s) by (unfold s3; simpl; by rewrite (sr_tp _ _ Hr2)).
  assert (Hin : forall t, in_tab s3 t <-> in_tab s t \/ t = child).
  { intros t. unfold in_tab. rewrite Tb3. by apply in_insert. }
  assert (S3 : forall t, t <> child -> state (threads s3 t) = state (threads s t)).
  { intros t Ht. rewrite <- N1 by done. apply info_state, I3. }
  assert (Hcs : state (threads s3 child) = THREAD_READY).
  { specialize (I3 child). rewrite C1 in I3. unfold info in I3. congruence. }
  assert (St3 : stack_base (threads s3 child) = page + PAGE_SIZE - ANCHOR_SZ).
  { rewrite <- St1. change (stack_base (body (threads s3 child)) = stack_base (body (threads s1 child))).
    f_equal. apply Hr2. }
  assert (Q3 : queues s3 (at_place qs Ready (qs Ready ++ [child])))
    by (apply (queues_frame s2); [done|done|by intros []]).
  assert (Cn : tp s <> child) by (intros Hx; apply Hnt; rewrite <- Hx; apply Hi).
  split_and!; [done|done| |done|done|by rewrite I3|].
  - constructor.
    + constructor; [done| |rewrite Tb3, length_insert; apply Hpl]. intros p t.
      rewrite Hin. pose proof (pl_members _ _ Hpl p t) as Hm.
      destruct (decide (t = child)) as [->|Hne].
      * assert (Hp3 : place_of (threads s3 child) = Some Ready) by (unfold place_of; by rewrite Hcs).
        rewrite Hp3. unfold at_place. case_goal; subst.
        { rewrite elem_of_app, list_elem_of_singleton. tauto. }
        split; [|intros [_ ?]; congruence]. intros Hx. by apply Hno in Hx.
      * rewrite (info_place _ (threads s t)) by (rewrite I3; by rewrite N1).
        unfold at_place. case_goal; subst; [rewrite elem_of_app, list_elem_of_singleton|]; rewrite Hm; tauto.
    + rewrite Tp3. apply Hin. left. apply Hi.
    + intros t Ht. rewrite Tp3. destruct (decide (t = child)) as [->|Hne].
      * rewrite Hcs. split; [done|]. congruence.
      * rewrite S3 by done. apply Hi. apply Hin in Ht as [Ht| ->]; done.
    + destruct (si_idle _ _ Hi) as [Hii Hs]. split; [apply Hin; by left|].
      rewrite S3; [done|]. intros ->. apply Hnt, Hii.
  - intros t Ht. rewrite I3. by rewrite N1.
Qed.

(** ** Joining a thread *)

Lemma thrtab_at_run tid s a :
  0 <= tid < NTHR -> thrtab s !! Z.to_nat tid = Some a -> thrtab_at tid s = Ok (a, s).
Proof.
  intros Ht E. unfold thrtab_at. rewrite (proj2 (Z.ltb_ge _ _)), (proj2 (Z.leb_gt _ _)) by lia.
  cbn [orb]. rewrite bind_run, run_get. cbn [obind]. by rewrite E.
Qed.

Lemma tab_lookup s tid :
  length (thrtab s) = 16%nat -> 0 <= tid < NTHR -> exists a, thrtab s !! Z.to_nat tid = Some a.
Proof. intros E Ht. apply lookup_lt_is_Some. unfold NTHR in Ht. lia. Qed.

(** The children of [thr] get a new parent and nothing else changes. *)
Lemma reparent_run thr par tids s :
  length (thrtab s) = 16%nat -> (forall x, x ∈ tids -> 0 <= x < NTHR) ->
  exists s', reparent thr par tids s = Ok (tt, s') /\ s' = with_threads (threads s') s /\
    (forall t, threads s' t = threads s t \/
       parent (threads s t) = thr /\ threads s' t = set_parent par (threads s t)) /\
    (forall x c, x ∈ tids -> thrtab s !! Z.to_nat x = Some c -> c <> 0 -> par <> thr ->
       parent (threads s' c) <> thr).
Proof.
  revert s. induction tids as [|x tids IH]; intros s Hlen Hx.
  { exists s. split_and!; [done|by destruct s|by left|set_solver]. }
  assert (Hxr : 0 <= x < NTHR) by (apply Hx; set_solver).
  destruct (tab_lookup s x Hlen Hxr) as [c Ec]. cbn [reparent]. rewrite bind_run.
  rewrite (thrtab_at_run _ _ _ Hxr Ec). cbn [obind].
  assert (G : exists s1, (if negb (c =? 0) then t ← rd_thr c;
      if parent t =? thr then upd_thr c (set_parent par) else mret tt else mret tt) s = Ok (tt, s1) /\
      s1 = with_threads (threads s1) s /\
      (forall t, threads s1 t = threads s t \/
         parent (threads s t) = thr /\ threads s1 t = set_parent par (threads s t)) /\
      (c <> 0 -> par <> thr -> parent (threads s1 c) <> thr)).
  { destruct (Z.eqb_spec c 0) as [->|Hc]; cbn [negb].
    - exists s. split_and!; [done|by destruct s|by left|done].
    - run_prim. destruct (Z.eqb_spec (parent (threads s c)) thr) as [Hp|Hp].
      + eexists. run_prim. split_and!; [reflexivity|done| |].
        * intros t. unfold put_thr. simpl. unfold upd. destruct (Z.eqb_spec t c) as [->|]; auto.
        * intros _ Hn. unfold put_thr. simpl. by rewrite upd_eq.
      + exists s. run_prim. split_and!; [done|by destruct s|by left|done]. }
  destruct G as (s1 & E1 & Es1 & H1 & H1'). rewrite bind_run, E1. cbn [obind].
  destruct (IH s1) as (s2 & E2 & Es2 & H2 & H2'); [by rewrite Es1|intros; apply Hx; set_solver|].
  exists s2. split_and!; [done|by rewrite Es2, Es1 at 1| |].
  - intros t. destruct (H1 t) as [A|[A B]], (H2 t) as [C|[C D]].
    + left. congruence.
    + right. split; congruence.
    + right. split; congruence.
    + right. split; [done|]. rewrite D, B. done.
  - intros y d [->|Hy]%elem_of_cons Ed Hd Hn.
    + assert (d = c) as -> by congruence. destruct (H2 c) as [->|[_ ->]]; [by apply H1'|done].
    + apply (H2' y); [done| |done|done]. by rewrite Es1.
Qed.

Lemma range_tids x : x ∈ range 15 1 NTHR 1 <-> 0 < x < NTHR.
Proof.
  rewrite range_elem by lia. unfold NTHR. split; [intros (k & ? & -> & ?); lia|].
  intros ?. exists (x - 1). lia.
Qed.

Lemma recycle_run tid thr s qs :
  sched_inv s qs -> 0 < tid < NTHR -> thrtab s !! Z.to_nat tid = Some thr -> thr <> 0 ->
  state (threads s thr) = THREAD_EXITED ->
  exists s', recycle_thread tid s = Ok (tt, s') /\ sched_inv s' qs /\ tp s' = tp s /\
    thrtab s' = <[Z.to_nat tid := 0]> (thrtab s) /\
    (parent (threads s thr) <> thr -> forall x c, 0 < x < NTHR ->
       thrtab s' !! Z.to_nat x = Some c -> c <> 0 -> parent (threads s' c) <> thr).
Proof.
  intros Hi Ht Elk H0 Hex. pose proof (si_placed _ _ Hi) as Hpl.
  assert (Hlen : length (thrtab s) = 16%nat) by apply Hpl.
  unfold recycle_thread. rewrite bind_run, (thrtab_at_run tid s thr) by (done || lia). cbn [obind].
  rewrite (proj2 (Z.ltb_lt 0 tid)), (proj2 (Z.ltb_lt tid NTHR)), (proj2 (Z.eqb_neq thr 0)) by lia.
  cbn [andb negb]. run_prim. rewrite Hex, bool_decide_eq_true_2 by done. run_prim.
  destruct (reparent_run thr (parent (threads s thr)) (range 15 1 NTHR 1) s) as (s1 & E1 & Es1 & H1 & H1');
    [done|intros x Hx; apply range_tids in Hx; lia|].
  rewrite E1. cbn [obind]. run_prim. unfold on_pages, kfree. run_prim. eexists. split; [reflexivity|].
  match goal with |- sched_inv ?x _ /\ _ => set (s2 := x) end.
  assert (Th2 : threads s2 = threads s1) by done.
  assert (Tb2 : thrtab s2 = <[Z.to_nat tid := 0]> (thrtab s)) by (unfold s2; simpl; by rewrite Es1).
  assert (Tp2 : tp s2 = tp s) by (unfold s2; simpl; by rewrite Es1).
  assert (G2 : forall p, get_list p s2 = get_list p s) by (intros []; unfold s2; simpl; by rewrite Es1).
  clearbody s2.
  assert (St : forall t, state (threads s2 t) = state (threads s t) /\
    place_of (threads s2 t) = place_of (threads s t) /\
    list_next (threads s2 t) = list_next (threads s t)).
  { intros t. rewrite Th2. by destruct (H1 t) as [->|[_ ->]]. }
  assert (Hin : forall t, state (threads s t) <> THREAD_EXITED -> in_tab s2 t <-> in_tab s t).
  { intros t Hst. unfold in_tab. rewrite Tb2. assert (t <> thr) by congruence. split; intros [Hx Hy].
    - split; [|done]. apply list_elem_of_lookup in Hx as [k Hk]. apply list_elem_of_lookup_2 with k.
      destruct (decide (k = Z.to_nat tid)) as [->|]; [|by rewrite list_lookup_insert_ne in Hk].
      rewrite list_lookup_insert_eq in Hk by (by eapply lookup_lt_Some). congruence.
    - split; [|done]. apply list_elem_of_lookup in Hx as [k Hk]. apply list_elem_of_lookup_2 with k.
      rewrite list_lookup_insert_ne; [done|]. intros <-. congruence. }
  assert (Hcur := cur_running _ _ Hi).
  split_and!; [|done|done|].
  - constructor.
    + constructor.
      * apply (queues_frame s); [apply Hpl|intros; apply St|by intros].
      * intros p t. destruct (St t) as (_ & -> & _). rewrite (pl_members _ _ Hpl).
        destruct (decide (state (threads s t) = THREAD_EXITED)) as [Hx|Hx].
        -- assert (Hn : place_of (threads s t) = None) by (unfold place_of; by rewrite Hx).
           rewrite Hn. naive_solver.
        -- by rewrite Hin.
      * by rewrite Tb2, length_insert.
    + rewrite Tp2. apply Hin; [by rewrite Hcur|apply Hi].
    + intros t Htab. rewrite Tp2. destruct (St t) as (-> & _).
      destruct (decide (state (threads s t) = THREAD_EXITED)) as [Hx|Hx].
      * rewrite Hx. split; [done|]. intros ->. congruence.
      * apply Hi. by apply Hin.
    + destruct (si_idle _ _ Hi) as [Hii Hs]. unfold idle_ok. destruct (St idle_thread) as (-> & _).
      split; [|done]. apply Hin; [|done]. by destruct Hs as [-> | ->].
  - intros Hp x c Hx Hlk Hc. rewrite Th2. rewrite Tb2 in Hlk.
    destruct (decide (Z.to_nat x = Z.to_nat tid)) as [E|Hne].
    { rewrite E, list_lookup_insert_eq in Hlk by (by eapply lookup_lt_Some). congruence. }
    rewrite list_lookup_insert_ne in Hlk by done. apply (H1' x); try done.
    by apply range_tids.
Qed.

Lemma nonempty_head s qs :
  sched_inv s qs -> (tp s = idle_thread -> head (ready_list s) <> 0) -> exists n r, qs Ready = n :: r.
Proof.
  intros Hi Hh. pose proof (si_placed _ _ Hi) as Hpl.
  destruct (qs Ready) as [|n r] eqn:E; [|eauto]. exfalso.
  destruct (decide (tp s = idle_thread)) as [Ht|Ht].
  - destruct (q_queue _ _ (pl_queues _ _ Hpl) Ready I) as (Eh & _). rewrite E in Eh. by apply Hh.
  - apply (ready_nonempty s qs); [done|apply Hi| |done].
    intros Hr. apply Ht. symmetry. apply (si_running _ _ Hi); [apply (si_idle _ _ Hi)|done].
Qed.

(** ** Forking *)

(** The running thread is in no list. *)
Lemma running_absent s qs p : sched_inv s qs -> tp s ∉ qs p.
Proof.
  intros Hi Hp. assert (Hcur : state (threads s (tp s)) = THREAD_RUNNING) by (apply (si_running _ _ Hi); [apply Hi|done]).
  apply (pl_members _ _ (si_placed _ _ Hi)) in Hp as [_ Hx]. unfold place_of in Hx. by rewrite Hcur in Hx.
Qed.

(** A new thread takes the processor, and the thread that ran goes to the end of
    the ready list. *)
Lemma hand_over_inv s s' qs child :
  sched_inv s qs -> child ∉ thrtab s -> child <> 0 -> tp s' = child ->
  queues s' (at_place qs Ready (qs Ready ++ [tp s])) -> length (thrtab s') = length (thrtab s) ->
  (forall t, in_tab s' t <-> in_tab s t \/ t = child) ->
  state (threads s' (tp s)) = THREAD_READY -> state (threads s' child) = THREAD_RUNNING ->
  (forall t, t <> child -> t <> tp s -> info (threads s' t) = info (threads s t)) ->
  sched_inv s' (at_place qs Ready (qs Ready ++ [tp s])).
Proof.
  intros Hi Hnt H0 Tp3 Q3 Lt Hin Sp Sc Io. pose proof (si_placed _ _ Hi) as Hpl.
  assert (Cn : tp s <> child) by (intros Hx; apply Hnt; rewrite <- Hx; apply Hi).
  assert (Hno : forall p, child ∉ qs p).
  { intros p Hp. by apply (pl_members _ _ Hpl) in Hp as [[Hx _] _]. }
  constructor.
  - constructor; [done| |rewrite Lt; apply Hpl]. intros p t.
    rewrite Hin. pose proof (pl_members _ _ Hpl p t) as Hm. unfold at_place.
    destruct (decide (t = child)) as [->|Hne].
    { assert (Hp3 : place_of (threads s' child) = None) by (unfold place_of; by rewrite Sc).
      rewrite Hp3. split; [|by intros [_ ?]]. intros Hx. exfalso. case_decide; [|by apply (Hno p)].
      apply elem_of_app in Hx as [Hx|Hx%list_elem_of_singleton]; [by apply (Hno Ready)|done]. }
    destruct (decide (t = tp s)) as [->|Hnc].
    { assert (Hp3 : place_of (threads s' (tp s)) = Some Ready) by (unfold place_of; by rewrite Sp).
      rewrite Hp3. case_decide; subst.
      - rewrite elem_of_app, list_elem_of_singleton. split; [|by right]. intros _. split; [left; apply Hi|done].
      - split; [|intros [_ ?]; congruence]. intros Hx. by apply (running_absent s) in Hx. }
    rewrite (info_place _ _ (Io t Hne Hnc)). case_decide; subst; [rewrite elem_of_app, list_elem_of_singleton|]; rewrite Hm; tauto.
  - rewrite Tp3. apply Hin. by right.
  - intros t Ht. rewrite Tp3. destruct (decide (t = child)) as [->|Hne]; [by rewrite Sc|].
    destruct (decide (t = tp s)) as [->|Hnc]; [by rewrite Sp|].
    rewrite (info_state _ _ (Io t Hne Hnc)). apply Hin in Ht as [Ht|?]; [|done].
    split; [|done]. intros Hx. apply (si_running _ _ Hi t Ht) in Hx. done.
  - destruct (si_idle _ _ Hi) as [Hii Hs]. split; [apply Hin; by left|].
    destruct (decide (idle_thread = tp s)) as [->|Hnc]; [by left|].
    rewrite (info_state _ _ (Io idle_thread ltac:(intros ->; apply Hnt, Hii) Hnc)). done.
Qed.

(** The child of a fork runs at once, and its parent goes to the end of the ready
    list. *)
Lemma fork_run child_proc tid0 s qs tid child k1 page k2 :
  sched_inv s qs -> free_tid (thrtab s) (range 16 0 NTHR 1) = Some tid ->
  kmalloc THREAD_SZ (pages s) = Ok (child, k1) -> memory_alloc_page k1 = Ok (page, k2) ->
  child <> 0 -> child ∉ thrtab s ->
  let anchor := page + PAGE_SIZE - ANCHOR_SZ in
  exists s', thread_fork_to_user child_proc tid0 (tp s) s = Ok (tid, s') /\
    tp s' = child /\ sie s' = sie s /\
    sched_inv s' (at_place qs Ready (qs Ready ++ [tp s])) /\
    thrtab s' = <[Z.to_nat tid := child]> (thrtab s) /\
    pages s' = set_mem <[anchor + 8 := 0]> (set_mem <[anchor := child]> k2) /\ proc_mtag s' = proc_mtag s /\
    info (threads s' child) = (THREAD_RUNNING, tid, child_proc, tp s, wait_cond (threads s child), name (threads s (tp s))) /\
    info (threads s' (tp s)) = info (set_state THREAD_READY (threads s (tp s))) /\
    (forall t, t <> child -> t <> tp s -> info (threads s' t) = info (threads s t)).
Proof.
  intros Hi Hf Ek Ea H0 Hnt anchor. pose proof (si_placed _ _ Hi) as Hpl.
  destruct (free_tid_spec _ _ _ Hf) as [_ Hz]. assert (Hc0 : tp s <> 0) by apply Hi.
  assert (Cn : tp s <> child) by (intros Hx; apply Hnt; rewrite <- Hx; apply Hi).
  unfold thread_fork_to_user. run_prim.
  unfold on_pages at 1. rewrite Ek. cbn [obind]. run_prim.
  unfold on_pages at 1. cbn [pages with_pages]. rewrite Ea. cbn [obind]. run_prim.
  unfold on_pages, store. run_prim. cbn [thrtab with_pages]. rewrite Hf. run_prim.
  cbn [default threads with_pages with_thrtab]. unfold intr_disable. run_prim.
  match goal with |- context [tlinsert Ready (tp s) ?x] => set (s1 := x) end.
  assert (C1 : info (threads s1 child) =
    (state (threads s child), tid, child_proc, tp s, wait_cond (threads s child), name (threads s (tp s)))).
  { unfold s1, put_thr. simpl. by rewrite !upd_eq. }
  assert (N1 : forall t, t <> child -> threads s1 t = threads s t).
  { intros t Ht. unfold s1, put_thr. simpl. by rewrite !upd_ne. }
  assert (Tb1 : thrtab s1 = <[Z.to_nat tid := child]> (thrtab s)) by done.
  assert (R1 : tp s1 = tp s /\ (forall p, get_list p s1 = get_list p s) /\
    pages s1 = set_mem <[anchor + 8 := 0]> (set_mem <[anchor := child]> k2) /\ proc_mtag s1 = proc_mtag s)
    by (split_and!; [done|by intros []|done|done]).
  clearbody s1. destruct R1 as (Tp1 & G1 & Pg1 & Pm1).
  assert (Hno : forall p, child ∉ qs p).
  { intros p Hp. by apply (pl_members _ _ Hpl) in Hp as [[Hx _] _]. }
  assert (Hq1 : queues s1 qs).
  { apply (queues_frame s); [apply Hpl| |by intros]. intros t p Ht. rewrite N1; [done|].
    intros ->. by apply (Hno p). }
  destruct (tlinsert_run Ready (tp s) s1 qs) as (s2 & E2 & Hq2 & Hr2);
    [done..|by intros p; apply (running_absent s)|].
  rewrite E2. cbn [obind]. run_prim. rewrite run_set_state by done. cbn [obind]. run_prim.
  rewrite run_set_state by done. cbn [obind]. unfold intr_restore. run_prim.
  eexists. split; [reflexivity|].
  match goal with |- tp ?x = _ /\ _ => set (s3 := x) end.
  assert (I2 : forall t, info (threads s2 t) = info (threads s1 t)) by (intros t; apply body_info, Hr2).
  assert (T3 : forall t, threads s3 t = if decide (t = child) then set_state THREAD_RUNNING (threads s2 t)
    else if decide (t = tp s) then set_state THREAD_READY (threads s2 t) else threads s2 t).
  { intros t. unfold s3, put_thr. simpl. unfold upd. destruct (decide (t = child)) as [->|Hn].
    - rewrite Z.eqb_refl. destruct (Z.eqb_spec child (tp s)); [congruence|done].
    - destruct (Z.eqb_spec t child); [done|]. destruct (decide (t = tp s)) as [->|]; [by rewrite Z.eqb_refl|].
      by destruct (Z.eqb_spec t (tp s)). }
  assert (Tb3 : thrtab s3 = <[Z.to_nat tid := child]> (thrtab s)).
  { unfold s3. simpl. by rewrite (sr_tab _ _ Hr2). }
  assert (Tp3 : tp s3 = child) by done. assert (Sie3 : sie s3 = sie s) by done.
  assert (Q3 : queues s3 (at_place qs Ready (qs Ready ++ [tp s]))).
  { apply (queues_frame s2); [done| |by intros []]. intros t p _. rewrite T3. by repeat case_decide. }
  assert (Pg3 : pages s3 = set_mem <[anchor + 8 := 0]> (set_mem <[anchor := child]> k2)).
  { unfold s3. simpl. by rewrite (sr_pages _ _ Hr2). }
  assert (Pm3 : proc_mtag s3 = proc_mtag s) by (rewrite <- Pm1; exact (sr_mtag _ _ Hr2)).
  clearbody s3.
  assert (Hin : forall t, in_tab s3 t <-> in_tab s t \/ t = child).
  { intros t. unfold in_tab. rewrite Tb3. by apply in_insert. }
  assert (Ic : info (threads s3 child) = (THREAD_RUNNING, tid, child_proc, tp s, wait_cond (threads s child), name (threads s (tp s)))).
  { rewrite T3, decide_True by done. specialize (I2 child). rewrite C1 in I2. unfold info in *. simpl. congruence. }
  assert (Ip : info (threads s3 (tp s)) = info (set_state THREAD_READY (threads s (tp s)))).
  { rewrite T3, decide_False, decide_True by done. specialize (I2 (tp s)). rewrite N1 in I2 by done.
    unfold info in *. simpl. congruence. }
  assert (Io : forall t, t <> child -> t <> tp s -> info (threads s3 t) = info (threads s t)).
  { intros t H1 H2. rewrite T3, !decide_False by done. rewrite I2. by rewrite N1. }
  assert (Sp : state (threads s3 (tp s)) = THREAD_READY) by (by rewrite (info_state _ _ Ip)).
  assert (Sc : state (threads s3 child) = THREAD_RUNNING) by (unfold info in Ic; congruence).
  split_and!; try done. apply (hand_over_inv s _ _ child); try done. by rewrite Tb3, length_insert.
Qed.
End Idle.
End Sched.
