(* ===== verification/ThreadSpec.v ===== *)
(** The scheduler as a transition system: its steps are the operations of
    thread.c, called by the running thread or, for [condition_broadcast], by an
    interrupt routine; every state the start-up code leads to satisfies the
    invariant of Thread.v, and no assertion of thread.c can fail in it. *)

From S2P Require Import Prelude PhysMem PageTable Thread.

Section Steps.
Variable main_thread idle_thread : Z.
(** The conditions in use. *)
Variable live : Z -> Prop.

(** The idle thread runs [idle_thread_func] and nothing else; every other thread
    calls the operations as it likes.  A thread may exit when its parent's [child_exit] is in
    use.  The memory [kmalloc] returns is not a [struct thread] of the table.
    Allocation, the page tables and user programs change the memory [k] between
    these steps.  A process gives up its space before its thread exits; a fork
    clones the parent's before the new thread starts, the memory [k] with the space
    [m] of the new process active ([sysfork]); a process structure is given its
    space and to a thread ([procmgr_init]). *)
Inductive step : kthreads -> kthreads -> Prop :=
| step_yield s s' :
    tp s <> idle_thread -> thread_yield s = Ok (tt, s') -> step s s'
| step_idle slept s s' :
    tp s = idle_thread -> idle_thread_func s = Ok (slept, s') -> step s s'
| step_wait c s s' :
    live c -> tp s <> idle_thread -> condition_wait c s = Ok (tt, s') -> step s s'
| step_broadcast c s s' :
    live c -> condition_broadcast c s = Ok (tt, s') -> step s s'
| step_exit k s s' :
    tp s <> idle_thread -> live (child_exit (parent (threads s (tp s)))) ->
    thread_exit main_thread (with_pages k s) = Ok (tt, s') -> step s s'
| step_spawn nm tid s s' :
    (forall child k, kmalloc THREAD_SZ (pages s) = Ok (child, k) -> child <> 0 /\ child ∉ thrtab s) ->
    thread_spawn nm s = Ok (tid, s') -> step s s'
| step_join tid r s s' :
    tp s <> idle_thread -> live (child_exit (tp s)) -> thread_join tid s = Ok (r, s') -> step s s'
| step_join_any r s s' :
    tp s <> idle_thread -> live (child_exit (tp s)) -> thread_join_any s = Ok (r, s') -> step s s'
| step_join_resumed tid s s' :
    join_any_resumed s = Ok (tid, s') -> step s s'
| step_fork child_proc m tid0 tid k s s' :
    (forall child k', kmalloc THREAD_SZ k = Ok (child, k') -> child <> 0 /\ child ∉ thrtab s) ->
    free_tid (thrtab s) (range 16 0 NTHR 1) <> None -> satp k = m ->
    thread_fork_to_user child_proc tid0 (tp s) (with_mtag child_proc m (with_pages k s)) = Ok (tid, s') -> step s s'
| step_process tid p m s s' :
    p <> 0 -> satp (pages s) = m ->
    thread_set_process tid p (with_mtag p m s) = Ok (tt, s') -> step s s'
| step_memory k s : satp k = satp (pages s) -> step s (with_pages k s)
| step_intr b s : step s (with_sie b s).

Notation inv := (sched_inv live idle_thread).

Lemma exit_Ok_inv s s' qs :
  inv s qs -> thread_exit main_thread s = Ok (tt, s') ->
  tp s <> main_thread /\ parent (threads s (tp s)) <> 0.
Proof.
  intros Hi. assert (H0 : tp s <> 0) by apply Hi. unfold thread_exit. run_prim.
  destruct (Z.eqb_spec (tp s) main_thread) as [|Hm]; [done|].
  rewrite bind_run, run_set_state by done. cbn [obind]. run_prim.
  replace (parent (threads (put_thr (tp s) (set_state THREAD_EXITED) s) (tp s)))
    with (parent (threads s (tp s))) by (unfold put_thr; simpl; by rewrite upd_eq).
  destruct (Z.eqb_spec (parent (threads s (tp s))) 0) as [->|Hp]; [|done].
  cbn [Z.eqb negb cassert]. intros H. discriminate H.
Qed.

Lemma spawn_Ok_inv nm s tid s' :
  thread_spawn nm s = Ok (tid, s') ->
  exists tid child k1 page k2, free_tid (thrtab s) (range 15 1 NTHR 1) = Some tid /\
    kmalloc THREAD_SZ (pages s) = Ok (child, k1) /\ memory_alloc_page k1 = Ok (page, k2).
Proof.
  unfold thread_spawn. rewrite bind_run, run_get. cbn [obind].
  destruct (free_tid _ _) as [i|]; [|done]. intros H.
  apply bind_Ok_inv in H as (child & s1 & H1 & H). apply bind_Ok_inv in H as (page & s2 & H2 & _).
  unfold on_pages in H1, H2.
  destruct (kmalloc THREAD_SZ (pages s)) as [[c k1]| | | |] eqn:Ek; try done.
  cbn [obind] in H1. injection H1 as <- <-. cbn [pages with_pages] in H2.
  destruct (memory_alloc_page k1) as [[p k2]| | | |] eqn:Ea; try done.
  eauto 10.
Qed.

Lemma fork_Ok_inv child_proc tid0 parent s tid s' :
  thread_fork_to_user child_proc tid0 parent s = Ok (tid, s') ->
  exists child k1 page k2, kmalloc THREAD_SZ (pages s) = Ok (child, k1) /\ memory_alloc_page k1 = Ok (page, k2).
Proof.
  unfold thread_fork_to_user. intros H.
  apply bind_Ok_inv in H as (child & s1 & H1 & H). apply bind_Ok_inv in H as (page & s2 & H2 & _).
  unfold on_pages in H1, H2.
  destruct (kmalloc THREAD_SZ (pages s)) as [[c k1]| | | |] eqn:Ek; try done.
  cbn [obind] in H1. injection H1 as <- <-. cbn [pages with_pages] in H2.
  destruct (memory_alloc_page k1) as [[p k2]| | | |] eqn:Ea; try done.
  eauto 10.
Qed.

(** [thread_set_process] changes the process of one thread. *)
Lemma set_process_Ok_inv tid p s s' :
  thread_set_process tid p s = Ok (tt, s') -> exists a, s' = put_thr a (set_proc p) s.
Proof.
  unfold thread_set_process, tid_thread. intros H.
  apply bind_Ok_inv in H as (a & s1 & H1 & H). exists a.
  assert (s1 = s) as ->.
  { apply bind_Ok_inv in H1 as ([] & s2 & H2 & H1).
    assert (s2 = s) as -> by (unfold cassert in H2; destruct (_ || _) in H2; [by injection H2 as <-|done]).
    apply bind_Ok_inv in H1 as (b & s3 & H3 & H1).
    assert (s3 = s) as ->.
    { unfold thrtab_at in H3. destruct (_ || _) in H3; [done|]. rewrite bind_run, run_get in H3. cbn [obind] in H3.
      destruct (thrtab s !! _); [by injection H3 as _ <-|done]. }
    unfold cassert in H1. destruct (negb (b =? 0)); cbn in H1; [by injection H1 as _ <-|done]. }
  unfold upd_thr in H. destruct (a =? 0); [done|]. by injection H as <-.
Qed.

Lemma join_inv tid r s s' qs :
  inv s qs -> tp s <> idle_thread -> live (child_exit (tp s)) ->
  thread_join tid s = Ok (r, s') -> exists qs', inv s' qs'.
Proof.
  intros Hi Hni Hlc H. unfold thread_join in H.
  apply bind_Ok_inv in H as (child & s1 & H1 & H). unfold thrtab_at in H1.
  destruct ((tid <? 0) || (NTHR <=? tid)) eqn:Er; [done|].
  rewrite bind_run, run_get in H1. cbn [obind] in H1.
  destruct (thrtab s !! Z.to_nat tid) as [a|] eqn:Ea; [|done]. injection H1 as <- <-.
  destruct ((tid <=? 0) || (NTHR <=? tid)) eqn:Er'; [injection H as <- <-; eauto|].
  unfold CURTHR in H. rewrite bind_run, run_gets in H. cbn [obind] in H.
  destruct (Z.eqb_spec a 0) as [|Ha]; [injection H as <- <-; eauto|].
  rewrite bind_run, run_rd_thr in H by done. cbn [obind] in H.
  destruct (negb (parent (threads s a) =? tp s)); [injection H as <- <-; eauto|].
  unfold join_round in H. rewrite bind_run, run_rd_thr in H by done. cbn [obind] in H.
  case_bool_decide as Hst; cbn [negb] in H.
  - destruct (recycle_run live idle_thread tid a s qs) as (s2 & E2 & Hi2 & _); [done| |done|done|done|].
    { zbool. lia. }
    rewrite bind_run, E2 in H. cbn [obind] in H. injection H as <- <-. eauto.
  - unfold CURTHR in H. rewrite bind_run, run_gets in H. cbn [obind] in H.
    destruct (wait_run live idle_thread (child_exit (tp s)) s qs) as (s2 & n & q & _ & E2 & _ & _ & Hi2);
      [done..|]. rewrite bind_run, E2 in H. cbn [obind] in H. injection H as <- <-. eauto.
Qed.

(** The scan of the table changes nothing; what it finds is an exited child. *)
Lemma scan_Ok_inv cur tids : forall n s r s',
  scan_children cur tids n s = Ok (r, s') ->
  s' = s /\ forall tid, r = inl tid -> tid ∈ tids /\
    exists a, thrtab s !! Z.to_nat tid = Some a /\ a <> 0 /\ state (threads s a) = THREAD_EXITED.
Proof.
  induction tids as [|x tids IH]; intros n s r s' H; cbn [scan_children] in H; [by injection H as <- <-|].
  apply bind_Ok_inv in H as (a & s1 & H1 & H). unfold thrtab_at in H1.
  destruct ((x <? 0) || (NTHR <=? x)); [done|]. rewrite bind_run, run_get in H1. cbn [obind] in H1.
  destruct (thrtab s !! Z.to_nat x) as [a'|] eqn:Ea; [|done]. injection H1 as -> <-.
  assert (IH' : forall n, scan_children cur tids n s = Ok (r, s') -> s' = s /\ forall tid, r = inl tid -> tid ∈ x :: tids /\
    exists a, thrtab s !! Z.to_nat tid = Some a /\ a <> 0 /\ state (threads s a) = THREAD_EXITED).
  { intros m Hm. destruct (IH _ _ _ _ Hm) as [-> Hr]. split; [done|]. intros tid E.
    destruct (Hr tid E) as [Hin Hx]. split; [by right|done]. }
  destruct (Z.eqb_spec a 0) as [|Ha]; [eauto|]. rewrite bind_run, run_rd_thr in H by done. cbn [obind] in H.
  destruct (parent (threads s a) =? cur); [|eauto]. case_bool_decide as Hst; [|eauto].
  injection H as <- <-. split; [done|]. intros tid [= <-]. split; [by left|]. by exists a.
Qed.

Lemma join_any_inv r s s' qs :
  inv s qs -> tp s <> idle_thread -> live (child_exit (tp s)) ->
  thread_join_any s = Ok (r, s') -> exists qs', inv s' qs'.
Proof.
  intros Hi Hni Hlc H. unfold thread_join_any, CURTHR in H. rewrite bind_run, run_gets in H. cbn [obind] in H.
  apply bind_Ok_inv in H as (x & s1 & H1 & H). destruct (scan_Ok_inv _ _ _ _ _ _ H1) as [-> _].
  destruct x as [tid|n]; [by apply (join_inv tid r s s' qs)|]. destruct (n =? 0); [done|].
  destruct (wait_run live idle_thread (child_exit (tp s)) s qs) as (s2 & n' & q & _ & E2 & _ & _ & Hi2); [done..|].
  rewrite bind_run, E2 in H. cbn [obind] in H. injection H as <- <-. eauto.
Qed.

Lemma join_resumed_inv tid s s' qs :
  inv s qs -> join_any_resumed s = Ok (tid, s') -> exists qs', inv s' qs'.
Proof.
  intros Hi H. unfold join_any_resumed, CURTHR in H. rewrite bind_run, run_gets in H. cbn [obind] in H.
  apply bind_Ok_inv in H as (x & s1 & H1 & H). destruct (scan_Ok_inv _ _ _ _ _ _ H1) as [-> Hx].
  destruct x as [tid'|n]; [|done]. destruct (Hx tid' eq_refl) as (Hin & a & Ea & Ha & Hst).
  destruct (recycle_run live idle_thread tid' a s qs) as (s2 & E2 & Hi2 & _); [done| |done|done|done|].
  { apply range_elem in Hin as (k & Hk); [|lia]. unfold NTHR in *. lia. }
  rewrite bind_run, E2 in H. cbn [obind] in H. injection H as <- <-. eauto.
Qed.

Lemma inv_sie s qs b : inv s qs -> inv (with_sie b s) qs.
Proof. intros Hi. apply (sched_frame live idle_thread s); [done|done|by intros []|done|done]. Qed.

Lemma inv_pages s qs k : inv s qs -> inv (with_pages k s) qs.
Proof. intros Hi. apply (sched_frame live idle_thread s); [done|done|by intros []|done|done]. Qed.
Lemma inv_mtag s qs p m : inv s qs -> inv (with_mtag p m s) qs.
Proof. intros Hi. apply (sched_frame live idle_thread s); [done|done|by intros []|done|done]. Qed.

Lemma inv_set_proc s qs a p : inv s qs -> inv (put_thr a (set_proc p) s) qs.
Proof.
  intros Hi. apply (sched_frame_state live idle_thread s); [done| |by intros []|done|done].
  intros x. unfold put_thr. simpl. unfold upd. by destruct (Z.eqb_spec x a) as [->|].
Qed.

(** A pass of the idle thread: it yields to the head of the ready list, or the
    list is empty and the thread sleeps with interrupts enabled again. *)
Lemma idle_run s qs :
  inv s qs ->
  exists slept s' qs', idle_thread_func s = Ok (slept, s') /\ inv s' qs' /\
    match qs Ready with
    | n :: r => slept = false /\ tp s' = n /\ qs' Ready = r ++ [tp s]
    | [] => slept = true /\ s' = with_sie true s
    end.
Proof.
  intros Hi. destruct (q_queue _ _ _ (pl_queues _ _ _ (si_placed _ _ _ _ Hi)) Ready I) as (Eh & _ & Hseg).
  unfold idle_thread_func, tlempty. run_prim. cbn [get_list] in *. rewrite Eh.
  destruct (qs Ready) as [|n r] eqn:Er; cbn [List.hd].
  - cbn [Z.eqb negb]. unfold intr_disable, intr_enable. run_prim. cbn [ready_list with_sie]. rewrite Eh. cbn [List.hd Z.eqb].
    exists true, (with_sie true (with_sie false s)), qs. split_and!; [reflexivity| |done|done]. do 2 apply inv_sie. done.
  - destruct Hseg as (Hn & _). rewrite (proj2 (Z.eqb_neq n 0)) by done. cbn [negb].
    destruct (yield_run live idle_thread s qs n r Hi Er) as (s2 & E & Ht & _ & Hi2).
    rewrite bind_run, E. cbn [obind]. exists false, s2. eexists. split_and!; [reflexivity|exact Hi2|done|done|done].
Qed.

Lemma step_inv s s' : (exists qs, inv s qs) -> step s s' -> exists qs, inv s' qs.
Proof.
  intros [qs Hi] Hs. destruct Hs as [s s' Hh H|slept s s' Hid H|c s s' Hc Hni H|c s s' Hc H|k s s' Hni Hlc H
    |nm tid s s' Hal H|tid r s s' Hni Hlc H|r s s' Hni Hlc H|tid s s' H
    |child_proc m tid0 tid k s s' Hal Hft _ H|tid p m s s' _ _ H|k s _|b s].
  - destruct (nonempty_head live idle_thread s qs Hi) as (n & r & Er); [by intros|].
    destruct (yield_run live idle_thread s qs n r Hi Er) as (s2 & E & _ & _ & Hi2).
    rewrite E in H. injection H as <-. eauto.
  - destruct (idle_run s qs Hi) as (x & s2 & qs' & E & Hi2 & _). rewrite E in H. injection H as <- <-. eauto.
  - destruct (wait_run live idle_thread c s qs) as (s2 & n & r & _ & E & _ & _ & Hi2); [done..|].
    rewrite E in H. injection H as <-. eauto.
  - destruct (broadcast_inv live idle_thread c s qs) as (s2 & E & _ & _ & Hi2 & _); [done..|].
    rewrite E in H. injection H as <-. eauto.
  - apply (inv_pages _ _ k) in Hi. destruct (exit_Ok_inv _ s' qs Hi H) as [Hm Hp].
    destruct (exit_run live idle_thread main_thread (with_pages k s) qs) as (s2 & n & r & E & _ & _ & _ & Hi2 & _); [done..|].
    rewrite E in H. injection H as <-. eauto.
  - destruct (spawn_Ok_inv _ _ _ _ H) as (tid' & child & k1 & page & k2 & Hf & Hk & Ha).
    destruct (Hal child k1 Hk) as [Hc0 Hct].
    destruct (spawn_run live idle_thread nm s qs tid' child k1 page k2) as (s2 & E & _ & _ & Hi2 & _); [done..|].
    rewrite E in H. injection H as <- <-. eauto.
  - by apply (join_inv tid r s s' qs).
  - by apply (join_any_inv r s s' qs).
  - by apply (join_resumed_inv tid s s' qs).
  - apply (inv_pages _ _ k), (inv_mtag _ _ child_proc m) in Hi.
    destruct (fork_Ok_inv _ _ _ _ _ _ H) as (child & k1 & page & k2 & Hk & Ha).
    destruct (Hal child k1 Hk) as [Hc0 Hct]. destruct (free_tid (thrtab s) _) as [i|] eqn:Hf; [|done].
    destruct (fork_run live idle_thread child_proc tid0 _ qs i child k1 page k2 Hi Hf Hk Ha Hc0 Hct)
      as (s2 & E & _ & _ & Hi2 & _). cbn [tp with_mtag with_pages] in E. rewrite E in H. injection H as <- <-. eauto.
  - destruct (set_process_Ok_inv _ _ _ _ H) as [a ->]. exists qs. by apply inv_set_proc, inv_mtag.
  - exists qs. by apply inv_pages.
  - exists qs. by apply inv_sie.
Qed.

(** ** Start-up *)

Lemma thread_init_run s0 ma ml ia il :
  main_thread <> 0 -> idle_thread <> 0 -> main_thread <> idle_thread ->
  exists s, thread_init main_thread idle_thread ma ml ia il (static_state main_thread idle_thread s0)
    = Ok (tt, s) /\ tp s = main_thread /\
    (pages s = pages s0 /\ thrtab s = main_thread :: replicate 14 0 ++ [idle_thread] /\
     info (threads s main_thread) = info static_main /\ stack_base (threads s main_thread) = ma) /\
    inv s (fun p => match p with Ready => [idle_thread] | Waiters _ => [] end).
Proof.
  intros Hm Hid Hne. unfold thread_init, init_main_thread, init_idle_thread. run_prim.
  match goal with |- context [tlinsert Ready idle_thread ?x] => set (s1 := x) end.
  assert (Q1 : queues live s1 (fun _ => [])).
  { constructor; [|constructor|set_solver|set_solver]. by intros [|c] _. }
  destruct (tlinsert_run live Ready idle_thread s1 (fun _ => [])) as (s2 & E2 & Q2 & R2);
    [done|done|done|set_solver|].
  rewrite E2. cbn [obind]. run_prim. eexists. split; [reflexivity|]. split; [done|].
  assert (Tm : info (threads s1 main_thread) = info static_main).
  { unfold s1, put_thr. simpl. rewrite upd_ne by done. rewrite upd_eq. rewrite upd_ne by done.
    by rewrite upd_eq. }
  assert (Ti : info (threads s1 idle_thread) = info (static_idle main_thread)).
  { unfold s1, put_thr. simpl. rewrite upd_eq. rewrite upd_ne by done. by rewrite upd_eq. }
  assert (Tb : thrtab s1 = main_thread :: replicate 14 0 ++ [idle_thread]) by done.
  assert (Hrest : pages s1 = pages s0 /\ stack_base (threads s1 main_thread) = ma).
  { split; [done|]. unfold s1, put_thr. simpl. rewrite upd_ne by done. by rewrite upd_eq. }
  clearbody s1.
  assert (Tab : forall t, t ∈ main_thread :: replicate 14 0 ++ [idle_thread] /\ t <> 0 <->
    t = main_thread \/ t = idle_thread).
  { intros t. rewrite elem_of_cons, elem_of_app, elem_of_replicate, list_elem_of_singleton. naive_solver. }
  assert (In2 : forall t, in_tab (with_tp main_thread s2) t <-> t = main_thread \/ t = idle_thread).
  { intros t. unfold in_tab. simpl. rewrite (sr_tab _ _ R2), Tb. apply Tab. }
  assert (I2 : forall t, info (threads s2 t) = info (threads s1 t)) by (intros; apply body_info, R2).
  assert (Sm : state (threads s2 main_thread) = THREAD_RUNNING).
  { specialize (I2 main_thread). rewrite Tm in I2. unfold info in I2. simpl in I2. congruence. }
  assert (Si : state (threads s2 idle_thread) = THREAD_READY).
  { specialize (I2 idle_thread). rewrite Ti in I2. unfold info in I2. simpl in I2. congruence. }
  split.
  { cbn [pages thrtab threads set_running_thread with_tp]. rewrite (sr_pages _ _ R2), (sr_tab _ _ R2), I2, Tm.
    destruct Hrest as [-> <-]. split_and!; try done.
    change (stack_base (body (threads s2 main_thread)) = stack_base (body (threads s1 main_thread))).
    f_equal. apply R2. }
  constructor.
  - constructor.
    + apply (queues_frame live s2); [|done|by intros []].
      refine (proj1 (queues_proper live s2 _ _ _) Q2). by intros [].
    + intros p t. rewrite In2. simpl. split.
      * destruct p; [|by intros ?%not_elem_of_nil]. intros ->%list_elem_of_singleton.
        split; [by right|]. unfold place_of. by rewrite Si.
      * unfold place_of. intros [[-> | ->] Hp]; [by rewrite Sm in Hp|]. rewrite Si in Hp.
        injection Hp as <-. by apply list_elem_of_singleton.
    + simpl. by rewrite (sr_tab _ _ R2), Tb.
  - apply In2. by left.
  - intros t Ht. apply In2 in Ht. simpl. destruct Ht as [-> | ->]; [done|].
    rewrite Si. split; [done|]. congruence.
  - split; [apply In2; by right|]. by left.
Qed.

(** What can be done in a state without running into an assertion. *)
Definition safe (s : kthreads) : Prop :=
  (tp s <> idle_thread -> exists s', thread_yield s = Ok (tt, s')) /\
  (tp s = idle_thread -> exists slept s', idle_thread_func s = Ok (slept, s')) /\
  (forall c, live c -> tp s <> idle_thread -> exists s', condition_wait c s = Ok (tt, s')) /\
  (forall c, live c -> exists s', condition_broadcast c s = Ok (tt, s')) /\
  (tp s <> idle_thread -> tp s <> main_thread -> parent (threads s (tp s)) <> 0 ->
   live (child_exit (parent (threads s (tp s)))) -> exists s', thread_exit main_thread s = Ok (tt, s')).

Lemma inv_safe s qs : inv s qs -> safe s.
Proof.
  intros Hi. split_and!.
  - intros Hh. destruct (nonempty_head live idle_thread s qs Hi) as (n & r & Er); [by intros|].
    destruct (yield_run live idle_thread s qs n r Hi Er) as (s2 & E & _). eauto.
  - intros _. destruct (idle_run s qs Hi) as (x & s2 & _ & E & _). eauto.
  - intros c Hc Hni. destruct (wait_run live idle_thread c s qs) as (s2 & n & r & _ & E & _); [done..|].
    eauto.
  - intros c Hc. destruct (broadcast_inv live idle_thread c s qs) as (s2 & E & _); [done..|]. eauto.
  - intros Hni Hm Hp Hlc.
    destruct (exit_run live idle_thread main_thread s qs) as (s2 & n & r & E & _); [done..|]. eauto.
Qed.
End Steps.

(** ** Properties *)


(** C32. The scheduler is a queue: yielding runs the thread at the head of the
    ready list and puts the running thread at its end; waiting puts the running
    thread at the end of the condition's list and runs the head of the ready
    list; a broadcast moves the waiting threads, in the order in which they
    started to wait, to the end of the ready list and goes on running the same
    thread with interrupts as they were. *)
Theorem scheduler_queue (live : Z -> Prop) (idle_thread c : Z) (s : kthreads)
    (qs : place -> list Z) (n : Z) (r : list Z)
    (Hi : sched_inv live idle_thread s qs) (Hc : live c) (Hr : qs Ready = n :: r) :
  (exists s' qs', thread_yield s = Ok (tt, s') /\ tp s' = n /\ sched_inv live idle_thread s' qs' /\
     qs' Ready = r ++ [tp s] /\ forall c', qs' (Waiters c') = qs (Waiters c')) /\
  (tp s <> idle_thread ->
   exists s' qs', condition_wait c s = Ok (tt, s') /\ tp s' = n /\ sched_inv live idle_thread s' qs' /\
     qs' Ready = r /\ qs' (Waiters c) = qs (Waiters c) ++ [tp s] /\
     forall c', c' <> c -> qs' (Waiters c') = qs (Waiters c')) /\
  (exists s' qs', condition_broadcast c s = Ok (tt, s') /\ tp s' = tp s /\ sie s' = sie s /\
     sched_inv live idle_thread s' qs' /\
     qs' Ready = qs Ready ++ qs (Waiters c) /\ qs' (Waiters c) = [] /\
     forall c', c' <> c -> qs' (Waiters c') = qs (Waiters c')).
Proof.
  split_and!.
  - destruct (yield_run live idle_thread s qs n r Hi Hr) as (s' & E & Ht & _ & Hi').
    eexists s', _. by split_and!.
  - intros Hni. destruct (wait_run live idle_thread c s qs Hi Hc Hni) as (s' & n' & r' & Er & E & Ht & _ & Hi').
    rewrite Hr in Er. injection Er as <- <-.
    eexists s', _. split_and!; [done|done|exact Hi'|done| |].
    + rewrite at_place_ne by done. by rewrite at_place_eq.
    + intros c' Hne. rewrite !at_place_ne by congruence. done.
  - destruct (broadcast_inv live idle_thread c s qs Hi Hc) as (s' & E & Ht & _ & Hi' & _ & Hs & _).
    eexists s', _. split_and!; [done|done|done|exact Hi'| | |].
    + unfold woken. rewrite at_place_ne by done. by rewrite at_place_eq.
    + unfold woken. by rewrite at_place_eq.
    + intros c' Hne. unfold woken. rewrite !at_place_ne by congruence. done.
Qed.

(** The stack of an exited thread is given back at the wrong address:
    [thread_spawn] puts the stack anchor 16 bytes below the end of the page it
    got, and [suspend_self] frees the address one page below the anchor, which is
    16 bytes below the page.  The next page that is allocated is this address: it is
    not aligned and overlaps the page before. *)
Theorem exited_stack_misfreed (live : Z -> Prop) (idle_thread nm tid child page : Z)
    (s s1 s2 : kthreads) (qs : place -> list Z) (k1 k2 : kmem) (saved : bool)
    (Hi : sched_inv live idle_thread s qs)
    (Hf : free_tid (thrtab s) (range 15 1 NTHR 1) = Some tid)
    (Hk : kmalloc THREAD_SZ (pages s) = Ok (child, k1))
    (Ha : memory_alloc_page k1 = Ok (page, k2)) (Hp : page_ok page)
    (Hc : child <> 0 /\ child ∉ thrtab s)
    (Hs : thread_spawn nm s = Ok (tid, s1))
    (Hb : stack_base (threads s2 child) = stack_base (threads s1 child))
    (Hx : state (threads s2 child) = THREAD_EXITED) :
  exists s3, suspend_in child saved s2 = Ok (tt, s3) /\
    (exists k, memory_alloc_page (pages s3) = Ok (page - 16, k)) /\
    (page - 16) mod PAGE_SIZE <> 0 /\ page - 16 < page < page - 16 + PAGE_SIZE.
Proof.
  destruct Hc as [Hc Hct]. destruct (spawn_run live idle_thread nm s qs tid child k1 page k2 Hi Hf Hk Ha Hc Hct)
    as (s1' & E & _ & _ & _ & _ & Hsb & _).
  rewrite E in Hs. injection Hs as <-. rewrite Hsb in Hb. destruct Hp as (Hal & Hpos & _).
  unfold suspend_in. run_prim. rewrite Hx, bool_decide_eq_true_2 by done. run_prim.
  unfold on_pages, memory_free_page, store. run_prim. unfold intr_restore. run_prim.
  eexists. split; [reflexivity|]. rewrite Hb. unfold ANCHOR_SZ, PAGE_SIZE in *.
  replace (page + 4096 - 16 - 4096) with (page - 16) by lia.
  assert (Hn : page - 16 <> 0) by (Z.div_mod_to_equations; lia).
  split_and!; [|Z.div_mod_to_equations; lia|lia|lia].
  unfold memory_alloc_page. run_prim. cbn [pages with_pages free_list set_free_list put_thr with_threads with_sie].
  rewrite (proj2 (Z.eqb_neq _ _) Hn). unfold load. run_prim. eauto.
Qed.

(** ** A run: the main thread starts a thread, which runs and exits. *)

Definition demo_s0 : kthreads :=
  mkThreads (fun _ => mkThread 0 0 0 THREAD_UNINITIALIZED 0 0 0 0 0) (fun _ => mkCond 0 (mkList 0 0))
    (mkList 0 0) [] 0 false (fun _ => None) demo_mem (fun _ => 0).

Definition final {A} (m : outcome (A * kthreads)) : kthreads :=
  match m with Ok (_, s) => s | _ => demo_s0 end.

Definition result {A} (m : outcome (A * kthreads)) : option A :=
  match m with Ok (a, _) => Some a | _ => None end.

Lemma final_ok {A} (m : outcome (A * kthreads)) a : result m = Some a -> m = Ok (a, final m).
Proof. destruct m as [[b s]| | | |]; simpl; intros H; try discriminate. by injection H as ->. Qed.

Definition demo_live (c : Z) : Prop := c = child_exit 1000.
Definition demo_boot : kthreads := final (thread_init 1000 2000 0 0 0 0 (static_state 1000 2000 demo_s0)).
Definition demo_spawned : kthreads := final (thread_spawn 7 demo_boot).
Definition demo_child_runs : kthreads := final (idle_thread_func (final (thread_yield demo_spawned))).
Definition demo_exited : kthreads := final (thread_exit 1000 demo_child_runs).

Ltac run_demo :=
  unfold demo_exited, demo_child_runs, demo_spawned, demo_boot; apply final_ok; vm_compute; reflexivity.

Lemma with_pages_id s : with_pages (pages s) s = s.
Proof. by destruct s. Qed.

Lemma demo_steps : steps (step 1000 2000 demo_live) demo_boot demo_exited.
Proof.
  eapply steps_cons; [apply (step_spawn _ _ _ 7 1 demo_boot demo_spawned)|].
  - intros child k H. vm_compute in H. injection H as <- _. split; [done|]. vm_compute. 
    intros H. repeat (apply elem_of_cons in H as [H|H]; [discriminate H|]). by apply not_elem_of_nil in H.
  - run_demo.
  - eapply steps_cons; [apply (step_yield _ _ _ _ (final (thread_yield demo_spawned))); [vm_compute; discriminate|run_demo]|].
    eapply steps_cons; [apply (step_idle _ _ _ false _ demo_child_runs); [vm_compute; reflexivity|run_demo]|].
    apply steps_one. apply (step_exit _ _ _ (pages demo_child_runs) demo_child_runs);
      [vm_compute; discriminate|vm_compute; reflexivity|rewrite with_pages_id; run_demo].
Qed.


Lemma demo_boot_inv :
  sched_inv demo_live 2000 demo_boot (fun p => match p with Ready => [2000] | Waiters _ => [] end).
Proof.
  destruct (thread_init_run 1000 2000 demo_live demo_s0 0 0 0 0) as (s & E & _ & _ & Hi); [lia..|].
  unfold demo_boot. rewrite E. exact Hi.
Qed.

Lemma scheduler_queue_witness :
  exists s' qs', thread_yield demo_boot = Ok (tt, s') /\ tp s' = 2000 /\
    sched_inv demo_live 2000 s' qs' /\ qs' Ready = [tp demo_boot] /\ forall c', qs' (Waiters c') = [].
Proof.
  exact (proj1 (scheduler_queue demo_live 2000 (child_exit 1000) demo_boot _ 2000 []
    demo_boot_inv eq_refl eq_refl)).
Defined.

Lemma exited_stack_misfreed_witness :
  exists s3, suspend_in 2147553072 true
      (final (set_thread_state 2147553072 THREAD_EXITED demo_spawned)) = Ok (tt, s3) /\
    (exists k, memory_alloc_page (pages s3) = Ok (2147557376 - 16, k)) /\
    (2147557376 - 16) mod PAGE_SIZE <> 0 /\
    2147557376 - 16 < 2147557376 < 2147557376 - 16 + PAGE_SIZE.
Proof.
  apply (exited_stack_misfreed demo_live 2000 7 1 2147553072 2147557376 demo_boot demo_spawned _ _
    (set_heap 2147549184 2147553072 demo_mem)
    (set_free_list 2147561472 (set_heap 2147549184 2147553072 demo_mem)) true demo_boot_inv).
  - vm_compute. reflexivity.
  - vm_compute. reflexivity.
  - vm_compute. reflexivity.
  - split_and!; reflexivity.
  - split; [discriminate|]. vm_compute. intros H.
    repeat (apply elem_of_cons in H as [H|H]; [discriminate H|]). by apply not_elem_of_nil in H.
  - run_demo.
  - vm_compute. reflexivity.
  - vm_compute. reflexivity.
Defined.
