(* ===== verification/ThreadSpace.v ===== *)
(** thread.c: threads and address spaces.

    [suspend_self] switches to the address space of the next thread's process
    before it switches threads.  So whenever a thread of a process runs, its
    process's space is active: [own_space], an invariant of the steps of
    [ThreadSpec].  The proof composes along the code: most of it leaves the
    running thread, the active space and the processes of threads alone
    ([keeps]), and a switch establishes the invariant whatever held before
    ([lands]). *)

From S2P Require Import Prelude PhysMem PageTable Thread ThreadSpec.

Definition own_space (s : kthreads) : Prop :=
  proc (threads s (tp s)) <> 0 -> satp (pages s) = proc_mtag s (proc (threads s (tp s))).

(** ** Code that leaves the running thread and its space alone *)

Record unmoved (s s' : kthreads) : Prop := {
  um_tp : tp s' = tp s;
  um_satp : satp (pages s') = satp (pages s);
  um_mtag : proc_mtag s' = proc_mtag s;
  um_proc : proc (threads s' (tp s)) = proc (threads s (tp s))
}.

#[export] Instance unmoved_preorder : PreOrder unmoved.
Proof.
  split; [by intros s; constructor|]. intros s1 s2 s3 [] []. constructor; try congruence.
Qed.

#[export] Instance own_space_unmoved : Proper (unmoved ==> impl) own_space.
Proof.
  intros s s' [Et Es Em Ep] H. unfold own_space in *. rewrite Et, Es, Em, Ep. exact H.
Qed.

Definition keeps {A} (m : T A) : Prop := forall s a s', m s = Ok (a, s') -> unmoved s s'.
(** The invariant holds afterwards. *)
Definition lands {A} (m : T A) : Prop := forall s a s', m s = Ok (a, s') -> own_space s'.
(** The invariant is kept. *)
Definition stays {A} (m : T A) : Prop := forall s a s', own_space s -> m s = Ok (a, s') -> own_space s'.

Lemma keeps_ret {A} (a : A) : keeps (mret a).
Proof. by intros s b s' [= _ <-]. Qed.
Lemma keeps_get : keeps get.
Proof. by intros s b s' [= _ <-]. Qed.
Lemma keeps_gets {A} (f : kthreads -> A) : keeps (gets f).
Proof. by intros s b s' [= _ <-]. Qed.
Lemma keeps_panic {A} w : keeps (panic w : T A).
Proof. by intros s b s' ?. Qed.
Lemma keeps_undef {A} w : keeps (undef w : T A).
Proof. by intros s b s' ?. Qed.
Lemma keeps_fuel {A} : keeps ((fun _ => Fuel) : T A).
Proof. by intros s b s' ?. Qed.
Lemma keeps_halt {A} : keeps (halt_success : T A).
Proof. by intros s b s' ?. Qed.
Lemma keeps_cassert c : keeps (cassert c).
Proof. unfold cassert. destruct c; [apply keeps_ret|apply keeps_panic]. Qed.
Lemma keeps_modify f : (forall s, unmoved s (f s)) -> keeps (modify f).
Proof. intros H s b s' [= _ <-]. apply H. Qed.
Lemma keeps_rd_thr a : keeps (rd_thr a).
Proof. unfold rd_thr. destruct (a =? 0); [apply keeps_undef|apply keeps_gets]. Qed.
Lemma keeps_upd_thr a f : (forall t, proc (f t) = proc t) -> keeps (upd_thr a f).
Proof.
  intros Hf. unfold upd_thr. destruct (a =? 0); [apply keeps_undef|]. apply keeps_modify. intros s.
  constructor; try done. simpl. unfold upd. destruct (Z.eqb_spec (tp s) a) as [->|]; [apply Hf|done].
Qed.
Lemma keeps_bind {A B} (m : T A) (f : A -> T B) : keeps m -> (forall a, keeps (f a)) -> keeps (m ≫= f).
Proof. intros Hm Hf s b s' (a & s1 & H1 & H2)%bind_Ok_inv. etrans; [by eapply Hm|by eapply Hf]. Qed.
Lemma keeps_on_pages {A} (m : M kmem A) :
  (forall k a k', m k = Ok (a, k') -> satp k' = satp k) -> keeps (on_pages m).
Proof.
  intros Hm s a s' H. unfold on_pages in H. destruct (m (pages s)) as [[b k]| | | |] eqn:E; try done.
  injection H as <- <-. constructor; try done. by apply (Hm _ b).
Qed.

Create HintDb space.
#[export] Hint Resolve keeps_ret keeps_get keeps_gets keeps_panic keeps_undef keeps_fuel keeps_halt keeps_cassert
  keeps_rd_thr : space.

(** Goes through the sequencing and the tests of a piece of code. *)
Ltac keep_space := repeat
  match goal with
  | |- keeps (_ ≫= _) => apply keeps_bind; [|intros ?]
  | |- keeps (if ?c then _ else _) => destruct c
  | |- keeps (match ?c with _ => _ end) => destruct c
  | |- keeps (upd_thr _ _) => apply keeps_upd_thr; done
  | |- keeps (modify _) => apply keeps_modify; done
  | |- keeps _ => solve [auto with space]
  end.

Lemma keeps_set_list p l : keeps (set_list p l).
Proof. destruct p; apply keeps_modify; done. Qed.
Lemma keeps_set_state a x : keeps (set_thread_state a x).
Proof. by apply keeps_upd_thr. Qed.
#[export] Hint Resolve keeps_set_list keeps_set_state : space.

Lemma keeps_tlinsert p a : keeps (tlinsert p a).
Proof. unfold tlinsert. keep_space. Qed.
Lemma keeps_tlremove p : keeps (tlremove p).
Proof. unfold tlremove. keep_space. Qed.
Lemma keeps_tlappend p q : keeps (tlappend p q).
Proof. unfold tlappend. keep_space. Qed.
Lemma keeps_tlempty p : keeps (tlempty p).
Proof. unfold tlempty. keep_space. Qed.
Lemma keeps_tlclear p : keeps (tlclear p).
Proof. unfold tlclear. keep_space. Qed.
Lemma keeps_curthr : keeps CURTHR.
Proof. unfold CURTHR. keep_space. Qed.
Lemma keeps_intr_disable : keeps intr_disable.
Proof. unfold intr_disable. keep_space. Qed.
Lemma keeps_intr_enable : keeps intr_enable.
Proof. unfold intr_enable. keep_space. Qed.
Lemma keeps_intr_restore b : keeps (intr_restore b).
Proof. unfold intr_restore. keep_space. Qed.
#[export] Hint Resolve keeps_tlinsert keeps_tlremove keeps_tlappend keeps_tlempty keeps_tlclear keeps_curthr
  keeps_intr_disable keeps_intr_enable keeps_intr_restore : space.

Lemma keeps_wake_all fuel : forall c t, keeps (wake_all fuel c t).
Proof. induction fuel as [|fuel IH]; intros c t; cbn [wake_all]; keep_space. Qed.
#[export] Hint Resolve keeps_wake_all : space.
Lemma keeps_broadcast c : keeps (condition_broadcast c).
Proof. unfold condition_broadcast. keep_space. Qed.
#[export] Hint Resolve keeps_broadcast : space.

Lemma keeps_suspend_in prev saved : keeps (suspend_in prev saved).
Proof.
  unfold suspend_in. keep_space. apply keeps_on_pages. intros k0 r k0'. unfold memory_free_page, store.
  rewrite !bind_run. cbn. by intros [= _ <-].
Qed.
#[export] Hint Resolve keeps_suspend_in : space.

Lemma keeps_thrtab_at tid : keeps (thrtab_at tid).
Proof. unfold thrtab_at. keep_space. Qed.
#[export] Hint Resolve keeps_thrtab_at : space.
Lemma keeps_reparent a b tids : keeps (reparent a b tids).
Proof. induction tids; cbn [reparent]; keep_space. Qed.
#[export] Hint Resolve keeps_reparent : space.
Lemma keeps_recycle tid : keeps (recycle_thread tid).
Proof. unfold recycle_thread. keep_space. apply keeps_on_pages. by intros k0 r k0' [= _ <-]. Qed.
#[export] Hint Resolve keeps_recycle : space.
Lemma keeps_scan cur tids : forall n, keeps (scan_children cur tids n).
Proof. induction tids; intros n; cbn [scan_children]; keep_space; auto with space. Qed.
#[export] Hint Resolve keeps_scan : space.

(** ** Switching *)

Lemma lands_bind {A B} (m : T A) (f : A -> T B) : (forall a, lands (f a)) -> lands (m ≫= f).
Proof. intros Hf s b s' (a & s1 & _ & H2)%bind_Ok_inv. by eapply Hf. Qed.
Lemma lands_keeps {A B} (m : T A) (f : A -> T B) : lands m -> (forall a, keeps (f a)) -> lands (m ≫= f).
Proof. intros Hm Hf s b s' (a & s1 & H1 & H2)%bind_Ok_inv. rewrite <- (Hf a s1 b s' H2). by eapply Hm. Qed.

Lemma stays_keeps {A} (m : T A) : keeps m -> stays m.
Proof. intros Hm s a s' Ho E. by rewrite <- (Hm s a s' E). Qed.
Lemma stays_lands {A} (m : T A) : lands m -> stays m.
Proof. intros Hm s a s' _. apply Hm. Qed.
Lemma stays_bind {A B} (m : T A) (f : A -> T B) : stays m -> (forall a, stays (f a)) -> stays (m ≫= f).
Proof. intros Hm Hf s b s' Ho (a & s1 & H1 & H2)%bind_Ok_inv. eapply Hf; [|exact H2]. by eapply Hm. Qed.

(** The end of [suspend_out]: the space of the next thread's process, then the
    thread itself. *)
Lemma leave_lands n cur saved : lands (leave n cur saved).
Proof.
  intros s a s' H. destruct (Z.eqb_spec n 0) as [->|Hn].
  { unfold leave in H. apply bind_Ok_inv in H as (b & s1 & _ & H). by apply bind_Ok_inv in H as (x & s2 & H & _). }
  destruct (leave_run n cur saved s Hn) as (s1 & E & Eth & _ & _ & _ & Etp & _ & _ & _ & _ & Em & Hs).
  rewrite E in H. injection H as _ <-. unfold own_space. rewrite Etp, Eth, Em. exact Hs.
Qed.

Lemma suspend_out_lands : lands suspend_out.
Proof. unfold suspend_out. do 10 (apply lands_bind; intros ?). apply leave_lands. Qed.

Lemma suspend_self_lands : lands suspend_self.
Proof.
  unfold suspend_self. apply lands_keeps; [apply suspend_out_lands|]. intros prev. keep_space.
Qed.

Lemma yield_lands : lands thread_yield.
Proof. unfold thread_yield. do 3 (apply lands_bind; intros ?). apply suspend_self_lands. Qed.
Lemma wait_lands c : lands (condition_wait c).
Proof. unfold condition_wait. do 9 (apply lands_bind; intros ?). apply suspend_self_lands. Qed.
Lemma exit_lands main_thread : lands (thread_exit main_thread).
Proof.
  unfold thread_exit. apply lands_bind. intros cur. destruct (cur =? main_thread); [by intros s a s' ?|].
  do 4 (apply lands_bind; intros ?). apply suspend_self_lands.
Qed.

Lemma idle_stays : stays idle_thread_func.
Proof.
  unfold idle_thread_func. apply stays_bind; [apply stays_keeps; auto with space|]. intros e. destruct (negb e).
  - apply stays_bind; [apply stays_lands, yield_lands|]. intros _. apply stays_keeps. auto with space.
  - apply stays_keeps. keep_space.
Qed.

Lemma join_stays tid : stays (thread_join tid).
Proof.
  unfold thread_join, join_round. repeat first
    [ apply stays_bind; [solve [apply stays_keeps; auto with space]|intros ?]
    | match goal with |- stays (if ?c then _ else _) => destruct c end
    | solve [apply stays_keeps; auto with space] ].
  apply stays_lands, lands_keeps; [apply wait_lands|auto with space].
Qed.

Lemma join_any_stays : stays thread_join_any.
Proof.
  unfold thread_join_any. do 2 (apply stays_bind; [apply stays_keeps; auto with space|intros ?]).
  destruct a0 as [tid|n]; [apply join_stays|]. destruct (n =? 0); [by intros s b s' _ ?|].
  apply stays_lands, lands_keeps; [apply wait_lands|auto with space].
Qed.

Lemma join_resumed_stays : stays join_any_resumed.
Proof. apply stays_keeps. unfold join_any_resumed. keep_space. Qed.

(** A new thread has the process of the running one. *)
Lemma keeps_adopt {B} child (g : Z -> thread -> thread -> thread) (rest : Z -> T B) :
  (forall cur tc t, proc (g cur tc t) = proc tc) -> (forall cur, keeps (rest cur)) ->
  keeps (cur ← CURTHR; tc ← rd_thr cur; upd_thr child (g cur tc) ;; rest cur).
Proof.
  intros Hg Hr s b s' H. unfold CURTHR in H. rewrite bind_run, run_gets in H. cbn [obind] in H.
  unfold rd_thr in H. destruct (tp s =? 0); [done|]. rewrite bind_run, run_gets in H. cbn [obind] in H.
  apply bind_Ok_inv in H as (u & s1 & H1 & H). etrans; [|by eapply Hr].
  unfold upd_thr in H1. destruct (child =? 0); [done|]. injection H1 as _ <-. constructor; try done. simpl.
  unfold upd. destruct (Z.eqb_spec (tp s) child) as [->|]; [apply Hg|done].
Qed.

Lemma keeps_spawn nm : keeps (thread_spawn nm).
Proof.
  unfold thread_spawn. apply keeps_bind; [auto with space|intros s]. destruct (free_tid _ _) as [tid|]; [|auto with space].
  apply keeps_bind; [apply keeps_on_pages; intros; by eapply kmalloc_satp|intros child].
  apply keeps_bind; [apply keeps_on_pages; intros; by eapply alloc_page_satp|intros page].
  do 2 (apply keeps_bind; [apply keeps_on_pages; by intros k0 r k0' [= _ <-]|intros _]).
  apply keeps_bind; [by apply keeps_modify|intros _]. apply keeps_adopt; [done|intros cur]. keep_space.
Qed.

Section Steps.
Variable main_thread idle_thread : Z.
Variable live : Z -> Prop.

(** A thread that starts with a process of its own. *)
Lemma fork_lands child_proc tid0 tid s s' qs :
  sched_inv live idle_thread s qs ->
  (forall child k', kmalloc THREAD_SZ (pages s) = Ok (child, k') -> child <> 0 /\ child ∉ thrtab s) ->
  free_tid (thrtab s) (range 16 0 NTHR 1) <> None -> satp (pages s) = proc_mtag s child_proc ->
  thread_fork_to_user child_proc tid0 (tp s) s = Ok (tid, s') -> own_space s'.
Proof.
  intros Hi Hal Hft Hm H. destruct (fork_Ok_inv _ _ _ _ _ _ H) as (child & k1 & page & k2 & Hk & Ha).
  destruct (Hal child k1 Hk) as [Hc0 Hct]. destruct (free_tid (thrtab s) _) as [i|] eqn:Hf; [|done].
  destruct (fork_run live idle_thread child_proc tid0 _ qs i child k1 page k2 Hi Hf Hk Ha Hc0 Hct)
    as (s2 & E & Etp & _ & _ & _ & Epg & Emt & Einf & _). rewrite E in H. injection H as _ <-.
  unfold own_space. rewrite Etp, Emt, Epg. cbn [satp set_mem].
  rewrite (alloc_page_satp _ _ _ Ha), (kmalloc_satp _ _ _ _ Hk), Hm. unfold info in Einf. intros _. f_equal. congruence.
Qed.

Lemma step_own_space s s' :
  (exists qs, sched_inv live idle_thread s qs) /\ own_space s -> step main_thread idle_thread live s s' -> own_space s'.
Proof.
  intros [[qs Hi] Ho] Hs.
  destruct Hs as [s s' _ H|slept s s' _ H|c s s' _ _ H|c s s' _ H|k s s' _ _ H|nm tid s s' _ H|tid r s s' _ _ H
    |r s s' _ _ H|tid s s' H|child_proc m tid0 tid k s s' Hal Hft Hm H|tid p m s s' Hp Hm H|k s Hk|b s].
  - by eapply yield_lands.
  - by eapply idle_stays.
  - by eapply wait_lands.
  - by rewrite <- (keeps_broadcast c s tt s' H).
  - by eapply exit_lands.
  - by rewrite <- (keeps_spawn nm s tid s' H).
  - by eapply join_stays.
  - by eapply join_any_stays.
  - by eapply join_resumed_stays.
  - apply (inv_pages idle_thread live _ _ k), (inv_mtag idle_thread live _ _ child_proc m) in Hi.
    apply (fork_lands child_proc tid0 tid _ s' qs Hi Hal Hft); [|exact H]. simpl. by rewrite upd_eq.
  - destruct (set_process_Ok_inv _ _ _ _ H) as [a ->]. unfold own_space in *. unfold put_thr. simpl. unfold upd.
    destruct (Z.eqb_spec (tp s) a) as [_|_]; simpl; [by rewrite Z.eqb_refl|]. intros Hn.
    destruct (_ =? p); [done|by apply Ho].
  - unfold own_space in *. simpl. by rewrite Hk.
  - exact Ho.
Qed.
End Steps.


(** ** A run: the main process forks, the child yields, and the parent runs again. *)

Definition demo_main : kthreads := final (thread_set_process 0 7000 (with_mtag 7000 (satp demo_mem) demo_boot)).
Definition demo_forked : kthreads :=
  final (thread_fork_to_user 8000 0 1000 (with_mtag 8000 5 (with_pages (set_satp 5 (pages demo_main)) demo_main))).
Definition demo_left : kthreads := final (thread_yield demo_forked).
Definition demo_back : kthreads := final (idle_thread_func demo_left).

Ltac run_fork :=
  unfold demo_back, demo_left, demo_forked, demo_main; apply final_ok; vm_compute; reflexivity.

Lemma demo_forked_steps : steps (step 1000 2000 demo_live) demo_boot demo_forked.
Proof.
  eapply steps_cons; [apply (step_process _ _ _ 0 7000 (satp demo_mem) demo_boot demo_main);
    [done|vm_compute; reflexivity|run_fork]|].
  apply steps_one. apply (step_fork _ _ _ 8000 5 0 1 (set_satp 5 (pages demo_main)) demo_main demo_forked).
  - intros child k H. vm_compute in H. injection H as <- _. split; [done|]. vm_compute.
    intros H. repeat (apply elem_of_cons in H as [H|H]; [discriminate H|]). by apply not_elem_of_nil in H.
  - vm_compute. discriminate.
  - reflexivity.
  - replace (tp demo_main) with 1000 by (vm_compute; reflexivity). run_fork.
Qed.

Lemma demo_fork_steps : steps (step 1000 2000 demo_live) demo_boot demo_back.
Proof.
  eapply steps_trans; [exact demo_forked_steps|].
  eapply steps_cons; [apply (step_yield _ _ _ demo_forked demo_left); [vm_compute; discriminate|run_fork]|].
  apply steps_one. apply (step_idle _ _ _ false demo_left demo_back); [vm_compute; reflexivity|run_fork].
Qed.

