(* ===== verification/Lock.v ===== *)
(** lock.h: sleep locks on top of the scheduler.

    A [struct lock] is its condition, whose address is the lock's, and the member
    [tid].  [lock_acquire] blocks inside its loop, so it is split where the
    thread can be suspended: [lock_round] is one round of the loop, which either
    takes the lock or leaves with another thread running. *)

From S2P Require Import Prelude PhysMem PageTable Thread ThreadSpec.

(** The threads and the member [tid] of one lock. *)
Record lockst := mkLockst { ks : kthreads; ltid : Z }.
Notation L := (M lockst).

Definition on_threads {A} (m : T A) : L A := fun s =>
  obind (m (ks s)) (fun '(a, k) => Ok (a, mkLockst k (ltid s))).
Definition set_ltid (x : Z) : L unit := modify (fun s => mkLockst (ks s) x).

Section Lock.
(** The address of the lock. *)
Variable lk : Z.

Definition lock_init (nm : Z) : L unit :=
  on_threads (condition_init lk nm) ;;
  set_ltid (-1).

Definition lock_round : L bool :=
  t ← gets ltid;
  if negb (t =? -1) then
    on_threads (condition_wait lk) ;;
    mret false
  else
    me ← on_threads running_thread;
    set_ltid me ;;
    mret true.

(** The first round, and what follows the round that takes the lock. *)
Definition lock_acquire : L (bool * bool) :=
  saved_intr_state ← on_threads intr_disable;
  got ← lock_round;
  (if got : bool then on_threads (intr_restore saved_intr_state) else mret tt) ;;
  mret (got, saved_intr_state).

(** A waiting thread that is resumed goes round the loop again. *)
Definition lock_retry (saved_intr_state : bool) : L bool :=
  got ← lock_round;
  (if got : bool then on_threads (intr_restore saved_intr_state) else mret tt) ;;
  mret got.

Definition lock_release : L unit :=
  t ← gets ltid;
  me ← on_threads running_thread;
  cassert (t =? me) ;;
  set_ltid (-1) ;;
  on_threads (condition_broadcast lk).

(** ** Threads that use the lock *)

(** Where a thread is: outside, in the loop of [lock_acquire], or between
    [lock_acquire] and [lock_release]. *)
Inductive lpc := Out | Trying (saved : bool) | Holding.

Record lsys := mkSys { lst : lockst; pc : Z -> lpc }.

Definition after (got : bool) (saved : bool) : lpc := if got then Holding else Trying saved.

Variable idle_thread : Z.
Variable live : Z -> Prop.

(** The running thread acquires, tries again, releases, or does something else
    with the scheduler; a thread in the loop of [lock_acquire] does nothing
    else.  Other conditions may be signalled at any time. *)
Inductive lstep : lsys -> lsys -> Prop :=
| l_acquire s s' got saved :
    let me := tp (ks (lst s)) in
    pc s me = Out -> me <> idle_thread ->
    lock_acquire (lst s) = Ok ((got, saved), s') ->
    lstep s (mkSys s' (upd (pc s) me (after got saved)))
| l_retry s s' got saved :
    let me := tp (ks (lst s)) in
    pc s me = Trying saved -> lock_retry saved (lst s) = Ok (got, s') ->
    lstep s (mkSys s' (upd (pc s) me (after got saved)))
| l_release s s' :
    let me := tp (ks (lst s)) in
    pc s me = Holding -> lock_release (lst s) = Ok (tt, s') ->
    lstep s (mkSys s' (upd (pc s) me Out))
| l_yield s k' :
    (forall b, pc s (tp (ks (lst s))) <> Trying b) ->
    (tp (ks (lst s)) = idle_thread -> head (ready_list (ks (lst s))) <> 0) ->
    thread_yield (ks (lst s)) = Ok (tt, k') ->
    lstep s (mkSys (mkLockst k' (ltid (lst s))) (pc s))
| l_wait s c k' :
    (forall b, pc s (tp (ks (lst s))) <> Trying b) ->
    live c -> c <> lk -> tp (ks (lst s)) <> idle_thread ->
    condition_wait c (ks (lst s)) = Ok (tt, k') ->
    lstep s (mkSys (mkLockst k' (ltid (lst s))) (pc s))
| l_signal s c k' :
    live c -> c <> lk -> condition_broadcast c (ks (lst s)) = Ok (tt, k') ->
    lstep s (mkSys (mkLockst k' (ltid (lst s))) (pc s)).

(** ** The invariant *)

Notation inv := (sched_inv live idle_thread).

Record linv (s : lsys) (qs : place -> list Z) : Prop := {
  li_sched : inv (ks (lst s)) qs;
  li_ids : forall t, in_tab (ks (lst s)) t -> 0 <= id (threads (ks (lst s)) t);
  li_inj : forall t t', in_tab (ks (lst s)) t -> in_tab (ks (lst s)) t' ->
    id (threads (ks (lst s)) t) = id (threads (ks (lst s)) t') -> t = t';
  li_holder : forall t, in_tab (ks (lst s)) t -> pc s t = Holding ->
    ltid (lst s) = id (threads (ks (lst s)) t);
  li_idle : pc s idle_thread = Out;
  li_held : ltid (lst s) <> -1 -> exists t, in_tab (ks (lst s)) t /\ pc s t = Holding;
  li_free : ltid (lst s) = -1 -> qs (Waiters lk) = [];
  li_waiters : forall t, t ∈ qs (Waiters lk) -> exists b, pc s t = Trying b;
  li_trying : forall t b, in_tab (ks (lst s)) t -> pc s t = Trying b ->
    t ∈ qs (Waiters lk) \/ t ∈ qs Ready \/ t = tp (ks (lst s))
}.

(** A step of the scheduler that keeps the lock: what has to be shown of the
    lists. *)
Lemma linv_kept s k' qs' qs :
  linv s qs -> kept (ks (lst s)) k' -> inv k' qs' ->
  qs' (Waiters lk) = qs (Waiters lk) ->
  (forall t b, in_tab (ks (lst s)) t -> pc s t = Trying b -> t ∈ qs Ready \/ t = tp (ks (lst s)) ->
     t ∈ qs' Ready \/ t = tp k') ->
  linv (mkSys (mkLockst k' (ltid (lst s))) (pc s)) qs'.
Proof.
  intros [] [Htab Hk] Hi Hw Hr.
  assert (Hin : forall t, in_tab k' t <-> in_tab (ks (lst s)) t) by (intros; unfold in_tab; by rewrite Htab).
  assert (Hid : forall t, id (threads k' t) = id (threads (ks (lst s)) t)) by (intros; apply Hk).
  constructor; cbn [lst pc ks ltid]; try done.
  - intros t Ht. rewrite Hid. apply li_ids0. by apply Hin.
  - intros t t' Ht Ht'. rewrite !Hid. apply li_inj0; by apply Hin.
  - intros t Ht Hp. rewrite Hid. apply li_holder0; [by apply Hin|done].
  - intros Hn. destruct (li_held0 Hn) as (t & Ht & Hp). exists t. split; [by apply Hin|done].
  - rewrite Hw. done.
  - rewrite Hw. done.
  - intros t b Ht Hp. rewrite Hw. apply Hin in Ht. destruct (li_trying0 t b Ht Hp) as [|Hq]; [by left|].
    right. by apply (Hr t b).
Qed.

Hypothesis Hlive : live lk.

(** One round of [lock_acquire], by a thread that does not hold the lock. *)
Lemma round_wait s qs saved :
  linv s qs -> ltid (lst s) <> -1 -> tp (ks (lst s)) <> idle_thread ->
  pc s (tp (ks (lst s))) <> Holding ->
  exists l' qs', lock_round (lst s) = Ok (false, l') /\
    linv (mkSys l' (upd (pc s) (tp (ks (lst s))) (Trying saved))) qs'.
Proof.
  intros Hl Hn Hni Hp. set (me := tp (ks (lst s))) in *.
  destruct (wait_run live idle_thread lk (ks (lst s)) qs) as (k' & n & r & Er & E & Htp & [Htab Hk] & Hi);
    [apply Hl|done|done|].
  unfold lock_round. rewrite bind_run, run_gets. cbn [obind].
  rewrite (proj2 (Z.eqb_neq _ _) Hn). cbn [negb]. rewrite bind_run. unfold on_threads. rewrite E. cbn [obind].
  eexists _, _. split; [reflexivity|]. destruct Hl.
  assert (Hin : forall t, in_tab k' t <-> in_tab (ks (lst s)) t) by (intros; unfold in_tab; by rewrite Htab).
  assert (Hid : forall t, id (threads k' t) = id (threads (ks (lst s)) t)) by (intros; apply Hk).
  constructor; cbn [lst pc ks ltid]; [exact Hi|..].
  - intros t Ht. rewrite Hid. apply li_ids0. by apply Hin.
  - intros t t' Ht Ht'. rewrite !Hid. apply li_inj0; by apply Hin.
  - intros t Ht Hpt. rewrite Hid. destruct (decide (t = me)) as [->|]; [by rewrite upd_eq in Hpt|].
    rewrite upd_ne in Hpt by done. apply li_holder0; [by apply Hin|done].
  - by rewrite upd_ne.
  - intros _. destruct (li_held0 Hn) as (t & Ht & Hpt). exists t. split; [by apply Hin|].
    rewrite upd_ne; [done|]. by intros ->.
  - done.
  - intros t. rewrite at_place_ne, at_place_eq by done. intros [Ht|Ht]%elem_of_app.
    + destruct (decide (t = me)) as [->|]; [rewrite upd_eq; eauto|]. rewrite upd_ne by done. by apply li_waiters0.
    + apply list_elem_of_singleton in Ht as ->. rewrite upd_eq. eauto.
  - intros t b Ht Hpt. rewrite at_place_ne, !at_place_eq by done. rewrite elem_of_app, list_elem_of_singleton.
    destruct (decide (t = me)) as [->|Hne]; [auto|]. rewrite upd_ne in Hpt by done.
    destruct (li_trying0 t b) as [Hw|[Hr|Ht']]; [by apply Hin|done|auto| |done].
    rewrite Er in Hr. apply elem_of_cons in Hr as [->|Hr]; auto.
Qed.

Lemma run_running_thread k : tp k <> 0 -> running_thread k = Ok (id (threads k (tp k)), k).
Proof. intros H. unfold running_thread. by run_prim. Qed.

Lemma round_take s qs :
  linv s qs -> ltid (lst s) = -1 -> tp (ks (lst s)) <> idle_thread ->
  exists l', lock_round (lst s) = Ok (true, l') /\
    linv (mkSys l' (upd (pc s) (tp (ks (lst s))) Holding)) qs.
Proof.
  intros Hl Hn Hni. set (me := tp (ks (lst s))) in *. destruct Hl.
  assert (Hme : in_tab (ks (lst s)) me) by apply li_sched0.
  unfold lock_round. rewrite bind_run, run_gets. cbn [obind]. rewrite Hn.
  change (-1 =? -1) with true. cbn [negb]. rewrite bind_run. unfold on_threads.
  rewrite run_running_thread by apply Hme. cbn [obind].
  eexists. split; [reflexivity|]. fold me.
  assert (Hno : forall t, in_tab (ks (lst s)) t -> pc s t <> Holding).
  { intros t Ht Hp. pose proof (li_holder0 t Ht Hp). pose proof (li_ids0 t Ht). lia. }
  pose proof (li_ids0 me Hme) as Hge.
  constructor; cbn [lst pc ks ltid]; try done.
  - intros t Ht Hp. destruct (decide (t = me)) as [->|]; [done|]. rewrite upd_ne in Hp by done.
    exfalso. by apply (Hno t).
  - by rewrite upd_ne.
  - intros _. exists me. split; [done|]. by rewrite upd_eq.
  - lia.
  - rewrite li_free0 by done. by intros t ?%not_elem_of_nil.
  - intros t b Ht Hp. destruct (decide (t = me)) as [->|]; [by rewrite upd_eq in Hp|].
    rewrite upd_ne in Hp by done. by apply (li_trying0 t b).
Qed.

(** Interrupt state does not matter to the invariant. *)
Lemma linv_sie s qs b :
  linv s qs -> linv (mkSys (mkLockst (with_sie b (ks (lst s))) (ltid (lst s))) (pc s)) qs.
Proof.
  intros Hl. apply (linv_kept s _ qs qs Hl); [done| |done|naive_solver].
  apply (sched_frame live idle_thread (ks (lst s))); [apply Hl|done|by intros []|done|done].
Qed.

Lemma round_inv s qs saved :
  linv s qs -> tp (ks (lst s)) <> idle_thread -> pc s (tp (ks (lst s))) <> Holding ->
  exists got l' qs', lock_round (lst s) = Ok (got, l') /\
    linv (mkSys l' (upd (pc s) (tp (ks (lst s))) (after got saved))) qs'.
Proof.
  intros Hl Hni Hp. destruct (decide (ltid (lst s) = -1)) as [Hn|Hn].
  - destruct (round_take s qs Hl Hn Hni) as (l' & E & H'). by exists true, l', qs.
  - destruct (round_wait s qs saved Hl Hn Hni Hp) as (l' & qs' & E & H'). by exists false, l', qs'.
Qed.

Lemma retry_inv s qs saved :
  linv s qs -> tp (ks (lst s)) <> idle_thread -> pc s (tp (ks (lst s))) <> Holding ->
  exists got l' qs', lock_retry saved (lst s) = Ok (got, l') /\
    linv (mkSys l' (upd (pc s) (tp (ks (lst s))) (after got saved))) qs'.
Proof.
  intros Hl Hni Hp. destruct (round_inv s qs saved Hl Hni Hp) as (got & l' & qs' & E & H').
  unfold lock_retry. rewrite bind_run, E. cbn [obind]. destruct got.
  - eexists true, _, qs'. split; [reflexivity|]. apply (linv_sie _ _ saved H').
  - by eexists false, l', qs'.
Qed.

Lemma acquire_inv s qs :
  linv s qs -> tp (ks (lst s)) <> idle_thread -> pc s (tp (ks (lst s))) <> Holding ->
  exists got saved l' qs', lock_acquire (lst s) = Ok ((got, saved), l') /\
    linv (mkSys l' (upd (pc s) (tp (ks (lst s))) (after got saved))) qs'.
Proof.
  intros Hl Hni Hp. pose proof (linv_sie _ _ false Hl) as H1.
  destruct (retry_inv _ qs (sie (ks (lst s))) H1 Hni Hp) as (got & l' & qs' & E & H').
  exists got, (sie (ks (lst s))), l', qs'. split; [|done].
  unfold lock_retry in E. apply bind_Ok_inv in E as (g & l1 & E1 & E).
  unfold lock_acquire. rewrite bind_run. unfold on_threads at 1, intr_disable. cbn [lst] in E1.
  rewrite !bind_run. rewrite run_gets. cbn [obind]. rewrite !bind_run, run_modify. cbn [obind].
  rewrite run_ret. cbn [obind]. rewrite bind_run, E1. cbn [obind].
  apply bind_Ok_inv in E as ([] & l2 & E2 & E). rewrite bind_run, E2. cbn [obind].
  rewrite run_ret in E. injection E as <- <-. done.
Qed.

Lemma release_inv s qs :
  linv s qs -> pc s (tp (ks (lst s))) = Holding ->
  exists l' qs', lock_release (lst s) = Ok (tt, l') /\
    linv (mkSys l' (upd (pc s) (tp (ks (lst s))) Out)) qs'.
Proof.
  intros Hl Hp. set (me := tp (ks (lst s))) in *.
  assert (Hme : in_tab (ks (lst s)) me) by apply Hl.
  pose proof (li_holder _ _ Hl me Hme Hp) as Ht.
  destruct (broadcast_inv live idle_thread lk (ks (lst s)) qs) as (k' & E & Htp & [Htab Hk] & Hi & _);
    [apply Hl|done|].
  unfold lock_release. rewrite bind_run, run_gets. cbn [obind]. rewrite bind_run. unfold on_threads at 1.
  rewrite run_running_thread by apply Hme. cbn [obind]. fold me. rewrite Ht, Z.eqb_refl.
  rewrite !bind_run. unfold set_ltid. cbn [cassert]. rewrite run_ret. cbn [obind].
  rewrite bind_run, run_modify. cbn [obind ks ltid]. unfold on_threads. cbn [ks ltid]. rewrite E. cbn [obind].
  eexists _, _. split; [reflexivity|]. destruct Hl.
  assert (Hin : forall t, in_tab k' t <-> in_tab (ks (lst s)) t) by (intros; unfold in_tab; by rewrite Htab).
  assert (Hid : forall t, id (threads k' t) = id (threads (ks (lst s)) t)) by (intros; apply Hk).
  constructor; cbn [lst pc ks ltid]; [exact Hi|..].
  - intros t Ht'. rewrite Hid. apply li_ids0. by apply Hin.
  - intros t t' Ht' Ht''. rewrite !Hid. apply li_inj0; by apply Hin.
  - intros t Ht' Hpt. apply Hin in Ht'. destruct (decide (t = me)) as [->|Hne]; [by rewrite upd_eq in Hpt|].
    rewrite upd_ne in Hpt by done. exfalso. apply Hne. apply li_inj0; [done|done|].
    rewrite <- Ht. symmetry. by apply li_holder0.
  - destruct (decide (idle_thread = me)) as [<-|]; [by rewrite upd_eq|by rewrite upd_ne].
  - done.
  - intros _. unfold woken. by rewrite at_place_eq.
  - intros t. unfold woken. rewrite at_place_eq. by intros ?%not_elem_of_nil.
  - intros t b Ht' Hpt. apply Hin in Ht'. destruct (decide (t = me)) as [->|Hne]; [by rewrite upd_eq in Hpt|].
    rewrite upd_ne in Hpt by done. right. unfold woken. rewrite at_place_ne, at_place_eq by done.
    rewrite elem_of_app, Htp. destruct (li_trying0 t b Ht' Hpt) as [|[|]]; auto.
Qed.

Lemma lstep_inv s s' : (exists qs, linv s qs) -> lstep s s' -> exists qs, linv s' qs.
Proof.
  intros [qs Hl] Hs. pose proof (li_sched _ _ Hl) as Hi. revert Hl Hi.
  destruct Hs as [s s' got saved me Hp Hni H|s s' got saved me Hp H|s s' me Hp H|s k' Hp Hh H
    |s c k' Hp Hc Hne Hni H|s c k' Hc Hne H]; intros Hl Hi.
  - destruct (acquire_inv s qs Hl Hni) as (g & sv & l' & qs' & E & H'); [by fold me; rewrite Hp|].
    rewrite E in H. injection H as <- <- <-. eauto.
  - destruct (retry_inv s qs saved Hl) as (g & l' & qs' & E & H').
    + intros Ht. pose proof (li_idle _ _ Hl). unfold me in Hp. congruence.
    + fold me. by rewrite Hp.
    + rewrite E in H. injection H as <- <-. eauto.
  - destruct (release_inv s qs Hl Hp) as (l' & qs' & E & H'). rewrite E in H. injection H as <-. eauto.
  - destruct (nonempty_head live idle_thread _ _ Hi Hh) as (n & r & Er).
    destruct (yield_run live idle_thread _ _ n r Hi Er) as (k2 & E & Htp & K & Hi2).
    rewrite E in H. injection H as <-. eexists. apply (linv_kept s _ _ qs Hl K Hi2).
    + by rewrite at_place_ne.
    + intros t b _ _. rewrite at_place_eq, Er, Htp, elem_of_cons, elem_of_app, list_elem_of_singleton. tauto.
  - destruct (wait_run live idle_thread c _ qs Hi Hc Hni) as (k2 & n & r & Er & E & Htp & K & Hi2).
    rewrite E in H. injection H as <-. eexists. apply (linv_kept s _ _ qs Hl K Hi2).
    + rewrite !at_place_ne by congruence. done.
    + intros t b _ Hpt. rewrite at_place_eq, Er, Htp, elem_of_cons. intros [[->|]| ->]; [tauto..|].
      by apply Hp in Hpt.
  - destruct (broadcast_inv live idle_thread c _ qs Hi Hc) as (k2 & E & Htp & K & Hi2 & _).
    rewrite E in H. injection H as <-. eexists. apply (linv_kept s _ _ qs Hl K Hi2).
    + unfold woken. rewrite !at_place_ne by congruence. done.
    + intros t b _ _. unfold woken. rewrite at_place_ne, at_place_eq, Htp, elem_of_app by done. tauto.
Qed.

Lemma lock_init_run nm k x qs :
  inv k qs -> qs (Waiters lk) = [] ->
  exists k', lock_init nm (mkLockst k x) = Ok (tt, mkLockst k' (-1)) /\ inv k' qs /\ kept k k'.
Proof.
  intros Hi Hq. unfold lock_init, set_ltid. rewrite bind_run. unfold on_threads, condition_init, tlclear.
  cbn [ks ltid]. run_prim. eexists. split; [reflexivity|]. split; [|done].
  apply (sched_frame live idle_thread k); [done|done| |done|done]. intros [|c]; [done|]. simpl.
  pose proof (q_queue _ _ _ (pl_queues _ _ _ (si_placed _ _ _ _ Hi)) (Waiters lk) Hlive) as (E1 & E2 & _).
  rewrite Hq in E1, E2. simpl in E1, E2.
  unfold upd. destruct (Z.eqb_spec c lk) as [->|]; [|done]. simpl.
  destruct (wait_list (conds k lk)). simpl in *. by subst.
Qed.

Lemma linv_initial k qs l0 nm x :
  inv k qs -> qs (Waiters lk) = [] ->
  (forall t, in_tab k t -> 0 <= id (threads k t)) ->
  (forall t t', in_tab k t -> in_tab k t' -> id (threads k t) = id (threads k t') -> t = t') ->
  lock_init nm (mkLockst k x) = Ok (tt, l0) -> linv (mkSys l0 (fun _ => Out)) qs.
Proof.
  intros Hi Hq H0 Hinj E. destruct (lock_init_run nm k x qs Hi Hq) as (k' & E' & Hi' & [Htab Hk]).
  rewrite E' in E. injection E as <-.
  assert (Hin : forall t, in_tab k' t <-> in_tab k t) by (intros; unfold in_tab; by rewrite Htab).
  assert (Hid : forall t, id (threads k' t) = id (threads k t)) by (intros; apply Hk).
  constructor; cbn [lst pc ks ltid]; try done.
  - intros t Ht. rewrite Hid. by apply H0, Hin.
  - intros t t' Ht Ht'. rewrite !Hid. by apply Hinj; apply Hin.
  - intros t. rewrite Hq. by intros ?%not_elem_of_nil.
Qed.
End Lock.

(** C7. A lock excludes and loses no wake-up: in every run of threads that use a
    lock, with any other scheduling between, at most one thread is between
    [lock_acquire] and [lock_release] and the lock names it; when the lock is
    free, every thread inside [lock_acquire] is ready or running; and the
    assertion of [lock_release] cannot fail. *)
Theorem lock_mutual_exclusion (lk idle_thread nm x : Z) (live : Z -> Prop) (k0 : kthreads)
    (qs : place -> list Z) (l0 : lockst) (s : lsys)
    (Hlive : live lk) (Hi : sched_inv live idle_thread k0 qs) (Hq : qs (Waiters lk) = [])
    (Hid : forall t, in_tab k0 t -> 0 <= id (threads k0 t))
    (Hinj : forall t t', in_tab k0 t -> in_tab k0 t' ->
              id (threads k0 t) = id (threads k0 t') -> t = t')
    (Hinit : lock_init lk nm (mkLockst k0 x) = Ok (tt, l0))
    (Hrun : steps (lstep lk idle_thread live) (mkSys l0 (fun _ => Out)) s) :
  let k := ks (lst s) in
  (forall t t', in_tab k t -> in_tab k t' -> pc s t = Holding -> pc s t' = Holding -> t = t') /\
  (forall t, in_tab k t -> pc s t = Holding -> ltid (lst s) = id (threads k t)) /\
  (ltid (lst s) = -1 -> forall t b, in_tab k t -> pc s t = Trying b ->
     state (threads k t) = THREAD_READY \/ state (threads k t) = THREAD_RUNNING) /\
  (pc s (tp k) = Holding -> exists l', lock_release lk (lst s) = Ok (tt, l')).
Proof.
  assert (Hl : exists qs', linv lk idle_thread live s qs').
  { apply (steps_inv (lstep lk idle_thread live) (fun s => exists qs', linv lk idle_thread live s qs')
      (mkSys l0 (fun _ => Out)) s); [by apply lstep_inv| |done].
    exists qs. by apply (linv_initial lk idle_thread live Hlive k0 qs l0 nm x). }
  destruct Hl as [qs' Hl]. cbn zeta. split_and!.
  - intros t t' Ht Ht' Hp Hp'. apply (li_inj _ _ _ _ _ Hl); [done|done|].
    rewrite <- (li_holder _ _ _ _ _ Hl t Ht Hp). by apply (li_holder _ _ _ _ _ Hl).
  - intros t Ht Hp. by apply (li_holder _ _ _ _ _ Hl).
  - intros Hf t b Ht Hp. pose proof (li_sched _ _ _ _ _ Hl) as Hs.
    destruct (li_trying _ _ _ _ _ Hl t b Ht Hp) as [Hw|[Hr| ->]].
    + rewrite (li_free _ _ _ _ _ Hl Hf) in Hw. by apply not_elem_of_nil in Hw.
    + left. apply (pl_members _ _ _ (si_placed _ _ _ _ Hs)) in Hr as [_ Hr].
      unfold place_of in Hr. by destruct (state _).
    + right. by apply (cur_running live idle_thread _ qs').
  - intros Hp. destruct (release_inv lk idle_thread live Hlive s qs' Hl Hp) as (l' & q & E & _). eauto.
Qed.

(** ** A run: while the main thread holds the lock another thread asks for it. *)

Definition lfinal {A} (m : outcome (A * lockst)) : lockst :=
  match m with Ok (_, l) => l | _ => mkLockst demo_s0 0 end.
Definition lresult {A} (m : outcome (A * lockst)) : option A :=
  match m with Ok (a, _) => Some a | _ => None end.
Lemma lfinal_ok {A} (m : outcome (A * lockst)) a : lresult m = Some a -> m = Ok (a, lfinal m).
Proof. destruct m as [[b s]| | | |]; simpl; intros H; try discriminate. by injection H as ->. Qed.

Definition demo_lk : Z := 5000.
Definition demo_child : Z := 2147553072.
Definition lock_live (c : Z) : Prop := c = demo_lk.
Definition demo_l0 : lockst := lfinal (lock_init demo_lk 9 (mkLockst demo_spawned 0)).
Definition demo_l1 : lockst := lfinal (lock_acquire demo_lk demo_l0).
Definition demo_k2 : kthreads := final (thread_yield (ks demo_l1)).
Definition demo_k3 : kthreads := final (thread_yield demo_k2).
Definition demo_l4 : lockst := lfinal (lock_acquire demo_lk (mkLockst demo_k3 0)).
Definition demo_l5 : lockst := lfinal (lock_release demo_lk demo_l4).

Definition pc1 : Z -> lpc := upd (fun _ => Out) 1000 Holding.
Definition pc4 : Z -> lpc := upd pc1 demo_child (Trying true).
Definition pc5 : Z -> lpc := upd pc4 1000 Out.

Lemma demo_lock_run :
  steps (lstep demo_lk 2000 lock_live) (mkSys demo_l0 (fun _ => Out)) (mkSys demo_l5 pc5).
Proof.
  eapply steps_cons.
  { apply (l_acquire _ _ _ (mkSys demo_l0 (fun _ => Out)) demo_l1 true false);
      [reflexivity|vm_compute; discriminate|unfold demo_l1; apply lfinal_ok; vm_compute; reflexivity]. }
  cbn [pc lst after]. replace (tp (ks demo_l0)) with 1000 by (vm_compute; reflexivity). fold pc1.
  eapply steps_cons.
  { apply (l_yield _ _ _ (mkSys demo_l1 pc1) demo_k2); cbn [pc lst].
    - intros b. vm_compute. discriminate.
    - vm_compute. discriminate.
    - unfold demo_k2. apply final_ok. vm_compute. reflexivity. }
  cbn [pc lst]. replace (ltid demo_l1) with 0 by (vm_compute; reflexivity).
  eapply steps_cons.
  { apply (l_yield _ _ _ (mkSys (mkLockst demo_k2 0) pc1) demo_k3); cbn [pc lst ks].
    - intros b. vm_compute. discriminate.
    - intros _. vm_compute. discriminate.
    - unfold demo_k3. apply final_ok. vm_compute. reflexivity. }
  cbn [pc lst ltid]. eapply steps_cons.
  { apply (l_acquire _ _ _ (mkSys (mkLockst demo_k3 0) pc1) demo_l4 false true).
    - vm_compute. reflexivity.
    - vm_compute. discriminate.
    - unfold demo_l4. apply lfinal_ok. vm_compute. reflexivity. }
  cbn [pc lst ks after]. replace (tp demo_k3) with demo_child by (vm_compute; reflexivity). fold pc4.
  eapply steps_cons.
  { apply (l_release _ _ _ (mkSys demo_l4 pc4) demo_l5).
    - vm_compute. reflexivity.
    - unfold demo_l5. apply lfinal_ok. vm_compute. reflexivity. }
  cbn [pc lst]. replace (tp (ks demo_l4)) with 1000 by (vm_compute; reflexivity). fold pc5.
  constructor.
Qed.

Lemma demo_tab t : in_tab demo_spawned t <-> t = 1000 \/ t = demo_child \/ t = 2000.
Proof.
  unfold in_tab. replace (thrtab demo_spawned) with (1000 :: demo_child :: replicate 13 0 ++ [2000])
    by (vm_compute; reflexivity).
  rewrite !elem_of_cons, elem_of_app, elem_of_replicate, list_elem_of_singleton. unfold demo_child. naive_solver.
Qed.

Lemma demo_spawned_inv :
  exists qs, sched_inv lock_live 2000 demo_spawned qs /\ qs (Waiters demo_lk) = [].
Proof.
  destruct (thread_init_run 1000 2000 lock_live demo_s0 0 0 0 0) as (s & E & _ & _ & Hi); [lia..|].
  assert (Hb : demo_boot = s) by (unfold demo_boot; by rewrite E). rewrite <- Hb in Hi.
  destruct (step_inv 1000 2000 lock_live demo_boot demo_spawned) as [qs Hq].
  - eauto.
  - apply (step_spawn _ _ _ 7 1).
    + intros child k H. vm_compute in H. injection H as <- _. split; [done|]. vm_compute.
      intros H. repeat (apply elem_of_cons in H as [H|H]; [discriminate H|]). by apply not_elem_of_nil in H.
    + unfold demo_spawned. apply final_ok. vm_compute. reflexivity.
  - exists qs. split; [done|]. destruct (qs (Waiters demo_lk)) as [|t r] eqn:El; [done|]. exfalso.
    assert (Ht : t ∈ qs (Waiters demo_lk)) by (rewrite El; apply elem_of_cons; by left).
    apply (pl_members _ _ _ (si_placed _ _ _ _ Hq)) in Ht as [Ht Hp]. apply demo_tab in Ht.
    destruct Ht as [-> |[-> | ->]]; vm_compute in Hp; discriminate Hp.
Qed.

Lemma demo_ids t : in_tab demo_spawned t -> 0 <= id (threads demo_spawned t).
Proof. intros Ht. apply demo_tab in Ht. destruct Ht as [-> |[-> | ->]]; vm_compute; discriminate. Qed.

Lemma demo_inj t t' :
  in_tab demo_spawned t -> in_tab demo_spawned t' ->
  id (threads demo_spawned t) = id (threads demo_spawned t') -> t = t'.
Proof.
  intros Ht Ht'. apply demo_tab in Ht. apply demo_tab in Ht'.
  destruct Ht as [-> |[-> | ->]], Ht' as [-> |[-> | ->]]; vm_compute; (reflexivity || discriminate).
Qed.

Lemma demo_l0_run : lock_init demo_lk 9 (mkLockst demo_spawned 0) = Ok (tt, demo_l0).
Proof. unfold demo_l0. apply lfinal_ok. vm_compute. reflexivity. Qed.

Lemma demo_l5_free : ltid demo_l5 = -1.
Proof. vm_compute. reflexivity. Qed.

Lemma demo_l5_tab : in_tab (ks demo_l5) demo_child.
Proof.
  unfold in_tab. replace (thrtab (ks demo_l5)) with (1000 :: demo_child :: replicate 13 0 ++ [2000])
    by (vm_compute; reflexivity). split; [|discriminate]. apply elem_of_cons. right. apply elem_of_cons. by left.
Qed.

#[local] Opaque demo_l5 demo_l0 demo_spawned.

Lemma lock_mutual_exclusion_witness :
  ltid demo_l5 = -1 /\ pc5 demo_child = Trying true /\
  (state (threads (ks demo_l5) demo_child) = THREAD_READY \/
   state (threads (ks demo_l5) demo_child) = THREAD_RUNNING).
Proof.
  split; [exact demo_l5_free|]. split; [reflexivity|].
  destruct demo_spawned_inv as (qs & Hi & Hq).
  destruct (lock_mutual_exclusion demo_lk 2000 9 0 lock_live demo_spawned qs demo_l0
    (mkSys demo_l5 pc5) eq_refl Hi Hq demo_ids demo_inj demo_l0_run demo_lock_run) as (_ & _ & H & _).
  exact (H demo_l5_free demo_child true demo_l5_tab eq_refl).
Defined.
