(* ===== verification/Timer.v ===== *)
(** timer.c: the sleep list and the timer interrupt.

    A [struct alarm] is its condition, whose address is the alarm's, its link
    and its wake-up time.  The list is kept in order of wake-up time by links
    through the alarms; [asleep] relates it to the list of alarms it stands for.
    [mtime] and [mtcmp] are the timer's registers: an interrupt is pending
    while [mtcmp <= mtime]. *)

From Stdlib Require Import Sorting.Sorted.
From S2P Require Import Prelude PhysMem Thread ThreadSpec.

Definition TIMER_FREQ : Z := 10000000.
Definition TICK_FREQ : Z := 50.
Definition TICK_PERIOD : Z := TIMER_FREQ / TICK_FREQ.

Record alarm := mkAlarm { al_next : Z; twake : Z }.

Record timerst := mkTimer {
  tthr : kthreads; alarms : Z -> alarm; sleep_list : Z; next_tick : Z;
  mtime : Z; mtcmp : Z;
  stie : bool; mtie : bool; (* timer interrupts enabled, in S and in M mode *)
  timer_initialized : Z
}.
Notation TM := (M timerst).

Definition with_tthr k s := mkTimer k (alarms s) (sleep_list s) (next_tick s) (mtime s) (mtcmp s)
  (stie s) (mtie s) (timer_initialized s).
Definition with_alarms a s := mkTimer (tthr s) a (sleep_list s) (next_tick s) (mtime s) (mtcmp s)
  (stie s) (mtie s) (timer_initialized s).
Definition with_sleep_list l s := mkTimer (tthr s) (alarms s) l (next_tick s) (mtime s) (mtcmp s)
  (stie s) (mtie s) (timer_initialized s).
Definition with_next_tick t s := mkTimer (tthr s) (alarms s) (sleep_list s) t (mtime s) (mtcmp s)
  (stie s) (mtie s) (timer_initialized s).
Definition with_mtime t s := mkTimer (tthr s) (alarms s) (sleep_list s) (next_tick s) t (mtcmp s)
  (stie s) (mtie s) (timer_initialized s).
Definition with_mtcmp t s := mkTimer (tthr s) (alarms s) (sleep_list s) (next_tick s) (mtime s) t
  (stie s) (mtie s) (timer_initialized s).
Definition with_enables a b s := mkTimer (tthr s) (alarms s) (sleep_list s) (next_tick s) (mtime s)
  (mtcmp s) a b (timer_initialized s).

Definition on_tthr {A} (m : T A) : TM A := fun s =>
  obind (m (tthr s)) (fun '(a, k) => Ok (a, with_tthr k s)).

Definition rd_alarm (a : Z) : TM alarm :=
  if a =? 0 then undef "null alarm" else gets (fun s => alarms s a).
Definition set_al_next (a n : Z) : TM unit :=
  if a =? 0 then undef "null alarm"
  else modify (fun s => with_alarms (upd (alarms s) a (mkAlarm n (twake (alarms s a)))) s).
Definition set_twake (a t : Z) : TM unit :=
  if a =? 0 then undef "null alarm"
  else modify (fun s => with_alarms (upd (alarms s) a (mkAlarm (al_next (alarms s a)) t)) s).

(** A loop that has used up its bound. *)
Definition hangs {A} : TM A := fun _ => Fuel.

Definition get_mtime : TM Z := gets mtime.
Definition set_mtime (v : Z) : TM unit := modify (with_mtime v).
Definition get_mtcmp : TM Z := gets mtcmp.
Definition set_mtcmp (v : Z) : TM unit := modify (with_mtcmp v).
Definition csrs_sie_stie : TM unit := modify (fun s => with_enables true (mtie s) s).
Definition enable_mmode_timer_intr : TM unit := modify (fun s => with_enables (stie s) true s).

Definition timer_init : TM unit :=
  set_mtime 0 ;;
  set_mtcmp TICK_PERIOD ;;
  csrs_sie_stie ;;
  enable_mmode_timer_intr ;;
  modify (fun s => mkTimer (tthr s) (alarms s) (sleep_list s) (next_tick s) (mtime s) (mtcmp s)
                     (stie s) (mtie s) 1).

(** [dflt] is the address of the string "alarm", the name of an unnamed alarm. *)
Definition alarm_init (dflt al name : Z) : TM unit :=
  on_tthr (condition_init al (if name =? 0 then dflt else name)) ;;
  now ← get_mtime;
  set_twake al now ;;
  set_al_next al 0.

(** The loop of [alarm_sleep] over [prev], from a given one on: it inserts before
    the first later alarm and stops; the result is the last [prev]. *)
Fixpoint insert_loop (fuel : nat) (al prev : Z) : TM Z :=
  p ← rd_alarm prev;
  if al_next p =? 0 then mret prev
  else
    n ← rd_alarm (al_next p);
    a ← rd_alarm al;
    if twake a <=? twake n then
      set_al_next al (al_next p) ;;
      set_al_next prev al ;;
      mret prev
    else match fuel with
    | O => hangs
    | S fuel' => insert_loop fuel' al (al_next p)
    end.

(** The insertion behind the first alarm: the loop, and the end of the list. *)
Definition insert_behind (fuel : nat) (al hd : Z) : TM unit :=
  prev ← insert_loop fuel al hd;
  p ← rd_alarm prev;
  if al_next p =? 0 then
    set_al_next al 0 ;;
    set_al_next prev al
  else mret tt.

Section Timer.
(** A bound on the alarms in use. *)
Variable nalarms : nat.

(** The insertion into the sleep list. *)
Definition alarm_insert (al : Z) : TM unit :=
  a ← rd_alarm al;
  hd ← gets sleep_list;
  first ← (if hd =? 0 then mret true else (h ← rd_alarm hd; mret (twake a <=? twake h)));
  if first : bool then
    set_al_next al hd ;;
    modify (with_sleep_list al) ;;
    nt ← gets next_tick;
    if twake a <? nt then
      set_mtcmp (twake a) ;;
      csrs_sie_stie ;;
      enable_mmode_timer_intr
    else mret tt
  else insert_behind nalarms al hd.

(** [alarm_sleep]: [None] when it returns at once, and otherwise the saved
    interrupt state that [intr_restore] gets when the thread, which is then
    waiting, is resumed. *)
Definition alarm_sleep (al tcnt : Z) : TM (option bool) :=
  now ← get_mtime;
  a ← rd_alarm al;
  (if UINT64_MAX - twake a <? tcnt then set_twake al UINT64_MAX else set_twake al (twake a + tcnt)) ;;
  a ← rd_alarm al;
  if twake a <? now then mret None
  else
    saved_intr_state ← on_tthr intr_disable;
    alarm_insert al ;;
    on_tthr (condition_wait al) ;;
    mret (Some saved_intr_state).

Definition alarm_reset (al : Z) : TM unit := now ← get_mtime; set_twake al now.

(** The loop of the handler: wakes the alarms that are due, and returns the
    first that is not. *)
Fixpoint wake_due (fuel : nat) (now hd : Z) : TM Z :=
  if hd =? 0 then mret 0
  else
    h ← rd_alarm hd;
    if twake h <=? now then
      match fuel with
      | O => hangs
      | S fuel' =>
          on_tthr (condition_broadcast hd) ;;
          h ← rd_alarm hd;
          set_al_next hd 0 ;;
          wake_due fuel' now (al_next h)
      end
    else mret hd.

Definition timer_intr_handler : TM unit :=
  hd0 ← gets sleep_list;
  now ← get_mtime;
  hd ← wake_due nalarms now hd0;
  nt ← gets next_tick;
  (if nt <? now then modify (with_next_tick (u64 (nt + TICK_PERIOD))) else mret tt) ;;
  modify (with_sleep_list hd) ;;
  nt ← gets next_tick;
  (if hd =? 0 then set_mtcmp nt
   else h ← rd_alarm hd; if twake h <? nt then set_mtcmp (twake h) else set_mtcmp nt) ;;
  enable_mmode_timer_intr.

(** The inline functions of timer.h. *)
Definition alarm_sleep_sec (al sec : Z) : TM (option bool) := alarm_sleep al (u64 (sec * TIMER_FREQ)).
Definition alarm_sleep_ms (al ms : Z) : TM (option bool) := alarm_sleep al (u64 (ms * (TIMER_FREQ / 1000))).
Definition alarm_sleep_us (al us : Z) : TM (option bool) := alarm_sleep al (u64 (us * (TIMER_FREQ / 1000 / 1000))).
End Timer.

(** ** The sleep list *)

Fixpoint achain (f : Z -> alarm) (p : Z) (l : list Z) : Prop :=
  match l with
  | [] => p = 0
  | x :: l' => p = x /\ x <> 0 /\ achain f (al_next (f x)) l'
  end.

Definition earlier (f : Z -> alarm) (x y : Z) : Prop := twake (f x) <= twake (f y).

Record asleep (s : timerst) (l : list Z) : Prop := {
  as_chain : achain (alarms s) (sleep_list s) l;
  as_nodup : NoDup l;
  as_sorted : StronglySorted (earlier (alarms s)) l
}.

(** Insertion before the first alarm that is not earlier: the reference. *)
Fixpoint insert_alarm (f : Z -> alarm) (al tw : Z) (l : list Z) : list Z :=
  match l with
  | [] => [al]
  | x :: l' => if tw <=? twake (f x) then al :: l else x :: insert_alarm f al tw l'
  end.

Lemma achain_frame f g p l :
  (forall x, x ∈ l -> al_next (g x) = al_next (f x)) -> achain f p l -> achain g p l.
Proof.
  revert p. induction l as [|x l IH]; intros p Hf; [done|]. intros (-> & H0 & Hc).
  split_and!; [done|done|]. rewrite Hf by (by left). apply IH; [|done]. intros y Hy. apply Hf. by right.
Qed.

Lemma insert_elem f al tw l x : x ∈ insert_alarm f al tw l <-> x = al \/ x ∈ l.
Proof.
  induction l as [|y l IH]; cbn [insert_alarm]; [rewrite list_elem_of_singleton, elem_of_nil; tauto|].
  destruct (tw <=? twake (f y)); rewrite !elem_of_cons; [tauto|]. rewrite IH. tauto.
Qed.

Lemma insert_NoDup f al tw l : NoDup l -> al ∉ l -> NoDup (insert_alarm f al tw l).
Proof.
  intros Hn Ha. induction Hn as [|y l Hy Hn IH]; cbn [insert_alarm]; [apply NoDup_singleton|].
  destruct (tw <=? twake (f y)); [by constructor; [|constructor]|].
  constructor; [|apply IH; by rewrite elem_of_cons in Ha; tauto].
  rewrite insert_elem. rewrite elem_of_cons in Ha. intros [->|?]; tauto.
Qed.

Lemma insert_sorted f al l :
  StronglySorted (earlier f) l -> StronglySorted (earlier f) (insert_alarm f al (twake (f al)) l).
Proof.
  induction 1 as [|y l Hs IH Hy]; cbn [insert_alarm]; [by constructor; constructor|].
  destruct (Z.leb_spec (twake (f al)) (twake (f y))) as [Hle|Hlt].
  - constructor; [by constructor|]. constructor; [done|].
    eapply Forall_impl; [exact Hy|]. intros z Hz. unfold earlier in *. lia.
  - constructor; [done|]. apply Forall_forall. intros z Hz. apply insert_elem in Hz as [->|Hz].
    + unfold earlier. lia.
    + rewrite Forall_forall in Hy. by apply Hy.
Qed.

Lemma insert_ext f g al tw l :
  (forall x, x ∈ l -> twake (g x) = twake (f x)) -> insert_alarm g al tw l = insert_alarm f al tw l.
Proof.
  induction l as [|x l IH]; intros H; [done|]. cbn [insert_alarm]. rewrite H by (by left).
  rewrite IH; [done|]. intros y Hy. apply H. by right.
Qed.

Lemma sorted_ext f g l :
  (forall x, x ∈ l -> twake (g x) = twake (f x)) ->
  StronglySorted (earlier f) l -> StronglySorted (earlier g) l.
Proof.
  intros H. induction 1 as [|y l Hs IH Hy]; constructor.
  - apply IH. intros x Hx. apply H. by right.
  - apply Forall_forall. intros z Hz. rewrite Forall_forall in Hy. unfold earlier.
    rewrite !H; [by apply Hy|by right|by left].
Qed.

(** ** Running the operations *)

Lemma run_rd_alarm a s : a <> 0 -> rd_alarm a s = Ok (alarms s a, s).
Proof. intros. unfold rd_alarm. by rewrite (proj2 (Z.eqb_neq a 0)). Qed.
Lemma run_set_al_next a n s :
  a <> 0 -> set_al_next a n s = Ok (tt, with_alarms (upd (alarms s) a (mkAlarm n (twake (alarms s a)))) s).
Proof. intros. unfold set_al_next. by rewrite (proj2 (Z.eqb_neq a 0)). Qed.
Lemma run_set_twake a t s :
  a <> 0 -> set_twake a t s = Ok (tt, with_alarms (upd (alarms s) a (mkAlarm (al_next (alarms s a)) t)) s).
Proof. intros. unfold set_twake. by rewrite (proj2 (Z.eqb_neq a 0)). Qed.
Lemma run_on_tthr {A} (m : T A) s x k : m (tthr s) = Ok (x, k) -> on_tthr m s = Ok (x, with_tthr k s).
Proof. intros E. unfold on_tthr. by rewrite E. Qed.

(** Same alarms up to the links of those in [l]. *)
Definition relinked (f g : Z -> alarm) (l : list Z) : Prop :=
  (forall x, twake (g x) = twake (f x)) /\ (forall x, x ∉ l -> g x = f x).

(** Setting the links of two alarms. *)
Lemma link_two al a prev b s :
  al <> 0 -> prev <> 0 -> al <> prev ->
  exists g, (set_al_next al a ;; set_al_next prev b) s = Ok (tt, with_alarms g s) /\
    al_next (g al) = a /\ al_next (g prev) = b /\
    (forall x, twake (g x) = twake (alarms s x)) /\
    (forall x, x <> al -> x <> prev -> g x = alarms s x).
Proof.
  intros Ha Hp Hne. eexists. split; [by rewrite bind_run, run_set_al_next by done; cbn [obind]; rewrite run_set_al_next|].
  cbn [alarms with_alarms]. split_and!.
  - by rewrite upd_ne, upd_eq.
  - by rewrite upd_eq.
  - intros x. destruct (decide (x = prev)) as [->|H1]; [by rewrite upd_eq; cbn; rewrite upd_ne|].
    rewrite upd_ne by done. destruct (decide (x = al)) as [->|H2]; [by rewrite upd_eq|]. by rewrite upd_ne.
  - intros x H1 H2. by rewrite !upd_ne.
Qed.

Lemma insert_behind_run fuel al prev rest s :
  achain (alarms s) prev (prev :: rest) -> NoDup (prev :: rest) -> al <> 0 -> al ∉ prev :: rest ->
  (length rest <= fuel)%nat ->
  exists g, insert_behind fuel al prev s = Ok (tt, with_alarms g s) /\
    achain g prev (prev :: insert_alarm (alarms s) al (twake (alarms s al)) rest) /\
    relinked (alarms s) g (al :: prev :: rest).
Proof.
  revert fuel prev. induction rest as [|n rest IH]; intros fuel prev (_ & Hp0 & Hc) Hnd Ha Hni Hf;
    rewrite not_elem_of_cons in Hni; destruct Hni as [Hap Hni]; unfold insert_behind.
  - cbn [achain] in Hc.
    destruct (link_two al 0 prev al s) as (g & E & E1 & E2 & Ht & Ho); [done..|].
    exists g. split.
    { rewrite bind_run. destruct fuel; cbn [insert_loop]; rewrite bind_run, run_rd_alarm by done; cbn [obind];
        rewrite Hc, Z.eqb_refl; cbn [mret M_ret obind]; rewrite bind_run, run_rd_alarm by done; cbn [obind];
        rewrite Hc, Z.eqb_refl; exact E. }
    cbn [insert_alarm achain]. rewrite E2, E1. split; [by split_and!|]. split; [done|].
    intros x. rewrite !not_elem_of_cons. intros (? & ? & _). by apply Ho.
  - destruct Hc as (En & Hn0 & Hc). apply NoDup_cons in Hnd as [Hpn Hnd].
    rewrite not_elem_of_cons in Hpn, Hni. destruct Hpn as [Hpn Hpr], Hni as [Han Har].
    assert (El : forall k : Z -> TM unit, (insert_loop fuel al prev ≫= k) s
      = ((if twake (alarms s al) <=? twake (alarms s n) then
           set_al_next al n ;; set_al_next prev al ;; mret prev
         else match fuel with O => hangs | S fuel' => insert_loop fuel' al n end) ≫= k) s).
    { intros k. destruct fuel; cbn [insert_loop]; rewrite !bind_run, run_rd_alarm by done; cbn [obind];
        rewrite En, (proj2 (Z.eqb_neq n 0) Hn0); rewrite bind_run, run_rd_alarm by done; cbn [obind];
        rewrite bind_run, run_rd_alarm by done; cbn [obind]; done. }
    rewrite El. cbn [insert_alarm].
    destruct (Z.leb_spec (twake (alarms s al)) (twake (alarms s n))) as [Hle|Hgt].
    + destruct (link_two al n prev al s) as (g & E & E1 & E2 & Ht & Ho); [done..|].
      exists g. rewrite bind_run in E. rewrite bind_run, bind_run.
      destruct (set_al_next al n s) as [[[] s1]| | | |]; try done. cbn [obind] in E |- *.
      rewrite (bind_Ok _ _ _ _ _ E). cbn [mret M_ret obind].
      rewrite bind_run, run_rd_alarm by done. cbn [obind alarms with_alarms].
      rewrite E2, (proj2 (Z.eqb_neq al 0) Ha). split; [done|]. cbn [achain]. rewrite E2, E1.
      split; [split_and!; try done|].
      * rewrite Ho by done. eapply achain_frame; [|exact Hc]. intros x Hx. rewrite Ho; [done|intros ->; done|intros ->; done].
      * split; [done|]. intros x. rewrite !not_elem_of_cons. intros (? & ? & _). by apply Ho.
    + destruct fuel as [|fuel]; [simpl in Hf; lia|].
      destruct (IH fuel n) as (g & E & Hg & Hg1 & Hg2);
        [by split_and!|done|done|by rewrite not_elem_of_cons|simpl in Hf; lia|].
      exists g. unfold insert_behind in E. split; [exact E|].
      assert (Ep : g prev = alarms s prev) by (apply Hg2; rewrite !not_elem_of_cons; done).
      split; [|split; [done|]].
      * split_and!; [done|done|]. rewrite Ep, En. exact Hg.
      * intros x. rewrite !not_elem_of_cons. intros (? & ? & ? & ?). apply Hg2. by rewrite !not_elem_of_cons.
Qed.

Section Runs.
Variable nalarms : nat.

(** The alarm becomes the first of the list. *)
Definition comes_first (f : Z -> alarm) (al : Z) (l : list Z) : bool :=
  match l with [] => true | h :: _ => twake (f al) <=? twake (f h) end.

Lemma alarm_insert_run s l al :
  asleep s l -> al <> 0 -> al ∉ l -> (length l <= nalarms)%nat ->
  let tw := twake (alarms s al) in
  exists s', alarm_insert nalarms al s = Ok (tt, s') /\ asleep s' (insert_alarm (alarms s) al tw l) /\
    (forall x, twake (alarms s' x) = twake (alarms s x)) /\
    tthr s' = tthr s /\ next_tick s' = next_tick s /\ mtime s' = mtime s /\
    mtcmp s' = (if comes_first (alarms s) al l && (tw <? next_tick s) then tw else mtcmp s).
Proof.
  intros [Hc Hn Hs] Ha Hni Hl tw.
  assert (Hwf : forall s', achain (alarms s') (sleep_list s') (insert_alarm (alarms s) al tw l) ->
    (forall x, twake (alarms s' x) = twake (alarms s x)) -> asleep s' (insert_alarm (alarms s) al tw l)).
  { intros s' H1 H2. constructor; [done|by apply insert_NoDup|].
    apply (sorted_ext (alarms s)); [done|by apply insert_sorted]. }
  unfold alarm_insert. rewrite bind_run, run_rd_alarm by done. cbn [obind].
  rewrite bind_run, run_gets. cbn [obind]. fold tw.
  assert (Ef : forall k : bool -> TM unit,
    ((if sleep_list s =? 0 then mret true else h ← rd_alarm (sleep_list s); mret (tw <=? twake h)) ≫= k) s
    = k (comes_first (alarms s) al l) s).
  { intros k. destruct l as [|h l]; cbn [achain] in Hc; [by rewrite Hc|]. destruct Hc as (-> & Hh & _).
    rewrite (proj2 (Z.eqb_neq h 0) Hh). by rewrite !bind_run, run_rd_alarm. }
  rewrite Ef. cbn [comes_first]. destruct (comes_first (alarms s) al l) eqn:Ecf; cbn [andb].
  - assert (Ei : insert_alarm (alarms s) al tw l = al :: l)
      by (destruct l as [|h l]; [done|]; cbn in Ecf |- *; fold tw in Ecf; by rewrite Ecf).
    rewrite bind_run, run_set_al_next by done. cbn [obind]. rewrite bind_run, run_modify. cbn [obind].
    rewrite bind_run, run_gets. cbn [obind next_tick with_sleep_list with_alarms].
    set (g := upd (alarms s) al _).
    assert (Hg : forall x, twake (g x) = twake (alarms s x)).
    { intros x. unfold g. destruct (decide (x = al)) as [->|]; [by rewrite upd_eq|by rewrite upd_ne]. }
    assert (Hch : achain g al (al :: l)).
    { split_and!; [done|done|]. unfold g at 2. rewrite upd_eq. cbn [al_next].
      eapply achain_frame; [|exact Hc]. intros x Hx. unfold g. rewrite upd_ne; [done|]. by intros ->. }
    rewrite <- Ei in Hch.
    destruct (tw <? next_tick s); (eexists; split; [reflexivity|]; split_and!; try done; by apply Hwf).
  - destruct l as [|h l]; [done|]. cbn in Ecf. fold tw in Ecf. pose proof Hc as (E & _ & _). rewrite E in Hc |- *.
    destruct (insert_behind_run nalarms al h l s Hc Hn Ha Hni) as (g & Eg & Hg & Ht & _); [simpl in Hl; lia|].
    exists (with_alarms g s). split; [exact Eg|]. split_and!; try done. apply Hwf; [|done].
    cbn [insert_alarm]. rewrite Ecf. cbn [sleep_list with_alarms alarms]. by rewrite E.
Qed.

(** ** The handler *)

Variable live : Z -> Prop.
Variable idle_thread : Z.
Notation inv := (sched_inv live idle_thread).

(** The alarms at the front of the list that are due. *)
Fixpoint due (f : Z -> alarm) (now : Z) (l : list Z) : list Z :=
  match l with
  | [] => []
  | x :: l' => if twake (f x) <=? now then x :: due f now l' else []
  end.
Definition not_due (f : Z -> alarm) (now : Z) (l : list Z) : list Z := drop (length (due f now l)) l.

Lemma filter_every (P : Z -> Prop) `{forall x, Decision (P x)} (l : list Z) :
  (forall y, y ∈ l -> P y) -> filter P l = l.
Proof.
  induction l as [|x l IH]; intros Hn; [done|]. rewrite filter_cons_True by (apply Hn; by left).
  f_equal. apply IH. intros y Hy. apply Hn. by right.
Qed.

(** In a list in order these are all the alarms that are due. *)
Lemma due_filter f now l :
  StronglySorted (earlier f) l ->
  due f now l = filter (fun x => twake (f x) <= now) l /\
  not_due f now l = filter (fun x => now < twake (f x)) l.
Proof.
  unfold not_due. induction 1 as [|x l Hs IH Hx]; [done|]. cbn [due]. rewrite !filter_cons.
  destruct (Z.leb_spec (twake (f x)) now) as [Hle|Hgt].
  - destruct (decide _); [|lia]. destruct (decide _); [lia|]. cbn [length drop]. destruct IH as [-> ->]. done.
  - destruct (decide _); [lia|]. destruct (decide _); [|lia]. cbn [length drop]. rewrite Forall_forall in Hx.
    split; symmetry; f_equal.
    + apply filter_none. intros y Hy. specialize (Hx y Hy). unfold earlier in Hx. lia.
    + apply filter_every. intros y Hy. specialize (Hx y Hy). unfold earlier in Hx. lia.
Qed.

Definition head_or_null (l : list Z) : Z := match l with [] => 0 | x :: _ => x end.

Lemma due_ext f g now l :
  (forall x, x ∈ l -> twake (g x) = twake (f x)) -> due g now l = due f now l.
Proof.
  induction l as [|x l IH]; intros H; [done|]. cbn [due]. rewrite H by (by left).
  rewrite IH; [done|]. intros y Hy. apply H. by right.
Qed.

Lemma wake_due_run fuel now p l s qs :
  achain (alarms s) p l -> NoDup l -> Forall live l -> (length l <= fuel)%nat -> inv (tthr s) qs ->
  exists g k, wake_due fuel now p s
      = Ok (head_or_null (not_due (alarms s) now l), with_alarms g (with_tthr k s)) /\
    achain g (head_or_null (not_due (alarms s) now l)) (not_due (alarms s) now l) /\
    (forall x, twake (g x) = twake (alarms s x)) /\
    tp k = tp (tthr s) /\ inv k (foldl woken qs (due (alarms s) now l)).
Proof.
  revert fuel p s qs. induction l as [|x l IH]; intros fuel p s qs Hc Hn Hlv Hf Hi.
  { cbn [achain] in Hc. subst p. exists (alarms s), (tthr s). destruct fuel; cbn; split_and!; try done; by destruct s. }
  destruct Hc as (-> & Hx0 & Hc). unfold not_due. cbn [due].
  destruct (Z.leb_spec (twake (alarms s x)) now) as [Hle|Hgt].
  2:{ exists (alarms s), (tthr s). cbn [length drop head_or_null foldl]. split_and!; try done.
      destruct fuel; cbn [wake_due]; rewrite (proj2 (Z.eqb_neq x 0) Hx0), bind_run, run_rd_alarm by done;
        cbn [obind]; rewrite (proj2 (Z.leb_gt _ _) Hgt); by destruct s. }
  destruct fuel as [|fuel]; [simpl in Hf; lia|]. apply Forall_cons in Hlv as [Hlx Hlv].
  apply NoDup_cons in Hn as [Hxl Hn].
  destruct (broadcast_inv live idle_thread x (tthr s) qs Hi Hlx) as (k1 & E1 & Htp1 & _ & Hi1 & _).
  set (g1 := upd (alarms s) x (mkAlarm 0 (twake (alarms s x)))).
  set (s2 := with_alarms g1 (with_tthr k1 s)).
  assert (Ht1 : forall y, twake (g1 y) = twake (alarms s y)).
  { intros y. unfold g1. destruct (decide (y = x)) as [->|]; [by rewrite upd_eq|by rewrite upd_ne]. }
  destruct (IH fuel (al_next (alarms s x)) s2 (woken qs x)) as (g & k & E & Hg & Ht & Htp & Hik);
    [|done|done|simpl in Hf; lia|done|].
  { eapply achain_frame; [|exact Hc]. intros y Hy. cbn. unfold g1. rewrite upd_ne; [done|]. by intros ->. }
  unfold not_due in E, Hg. cbn [alarms s2 with_alarms] in E, Hg, Ht, Hik.
  rewrite (due_ext (alarms s) g1) in E, Hg, Hik by (intros; apply Ht1).
  exists g, k. cbn [length drop foldl]. split_and!; try done.
  - cbn [wake_due]. rewrite (proj2 (Z.eqb_neq x 0) Hx0), bind_run, run_rd_alarm by done. cbn [obind].
    rewrite (proj2 (Z.leb_le _ _) Hle), (bind_Ok _ _ _ _ _ (run_on_tthr _ s _ _ E1)).
    rewrite bind_run, run_rd_alarm by done. cbn [obind]. rewrite bind_run, run_set_al_next by done. cbn [obind].
    exact E.
  - intros y. by rewrite Ht, Ht1.
  - by rewrite Htp.
Qed.

Lemma sorted_drop f n l : StronglySorted (earlier f) l -> StronglySorted (earlier f) (drop n l).
Proof.
  revert n. induction l as [|x l IH]; intros [|n] H; cbn [drop]; try done.
  apply IH. by inversion H.
Qed.

(** When the next interrupt comes: the first alarm or the next tick. *)
Definition next_intr (f : Z -> alarm) (nt : Z) (l : list Z) : Z :=
  match l with [] => nt | h :: _ => Z.min (twake (f h)) nt end.
Definition tick (now nt : Z) : Z := if nt <? now then u64 (nt + TICK_PERIOD) else nt.

Lemma handler_run s l qs :
  asleep s l -> Forall live l -> (length l <= nalarms)%nat -> inv (tthr s) qs ->
  exists s', timer_intr_handler nalarms s = Ok (tt, s') /\ asleep s' (not_due (alarms s) (mtime s) l) /\
    (forall x, twake (alarms s' x) = twake (alarms s x)) /\ mtime s' = mtime s /\
    next_tick s' = tick (mtime s) (next_tick s) /\
    mtcmp s' = next_intr (alarms s) (next_tick s') (not_due (alarms s) (mtime s) l) /\
    tp (tthr s') = tp (tthr s) /\ inv (tthr s') (foldl woken qs (due (alarms s) (mtime s) l)).
Proof.
  intros [Hc Hn Hs] Hl Hf Hi. unfold timer_intr_handler, get_mtime.
  rewrite bind_run, run_gets. cbn [obind]. rewrite bind_run, run_gets. cbn [obind].
  destruct (wake_due_run nalarms (mtime s) (sleep_list s) l s qs Hc Hn Hl Hf Hi) as (g & k & E & Hg & Ht & Htp & Hik).
  rewrite (bind_Ok _ _ _ _ _ E). rewrite bind_run, run_gets. cbn [obind next_tick with_alarms with_tthr].
  set (nt := tick (mtime s) (next_tick s)). set (r := not_due (alarms s) (mtime s) l) in *.
  set (s1 := with_next_tick nt (with_alarms g (with_tthr k s))).
  assert (E1 : (if next_tick s <? mtime s then modify (with_next_tick (u64 (next_tick s + TICK_PERIOD))) else mret tt)
    (with_alarms g (with_tthr k s)) = Ok (tt, s1)).
  { unfold s1, nt, tick. destruct (next_tick s <? mtime s); [done|]. by destruct s. }
  rewrite (bind_Ok _ _ _ _ _ E1), bind_run, run_modify. cbn [obind]. rewrite bind_run, run_gets. cbn [obind].
  change (next_tick (with_sleep_list (head_or_null r) s1)) with nt.
  set (s2 := with_sleep_list (head_or_null r) s1).
  assert (E2 : (if head_or_null r =? 0 then set_mtcmp nt
     else h ← rd_alarm (head_or_null r); if twake h <? nt then set_mtcmp (twake h) else set_mtcmp nt) s2
     = Ok (tt, with_mtcmp (next_intr (alarms s) nt r) s2)).
  { destruct r as [|h r]; [done|]. cbn [head_or_null next_intr]. destruct Hg as (_ & Hh & _).
    rewrite (proj2 (Z.eqb_neq h 0) Hh), bind_run, run_rd_alarm by done. cbn [obind].
    change (alarms s2 h) with (g h). rewrite Ht.
    destruct (Z.ltb_spec (twake (alarms s h)) nt); unfold set_mtcmp, modify; do 3 f_equal; lia. }
  rewrite (bind_Ok _ _ _ _ _ E2). eexists. split; [reflexivity|]. split_and!; try done.
  constructor; [exact Hg| |].
  - unfold r, not_due. rewrite <- (take_drop (length (due (alarms s) (mtime s) l)) l) in Hn.
    by apply NoDup_app in Hn as (_ & _ & ?).
  - apply (sorted_ext (alarms s)); [done|]. by apply sorted_drop.
Qed.

Lemma asleep_frame s s' l :
  asleep s l -> sleep_list s' = sleep_list s ->
  (forall x, x ∈ l -> alarms s' x = alarms s x) -> asleep s' l.
Proof.
  intros [Hc Hn Hs] El Ea. constructor; [rewrite El|done|].
  - eapply achain_frame; [|exact Hc]. intros x Hx. by rewrite Ea.
  - apply (sorted_ext (alarms s)); [|done]. intros x Hx. by rewrite Ea.
Qed.

(** The wake-up time of [alarm_sleep]. *)
Definition wake_time (f : Z -> alarm) (al tcnt : Z) : Z := Z.min UINT64_MAX (twake (f al) + tcnt).

Lemma sleep_run s l qs al tcnt :
  asleep s l -> al <> 0 -> al ∉ l -> (length l <= nalarms)%nat -> inv (tthr s) qs ->
  live al -> tp (tthr s) <> idle_thread ->
  let tw := wake_time (alarms s) al tcnt in
  exists r s', alarm_sleep nalarms al tcnt s = Ok (r, s') /\ mtime s' = mtime s /\
    next_tick s' = next_tick s /\ (forall x, twake (alarms s' x) = if decide (x = al) then tw else twake (alarms s x)) /\
    if decide (tw < mtime s) then
      r = None /\ asleep s' l /\ tthr s' = tthr s /\ mtcmp s' = mtcmp s
    else
      r = Some (sie (tthr s)) /\ asleep s' (insert_alarm (alarms s') al tw l) /\
      mtcmp s' = (if comes_first (alarms s') al l && (tw <? next_tick s) then tw else mtcmp s) /\
      exists n rest, qs Ready = n :: rest /\ tp (tthr s') = n /\
        inv (tthr s') (at_place (at_place qs (Waiters al) (qs (Waiters al) ++ [tp (tthr s)])) Ready rest).
Proof.
  intros Ha Hal Hni Hlen Hi Hlv Hid tw. unfold alarm_sleep, get_mtime.
  rewrite bind_run, run_gets. cbn [obind]. rewrite bind_run, run_rd_alarm by done. cbn [obind].
  set (f1 := upd (alarms s) al (mkAlarm (al_next (alarms s al)) tw)). set (s1 := with_alarms f1 s).
  assert (E1 : (if UINT64_MAX - twake (alarms s al) <? tcnt then set_twake al UINT64_MAX
     else set_twake al (twake (alarms s al) + tcnt)) s = Ok (tt, s1)).
  { unfold s1, f1, tw, wake_time.
    destruct (Z.ltb_spec (UINT64_MAX - twake (alarms s al)) tcnt); rewrite run_set_twake by done;
      do 6 f_equal; lia. }
  assert (Ef1 : forall x, twake (f1 x) = if decide (x = al) then tw else twake (alarms s x)).
  { intros x. unfold f1. case_goal; subst; [by rewrite upd_eq|by rewrite upd_ne]. }
  assert (Ha1 : asleep s1 l).
  { eapply asleep_frame; [exact Ha|done|]. intros x Hx. cbn. unfold f1. rewrite upd_ne; [done|]. by intros ->. }
  rewrite (bind_Ok _ _ _ _ _ E1), bind_run, run_rd_alarm by done. cbn [obind].
  assert (Etw : twake (alarms s1 al) = tw) by (cbn; unfold f1; by rewrite upd_eq). rewrite Etw.
  destruct (Z.ltb_spec tw (mtime s)) as [Hlt|Hge].
  { exists None, s1. split; [done|]. split_and!; try done. destruct (decide _); [done|lia]. }
  unfold intr_disable. rewrite (bind_Ok _ _ _ _ _ (run_on_tthr _ s1 (sie (tthr s)) (with_sie false (tthr s)) eq_refl)).
  destruct (alarm_insert_run (with_tthr (with_sie false (tthr s)) s1) l al) as (s2 & E2 & Ha2 & Ht2 & Htt & Hnt & Hmt & Hmc);
    [by destruct Ha1; constructor|done|done|done|].
  cbn [with_tthr alarms s1 with_alarms] in Ht2. cbn zeta in Ha2, Hmc.
  change (alarms (with_tthr (with_sie false (tthr s)) s1)) with f1 in Ha2, Hmc.
  rewrite (Ef1 al), decide_True in Ha2, Hmc by done.
  rewrite (bind_Ok _ _ _ _ _ E2).
  destruct (wait_run live idle_thread al (tthr s2) qs) as (k & n & rest & Er & E3 & Htp & _ & Hi3).
  { rewrite Htt. apply (sched_frame live idle_thread (tthr s)); [done|done|by intros []|done|done]. }
  { done. } { by rewrite Htt. }
  rewrite (bind_Ok _ _ _ _ _ (run_on_tthr _ s2 _ _ E3)).
  exists (Some (sie (tthr s))), (with_tthr k s2). split; [done|]. split; [done|]. split; [done|].
  split; [intros x; cbn; by rewrite Ht2, Ef1|]. destruct (decide _); [lia|].
  split; [done|]. split; [|split].
  - cbn [alarms with_tthr]. rewrite (insert_ext f1) by (intros; apply Ht2). by destruct Ha2; constructor.
  - cbn [mtcmp with_tthr alarms]. rewrite Hmc. cbn [next_tick mtcmp with_tthr s1 with_alarms].
    replace (comes_first (alarms s2) al l) with (comes_first f1 al l); [done|].
    destruct l; [done|]. cbn. by rewrite !Ht2.
  - exists n, rest. split_and!; try done. rewrite Htt in Hi3. exact Hi3.
Qed.
End Runs.

(** ** The timer as a transition system *)

Section TimerSteps.
Variable main_thread idle_thread : Z.
(** The conditions in use, those of the alarms among them, and a bound on the
    alarms that sleep. *)
Variable live : Z -> Prop.
Variable nalarms : nat.
Notation inv := (sched_inv live idle_thread).

(** The alarm is not on the list, and there is room for it. *)
Definition free_alarm (s : timerst) (al : Z) : Prop :=
  al <> 0 /\ forall l, asleep s l -> al ∉ l /\ (length l < nalarms)%nat.

(** A thread sleeps on or resets an alarm that nobody sleeps on, time passes, the
    pending interrupt is taken, or the scheduler does something else. *)
Inductive tstep : timerst -> timerst -> Prop :=
| t_sleep al tcnt r s s' :
    free_alarm s al -> live al -> tp (tthr s) <> idle_thread ->
    alarm_sleep nalarms al tcnt s = Ok (r, s') -> tstep s s'
| t_reset al s s' : free_alarm s al -> alarm_reset al s = Ok (tt, s') -> tstep s s'
| t_time t s : mtime s <= t -> tstep s (with_mtime t s)
| t_intr s s' : mtcmp s <= mtime s -> timer_intr_handler nalarms s = Ok (tt, s') -> tstep s s'
| t_sched k s : ThreadSpec.step main_thread idle_thread live (tthr s) k -> tstep s (with_tthr k s).

(** The list is in order and the comparator is set no later than its first alarm,
    or than the first tick. *)
Record timer_inv (s : timerst) (l : list Z) : Prop := {
  ti_asleep : asleep s l;
  ti_live : Forall live l;
  ti_len : (length l <= nalarms)%nat;
  ti_sched : exists qs, inv (tthr s) qs;
  ti_tick : mtcmp s <= Z.max (next_tick s) TICK_PERIOD;
  ti_cmp : Forall (fun x => mtcmp s <= Z.max (twake (alarms s x)) TICK_PERIOD) l
}.

Lemma insert_length f al tw l : length (insert_alarm f al tw l) = S (length l).
Proof. induction l as [|x l IH]; cbn; [done|]. destruct (tw <=? twake (f x)); cbn; [done|by rewrite IH]. Qed.

Lemma sleep_inv al tcnt r s s' l :
  timer_inv s l -> free_alarm s al -> live al -> tp (tthr s) <> idle_thread ->
  alarm_sleep nalarms al tcnt s = Ok (r, s') -> exists l', timer_inv s' l'.
Proof.
  intros [Ha Hl Hn (qs & Hi) Htk Hc] [Hal Hfree] Hlv Hid E. destruct (Hfree l Ha) as [Hni Hroom].
  destruct (sleep_run nalarms live idle_thread s l qs al tcnt Ha Hal Hni Hn Hi Hlv Hid)
    as (r' & s1 & E1 & Hmt & Hnt & Htw & Hcase).
  rewrite E in E1. injection E1 as <- <-. set (tw := wake_time (alarms s) al tcnt) in *.
  assert (Hold : forall x, x ∈ l -> twake (alarms s' x) = twake (alarms s x)).
  { intros x Hx. rewrite Htw. case_goal; [by subst|done]. }
  assert (Hcl : Forall (fun x => mtcmp s <= Z.max (twake (alarms s' x)) TICK_PERIOD) l).
  { apply Forall_forall. intros x Hx. rewrite Hold by done. rewrite Forall_forall in Hc. by apply Hc. }
  destruct (decide (tw < mtime s)).
  { destruct Hcase as (-> & Ha' & Ett & Emc). exists l. constructor; rewrite ?Ett, ?Emc, ?Hnt; try done. by exists qs. }
  destruct Hcase as (-> & Ha' & Emc & n' & rest & _ & _ & Hi').
  assert (Etw : twake (alarms s' al) = tw) by (rewrite Htw; by case_goal).
  exists (insert_alarm (alarms s') al tw l).
  assert (Hle : mtcmp s' <= mtcmp s \/ mtcmp s' = tw /\ tw < next_tick s).
  { rewrite Emc. destruct (comes_first _ _ _ && (tw <? next_tick s)) eqn:Eb; [|by left].
    apply andb_prop in Eb as [_ Eb]. zbool. by right. }
  assert (Hall : forall x, x ∈ insert_alarm (alarms s') al tw l -> mtcmp s' <= Z.max (twake (alarms s' x)) TICK_PERIOD).
  { intros x Hx. apply insert_elem in Hx as [->|Hx].
    - rewrite Etw, Emc. unfold comes_first. rewrite Etw.
      destruct l as [|h l]; cbn [andb]; [destruct (Z.ltb_spec tw (next_tick s)); lia|].
      apply Forall_cons in Hcl as [Hh _].
      destruct (Z.leb_spec tw (twake (alarms s' h))); cbn [andb]; [|lia].
      destruct (Z.ltb_spec tw (next_tick s)); lia.
    - rewrite Forall_forall in Hcl. specialize (Hcl x Hx). rewrite Emc.
      destruct (comes_first (alarms s') al l) eqn:Ef; cbn [andb]; [|done].
      destruct (Z.ltb_spec tw (next_tick s)); [|done].
      destruct l as [|h l]; [by apply not_elem_of_nil in Hx|]. unfold comes_first in Ef. rewrite Etw in Ef. zbool.
      assert (twake (alarms s' h) <= twake (alarms s' x)); [|lia].
      apply elem_of_cons in Hx as [->|Hx]; [done|].
      assert (Hs : StronglySorted (earlier (alarms s')) (h :: l))
        by (apply (sorted_ext (alarms s)); [exact Hold|apply Ha]).
      inversion Hs as [|? ? _ Hf]. rewrite Forall_forall in Hf. by apply Hf. }
  constructor; try done.
  - apply Forall_forall. intros x Hx. apply insert_elem in Hx as [->|Hx]; [done|]. rewrite Forall_forall in Hl. by apply Hl.
  - rewrite insert_length. lia.
  - by eexists.
  - rewrite Hnt. lia.
  - by apply Forall_forall.
Qed.

Lemma intr_inv s s' l :
  timer_inv s l -> timer_intr_handler nalarms s = Ok (tt, s') ->
  timer_inv s' (not_due (alarms s) (mtime s) l).
Proof.
  intros [Ha Hl Hn (qs & Hi) Htk Hc] E.
  destruct (handler_run nalarms live idle_thread s l qs Ha Hl Hn Hi)
    as (s1 & E1 & Ha1 & Htw & Hmt & Hnt & Hmc & Htp & Hi1).
  rewrite E in E1. injection E1 as <-. set (r := not_due (alarms s) (mtime s) l) in *.
  assert (Hs : StronglySorted (earlier (alarms s')) r) by apply Ha1.
  constructor; try done.
  - unfold r, not_due. by apply Forall_drop.
  - unfold r, not_due. rewrite length_drop. lia.
  - by eexists.
  - rewrite Hmc. unfold next_intr. destruct r; lia.
  - rewrite Hmc. unfold next_intr. destruct r as [|h r]; [constructor|]. rewrite <- Htw.
    apply Forall_forall. intros x Hx. apply elem_of_cons in Hx as [->|Hx]; [lia|].
    inversion Hs as [|? ? _ Hf]. rewrite Forall_forall in Hf. specialize (Hf x Hx). unfold earlier in Hf. lia.
Qed.

Lemma tstep_inv s s' : (exists l, timer_inv s l) -> tstep s s' -> exists l, timer_inv s' l.
Proof.
  intros [l Hi] Hs. destruct Hs as [al tcnt r s s' Hf Hlv Hid E|al s s' [Hal Hf] E|t s Ht|s s' Hp E|k s Hk].
  - by eapply sleep_inv.
  - destruct Hi as [Ha Hl Hn Hq Htk Hc]. destruct (Hf l Ha) as [Hni _].
    unfold alarm_reset, get_mtime in E. rewrite bind_run, run_gets in E. cbn [obind] in E.
    rewrite run_set_twake in E by done. injection E as <-.
    assert (Hold : forall x, x ∈ l -> upd (alarms s) al (mkAlarm (al_next (alarms s al)) (mtime s)) x = alarms s x).
    { intros x Hx. rewrite upd_ne; [done|]. by intros ->. }
    exists l. constructor; try done.
    + by eapply asleep_frame.
    + apply Forall_forall. intros x Hx. cbn. rewrite Hold by done. rewrite Forall_forall in Hc. by apply Hc.
  - exists l. destruct Hi as [[] ? ? ? ? ?]. constructor; try done.
  - eexists. by eapply intr_inv.
  - exists l. destruct Hi as [[] ? ? Hq ? ?]. constructor; try done.
    by apply (ThreadSpec.step_inv main_thread idle_thread live (tthr s)).
Qed.

(** After [timer_init] on a machine on which nothing sleeps. *)
Lemma timer_init_inv s s' qs :
  sleep_list s = 0 -> inv (tthr s) qs -> timer_init s = Ok (tt, s') -> timer_inv s' [].
Proof.
  intros Hl Hi E. injection E as <-. constructor; cbn; try done; try lia.
  - constructor; [done|constructor|constructor].
  - by exists qs.
Qed.
End TimerSteps.

(** ** Results *)

(** C33. Going to sleep.  [alarm_sleep] sets the wake-up time of the alarm to the
    last one plus the interval, or to the largest time when that would wrap
    around.  A time that has passed changes nothing else.  Otherwise the linked
    list is the list with the alarm inserted before the first one that is not
    earlier, still in order; the comparator is moved forward exactly when the
    alarm is the first and comes before the next tick; and the thread waits for
    the alarm while the next ready thread runs. *)
Theorem alarm_sleep_inserts (nalarms : nat) (live : Z -> Prop) (idle_thread : Z) (s : timerst)
    (l : list Z) (qs : place -> list Z) (al tcnt : Z)
    (Ha : asleep s l) (Hal : al <> 0) (Hni : al ∉ l) (Hlen : (length l <= nalarms)%nat)
    (Hi : sched_inv live idle_thread (tthr s) qs) (Hlv : live al) (Hid : tp (tthr s) <> idle_thread) :
  let tw := wake_time (alarms s) al tcnt in
  exists r s', alarm_sleep nalarms al tcnt s = Ok (r, s') /\ mtime s' = mtime s /\
    next_tick s' = next_tick s /\
    (forall x, twake (alarms s' x) = if decide (x = al) then tw else twake (alarms s x)) /\
    if decide (tw < mtime s) then
      r = None /\ asleep s' l /\ tthr s' = tthr s /\ mtcmp s' = mtcmp s
    else
      r = Some (sie (tthr s)) /\ asleep s' (insert_alarm (alarms s') al tw l) /\
      mtcmp s' = (if comes_first (alarms s') al l && (tw <? next_tick s) then tw else mtcmp s) /\
      exists n rest, qs Ready = n :: rest /\ tp (tthr s') = n /\
        sched_inv live idle_thread (tthr s')
          (at_place (at_place qs (Waiters al) (qs (Waiters al) ++ [tp (tthr s)])) Ready rest).
Proof. by apply sleep_run. Qed.

(** The timer interrupt.  [timer_intr_handler] takes off the list exactly the
    alarms whose time has come and leaves the others, in order; every thread
    that waited for one of the former is moved to the ready list, in the order
    of the alarms, and no thread is switched; the next interrupt is set for the
    first alarm left or the next tick, whichever is earlier. *)
Theorem timer_intr_wakes_due (nalarms : nat) (live : Z -> Prop) (idle_thread : Z) (s : timerst)
    (l : list Z) (qs : place -> list Z)
    (Ha : asleep s l) (Hl : Forall live l) (Hlen : (length l <= nalarms)%nat)
    (Hi : sched_inv live idle_thread (tthr s) qs) :
  let gone := filter (fun x => twake (alarms s x) <= mtime s) l in
  let stay := filter (fun x => mtime s < twake (alarms s x)) l in
  exists s', timer_intr_handler nalarms s = Ok (tt, s') /\ asleep s' stay /\
    (forall x, twake (alarms s' x) = twake (alarms s x)) /\
    next_tick s' = tick (mtime s) (next_tick s) /\
    mtcmp s' = next_intr (alarms s) (next_tick s') stay /\
    tp (tthr s') = tp (tthr s) /\ sched_inv live idle_thread (tthr s') (foldl woken qs gone).
Proof.
  cbn zeta. destruct (due_filter (alarms s) (mtime s) l (as_sorted _ _ Ha)) as [<- <-].
  destruct (handler_run nalarms live idle_thread s l qs Ha Hl Hlen Hi)
    as (s' & E & Ha' & Ht & _ & Hnt & Hmc & Htp & Hi'). by exists s'.
Qed.


(** ** A run: the main thread sleeps for 300000 ticks of the clock. *)

Definition all_live (c : Z) : Prop := True.
Definition demo_t0 : timerst := mkTimer demo_boot (fun _ => mkAlarm 0 0) 0 0 0 0 false false 0.
Definition tfinal {A} (m : outcome (A * timerst)) : timerst :=
  match m with Ok (_, s) => s | _ => demo_t0 end.
Definition tresult {A} (m : outcome (A * timerst)) : option A :=
  match m with Ok (a, _) => Some a | _ => None end.
Lemma tfinal_ok {A} (m : outcome (A * timerst)) a : tresult m = Some a -> m = Ok (a, tfinal m).
Proof. destruct m as [[b s]| | | |]; simpl; intros H; try discriminate. by injection H as ->. Qed.

Definition demo_t1 : timerst := tfinal (timer_init demo_t0).
Definition demo_t2 : timerst := tfinal (alarm_sleep 4 5000 300000 demo_t1).

Definition demo_qs (p : place) : list Z := match p with Ready => [2000] | Waiters _ => [] end.
Lemma demo_sched : sched_inv all_live 2000 demo_boot demo_qs.
Proof.
  destruct (thread_init_run 1000 2000 all_live demo_s0 0 0 0 0) as (s & E & _ & _ & Hi); [lia..|].
  unfold demo_boot. rewrite E. exact Hi.
Qed.
Lemma demo_t1_run : timer_init demo_t0 = Ok (tt, demo_t1).
Proof. unfold demo_t1. apply tfinal_ok. vm_compute. reflexivity. Qed.
Lemma demo_t2_run : alarm_sleep 4 5000 300000 demo_t1 = Ok (Some false, demo_t2).
Proof. unfold demo_t2. apply tfinal_ok. vm_compute. reflexivity. Qed.
Lemma demo_t1_asleep : asleep demo_t1 [].
Proof. constructor; [reflexivity|constructor|constructor]. Qed.
Lemma demo_t1_thr : tthr demo_t1 = demo_boot.
Proof. reflexivity. Qed.

Lemma demo_timer_run :
  steps (tstep 1000 2000 all_live 4) demo_t1 (with_mtime 400000 demo_t2).
Proof.
  eapply steps_cons; [apply (t_sleep _ _ _ _ 5000 300000 (Some false) demo_t1 demo_t2)|].
  - split; [done|]. intros l [Hc _ _]. destruct l as [|x l]; [split; [apply not_elem_of_nil|simpl; lia]|].
    destruct Hc as (E & H0 & _). by rewrite <- E in H0.
  - done.
  - vm_compute. discriminate.
  - exact demo_t2_run.
  - apply steps_one, t_time. vm_compute. discriminate.
Qed.

Lemma alarm_sleep_inserts_witness :
  exists s', alarm_sleep 4 5000 300000 demo_t1 = Ok (Some false, s') /\ asleep s' [5000] /\
    twake (alarms s' 5000) = 300000.
Proof.
  destruct (alarm_sleep_inserts 4 all_live 2000 demo_t1 [] demo_qs 5000 300000 demo_t1_asleep)
    as (r & s' & E & _ & _ & Ht & Hc).
  - discriminate.
  - apply not_elem_of_nil.
  - simpl. lia.
  - rewrite demo_t1_thr. exact demo_sched.
  - exact I.
  - vm_compute. discriminate.
  - destruct (decide _) as [Hlt|_]; [vm_compute in Hlt; discriminate|]. destruct Hc as (-> & Ha & _).
    exists s'. split; [exact E|]. split; [exact Ha|]. rewrite (Ht 5000). reflexivity.
Defined.

Lemma timer_intr_wakes_due_witness :
  exists s', timer_intr_handler 4 (with_mtime 400000 demo_t1) = Ok (tt, s') /\ asleep s' [] /\
    mtcmp s' = 200000.
Proof.
  destruct (timer_intr_wakes_due 4 all_live 2000 (with_mtime 400000 demo_t1) [] demo_qs) as (s' & E & Ha & _ & Hn & Hm & _).
  - constructor; [reflexivity|constructor|constructor].
  - constructor.
  - simpl. lia.
  - exact demo_sched.
  - exists s'. split; [exact E|]. split; [exact Ha|]. rewrite Hm, Hn. reflexivity.
Defined.

#[local] Opaque demo_t1 demo_t2.

