(* ===== verification/Intr.v ===== *)
(** intr.c and plic.c: interrupt dispatch and the platform interrupt controller.

    The controller's registers are 32-bit words by address.  The state of
    intr.c is the table of service routines, a routine being identified by its
    address (0 is NULL); what a routine does is a parameter of the handler. *)

From S2P Require Import Prelude.

(** ** The controller (plic.c) *)

Definition PLIC_IOBASE : Z := 0x0C000000.
Definition PLIC_SRCCNT : Z := 0x400.
Definition IP_BASE : Z := 0x1000.
Definition IE_BASE : Z := 0x2000.
Definition P_THRESHOLD_BASE : Z := 0x200000.
Definition I_CLAIM_BASE : Z := 0x200004.

Notation plic := (gmap Z Z).
Definition preg (p : plic) (a : Z) : Z := default 0 (p !! a).

Definition plic_set_source_priority (srcno level : Z) (p : plic) : plic :=
  let offset := u32 (u32 (srcno * 4) + PLIC_IOBASE) in
  <[offset := level]> p.

Definition plic_source_pending (srcno : Z) (p : plic) : Z :=
  let offset := u32 (u32 (IP_BASE + srcno / 32 * 4) + PLIC_IOBASE) in
  let bit_loc := Z.shiftl 1 (srcno mod 32) in
  s32 (Z.land (preg p offset) bit_loc).

Definition ie_offset (ctxno srcno : Z) : Z :=
  u32 (u32 (PLIC_IOBASE + IE_BASE + u32 (ctxno * 128)) + srcno / 32 * 4).

Definition plic_enable_source_for_context (ctxno srcno : Z) (p : plic) : plic :=
  let offset := ie_offset ctxno srcno in
  let bit_loc := Z.shiftl 1 (srcno mod 32) in
  <[offset := Z.lor (preg p offset) bit_loc]> p.

Definition plic_disable_source_for_context (ctxno srcid : Z) (p : plic) : plic :=
  let offset := ie_offset ctxno srcid in
  let bit_loc := Z.shiftl 1 (srcid mod 32) in
  <[offset := Z.land (preg p offset) (Z.lnot bit_loc)]> p.

Definition plic_set_context_threshold (ctxno level : Z) (p : plic) : plic :=
  let offset := u32 (u32 (P_THRESHOLD_BASE + u32 (ctxno * 4096)) + PLIC_IOBASE) in
  <[offset := level]> p.

Definition claim_offset (ctxno : Z) : Z := u32 (PLIC_IOBASE + I_CLAIM_BASE + u32 (ctxno * 4096)).

Definition plic_claim_context_interrupt (ctxno : Z) (p : plic) : Z := preg p (claim_offset ctxno).

Definition plic_complete_context_interrupt (ctxno srcno : Z) (p : plic) : plic :=
  <[claim_offset ctxno := srcno]> p.

Definition plic_init (p : plic) : plic :=
  foldl (fun p i => plic_enable_source_for_context 1 i (plic_set_source_priority i 0 p)) p
    (range 1024 0 PLIC_SRCCNT 1).

Definition plic_enable_irq (irqno prio : Z) (p : plic) : plic := plic_set_source_priority irqno prio p.

Definition plic_disable_irq (irqno : Z) (p : plic) : plic :=
  if 0 <? irqno then plic_set_source_priority irqno 0 p else p.

Definition plic_claim_irq (p : plic) : Z := s32 (plic_claim_context_interrupt 1 p).
Definition plic_close_irq (irqno : Z) (p : plic) : plic := plic_complete_context_interrupt 1 irqno p.

(** ** Dispatch (intr.c) *)

Definition NIRQ : Z := 32.
Definition RISCV_SCAUSE_INTR_EXCODE_STI : Z := 5.
Definition RISCV_SCAUSE_INTR_EXCODE_SEI : Z := 9.
Definition RISCV_SIE_SEIE : Z := 512.
Definition RISCV_SSTATUS_SIE : Z := 2.
Definition RISCV_SSTATUS_SPP : Z := 256.

Record isr_entry := mkIsr { isr : Z; isr_aux : Z; prio : Z }.

Record intr_state := mkIntr {
  isrtab : list isr_entry; plicr : plic; sip : Z; sie : Z; sstatus : Z; intr_initialized : Z
}.

Definition set_isrtab t s := mkIntr t (plicr s) (sip s) (sie s) (sstatus s) (intr_initialized s).
Definition set_plicr p s := mkIntr (isrtab s) p (sip s) (sie s) (sstatus s) (intr_initialized s).

Definition intr_init : M intr_state unit := modify (fun s =>
  mkIntr (isrtab s) (plic_init (plicr s)) 0 RISCV_SIE_SEIE
    (Z.land (sstatus s) (Z.lnot RISCV_SSTATUS_SIE)) 1).

Definition intr_register_isr (irqno prio0 isr_fn aux : Z) : M intr_state unit :=
  if (irqno <? 0) || (NIRQ <=? irqno) then panic "irqno out of bounds"
  else
    let prio := if prio0 <=? 0 then 1 else prio0 in
    modify (fun s => set_isrtab (<[Z.to_nat irqno := mkIsr isr_fn aux prio]> (isrtab s)) s).

(** The entry of a line; the table has no entry outside [0, NIRQ). *)
Definition isr_at (irqno : Z) : M intr_state isr_entry :=
  s ← get;
  if irqno <? 0 then undef "isrtab index"
  else match isrtab s !! Z.to_nat irqno with Some e => mret e | None => undef "isrtab index" end.

Definition intr_enable_irq (irqno : Z) : M intr_state unit :=
  e ← isr_at irqno;
  if isr e =? 0 then panic "intr_enable_irq with no isr"
  else modify (fun s => set_plicr (plic_enable_irq irqno (prio e) (plicr s)) s).

Definition intr_disable_irq (irqno : Z) : M intr_state unit :=
  modify (fun s => set_plicr (plic_disable_irq irqno (plicr s)) s).

Section Handler.
(** The state of the kernel, of which the interrupt state is a part; what the
    service routine at an address does with its two arguments; the timer's
    handler and the scheduler's yield. *)
Context {St : Type} (istate : St -> intr_state) (set_istate : intr_state -> St -> St).
Context (call_isr : Z -> Z -> Z -> M St unit) (timer_intr_handler thread_yield : M St unit).

Definition on_intr {A} (m : M intr_state A) : M St A := fun s =>
  obind (m (istate s)) (fun '(a, i) => Ok (a, set_istate i s)).

Definition extern_intr_handler : M St unit :=
  irqno ← on_intr (gets (fun s => plic_claim_irq (plicr s)));
  if (irqno <? 0) || (NIRQ <=? irqno) then panic "invalid irq"
  else if irqno =? 0 then mret tt
  else
    e ← on_intr (isr_at irqno);
    if isr e =? 0 then panic "unhandled irq"
    else
      call_isr (isr e) irqno (isr_aux e) ;;
      on_intr (modify (fun s => set_plicr (plic_close_irq irqno (plicr s)) s)).

(** [tfr_sstatus] is the saved status register of the trap frame. *)
Definition intr_handler (code tfr_sstatus : Z) : M St unit :=
  (if code =? RISCV_SCAUSE_INTR_EXCODE_STI then timer_intr_handler
   else if code =? RISCV_SCAUSE_INTR_EXCODE_SEI then extern_intr_handler
   else panic "unhandled interrupt") ;;
  if Z.land tfr_sstatus RISCV_SSTATUS_SPP =? 0 then thread_yield else mret tt.
End Handler.

(** ** The controller's registers do not interfere *)

(** What the registers mean. *)
Definition priority (p : plic) (src : Z) : Z := preg p (PLIC_IOBASE + 4 * src).
Definition enabled (p : plic) (ctx src : Z) : bool :=
  Z.testbit (preg p (PLIC_IOBASE + IE_BASE + 128 * ctx + 4 * (src / 32))) (src mod 32).

Definition src_ok (src : Z) : Prop := 0 <= src < 1024.
(** The contexts whose enable bits lie below the thresholds. *)
Definition ctx_ok (ctx : Z) : Prop := 0 <= ctx < 15872.

Lemma preg_insert p a v b : preg (<[a := v]> p) b = if a =? b then v else preg p b.
Proof.
  unfold preg. destruct (Z.eqb_spec a b) as [->|]; [by rewrite lookup_insert_eq|].
  by rewrite lookup_insert_ne.
Qed.

Lemma ie_offset_at ctx src :
  ctx_ok ctx -> src_ok src -> ie_offset ctx src = PLIC_IOBASE + IE_BASE + 128 * ctx + 4 * (src / 32).
Proof. unfold ctx_ok, src_ok, ie_offset, PLIC_IOBASE, IE_BASE. intros. wrap_lia. Qed.

Lemma priority_offset src : src_ok src -> u32 (u32 (src * 4) + PLIC_IOBASE) = PLIC_IOBASE + 4 * src.
Proof. unfold src_ok, PLIC_IOBASE. intros. wrap_lia. Qed.

Lemma enable_slot ctx src ctx' src' :
  ctx_ok ctx -> src_ok src -> ctx_ok ctx' -> src_ok src' ->
  PLIC_IOBASE + IE_BASE + 128 * ctx + 4 * (src / 32) = PLIC_IOBASE + IE_BASE + 128 * ctx' + 4 * (src' / 32) <->
  ctx = ctx' /\ src / 32 = src' / 32.
Proof. unfold src_ok. intros. split; [|intros [-> ->]; done]. Z.div_mod_to_equations. lia. Qed.

Lemma testbit_one a b : 0 <= a -> 0 <= b -> Z.testbit (Z.shiftl 1 a) b = (a =? b).
Proof.
  intros. rewrite Z.shiftl_spec by lia. destruct (Z.eqb_spec a b) as [->|Hne].
  - by rewrite Z.sub_diag.
  - destruct (Z.lt_ge_cases (b - a) 0); [by rewrite Z.testbit_neg_r|].
    replace 1 with (2 ^ 0) by done. rewrite Z.pow2_bits_false by lia. done.
Qed.

(** Setting or clearing the bit of a source in its word. *)
Lemma enabled_update p ctx src ctx' src' w :
  ctx_ok ctx -> src_ok src -> ctx_ok ctx' -> src_ok src' ->
  enabled (<[ie_offset ctx src := w]> p) ctx' src' =
  if bool_decide (ctx = ctx' /\ src / 32 = src' / 32) then Z.testbit w (src' mod 32) else enabled p ctx' src'.
Proof.
  intros H1 H2 H3 H4. unfold enabled. rewrite ie_offset_at, preg_insert by done.
  pose proof (enable_slot ctx src ctx' src' H1 H2 H3 H4) as Hs.
  case_bool_decide as E.
  - by rewrite (proj2 (Z.eqb_eq _ _) (proj2 Hs E)).
  - rewrite (proj2 (Z.eqb_neq _ _)); [done|]. intros E'. by apply E, Hs.
Qed.

Lemma same_source src src' : src / 32 = src' / 32 -> (src mod 32 =? src' mod 32) = bool_decide (src = src').
Proof.
  intros E. pose proof (Z.div_mod src 32 ltac:(lia)). pose proof (Z.div_mod src' 32 ltac:(lia)).
  case_bool_decide as Eq; [subst; apply Z.eqb_refl|]. apply Z.eqb_neq. lia.
Qed.

Lemma enable_bit p ctx src ctx' src' :
  ctx_ok ctx -> src_ok src -> ctx_ok ctx' -> src_ok src' ->
  enabled (plic_enable_source_for_context ctx src p) ctx' src' =
  enabled p ctx' src' || bool_decide (ctx = ctx' /\ src = src').
Proof.
  intros H1 H2 H3 H4. unfold plic_enable_source_for_context. rewrite enabled_update by done.
  pose proof (Z.mod_pos_bound src 32 ltac:(lia)). pose proof (Z.mod_pos_bound src' 32 ltac:(lia)).
  case_bool_decide as E.
  - destruct E as [-> E]. rewrite Z.lor_spec, testbit_one, same_source by (done || lia).
    rewrite ie_offset_at by done. unfold enabled. rewrite <- E. f_equal.
    repeat case_bool_decide; naive_solver.
  - case_bool_decide as E'; [|by rewrite orb_false_r]. destruct E' as [-> ->]. naive_solver.
Qed.

Lemma disable_bit p ctx src ctx' src' :
  ctx_ok ctx -> src_ok src -> ctx_ok ctx' -> src_ok src' ->
  enabled (plic_disable_source_for_context ctx src p) ctx' src' =
  enabled p ctx' src' && negb (bool_decide (ctx = ctx' /\ src = src')).
Proof.
  intros H1 H2 H3 H4. unfold plic_disable_source_for_context. rewrite enabled_update by done.
  pose proof (Z.mod_pos_bound src 32 ltac:(lia)). pose proof (Z.mod_pos_bound src' 32 ltac:(lia)).
  case_bool_decide as E.
  - destruct E as [-> E]. rewrite Z.land_spec, Z.lnot_spec, testbit_one, same_source by (done || lia).
    rewrite ie_offset_at by done. unfold enabled. rewrite <- E. do 2 f_equal.
    repeat case_bool_decide; naive_solver.
  - case_bool_decide as E'; [|by rewrite andb_true_r]. destruct E' as [-> ->]. naive_solver.
Qed.

(** Priorities lie below the enable bits. *)
Lemma priority_frame p ctx src src' w :
  ctx_ok ctx -> src_ok src -> src_ok src' -> priority (<[ie_offset ctx src := w]> p) src' = priority p src'.
Proof.
  intros H1 H2 H3. unfold priority. rewrite ie_offset_at, preg_insert by done.
  rewrite (proj2 (Z.eqb_neq _ _)); [done|]. unfold ctx_ok, src_ok, IE_BASE in *. Z.div_mod_to_equations. lia.
Qed.

Lemma priority_set p src level src' :
  src_ok src -> src_ok src' ->
  priority (plic_set_source_priority src level p) src' = if src =? src' then level else priority p src'.
Proof.
  intros H1 H2. unfold plic_set_source_priority, priority. rewrite priority_offset, preg_insert by done.
  destruct (Z.eqb_spec src src') as [->|]; [by rewrite Z.eqb_refl|].
  rewrite (proj2 (Z.eqb_neq _ _)); [done|lia].
Qed.

Lemma enabled_priority p src level ctx' src' :
  src_ok src -> ctx_ok ctx' -> src_ok src' ->
  enabled (plic_set_source_priority src level p) ctx' src' = enabled p ctx' src'.
Proof.
  intros H1 H2 H3. unfold plic_set_source_priority, enabled. rewrite priority_offset, preg_insert by done.
  rewrite (proj2 (Z.eqb_neq _ _)); [done|]. unfold ctx_ok, src_ok, IE_BASE in *. Z.div_mod_to_equations. lia.
Qed.

(** The loop of [plic_init] over the sources [l]. *)
Lemma plic_init_loop l p :
  Forall src_ok l ->
  let p' := foldl (fun p i => plic_enable_source_for_context 1 i (plic_set_source_priority i 0 p)) p l in
  forall src, src_ok src ->
    priority p' src = (if bool_decide (src ∈ l) then 0 else priority p src) /\
    forall ctx, ctx_ok ctx -> enabled p' ctx src = enabled p ctx src || bool_decide (ctx = 1 /\ src ∈ l).
Proof.
  revert p. induction l as [|i l IH]; intros p Hl; cbn [foldl]; intros src Hs.
  { split; [by rewrite bool_decide_eq_false_2 by apply not_elem_of_nil|]. intros ctx _.
    rewrite bool_decide_eq_false_2; [by rewrite orb_false_r|]. intros [_ E]. by apply not_elem_of_nil in E. }
  apply Forall_cons in Hl as [Hi Hl]. assert (H1 : ctx_ok 1) by (unfold ctx_ok; lia).
  destruct (IH (plic_enable_source_for_context 1 i (plic_set_source_priority i 0 p)) Hl src Hs) as [Ep Ee].
  split.
  - rewrite Ep. unfold plic_enable_source_for_context. rewrite priority_frame, priority_set by done.
    destruct (decide (src ∈ l)) as [E|E].
    + rewrite !bool_decide_eq_true_2; [done|by right|done].
    + rewrite (bool_decide_eq_false_2 (src ∈ l)) by done. destruct (Z.eqb_spec i src) as [->|Hne].
      * by rewrite bool_decide_eq_true_2 by (by left).
      * rewrite bool_decide_eq_false_2; [done|]. rewrite elem_of_cons. intros [->|]; done.
  - intros ctx Hc. rewrite Ee, enable_bit, enabled_priority, <- orb_assoc by done. f_equal.
    rewrite <- bool_decide_or. apply bool_decide_ext. rewrite elem_of_cons.
    split; [intros [[-> ->]|[-> ?]]; auto|intros [-> [->|?]]; auto].
Qed.

Lemma plic_init_source p src :
  src_ok src ->
  priority (plic_init p) src = 0 /\
  forall ctx, ctx_ok ctx -> enabled (plic_init p) ctx src = enabled p ctx src || (ctx =? 1).
Proof.
  intros Hs. unfold plic_init. set (l := range 1024 0 PLIC_SRCCNT 1).
  assert (Hall : forall s, src_ok s <-> s ∈ l).
  { intros s. unfold l. rewrite range_elem by lia. unfold src_ok, PLIC_SRCCNT.
    split; [intros; exists s; lia|intros (k & ? & -> & ?); lia]. }
  clearbody l. destruct (plic_init_loop l p) with (src := src) as [Ep Ee]; [|done|].
  { apply Forall_forall. intros s. apply Hall. }
  split; [rewrite Ep, bool_decide_eq_true_2; [done|by apply Hall]|].
  intros ctx Hc. rewrite Ee by done. f_equal. destruct (Z.eqb_spec ctx 1) as [->|Hne].
  - apply bool_decide_eq_true_2. split; [done|by apply Hall].
  - apply bool_decide_eq_false_2. by intros [? _].
Qed.

(** ** Results *)

(** The registers of the controller.  For every source and every context
    whose enable bits lie below the thresholds, enabling or disabling a source
    for a context changes the enable bit of exactly that source in exactly that
    context and no priority; setting a priority changes the priority of exactly
    that source and no enable bit; and [plic_init] leaves every source with
    priority 0 and enabled in context 1, and no other context changed. *)
Theorem plic_sources_independent (p : plic) (ctx src ctx' src' level : Z)
    (Hc : ctx_ok ctx) (Hs : src_ok src) (Hc' : ctx_ok ctx') (Hs' : src_ok src') :
  enabled (plic_enable_source_for_context ctx src p) ctx' src'
    = enabled p ctx' src' || bool_decide (ctx = ctx' /\ src = src') /\
  enabled (plic_disable_source_for_context ctx src p) ctx' src'
    = enabled p ctx' src' && negb (bool_decide (ctx = ctx' /\ src = src')) /\
  priority (plic_enable_source_for_context ctx src p) src' = priority p src' /\
  priority (plic_disable_source_for_context ctx src p) src' = priority p src' /\
  priority (plic_set_source_priority src level p) src' = (if src =? src' then level else priority p src') /\
  enabled (plic_set_source_priority src level p) ctx' src' = enabled p ctx' src' /\
  priority (plic_init p) src' = 0 /\
  enabled (plic_init p) ctx' src' = enabled p ctx' src' || (ctx' =? 1).
Proof.
  destruct (plic_init_source p src' Hs') as [Ep Ee]. split_and!.
  - by apply enable_bit.
  - by apply disable_bit.
  - by apply priority_frame.
  - by apply priority_frame.
  - by apply priority_set.
  - by apply enabled_priority.
  - exact Ep.
  - by apply Ee.
Qed.

Lemma plic_sources_independent_witness :
  enabled (plic_enable_source_for_context 1 10 ∅) 1 10 = true /\
  enabled (plic_init ∅) 1 1023 = true.
Proof.
  destruct (plic_sources_independent ∅ 1 10 1 10 7) as (E1 & _);
    [unfold ctx_ok; lia|unfold src_ok; lia|unfold ctx_ok; lia|unfold src_ok; lia|].
  destruct (plic_sources_independent ∅ 1 10 1 1023 7) as (_ & _ & _ & _ & _ & _ & _ & E2);
    [unfold ctx_ok; lia|unfold src_ok; lia|unfold ctx_ok; lia|unfold src_ok; lia|].
  split; [rewrite E1|rewrite E2]; reflexivity.
Defined.

Lemma isr_at_run irqno e i :
  0 <= irqno -> isrtab i !! Z.to_nat irqno = Some e -> isr_at irqno i = Ok (e, i).
Proof.
  intros H0 He. unfold isr_at. rewrite bind_run. cbn [get obind].
  destruct (Z.ltb_spec irqno 0); [lia|]. by rewrite He.
Qed.

Section Dispatch.
Context {St : Type} (istate : St -> intr_state) (set_istate : intr_state -> St -> St).
Context (set_same : forall s, set_istate (istate s) s = s).
Context (call_isr : Z -> Z -> Z -> M St unit) (timer_intr_handler thread_yield : M St unit).

Lemma on_intr_gets {A} (f : intr_state -> A) s :
  on_intr istate set_istate (gets f) s = Ok (f (istate s), s).
Proof. unfold on_intr, gets. cbn. by rewrite set_same. Qed.

Lemma on_intr_isr irqno e s :
  0 <= irqno -> isrtab (istate s) !! Z.to_nat irqno = Some e ->
  on_intr istate set_istate (isr_at irqno) s = Ok (e, s).
Proof.
  intros H0 He. unfold on_intr. rewrite (isr_at_run irqno e _ H0 He). cbn. by rewrite set_same.
Qed.

Lemma extern_dispatch irqno e s :
  0 < irqno < NIRQ -> plic_claim_irq (plicr (istate s)) = irqno ->
  isrtab (istate s) !! Z.to_nat irqno = Some e -> isr e <> 0 ->
  extern_intr_handler istate set_istate call_isr s =
  (call_isr (isr e) irqno (isr_aux e) ;;
   on_intr istate set_istate (modify (fun i => set_plicr (plic_close_irq irqno (plicr i)) i))) s.
Proof.
  intros Hi Hc He Hf. unfold extern_intr_handler.
  rewrite (bind_Ok _ _ _ _ _ (on_intr_gets _ s)), Hc.
  destruct (Z.ltb_spec irqno 0), (Z.leb_spec NIRQ irqno); try lia. cbn [orb].
  destruct (Z.eqb_spec irqno 0); [lia|].
  rewrite (bind_Ok _ _ _ _ _ (on_intr_isr irqno e s ltac:(lia) He)).
  destruct (Z.eqb_spec (isr e) 0); done.
Qed.
End Dispatch.

(** A registered interrupt service routine runs.  Registering a routine for a
    line and enabling the line gives the line the priority asked for, at least 1,
    and changes the priority of no other line; and as long as the table is not
    changed, an external interrupt for which the controller hands out that line
    runs exactly this routine, with the line and the argument it was registered
    with, then reports the line back to the controller, and yields the
    processor if and only if a user program was interrupted. *)
Theorem registered_isr_runs {St : Type} (istate : St -> intr_state) (set_istate : intr_state -> St -> St)
    (call_isr : Z -> Z -> Z -> M St unit) (timer_intr_handler thread_yield : M St unit)
    (irqno pr fn aux : Z) (i0 : intr_state)
    (Hset : forall s, set_istate (istate s) s = s)
    (Hirq : 0 < irqno < NIRQ) (Hfn : fn <> 0) (Htab : length (isrtab i0) = 32%nat) :
  exists i1 i2, intr_register_isr irqno pr fn aux i0 = Ok (tt, i1) /\
    intr_enable_irq irqno i1 = Ok (tt, i2) /\
    (forall src, src_ok src -> priority (plicr i2) src
       = if irqno =? src then Z.max 1 pr else priority (plicr i0) src) /\
    (forall s tfr, isrtab (istate s) = isrtab i2 -> plic_claim_irq (plicr (istate s)) = irqno ->
       intr_handler istate set_istate call_isr timer_intr_handler thread_yield
         RISCV_SCAUSE_INTR_EXCODE_SEI tfr s
       = ((call_isr fn irqno aux ;;
           on_intr istate set_istate (modify (fun i => set_plicr (plic_close_irq irqno (plicr i)) i))) ;;
          if Z.land tfr RISCV_SSTATUS_SPP =? 0 then thread_yield else mret tt) s).
Proof.
  unfold NIRQ in Hirq. set (e := mkIsr fn aux (Z.max 1 pr)).
  assert (Ee : <[Z.to_nat irqno := e]> (isrtab i0) !! Z.to_nat irqno = Some e)
    by (apply list_lookup_insert_eq; lia).
  exists (set_isrtab (<[Z.to_nat irqno := e]> (isrtab i0)) i0). eexists. split_and!.
  - unfold intr_register_isr, NIRQ. destruct (Z.ltb_spec irqno 0), (Z.leb_spec 32 irqno); try lia. cbn [orb].
    unfold modify. do 4 f_equal. unfold e. f_equal. destruct (Z.leb_spec pr 0); lia.
  - unfold intr_enable_irq. erewrite bind_Ok by (apply isr_at_run; [lia|exact Ee]).
    cbn [isr e]. destruct (Z.eqb_spec fn 0); [done|]. reflexivity.
  - intros src Hsrc. cbn [plicr set_plicr set_isrtab e]. apply priority_set; [|done]. unfold src_ok; lia.
  - intros s tfr Ht Hc. cbn [isrtab set_plicr set_isrtab] in Ht. unfold intr_handler.
    change (RISCV_SCAUSE_INTR_EXCODE_SEI =? RISCV_SCAUSE_INTR_EXCODE_STI) with false. cbn iota.
    rewrite Z.eqb_refl, bind_run.
    rewrite (extern_dispatch istate set_istate Hset call_isr irqno e s) by (done || congruence). done.
Qed.

(** A kernel state that is the interrupt state and a log of the routines run. *)
Lemma registered_isr_runs_witness :
  exists i1 i2, intr_register_isr 10 3 4096 77 (mkIntr (repeat (mkIsr 0 0 0) 32) ∅ 0 0 0 0) = Ok (tt, i1) /\
    intr_enable_irq 10 i1 = Ok (tt, i2) /\
    match intr_handler fst (fun i s => (i, s.2)) (fun f n a s => Ok (tt, (s.1, (f, n, a) :: s.2)))
        (mret tt) (mret tt) RISCV_SCAUSE_INTR_EXCODE_SEI 0
        (mkIntr (isrtab i2) (<[claim_offset 1 := 10]> ∅) 0 0 0 0, []) with
    | Ok (tt, s) => s.2 = [(4096, 10, 77)]
    | _ => False
    end.
Proof.
  destruct (registered_isr_runs (St := intr_state * list (Z * Z * Z)) fst (fun i s => (i, s.2))
    (fun f n a s => Ok (tt, (s.1, (f, n, a) :: s.2))) (mret tt) (mret tt) 10 3 4096 77
    (mkIntr (repeat (mkIsr 0 0 0) 32) ∅ 0 0 0 0)) as (i1 & i2 & E1 & E2 & _ & E3).
  - by intros [].
  - unfold NIRQ. lia.
  - discriminate.
  - reflexivity.
  - exists i1, i2. split_and!; [exact E1|exact E2|]. rewrite E3; [|reflexivity|by vm_compute]. reflexivity.
Defined.
