(* ===== verification/CString.v ===== *)
(** string.c: C strings, memory blocks and formatted output.

    A pointer to characters is the list of bytes from where it points to the
    end of the object; NULL is [None] where the code tests for it.  [char] is
    unsigned on this target, so a byte is a [Z] in [0, 256).  The result [None]
    of an operation is an access outside the object, which C leaves
    undefined; the theorems say when it cannot happen. *)

From S2P Require Import Prelude.

(** ** Strings in buffers *)

(** The string a buffer holds: its bytes before the first NUL. *)
Fixpoint cstr (s : list Z) : list Z :=
  match s with
  | [] => []
  | c :: s' => if c =? 0 then [] else c :: cstr s'
  end.

Definition terminated (s : list Z) : Prop := 0 ∈ s.

(** ** Comparison and length *)

(** The loop and the final comparison of [strcmp]. *)
Fixpoint strcmp_chars (s1 s2 : list Z) : option Z :=
  match s1, s2 with
  | c1 :: s1', c2 :: s2' =>
      if (c1 =? c2) && negb (c1 =? 0) then strcmp_chars s1' s2'
      else Some (if c1 <? c2 then -1 else if c2 <? c1 then 1 else 0)
  | _, _ => None
  end.

Definition strcmp (s1 s2 : option (list Z)) : option Z :=
  match s1, s2 with
  | None, None => Some 0
  | None, Some _ => Some (-1)
  | Some _, None => Some 1
  | Some s1, Some s2 => strcmp_chars s1 s2
  end.

Fixpoint strlen (s : list Z) : option Z :=
  match s with
  | [] => None
  | c :: s' => if c =? 0 then Some 0 else n ← strlen s'; Some (n + 1)
  end.

Fixpoint strncmp (s1 s2 : list Z) (n : nat) {struct n} : option Z :=
  match n with
  | O => Some 0
  | S n' =>
      match s1, s2 with
      | c1 :: s1', c2 :: s2' =>
          if negb (c1 =? 0) && (c1 =? c2) then strncmp s1' s2' n' else Some (c1 - c2)
      | _, _ => None
      end
  end.

(** ** Copying *)

Fixpoint strncpy (dst src : list Z) (n : nat) {struct n} : option (list Z) :=
  match n with
  | O => Some dst
  | S n' =>
      match src, dst with
      | c :: src', _ :: dst' =>
          if negb (c =? 0) then r ← strncpy dst' src' n'; Some (c :: r)
          else Some (0 :: dst')
      | _, _ => None
      end
  end.

(** The second loop of [strncat], at the NUL of the destination. *)
Fixpoint strncat_copy (dst src : list Z) (n : nat) : option (list Z) :=
  match dst with
  | [] => None
  | _ :: dst' =>
      match n with
      | O => Some (0 :: dst')
      | S n' =>
          match src with
          | [] => None
          | c :: src' =>
              if negb (c =? 0) then r ← strncat_copy dst' src' n'; Some (c :: r)
              else Some (0 :: dst')
          end
      end
  end.

Fixpoint strncat (dst src : list Z) (n : nat) : option (list Z) :=
  match dst with
  | [] => None
  | c :: dst' =>
      if negb (c =? 0) then r ← strncat dst' src n; Some (c :: r)
      else strncat_copy dst src n
  end.

Fixpoint memset (s : list Z) (c : Z) (n : nat) {struct n} : option (list Z) :=
  match n with
  | O => Some s
  | S n' => match s with [] => None | _ :: s' => r ← memset s' c n'; Some (u8 c :: r) end
  end.

Fixpoint memcpy (dst src : list Z) (n : nat) {struct n} : option (list Z) :=
  match n with
  | O => Some dst
  | S n' =>
      match dst, src with
      | _ :: dst', c :: src' => r ← memcpy dst' src' n'; Some (c :: r)
      | _, _ => None
      end
  end.

Fixpoint memcmp (p1 p2 : list Z) (n : nat) {struct n} : option Z :=
  match n with
  | O => Some 0
  | S n' =>
      match p1, p2 with
      | a :: p1', b :: p2' => if negb (a =? b) then Some (a - b) else memcmp p1' p2' n'
      | _, _ => None
      end
  end.

(** ** Formatted output *)

(** What [va_arg] finds: an integer argument, in a 64-bit slot, or a pointer to
    a string. *)
Inductive va := VInt (w : Z) | VStr (s : option (list Z)).

Section Printf.
(** [putcfn] and its [aux]: what writing a character does to the sink. *)
Context {St : Type} (putcfn : Z -> St -> St).

(** The [do] loop of [format_int] fills the 40-byte buffer from its end; [fuel] is
    the room left in it. *)
Fixpoint format_digits (fuel : nat) (val base : Z) (acc : list Z) : option (list Z) :=
  match fuel with
  | O => None
  | S fuel' =>
      let d := val mod base in
      let c := if d <? 10 then 48 + d else 97 + d - 10 in
      let val' := val / base in
      if val' =? 0 then Some (c :: acc) else format_digits fuel' val' base (c :: acc)
  end.

Fixpoint format_pad (ndig : nat) (zpad : bool) (len : nat) (aux : St) (nout : Z) : Z * St :=
  match len with
  | O => (nout, aux)
  | S len' =>
      if (ndig <? len)%nat then
        format_pad ndig zpad len' (putcfn (if zpad then 48 else 32) aux) (nout + 1)
      else (nout, aux)
  end.

Fixpoint format_chars (buf : list Z) (aux : St) (nout : Z) : Z * St :=
  match buf with
  | [] => (nout, aux)
  | c :: buf' => format_chars buf' (putcfn c aux) (nout + 1)
  end.

Definition format_int (aux : St) (val base : Z) (zpad : bool) (len : nat) : option (Z * St) :=
  buf ← format_digits 40 val base [];
  let '(nout, aux1) := format_pad (length buf) zpad len aux 0 in
  Some (format_chars buf aux1 nout).

Fixpoint format_str_chars (s : list Z) (aux : St) (nout : Z) : option (Z * St) :=
  match s with
  | [] => None
  | c :: s' => if c =? 0 then Some (nout, aux) else format_str_chars s' (putcfn c aux) (nout + 1)
  end.

Definition null_text : list Z := [40; 110; 117; 108; 108; 41; 0]. (* "(null)" *)

Definition format_str (aux : St) (s : option (list Z)) (len : nat) : option (Z * St) :=
  r ← format_str_chars (default null_text s) aux 0;
  let '(nout, aux1) := r in
  if nout <? Z.of_nat len then
    let len' := (len - Z.to_nat nout)%nat in
    Some (nout + Z.of_nat len', Nat.iter len' (putcfn 32) aux1)
  else Some (nout, aux1).

Definition is_digit (c : Z) : bool := (48 <=? c) && (c <=? 57).

(** The width specifier, [unsigned int]. *)
Fixpoint parse_width (p : list Z) (len : Z) : Z * list Z :=
  match p with
  | c :: p' => if is_digit c then parse_width p' (u32 (10 * len + (c - 48))) else (len, p)
  | [] => (len, [])
  end.

Fixpoint parse_l (p : list Z) (lcnt : Z) : Z * list Z :=
  match p with
  | c :: p' => if c =? 108 then parse_l p' (lcnt + 1) else (lcnt, p)
  | [] => (lcnt, [])
  end.

(** The size prefix: [l]s, or [z] or [j], which both mean [long long] here
    (all three sizes are 8 bytes and the last test wins). *)
Definition parse_prefix (p : list Z) : Z * list Z :=
  let '(lcnt, p1) := parse_l p 0 in
  match p1 with
  | c :: p2 => if (c =? 122) || (c =? 106) then (2, p2) else (lcnt, p1)
  | [] => (lcnt, [])
  end.

(** [va_arg] at type int, long or unsigned, by the number of [l]s. *)
Definition arg_signed (lcnt w : Z) : Z := if 0 <? lcnt then s64 w else s32 w.
Definition arg_unsigned (lcnt w : Z) : Z := if 0 <? lcnt then u64 w else u32 w.

(** The [switch] on the conversion character [c]. *)
Definition conversion (c lcnt : Z) (zpad : bool) (len : Z) (ap : list va) (aux : St)
    : option (Z * St * list va) :=
  let len := Z.to_nat len in
  if c =? 100 then
    match ap with
    | VInt w :: ap' =>
        let ival := arg_signed lcnt w in
        let '(n0, aux0, ival1, len1) :=
          if ival <? 0 then (1, putcfn 45 aux, s64 (- ival), pred len) else (0, aux, ival, len) in
        r ← format_int aux0 (u64 ival1) 10 zpad len1;
        Some (n0 + r.1, r.2, ap')
    | _ => None
    end
  else if (c =? 117) || (c =? 120) then
    match ap with
    | VInt w :: ap' =>
        r ← format_int aux (u64 (arg_unsigned lcnt w)) (if c =? 120 then 16 else 10) zpad len;
        Some (r.1, r.2, ap')
    | _ => None
    end
  else if c =? 115 then
    match ap with
    | VStr s :: ap' => r ← format_str aux s len; Some (r.1, r.2, ap')
    | _ => None
    end
  else if c =? 112 then
    match ap with
    | VInt w :: ap' =>
        r ← format_str aux (Some [48; 120; 0]) 2;
        r2 ← format_int r.2 (u64 w) 16 zpad len;
        Some (r.1 + r2.1, r2.2, ap')
    | _ => None
    end
  else
    Some (2, putcfn (if (c <? 32) || (127 <=? c) then 63 else c) (putcfn 37 aux), ap).

(** The loop of [vgprintf], one round per character or conversion; [fuel]
    bounds the rounds by the length of the format. *)
Fixpoint vgprintf_loop (fuel : nat) (p : list Z) (ap : list va) (aux : St) (nout : Z)
    : option (Z * St) :=
  match fuel with
  | O => None
  | S fuel' =>
      match p with
      | [] => None
      | c :: p1 =>
          if c =? 0 then Some (nout, aux)
          else if c =? 37 then
            let zpad := match p1 with c1 :: _ => c1 =? 48 | [] => false end in
            let '(len, p2) := parse_width p1 0 in
            let '(lcnt, p3) := parse_prefix p2 in
            match p3 with
            | [] => None
            | conv :: p4 =>
                r ← conversion conv lcnt zpad len ap aux;
                let '(n, aux', ap') := r in
                vgprintf_loop fuel' (if conv =? 0 then p3 else p4) ap' aux' (nout + n)
            end
          else vgprintf_loop fuel' p1 ap (putcfn c aux) (nout + 1)
      end
  end.

Definition vgprintf (aux : St) (fmt : list Z) (ap : list va) : option (Z * St) :=
  vgprintf_loop (length fmt) fmt ap aux 0.
End Printf.

(** [struct vsnprintf_state]: the buffer, where the next character goes and the
    room left. *)
Record vsnprintf_state := mkVs { vs_buf : list Z; vs_pos : nat; vs_rem : Z }.

Definition vsnprintf_putc (c : Z) (state : vsnprintf_state) : vsnprintf_state :=
  if vs_rem state <=? 1 then state
  else mkVs (<[vs_pos state := c]> (vs_buf state)) (S (vs_pos state)) (vs_rem state - 1).

Definition vsnprintf (buf : list Z) (bufsz : Z) (fmt : list Z) (ap : list va)
    : option (Z * list Z) :=
  r ← vgprintf vsnprintf_putc (mkVs buf 0 bufsz) fmt ap;
  let '(n, state) := r in
  Some (n, if negb (vs_rem state =? 0) then <[vs_pos state := 0]> (vs_buf state)
           else vs_buf state).

Definition snprintf (buf : list Z) (bufsz : Z) (fmt : list Z) (ap : list va)
    : option (Z * list Z) := vsnprintf buf bufsz fmt ap.

(** ** Formatting does not depend on the sink *)

Section Hom.
(** Two sinks related by a map that commutes with writing a character. *)
Context {S1 S2 : Type} (p1 : Z -> S1 -> S1) (p2 : Z -> S2 -> S2) (h : S1 -> S2)
  (Hh : forall c a, h (p1 c a) = p2 c (h a)).

Let lift (r : Z * S1) : Z * S2 := (r.1, h r.2).

Lemma hom_pad ndig zpad len a nout :
  format_pad p2 ndig zpad len (h a) nout = lift (format_pad p1 ndig zpad len a nout).
Proof.
  revert a nout. induction len as [|len IH]; intros; [done|]. cbn [format_pad].
  casesplit; [|done]. by rewrite <- Hh, IH.
Qed.

Lemma hom_chars buf a nout :
  format_chars p2 buf (h a) nout = lift (format_chars p1 buf a nout).
Proof.
  revert a nout. induction buf as [|c buf IH]; intros; [done|]. cbn [format_chars].
  by rewrite <- Hh, IH.
Qed.

Lemma hom_int a val base zpad len :
  format_int p2 (h a) val base zpad len = lift <$> format_int p1 a val base zpad len.
Proof.
  unfold format_int. destruct (format_digits 40 val base []) as [buf|]; [|done]. simpl.
  rewrite hom_pad. destruct (format_pad p1 _ _ _ _ _) as [n a']. simpl.
  by rewrite hom_chars.
Qed.

Lemma hom_str a s len : format_str p2 (h a) s len = lift <$> format_str p1 a s len.
Proof.
  assert (Hc : forall s a n,
    format_str_chars p2 s (h a) n = lift <$> format_str_chars p1 s a n).
  { clear s a. induction s as [|c s IH]; intros; [done|]. cbn [format_str_chars].
    casesplit; [done|]. by rewrite <- Hh, IH. }
  assert (Hi : forall k a, Nat.iter k (p2 32) (h a) = h (Nat.iter k (p1 32) a)).
  { induction k as [|k IH]; intros; [done|]. simpl. by rewrite IH, Hh. }
  unfold format_str. rewrite Hc. destruct (format_str_chars p1 _ _ _) as [[n a']|]; [|done].
  simpl. casesplit; [|done]. by rewrite Hi.
Qed.

Lemma hom_conversion c lcnt zpad len ap a :
  conversion p2 c lcnt zpad len ap (h a)
  = (fun r => (lift r.1, r.2)) <$> conversion p1 c lcnt zpad len ap a.
Proof.
  unfold conversion.
  destruct (c =? 100); [destruct ap as [|[w|s] ap]; try done|].
  2: destruct ((c =? 117) || (c =? 120)); [destruct ap as [|[w|s] ap]; try done|].
  3: destruct (c =? 115); [destruct ap as [|[w|s] ap]; try done|].
  4: destruct (c =? 112); [destruct ap as [|[w|s] ap]; try done|].
  - destruct (arg_signed lcnt w <? 0); [rewrite <- Hh|]; rewrite hom_int;
      by destruct (format_int p1 _ _ _ _ _) as [[]|].
  - rewrite hom_int. by destruct (format_int p1 _ _ _ _ _) as [[]|].
  - rewrite hom_str. by destruct (format_str p1 _ _ _) as [[]|].
  - rewrite hom_str. destruct (format_str p1 _ _ _) as [[n a']|]; [|done]. simpl.
    rewrite hom_int. by destruct (format_int p1 _ _ _ _ _) as [[]|].
  - unfold lift. simpl. by rewrite !Hh.
Qed.

Lemma hom_loop fuel p ap a nout :
  vgprintf_loop p2 fuel p ap (h a) nout = lift <$> vgprintf_loop p1 fuel p ap a nout.
Proof.
  revert p ap a nout. induction fuel as [|fuel IH]; intros; [done|]. cbn [vgprintf_loop].
  destruct p as [|c p]; [done|]. casesplit; [done|]. casesplit.
  - destruct (parse_width p 0) as [len q], (parse_prefix q) as [lcnt [|conv q']]; [done|].
    rewrite hom_conversion. destruct (conversion p1 _ _ _ _ _ _) as [[[n a'] ap']|]; [|done].
    simpl. apply IH.
  - rewrite <- Hh. apply IH.
Qed.
End Hom.

(** Writing a text to a sink, and the text a format and its arguments stand
    for. *)
Definition emit {St} (putcfn : Z -> St -> St) (out : list Z) (aux : St) : St :=
  foldl (fun a c => putcfn c a) aux out.
Definition printed (fmt : list Z) (ap : list va) : option (list Z) :=
  snd <$> vgprintf (fun c l => l ++ [c]) [] fmt ap.

(** The count [vgprintf] returns is the number of characters written: shown
    with a sink that counts. *)
Definition count_putc (c k : Z) : Z := k + 1.

Lemma count_int a val base zpad len r :
  format_int count_putc a val base zpad len = Some r -> r.1 = r.2 - a.
Proof.
  assert (Hp : forall ndig len a n, let r := format_pad count_putc ndig zpad len a n in
     r.1 - n = r.2 - a).
  { intros ndig l. induction l as [|l IH]; intros a' n; cbn [format_pad]; [simpl; lia|].
    casesplit; [|simpl; lia]. specialize (IH (count_putc (if zpad then 48 else 32) a') (n + 1)).
    unfold count_putc in *. simpl in *. lia. }
  assert (Hc : forall buf a n, let r := format_chars count_putc buf a n in r.1 - n = r.2 - a).
  { induction buf as [|c buf IH]; intros a' n; cbn [format_chars]; [simpl; lia|].
    specialize (IH (count_putc c a') (n + 1)). unfold count_putc in *. simpl in *. lia. }
  unfold format_int. destruct (format_digits 40 val base []) as [buf|]; [|done]. simpl.
  specialize (Hp (length buf) len a 0). destruct (format_pad _ _ _ _ _ _) as [n a'].
  specialize (Hc buf a' n). intros [= <-]. simpl in *. lia.
Qed.

Lemma count_str a s len r : format_str count_putc a s len = Some r -> r.1 = r.2 - a.
Proof.
  assert (Hc : forall s a n r, format_str_chars count_putc s a n = Some r -> r.1 - n = r.2 - a).
  { clear. induction s as [|c s IH]; intros a n r; cbn [format_str_chars]; [done|].
    casesplit; [intros [= <-]; simpl; lia|]. intros H. apply IH in H. unfold count_putc in H. lia. }
  assert (Hi : forall k a, Nat.iter k (count_putc 32) a = a + Z.of_nat k).
  { clear. induction k as [|k IH]; intros; simpl; [lia|]. rewrite IH. unfold count_putc. lia. }
  unfold format_str. destruct (format_str_chars _ _ _ _) as [[n a']|] eqn:E; [|done].
  apply Hc in E. simpl in *. casesplit; intros [= <-]; simpl; rewrite ?Hi; lia.
Qed.

Lemma count_conversion c lcnt zpad len ap a n a' ap' :
  conversion count_putc c lcnt zpad len ap a = Some (n, a', ap') -> n = a' - a.
Proof.
  unfold conversion.
  destruct (c =? 100); [destruct ap as [|[w|s] ap]; try done|].
  2: destruct ((c =? 117) || (c =? 120)); [destruct ap as [|[w|s] ap]; try done|].
  3: destruct (c =? 115); [destruct ap as [|[w|s] ap]; try done|].
  4: destruct (c =? 112); [destruct ap as [|[w|s] ap]; try done|].
  - destruct (arg_signed lcnt w <? 0);
      destruct (format_int _ _ _ _ _ _) as [r|] eqn:E; try done; apply count_int in E;
      simpl; intros [= <- <- <-]; unfold count_putc in *; lia.
  - destruct (format_int _ _ _ _ _ _) as [r|] eqn:E; [|done]. apply count_int in E.
    simpl. by intros [= <- <- <-].
  - destruct (format_str _ _ _ _) as [r|] eqn:E; [|done]. apply count_str in E.
    simpl. by intros [= <- <- <-].
  - destruct (format_str _ _ _ _) as [r|] eqn:E; [|done]. apply count_str in E. simpl.
    destruct (format_int _ _ _ _ _ _) as [r2|] eqn:E2; [|done]. apply count_int in E2.
    simpl. intros [= <- <- <-]. lia.
  - unfold count_putc. intros [= <- <- <-]. lia.
Qed.

Lemma count_loop fuel p ap a nout r :
  vgprintf_loop count_putc fuel p ap a nout = Some r -> r.1 - nout = r.2 - a.
Proof.
  revert p ap a nout. induction fuel as [|fuel IH]; intros p ap a nout; [done|].
  cbn [vgprintf_loop]. destruct p as [|c p]; [done|]. casesplit; [intros [= <-]; simpl; lia|].
  casesplit.
  - destruct (parse_width p 0) as [len q], (parse_prefix q) as [lcnt [|conv q']]; [done|].
    destruct (conversion _ _ _ _ _ _ _) as [[[n a'] ap']|] eqn:E; [|done].
    apply count_conversion in E. simpl. intros H. apply IH in H. lia.
  - intros H. apply IH in H. unfold count_putc in H. lia.
Qed.

(** Every sink receives the same text, and the result is its length. *)
Lemma vgprintf_emit {St} (putcfn : Z -> St -> St) aux fmt ap :
  vgprintf putcfn aux fmt ap
  = (fun out => (Z.of_nat (length out), emit putcfn out aux)) <$> printed fmt ap.
Proof.
  set (app := fun c (l : list Z) => l ++ [c]).
  assert (H1 : vgprintf putcfn aux fmt ap
    = (fun r => (r.1, emit putcfn r.2 aux)) <$> vgprintf app [] fmt ap).
  { refine (hom_loop app putcfn (fun acc => emit putcfn acc aux) _ (length fmt) fmt ap [] 0).
    intros c acc. unfold app, emit. by rewrite foldl_app. }
  assert (H2 : vgprintf count_putc 0 fmt ap
    = (fun r => (r.1, Z.of_nat (length r.2))) <$> vgprintf app [] fmt ap).
  { refine (hom_loop app count_putc (fun acc => Z.of_nat (length acc)) _ (length fmt) fmt ap [] 0).
    intros c acc. unfold app, count_putc. rewrite length_app. simpl. lia. }
  rewrite H1. unfold printed. fold app. destruct (vgprintf app [] fmt ap) as [[n out]|]; [|done].
  simpl in *. apply count_loop in H2. simpl in H2. do 2 f_equal. lia.
Qed.

Lemma strlen_cstr s : terminated s -> strlen s = Some (Z.of_nat (length (cstr s))).
Proof.
  unfold terminated. induction s as [|c s IH]; intros H; [by apply not_elem_of_nil in H|]. cbn [strlen cstr].
  destruct (Z.eqb_spec c 0) as [|Hne]; [done|]. apply elem_of_cons in H as [E|H]; [done|].
  rewrite IH by done. cbn [mbind option_bind length]. f_equal. lia.
Qed.
Lemma take_cstr s : take (length (cstr s)) s = cstr s.
Proof. induction s as [|c s IH]; [done|]. cbn [cstr]. destruct (c =? 0); [done|]. cbn. by rewrite IH. Qed.

(** ** Digits *)

Definition digit_char (d : Z) : Z := if d <? 10 then 48 + d else 97 + d - 10.
Definition digit_val (c : Z) : Z := if c <=? 57 then c - 48 else c - 87.
(** The number a text of digits denotes. *)
Definition value (base : Z) (l : list Z) : Z := foldl (fun a c => a * base + digit_val c) 0 l.

Lemma value_snoc base l c : value base (l ++ [c]) = value base l * base + digit_val c.
Proof. unfold value. by rewrite foldl_app. Qed.

Lemma digit_val_char d : 0 <= d < 16 -> digit_val (digit_char d) = d.
Proof.
  intros. unfold digit_val, digit_char. destruct (Z.ltb_spec d 10).
  - destruct (Z.leb_spec (48 + d) 57); lia.
  - destruct (Z.leb_spec (97 + d - 10) 57); lia.
Qed.

(** The digits of a number that fits in the buffer: there are at least one and
    no leading zero, except for 0 itself, and they denote the number. *)
Lemma format_digits_spec base fuel val acc :
  2 <= base <= 16 -> 0 <= val < base ^ Z.of_nat fuel -> (0 < fuel)%nat ->
  exists ds, format_digits fuel val base acc = Some (ds ++ acc) /\
    (0 < length ds <= fuel)%nat /\ value base ds = val /\
    Forall (fun c => exists d, 0 <= d < base /\ c = digit_char d) ds /\
    (head ds = Some 48 -> val = 0).
Proof.
  intros Hb. revert val acc. induction fuel as [|fuel IH]; intros val acc Hv Hf; [lia|].
  cbn [format_digits]. fold (digit_char (val mod base)).
  assert (Hm : 0 <= val mod base < base) by (apply Z.mod_pos_bound; lia).
  assert (Hdm : val = base * (val / base) + val mod base) by (apply Z.div_mod; lia).
  assert (H0 : 0 <= val / base) by (apply Z.div_pos; lia).
  assert (Hone : Forall (fun c => exists d, 0 <= d < base /\ c = digit_char d)
                   [digit_char (val mod base)]) by (constructor; eauto).
  destruct (Z.eqb_spec (val / base) 0) as [E|Hne].
  - exists [digit_char (val mod base)]. split_and!; try done; simpl; try lia.
    + unfold value. simpl. rewrite digit_val_char by lia. lia.
    + intros [= Eh]. apply (f_equal digit_val) in Eh. rewrite digit_val_char in Eh by lia.
      change (digit_val 48) with 0 in Eh. lia.
  - destruct fuel as [|fuel]; [change (base ^ Z.of_nat 1) with (base ^ 1) in Hv; nia|].
    destruct (IH (val / base) (digit_char (val mod base) :: acc)) as (ds & E & Hl & Ev & Hd & Hz).
    + rewrite Nat2Z.inj_succ, Z.pow_succ_r in Hv by lia. split; [done|].
      apply Z.div_lt_upper_bound; lia.
    + lia.
    + exists (ds ++ [digit_char (val mod base)]). rewrite E, <- app_assoc.
      split_and!; try done.
      * rewrite length_app. simpl. lia.
      * rewrite length_app. simpl. lia.
      * rewrite value_snoc, Ev, digit_val_char by lia. lia.
      * by apply Forall_app.
      * destruct ds as [|c ds]; [simpl in Hl; lia|]. intros Hh. exfalso. auto.
Qed.

Lemma format_digits_40 base val :
  base = 10 \/ base = 16 -> 0 <= val < 2 ^ 64 ->
  exists ds, format_digits 40 val base [] = Some ds /\
    (0 < length ds <= 20)%nat /\ value base ds = val /\
    Forall (fun c => exists d, 0 <= d < base /\ c = digit_char d) ds /\
    (head ds = Some 48 -> val = 0).
Proof.
  intros Hb Hv. destruct (format_digits_spec base 20 val []) as (ds & E & Hl & Ev & Hd & Hz).
  - lia.
  - split; [lia|]. apply (Z.lt_le_trans _ (2 ^ 64)); [lia|].
    destruct Hb as [->| ->]; vm_compute; discriminate.
  - lia.
  - exists ds. rewrite app_nil_r in E.
    split_and!; [|lia|lia|done|done|done].
    assert (G : forall f k v l r, format_digits f v base l = Some r ->
                format_digits (f + k) v base l = Some r).
    { induction f as [|f IH]; intros k v l r; [done|]. cbn [format_digits Nat.add].
      destruct (v / base =? 0); [done|]. apply IH. }
    apply (G 20%nat 20%nat). exact E.
Qed.

Lemma format_pad_emit {St} (putcfn : Z -> St -> St) ndig (zpad : bool) len aux n :
  let pad := repeat (if zpad then 48 else 32) (len - ndig) in
  format_pad putcfn ndig zpad len aux n = (n + Z.of_nat (length pad), emit putcfn pad aux).
Proof.
  cbn zeta. revert aux n. induction len as [|len IH]; intros aux n; cbn [format_pad].
  - simpl. by rewrite Z.add_0_r.
  - destruct (Nat.ltb_spec ndig (S len)) as [Hlt|Hge].
    + rewrite IH. replace (S len - ndig)%nat with (S (len - ndig)) by lia.
      cbn [repeat emit foldl length]. f_equal. lia.
    + replace (S len - ndig)%nat with 0%nat by lia. simpl. by rewrite Z.add_0_r.
Qed.

Lemma format_chars_emit {St} (putcfn : Z -> St -> St) buf aux n :
  format_chars putcfn buf aux n = (n + Z.of_nat (length buf), emit putcfn buf aux).
Proof.
  revert aux n. induction buf as [|c buf IH]; intros aux n; cbn [format_chars].
  - simpl. by rewrite Z.add_0_r.
  - rewrite IH. cbn [length emit foldl]. f_equal. lia.
Qed.

(** C27. Formatting an integer and reading it back: for any 64-bit value in
    decimal or hexadecimal, [format_int] stays inside its 40-byte buffer, writes
    the padding the width asks for followed by the digits, and returns the
    number of characters written; the digits denote the value in that base, and
    only 0 begins with a zero. *)
Theorem format_int_roundtrip {St : Type} (putcfn : Z -> St -> St) (aux : St) (val base : Z)
    (zpad : bool) (len : nat) (Hbase : base = 10 \/ base = 16) (Hval : 0 <= val < 2 ^ 64) :
  exists ds, let pad := repeat (if zpad then 48 else 32) (len - length ds) in
    format_int putcfn aux val base zpad len
      = Some (Z.of_nat (length (pad ++ ds)), emit putcfn (pad ++ ds) aux) /\
    (length ds <= 40)%nat /\ value base ds = val /\
    Forall (fun c => exists d, 0 <= d < base /\ c = digit_char d) ds /\
    (head ds = Some 48 -> val = 0).
Proof.
  destruct (format_digits_40 base val Hbase Hval) as (ds & E & Hl & Ev & Hd & Hz).
  exists ds. cbn zeta. split_and!; try done; [|lia].
  unfold format_int. rewrite E. cbn [mbind option_bind].
  rewrite format_pad_emit, format_chars_emit. unfold emit. rewrite foldl_app, length_app.
  do 2 f_equal. lia.
Qed.

Lemma format_int_roundtrip_witness :
  exists ds, value 16 ds = 48879 /\
    format_int (fun c l => l ++ [c]) [] 48879 16 true 8
    = Some (8, [48; 48; 48; 48; 98; 101; 101; 102]).
Proof.
  destruct (format_int_roundtrip (fun c l => l ++ [c]) [] 48879 16 true 8)
    as (ds & _ & _ & Ev & _); [by right|lia|].
  exists ds. split; [exact Ev|reflexivity].
Defined.

(** ** Which calls are well formed *)

(** The arguments fit the format: an integer for each of d, u, x and p, and a
    terminated string or NULL for each s.  The function follows the format the
    way [vgprintf] does. *)
Definition arg_fits (c : Z) (ap : list va) : option (list va) :=
  if (c =? 100) || (c =? 117) || (c =? 120) || (c =? 112) then
    match ap with VInt _ :: ap' => Some ap' | _ => None end
  else if c =? 115 then
    match ap with
    | VStr None :: ap' => Some ap'
    | VStr (Some s) :: ap' => if bool_decide (0 ∈ s) then Some ap' else None
    | _ => None
    end
  else Some ap.

Fixpoint fits (fuel : nat) (p : list Z) (ap : list va) : bool :=
  match fuel with
  | O => false
  | S fuel' =>
      match p with
      | [] => false
      | c :: p1 =>
          if c =? 0 then true
          else if c =? 37 then
            match (parse_prefix (parse_width p1 0).2).2 with
            | [] => false
            | conv :: p4 =>
                match arg_fits conv ap with
                | Some ap' => fits fuel' (if conv =? 0 then conv :: p4 else p4) ap'
                | None => false
                end
            end
          else fits fuel' p1 ap
      end
  end.

Definition args_ok (fmt : list Z) (ap : list va) : bool := fits (length fmt) fmt ap.

Lemma format_str_total {St} (putcfn : Z -> St -> St) aux s len :
  match s with Some l => 0 ∈ l | None => True end -> is_Some (format_str putcfn aux s len).
Proof.
  assert (Hc : forall l aux n, 0 ∈ l -> is_Some (format_str_chars putcfn l aux n)).
  { induction l as [|c l IH]; intros aux' n Hin; [by apply not_elem_of_nil in Hin|].
    cbn [format_str_chars]. destruct (Z.eqb_spec c 0); [done|]. apply IH. set_solver. }
  intros Hs. unfold format_str.
  destruct (Hc (default null_text s) aux 0) as [[n a] E].
  { destruct s; [done|]. apply (bool_decide_unpack _). by vm_compute. }
  rewrite E. simpl. by casesplit.
Qed.

Lemma format_int_total {St} (putcfn : Z -> St -> St) aux val base zpad len :
  base = 10 \/ base = 16 -> 0 <= val < 2 ^ 64 -> is_Some (format_int putcfn aux val base zpad len).
Proof.
  intros Hb Hv. destruct (format_digits_40 base val Hb Hv) as (ds & E & _).
  unfold format_int. rewrite E. cbn [mbind option_bind]. by destruct (format_pad _ _ _ _ _ _).
Qed.

Lemma conversion_total {St} (putcfn : Z -> St -> St) c lcnt zpad len ap aux ap' :
  arg_fits c ap = Some ap' ->
  exists n aux', conversion putcfn c lcnt zpad len ap aux = Some (n, aux', ap').
Proof.
  unfold arg_fits, conversion. pose proof (fun z => u64_range z) as Hu.
  change (18446744073709551616) with (2 ^ 64) in Hu.
  destruct (Z.eqb_spec c 100) as [->|_]; simpl.
  { destruct ap as [|[w|s] ap]; try done. intros [= <-]. casesplit.
    - destruct (format_int_total putcfn (putcfn 45 aux) (u64 (s64 (- arg_signed lcnt w))) 10 zpad
        (pred (Z.to_nat len))) as [[k a] E]; [by left|apply Hu|]. rewrite E. simpl. eauto.
    - destruct (format_int_total putcfn aux (u64 (arg_signed lcnt w)) 10 zpad (Z.to_nat len))
        as [[k a] E]; [by left|apply Hu|]. rewrite E. simpl. eauto. }
  destruct ((c =? 117) || (c =? 120)) eqn:Eux; simpl.
  { destruct ap as [|[w|s] ap]; try done. intros [= <-].
    destruct (format_int_total putcfn aux (u64 (arg_unsigned lcnt w)) (if c =? 120 then 16 else 10)
      zpad (Z.to_nat len)) as [[k a] E]; [casesplit; [by right|by left]|apply Hu|].
    rewrite E. simpl. eauto. }
  destruct (Z.eqb_spec c 112) as [->|_]; cbn -[format_str format_int].
  { destruct ap as [|[w|s] ap]; try done. intros [= <-].
    destruct (format_int_total putcfn (putcfn 120 (putcfn 48 aux)) (u64 w) 16 zpad (Z.to_nat len)) as [[n2 a2] E2];
      [by right|apply Hu|]. rewrite E2. simpl. eauto. }
  destruct (Z.eqb_spec c 115) as [->|_].
  { destruct ap as [|[w|[s|]] ap]; try done.
    - destruct (bool_decide_reflect (0 ∈ s)) as [Hs|]; [|done]. intros [= <-].
      destruct (format_str_total putcfn aux (Some s) (Z.to_nat len) Hs) as [[k a] E].
      rewrite E. simpl. eauto.
    - intros [= <-].
      destruct (format_str_total putcfn aux None (Z.to_nat len) I) as [[k a] E].
      rewrite E. simpl. eauto. }
  intros [= <-]. eauto.
Qed.

Lemma vgprintf_total {St} (putcfn : Z -> St -> St) aux fmt ap :
  args_ok fmt ap = true -> is_Some (vgprintf putcfn aux fmt ap).
Proof.
  unfold args_ok, vgprintf. generalize (length fmt) as fuel. intros fuel. generalize 0 as nout.
  revert fmt ap aux. induction fuel as [|fuel IH]; intros p ap aux nout; [done|].
  cbn [fits vgprintf_loop]. destruct p as [|c p]; [done|]. casesplit; [by eexists|].
  casesplit; [|apply IH].
  destruct (parse_width p 0) as [len q]. simpl. destruct (parse_prefix q) as [lcnt [|conv q']];
    [done|]. simpl. destruct (arg_fits conv ap) as [ap'|] eqn:Ef; [|done].
  destruct (conversion_total putcfn conv lcnt
    (match p with c1 :: _ => c1 =? 48 | [] => false end) len ap aux ap' Ef) as (n & a & E).
  rewrite E. simpl. apply IH.
Qed.

(** ** Output to a buffer *)

Lemma splice_take_S (buf out : list Z) (k : nat) c :
  (k < length buf)%nat -> length out = k ->
  <[k := c]> (splice 0 out buf) = splice 0 (out ++ [c]) buf.
Proof.
  intros Hk Ho. apply list_eq. intros i.
  destruct (decide (i = k)) as [->|Hne].
  - rewrite list_lookup_insert_eq by (rewrite splice_length; lia).
    rewrite splice_lookup_in by (rewrite length_app; simpl; lia).
    rewrite lookup_app_r by lia. by replace (k - 0 - length out)%nat with 0%nat by lia.
  - rewrite list_lookup_insert_ne by done.
    destruct (decide (i < k)%nat).
    + rewrite !splice_lookup_in by (rewrite ?length_app; simpl; lia).
      by rewrite lookup_app_l by lia.
    + by rewrite !splice_lookup_out by (rewrite ?length_app; simpl; lia).
Qed.

(** What writing a text through [vsnprintf_putc] leaves in the buffer. *)
Lemma emit_vsnprintf buf bufsz out :
  0 < bufsz <= Z.of_nat (length buf) ->
  let k := Nat.min (length out) (Z.to_nat (bufsz - 1)) in
  emit vsnprintf_putc out (mkVs buf 0 bufsz)
  = mkVs (splice 0 (take k out) buf) k (bufsz - Z.of_nat k).
Proof.
  intros Hb. induction out as [|c out IH] using rev_ind.
  - cbn. rewrite splice_nil by lia. f_equal. lia.
  - cbn zeta in *. unfold emit in *. rewrite foldl_app, IH. cbn [foldl].
    unfold vsnprintf_putc. cbn [vs_rem vs_pos vs_buf]. rewrite length_app. cbn [length].
    destruct (Z.leb_spec (bufsz - Z.of_nat (length out `min` Z.to_nat (bufsz - 1))) 1) as [Hf|Hr].
    + assert (Hge : (Z.to_nat (bufsz - 1) <= length out)%nat) by lia.
      replace (Nat.min (length out) _) with (Z.to_nat (bufsz - 1)) by lia.
      replace (Nat.min (length out + 1) _) with (Z.to_nat (bufsz - 1)) by lia.
      by rewrite take_app_le by lia.
    + assert (Hlt : (length out < Z.to_nat (bufsz - 1))%nat) by lia.
      rewrite (Nat.min_l (length out)), (Nat.min_l (length out + 1)) by lia.
      rewrite take_ge, take_ge by (rewrite ?length_app; simpl; lia).
      rewrite splice_take_S by lia. f_equal; lia.
Qed.

(** What [vsnprintf] leaves in the buffer, for the text of the format. *)
Lemma vsnprintf_text (buf : list Z) (bufsz : Z) (fmt : list Z) (ap : list va) (out : list Z) :
  printed fmt ap = Some out -> 0 <= bufsz <= Z.of_nat (length buf) ->
  vsnprintf buf bufsz fmt ap
  = Some (Z.of_nat (length out), if bufsz =? 0 then buf else splice 0 (take (Z.to_nat (bufsz - 1)) out ++ [0]) buf).
Proof.
  intros Ep Hbuf. unfold vsnprintf. rewrite vgprintf_emit, Ep. cbn [fmap option_fmap option_map mbind option_bind].
  destruct (Z.eqb_spec bufsz 0) as [->|Hne].
  - replace (emit vsnprintf_putc out (mkVs buf 0 0)) with (mkVs buf 0 0); [done|].
    clear. induction out as [|c out IH]; [done|]. exact IH.
  - rewrite emit_vsnprintf by lia. cbn [vs_rem vs_pos vs_buf].
    destruct (Z.eqb_spec (bufsz - Z.of_nat (length out `min` Z.to_nat (bufsz - 1))) 0); [lia|].
    cbn [negb]. do 2 f_equal. rewrite splice_take_S; [|lia|rewrite length_take; lia].
    do 2 f_equal. destruct (decide (length out <= Z.to_nat (bufsz - 1))%nat).
    + rewrite !take_ge by lia. done.
    + f_equal. lia.
Qed.

(** C28. [snprintf] truncates: for a format whose arguments fit, there is a text
    (the same for every output sink) such that [vsnprintf] returns its length,
    whatever the size of the buffer, and leaves in the buffer as much of the
    text as fits before a NUL, writing nothing beyond its size; with size 0 the
    buffer is untouched. *)
Theorem vsnprintf_truncates (buf : list Z) (bufsz : Z) (fmt : list Z) (ap : list va)
    (Hfit : args_ok fmt ap = true) (Hbuf : 0 <= bufsz <= Z.of_nat (length buf)) :
  exists out,
    (forall (St : Type) (putcfn : Z -> St -> St) (aux : St),
       vgprintf putcfn aux fmt ap = Some (Z.of_nat (length out), emit putcfn out aux)) /\
    vsnprintf buf bufsz fmt ap
    = Some (Z.of_nat (length out),
            if bufsz =? 0 then buf else splice 0 (take (Z.to_nat (bufsz - 1)) out ++ [0]) buf).
Proof.
  destruct (vgprintf_total (fun c l => l ++ [c]) [] fmt ap Hfit) as [[n out] E].
  assert (Ep : printed fmt ap = Some out) by (unfold printed; by rewrite E).
  exists out. split; [intros; by rewrite vgprintf_emit, Ep|]. by apply vsnprintf_text.
Qed.

Lemma vsnprintf_truncates_witness :
  exists out : list Z,
    vsnprintf [1; 1; 1; 1; 1] 4 [37; 100; 37; 115; 0] [VInt 42; VStr None]
      = Some (Z.of_nat (length out), splice 0 (take 3 out ++ [0]) [1; 1; 1; 1; 1]) /\
    vsnprintf [1; 1; 1; 1; 1] 4 [37; 100; 37; 115; 0] [VInt 42; VStr None]
      = Some (8, [52; 50; 40; 0; 1]).
Proof.
  destruct (vsnprintf_truncates [1; 1; 1; 1; 1] 4 [37; 100; 37; 115; 0] [VInt 42; VStr None])
    as (out & _ & E); [reflexivity|simpl; lia|].
  exists out. split; [exact E|reflexivity].
Defined.

(** ** Comparison *)

(** The order of strings: lexicographic, a proper prefix first. *)
Fixpoint str_compare (a b : list Z) : comparison :=
  match a, b with
  | [], [] => Eq
  | [], _ :: _ => Lt
  | _ :: _, [] => Gt
  | x :: a', y :: b' => match x ?= y with Eq => str_compare a' b' | c => c end
  end.

Lemma str_compare_eq a b : str_compare a b = Eq <-> a = b.
Proof.
  revert b. induction a as [|x a IH]; intros [|y b]; simpl; try done.
  destruct (Z.compare_spec x y) as [->|H|H].
  - rewrite IH. split; congruence.
  - split; [done|]. intros [= -> _]. lia.
  - split; [done|]. intros [= -> _]. lia.
Qed.

Definition sign (c : comparison) : Z := match c with Lt => -1 | Eq => 0 | Gt => 1 end.

Lemma terminated_cons c s : terminated (c :: s) -> c <> 0 -> terminated s.
Proof. unfold terminated. set_solver. Qed.

Lemma strcmp_chars_spec s1 s2 :
  terminated s1 -> terminated s2 -> Forall (fun c => 0 <= c) s1 -> Forall (fun c => 0 <= c) s2 ->
  strcmp_chars s1 s2 = Some (sign (str_compare (cstr s1) (cstr s2))).
Proof.
  intros H1 H2 Hb1. revert s2 H2. induction s1 as [|c1 s1 IH]; intros s2 H2 Hb2;
    [by apply not_elem_of_nil in H1|].
  destruct s2 as [|c2 s2]; [by apply not_elem_of_nil in H2|].
  apply Forall_cons in Hb1 as [Hc1 Hb1]. apply Forall_cons in Hb2 as [Hc2 Hb2].
  simpl. destruct (Z.eqb_spec c1 c2) as [->|Hne]; simpl.
  - destruct (Z.eqb_spec c2 0) as [->|Hz]; simpl; [done|].
    rewrite Z.compare_refl. apply IH; try done; by eapply terminated_cons.
  - destruct (Z.eqb_spec c1 0), (Z.eqb_spec c2 0); simpl;
      destruct (Z.ltb_spec c1 c2), (Z.ltb_spec c2 c1); try lia; try done;
      destruct (Z.compare_spec c1 c2); try lia; done.
Qed.

Lemma sign_0 a b : sign (str_compare a b) = 0 <-> a = b.
Proof. rewrite <- str_compare_eq. by destruct (str_compare a b). Qed.

(** [strcmp] orders strings: on terminated strings it returns -1, 0 or 1,
    the comparison of the two strings in lexicographic order, reading nothing
    after either terminator; in particular 0 exactly for equal strings.  NULL
    comes before every string. *)
Theorem strcmp_spec (s1 s2 : list Z) (H1 : terminated s1) (H2 : terminated s2)
    (Hb1 : Forall (fun c => 0 <= c) s1) (Hb2 : Forall (fun c => 0 <= c) s2) :
  strcmp (Some s1) (Some s2) = Some (sign (str_compare (cstr s1) (cstr s2))) /\
  (strcmp (Some s1) (Some s2) = Some 0 <-> cstr s1 = cstr s2) /\
  strcmp None (Some s2) = Some (-1) /\ strcmp (Some s1) None = Some 1 /\ strcmp None None = Some 0.
Proof.
  assert (E := strcmp_chars_spec s1 s2 H1 H2 Hb1 Hb2 : strcmp (Some s1) (Some s2) = _).
  split_and!; try done. rewrite E, <- sign_0. split; [congruence|by intros ->].
Qed.

Lemma strcmp_spec_witness :
  strcmp (Some [104; 105; 0]) (Some [104; 111; 0]) = Some (-1).
Proof.
  rewrite (proj1 (strcmp_spec [104; 105; 0] [104; 111; 0]
    ltac:(apply (bool_decide_unpack _); by vm_compute)
    ltac:(apply (bool_decide_unpack _); by vm_compute)
    ltac:(repeat constructor; lia) ltac:(repeat constructor; lia))).
  reflexivity.
Defined.

(** ** Copying *)

Lemma cstr_length s : terminated s -> (length (cstr s) < length s)%nat.
Proof.
  induction s as [|c s IH]; intros H; [by apply not_elem_of_nil in H|]. simpl.
  destruct (Z.eqb_spec c 0); simpl; [lia|]. apply terminated_cons in H; [|done].
  specialize (IH H). lia.
Qed.

Lemma cstr_fixed a r : Forall (fun c => c <> 0) a -> cstr (a ++ 0 :: r) = a.
Proof.
  induction 1 as [|c a Hc Ha IH]; [done|]. simpl. destruct (Z.eqb_spec c 0); [done|]. by rewrite IH.
Qed.

Lemma cstr_nonzero s : Forall (fun c => c <> 0) (cstr s).
Proof.
  induction s as [|c s IH]; simpl; [constructor|]. destruct (Z.eqb_spec c 0); by constructor.
Qed.

Lemma splice_0_cons (d l : list Z) c x : splice 0 (c :: d) (x :: l) = c :: splice 0 d l.
Proof. done. Qed.

Lemma strncpy_run dst src n :
  terminated src -> (Nat.min n (S (length (cstr src))) <= length dst)%nat ->
  strncpy dst src n = Some (splice 0 (take n (cstr src ++ [0])) dst).
Proof.
  revert dst src. induction n as [|n IH]; intros dst src Ht Hl.
  - rewrite ?take_0. cbn [repeat]. by rewrite splice_nil by lia.
  - destruct src as [|c src]; [by apply not_elem_of_nil in Ht|].
    destruct dst as [|x dst]; [simpl in Hl; lia|]. cbn [strncpy cstr].
    cbn [cstr] in Hl. destruct (Z.eqb_spec c 0) as [->|Hc]; simpl in *.
    + by rewrite firstn_nil.
    + apply terminated_cons in Ht; [|done]. rewrite IH; [done|done|]. lia.
Qed.

Lemma strncat_copy_run dst src n :
  terminated src -> (length (take n (cstr src)) < length dst)%nat ->
  strncat_copy dst src n = Some (splice 0 (take n (cstr src) ++ [0]) dst).
Proof.
  revert dst src. induction n as [|n IH]; intros dst src Ht Hl;
    (destruct dst as [|x dst]; [simpl in Hl; lia|]); [done|].
  destruct src as [|c src]; [by apply not_elem_of_nil in Ht|]. cbn [strncat_copy cstr].
  cbn [cstr] in Hl. destruct (Z.eqb_spec c 0) as [->|Hc]; simpl in *; [done|].
  apply terminated_cons in Ht; [|done]. rewrite IH; [done|done|]. lia.
Qed.

Lemma strncat_run dst src n :
  terminated dst -> terminated src ->
  (length (cstr dst) + length (take n (cstr src)) < length dst)%nat ->
  strncat dst src n = Some (cstr dst ++ splice 0 (take n (cstr src) ++ [0]) (drop (length (cstr dst)) dst)).
Proof.
  intros Hd Hs. induction dst as [|c dst IH]; intros Hl; [by apply not_elem_of_nil in Hd|].
  cbn [strncat cstr]. cbn [cstr] in Hl. destruct (Z.eqb_spec c 0) as [->|Hc]; cbn [negb].
  - rewrite strncat_copy_run by (done || simpl in *; lia). done.
  - apply terminated_cons in Hd; [|done]. rewrite IH by (done || simpl in *; lia). done.
Qed.

(** The bounded string copies.  For terminated strings and a destination
    with room, [strncpy] writes the first [n] characters of the source and its
    terminator and nothing else: in particular the terminator only when it
    fits in [n], and no padding after it; [strncat] appends at most [n]
    characters and always terminates, so that the destination then holds the
    concatenation. *)
Theorem bounded_copies (dst src : list Z) (n : nat) (Hd : terminated dst) (Hs : terminated src)
    (Hcpy : (Nat.min n (S (length (cstr src))) <= length dst)%nat)
    (Hcat : (length (cstr dst) + length (take n (cstr src)) < length dst)%nat) :
  strncpy dst src n = Some (splice 0 (take n (cstr src ++ [0])) dst) /\
  (exists d', strncat dst src n = Some d' /\ length d' = length dst /\
     cstr d' = cstr dst ++ take n (cstr src)).
Proof.
  split; [by apply strncpy_run|].
  eexists. split; [by apply strncat_run|]. split.
  - rewrite length_app, splice_length; rewrite ?length_app, ?length_drop; simpl; lia.
  - unfold splice. simpl. rewrite <- app_assoc. simpl. rewrite app_assoc.
    apply cstr_fixed. apply Forall_app. split; [apply cstr_nonzero|].
    apply Forall_take, cstr_nonzero.
Qed.

Lemma bounded_copies_witness :
  strncpy [97; 0; 9; 9; 9] [98; 99; 0] 3 = Some [98; 99; 0; 9; 9] /\
  exists d', strncat [97; 0; 9; 9; 9] [98; 99; 0] 3 = Some d' /\ cstr d' = [97; 98; 99].
Proof.
  destruct (bounded_copies [97; 0; 9; 9; 9] [98; 99; 0] 3) as [E (d' & E' & _ & Ec)].
  - apply (bool_decide_unpack _). by vm_compute.
  - apply (bool_decide_unpack _). by vm_compute.
  - simpl. lia.
  - simpl. lia.
  - split; [exact E|]. exists d'. split; [exact E'|exact Ec].
Defined.

Lemma memcpy_run dst src n :
  (n <= length dst)%nat -> (n <= length src)%nat ->
  memcpy dst src n = Some (splice 0 (take n src) dst).
Proof.
  revert dst src. induction n as [|n IH]; intros dst src Hd Hs.
  - rewrite ?take_0. cbn [repeat]. by rewrite splice_nil by lia.
  - destruct dst as [|x dst]; [simpl in Hd; lia|]. destruct src as [|c src]; [simpl in Hs; lia|].
    cbn [memcpy]. rewrite IH by (simpl in *; lia). done.
Qed.

Lemma memset_run s c n :
  (n <= length s)%nat -> memset s c n = Some (splice 0 (repeat (u8 c) n) s).
Proof.
  revert s. induction n as [|n IH]; intros s Hs.
  - rewrite ?take_0. cbn [repeat]. by rewrite splice_nil by lia.
  - destruct s as [|x s]; [simpl in Hs; lia|]. cbn [memset]. by rewrite IH by (simpl in *; lia).
Qed.

Lemma memcmp_eq p1 p2 n :
  (n <= length p1)%nat -> (n <= length p2)%nat ->
  exists r, memcmp p1 p2 n = Some r /\ (r = 0 <-> take n p1 = take n p2).
Proof.
  revert p1 p2. induction n as [|n IH]; intros p1 p2 H1 H2; [by exists 0|].
  destruct p1 as [|a p1]; [simpl in H1; lia|]. destruct p2 as [|b p2]; [simpl in H2; lia|].
  cbn [memcmp]. destruct (Z.eqb_spec a b) as [->|Hne]; simpl.
  - destruct (IH p1 p2) as (r & E & Hr); [simpl in *; lia..|]. exists r. split; [done|].
    rewrite Hr. split; congruence.
  - exists (a - b). split; [done|]. split; [lia|]. intros [= -> _]. lia.
Qed.
