(* ===== verification/Io.v ===== *)
(** io.h and io.c: the abstract I/O interface, memory-backed I/O objects
    (io_lit) and the terminal (io_term).

    [io_ops D] is [struct io_ops] for objects whose state has type [D]: the
    pointer to the object is the state the operations run on.  A read returns
    its result and the bytes it stored at the start of the buffer; a write gets
    the bytes of the buffer; the argument of [ctl] is the 64-bit object its
    pointer points to.  [Source], [Sink] and [Terminal] are the contract the
    comments of io.h state for these operations; the theorems about the
    functions that use an I/O object are proved against it. *)

From S2P Require Import Prelude CString.

(** ** Error codes (error.h) and commands (io.h) *)

Definition EINVAL : Z := 1.
Definition EBUSY : Z := 2.
Definition ENOTSUP : Z := 3.
Definition EIO : Z := 5.
Definition EBADFMT : Z := 6.
Definition ENOENT : Z := 7.
Definition EFILESYS : Z := 8.
Definition EBADFD : Z := 9.
Definition EMFILE : Z := 10.

Definition IOCTL_GETLEN : Z := 1.
Definition IOCTL_SETLEN : Z := 2.
Definition IOCTL_GETPOS : Z := 3.
Definition IOCTL_SETPOS : Z := 4.
Definition IOCTL_FLUSH : Z := 5.
Definition IOCTL_GETBLKSZ : Z := 6.
Definition FS_BLKSZ : Z := 4096.

(** Reading and writing the low 32 bits of a 64-bit object, as [*(int* )arg]
    does. *)
Definition get_int (arg : Z) : Z := s32 arg.
Definition set_int (arg v : Z) : Z := arg / 4294967296 * 4294967296 + u32 v.

(** ** The interface *)

Record io_ops (D : Type) := mkOps {
  op_close : option (M D unit);
  op_read : option (Z -> M D (Z * list Z));
  op_write : option (list Z -> M D Z);
  op_ctl : option (Z -> Z -> M D (Z * Z))
}.
Arguments mkOps {D}.
Arguments op_close {D}.
Arguments op_read {D}.
Arguments op_write {D}.
Arguments op_ctl {D}.

Definition ioref (refcnt : Z) : Z * Z := let r := u32 (refcnt + 1) in (r, r).

Section Calls.
Context {D : Type} (ops : io_ops D).

Definition ioclose : M D unit :=
  match op_close ops with Some f => f | None => mret tt end.

Definition ioread (bufsz : Z) : M D (Z * list Z) :=
  match op_read ops with Some f => f bufsz | None => mret (- ENOTSUP, []) end.

Definition ioctl (cmd arg : Z) : M D (Z * Z) :=
  match op_ctl ops with Some f => f cmd arg | None => mret (- ENOTSUP, arg) end.

Definition ioseek (pos : Z) : M D Z := r ← ioctl IOCTL_SETPOS pos; mret r.1.

(** The loop of [ioread_full]; [got] is what the buffer holds so far, [fuel]
    bounds the rounds (each adds at least one byte). *)
Fixpoint ioread_full_loop (fuel : nat) (f : Z -> M D (Z * list Z)) (bufsz acc : Z)
    (got : list Z) : M D (Z * list Z) :=
  if acc <? bufsz then
    match fuel with
    | O => fun _ => Fuel
    | S fuel' =>
        r ← f (bufsz - acc);
        let '(cnt, bs) := r in
        if cnt <? 0 then mret (cnt, got)
        else if cnt =? 0 then mret (acc, got)
        else ioread_full_loop fuel' f bufsz (acc + cnt) (got ++ bs)
    end
  else mret (acc, got).

Definition ioread_full (bufsz : Z) : M D (Z * list Z) :=
  match op_read ops with
  | None => mret (- ENOTSUP, [])
  | Some f => ioread_full_loop (Z.to_nat bufsz) f bufsz 0 []
  end.

Fixpoint iowrite_loop (fuel : nat) (f : list Z -> M D Z) (buf : list Z) (acc : Z) : M D Z :=
  if acc <? Z.of_nat (length buf) then
    match fuel with
    | O => fun _ => Fuel
    | S fuel' =>
        cnt ← f (drop (Z.to_nat acc) buf);
        if cnt <? 0 then mret cnt
        else if cnt =? 0 then mret acc
        else iowrite_loop fuel' f buf (acc + cnt)
    end
  else mret acc.

Definition iowrite (buf : list Z) : M D Z :=
  match op_write ops with
  | None => mret (- ENOTSUP)
  | Some f => iowrite_loop (length buf) f buf 0
  end.

Definition ioputc (c : Z) : M D Z :=
  wlen ← iowrite [c];
  if wlen <? 0 then mret wlen else if wlen =? 0 then mret (- EIO) else mret (u8 c).

Definition iogetc : M D Z :=
  r ← ioread 1;
  let '(rlen, bs) := r in
  if rlen <? 0 then mret rlen else if rlen =? 0 then mret (- EIO)
  else match bs with c :: _ => mret (u8 c) | [] => undef "uninitialised character" end.

Definition ioputs (s : list Z) : M D Z :=
  match strlen s with
  | None => undef "unterminated string"
  | Some slen =>
      wlen ← iowrite (take (Z.to_nat slen) s);
      if wlen <? 0 then mret wlen
      else
        wlen' ← iowrite [10];
        if wlen' <? 0 then mret wlen' else mret 0
  end.

(** [struct iovprintf_state] is the error so far with the object; a run that
    does not return stays so. *)
Definition iovprintf_putc (c : Z) (state : outcome (Z * D)) : outcome (Z * D) :=
  obind state (fun '(err, d) =>
    if err =? 0 then
      obind (ioputc c d) (fun '(result, d') => Ok (if result <? 0 then result else 0, d'))
    else Ok (err, d)).

Definition iovprintf (fmt : list Z) (ap : list va) : M D Z := fun d =>
  match vgprintf iovprintf_putc (Ok (0, d)) fmt ap with
  | None => Undef "format and arguments"
  | Some (nout, state) =>
      obind state (fun '(err, d') => Ok (if negb (err =? 0) then err else nout, d'))
  end.

Definition ioprintf (fmt : list Z) (ap : list va) : M D Z := iovprintf fmt ap.
End Calls.

(** ** Memory-backed objects *)

Record io_lit := mkLit { lit_buf : list Z; lit_size : Z; lit_pos : Z }.

Definition iolit_close : M io_lit unit := mret tt.

Definition iolit_write (buf : list Z) : M io_lit Z :=
  lit ← get;
  let bufsz := Z.of_nat (length buf) in
  if u64 (lit_size lit - lit_pos lit) <? bufsz then mret (- EFILESYS)
  else
    match memcpy (drop (Z.to_nat (lit_pos lit)) (lit_buf lit)) buf (length buf) with
    | None => undef "memcpy"
    | Some d =>
        put (mkLit (take (Z.to_nat (lit_pos lit)) (lit_buf lit) ++ d) (lit_size lit) (lit_pos lit)) ;;
        mret bufsz
    end.

Definition iolit_read (bufsz : Z) : M io_lit (Z * list Z) :=
  lit ← get;
  if u64 (lit_size lit - lit_pos lit) <? bufsz then mret (- EFILESYS, [])
  else
    match memcpy (repeat 0 (Z.to_nat bufsz)) (drop (Z.to_nat (lit_pos lit)) (lit_buf lit))
            (Z.to_nat bufsz) with
    | None => undef "memcpy"
    | Some bs => mret (bufsz, bs)
    end.

Definition iolit_ctl (cmd arg : Z) : M io_lit (Z * Z) :=
  lit ← get;
  if cmd =? IOCTL_GETBLKSZ then mret (FS_BLKSZ, arg)
  else if cmd =? IOCTL_GETLEN then
    let arg' := set_int arg (lit_size lit) in mret (get_int arg', arg')
  else if cmd =? IOCTL_GETPOS then
    let arg' := set_int arg (lit_pos lit) in mret (get_int arg', arg')
  else if cmd =? IOCTL_SETPOS then
    put (mkLit (lit_buf lit) (lit_size lit) (u64 (get_int arg))) ;; mret (get_int arg, arg)
  else mret (- EFILESYS, arg).

Definition iolit_ops : io_ops io_lit :=
  mkOps (Some iolit_close) (Some iolit_read) (Some iolit_write) (Some iolit_ctl).

Definition iolit_init (buf : list Z) (size : Z) : io_ops io_lit * io_lit :=
  (iolit_ops, mkLit buf size 0).

(** ** The terminal *)

Definition CR : Z := 13.
Definition NL : Z := 10.

(** [struct io_term]: the raw object and the two bits of state. *)
Record io_term (D : Type) := mkTerm { rawio : D; cr_out : bool; cr_in : bool }.
Arguments mkTerm {D}.
Arguments rawio {D}.
Arguments cr_out {D}.
Arguments cr_in {D}.

Definition ioterm_init {D} (raw : D) : io_term D := mkTerm raw false false.

Section Term.
Context {D : Type} (raw_ops : io_ops D).

(** A call on the raw object. *)
Definition on_raw {A} (m : M D A) : M (io_term D) A := fun iot =>
  obind (m (rawio iot)) (fun '(a, d) => Ok (a, mkTerm d (cr_out iot) (cr_in iot))).
Definition set_cr_out (b : bool) : M (io_term D) unit :=
  modify (fun iot => mkTerm (rawio iot) b (cr_in iot)).
Definition set_cr_in (b : bool) : M (io_term D) unit :=
  modify (fun iot => mkTerm (rawio iot) (cr_out iot) b).

Definition ioterm_close : M (io_term D) unit := on_raw (ioclose raw_ops).

(** The inner loop of [ioterm_read]: what is left of the buffer between the
    start and [wp] after the characters of [raw] have been scanned. *)
Fixpoint ioterm_scan (cr : bool) (raw : list Z) : bool * list Z :=
  match raw with
  | [] => (cr, [])
  | ch :: raw' =>
      if cr then
        if ch =? CR then let '(c, out) := ioterm_scan true raw' in (c, NL :: out)
        else if ch =? NL then ioterm_scan false raw'
        else let '(c, out) := ioterm_scan false raw' in (c, ch :: out)
      else
        if ch =? CR then let '(c, out) := ioterm_scan true raw' in (c, NL :: out)
        else let '(c, out) := ioterm_scan false raw' in (c, ch :: out)
  end.

(** The outer loop; [fuel] bounds the number of reads. *)
Fixpoint ioterm_read_loop (fuel : nat) (len : Z) : M (io_term D) (Z * list Z) :=
  match fuel with
  | O => fun _ => Fuel
  | S fuel' =>
      r ← on_raw (ioread raw_ops len);
      let '(cnt, bs) := r in
      if cnt <? 0 then mret (cnt, [])
      else
        iot ← get;
        let '(cr, out) := ioterm_scan (cr_in iot) (take (Z.to_nat cnt) bs) in
        set_cr_in cr ;;
        match out with
        | [] => ioterm_read_loop fuel' len
        | _ => mret (Z.of_nat (length out), out)
        end
  end.

Definition ioterm_read (fuel : nat) (len : Z) : M (io_term D) (Z * list Z) :=
  ioterm_read_loop fuel len.

(** The loop of [ioterm_write], with [rp] and [wp] as offsets into the buffer,
    and the draining of the buffer after it; [fuel] bounds the rounds. *)
Fixpoint ioterm_write_loop (fuel : nat) (buf : list Z) (rp wp : nat) (acc : Z)
    : M (io_term D) Z :=
  if (rp <? length buf)%nat then
    match fuel with
    | O => fun _ => Fuel
    | S fuel' =>
        let ch := nth rp buf 0 in
        let rp := S rp in
        if ch =? CR then
          if (rp <? length buf)%nat && (nth rp buf 0 =? NL) then
            set_cr_out false ;;
            ioterm_write_loop fuel' buf (S rp) wp acc
          else
            cnt ← on_raw (iowrite raw_ops (slice wp (rp - wp) buf));
            if cnt <? 0 then mret cnt
            else if cnt =? 0 then mret acc
            else
              let acc := acc + cnt in
              let wp := (wp + Z.to_nat cnt)%nat in
              cnt' ← on_raw (ioputc raw_ops NL);
              if cnt' <? 0 then mret cnt'
              else set_cr_out true ;; ioterm_write_loop fuel' buf rp wp acc
        else if ch =? NL then
          iot ← get;
          if cr_out iot then
            set_cr_out false ;; ioterm_write_loop fuel' buf rp (S wp) acc
          else
            let finish (wp : nat) (acc : Z) : M (io_term D) Z :=
              cnt ← on_raw (ioputc raw_ops CR);
              if cnt <? 0 then mret cnt
              else set_cr_out false ;; ioterm_write_loop fuel' buf rp wp acc in
            if negb (wp =? rp - 1)%nat then
              cnt ← on_raw (iowrite raw_ops (slice wp (rp - 1 - wp) buf));
              if cnt <? 0 then mret cnt
              else if cnt =? 0 then mret acc
              else finish (wp + Z.to_nat cnt)%nat (acc + cnt)
            else finish wp acc
        else
          set_cr_out false ;; ioterm_write_loop fuel' buf rp wp acc
    end
  else if negb (rp =? wp)%nat then
    cnt ← on_raw (iowrite raw_ops (slice wp (rp - wp) buf));
    if cnt <? 0 then mret cnt
    else if cnt =? 0 then mret acc
    else mret (acc + cnt)
  else mret acc.

Definition ioterm_write (buf : list Z) : M (io_term D) Z :=
  ioterm_write_loop (length buf) buf 0 0 0.

Definition ioterm_ioctl (cmd arg : Z) : M (io_term D) (Z * Z) :=
  if negb (cmd =? IOCTL_SETPOS) then on_raw (ioctl raw_ops cmd arg)
  else mret (- ENOTSUP, arg).

Definition ioterm_ops (fuel : nat) : io_ops (io_term D) :=
  mkOps (Some ioterm_close) (Some (ioterm_read fuel)) (Some ioterm_write) (Some ioterm_ioctl).

(** The characters [ioterm_getsn] writes to the raw object one after the
    other, stopping at the first error. *)
Fixpoint echo (cs : list Z) : M (io_term D) bool :=
  match cs with
  | [] => mret true
  | c :: cs' =>
      result ← on_raw (ioputc raw_ops c);
      if result <? 0 then mret false else echo cs'
  end.

(** [ioterm_getsn]: [buf] with the position [p] in it and the room [n];
    the result is NULL or the buffer.  [fuel] bounds the characters read. *)
Fixpoint ioterm_getsn_loop (fuel rfuel : nat) (buf : list Z) (p : nat) (n : Z)
    : M (io_term D) (option (list Z)) :=
  match fuel with
  | O => fun _ => Fuel
  | S fuel' =>
      r ← iogetc (ioterm_ops rfuel);
      let c := u8 r in
      if c =? 91 then (* '\133' *)
        set_cr_in false ;; ioterm_getsn_loop fuel' rfuel buf p n
      else if (c =? CR) || (c =? NL) then
        ok ← echo [CR; NL];
        if (ok : bool) then mret (Some (<[p := 0]> buf)) else mret None
      else if (c =? 8) || (c =? 127) then
        if negb (p =? 0)%nat then
          ok ← echo [8; 32; 8];
          if (ok : bool) then ioterm_getsn_loop fuel' rfuel buf (p - 1) (u64 (n + 1)) else mret None
        else
          ok ← echo [7];
          if (ok : bool) then ioterm_getsn_loop fuel' rfuel buf p n else mret None
      else if 1 <? n then
        ok ← echo [c];
        if (ok : bool) then ioterm_getsn_loop fuel' rfuel (<[p := c]> buf) (S p) (n - 1) else mret None
      else
        ok ← echo [7];
        if (ok : bool) then ioterm_getsn_loop fuel' rfuel buf p n else mret None
  end.

Definition ioterm_getsn (fuel rfuel : nat) (buf : list Z) (n : Z) : M (io_term D) (option (list Z)) :=
  ioterm_getsn_loop fuel rfuel buf 0 n.
End Term.

(** ** The contract of io.h

    [rx d] is the input an object still has to give, [tx d] the output it has
    taken, [I] its invariant.  A read of at least one byte from an object that has
    input gives between one byte and the bytes asked for, the next ones of its input; a
    write of at least one byte takes at least one. *)

Class Source {D} (ops : io_ops D) (rx : D -> list Z) (I : D -> Prop) := {
  src_fun : Z -> M D (Z * list Z);
  src_ops : op_read ops = Some src_fun;
  src_read : forall d n, I d -> 0 < n -> rx d <> [] ->
    exists k d', 1 <= k <= n /\ k <= Z.of_nat (length (rx d)) /\
      src_fun n d = Ok ((k, take (Z.to_nat k) (rx d)), d') /\ I d' /\
      rx d' = drop (Z.to_nat k) (rx d)
}.

(** Objects with an end of file. *)
Class Ends {D} (ops : io_ops D) (rx : D -> list Z) (I : D -> Prop) `{!Source ops rx I} := {
  ends_read : forall d n, I d -> 0 < n -> rx d = [] ->
    exists d', src_fun n d = Ok ((0, []), d') /\ I d' /\ rx d' = []
}.

Class Sink {D} (ops : io_ops D) (tx : D -> list Z) (I : D -> Prop) := {
  snk_fun : list Z -> M D Z;
  snk_ops : op_write ops = Some snk_fun;
  snk_write : forall d bs, I d -> bs <> [] ->
    exists k d', 1 <= k <= Z.of_nat (length bs) /\ snk_fun bs d = Ok (k, d') /\ I d' /\
      tx d' = tx d ++ take (Z.to_nat k) bs
}.

(** A device that is both, with independent directions. *)
Class Terminal {D} (ops : io_ops D) (rx tx : D -> list Z) (I : D -> Prop) := {
  trm_src :: Source ops rx I;
  trm_snk :: Sink ops tx I;
  trm_read : forall n d r d', I d -> src_fun (ops := ops) (rx := rx) n d = Ok (r, d') -> tx d' = tx d;
  trm_write : forall bs d r d', I d -> snk_fun (ops := ops) (tx := tx) bs d = Ok (r, d') -> rx d' = rx d
}.

(** ** Reading and writing in full *)

Section Full.
Context {D : Type} (ops : io_ops D) (I : D -> Prop).

Lemma ioread_full_run (rx : D -> list Z) `{!Source ops rx I} `{!Ends ops rx I} bufsz :
  forall fuel d acc got, I d -> 0 <= acc <= bufsz -> (Z.to_nat (bufsz - acc) <= fuel)%nat ->
  let k := Nat.min (Z.to_nat (bufsz - acc)) (length (rx d)) in
  exists d', ioread_full_loop fuel src_fun bufsz acc got d
      = Ok ((acc + Z.of_nat k, got ++ take k (rx d)), d') /\
    I d' /\ rx d' = drop k (rx d).
Proof.
  induction fuel as [|fuel IH]; intros d acc got Hd Ha Hf; cbn zeta; cbn [ioread_full_loop].
  - destruct (Z.ltb_spec acc bufsz); [lia|].
    replace (Z.to_nat (bufsz - acc)) with 0%nat by lia. simpl. rewrite Z.add_0_r, app_nil_r.
    by exists d.
  - destruct (Z.ltb_spec acc bufsz) as [Hlt|Hge].
    2: { replace (Z.to_nat (bufsz - acc)) with 0%nat by lia. simpl.
         rewrite Z.add_0_r, app_nil_r. by exists d. }
    destruct (decide (rx d = [])) as [E|Hne].
    + destruct (ends_read d (bufsz - acc) Hd) as (d' & Er & Hd' & Ed'); [lia|done|].
      rewrite (bind_Ok _ _ _ _ _ Er). simpl. rewrite E. simpl. rewrite Nat.min_0_r. simpl.
      rewrite Z.add_0_r, app_nil_r. exists d'. by rewrite Ed'.
    + destruct (src_read d (bufsz - acc) Hd) as (k & d1 & Hk & Hkl & Er & Hd1 & Ed1); [lia|done|].
      rewrite (bind_Ok _ _ _ _ _ Er). cbn beta iota.
      destruct (Z.ltb_spec k 0); [lia|]. destruct (Z.eqb_spec k 0); [lia|].
      destruct (IH d1 (acc + k) (got ++ take (Z.to_nat k) (rx d)) Hd1) as (d' & El & Hd' & Ed');
        [lia|lia|]. cbn zeta in *. rewrite Ed1, length_drop in *.
      set (m := Nat.min (Z.to_nat (bufsz - (acc + k))) (length (rx d) - Z.to_nat k)) in *.
      assert (Em : Nat.min (Z.to_nat (bufsz - acc)) (length (rx d)) = (Z.to_nat k + m)%nat) by lia.
      exists d'. rewrite Em. split_and!; [|done|by rewrite Ed', drop_drop].
      rewrite El. do 3 f_equal; [lia|]. by rewrite <- app_assoc, take_take_drop.
Qed.

Lemma iowrite_run {A} (tx : D -> list Z) `{!Sink ops tx I} (keep : D -> A) buf :
  (forall bs d r d', I d -> snk_fun (tx := tx) bs d = Ok (r, d') -> keep d' = keep d) ->
  forall d, I d ->
  exists d', iowrite ops buf d = Ok (Z.of_nat (length buf), d') /\ I d' /\
    tx d' = tx d ++ buf /\ keep d' = keep d.
Proof.
  intros Hkeep. unfold iowrite. rewrite snk_ops.
  assert (G : forall fuel d acc, I d -> 0 <= acc <= Z.of_nat (length buf) ->
    (length buf - Z.to_nat acc <= fuel)%nat ->
    exists d', iowrite_loop fuel snk_fun buf acc d = Ok (Z.of_nat (length buf), d') /\ I d' /\
      tx d' = tx d ++ drop (Z.to_nat acc) buf /\ keep d' = keep d).
  { induction fuel as [|fuel IH]; intros d acc Hd Ha Hf; cbn [iowrite_loop].
    - destruct (Z.ltb_spec acc (Z.of_nat (length buf))); [lia|].
      exists d. rewrite drop_ge, app_nil_r by lia. split_and!; try done.
      by replace acc with (Z.of_nat (length buf)) by lia.
    - destruct (Z.ltb_spec acc (Z.of_nat (length buf))) as [Hlt|Hge].
      2: { exists d. rewrite drop_ge, app_nil_r by lia. split_and!; try done.
      by replace acc with (Z.of_nat (length buf)) by lia. }
      destruct (snk_write d (drop (Z.to_nat acc) buf) Hd) as (k & d1 & Hk & Er & Hd1 & Ed1).
      { intros E. apply (f_equal length) in E. rewrite length_drop in E. simpl in E. lia. }
      rewrite length_drop in Hk. rewrite (bind_Ok _ _ _ _ _ Er).
      destruct (Z.ltb_spec k 0); [lia|]. destruct (Z.eqb_spec k 0); [lia|].
      destruct (IH d1 (acc + k) Hd1) as (d' & El & Hd' & Et & Ek); [lia|lia|].
      exists d'. split_and!; [done|done| |].
      + rewrite Et, Ed1, <- app_assoc. f_equal.
        replace (Z.to_nat (acc + k)) with (Z.to_nat acc + Z.to_nat k)%nat by lia.
        rewrite <- drop_drop. apply take_drop.
      + rewrite Ek. by eapply Hkeep. }
  intros d Hd. apply (G (length buf) d 0); [done|lia|simpl; lia].
Qed.
End Full.

(** ** Line endings, as the comments of io.c define them *)

(** Input: every line ending becomes a single newline. *)
Fixpoint normalize_in (l : list Z) : list Z :=
  match l with
  | [] => []
  | c :: l' =>
      if c =? CR then
        match l' with
        | c' :: l'' => if c' =? NL then NL :: normalize_in l'' else NL :: normalize_in l'
        | [] => [NL]
        end
      else c :: normalize_in l'
  end.

(** Output: every line ending becomes CR NL. *)
Fixpoint normalize_out (l : list Z) : list Z :=
  match l with
  | [] => []
  | c :: l' =>
      if c =? CR then
        match l' with
        | c' :: l'' => if c' =? NL then CR :: NL :: normalize_out l'' else CR :: NL :: normalize_out l'
        | [] => [CR; NL]
        end
      else if c =? NL then CR :: NL :: normalize_out l'
      else c :: normalize_out l'
  end.

(** The table for output in the comments: what one character adds to the
    output, and the state after it, from the state [cr]. *)
Definition out_char (cr : bool) (ch : Z) : bool * list Z :=
  if ch =? CR then (true, [CR; NL])
  else if ch =? NL then (false, if cr then [] else [CR; NL])
  else (false, [ch]).
Fixpoint out_scan (cr : bool) (l : list Z) : bool * list Z :=
  match l with
  | [] => (cr, [])
  | ch :: l' =>
      let '(cr1, o) := out_char cr ch in
      let '(cr2, o') := out_scan cr1 l' in (cr2, o ++ o')
  end.

Lemma ioterm_scan_app cr a b :
  ioterm_scan cr (a ++ b)
  = let '(c1, o1) := ioterm_scan cr a in let '(c2, o2) := ioterm_scan c1 b in (c2, o1 ++ o2).
Proof.
  revert cr. induction a as [|ch a IH]; intros cr; simpl; [by destruct (ioterm_scan cr b)|].
  destruct cr, (ch =? CR), (ch =? NL); rewrite ?IH;
    repeat match goal with |- context [ioterm_scan ?c ?l] => destruct (ioterm_scan c l) end; done.
Qed.

(** Scanning from the initial state is normalisation; a pending CR swallows a
    newline. *)
Lemma ioterm_scan_normalize l :
  (ioterm_scan false l).2 = normalize_in l /\
  (ioterm_scan true l).2 = match l with c :: l' => if c =? NL then normalize_in l' else normalize_in l | [] => [] end.
Proof.
  induction l as [|c l [IH0 IH1]]; [done|]. simpl.
  destruct (Z.eqb_spec c CR) as [->|Hc].
  - change (CR =? NL) with false. cbn iota.
    destruct (ioterm_scan true l) as [c1 o1] eqn:E1. simpl in *. rewrite IH1.
    destruct l as [|c' l']; [done|]. simpl. by destruct (c' =? NL).
  - destruct (ioterm_scan false l) as [c1 o1] eqn:E1. simpl in *. subst o1.
    destruct (c =? NL); done.
Qed.

Lemma out_scan_normalize l : (out_scan false l).2 = normalize_out l /\
  (out_scan true l).2 = match l with c :: l' => if c =? NL then normalize_out l' else normalize_out l | [] => [] end.
Proof.
  induction l as [|c l [IH0 IH1]]; [done|]. cbn [out_scan normalize_out]. unfold out_char.
  destruct (Z.eqb_spec c CR) as [->|Hc].
  - change (CR =? NL) with false. cbn iota.
    destruct (out_scan true l) as [c1 o1] eqn:E1. simpl in *. rewrite IH1.
    destruct l as [|c' l']; [done|]. by destruct (c' =? NL).
  - destruct (Z.eqb_spec c NL) as [->|Hn];
      destruct (out_scan false l) as [c1 o1] eqn:E1; simpl in *; by subst o1.
Qed.

(** ** The terminal over a raw device *)

Section TermProofs.
Context {D : Type} (raw_ops : io_ops D) (rx tx : D -> list Z) (I : D -> Prop)
  `{Htm : !Terminal raw_ops rx tx I}.

(** The state of the terminal with its raw object in a given state. *)
Definition term_ok (iot : io_term D) : Prop := I (rawio iot).

Lemma raw_iowrite bs iot :
  term_ok iot ->
  exists d, on_raw (iowrite raw_ops bs) iot
      = Ok (Z.of_nat (length bs), mkTerm d (cr_out iot) (cr_in iot)) /\
    I d /\ tx d = tx (rawio iot) ++ bs /\ rx d = rx (rawio iot).
Proof.
  intros Hi. destruct (iowrite_run raw_ops I tx rx bs trm_write (rawio iot) Hi)
    as (d & E & Hd & Et & Er). exists d. split_and!; try done.
  unfold on_raw. by rewrite E.
Qed.

Lemma raw_ioputc c iot :
  term_ok iot ->
  exists d, on_raw (ioputc raw_ops c) iot = Ok (u8 c, mkTerm d (cr_out iot) (cr_in iot)) /\
    I d /\ tx d = tx (rawio iot) ++ [c] /\ rx d = rx (rawio iot).
Proof.
  intros Hi. destruct (iowrite_run raw_ops I tx rx [c] trm_write (rawio iot) Hi)
    as (d & E & Hd & Et & Er). exists d. split_and!; try done.
  unfold on_raw, ioputc. by rewrite (bind_Ok _ _ _ _ _ E).
Qed.

Lemma raw_ioread n iot :
  term_ok iot -> 0 < n -> rx (rawio iot) <> [] ->
  exists k d, 1 <= k <= n /\ k <= Z.of_nat (length (rx (rawio iot))) /\
    on_raw (ioread raw_ops n) iot
      = Ok ((k, take (Z.to_nat k) (rx (rawio iot))), mkTerm d (cr_out iot) (cr_in iot)) /\
    I d /\ rx d = drop (Z.to_nat k) (rx (rawio iot)) /\ tx d = tx (rawio iot).
Proof.
  intros Hi Hn Hne. destruct (src_read (rawio iot) n Hi Hn Hne) as (k & d & Hk & Hl & E & Hd & Er).
  exists k, d. split_and!; try done; try lia.
  - unfold on_raw, ioread. by rewrite src_ops, E.
  - by eapply trm_read.
Qed.

Lemma ioterm_scan_nonempty l : l <> [] -> (ioterm_scan false l).2 <> [].
Proof.
  destruct l as [|c l]; [done|]. intros _. simpl.
  destruct (c =? CR); [destruct (ioterm_scan true l)|destruct (ioterm_scan false l)]; done.
Qed.

(** Only a newline after a CR leaves nothing to return. *)
Lemma ioterm_scan_empty cr l c :
  l <> [] -> ioterm_scan cr l = (c, []) -> cr = true /\ l = [NL] /\ c = false.
Proof.
  intros Hl E. destruct cr.
  2: { apply ioterm_scan_nonempty in Hl. by rewrite E in Hl. }
  destruct l as [|ch l]; [done|]. simpl in E. destruct (ch =? CR).
  { by destruct (ioterm_scan true l). }
  destruct (Z.eqb_spec ch NL) as [->|].
  - destruct l as [|c' l]; [by injection E as <-|].
    assert (H : (ioterm_scan false (c' :: l)).2 <> []) by (by apply ioterm_scan_nonempty).
    by rewrite E in H.
  - by destruct (ioterm_scan false l).
Qed.

(** One round of the loop of [ioterm_read]. *)
Lemma ioterm_read_round fuel len iot :
  term_ok iot -> 0 < len -> rx (rawio iot) <> [] ->
  exists k iot', 1 <= k <= len /\ k <= Z.of_nat (length (rx (rawio iot))) /\
    term_ok iot' /\ rx (rawio iot') = drop (Z.to_nat k) (rx (rawio iot)) /\
    tx (rawio iot') = tx (rawio iot) /\ cr_out iot' = cr_out iot /\
    let '(cr, out) := ioterm_scan (cr_in iot) (take (Z.to_nat k) (rx (rawio iot))) in
    cr_in iot' = cr /\
    ioterm_read_loop raw_ops (S fuel) len iot
    = match out with
      | [] => ioterm_read_loop raw_ops fuel len iot'
      | _ => Ok ((Z.of_nat (length out), out), iot')
      end.
Proof.
  intros Hi Hn Hne. destruct (raw_ioread len iot Hi Hn Hne) as (k & d & Hk & Hl & E & Hd & Er & Et).
  destruct (ioterm_scan (cr_in iot) (take (Z.to_nat k) (rx (rawio iot)))) as [cr out] eqn:Es.
  exists k, (mkTerm d (cr_out iot) cr). split_and!; try done; try lia.
  cbn [ioterm_read_loop]. rewrite (bind_Ok _ _ _ _ _ E). cbn beta iota.
  destruct (Z.ltb_spec k 0); [lia|]. rewrite bind_run. cbn [get obind cr_in cr_out].
  rewrite take_take, Nat.min_id, Es. by destruct out.
Qed.

Lemma ioterm_read_run fuel len iot :
  term_ok iot -> 0 < len -> rx (rawio iot) <> [] ->
  (cr_in iot = true -> rx (rawio iot) <> [NL]) -> (2 <= fuel)%nat ->
  exists k out iot', ioterm_read raw_ops fuel len iot = Ok ((Z.of_nat (length out), out), iot') /\
    out <> [] /\ (1 <= Z.of_nat k <= 2 * len) /\ (k <= length (rx (rawio iot)))%nat /\
    term_ok iot' /\ rx (rawio iot') = drop k (rx (rawio iot)) /\
    tx (rawio iot') = tx (rawio iot) /\ cr_out iot' = cr_out iot /\
    ioterm_scan (cr_in iot) (take k (rx (rawio iot))) = (cr_in iot', out).
Proof.
  intros Hi Hn Hne Hnl Hf. destruct fuel as [|[|fuel]]; [lia|lia|].
  destruct (ioterm_read_round (S fuel) len iot Hi Hn Hne) as
    (k & iot1 & Hk & Hkl & Hi1 & Er & Et & Ec & H).
  destruct (ioterm_scan (cr_in iot) (take (Z.to_nat k) (rx (rawio iot)))) as [cr out] eqn:Es.
  destruct H as [Ecr E]. unfold ioterm_read. rewrite E. destruct out as [|c out].
  2: { exists (Z.to_nat k), (c :: out), iot1. rewrite Es, Ecr. split_and!; try done; lia. }
  apply ioterm_scan_empty in Es as (Ein & Etk & ->).
  2: { intros E0. apply (f_equal length) in E0. rewrite length_take in E0. simpl in E0. lia. }
  assert (Ek : Z.to_nat k = 1%nat).
  { apply (f_equal length) in Etk. rewrite length_take in Etk. simpl in Etk. lia. }
  rewrite Ek in *.
  assert (Hne1 : rx (rawio iot1) <> []).
  { rewrite Er. intros E0. apply (Hnl Ein). by rewrite <- (take_drop 1 (rx (rawio iot))), Etk, E0. }
  destruct (ioterm_read_round fuel len iot1 Hi1 Hn Hne1) as
    (k2 & iot2 & Hk2 & Hkl2 & Hi2 & Er2 & Et2 & Ec2 & H2).
  destruct (ioterm_scan (cr_in iot1) (take (Z.to_nat k2) (rx (rawio iot1)))) as [cr2 out2] eqn:Es2.
  destruct H2 as [Ecr2 E2]. rewrite Ecr in Es2.
  assert (Hout : out2 <> []).
  { intros ->. assert (H : (ioterm_scan false (take (Z.to_nat k2) (rx (rawio iot1)))).2 <> []).
    - apply ioterm_scan_nonempty. intros E0. apply (f_equal length) in E0.
      rewrite length_take in E0. simpl in E0. lia.
    - by rewrite Es2 in H. }
  exists (1 + Z.to_nat k2)%nat, out2, iot2. rewrite Er, length_drop in Hkl2.
  split_and!; try done; try lia.
  - rewrite E2. by destruct out2.
  - by rewrite Er2, Er, drop_drop.
  - by rewrite Et2.
  - by rewrite Ec2.
  - rewrite <- take_take_drop, <- Er, Etk, ioterm_scan_app, Ein.
    change (ioterm_scan true [NL]) with (false, @nil Z). cbn beta iota.
    rewrite Es2, Ecr2. done.
Qed.

(** The newline that is skipped because the previous output ended in CR is not
    counted. *)
Definition skipped (cr : bool) (l : list Z) : Z :=
  match l with c :: _ => if cr && (c =? NL) then 1 else 0 | [] => 0 end.

Lemma slice_snoc (buf : list Z) wp rp :
  (wp <= rp)%nat -> (rp < length buf)%nat ->
  slice wp (S rp - wp) buf = slice wp (rp - wp) buf ++ [nth rp buf 0].
Proof.
  intros H1 H2. replace (S rp - wp)%nat with ((rp - wp) + 1)%nat by lia.
  rewrite slice_app. f_equal. replace (wp + (rp - wp))%nat with rp by lia.
  unfold slice. destruct (drop rp buf) as [|x r] eqn:E.
  - apply (f_equal length) in E. rewrite length_drop in E. simpl in E. lia.
  - assert (H : buf !! rp = Some x) by (rewrite <- (Nat.add_0_r rp), <- lookup_drop, E; done).
    simpl. by rewrite firstn_O, (nth_lookup_Some buf rp 0 x H).
Qed.

Lemma drop_nth (buf : list Z) rp :
  (rp < length buf)%nat -> drop rp buf = nth rp buf 0 :: drop (S rp) buf.
Proof.
  intros H. destruct (lookup_lt_is_Some_2 buf rp H) as [x E].
  rewrite (drop_S buf x rp E). by rewrite (nth_lookup_Some buf rp 0 x E).
Qed.

(** A run that returns [ret], leaves [cr] as the output state and has written
    [out] to the raw device; the input side is untouched. *)
Definition wrote (r : outcome (Z * io_term D)) (ret : Z) (iot : io_term D) (cr : bool)
    (out : list Z) : Prop :=
  exists iot', r = Ok (ret, iot') /\ term_ok iot' /\ cr_in iot' = cr_in iot /\
    rx (rawio iot') = rx (rawio iot) /\ cr_out iot' = cr /\
    tx (rawio iot') = tx (rawio iot) ++ out.

(** A write to the raw device followed by a run. *)
Lemma wrote_after r ret iot iot1 cr out0 out :
  wrote r ret iot1 cr out -> cr_in iot1 = cr_in iot -> rx (rawio iot1) = rx (rawio iot) ->
  tx (rawio iot1) = tx (rawio iot) ++ out0 -> wrote r ret iot cr (out0 ++ out).
Proof.
  intros (iot' & E & Hi & Ei & Er & Eo & Et) E1 E2 E3.
  exists iot'. split_and!; try congruence; try done. by rewrite Et, E3, <- app_assoc.
Qed.

Lemma raw_write_step bs k iot ret cr out :
  term_ok iot ->
  (forall d, I d -> tx d = tx (rawio iot) ++ bs -> rx d = rx (rawio iot) ->
     wrote (k (Z.of_nat (length bs)) (mkTerm d (cr_out iot) (cr_in iot))) ret
       (mkTerm d (cr_out iot) (cr_in iot)) cr out) ->
  wrote ((on_raw (iowrite raw_ops bs) ≫= k) iot) ret iot cr (bs ++ out).
Proof.
  intros Hi H. destruct (raw_iowrite bs iot Hi) as (d & E & Hd & Et & Er).
  rewrite (bind_Ok _ _ _ _ _ E). by eapply wrote_after; [apply H| | |].
Qed.

Lemma raw_putc_step c (k : Z -> M (io_term D) Z) iot ret cr out :
  term_ok iot ->
  (forall d, I d -> tx d = tx (rawio iot) ++ [c] -> rx d = rx (rawio iot) ->
     wrote (k (u8 c) (mkTerm d (cr_out iot) (cr_in iot))) ret
       (mkTerm d (cr_out iot) (cr_in iot)) cr out) ->
  wrote ((on_raw (ioputc raw_ops c) ≫= k) iot) ret iot cr ([c] ++ out).
Proof.
  intros Hi H. destruct (raw_ioputc c iot Hi) as (d & E & Hd & Et & Er).
  rewrite (bind_Ok _ _ _ _ _ E). by eapply wrote_after; [apply H| | |].
Qed.

(** Setting the output state and going on. *)
Lemma set_out_step b (k : M (io_term D) Z) iot ret cr out :
  wrote (k (mkTerm (rawio iot) b (cr_in iot))) ret (mkTerm (rawio iot) b (cr_in iot)) cr out ->
  wrote ((set_cr_out b ;; k) iot) ret iot cr out.
Proof. intros (iot' & H). by exists iot'. Qed.

Lemma slice_empty (buf : list Z) wp : slice wp (wp - wp) buf = [].
Proof. by rewrite Nat.sub_diag. Qed.

(** The draining of the buffer after the loop. *)
Lemma ioterm_write_drain fuel buf wp acc iot :
  term_ok iot -> (wp <= length buf)%nat ->
  wrote (ioterm_write_loop raw_ops fuel buf (length buf) wp acc iot)
    (acc + Z.of_nat (length buf - wp)) iot (cr_out iot) (slice wp (length buf - wp) buf).
Proof.
  intros Hi Hw. assert (E : ioterm_write_loop raw_ops fuel buf (length buf) wp acc iot
    = (if negb (length buf =? wp)%nat then
         cnt ← on_raw (iowrite raw_ops (slice wp (length buf - wp) buf));
         if cnt <? 0 then mret cnt else if cnt =? 0 then mret acc else mret (acc + cnt)
       else mret acc) iot).
  { destruct fuel; cbn [ioterm_write_loop]; by rewrite Nat.ltb_irrefl. }
  rewrite E. destruct (Nat.eqb_spec (length buf) wp) as [<-|Hne]; cbn [negb].
  - exists iot. rewrite slice_empty, app_nil_r. split_and!; try done.
    unfold mret, M_ret. do 2 f_equal. lia.
  - eapply (eq_rect _ (wrote _ _ _ _)); [|apply app_nil_r]. apply raw_write_step; [done|].
    intros d Hd Et Er. rewrite slice_length by lia.
    destruct (Z.ltb_spec (Z.of_nat (length buf - wp)) 0); [lia|].
    destruct (Z.eqb_spec (Z.of_nat (length buf - wp)) 0); [lia|].
    eexists. by rewrite app_nil_r.
Qed.

(** The loop is right for the rest of the buffer: the characters between [wp]
    and [rp] are still to be written as they are, and a state with CR just
    written has nothing pending when a newline follows. *)
Definition loop_ok (fuel : nat) : Prop := forall buf rp wp acc iot,
  term_ok iot -> (wp <= rp <= length buf)%nat -> (length buf - rp <= fuel)%nat ->
  (cr_out iot = true -> head (drop rp buf) = Some NL -> wp = rp) ->
  wrote (ioterm_write_loop raw_ops fuel buf rp wp acc iot)
    (acc + Z.of_nat (length buf - wp) - skipped (cr_out iot) (drop rp buf)) iot
    (out_scan (cr_out iot) (drop rp buf)).1
    (slice wp (rp - wp) buf ++ (out_scan (cr_out iot) (drop rp buf)).2).

Lemma skipped_false l : skipped false l = 0.
Proof. by destruct l. Qed.
Lemma skipped_other l : head l <> Some NL -> skipped true l = 0.
Proof. destruct l as [|c l]; [done|]. cbn. destruct (Z.eqb_spec c NL); congruence. Qed.

(** A CR that is not followed by a newline in the buffer. *)
Lemma write_lone_cr fuel buf rp wp acc iot :
  loop_ok fuel -> term_ok iot -> (wp <= rp)%nat -> (rp < length buf)%nat ->
  (length buf - rp <= S fuel)%nat -> nth rp buf 0 = CR -> head (drop (S rp) buf) <> Some NL ->
  wrote ((cnt ← on_raw (iowrite raw_ops (slice wp (S rp - wp) buf));
      if cnt <? 0 then mret cnt else if cnt =? 0 then mret acc
      else cnt' ← on_raw (ioputc raw_ops NL);
        if cnt' <? 0 then mret cnt'
        else set_cr_out true ;;
          ioterm_write_loop raw_ops fuel buf (S rp) (wp + Z.to_nat cnt) (acc + cnt)) iot)
    (acc + Z.of_nat (length buf - wp)) iot (out_scan true (drop (S rp) buf)).1
    (slice wp (rp - wp) buf ++ CR :: NL :: (out_scan true (drop (S rp) buf)).2).
Proof.
  intros IH Hi Hw Hr Hf Ech Hnn.
  change (CR :: NL :: ?l) with ([CR] ++ ([NL] ++ l)). rewrite app_assoc, <- Ech.
  rewrite <- slice_snoc by lia. apply raw_write_step; [done|]. intros d Hd Et Er.
  rewrite slice_length by lia.
  destruct (Z.ltb_spec (Z.of_nat (S rp - wp)) 0); [lia|].
  destruct (Z.eqb_spec (Z.of_nat (S rp - wp)) 0); [lia|].
  apply raw_putc_step; [done|]. intros d2 Hd2 Et2 Er2.
  change (u8 NL <? 0) with false. cbn iota. apply set_out_step.
  replace (wp + Z.to_nat (Z.of_nat (S rp - wp)))%nat with (S rp) by lia.
  destruct (IH buf (S rp) (S rp) (acc + Z.of_nat (S rp - wp)) (mkTerm d2 true (cr_in iot)))
    as (iot' & E & Hrest); [done|lia|lia|done|].
  exists iot'. rewrite slice_empty, app_nil_l in Hrest. split; [|done].
  cbn [rawio cr_in]. rewrite E. cbn [cr_out]. rewrite skipped_other by done. do 2 f_equal. lia.
Qed.

(** A newline that is not after CR: what is pending up to [rp] is written (or
    nothing is), then CR, and the newline becomes pending. *)
Lemma write_lone_nl fuel buf rp acc iot :
  loop_ok fuel -> term_ok iot -> (rp < length buf)%nat -> (length buf - rp <= S fuel)%nat ->
  nth rp buf 0 = NL ->
  wrote ((cnt ← on_raw (ioputc raw_ops CR);
      if cnt <? 0 then mret cnt
      else set_cr_out false ;; ioterm_write_loop raw_ops fuel buf (S rp) rp acc) iot)
    (acc + Z.of_nat (length buf - rp)) iot (out_scan false (drop (S rp) buf)).1
    (CR :: NL :: (out_scan false (drop (S rp) buf)).2).
Proof.
  intros IH Hi Hr Hf Enl. change (CR :: NL :: ?l) with ([CR] ++ ([NL] ++ l)).
  apply raw_putc_step; [done|]. intros d Hd Et Er.
  change (u8 CR <? 0) with false. cbn iota. apply set_out_step.
  destruct (IH buf (S rp) rp acc (mkTerm d false (cr_in iot))) as (iot' & E & Hrest);
    [done|lia|lia|done|].
  exists iot'. rewrite slice_snoc, slice_empty, app_nil_l, Enl in Hrest by lia. split; [|done].
  cbn [rawio cr_in]. rewrite E. cbn [cr_out]. rewrite skipped_false. do 2 f_equal. lia.
Qed.

(** A character of the buffer becomes pending. *)
Lemma write_pending fuel buf rp rp' wp acc iot out :
  loop_ok fuel -> term_ok iot -> (wp <= rp)%nat -> (rp <= rp' <= length buf)%nat ->
  (length buf - rp' <= fuel)%nat ->
  slice wp (rp' - wp) buf = slice wp (rp - wp) buf ++ out ->
  wrote ((set_cr_out false ;; ioterm_write_loop raw_ops fuel buf rp' wp acc) iot)
    (acc + Z.of_nat (length buf - wp)) iot (out_scan false (drop rp' buf)).1
    (slice wp (rp - wp) buf ++ out ++ (out_scan false (drop rp' buf)).2).
Proof.
  intros IH Hi Hw Hr Hf Eout. apply set_out_step.
  destruct (IH buf rp' wp acc (mkTerm (rawio iot) false (cr_in iot))) as (iot' & E & Hrest);
    [done|lia|lia|done|].
  exists iot'. rewrite Eout, <- app_assoc in Hrest. split; [|done].
  rewrite E. cbn [cr_out]. rewrite skipped_false. do 2 f_equal. lia.
Qed.

Lemma out_scan_cons cr ch l :
  out_scan cr (ch :: l)
  = ((out_scan (out_char cr ch).1 l).1, (out_char cr ch).2 ++ (out_scan (out_char cr ch).1 l).2).
Proof. cbn [out_scan]. destruct (out_char cr ch) as [c o]. cbn. by destruct (out_scan c l). Qed.

Lemma ioterm_write_run fuel : loop_ok fuel.
Proof.
  induction fuel as [|fuel IH]; intros buf rp wp acc iot Hi Hwr Hf Hcr;
    (destruct (decide (rp = length buf)) as [->|Hlt];
      [rewrite drop_all; cbn [out_scan skipped fst snd]; rewrite app_nil_r, Z.sub_0_r;
       apply ioterm_write_drain; [done|lia]|]); [lia|].
  assert (Hr : (rp < length buf)%nat) by lia. rewrite (drop_nth buf rp Hr) in *.
  pose proof (slice_snoc buf wp rp (proj1 Hwr) Hr) as Esl.
  cbn [ioterm_write_loop head] in *. destruct (Nat.ltb_spec rp (length buf)); [|lia].
  rewrite out_scan_cons. cbn [fst snd skipped]. unfold out_char.
  destruct (Z.eqb_spec (nth rp buf 0) CR) as [Ecr|Hncr]; cbn [fst snd].
  - rewrite Ecr in *. change (CR =? NL) with false. rewrite andb_false_r, Z.sub_0_r.
    destruct (Nat.ltb_spec (S rp) (length buf)) as [Hr2|Hr2]; cbn [andb].
    2: apply write_lone_cr; auto; try lia; by rewrite drop_ge by lia.
    destruct (Z.eqb_spec (nth (S rp) buf 0) NL) as [Enl|Hnnl].
    2: apply write_lone_cr; auto; try lia; rewrite (drop_nth buf (S rp) Hr2); cbn [head]; congruence.
    rewrite (drop_nth buf (S rp) Hr2), out_scan_cons, Enl. cbn -[slice app].
    rewrite app_nil_l. apply write_pending; auto; try lia.
    rewrite (slice_snoc buf wp (S rp)), Esl, Enl, <- app_assoc by lia. done.
  - destruct (Z.eqb_spec (nth rp buf 0) NL) as [Enl|Hnnl]; cbn [fst snd].
    2: rewrite andb_false_r, Z.sub_0_r; apply write_pending; auto; lia.
    rewrite bind_run. cbn [get obind]. rewrite andb_true_r.
    destruct (cr_out iot) eqn:Eout.
    + assert (wp = rp) by (apply Hcr; congruence). subst wp. rewrite slice_empty, !app_nil_l.
      apply set_out_step. destruct (IH buf (S rp) (S rp) acc (mkTerm (rawio iot) false (cr_in iot)))
        as (iot' & E & Hrest); [done|lia|lia|done|].
      exists iot'. rewrite slice_empty, app_nil_l in Hrest. split; [|done].
      rewrite E. cbn [cr_out]. rewrite skipped_false. do 2 f_equal. lia.
    + rewrite Z.sub_0_r. replace (S rp - 1)%nat with rp by lia.
      destruct (Nat.eqb_spec wp rp) as [->|Hne]; cbn [negb].
      * rewrite slice_empty, app_nil_l. by apply write_lone_nl.
      * apply raw_write_step; [done|]. intros d Hd Et Er. rewrite slice_length by lia.
        destruct (Z.ltb_spec (Z.of_nat (rp - wp)) 0); [lia|].
        destruct (Z.eqb_spec (Z.of_nat (rp - wp)) 0); [lia|].
        replace (wp + Z.to_nat (Z.of_nat (rp - wp)))%nat with rp by lia.
        replace (acc + Z.of_nat (length buf - wp))
          with (acc + Z.of_nat (rp - wp) + Z.of_nat (length buf - rp)) by lia.
        by apply write_lone_nl.
Qed.

(** ** Reading characters and editing lines *)

(** [iogetc] on the terminal, when the next raw character is not the newline
    of a CR NL pair. *)
Lemma term_getc rfuel iot c l :
  term_ok iot -> cr_in iot = false -> rx (rawio iot) = c :: l -> (2 <= rfuel)%nat ->
  exists iot', iogetc (ioterm_ops raw_ops rfuel) iot
      = Ok (u8 (if c =? CR then NL else c), iot') /\
    term_ok iot' /\ rx (rawio iot') = l /\ tx (rawio iot') = tx (rawio iot) /\
    cr_out iot' = cr_out iot /\ cr_in iot' = (c =? CR).
Proof.
  intros Hi Hcr Erx Hf.
  destruct (ioterm_read_round (pred rfuel) 1 iot Hi) as (k & iot1 & Hk & Hkl & Hi1 & Er & Et & Ec & H);
    [lia|by rewrite Erx|].
  replace k with 1 in * by lia. rewrite Erx, Hcr in *. change (Z.to_nat 1) with 1%nat in *.
  cbn [take ioterm_scan] in H. exists iot1.
  assert (Erun : iogetc (ioterm_ops raw_ops rfuel) iot
    = (r ← ioterm_read raw_ops rfuel 1;
       let '(rlen, bs) := r in
       if rlen <? 0 then mret rlen else if rlen =? 0 then mret (- EIO)
       else match bs with c :: _ => mret (u8 c) | [] => undef "uninitialised character" end) iot)
    by done.
  rewrite Erun. unfold ioterm_read. replace rfuel with (S (pred rfuel)) by lia.
  destruct (c =? CR); destruct H as [Ei E]; by rewrite (bind_Ok _ _ _ _ _ E).
Qed.

(** Echoing characters to the raw device. *)
Lemma echo_run cs iot :
  term_ok iot ->
  exists d, echo raw_ops cs iot = Ok (true, mkTerm d (cr_out iot) (cr_in iot)) /\ I d /\
    tx d = tx (rawio iot) ++ cs /\ rx d = rx (rawio iot).
Proof.
  revert iot. induction cs as [|c cs IH]; intros iot Hi.
  - exists (rawio iot). rewrite app_nil_r. split_and!; try done. by destruct iot.
  - cbn [echo]. destruct (raw_ioputc c iot Hi) as (d & E & Hd & Et & Er).
    rewrite (bind_Ok _ _ _ _ _ E). pose proof (u8_range c).
    destruct (Z.ltb_spec (u8 c) 0); [lia|].
    destruct (IH (mkTerm d (cr_out iot) (cr_in iot)) Hd) as (d2 & E2 & Hd2 & Et2 & Er2).
    exists d2. cbn [rawio cr_out cr_in] in *. split_and!; try done.
    + by rewrite Et2, Et, <- app_assoc.
    + by rewrite Er2.
Qed.

(** What a key does to the line, with room for [n] characters and a NUL, and
    what is echoed. *)
Definition edit (n : Z) (line : list Z) (c : Z) : list Z :=
  if c =? 91 then line
  else if (c =? 8) || (c =? 127) then take (length line - 1) line
  else if Z.of_nat (length line) + 1 <? n then line ++ [c] else line.
Definition edit_echo (n : Z) (line : list Z) (c : Z) : list Z :=
  if c =? 91 then []
  else if (c =? 8) || (c =? 127) then (if (length line =? 0)%nat then [7] else [8; 32; 8])
  else if Z.of_nat (length line) + 1 <? n then [c] else [7].
Fixpoint edit_echoes (n : Z) (line ks : list Z) : list Z :=
  match ks with
  | [] => [CR; NL]
  | c :: ks' => edit_echo n line c ++ edit_echoes n (edit n line c) ks'
  end.

Lemma edit_bound n line c : Z.of_nat (length line) < n -> Z.of_nat (length (edit n line c)) < n.
Proof.
  intros H. unfold edit. repeat casesplit; zbool; try done.
  - rewrite length_take. lia.
  - rewrite length_app. simpl. lia.
Qed.

Lemma insert_at_length (line buf : list Z) c :
  take (length line) buf = line -> (length line < length buf)%nat ->
  take (S (length line)) (<[length line := c]> buf) = line ++ [c].
Proof.
  intros El Hl. rewrite (take_S_r _ _ c) by (by apply list_lookup_insert_eq).
  f_equal. rewrite take_insert_ge by lia. done.
Qed.

(** A key that is not the end of the line. *)
Lemma getsn_key N fuel rfuel buf line iot c l :
  term_ok iot -> cr_in iot = false -> rx (rawio iot) = c :: l -> (2 <= rfuel)%nat ->
  0 <= c < 256 -> c <> CR -> c <> NL ->
  Z.of_nat (length line) < N <= Z.of_nat (length buf) -> N < 2 ^ 64 ->
  take (length line) buf = line ->
  exists buf1 iot1, ioterm_getsn_loop raw_ops (S fuel) rfuel buf (length line)
        (N - Z.of_nat (length line)) iot
      = ioterm_getsn_loop raw_ops fuel rfuel buf1 (length (edit N line c))
          (N - Z.of_nat (length (edit N line c))) iot1 /\
    term_ok iot1 /\ cr_in iot1 = false /\ rx (rawio iot1) = l /\
    tx (rawio iot1) = tx (rawio iot) ++ edit_echo N line c /\
    length buf1 = length buf /\ take (length (edit N line c)) buf1 = edit N line c.
Proof.
  intros Hi Hcr Erx Hrf Hc Hncr Hnnl HN HN64 El.
  destruct (term_getc rfuel iot c l Hi Hcr Erx Hrf) as (iot0 & Eg & Hi0 & Er0 & Et0 & Eo0 & Ei0).
  destruct (Z.eqb_spec c CR); [done|]. rewrite u8_small in Eg by done.
  cbn [ioterm_getsn_loop]. rewrite (bind_Ok _ _ _ _ _ Eg), (u8_small c Hc). cbn zeta.
  destruct (Z.eqb_spec c CR); [done|]. destruct (Z.eqb_spec c NL); [done|]. cbn [orb].
  assert (Hecho : forall cs (k : M (io_term D) (option (list Z))),
    exists iot2, (ok ← echo raw_ops cs; if (ok : bool) then k else mret None) iot0 = k iot2 /\
      term_ok iot2 /\ cr_in iot2 = false /\ rx (rawio iot2) = l /\
      tx (rawio iot2) = tx (rawio iot) ++ cs).
  { intros cs k. destruct (echo_run cs iot0 Hi0) as (d & E & Hd & Et & Er).
    eexists. rewrite (bind_Ok _ _ _ _ _ E). split_and!; try done; cbn [rawio]; congruence. }
  unfold edit, edit_echo. destruct (c =? 91).
  { eexists buf, _. rewrite bind_run. cbn [set_cr_in modify obind]. split_and!; try done.
    cbn. by rewrite Et0, app_nil_r. }
  destruct ((c =? 8) || (c =? 127)).
  - destruct (Nat.eqb_spec (length line) 0) as [E0|Hne]; cbn [negb].
    + destruct line; [|done]. cbn [length Nat.sub take] in *.
      destruct (Hecho [7] (ioterm_getsn_loop raw_ops fuel rfuel buf 0 (N - Z.of_nat 0)))
        as (iot2 & E & H1 & H2 & H3 & H4). exists buf, iot2. rewrite E. split_and!; done.
    + rewrite length_take, Nat.min_l by lia.
      replace (u64 (N - Z.of_nat (length line) + 1)) with (N - Z.of_nat (length line - 1))
        by (rewrite u64_small; lia).
      edestruct Hecho as (iot2 & E & H1 & H2 & H3 & H4).
      eexists buf, iot2. rewrite E. split_and!; try done.
      transitivity (take (length line - 1) (take (length line) buf)); [|by rewrite El].
      rewrite take_take. f_equal. lia.
  - destruct (Z.ltb_spec 1 (N - Z.of_nat (length line))) as [Hr|Hr];
      destruct (Z.ltb_spec (Z.of_nat (length line) + 1) N); try lia.
    + edestruct Hecho as (iot2 & E & H1 & H2 & H3 & H4).
      eexists (<[length line := c]> buf), iot2. rewrite E, length_app. cbn [length].
      rewrite Nat.add_1_r. split_and!; try done.
      * f_equal. lia.
      * by rewrite length_insert.
      * apply insert_at_length; [done|lia].
    + edestruct Hecho as (iot2 & E & H1 & H2 & H3 & H4). eexists buf, iot2. rewrite E. split_and!; done.
Qed.

Lemma getsn_run N rfuel : forall ks fuel buf line iot e more,
  term_ok iot -> cr_in iot = false -> rx (rawio iot) = ks ++ e :: more -> e = CR \/ e = NL ->
  Forall (fun c => 0 <= c < 256 /\ c <> CR /\ c <> NL) ks ->
  (S (length ks) <= fuel)%nat -> (2 <= rfuel)%nat ->
  Z.of_nat (length line) < N <= Z.of_nat (length buf) -> N < 2 ^ 64 ->
  take (length line) buf = line ->
  exists buf' iot', ioterm_getsn_loop raw_ops fuel rfuel buf (length line)
        (N - Z.of_nat (length line)) iot = Ok (Some buf', iot') /\
    rx (rawio iot') = more /\ tx (rawio iot') = tx (rawio iot) ++ edit_echoes N line ks /\
    length buf' = length buf /\
    take (S (length (foldl (edit N) line ks))) buf' = foldl (edit N) line ks ++ [0].
Proof.
  induction ks as [|c ks IH]; intros fuel buf line iot e more Hi Hcr Erx He Hks Hf Hrf HN HN64 El;
    (destruct fuel as [|fuel]; [lia|]).
  - destruct (term_getc rfuel iot e more Hi Hcr Erx Hrf) as (iot1 & Eg & Hi1 & Er1 & Et1 & Eo1 & Ei1).
    cbn [ioterm_getsn_loop]. rewrite (bind_Ok _ _ _ _ _ Eg).
    replace (u8 (if e =? CR then NL else e)) with NL by (destruct He as [->| ->]; done).
    change (u8 NL) with NL. change (NL =? 91) with false. change ((NL =? CR) || (NL =? NL)) with true.
    cbn iota zeta. destruct (echo_run [CR; NL] iot1 Hi1) as (d & E & Hd & Et & Er).
    rewrite (bind_Ok _ _ _ _ _ E). eexists _, _. split_and!; [reflexivity|..]; cbn [rawio foldl].
    + congruence.
    + by rewrite Et, Et1.
    + by rewrite length_insert.
    + apply insert_at_length; [done|lia].
  - apply Forall_cons in Hks as [(Hc & Hncr & Hnnl) Hks].
    destruct (getsn_key N fuel rfuel buf line iot c (ks ++ e :: more)) as
      (buf1 & iot1 & E & Hi1 & Hcr1 & Er1 & Et1 & Hl1 & El1); try done.
    destruct (IH fuel buf1 (edit N line c) iot1 e more) as (buf' & iot' & E' & Er' & Et' & Hl' & Ek');
      try done; [simpl in Hf; lia| |].
    { rewrite Hl1. split; [apply edit_bound; lia|lia]. }
    exists buf', iot'. rewrite E, E'. split_and!; try done.
    + by rewrite Et', Et1, <- app_assoc.
    + by rewrite Hl', Hl1.
Qed.
End TermProofs.

(** ** A device for the witnesses: input and output tapes, of which an
    operation handles at most two characters at a time. *)

Record tape := mkTape { t_in : list Z; t_out : list Z }.

Definition tape_read (n : Z) : M tape (Z * list Z) :=
  t ← get;
  let bs := take (Z.to_nat (Z.min n 2)) (t_in t) in
  put (mkTape (drop (length bs) (t_in t)) (t_out t)) ;;
  mret (Z.of_nat (length bs), bs).
Definition tape_write (bs : list Z) : M tape Z :=
  t ← get;
  let k := take 2 bs in
  put (mkTape (t_in t) (t_out t ++ k)) ;;
  mret (Z.of_nat (length k)).
Definition tape_ops : io_ops tape := mkOps None (Some tape_read) (Some tape_write) None.

Lemma tape_read_run n t :
  tape_read n t = let bs := take (Z.to_nat (Z.min n 2)) (t_in t) in
    Ok ((Z.of_nat (length bs), bs), mkTape (drop (length bs) (t_in t)) (t_out t)).
Proof. done. Qed.

Lemma take_length_self (m : nat) (l : list Z) : take (length (take m l)) l = take m l.
Proof.
  rewrite length_take. destruct (Nat.le_ge_cases m (length l)).
  - by rewrite Nat.min_l.
  - rewrite Nat.min_r by done. by rewrite !take_ge by done.
Qed.

#[global] Instance tape_terminal : Terminal tape_ops t_in t_out (fun _ => True).
Proof.
  unshelve econstructor.
  - refine (@Build_Source tape tape_ops t_in (fun _ => True) tape_read eq_refl _).
    intros t n _ Hn Hne.
    set (bs := take (Z.to_nat (Z.min n 2)) (t_in t)).
    assert (Hl : length bs = Nat.min (Z.to_nat (Z.min n 2)) (length (t_in t)))
      by (unfold bs; by rewrite length_take).
    assert (Hpos : (0 < length (t_in t))%nat) by (destruct (t_in t); [done|simpl; lia]).
    exists (Z.of_nat (length bs)), (mkTape (drop (length bs) (t_in t)) (t_out t)).
    rewrite Nat2Z.id. split_and!; try done; try lia.
    rewrite tape_read_run. cbn zeta. fold bs. do 3 f_equal. unfold bs.
    by rewrite take_length_self.
  - refine (@Build_Sink tape tape_ops t_out (fun _ => True) tape_write eq_refl _).
    intros t bs _ Hne. exists (Z.of_nat (length (take 2 bs))), (mkTape (t_in t) (t_out t ++ take 2 bs)).
    assert (Hpos : (0 < length bs)%nat) by (destruct bs; [done|simpl; lia]).
    pose proof (length_take bs 2). rewrite Nat2Z.id. split_and!; try done; try lia.
    cbn [t_out]. by rewrite take_length_self.
  - intros n d r d' _ E. cbn in E. by injection E as _ <-.
  - intros bs d r d' _ E. cbn in E. by injection E as _ <-.
Defined.

#[global] Instance tape_ends : Ends tape_ops t_in (fun _ => True).
Proof.
  constructor. intros d n _ Hn E. exists d. destruct d as [i o]. simpl in E. subst i.
  change (src_fun n) with (tape_read n). rewrite tape_read_run. cbn [t_in t_out].
  rewrite take_nil. by split_and!.
Qed.

(** ** Results *)



(** Several reads from the terminal, one after the other. *)
Fixpoint ioterm_reads {D} (raw_ops : io_ops D) (fuel : nat) (lens : list Z)
    : M (io_term D) (list Z) :=
  match lens with
  | [] => mret []
  | len :: lens' =>
      r ← ioterm_read raw_ops fuel len;
      out ← ioterm_reads raw_ops fuel lens';
      mret (take (Z.to_nat r.1) r.2 ++ out)
  end.

(** Input normalisation.  Starting from a fresh terminal, any sequence of
    reads, of any sizes and however the device splits its input, returns: each
    read gives at least one character, and together they give exactly the input
    consumed with every CR NL, lone CR and lone NL replaced by one newline (the
    first feature in the comment of io.c), also where a read ends between CR and
    NL.  The output side of the device is untouched. *)
Theorem ioterm_input_normalized {D : Type} (raw_ops : io_ops D) (rx tx : D -> list Z)
    (I : D -> Prop) `{!Terminal raw_ops rx tx I} (d : D) (fuel : nat) (lens : list Z)
    (Hd : I d) (Hlens : Forall (fun len => 0 < len) lens) (Hfuel : (2 <= fuel)%nat)
    (Hin : 2 * foldr Z.add 0 lens + 1 <= Z.of_nat (length (rx d))) :
  exists out k iot', ioterm_reads raw_ops fuel lens (ioterm_init d) = Ok (out, iot') /\
    rx (rawio iot') = drop k (rx d) /\ (k <= length (rx d))%nat /\
    out = normalize_in (take k (rx d)) /\ (length lens <= length out)%nat /\
    tx (rawio iot') = tx d.
Proof.
  assert (G : forall lens iot, Forall (fun len => 0 < len) lens -> term_ok I iot ->
    2 * foldr Z.add 0 lens + 1 <= Z.of_nat (length (rx (rawio iot))) ->
    exists out k iot', ioterm_reads raw_ops fuel lens iot = Ok (out, iot') /\
      rx (rawio iot') = drop k (rx (rawio iot)) /\ (k <= length (rx (rawio iot)))%nat /\
      ioterm_scan (cr_in iot) (take k (rx (rawio iot))) = (cr_in iot', out) /\
      (length lens <= length out)%nat /\ tx (rawio iot') = tx (rawio iot)).
  { clear lens Hlens Hin d Hd. induction lens as [|len lens IH]; intros iot Hpos Hi Hlen.
    - exists [], 0%nat, iot. rewrite take_0. split_and!; try done. simpl; lia.
    - apply Forall_cons in Hpos as [Hl Hpos]. simpl in Hlen.
      assert (Hs : 0 <= foldr Z.add 0 lens)
        by (clear -Hpos; induction Hpos; simpl; lia).
      destruct (ioterm_read_run raw_ops rx tx I fuel len iot Hi Hl) as
        (k & out & iot1 & E & Hne & Hk & Hkl & Hi1 & Er & Et & _ & Es); [| |done|].
      { intros E. rewrite E in Hlen. simpl in Hlen. lia. }
      { intros _ E. rewrite E in Hlen. simpl in Hlen. lia. }
      destruct (IH iot1 Hpos Hi1) as (out' & k' & iot' & E' & Er' & Hk' & Es' & Hlo & Et').
      { rewrite Er, length_drop. lia. }
      exists (out ++ out'), (k + k')%nat, iot'. cbn [ioterm_reads].
      rewrite (bind_Ok _ _ _ _ _ E), (bind_Ok _ _ _ _ _ E').
      rewrite Er, length_drop in Hk'.
      split_and!; try lia.
      + unfold mret, M_ret. cbn [fst snd]. by rewrite Nat2Z.id, take_ge by lia.
      + by rewrite Er', Er, drop_drop.
      + rewrite <- take_take_drop, <- Er, ioterm_scan_app, Es, Es'. done.
      + rewrite length_app. destruct out; [done|]. simpl. lia.
      + by rewrite Et'. }
  destruct (G lens (ioterm_init d) Hlens Hd Hin) as (out & k & iot' & E & Er & Hk & Es & Hl & Et).
  exists out, k, iot'. split_and!; try done.
  rewrite <- (proj1 (ioterm_scan_normalize _)). cbn [ioterm_init cr_in rawio] in Es. by rewrite Es.
Qed.

Lemma ioterm_input_normalized_witness :
  exists out iot', ioterm_reads tape_ops 2 [1; 1] (ioterm_init (mkTape [97; 13; 10; 98; 99] []))
    = Ok (out, iot') /\ (2 <= length out)%nat.
Proof.
  destruct (ioterm_input_normalized tape_ops t_in t_out (fun _ => True)
    (mkTape [97; 13; 10; 98; 99] []) 2 [1; 1]) as (out & k & iot' & E & _ & _ & _ & Hl & _).
  - exact I.
  - repeat constructor; lia.
  - lia.
  - simpl. lia.
  - exists out, iot'. exact (conj E Hl).
Defined.

Lemma out_scan_nl cr l : (out_scan cr (l ++ [NL])).1 = false.
Proof.
  revert cr. induction l as [|c l IH]; intros cr; [done|].
  rewrite <- app_comm_cons, out_scan_cons. apply IH.
Qed.

(** One whole write. *)
Lemma ioterm_write_all {D} (raw_ops : io_ops D) (rx tx : D -> list Z) (I : D -> Prop)
    `{!Terminal raw_ops rx tx I} iot buf :
  I (rawio iot) ->
  exists iot', ioterm_write raw_ops buf iot
      = Ok (Z.of_nat (length buf) - skipped (cr_out iot) buf, iot') /\
    I (rawio iot') /\ cr_in iot' = cr_in iot /\ rx (rawio iot') = rx (rawio iot) /\
    cr_out iot' = (out_scan (cr_out iot) buf).1 /\
    tx (rawio iot') = tx (rawio iot) ++ (out_scan (cr_out iot) buf).2.
Proof.
  intros Hi.
  destruct (ioterm_write_run raw_ops rx tx I (length buf) buf 0%nat 0%nat 0 iot) as
    (iot' & E & Hi' & Ei & Er & Eo & Et); try done; try lia.
  rewrite drop_0 in *. rewrite slice_empty, app_nil_l in Et.
  exists iot'. split_and!; try done.
  unfold ioterm_write. rewrite E. do 2 f_equal. lia.
Qed.

(** C30. Output normalisation.  One write to the terminal, whatever the state
    left by earlier writes and however the device splits its work, sends to the
    device exactly what the table in the comment of io.c says, and leaves the
    state it says; from the initial state that is the buffer with every line
    ending written as CR NL.  The result is the length of the buffer, less one
    if the first character is a newline that completes a CR already written as
    CR NL. *)
Theorem ioterm_write_spec {D : Type} (raw_ops : io_ops D) (rx tx : D -> list Z) (I : D -> Prop)
    `{!Terminal raw_ops rx tx I} (iot : io_term D) (buf : list Z) (Hi : I (rawio iot)) :
  exists iot', ioterm_write raw_ops buf iot
      = Ok (Z.of_nat (length buf) - skipped (cr_out iot) buf, iot') /\
    I (rawio iot') /\ cr_in iot' = cr_in iot /\ rx (rawio iot') = rx (rawio iot) /\
    cr_out iot' = (out_scan (cr_out iot) buf).1 /\
    tx (rawio iot') = tx (rawio iot) ++ (out_scan (cr_out iot) buf).2 /\
    (cr_out iot = false -> tx (rawio iot') = tx (rawio iot) ++ normalize_out buf).
Proof.
  destruct (ioterm_write_all raw_ops rx tx I iot buf Hi) as (iot' & E & Hi' & Ei & Er & Eo & Et).
  exists iot'. split_and!; try done. intros Ef. by rewrite Et, Ef, (proj1 (out_scan_normalize buf)).
Qed.

Lemma ioterm_write_spec_witness :
  exists iot', ioterm_write tape_ops [97; 10; 98; 13] (ioterm_init (mkTape [] [])) = Ok (4, iot') /\
    t_out (rawio iot') = [97; 13; 10; 98; 13; 10].
Proof.
  destruct (ioterm_write_spec tape_ops t_in t_out (fun _ => True) (ioterm_init (mkTape [] []))
    [97; 10; 98; 13] I) as (iot' & E & _ & _ & _ & _ & Et & _).
  exists iot'. exact (conj E Et).
Defined.

(** A newline that follows a CR of an earlier write is not counted, so
    [iowrite] on the terminal goes wrong after a CR: with a newline alone it
    reports that nothing was written, which [ioputc] turns into -EIO, and with
    a longer buffer it sends the last character a second time. *)
Theorem ioterm_iowrite_after_cr {D : Type} (raw_ops : io_ops D) (rx tx : D -> list Z)
    (I : D -> Prop) `{!Terminal raw_ops rx tx I} (iot : io_term D) (fuel : nat)
    (mid : list Z) (last : Z) (Hi : I (rawio iot)) (Hcr : cr_out iot = true) :
  (exists iot', iowrite (ioterm_ops raw_ops fuel) [NL] iot = Ok (0, iot') /\
     tx (rawio iot') = tx (rawio iot)) /\
  (exists iot', ioputc (ioterm_ops raw_ops fuel) NL iot = Ok (- EIO, iot')) /\
  (exists iot', let buf := NL :: mid ++ [last] in
     iowrite (ioterm_ops raw_ops fuel) buf iot = Ok (Z.of_nat (length buf), iot') /\
     tx (rawio iot') = tx (rawio iot) ++ (out_scan true buf).2
                         ++ (out_scan (out_scan true buf).1 [last]).2).
Proof.
  destruct (ioterm_write_all raw_ops rx tx I iot [NL] Hi) as (iot1 & E1 & _ & _ & _ & _ & Et1). rewrite Hcr in E1, Et1.
  assert (Ew : iowrite (ioterm_ops raw_ops fuel) [NL] iot = Ok (0, iot1)).
  { change (iowrite (ioterm_ops raw_ops fuel) [NL] iot) with
      ((cnt ← ioterm_write raw_ops [NL];
        if cnt <? 0 then mret cnt else if cnt =? 0 then mret 0
        else iowrite_loop 0 (ioterm_write raw_ops) [NL] (0 + cnt)) iot).
    by rewrite (bind_Ok _ _ _ _ _ E1). }
  split_and!.
  - exists iot1. split; [done|]. rewrite Et1. cbn. apply app_nil_r.
  - exists iot1. unfold ioputc. by rewrite (bind_Ok _ _ _ _ _ Ew).
  - set (buf := NL :: mid ++ [last]).
    assert (Hlen : length buf = S (S (length mid))) by (unfold buf; simpl; rewrite length_app; simpl; lia).
    destruct (ioterm_write_all raw_ops rx tx I iot buf Hi) as (iot2 & E2 & Hi2 & _ & _ & Eo2 & Et2). rewrite Hcr in E2, Eo2, Et2.
    destruct (ioterm_write_all raw_ops rx tx I iot2 [last] Hi2) as (iot3 & E3 & _ & _ & _ & _ & Et3).
    assert (Hsk : skipped (cr_out iot2) [last] = 0).
    { cbn. destruct (Z.eqb_spec last NL) as [->|]; [|by rewrite andb_false_r].
      rewrite Eo2. unfold buf. change (NL :: mid ++ [NL]) with ((NL :: mid) ++ [NL]).
      by rewrite out_scan_nl. }
    exists iot3. cbn zeta. split.
    + unfold iowrite. cbn [op_write ioterm_ops]. rewrite Hlen. cbn [iowrite_loop].
      rewrite Hlen. destruct (Z.ltb_spec 0 (Z.of_nat (S (S (length mid))))); [|lia].
      rewrite drop_0, (bind_Ok _ _ _ _ _ E2), Hlen. change (skipped true buf) with 1.
      destruct (Z.ltb_spec (Z.of_nat (S (S (length mid))) - 1) 0); [lia|].
      destruct (Z.eqb_spec (Z.of_nat (S (S (length mid))) - 1) 0); [lia|].
      destruct (Z.ltb_spec (0 + (Z.of_nat (S (S (length mid))) - 1)) (Z.of_nat (S (S (length mid))))); [|lia].
      replace (drop (Z.to_nat (0 + (Z.of_nat (S (S (length mid))) - 1))) buf) with [last].
      2: { unfold buf. rewrite app_comm_cons. symmetry. apply drop_app_length'. simpl. lia. }
      rewrite (bind_Ok _ _ _ _ _ E3), Hsk. cbn [length].
      change (Z.of_nat 1 - 0) with 1. cbn [Z.ltb Z.eqb Z.compare].
      destruct (length mid) as [|m]; cbn [iowrite_loop].
      * rewrite Hlen. done.
      * rewrite Hlen. match goal with |- context [?a <? ?b] => destruct (Z.ltb_spec a b); [lia|] end.
        unfold mret, M_ret. do 2 f_equal. lia.
    + by rewrite Et3, Et2, Eo2, <- app_assoc.
Qed.

Lemma ioterm_iowrite_after_cr_witness :
  exists iot', iowrite (ioterm_ops tape_ops 2) [10; 97; 98] (mkTerm (mkTape [] []) true false)
      = Ok (3, iot') /\ t_out (rawio iot') = [97; 98; 98].
Proof.
  destruct (ioterm_iowrite_after_cr tape_ops t_in t_out (fun _ => True)
    (mkTerm (mkTape [] []) true false) 2 [97] 98 I eq_refl) as (_ & _ & iot' & E & Et).
  exists iot'. exact (conj E Et).
Defined.

(** Writing a text one character at a time. *)
Lemma emit_iovprintf {D} (ops : io_ops D) (tx : D -> list Z) (I : D -> Prop) `{!Sink ops tx I} out d :
  I d ->
  exists d', emit (iovprintf_putc ops) out (Ok (0, d)) = Ok (0, d') /\ I d' /\ tx d' = tx d ++ out.
Proof.
  revert d. induction out as [|c out IH]; intros d Hd.
  - exists d. by rewrite app_nil_r.
  - destruct (iowrite_run ops I tx (fun _ => tt) [c] (fun _ _ _ _ _ _ => eq_refl) d Hd)
      as (d1 & E & Hd1 & Et1 & _).
    destruct (IH d1 Hd1) as (d' & E' & Hd' & Et').
    exists d'. split_and!; [|done|by rewrite Et', Et1, <- app_assoc].
    unfold emit in *. cbn [foldl]. rewrite <- E'. f_equal.
    unfold iovprintf_putc. cbn [obind]. change (0 =? 0) with true. cbn iota.
    unfold ioputc. rewrite (bind_Ok _ _ _ _ _ E).
    change (obind _ _) with (Ok (if u8 c <? 0 then u8 c else 0, d1)).
    pose proof (u8_range c). destruct (Z.ltb_spec (u8 c) 0); [lia|done].
Qed.

(** Formatted output reaches the object: for a format whose arguments fit
    and an object that keeps the contract, [ioprintf] returns the number of
    characters and has added to the output the text of the format, the same
    text [snprintf] would put in a large enough buffer. *)
Theorem iovprintf_spec {D : Type} (ops : io_ops D) (tx : D -> list Z) (I : D -> Prop)
    `{!Sink ops tx I} (d : D) (fmt : list Z) (ap : list va) (buf : list Z)
    (Hd : I d) (Hfit : args_ok fmt ap = true) :
  exists out d', iovprintf ops fmt ap d = Ok (Z.of_nat (length out), d') /\ I d' /\
    tx d' = tx d ++ out /\
    (Z.of_nat (length out) < Z.of_nat (length buf) ->
     vsnprintf buf (Z.of_nat (length buf)) fmt ap
     = Some (Z.of_nat (length out), splice 0 (out ++ [0]) buf)).
Proof.
  destruct (vgprintf_total (fun c l => l ++ [c]) [] fmt ap Hfit) as [[n out] E].
  assert (Ep : printed fmt ap = Some out) by (unfold printed; by rewrite E).
  destruct (emit_iovprintf ops tx I out d Hd) as (d' & Ee & Hd' & Et).
  exists out, d'. split_and!; try done.
  - unfold iovprintf. rewrite vgprintf_emit, Ep. cbn [fmap option_fmap option_map]. by rewrite Ee.
  - intros Hl. unfold vsnprintf. rewrite vgprintf_emit, Ep.
    cbn [fmap option_fmap option_map mbind option_bind].
    rewrite emit_vsnprintf by lia. cbn [vs_rem vs_pos vs_buf].
    rewrite Nat.min_l by lia. rewrite take_ge by lia.
    destruct (Z.eqb_spec (Z.of_nat (length buf) - Z.of_nat (length out)) 0); [lia|]. cbn [negb].
    rewrite splice_take_S by lia. done.
Qed.

Lemma iovprintf_spec_witness :
  exists out d', iovprintf tape_ops [37; 117; 0] [VInt 305] (mkTape [] [])
      = Ok (Z.of_nat (length out), d') /\ t_out d' = out.
Proof.
  destruct (iovprintf_spec tape_ops t_out (fun _ => True) (mkTape [] []) [37; 117; 0] [VInt 305] []
    I eq_refl) as (out & d' & E & _ & Et & _).
  exists out, d'. exact (conj E Et).
Defined.

(** Line editing: on a terminal whose input is a line of keys ended by CR or
    NL, [ioterm_getsn] returns the buffer; it holds, NUL-terminated, the line the
    keys edit (backspace and delete remove the last character, the character
    '[' is ignored, and a character is taken only while there is room for it and
    the NUL); exactly the keys and their terminator have been consumed, and the
    echo has been sent to the raw device. *)
Theorem ioterm_getsn_spec {D : Type} (raw_ops : io_ops D) (rx tx : D -> list Z) (I : D -> Prop)
    `{!Terminal raw_ops rx tx I} (iot : io_term D) (fuel rfuel : nat) (buf ks more : list Z)
    (n e : Z) (Hi : I (rawio iot)) (Hcr : cr_in iot = false)
    (Hin : rx (rawio iot) = ks ++ e :: more) (Hend : e = CR \/ e = NL)
    (Hks : Forall (fun c => 0 < c < 256 /\ c <> CR /\ c <> NL) ks)
    (Hn : 1 <= n <= Z.of_nat (length buf)) (Hn64 : n < 2 ^ 64)
    (Hfuel : (length ks < fuel)%nat) (Hrfuel : (2 <= rfuel)%nat) :
  exists buf' iot', ioterm_getsn raw_ops fuel rfuel buf n iot = Ok (Some buf', iot') /\
    cstr buf' = foldl (edit n) [] ks /\ Z.of_nat (length (cstr buf')) < n /\
    length buf' = length buf /\ rx (rawio iot') = more /\
    tx (rawio iot') = tx (rawio iot) ++ edit_echoes n [] ks.
Proof.
  destruct (getsn_run raw_ops rx tx I n rfuel ks fuel buf [] iot e more) as
    (buf' & iot' & E & Er & Et & Hl & Ek); try done; try (simpl; lia).
  { eapply Forall_impl; [exact Hks|]. cbn. lia. }
  set (line := foldl (edit n) [] ks) in *.
  assert (Hline : Forall (fun c => c <> 0) line /\ Z.of_nat (length line) < n).
  { unfold line. clear -Hks Hn.
    assert (G : forall ks l, Forall (fun c => 0 < c < 256 /\ c <> CR /\ c <> NL) ks ->
      Forall (fun c => c <> 0) l -> Z.of_nat (length l) < n ->
      Forall (fun c => c <> 0) (foldl (edit n) l ks) /\ Z.of_nat (length (foldl (edit n) l ks)) < n).
    { clear ks Hks. induction ks as [|c ks IH]; intros l Hks Hl Hb; [done|].
      apply Forall_cons in Hks as [Hc Hks]. apply IH; [done| |by apply edit_bound].
      unfold edit. repeat casesplit; try done; [by apply Forall_take|].
      apply Forall_app. split; [done|]. constructor; [lia|constructor]. }
    apply (G ks []); [done|constructor|simpl; lia]. }
  destruct Hline as [Hnz Hb].
  assert (Ec : cstr buf' = line).
  { rewrite <- (take_drop (S (length line)) buf'), Ek, <- app_assoc. by apply cstr_fixed. }
  exists buf', iot'. rewrite Ec. split_and!; try done.
  unfold ioterm_getsn. rewrite <- E. f_equal. simpl. lia.
Qed.

Lemma ioterm_getsn_spec_witness :
  exists buf' iot', ioterm_getsn tape_ops 10 2 [9; 9; 9; 9] 4
      (ioterm_init (mkTape [97; 98; 8; 99; 13; 10] [])) = Ok (Some buf', iot') /\
    cstr buf' = [97; 99].
Proof.
  destruct (ioterm_getsn_spec tape_ops t_in t_out (fun _ => True)
    (ioterm_init (mkTape [97; 98; 8; 99; 13; 10] [])) 10 2 [9; 9; 9; 9] [97; 98; 8; 99] [10] 4 13 I
    eq_refl eq_refl (or_introl eq_refl)) as (buf' & iot' & E & Ec & _).
  - repeat constructor; (lia || discriminate).
  - simpl. lia.
  - lia.
  - simpl. lia.
  - lia.
  - exists buf', iot'. exact (conj E Ec).
Defined.
