(* ===== verification/Device.v ===== *)
(** device.c: the device registry.

    [devtab] is a table of [NDEV] entries; a driver's open function is
    identified by its address (0 is NULL), and what it does is a parameter of
    [device_open].  The abstract registry is the list of devices in the order
    they were registered. *)

From S2P Require Import Prelude CString Io.

Definition NDEV : Z := 16.
Definition ENODEV : Z := 4.
(** The names of the devices, "ser" and "blk". *)
Definition SER_NAME : list Z := [115; 101; 114; 0].
Definition BLK_NAME : list Z := [98; 108; 107; 0].

Record device := mkDevice { dname : option (list Z); openfn : Z; daux : Z }.
Notation devtab := (list device).

(** The loop of [device_register]: the first entry without a name, with the
    number of entries before it that have the given name. *)
Fixpoint register_scan (tab : devtab) (name : list Z) (devno instno : Z) : outcome (Z * Z) :=
  match tab with
  | [] => Ok (devno, instno)
  | d :: tab' =>
      match dname d with
      | None => Ok (devno, instno)
      | Some nm =>
          match strcmp (Some nm) (Some name) with
          | None => Undef "unterminated name"
          | Some c => register_scan tab' name (devno + 1) (if c =? 0 then instno + 1 else instno)
          end
      end
  end.

Definition device_register (name : option (list Z)) (fn aux : Z) : M devtab Z := fun tab =>
  match name with
  | None => Panic "ASSERTION FAILED"
  | Some nm =>
      if fn =? 0 then Panic "ASSERTION FAILED"
      else obind (register_scan tab nm 0 0) (fun '(devno, instno) =>
        if devno =? NDEV then Panic "Too many devices (increase NDEV)"
        else Ok (instno, <[Z.to_nat devno := mkDevice (Some nm) fn aux]> tab))
  end.

(** The loop of [device_open]: the entry of instance [instno], if there is one;
    [k] counts the instances seen. *)
Fixpoint open_scan (tab : devtab) (name : list Z) (k instno : Z) : outcome (option device) :=
  match tab with
  | [] => Ok None
  | d :: tab' =>
      if negb (openfn d =? 0) then
        match strcmp (dname d) (Some name) with
        | None => Undef "unterminated name"
        | Some c =>
            if c =? 0 then
              if k =? instno then Ok (Some d) else open_scan tab' name (k + 1) instno
            else open_scan tab' name k instno
        end
      else open_scan tab' name k instno
  end.

(** The result of a driver's open function is its return value and the I/O
    object it stored. *)
Definition device_open {St} (call : Z -> Z -> M St (Z * option Z)) (tab : devtab)
    (name : list Z) (instno : Z) : M St (Z * option Z) := fun s =>
  obind (open_scan tab name 0 instno) (fun o =>
    match o with
    | None => Ok ((- ENODEV, None), s)
    | Some d => call (openfn d) (daux d) s
    end).

(** ** The registry as a list *)

(** A name as the registry gets it. *)
Definition name_ok (nm : list Z) : Prop := terminated nm /\ Forall (fun c => 0 <= c) nm.

Definition entry_of (e : list Z * Z * Z) : device := mkDevice (Some e.1.1) e.1.2 e.2.
Definition no_device : device := mkDevice None 0 0.

(** The table holds the devices [l], in order, and is empty after them. *)
Record holds (tab : devtab) (l : list (list Z * Z * Z)) : Prop := {
  hd_tab : tab = (entry_of <$> l) ++ repeat no_device (16 - length l);
  hd_len : (length l <= 16)%nat;
  hd_ok : Forall (fun e => name_ok e.1.1 /\ e.1.2 <> 0) l
}.

(** The devices with a name: C strings are compared up to their terminator. *)
Definition instances (l : list (list Z * Z * Z)) (name : list Z) : list (list Z * Z * Z) :=
  filter (fun e => cstr e.1.1 = cstr name) l.

Lemma strcmp_names a b :
  name_ok a -> name_ok b ->
  exists c, strcmp (Some a) (Some b) = Some c /\ (c =? 0) = bool_decide (cstr a = cstr b).
Proof.
  intros [Ha Ha'] [Hb Hb']. exists (sign (str_compare (cstr a) (cstr b))).
  split; [by apply strcmp_chars_spec|]. case_bool_decide as E.
  - apply Z.eqb_eq. by apply sign_0.
  - apply Z.eqb_neq. by rewrite sign_0.
Qed.

Lemma register_scan_run l rest name devno instno :
  Forall (fun e => name_ok e.1.1 /\ e.1.2 <> 0) l -> name_ok name ->
  (forall d rest', rest = d :: rest' -> dname d = None) ->
  register_scan ((entry_of <$> l) ++ rest) name devno instno
  = Ok (devno + Z.of_nat (length l), instno + Z.of_nat (length (instances l name))).
Proof.
  intros Hl Hn Hr. revert devno instno.
  induction Hl as [|e l [He Hf] _ IH]; intros devno instno; cbn [fmap list_fmap app register_scan].
  - rewrite !Z.add_0_r. destruct rest as [|d rest']; [done|]. cbn. by rewrite (Hr d rest' eq_refl).
  - cbn [dname entry_of]. destruct (strcmp_names e.1.1 name He Hn) as (c & -> & Ec).
    fold (fmap (M := list) entry_of l). rewrite IH, Ec. unfold instances. rewrite filter_cons. fold (instances l name).
    case_bool_decide; destruct (decide _); try done; cbn [length]; do 2 f_equal; lia.
Qed.

Lemma open_scan_empty n name k instno : open_scan (repeat no_device n) name k instno = Ok None.
Proof. induction n; [done|]. cbn. done. Qed.

Lemma open_scan_run l n name k instno :
  Forall (fun e => name_ok e.1.1 /\ e.1.2 <> 0) l -> name_ok name -> k <= instno ->
  open_scan ((entry_of <$> l) ++ repeat no_device n) name k instno
  = Ok (entry_of <$> (instances l name !! Z.to_nat (instno - k))).
Proof.
  intros Hl Hn. revert k.
  induction Hl as [|e l [He Hf] _ IH]; intros k Hk; cbn [fmap list_fmap app open_scan].
  - rewrite open_scan_empty. done.
  - cbn [openfn dname entry_of]. destruct (Z.eqb_spec e.1.2 0); [done|]. cbn [negb].
    destruct (strcmp_names e.1.1 name He Hn) as (c & -> & Ec).
    fold (fmap (M := list) entry_of l). rewrite Ec. unfold instances. rewrite filter_cons. fold (instances l name).
    case_bool_decide; destruct (decide _); try done; [|by apply IH].
    destruct (Z.eqb_spec k instno) as [->|Hne]; [by rewrite Z.sub_diag|].
    rewrite IH by lia. do 2 f_equal. replace (Z.to_nat (instno - k)) with (S (Z.to_nat (instno - (k + 1)))) by lia.
    done.
Qed.

(** A negative instance number names no device. *)
Lemma open_scan_negative l n name k instno :
  Forall (fun e => name_ok e.1.1 /\ e.1.2 <> 0) l -> name_ok name -> instno < k ->
  open_scan ((entry_of <$> l) ++ repeat no_device n) name k instno = Ok None.
Proof.
  intros Hl Hn. revert k.
  induction Hl as [|e l [He Hf] _ IH]; intros k Hk; cbn [fmap list_fmap app open_scan].
  - apply open_scan_empty.
  - cbn [openfn dname entry_of]. destruct (Z.eqb_spec e.1.2 0); [done|]. cbn [negb].
    destruct (strcmp_names e.1.1 name He Hn) as (c & -> & Ec). fold (fmap (M := list) entry_of l).
    destruct (c =? 0); [|by apply IH]. destruct (Z.eqb_spec k instno); [lia|]. apply IH. lia.
Qed.

(** Registering appends to the list, while there is room. *)
Lemma register_run tab l name fn aux :
  holds tab l -> name_ok name -> fn <> 0 -> (length l < 16)%nat ->
  exists tab', device_register (Some name) fn aux tab
      = Ok (Z.of_nat (length (instances l name)), tab') /\ holds tab' (l ++ [(name, fn, aux)]).
Proof.
  intros [-> Hlen Hok] Hname Hfn Hlt. unfold device_register. rewrite (proj2 (Z.eqb_neq fn 0) Hfn).
  rewrite register_scan_run; [|done|done|].
  2:{ intros d rest' E. destruct (16 - length l)%nat; [done|]. cbn in E. by injection E as <- _. }
  cbn [obind]. rewrite !Z.add_0_l.
  destruct (Z.eqb_spec (Z.of_nat (length l)) NDEV) as [E|_]; [unfold NDEV in E; lia|].
  eexists. split; [reflexivity|]. constructor.
  - rewrite Nat2Z.id, fmap_app, length_app. cbn [length].
    replace (16 - length l)%nat with (S (16 - (length l + 1)))%nat by lia. cbn [repeat].
    rewrite insert_app_r_alt by (by rewrite length_fmap). rewrite length_fmap, Nat.sub_diag.
    rewrite <- app_assoc. done.
  - rewrite length_app. cbn. lia.
  - apply Forall_app. split; [done|]. constructor; [done|constructor].
Qed.

(** ** Results *)


(** Two serial ports and a disk: "ser", "ser", "blk". *)
Definition demo_devs : list (list Z * Z * Z) :=
  [([115; 101; 114; 0], 4096, 1); ([115; 101; 114; 0], 4096, 2); ([98; 108; 107; 0], 8192, 3)].
