(* ===== verification/Virtio.v ===== *)
(** virtio.h and virtio.c: the registers of a VirtIO device, feature sets and
    feature negotiation.

    The registers are a record; the feature words the device offers are a
    function of the selector, and whether the device keeps the FEATURES_OK bit
    that the driver sets is a property of the device. *)

From S2P Require Import Prelude Io.

Definition VIRTIO_MAGIC : Z := 0x74726976.
Definition VIRTIO_ID_NONE : Z := 0.
Definition VIRTIO_ID_BLOCK : Z := 2.
Definition VIRTIO_ID_CONSOLE : Z := 3.
Definition VIRTIO_STAT_ACKNOWLEDGE : Z := 1.
Definition VIRTIO_STAT_DRIVER : Z := 2.
Definition VIRTIO_STAT_DRIVER_OK : Z := 4.
Definition VIRTIO_STAT_FEATURES_OK : Z := 8.
Definition VIRTIO_F_INDIRECT_DESC : Z := 28.
Definition VIRTIO_F_RING_RESET : Z := 40.
Definition VIRTIO_FEATLEN : Z := 4.
Definition VIRTQ_DESC_F_NEXT : Z := 1.
Definition VIRTQ_DESC_F_WRITE : Z := 2.
Definition VIRTQ_DESC_F_INDIRECT : Z := 4.

(** The queue registers. *)
Record virtq_regs := mkVirtq {
  queue_sel : Z; queue_num : Z; queue_ready : Z;
  queue_desc : Z; queue_driver : Z; queue_device : Z; queue_reset : Z
}.

Record virtio_mmio_regs := mkRegs {
  magic_value : Z; version : Z; device_id : Z;
  device_features : Z -> Z;       (* the word the selector names *)
  features_kept : bool;           (* the device keeps FEATURES_OK *)
  device_features_sel : Z; driver_features_sel : Z;
  driver_features : Z -> Z;       (* the words the driver has written *)
  vstatus : Z; queue : virtq_regs; queue_notify : Z;
  interrupt_status : Z; interrupt_ack : Z;
  blk_capacity : Z; blk_blk_size : Z
}.

Definition set_dev_sel i r := mkRegs (magic_value r) (version r) (device_id r) (device_features r)
  (features_kept r) i (driver_features_sel r) (driver_features r) (vstatus r) (queue r)
  (queue_notify r) (interrupt_status r) (interrupt_ack r) (blk_capacity r) (blk_blk_size r).
Definition set_drv_sel i r := mkRegs (magic_value r) (version r) (device_id r) (device_features r)
  (features_kept r) (device_features_sel r) i (driver_features r) (vstatus r) (queue r)
  (queue_notify r) (interrupt_status r) (interrupt_ack r) (blk_capacity r) (blk_blk_size r).
(** A write of [driver_features] goes to the word [driver_features_sel] names. *)
Definition set_drv_features x r := mkRegs (magic_value r) (version r) (device_id r) (device_features r)
  (features_kept r) (device_features_sel r) (driver_features_sel r)
  (fun i => if i =? driver_features_sel r then x else driver_features r i) (vstatus r) (queue r)
  (queue_notify r) (interrupt_status r) (interrupt_ack r) (blk_capacity r) (blk_blk_size r).
(** A write of [status]; the device may drop FEATURES_OK. *)
Definition set_status x r := mkRegs (magic_value r) (version r) (device_id r) (device_features r)
  (features_kept r) (device_features_sel r) (driver_features_sel r) (driver_features r)
  (if features_kept r then x else Z.land x (Z.lnot VIRTIO_STAT_FEATURES_OK)) (queue r)
  (queue_notify r) (interrupt_status r) (interrupt_ack r) (blk_capacity r) (blk_blk_size r).
Definition set_queue q r := mkRegs (magic_value r) (version r) (device_id r) (device_features r)
  (features_kept r) (device_features_sel r) (driver_features_sel r) (driver_features r) (vstatus r) q
  (queue_notify r) (interrupt_status r) (interrupt_ack r) (blk_capacity r) (blk_blk_size r).
Definition set_notify x r := mkRegs (magic_value r) (version r) (device_id r) (device_features r)
  (features_kept r) (device_features_sel r) (driver_features_sel r) (driver_features r) (vstatus r)
  (queue r) x (interrupt_status r) (interrupt_ack r) (blk_capacity r) (blk_blk_size r).
(** A write of [interrupt_ack] makes the device drop the events named. *)
Definition set_ack x r := mkRegs (magic_value r) (version r) (device_id r) (device_features r)
  (features_kept r) (device_features_sel r) (driver_features_sel r) (driver_features r) (vstatus r)
  (queue r) (queue_notify r) (Z.land (interrupt_status r) (Z.lnot x)) x (blk_capacity r) (blk_blk_size r).
(** The device raises an event. *)
Definition raise x r := mkRegs (magic_value r) (version r) (device_id r) (device_features r)
  (features_kept r) (device_features_sel r) (driver_features_sel r) (driver_features r) (vstatus r)
  (queue r) (queue_notify r) (Z.lor (interrupt_status r) x) (interrupt_ack r) (blk_capacity r) (blk_blk_size r).

(** ** Feature sets *)

Definition virtio_featset_init : list Z := replicate 4 0.

Definition virtio_featset_add (fts : list Z) (k : Z) : list Z :=
  <[Z.to_nat (k / 32) := Z.lor (nth (Z.to_nat (k / 32)) fts 0) (Z.shiftl 1 (k mod 32))]> fts.

Definition virtio_featset_test (fts : list Z) (k : Z) : Z :=
  Z.land (Z.shiftr (nth (Z.to_nat (k / 32)) fts 0) (k mod 32)) 1.

Definition virtio_check_feature (k : Z) (r : virtio_mmio_regs) : Z * virtio_mmio_regs :=
  let r := set_dev_sel (k / 32) r in
  (Z.land (Z.shiftr (device_features r (device_features_sel r)) (k mod 32)) 1, r).

(** ** Queues *)

Definition virtio_notify_avail (qid : Z) (r : virtio_mmio_regs) : virtio_mmio_regs := set_notify qid r.

Definition virtio_enable_virtq (qid : Z) (r : virtio_mmio_regs) : virtio_mmio_regs :=
  let q := queue r in
  set_queue (mkVirtq qid (queue_num q) 1 (queue_desc q) (queue_driver q) (queue_device q) (queue_reset q)) r.

Definition virtio_reset_virtq (qid : Z) (r : virtio_mmio_regs) : virtio_mmio_regs :=
  let q := queue r in
  set_queue (mkVirtq qid (queue_num q) (queue_ready q) (queue_desc q) (queue_driver q) (queue_device q) 1) r.

Definition virtio_attach_virtq (qid len desc_addr used_addr avail_addr : Z) (r : virtio_mmio_regs)
    : virtio_mmio_regs :=
  let q := queue r in
  set_queue (mkVirtq qid len (queue_ready q) desc_addr avail_addr used_addr (queue_reset q)) r.

(** ** Negotiation *)

(** The first loop: are the needed features offered? *)
Fixpoint check_needed (needed : list Z) (idxs : list Z) (r : virtio_mmio_regs) : bool * virtio_mmio_regs :=
  match idxs with
  | [] => (true, r)
  | i :: idxs' =>
    if negb (nth (Z.to_nat i) needed 0 =? 0) then
      let r := set_dev_sel i r in
      if Z.land (device_features r (device_features_sel r)) (nth (Z.to_nat i) needed 0)
           =? nth (Z.to_nat i) needed 0
      then check_needed needed idxs' r
      else (false, r)
    else check_needed needed idxs' r
  end.

(** The second loop: request the wanted features the device has. *)
Fixpoint request_wanted (enabled wanted : list Z) (idxs : list Z) (r : virtio_mmio_regs)
    : list Z * virtio_mmio_regs :=
  match idxs with
  | [] => (enabled, r)
  | i :: idxs' =>
    if negb (nth (Z.to_nat i) wanted 0 =? 0) then
      let r := set_drv_sel i (set_dev_sel i r) in
      let e := Z.land (device_features r (device_features_sel r)) (nth (Z.to_nat i) wanted 0) in
      request_wanted (<[Z.to_nat i := e]> enabled) wanted idxs' (set_drv_features e r)
    else request_wanted enabled wanted idxs' r
  end.

Definition feat_idxs : list Z := range 4 0 VIRTIO_FEATLEN 1.

(** [enabled] is the set the caller passes, which it need not have initialised;
    the result has the return value, the enabled set and the registers. *)
Definition virtio_negotiate_features (enabled wanted needed : list Z) (r : virtio_mmio_regs)
    : outcome (Z * list Z * virtio_mmio_regs) :=
  let '(ok, r) := check_needed needed feat_idxs r in
  if negb ok then Ok (- ENOTSUP, enabled, r)
  else
    let '(enabled, r) := request_wanted enabled wanted feat_idxs r in
    let r := set_status (Z.lor (vstatus r) VIRTIO_STAT_FEATURES_OK) r in
    if Z.land (vstatus r) VIRTIO_STAT_FEATURES_OK =? 0 then Panic "ASSERTION FAILED"
    else Ok (0, enabled, r).

(** ** What negotiation does *)

Definition same_hw (r r' : virtio_mmio_regs) : Prop :=
  device_features r' = device_features r /\ features_kept r' = features_kept r /\
  magic_value r' = magic_value r /\ version r' = version r /\ device_id r' = device_id r /\
  queue r' = queue r /\ blk_capacity r' = blk_capacity r /\ blk_blk_size r' = blk_blk_size r.

#[global] Instance same_hw_refl : Reflexive same_hw.
Proof. by intros r; split_and!. Qed.
#[global] Instance same_hw_trans : Transitive same_hw.
Proof. intros a b c H1 H2. unfold same_hw in *. destruct_and!. split_and!; congruence. Qed.

Definition offers (r : virtio_mmio_regs) (fts : list Z) (i : Z) : Prop :=
  Z.land (device_features r i) (nth (Z.to_nat i) fts 0) = nth (Z.to_nat i) fts 0.

#[global] Instance offers_dec r fts i : Decision (offers r fts i).
Proof. unfold offers. apply _. Defined.

Lemma check_needed_spec needed idxs r :
  let '(ok, r') := check_needed needed idxs r in
  same_hw r r' /\ vstatus r' = vstatus r /\ driver_features r' = driver_features r /\
  (ok = true <-> Forall (offers r needed) idxs).
Proof.
  revert r. induction idxs as [|i idxs IH]; intros r; cbn [check_needed].
  { split_and!; try done. }
  destruct (Z.eqb_spec (nth (Z.to_nat i) needed 0) 0) as [E0|E0]; cbn [negb].
  - specialize (IH r). destruct (check_needed needed idxs r) as [ok r'].
    destruct IH as (H1 & H2 & H3 & H4). split_and!; try done. rewrite H4, Forall_cons.
    unfold offers at 2. rewrite E0, Z.land_0_r. tauto.
  - cbn [device_features device_features_sel set_dev_sel].
    destruct (Z.eqb_spec (Z.land (device_features r i) (nth (Z.to_nat i) needed 0)) (nth (Z.to_nat i) needed 0))
      as [Eo|Eo].
    + specialize (IH (set_dev_sel i r)). destruct (check_needed needed idxs _) as [ok r'].
      destruct IH as (H1 & H2 & H3 & H4). split_and!; try done.
      rewrite H4, Forall_cons. unfold offers in *. cbn [device_features set_dev_sel]. tauto.
    + split_and!; try done. rewrite Forall_cons. unfold offers at 2.
      split; [done|]. intros [? _]. done.
Qed.

Lemma request_wanted_spec wanted idxs enabled r :
  NoDup idxs -> (forall i, i ∈ idxs -> 0 <= i /\ (Z.to_nat i < length enabled)%nat) ->
  let '(enabled', r') := request_wanted enabled wanted idxs r in
  same_hw r r' /\ vstatus r' = vstatus r /\ length enabled' = length enabled /\
  (forall i, i ∈ idxs -> nth (Z.to_nat i) wanted 0 <> 0 ->
     nth (Z.to_nat i) enabled' 0 = Z.land (device_features r i) (nth (Z.to_nat i) wanted 0) /\
     driver_features r' i = Z.land (device_features r i) (nth (Z.to_nat i) wanted 0)) /\
  (forall i, 0 <= i -> i ∉ idxs \/ nth (Z.to_nat i) wanted 0 = 0 ->
     nth (Z.to_nat i) enabled' 0 = nth (Z.to_nat i) enabled 0 /\
     driver_features r' i = driver_features r i).
Proof.
  revert enabled r. induction idxs as [|i idxs IH]; intros enabled r Hnd Hb; cbn [request_wanted].
  { split_and!; try done. intros i Hi. by apply not_elem_of_nil in Hi. }
  apply NoDup_cons in Hnd as [Hi Hnd]. destruct (Hb i) as [Hi0 Hil]; [set_solver|].
  assert (Hb' : forall j, j ∈ idxs -> 0 <= j /\ (Z.to_nat j < length enabled)%nat) by (intros; apply Hb; set_solver).
  destruct (Z.eqb_spec (nth (Z.to_nat i) wanted 0) 0) as [E0|E0]; cbn [negb].
  - specialize (IH enabled r Hnd Hb'). destruct (request_wanted _ _ _ _) as [e' r'].
    destruct IH as (H1 & H2 & H3 & H4 & H5). split_and!; try done.
    + intros j Hj Hw. apply H4; [|done]. apply elem_of_cons in Hj as [->|]; done.
    + intros j Hj Hx. apply H5; [done|]. destruct Hx as [Hx|]; [left; set_solver|by right].
  - cbn [device_features device_features_sel set_dev_sel set_drv_sel].
    set (e := Z.land (device_features r i) (nth (Z.to_nat i) wanted 0)).
    set (r1 := set_drv_features e (set_drv_sel i (set_dev_sel i r))).
    specialize (IH (<[Z.to_nat i := e]> enabled) r1 Hnd).
    destruct (request_wanted _ _ _ _) as [e' r']. destruct IH as (H1 & H2 & H3 & H4 & H5).
    { intros j Hj. rewrite length_insert. by apply Hb'. }
    rewrite length_insert in H3. split_and!; try done.
    + intros j Hj Hw. apply elem_of_cons in Hj as [->|Hj]; [|by apply H4].
      destruct (H5 i) as [A B]; [done|by left|]. rewrite A, B. unfold r1. cbn. rewrite Z.eqb_refl.
      split; [|done]. rewrite (nth_lookup _ _ 0), list_lookup_insert_eq by done. done.
    + intros j Hj Hx. destruct (H5 j) as [A B]; [done|destruct Hx; [left; set_solver|by right]|].
      assert (Hne : j <> i) by (intros ->; destruct Hx as [Hx|]; [set_solver|done]).
      rewrite A, B. unfold r1. cbn. rewrite (proj2 (Z.eqb_neq j i)) by done. split; [|done].
      rewrite !(nth_lookup _ _ 0), list_lookup_insert_ne by lia. done.
Qed.

Lemma feat_idxs_elem i : i ∈ feat_idxs <-> 0 <= i < 4.
Proof.
  unfold feat_idxs. rewrite range_elem by lia. unfold VIRTIO_FEATLEN.
  split; [intros (k & ? & -> & ?); lia|]. intros. exists i. lia.
Qed.

(** Negotiation with a device that offers what is needed and accepts the
    result: the enabled set is what the device offers of the wanted one, in the
    words where something is wanted, and this is what the driver reports. *)
Lemma negotiate_run enabled wanted needed r :
  length enabled = 4%nat -> features_kept r = true -> Forall (offers r needed) feat_idxs ->
  exists enabled' r',
    virtio_negotiate_features enabled wanted needed r = Ok (0, enabled', r') /\ same_hw r r' /\
    vstatus r' = Z.lor (vstatus r) VIRTIO_STAT_FEATURES_OK /\
    forall i, 0 <= i < 4 ->
      (nth (Z.to_nat i) wanted 0 <> 0 ->
         nth (Z.to_nat i) enabled' 0 = Z.land (device_features r i) (nth (Z.to_nat i) wanted 0) /\
         driver_features r' i = Z.land (device_features r i) (nth (Z.to_nat i) wanted 0)) /\
      (nth (Z.to_nat i) wanted 0 = 0 ->
         nth (Z.to_nat i) enabled' 0 = nth (Z.to_nat i) enabled 0 /\ driver_features r' i = driver_features r i).
Proof.
  intros Hl Hk Hn. unfold virtio_negotiate_features.
  pose proof (check_needed_spec needed feat_idxs r) as H1. destruct (check_needed needed feat_idxs r) as [ok r1].
  destruct H1 as (Hw1 & Hv1 & Hd1 & Hok). rewrite (proj2 Hok Hn). cbn [negb].
  pose proof (request_wanted_spec wanted feat_idxs enabled r1) as H2.
  destruct (request_wanted enabled wanted feat_idxs r1) as [e2 r2].
  destruct H2 as (Hw2 & Hv2 & Hl2 & Hin & Hout).
  { apply range_NoDup. lia. }
  { intros i Hi. apply feat_idxs_elem in Hi. lia. }
  assert (Hk2 : features_kept r2 = true) by (rewrite (proj1 (proj2 Hw2)), (proj1 (proj2 Hw1)); done).
  assert (Ef : device_features r1 = device_features r) by apply Hw1. rewrite Ef in Hin.
  cbn [vstatus set_status]. rewrite Hk2, Hv2, Hv1.
  rewrite (proj2 (Z.eqb_neq _ _)).
  2:{ intros E. assert (Hb : Z.testbit (Z.land (Z.lor (vstatus r) VIRTIO_STAT_FEATURES_OK) VIRTIO_STAT_FEATURES_OK) 3 = true)
        by (rewrite Z.land_spec, Z.lor_spec; change (Z.testbit VIRTIO_STAT_FEATURES_OK 3) with true; by rewrite orb_true_r).
      rewrite E in Hb. done. }
  eexists e2, _. split; [reflexivity|]. split_and!.
  - by transitivity r1; [|transitivity r2].
  - cbn. by rewrite Hk2.
  - intros i Hi. cbn [driver_features set_status]. split; intros Hw.
    + by apply Hin; [apply feat_idxs_elem|].
    + destruct (Hout i) as [-> ->]; [lia|by right|]. by rewrite Hd1.
Qed.

(** A needed feature that is not offered: nothing is requested. *)
Lemma negotiate_refused enabled wanted needed r :
  ~ Forall (offers r needed) feat_idxs ->
  exists r', virtio_negotiate_features enabled wanted needed r = Ok (- ENOTSUP, enabled, r') /\
    same_hw r r' /\ vstatus r' = vstatus r /\ driver_features r' = driver_features r.
Proof.
  intros Hn. unfold virtio_negotiate_features.
  pose proof (check_needed_spec needed feat_idxs r) as H1. destruct (check_needed needed feat_idxs r) as [ok r1].
  destruct H1 as (Hw1 & Hv1 & Hd1 & Hok). destruct ok; [by destruct Hn; apply Hok|]. by exists r1.
Qed.

(** ** Results *)

(** Feature negotiation.  When a needed feature is not offered,
    [virtio_negotiate_features] returns -ENOTSUP and neither the features the
    driver has reported nor the status have changed.  Otherwise, on a device
    that accepts the result, it returns 0; in every word where something is
    wanted, the enabled set and the features reported to the device are those
    wanted features that the device offers, every other word of both is left as
    it was, and FEATURES_OK is set. *)
Theorem virtio_negotiate_spec (enabled wanted needed : list Z) (r : virtio_mmio_regs)
    (Hlen : length enabled = 4%nat) (Hkept : features_kept r = true) :
  if decide (Forall (offers r needed) feat_idxs) then
    exists enabled' r',
      virtio_negotiate_features enabled wanted needed r = Ok (0, enabled', r') /\
      vstatus r' = Z.lor (vstatus r) VIRTIO_STAT_FEATURES_OK /\
      forall i, 0 <= i < 4 ->
        (nth (Z.to_nat i) wanted 0 <> 0 ->
           nth (Z.to_nat i) enabled' 0 = Z.land (device_features r i) (nth (Z.to_nat i) wanted 0) /\
           driver_features r' i = Z.land (device_features r i) (nth (Z.to_nat i) wanted 0)) /\
        (nth (Z.to_nat i) wanted 0 = 0 ->
           nth (Z.to_nat i) enabled' 0 = nth (Z.to_nat i) enabled 0 /\
           driver_features r' i = driver_features r i)
  else
    exists r', virtio_negotiate_features enabled wanted needed r = Ok (- ENOTSUP, enabled, r') /\
      vstatus r' = vstatus r /\ driver_features r' = driver_features r.
Proof.
  destruct (decide _) as [H|H].
  - destruct (negotiate_run enabled wanted needed r Hlen Hkept H) as (e & r' & E & _ & Hv & Hf).
    by exists e, r'.
  - destruct (negotiate_refused enabled wanted needed r H) as (r' & E & _ & Hv & Hf). by exists r'.
Qed.

(** A device that offers features 6 and 28 of word 0; 6 and 10 are wanted. *)
Lemma virtio_negotiate_spec_witness :
  exists enabled' r', virtio_negotiate_features [0; 0; 0; 0] [1088; 0; 0; 0] [2 ^ 28; 0; 0; 0]
      (mkRegs VIRTIO_MAGIC 2 2 (fun i => if i =? 0 then 2 ^ 28 + 2 ^ 6 else 0) true 0 0 (fun _ => 0) 0
        (mkVirtq 0 0 0 0 0 0 0) 0 0 0 2 512) = Ok (0, enabled', r') /\ nth 0 enabled' 0 = 64.
Proof.
  pose proof (virtio_negotiate_spec [0; 0; 0; 0] [1088; 0; 0; 0] [2 ^ 28; 0; 0; 0]
    (mkRegs VIRTIO_MAGIC 2 2 (fun i => if i =? 0 then 2 ^ 28 + 2 ^ 6 else 0) true 0 0 (fun _ => 0) 0
      (mkVirtq 0 0 0 0 0 0 0) 0 0 0 2 512) eq_refl eq_refl) as H.
  destruct (decide _) as [_|Hn]; [|destruct Hn; apply (bool_decide_unpack _); by vm_compute].
  destruct H as (e & r' & E & _ & Hf). exists e, r'. split; [exact E|].
  destruct (proj1 (Hf 0 ltac:(lia))) as [H1 _]; [discriminate|]. exact H1.
Defined.
