(* ===== verification/Kfs.v ===== *)
(** kfs.c and fs.h: the file system.

    The file system is a block image behind an I/O object, [system_io], whose
    state is of type [D]: a boot block with the directory, one block per inode,
    and data blocks.  The state of kfs.c is the boot block read at mount time,
    the table of open files and the lock; an I/O object of an open file is
    identified by its address.  [Seekable] and
    [Writable] are what kfs.c relies on from [system_io]; the memory-backed
    object of io.c provides both (KfsSpec.v) and the block device the first
    (Vioblk.v). *)

From S2P Require Import Prelude CString Io.

(** ** Constants and data (fs.h) *)

Definition DIR_ENTRY_SZ : Z := 64.
Definition DIR_ENTRY_CT : Z := 63.
Definition MAX_OPEN_FILE_CT : Z := 32.
Definition IN_USE : Z := 1.
Definition UNUSED : Z := 0.
Definition DATA_BLOCK_NUM : Z := 1023.
Definition FS_NAMELEN : Z := 32.
Definition NEXT_DATA_BLK_IDX : Z := 1.

(** A little-endian 32-bit field of a packed structure. *)
Definition le32 (l : list Z) (off : Z) : option Z :=
  match slice (Z.to_nat off) 4 l with
  | [a; b; c; d] => Some (a + 256 * b + 65536 * c + 16777216 * d)
  | _ => None
  end.

(** Fields of [boot_block_t] and [inode_t]. *)
Definition num_inodes (super : list Z) : option Z := le32 super 4.
Definition dentry_name (super : list Z) (i : Z) : list Z :=
  drop (Z.to_nat (64 + DIR_ENTRY_SZ * i)) super.
Definition dentry_inode (super : list Z) (i : Z) : option Z :=
  le32 super (64 + DIR_ENTRY_SZ * i + FS_NAMELEN).
Definition byte_len (inode : list Z) : option Z := le32 inode 0.
Definition data_block_num (inode : list Z) (i : Z) : option Z := le32 inode (4 + 4 * i).

Record file_t := mkFile {
  f_io : Z; file_position : Z; file_size : Z; f_inode : Z; usage_flag : Z
}.

Record fs_state (D : Type) := mkFs {
  sys : D;
  super_block : list Z;
  opened_files : list file_t;
  refcnts : gmap Z Z;   (* refcnt of the I/O objects handed out *)
  next_io : Z;          (* the address the next I/O object gets *)
  flk : Z               (* thread holding the lock, or -1 *)
}.
Arguments mkFs {D}.
Arguments sys {D}.
Arguments super_block {D}.
Arguments opened_files {D}.
Arguments refcnts {D}.
Arguments next_io {D}.
Arguments flk {D}.

(** ** Operations *)

Section Kfs.
Context {D : Type} (ops : io_ops D).
(** The running thread. *)
Context (self : Z).

Notation FS := (M (fs_state D)).

Definition on_sys {A} (m : M D A) : FS A := fun s =>
  obind (m (sys s)) (fun '(a, d) =>
    Ok (a, mkFs d (super_block s) (opened_files s) (refcnts s) (next_io s) (flk s))).

Definition set_files (f : list file_t) : FS unit := modify (fun s =>
  mkFs (sys s) (super_block s) f (refcnts s) (next_io s) (flk s)).
Definition set_flk (t : Z) : FS unit := modify (fun s =>
  mkFs (sys s) (super_block s) (opened_files s) (refcnts s) (next_io s) t).

(** The lock as one thread sees it: acquiring it while it is held waits for a
    release by its holder, which is a run that does not return here. *)
Definition waits : FS unit := fun _ => Fuel.
Definition lock_acquire : FS unit :=
  s ← get;
  if negb (flk s =? -1) then waits else set_flk self.
Definition lock_release : FS unit :=
  s ← get;
  cassert (flk s =? self) ;; set_flk (-1).

Definition field {A} (o : option A) : FS A :=
  match o with Some a => mret a | None => undef "outside the structure" end.

Definition fs_mount : FS Z :=
  set_flk (-1) ;;
  r ← on_sys (ioread_full ops FS_BLKSZ);
  modify (fun s => mkFs (sys s) (splice 0 r.2 (super_block s)) (opened_files s) (refcnts s)
                    (next_io s) (flk s)) ;;
  if r.1 <? 0 then mret (- EFILESYS) else mret 0.

(** The directory loop of [fs_open]: the inode of the first entry with the
    name, or -1 as a 32-bit value. *)
Fixpoint find_dentry (super name : list Z) (idxs : list Z) : FS Z :=
  match idxs with
  | [] => mret (u32 (-1))
  | i :: rest =>
      c ← field (strcmp (Some (dentry_name super i)) (Some name));
      if c =? 0 then field (dentry_inode super i) else find_dentry super name rest
  end.

(** The index of the first free slot of the table. *)
Fixpoint free_slot (files : list file_t) (i : nat) : option nat :=
  match files with
  | [] => None
  | f :: rest => if f_io f =? 0 then Some i else free_slot rest (S i)
  end.

(** [fs_open]: the result and the pointer stored through [io]. *)
Definition fs_open (name : list Z) : FS (Z * option Z) :=
  lock_acquire ;;
  s ← get;
  requested_inode ← find_dentry (super_block s) name (range 63 0 DIR_ENTRY_CT 1);
  if requested_inode =? u32 (-1) then mret (- ENOENT, None)
  else
    let buffer_idx := u32 (u32 (FS_BLKSZ * requested_inode) + FS_BLKSZ) in
    on_sys (ioctl ops IOCTL_SETPOS buffer_idx) ;;
    f ← field (op_read ops);
    r ← on_sys (f FS_BLKSZ);
    let '(read_result, file_struct) := r in
    if read_result <? 0 then mret (- EFILESYS, None)
    else
      s1 ← get;
      let new_io := next_io s1 in
      modify (fun s => mkFs (sys s) (super_block s) (opened_files s)
                        (<[new_io := 1]> (refcnts s)) (new_io + 1) (flk s)) ;;
      match free_slot (opened_files s1) 0 with
      | Some i =>
          size ← field (byte_len file_struct);
          set_files (<[i := mkFile new_io 0 size requested_inode IN_USE]> (opened_files s1)) ;;
          lock_release ;;
          mret (0, Some new_io)
      | None => mret (- EFILESYS, Some new_io)
      end.

(** The slot of an I/O object: the first one, where the loop breaks, and the
    last one, where it does not. *)
Fixpoint first_slot (files : list file_t) (io : Z) (i : nat) : option nat :=
  match files with
  | [] => None
  | f :: rest => if f_io f =? io then Some i else first_slot rest io (S i)
  end.
Fixpoint last_slot (files : list file_t) (io : Z) (i : nat) (found : option nat) : option nat :=
  match files with
  | [] => found
  | f :: rest => last_slot rest io (S i) (if f_io f =? io then Some i else found)
  end.

Definition fs_close (io : Z) : FS unit :=
  s ← get;
  match first_slot (opened_files s) io 0 with
  | None => mret tt
  | Some i =>
      let refcnt := u32 (default 0 (refcnts s !! io) - 1) in
      modify (fun s => mkFs (sys s) (super_block s) (opened_files s)
                        (<[io := refcnt]> (refcnts s)) (next_io s) (flk s)) ;;
      if refcnt <=? 0 then
        f ← field (opened_files s !! i);
        set_files (<[i := mkFile (f_io f) (file_position f) (file_size f) (f_inode f) UNUSED]>
                    (opened_files s))
      else mret tt
  end.

(** The helpers of [fs_ioctl] on the file [f]: the result, the argument
    afterwards and the file afterwards. *)
Definition fs_getlen (f : file_t) (arg : Z) : Z * Z * file_t :=
  let arg' := set_int arg (file_size f) in (get_int arg', arg', f).
Definition fs_getpos (f : file_t) (arg : Z) : Z * Z * file_t :=
  let arg' := set_int arg (file_position f) in (get_int arg', arg', f).
Definition fs_setpos (f : file_t) (arg : Z) : Z * Z * file_t :=
  (get_int arg, arg,
   mkFile (f_io f) (u64 (get_int arg)) (file_size f) (f_inode f) (usage_flag f)).
Definition fs_getblksz (f : file_t) (arg : Z) : Z * Z * file_t :=
  let arg' := set_int arg FS_BLKSZ in (get_int arg', arg', f).

Definition fs_ioctl (io cmd arg : Z) : FS (Z * Z) :=
  s ← get;
  match last_slot (opened_files s) io 0 None with
  | None => mret (- EFILESYS, arg)
  | Some i =>
      target_file ← field (opened_files s !! i);
      lock_acquire ;;
      let '(ret, arg', f') :=
        if cmd =? IOCTL_GETLEN then fs_getlen target_file arg
        else if cmd =? IOCTL_GETPOS then fs_getpos target_file arg
        else if cmd =? IOCTL_SETPOS then fs_setpos target_file arg
        else if cmd =? IOCTL_GETBLKSZ then fs_getblksz target_file arg
        else (- EFILESYS, arg, target_file) in
      set_files (<[i := f']> (opened_files s)) ;;
      lock_release ;;
      mret (ret, arg')
  end.

(** The disk position of data block [i] of a file. *)
Definition block_pos (super inode : list Z) (i : Z) : FS Z :=
  b ← field (data_block_num inode i);
  ni ← field (num_inodes super);
  mret (u32 (u32 (u32 (b + ni) * FS_BLKSZ) + FS_BLKSZ)).

(** How a transfer of [n] bytes at [position] is split: the bytes up to the
    next block boundary, the whole blocks, and the rest. *)
Definition split_transfer (position n : Z) : Z * Z * Z :=
  let leading := position mod FS_BLKSZ in
  let leading_compensation := if FS_BLKSZ - leading =? FS_BLKSZ then 0 else FS_BLKSZ - leading in
  if n <? leading_compensation then (0, 0, n)
  else (leading_compensation, u64 (n - leading_compensation) / FS_BLKSZ,
        u64 (n - leading_compensation) mod FS_BLKSZ).

(** The transfer loop shared by [fs_read] and [fs_write], over [i] from the
    first block on.  [xfer] moves the given number of bytes at the given
    index of the caller's buffer, whose contents are threaded through. *)
Fixpoint fs_blocks (rounds : list Z) (super inode : list Z) (xfer : Z -> Z -> list Z -> FS (list Z))
    (idx lc cycle remainder : Z) (buf : list Z) : FS (list Z) :=
  match rounds with
  | [] => mret buf
  | i :: rest =>
      if negb (lc =? 0) then
        buf1 ← xfer idx lc buf;
        p ← block_pos super inode (i + NEXT_DATA_BLK_IDX);
        on_sys (ioctl ops IOCTL_SETPOS p) ;;
        fs_blocks rest super inode xfer (idx + lc) 0 cycle remainder buf1
      else if cycle <=? 0 then xfer idx remainder buf
      else
        buf1 ← xfer idx FS_BLKSZ buf;
        p ← block_pos super inode (i + 1);
        on_sys (ioctl ops IOCTL_SETPOS p) ;;
        fs_blocks rest super inode xfer (idx + FS_BLKSZ) lc (cycle - 1) remainder buf1
  end.

Definition xfer_read (idx len : Z) (buf : list Z) : FS (list Z) :=
  r ← on_sys (ioread_full ops len);
  mret (splice (Z.to_nat idx) r.2 buf).
Definition xfer_write (idx len : Z) (buf : list Z) : FS (list Z) :=
  on_sys (iowrite ops (slice (Z.to_nat idx) (Z.to_nat len) buf)) ;;
  mret buf.

(** The common part of [fs_read] and [fs_write] up to the transfer: the
    position, the inode block, and [n] cut to what the file holds. *)
Definition fs_prepare (io n : Z) : FS (option (Z * list Z * Z)) :=
  pos ← fs_ioctl io IOCTL_GETPOS 0;
  let position := u64 pos.1 in
  s ← get;
  match first_slot (opened_files s) io 0 with
  | None => mret None
  | Some j =>
      f ← field (opened_files s !! j);
      let inode := f_inode f in
      lock_acquire ;;
      let buffer_start := u64 (inode * FS_BLKSZ + FS_BLKSZ) in
      on_sys (ioctl ops IOCTL_SETPOS buffer_start) ;;
      r ← on_sys (ioread_full ops FS_BLKSZ);
      let file_struct := r.2 in
      len ← field (byte_len file_struct);
      let n' := if len <? u64 (position + n) then u64 (len - position) else n in
      lock_release ;;
      mret (Some (position, file_struct, n'))
  end.

Definition fs_read (io : Z) (buf : list Z) (n0 : Z) : FS (Z * list Z) :=
  o ← fs_prepare io n0;
  match o with
  | None => mret (- EFILESYS, buf)
  | Some (read_position, file_struct, n) =>
      lock_acquire ;;
      s ← get;
      let '(lc, cycle, remainder) := split_transfer read_position n in
      let block_passed := read_position / FS_BLKSZ in
      p ← block_pos (super_block s) file_struct block_passed;
      on_sys (ioctl ops IOCTL_SETPOS (u64 (p + read_position mod FS_BLKSZ))) ;;
      buf' ← fs_blocks (range 1023 (s32 block_passed) DATA_BLOCK_NUM 1) (super_block s) file_struct
               xfer_read 0 lc cycle remainder buf;
      lock_release ;;
      fs_ioctl io IOCTL_SETPOS (u64 (read_position + n)) ;;
      mret (s64 n, buf')
  end.

Definition fs_write (io : Z) (buf : list Z) : FS Z :=
  o ← fs_prepare io (Z.of_nat (length buf));
  match o with
  | None => mret (- EFILESYS)
  | Some (write_position, file_struct, n) =>
      s ← get;
      let '(lc, cycle, remainder) := split_transfer write_position n in
      let block_passed := write_position / FS_BLKSZ in
      p ← block_pos (super_block s) file_struct block_passed;
      on_sys (ioctl ops IOCTL_SETPOS (u64 (p + write_position mod FS_BLKSZ))) ;;
      lock_acquire ;;
      fs_blocks (range 1023 (s32 block_passed) DATA_BLOCK_NUM 1) (super_block s) file_struct
        xfer_write 0 lc cycle remainder buf ;;
      lock_release ;;
      fs_ioctl io IOCTL_SETPOS (u64 (write_position + n)) ;;
      mret (s64 n)
  end.

(** The operations of an open file: [new_file_ops].  The bytes a read delivers
    are those it has put at the start of the caller's buffer. *)
Definition new_file_ops (io : Z) : io_ops (fs_state D) :=
  mkOps (Some (fs_close io))
    (Some (fun n => r ← fs_read io (repeat 0 (Z.to_nat n)) n; mret (r.1, take (Z.to_nat r.1) r.2)))
    (Some (fs_write io))
    (Some (fs_ioctl io)).
End Kfs.

(** ** What kfs.c relies on *)

(** A seekable object with the image [img] at position [pos]: a read inside the
    image delivers all the bytes asked for, from the current position; a seek
    below 2 GB (the position goes through an [int]) sets the position; and
    neither changes the image. *)
Class Seekable {D} (ops : io_ops D) (img : D -> list Z) (pos : D -> nat) (I : D -> Prop) := {
  dsk_rfun : Z -> M D (Z * list Z);
  dsk_rops : op_read ops = Some dsk_rfun;
  dsk_read : forall d n, I d -> (0 < n)%nat -> (pos d + n <= length (img d))%nat ->
    exists d', dsk_rfun (Z.of_nat n) d = Ok ((Z.of_nat n, slice (pos d) n (img d)), d') /\
      I d' /\ img d' = img d;
  dsk_cfun : Z -> Z -> M D (Z * Z);
  dsk_cops : op_ctl ops = Some dsk_cfun;
  dsk_seek : forall d p, I d -> 0 <= p < 2 ^ 64 ->
    exists r d', dsk_cfun IOCTL_SETPOS p d = Ok (r, d') /\ I d' /\ img d' = img d /\
      (p < 2 ^ 31 -> p <= Z.of_nat (length (img d)) -> pos d' = Z.to_nat p)
}.

(** A write inside the image puts all the bytes at the current position. *)
Class Writable {D} (ops : io_ops D) (img : D -> list Z) (pos : D -> nat) (I : D -> Prop) := {
  dsk_wfun : list Z -> M D Z;
  dsk_wops : op_write ops = Some dsk_wfun;
  dsk_write : forall d bs, I d -> bs <> [] -> (pos d + length bs <= length (img d))%nat ->
    exists d', dsk_wfun bs d = Ok (Z.of_nat (length bs), d') /\
      I d' /\ img d' = splice (pos d) bs (img d)
}.

(** ** Files on the image *)

Definition BLK : nat := 4096.

(** The contents of the blocks at the given positions of the image. *)
Definition content (img : list Z) (addrs : list nat) : list Z :=
  concat ((fun a => slice a BLK img) <$> addrs).

(** The blocks are inside the image, aligned and distinct. *)
Record blocks_ok (img : list Z) (addrs : list nat) : Prop := {
  bo_in : Forall (fun a => (a + BLK <= length img)%nat) addrs;
  bo_al : Forall (fun a => (a mod BLK = 0)%nat) addrs;
  bo_nodup : NoDup addrs
}.

Lemma blk_divmod x : (x = BLK * (x / BLK) + x mod BLK)%nat /\ (x mod BLK < BLK)%nat.
Proof. split; [apply Nat.div_mod_eq|apply Nat.mod_upper_bound; unfold BLK; lia]. Qed.

Lemma content_length img addrs :
  Forall (fun a => (a + BLK <= length img)%nat) addrs ->
  length (content img addrs) = (BLK * length addrs)%nat.
Proof.
  induction 1 as [|a addrs Ha _ IH]; [cbn; lia|].
  change (content img (a :: addrs)) with (slice a BLK img ++ content img addrs).
  rewrite length_app, slice_length, IH by done. cbn [length]. lia.
Qed.

(** Byte [x] of a file is at offset [x mod BLK] of its block [x / BLK]. *)
Lemma content_lookup img addrs x :
  Forall (fun a => (a + BLK <= length img)%nat) addrs ->
  content img addrs !! x = addrs !! (x / BLK)%nat ≫= fun a => img !! (a + x mod BLK)%nat.
Proof.
  intros Hin. revert x. induction Hin as [|a addrs Ha _ IH]; intros x; [done|].
  change (content img (a :: addrs)) with (slice a BLK img ++ content img addrs).
  destruct (decide (x < BLK)%nat) as [Hx|Hx].
  - rewrite lookup_app_l by (rewrite slice_length; lia). rewrite slice_lookup by done.
    rewrite Nat.div_small, Nat.mod_small by done. done.
  - rewrite lookup_app_r by (rewrite slice_length; lia). rewrite slice_length by done.
    assert (Ex : x = (x - BLK + 1 * BLK)%nat) by lia.
    assert (Ed : (x / BLK = S ((x - BLK) / BLK))%nat)
      by (rewrite Ex at 1; rewrite Nat.div_add by (unfold BLK; lia); lia).
    assert (Em : (x mod BLK = (x - BLK) mod BLK)%nat)
      by (rewrite Ex at 1; by rewrite Nat.Div0.mod_add).
    by rewrite IH, Ed, Em.
Qed.

(** A transfer inside block [i] is a transfer inside the contents. *)
Lemma content_slice img addrs i a off m :
  Forall (fun a => (a + BLK <= length img)%nat) addrs -> addrs !! i = Some a ->
  (off + m <= BLK)%nat ->
  slice (BLK * i + off) m (content img addrs) = slice (a + off) m img.
Proof.
  intros Hin Ha Hm. apply list_eq. intros x. destruct (decide (x < m)%nat) as [Hx|Hx].
  - rewrite !slice_lookup by done. rewrite content_lookup by done.
    replace (BLK * i + off + x)%nat with (i * BLK + (off + x))%nat by lia.
    rewrite Nat.div_add_l by (unfold BLK; lia). rewrite Nat.div_small, Nat.add_0_r, Ha by lia.
    cbn [mbind option_bind]. f_equal.
    rewrite (Nat.add_comm (i * BLK)), Nat.Div0.mod_add, Nat.mod_small by lia. lia.
  - rewrite !lookup_ge_None_2; [done|..]; unfold slice; rewrite length_take; lia.
Qed.

Lemma content_splice img addrs i a off bs :
  blocks_ok img addrs -> addrs !! i = Some a -> (off + length bs <= BLK)%nat ->
  content (splice (a + off) bs img) addrs = splice (BLK * i + off) bs (content img addrs).
Proof.
  intros [Hin Hal Hnd] Ha Hm.
  assert (Hai : (a + BLK <= length img)%nat) by (rewrite Forall_lookup in Hin; eauto).
  assert (Hil := lookup_lt_Some _ _ _ Ha).
  assert (Hlen : length (splice (a + off) bs img) = length img) by (apply splice_length; lia).
  assert (Hcl := content_length img addrs Hin).
  apply list_eq. intros x. rewrite content_lookup.
  2: { eapply Forall_impl; [exact Hin|]. intros b Hb. cbn beta in *. lia. }
  destruct (blk_divmod x) as [Hx Hxm]. set (q := (x / BLK)%nat) in *. set (r := (x mod BLK)%nat) in *.
  assert (Hcs : (BLK * i + off + length bs <= length (content img addrs))%nat) by (rewrite Hcl; nia).
  destruct (decide (BLK * i + off <= x < BLK * i + off + length bs)%nat) as [Hxi|Hxo].
  - rewrite (splice_lookup_in (BLK * i + off)) by done.
    assert (Eq : q = i) by nia. rewrite Eq, Ha. cbn [mbind option_bind].
    rewrite splice_lookup_in by lia. f_equal. lia.
  - rewrite (splice_lookup_out (BLK * i + off)) by lia. rewrite content_lookup by done. fold q r.
    destruct (addrs !! q) as [b|] eqn:Eb; [|done]. cbn [mbind option_bind].
    rewrite splice_lookup_out; [done|lia|].
    destruct (decide (q = i)) as [->|Hne].
    + assert (b = a) by congruence. subst b. lia.
    + rewrite Forall_lookup in Hal. pose proof (Hal _ _ Ha) as Ma. pose proof (Hal _ _ Eb) as Mb.
      assert (Hab : a <> b) by (intros ->; apply Hne; by eapply NoDup_lookup).
      apply Nat.Div0.mod_divides in Ma as [u Hu]. apply Nat.Div0.mod_divides in Mb as [v Hv].
      assert (u <> v) by congruence. nia.
Qed.

Lemma splice_append (l a b : list Z) o :
  (o + length a + length b <= length l)%nat ->
  splice (o + length a) b (splice o a l) = splice o (a ++ b) l.
Proof.
  intros H. apply list_eq. intros x.
  assert (Hla : length (splice o a l) = length l) by (apply splice_length; lia).
  destruct (decide (o <= x < o + length (a ++ b))%nat) as [Hx|Hx]; rewrite length_app in Hx.
  - rewrite (splice_lookup_in o (a ++ b)) by (rewrite length_app; lia).
    destruct (decide (x < o + length a)%nat).
    + rewrite splice_lookup_out by lia. rewrite splice_lookup_in by lia.
      by rewrite lookup_app_l by lia.
    + rewrite splice_lookup_in by lia. rewrite lookup_app_r by lia. f_equal. lia.
  - rewrite (splice_lookup_out o (a ++ b)) by (rewrite length_app; lia).
    by rewrite !splice_lookup_out by lia.
Qed.

(** ** Running the operations over a disk *)

Section KfsProofs.
Context {D : Type} (ops : io_ops D) (img : D -> list Z) (pos : D -> nat) (I : D -> Prop)
  `{!Seekable ops img pos I} `{!Writable ops img pos I} (self : Z).

(** The state with another disk. *)
Definition with_sys (d : D) (s : fs_state D) : fs_state D :=
  mkFs d (super_block s) (opened_files s) (refcnts s) (next_io s) (flk s).
Definition with_files (f : list file_t) (s : fs_state D) : fs_state D :=
  mkFs (sys s) (super_block s) f (refcnts s) (next_io s) (flk s).
Definition with_flk (t : Z) (s : fs_state D) : fs_state D :=
  mkFs (sys s) (super_block s) (opened_files s) (refcnts s) (next_io s) t.

Lemma run_on_sys {A} (m : M D A) s a d :
  m (sys s) = Ok (a, d) -> on_sys m s = Ok (a, with_sys d s).
Proof. intros E. unfold on_sys. by rewrite E. Qed.

Lemma sys_seek s p :
  I (sys s) -> 0 <= p < 2 ^ 64 ->
  exists r d, on_sys (ioctl ops IOCTL_SETPOS p) s = Ok (r, with_sys d s) /\ I d /\
    img d = img (sys s) /\
    (p < 2 ^ 31 -> p <= Z.of_nat (length (img (sys s))) -> pos d = Z.to_nat p).
Proof.
  intros Hi Hp. destruct (dsk_seek (sys s) p Hi Hp) as (r & d & E & H). exists r, d. split; [|done].
  apply run_on_sys. unfold ioctl. by rewrite dsk_cops.
Qed.

Lemma full_read d n :
  I d -> ((0 < n)%nat -> (pos d + n <= length (img d))%nat) ->
  exists d', ioread_full ops (Z.of_nat n) d = Ok ((Z.of_nat n, slice (pos d) n (img d)), d') /\ I d' /\
    img d' = img d.
Proof.
  intros Hi Hn. destruct (decide (n = 0%nat)) as [->|Hne].
  - exists d. split_and!; try done. unfold ioread_full. by rewrite dsk_rops.
  - destruct (dsk_read d n Hi) as (d' & E & H); [lia|apply Hn; lia|]. exists d'.
    split; [|done]. unfold ioread_full. rewrite dsk_rops, Nat2Z.id.
    destruct n as [|n]; [done|]. cbn [ioread_full_loop].
    destruct (Z.ltb_spec 0 (Z.of_nat (S n))); [|lia]. rewrite Z.sub_0_r, (bind_Ok _ _ _ _ _ E).
    destruct (Z.ltb_spec (Z.of_nat (S n)) 0); [lia|]. destruct (Z.eqb_spec (Z.of_nat (S n)) 0); [lia|].
    rewrite Z.add_0_l, app_nil_l. destruct n; cbn [ioread_full_loop]; by rewrite Z.ltb_irrefl.
Qed.

Lemma seek_to d p :
  I d -> 0 <= p <= Z.of_nat (length (img d)) -> p < 2 ^ 31 ->
  exists r d', ioseek ops p d = Ok (r, d') /\ I d' /\ img d' = img d /\ pos d' = Z.to_nat p.
Proof.
  intros Hi Hp Hs. destruct (dsk_seek d p Hi) as (r & d' & E & Hd & Em & Ep); [lia|].
  exists r.1, d'. split_and!; try done; [|apply Ep; lia]. unfold ioseek, ioctl. rewrite dsk_cops.
  by rewrite (bind_Ok _ _ _ _ _ E).
Qed.

Lemma sys_read s n :
  I (sys s) -> ((0 < n)%nat -> (pos (sys s) + n <= length (img (sys s)))%nat) ->
  exists d, on_sys (ioread_full ops (Z.of_nat n)) s
      = Ok ((Z.of_nat n, slice (pos (sys s)) n (img (sys s))), with_sys d s) /\ I d /\
    img d = img (sys s).
Proof.
  intros Hi Hn. destruct (full_read (sys s) n Hi Hn) as (d & E & H). exists d.
  split; [by apply run_on_sys|done].
Qed.

Lemma sys_write s bs :
  I (sys s) -> (bs <> [] -> (pos (sys s) + length bs <= length (img (sys s)))%nat) ->
  exists r d, on_sys (iowrite ops bs) s = Ok (r, with_sys d s) /\ I d /\
    img d = (if decide (bs = []) then img (sys s) else splice (pos (sys s)) bs (img (sys s))).
Proof.
  intros Hi Hn. destruct (decide (bs = [])) as [->|Hne].
  - exists 0, (sys s). split_and!; try done. apply run_on_sys. unfold iowrite. by rewrite dsk_wops.
  - destruct (dsk_write (sys s) bs Hi Hne (Hn Hne)) as (d & E & H).
    exists (Z.of_nat (length bs)), d. split; [|done]. apply run_on_sys. unfold iowrite.
    rewrite dsk_wops. destruct bs as [|b bs]; [done|]. cbn [iowrite_loop length].
    change (0 <? Z.of_nat (S (length bs))) with true. cbn iota. rewrite drop_0.
    rewrite (bind_Ok _ _ _ _ _ E). cbn [length].
    destruct (Z.ltb_spec (Z.of_nat (S (length bs))) 0); [lia|].
    destruct (Z.eqb_spec (Z.of_nat (S (length bs))) 0); [lia|]. rewrite Z.add_0_l.
    destruct (length bs) eqn:El; cbn [iowrite_loop length]; by rewrite El, Z.ltb_irrefl.
Qed.

Lemma run_acquire s : flk s = -1 -> lock_acquire self s = Ok (tt, with_flk self s).
Proof. intros E. unfold lock_acquire. rewrite bind_run. cbn [get obind]. by rewrite E. Qed.
Lemma run_release s : flk s = self -> lock_release self s = Ok (tt, with_flk (-1) s).
Proof.
  intros E. unfold lock_release. rewrite bind_run. cbn [get obind]. rewrite E.
  unfold cassert. by rewrite Z.eqb_refl.
Qed.
Lemma run_field {A} (o : option A) a (s : fs_state D) : o = Some a -> field o s = Ok (a, s).
Proof. by intros ->. Qed.

(** ** One file *)

(** The object [io] is the file in slot [j] and in no other. *)
Definition open_at (s : fs_state D) (io : Z) (j : nat) (f : file_t) : Prop :=
  opened_files s !! j = Some f /\ f_io f = io /\
  forall j' f', opened_files s !! j' = Some f' -> f_io f' = io -> j' = j.

Lemma first_slot_at s io j f : open_at s io j f -> first_slot (opened_files s) io 0 = Some j.
Proof.
  intros (El & Ei & Hu). change j with (0 + j)%nat. generalize 0%nat. revert j El Hu.
  induction (opened_files s) as [|g l IH]; intros j El Hu k; [done|]. simpl.
  destruct (Z.eqb_spec (f_io g) io) as [E|Hne].
  - rewrite <- (Hu 0%nat g); [by rewrite Nat.add_0_r|done|done].
  - destruct j as [|j]; [simpl in El; congruence|]. rewrite (IH j); [f_equal; lia|done|].
    intros j' f' E1 E2. assert (S j' = S j) by (by eapply (Hu (S j'))). lia.
Qed.

Lemma last_slot_at s io j f : open_at s io j f -> last_slot (opened_files s) io 0 None = Some j.
Proof.
  intros (El & Ei & Hu). change (Some j) with (Some (0 + j)%nat). generalize 0%nat.
  assert (Hrest : forall l k o, (forall x, x ∈ l -> f_io x <> io) -> last_slot l io k o = o).
  { induction l as [|g l IH]; intros k o Hn; [done|]. simpl.
    destruct (Z.eqb_spec (f_io g) io) as [E|]; [by destruct (Hn g); [left|]|].
    apply IH. intros x Hx. apply Hn. by right. }
  generalize (@None nat). revert j El Hu.
  induction (opened_files s) as [|g l IH]; intros j El Hu o k; [done|]. simpl.
  destruct j as [|j].
  - simpl in El. injection El as ->. destruct (Z.eqb_spec (f_io f) io); [|done].
    rewrite Hrest; [by rewrite Nat.add_0_r|]. intros x Hx E.
    apply list_elem_of_lookup in Hx as [m Hm]. specialize (Hu (S m) x Hm E). lia.
  - destruct (Z.eqb_spec (f_io g) io) as [E|Hne]; [by specialize (Hu 0%nat g eq_refl E)|].
    rewrite (IH j); [f_equal; lia|done|].
    intros j' f' E1 E2. assert (S j' = S j) by (by eapply (Hu (S j'))). lia.
Qed.

(** [fs_ioctl] reads and sets the position of an open file. *)
Lemma run_getpos s io j f arg :
  open_at s io j f -> flk s = -1 -> 0 <= file_position f < 2 ^ 31 ->
  exists a', fs_ioctl self io IOCTL_GETPOS arg s = Ok ((file_position f, a'), s).
Proof.
  intros Ho Hf Hp. pose proof Ho as (El & _ & _). eexists.
  unfold fs_ioctl. rewrite bind_run. cbn [get obind]. rewrite (last_slot_at s io j f Ho).
  rewrite (bind_Ok _ _ _ _ _ (run_field _ f s El)), (bind_Ok _ _ _ _ _ (run_acquire s Hf)).
  change (IOCTL_GETPOS =? IOCTL_GETLEN) with false. change (IOCTL_GETPOS =? IOCTL_GETPOS) with true.
  cbn iota. unfold fs_getpos. rewrite bind_run. cbn [set_files modify obind].
  erewrite bind_Ok by (by apply run_release). unfold mret, M_ret. do 2 f_equal.
  - f_equal. unfold get_int, set_int. wrap_lia.
  - rewrite list_insert_id by done. destruct s. cbn in *. by rewrite Hf.
Qed.

Definition set_position (p : Z) (f : file_t) : file_t :=
  mkFile (f_io f) p (file_size f) (f_inode f) (usage_flag f).

Lemma run_setpos_any s io j f p :
  open_at s io j f -> flk s = -1 ->
  exists r, fs_ioctl self io IOCTL_SETPOS p s
    = Ok (r, with_files (<[j := set_position (u64 (get_int p)) f]> (opened_files s)) s).
Proof.
  intros Ho Hf. pose proof Ho as (El & _ & _). eexists.
  unfold fs_ioctl. rewrite bind_run. cbn [get obind]. rewrite (last_slot_at s io j f Ho).
  rewrite (bind_Ok _ _ _ _ _ (run_field _ f s El)), (bind_Ok _ _ _ _ _ (run_acquire s Hf)).
  change (IOCTL_SETPOS =? IOCTL_GETLEN) with false. change (IOCTL_SETPOS =? IOCTL_GETPOS) with false.
  change (IOCTL_SETPOS =? IOCTL_SETPOS) with true.
  cbn iota. unfold fs_setpos. rewrite bind_run. cbn [set_files modify obind].
  erewrite bind_Ok by (by apply run_release). unfold mret, M_ret. do 2 f_equal.
  destruct s. cbn in *. by rewrite Hf.
Qed.

Lemma run_setpos s io j f p :
  open_at s io j f -> flk s = -1 -> 0 <= p < 2 ^ 31 ->
  exists r, fs_ioctl self io IOCTL_SETPOS p s
    = Ok (r, with_files (<[j := set_position p f]> (opened_files s)) s).
Proof.
  intros Ho Hf Hp. destruct (run_setpos_any s io j f p Ho Hf) as (r & E). exists r. rewrite E.
  unfold get_int. by rewrite s32_small, u64_small by lia.
Qed.

(** ** The layout of a file *)

Definition inode_block (m : list Z) (ino : Z) : list Z := slice (Z.to_nat ((ino + 1) * 4096)) BLK m.

(** Inode [ino] of the image [m] describes a file of [len] bytes in the blocks
    at [addrs]. *)
Record layout (m super : list Z) (ino : Z) (addrs : list nat) (len : Z) : Prop := {
  ly_nums : exists ni, num_inodes super = Some ni /\ 0 <= ino < ni /\
    forall i a, addrs !! i = Some a -> exists b,
      data_block_num (inode_block m ino) (Z.of_nat i) = Some b /\ 0 <= b /\
      Z.of_nat a = (b + ni + 1) * 4096;
  ly_ino : 0 <= ino /\ (ino + 1) * 4096 + 4096 <= Z.of_nat (length m);
  ly_len : byte_len (inode_block m ino) = Some len /\ 0 <= len <= 4096 * Z.of_nat (length addrs);
  ly_cnt : Z.of_nat (length addrs) <= 1022;
  ly_blocks : blocks_ok m addrs;
  ly_size : Z.of_nat (length m) < 2 ^ 31
}.

Lemma BLK_Z : Z.of_nat BLK = 4096.
Proof. done. Qed.

Lemma le32_Some l off : 0 <= off -> off + 4 <= Z.of_nat (length l) -> is_Some (le32 l off).
Proof.
  intros H0 H. unfold le32. assert (Hl : length (slice (Z.to_nat off) 4 l) = 4%nat)
    by (apply slice_length; lia).
  destruct (slice (Z.to_nat off) 4 l) as [|a [|b [|c [|d [|]]]]]; try done.
Qed.

Lemma inode_block_length m super ino addrs len :
  layout m super ino addrs len -> length (inode_block m ino) = BLK.
Proof. intros [_ [H0 H1] _ _ _ _]. apply slice_length. pose proof BLK_Z. lia. Qed.

Lemma block_pos_any m super ino addrs len i (s : fs_state D) :
  layout m super ino addrs len -> 0 <= i <= 1022 ->
  exists p, block_pos super (inode_block m ino) i s = Ok (p, s) /\ 0 <= p < 2 ^ 32.
Proof.
  intros Hl Hi. destruct (ly_nums _ _ _ _ _ Hl) as (ni & Eni & _).
  destruct (le32_Some (inode_block m ino) (4 + 4 * i)) as [b Eb]; [lia| |].
  { rewrite (inode_block_length _ _ _ _ _ Hl), BLK_Z. lia. }
  eexists. unfold block_pos. rewrite (bind_Ok _ _ _ _ _ (run_field _ b s Eb)).
  rewrite (bind_Ok _ _ _ _ _ (run_field _ ni s Eni)). split; [reflexivity|apply u32_range].
Qed.

Lemma block_pos_at m super ino addrs len i a (s : fs_state D) :
  layout m super ino addrs len -> addrs !! i = Some a ->
  block_pos super (inode_block m ino) (Z.of_nat i) s = Ok (Z.of_nat a, s).
Proof.
  intros Hl Ha. destruct (ly_nums _ _ _ _ _ Hl) as (ni & Eni & Hni & Hb).
  destruct (Hb i a Ha) as (b & Eb & Hb0 & Ea).
  pose proof (bo_in _ _ (ly_blocks _ _ _ _ _ Hl)) as Hin. rewrite Forall_lookup in Hin.
  specialize (Hin _ _ Ha). cbn beta in Hin. pose proof (ly_size _ _ _ _ _ Hl). pose proof BLK_Z.
  unfold block_pos. rewrite (bind_Ok _ _ _ _ _ (run_field _ b s Eb)).
  rewrite (bind_Ok _ _ _ _ _ (run_field _ ni s Eni)). unfold mret, M_ret. do 2 f_equal.
  unfold FS_BLKSZ. change (2 ^ 31) with 2147483648 in *. rewrite (u32_small (b + ni)), (u32_small ((b + ni) * 4096)), u32_small; lia.
Qed.

(** Positioning the disk at block [i] of the file, where there is one. *)
Lemma seek_block m super ino addrs len i s :
  layout m super ino addrs len -> I (sys s) -> length (img (sys s)) = length m ->
  0 <= i <= 1022 ->
  exists d, (forall k : M (fs_state D) (list Z),
      (p ← block_pos super (inode_block m ino) i; on_sys (ioctl ops IOCTL_SETPOS p) ;; k) s
      = k (with_sys d s)) /\ I d /\ img d = img (sys s) /\
    (forall a, addrs !! Z.to_nat i = Some a -> pos d = a).
Proof.
  intros Hl Hi Em Hr. destruct (block_pos_any m super ino addrs len i s Hl Hr) as (p & Ep & Hp).
  destruct (sys_seek s p Hi) as (r & d & Es & Hd & Eid & Epos); [lia|].
  exists d. split_and!; try done.
  - intros k. by rewrite (bind_Ok _ _ _ _ _ Ep), (bind_Ok _ _ _ _ _ Es).
  - intros a Ha. pose proof (block_pos_at m super ino addrs len _ a s Hl Ha) as Ep'.
    rewrite Z2Nat.id, Ep in Ep' by lia. injection Ep' as ->.
    pose proof (bo_in _ _ (ly_blocks _ _ _ _ _ Hl)) as Hin. rewrite Forall_lookup in Hin.
    specialize (Hin _ _ Ha). cbn beta in Hin. pose proof (ly_size _ _ _ _ _ Hl).
    rewrite Epos by lia. lia.
Qed.

(** ** The transfer loop

    [P k buf m'] says what holds of the caller's buffer and of the image after
    [k] bytes; [xfer] moves a chunk inside one block. *)
Section Loop.
Context (m super : list Z) (ino : Z) (addrs : list nat) (len : Z)
  (Hl : layout m super ino addrs len)
  (xfer : Z -> Z -> list Z -> M (fs_state D) (list Z)) (p0 total : nat)
  (Htotal : (p0 + total <= BLK * length addrs)%nat)
  (P : nat -> list Z -> list Z -> Prop)
  (Plen : forall k buf m', P k buf m' -> length m' = length m)
  (Hx : forall s k c buf a, I (sys s) -> P k buf (img (sys s)) -> (0 < c)%nat ->
     (k + c <= total)%nat -> ((p0 + k) mod BLK + c <= BLK)%nat ->
     addrs !! ((p0 + k) / BLK)%nat = Some a -> pos (sys s) = (a + (p0 + k) mod BLK)%nat ->
     exists d buf', xfer (Z.of_nat k) (Z.of_nat c) buf s = Ok (buf', with_sys d s) /\ I d /\
       P (k + c)%nat buf' (img d))
  (Hx0 : forall s k buf, I (sys s) -> P k buf (img (sys s)) -> (k <= total)%nat ->
     exists d, xfer (Z.of_nat k) 0 buf s = Ok (buf, with_sys d s) /\ I d /\ P k buf (img d)).

(** Where the transfer is after [k] bytes: at block [i], offset [off]. *)
Definition at_block (k i off : nat) : Prop := (p0 + k = BLK * i + off /\ off < BLK)%nat.

Lemma at_block_div k i off :
  at_block k i off -> ((p0 + k) / BLK = i /\ (p0 + k) mod BLK = off)%nat.
Proof.
  intros [E Ho]. rewrite E, Nat.mul_comm. split.
  - rewrite Nat.div_add_l, Nat.div_small; lia.
  - rewrite Nat.add_comm, Nat.Div0.mod_add. by apply Nat.mod_small.
Qed.

(** The disk is at the byte to transfer, when there is one. *)
Definition aimed (s : fs_state D) (k i off : nat) : Prop :=
  (k < total)%nat -> exists a, addrs !! i = Some a /\ pos (sys s) = (a + off)%nat.

(** A chunk of any size at a block. *)
Lemma xfer_step s k c i off buf :
  I (sys s) -> P k buf (img (sys s)) -> at_block k i off -> aimed s k i off ->
  (k + c <= total)%nat -> (off + c <= BLK)%nat ->
  exists d buf', xfer (Z.of_nat k) (Z.of_nat c) buf s = Ok (buf', with_sys d s) /\ I d /\
    P (k + c)%nat buf' (img d).
Proof.
  intros Hi HP Hat Haim Hc Hoff. destruct (at_block_div k i off Hat) as [Ei Eo].
  destruct c as [|c].
  - destruct (Hx0 s k buf Hi HP) as (d & E & Hd & HP'); [lia|]. exists d, buf.
    rewrite Nat.add_0_r. done.
  - destruct Haim as (a & Ha & Ep); [lia|].
    apply (Hx s k (S c) buf a); rewrite ?Ei, ?Eo; try done; lia.
Qed.

(** A chunk that ends the block, then the move to the next block. *)
Lemma xfer_next (k c i off : nat) buf s (kont : list Z -> M (fs_state D) (list Z)) :
  I (sys s) -> P k buf (img (sys s)) -> at_block k i off -> aimed s k i off ->
  (0 < c)%nat -> (k + c <= total)%nat -> (off + c = BLK)%nat -> (i < length addrs)%nat ->
  exists d buf', (buf1 ← xfer (Z.of_nat k) (Z.of_nat c) buf;
      p ← block_pos super (inode_block m ino) (Z.of_nat i + 1);
      on_sys (ioctl ops IOCTL_SETPOS p) ;; kont buf1) s = kont buf' (with_sys d s) /\
    I d /\ P (k + c)%nat buf' (img d) /\ at_block (k + c) (S i) 0 /\
    aimed (with_sys d s) (k + c) (S i) 0.
Proof.
  intros Hi HP Hat Haim Hc Hkc Hoff Hil.
  destruct (xfer_step s k c i off buf) as (d1 & buf1 & E1 & Hd1 & HP1); try done; [lia|].
  pose proof (ly_cnt _ _ _ _ _ Hl).
  destruct (seek_block m super ino addrs len (Z.of_nat i + 1) (with_sys d1 s) Hl Hd1)
    as (d2 & E2 & Hd2 & Eimg & Epos); [by apply (Plen _ _ _ HP1)|lia|].
  assert (Hat' : at_block (k + c) (S i) 0) by (unfold at_block in *; nia).
  exists d2, buf1. split_and!; try done.
  - rewrite (bind_Ok _ _ _ _ _ E1), E2. done.
  - rewrite Eimg. done.
  - intros Hlt. destruct Hat' as [Eat _].
    destruct (lookup_lt_is_Some_2 addrs (S i)) as [a Ha]; [nia|].
    exists a. split; [done|]. cbn [sys with_sys]. rewrite (Epos a); [lia|].
    by replace (Z.to_nat (Z.of_nat i + 1)) with (S i) by lia.
Qed.

Lemma fs_blocks_run fuel : forall k i off lc cycle rem buf s,
  I (sys s) -> P k buf (img (sys s)) -> at_block k i off -> aimed s k i off ->
  (k + (lc + BLK * cycle + rem) = total)%nat -> (1023 - i <= fuel)%nat ->
  (lc = 0 /\ cycle = 0 /\ off + rem <= BLK)%nat \/ (lc = 0 /\ off = 0 /\ rem < BLK)%nat \/
  (0 < lc /\ off + lc = BLK /\ rem < BLK)%nat ->
  exists d buf', fs_blocks ops (range fuel (Z.of_nat i) DATA_BLOCK_NUM 1) super (inode_block m ino)
      xfer (Z.of_nat k) (Z.of_nat lc) (Z.of_nat cycle) (Z.of_nat rem) buf s
      = Ok (buf', with_sys d s) /\ I d /\ P total buf' (img d).
Proof.
  induction fuel as [|fuel IH]; intros k i off lc cycle rem buf s Hi HP Hat Haim Htot Hf Hcase;
    pose proof (ly_cnt _ _ _ _ _ Hl); pose proof Hat as [Eat Hoff];
    assert (Hil : (i <= length addrs)%nat) by nia; [lia|].
  cbn [range]. unfold DATA_BLOCK_NUM. destruct (Z.ltb_spec (Z.of_nat i) 1023); [|lia].
  cbn [fs_blocks]. replace (Z.of_nat i + 1) with (Z.of_nat (S i)) in * by lia.
  destruct (Z.eqb_spec (Z.of_nat lc) 0) as [Elc|Hlc]; cbn [negb].
  - assert (lc = 0)%nat by lia. subst lc.
    destruct (Z.leb_spec (Z.of_nat cycle) 0) as [Hc0|Hc].
    + assert (cycle = 0)%nat by lia. subst cycle.
      destruct (xfer_step s k rem i off buf) as (d & buf' & E & Hd & HP'); try done; try lia.
      exists d, buf'. rewrite E. split_and!; try done. by replace total with (k + rem)%nat by lia.
    + assert (Eo : off = 0%nat) by lia. subst off. destruct cycle as [|cycle]; [lia|].
      change FS_BLKSZ with (Z.of_nat BLK).
      replace (Z.of_nat (S i)) with (Z.of_nat i + 1) by lia.
      edestruct (xfer_next k BLK i 0 buf s (fun buf1 => fs_blocks ops
          (range fuel (Z.of_nat i + 1) 1023 1) super (inode_block m ino) xfer
          (Z.of_nat k + Z.of_nat BLK) (Z.of_nat 0) (Z.of_nat (S cycle) - 1) (Z.of_nat rem) buf1))
        as (d & buf1 & E & Hd & HP1 & Hat1 & Haim1); try done; try nia.
      rewrite E. replace (Z.of_nat i + 1) with (Z.of_nat (S i)) by lia.
      replace (Z.of_nat k + Z.of_nat BLK) with (Z.of_nat (k + BLK)) by lia.
      replace (Z.of_nat (S cycle) - 1) with (Z.of_nat cycle) by lia.
      destruct (IH (k + BLK)%nat (S i) 0%nat 0%nat cycle rem buf1 (with_sys d s))
        as (d' & buf' & E' & H'); [exact Hd|exact HP1|exact Hat1|exact Haim1|lia|lia|lia|].
      exists d', buf'. exact (conj E' H').
  - replace (Z.of_nat (S i)) with (Z.of_nat i + 1) by lia.
    edestruct (xfer_next k lc i off buf s (fun buf1 => fs_blocks ops
        (range fuel (Z.of_nat i + 1) 1023 1) super (inode_block m ino) xfer
        (Z.of_nat k + Z.of_nat lc) 0 (Z.of_nat cycle) (Z.of_nat rem) buf1))
      as (d & buf1 & E & Hd & HP1 & Hat1 & Haim1); try done; try nia.
    change NEXT_DATA_BLK_IDX with 1. rewrite E.
    replace (Z.of_nat i + 1) with (Z.of_nat (S i)) by lia.
    replace (Z.of_nat k + Z.of_nat lc) with (Z.of_nat (k + lc)) by lia.
    destruct (IH (k + lc)%nat (S i) 0%nat 0%nat cycle rem buf1 (with_sys d s))
      as (d' & buf' & E' & H'); [exact Hd|exact HP1|exact Hat1|exact Haim1|lia|lia|lia|].
    exists d', buf'. exact (conj E' H').
Qed.
End Loop.

(** ** Whole reads and writes *)

(** How many bytes a transfer of [n] at [p] moves in a file of [len] bytes. *)
Definition cut (len p n : Z) : Z := Z.min n (len - p).

(** An open file in a usable state: the table entry, the lock free, the layout
    of the file on the disk, and the position inside the file. *)
Record ready (s : fs_state D) (io : Z) (j : nat) (f : file_t) (addrs : list nat) (len : Z) : Prop := {
  rd_open : open_at s io j f;
  rd_lock : flk s = -1;
  rd_disk : I (sys s);
  rd_layout : layout (img (sys s)) (super_block s) (f_inode f) addrs len;
  rd_pos : 0 <= file_position f <= len
}.

Lemma layout_len m super ino addrs len : layout m super ino addrs len -> len < 4190208.
Proof. intros [_ _ [_ H] Hc _ _]. lia. Qed.

Lemma with_flk_id s : flk s = -1 -> with_flk (-1) s = s.
Proof. intros E. destruct s. cbn in *. by rewrite E. Qed.

Lemma fs_prepare_run s io j f addrs len n :
  ready s io j f addrs len -> 0 <= n < 2 ^ 63 ->
  exists d, fs_prepare ops self io n s
      = Ok (Some (file_position f, inode_block (img (sys s)) (f_inode f), cut len (file_position f) n),
            with_sys d s) /\ I d /\ img d = img (sys s).
Proof.
  intros [Ho Hf Hi Hl Hp] Hn. pose proof (layout_len _ _ _ _ _ Hl) as Hlen.
  destruct (run_getpos s io j f 0 Ho Hf) as (a' & Eg); [lia|].
  pose proof Ho as (El & _ & _). destruct (ly_ino _ _ _ _ _ Hl) as [Hi0 Hi1].
  pose proof (ly_size _ _ _ _ _ Hl) as Hsz. destruct (ly_len _ _ _ _ _ Hl) as [Ebl _].
  assert (Eb : u64 (f_inode f * FS_BLKSZ + FS_BLKSZ) = (f_inode f + 1) * 4096)
    by (unfold FS_BLKSZ; rewrite u64_small; lia).
  destruct (sys_seek (with_flk self s) ((f_inode f + 1) * 4096)) as (r & d & Es & Hd & Eid & Epos);
    [done|lia|].
  destruct (sys_read (with_sys d (with_flk self s)) BLK) as (d2 & Er & Hd2 & Eid2); [done| |].
  { intros _. cbn [sys with_sys with_flk] in *. rewrite Eid, Epos by lia. pose proof BLK_Z. lia. }
  exists d2. cbn [sys with_sys with_flk] in *. rewrite Eid2. split_and!; try done.
  unfold fs_prepare. rewrite (bind_Ok _ _ _ _ _ Eg), bind_run. cbn [get obind fst].
  rewrite (first_slot_at s io j f Ho), (bind_Ok _ _ _ _ _ (run_field _ f s El)).
  rewrite (bind_Ok _ _ _ _ _ (run_acquire s Hf)), Eb, (bind_Ok _ _ _ _ _ Es).
  change FS_BLKSZ with (Z.of_nat BLK). rewrite (bind_Ok _ _ _ _ _ Er). cbn [snd].
  rewrite Epos, Eid by lia. fold (inode_block (img (sys s)) (f_inode f)).
  rewrite (bind_Ok _ _ _ _ _ (run_field _ len _ Ebl)).
  erewrite bind_Ok by (by apply run_release). unfold mret, M_ret. do 2 f_equal.
  - rewrite (u64_small (file_position f)) by lia. do 2 f_equal. unfold cut.
    destruct (Z.ltb_spec len (u64 (file_position f + n))) as [H|H];
      rewrite u64_small in H by lia; rewrite ?u64_small by lia; lia.
  - unfold with_sys, with_flk. cbn. by rewrite Hf.
Qed.

(** The split of a transfer, and that it adds up. *)
Lemma split_spec p n :
  0 <= p -> 0 <= n < 2 ^ 63 ->
  exists lc cycle rem off i : nat,
    split_transfer p n = (Z.of_nat lc, Z.of_nat cycle, Z.of_nat rem) /\
    p / FS_BLKSZ = Z.of_nat i /\ p mod FS_BLKSZ = Z.of_nat off /\
    (Z.to_nat p = BLK * i + off)%nat /\ (off < BLK)%nat /\
    (lc + BLK * cycle + rem = Z.to_nat n)%nat /\
    ((lc = 0 /\ cycle = 0 /\ off + rem <= BLK)%nat \/ (lc = 0 /\ off = 0 /\ rem < BLK)%nat \/
     (0 < lc /\ off + lc = BLK /\ rem < BLK)%nat).
Proof.
  intros Hp Hn. unfold split_transfer, FS_BLKSZ.
  pose proof (Z.mod_pos_bound p 4096 ltac:(lia)) as Hm.
  pose proof (Z.div_mod p 4096 ltac:(lia)) as Hd. pose proof (Z.div_pos p 4096 Hp ltac:(lia)) as Hq.
  pose proof BLK_Z as HB.
  set (q := p / 4096) in *. set (o := p mod 4096) in *.
  set (lc := if 4096 - o =? 4096 then 0 else 4096 - o).
  assert (Hlc : (o = 0 /\ lc = 0) \/ (0 < o /\ lc = 4096 - o))
    by (unfold lc; destruct (Z.eqb_spec (4096 - o) 4096); lia).
  destruct (Z.ltb_spec n lc) as [Hs|Hb].
  - exists 0%nat, 0%nat, (Z.to_nat n), (Z.to_nat o), (Z.to_nat q). rewrite !Z2Nat.id by lia.
    split_and!; try done; try lia.
  - rewrite u64_small by lia. pose proof (Z.mod_pos_bound (n - lc) 4096 ltac:(lia)) as Hm2.
    pose proof (Z.div_mod (n - lc) 4096 ltac:(lia)) as Hd2.
    pose proof (Z.div_pos (n - lc) 4096 ltac:(lia) ltac:(lia)) as Hq2.
    exists (Z.to_nat lc), (Z.to_nat ((n - lc) / 4096)), (Z.to_nat ((n - lc) mod 4096)),
      (Z.to_nat o), (Z.to_nat q). rewrite !Z2Nat.id by lia.
    split_and!; try done; try lia.
Qed.

(** Positioning the disk for the first chunk. *)
Lemma first_seek s m super ino addrs len p i off :
  layout m super ino addrs len -> I (sys s) -> img (sys s) = m ->
  0 <= p <= len -> p / FS_BLKSZ = Z.of_nat i -> p mod FS_BLKSZ = Z.of_nat off ->
  (Z.to_nat p = BLK * i + off)%nat -> (off < BLK)%nat ->
  exists d, (forall A (k : M (fs_state D) A),
      (q ← block_pos super (inode_block m ino) (p / FS_BLKSZ);
       on_sys (ioctl ops IOCTL_SETPOS (u64 (q + p mod FS_BLKSZ))) ;; k) s = k (with_sys d s)) /\
    I d /\ img d = m /\ aimed addrs (Z.to_nat (len - p)) (with_sys d s) 0 i off /\
    (i <= length addrs)%nat.
Proof.
  intros Hl Hi Em Hp Ei Eo Ep Hoff. destruct (ly_len _ _ _ _ _ Hl) as [_ Hlen].
  pose proof (ly_cnt _ _ _ _ _ Hl) as Hc. pose proof BLK_Z as HB.
  assert (Hil : (i <= length addrs)%nat) by nia.
  destruct (block_pos_any m super ino addrs len (p / FS_BLKSZ) s Hl) as (q & Eq & Hq); [lia|].
  assert (Hqo : 0 <= q + p mod FS_BLKSZ < 2 ^ 64) by (rewrite Eo; lia).
  destruct (sys_seek s (q + p mod FS_BLKSZ) Hi Hqo) as (r & d & Es & Hd & Eid & Epos).
  exists d. rewrite Em in *. split_and!; try done.
  - intros A k. rewrite (bind_Ok _ _ _ _ _ Eq), u64_small by lia.
    by rewrite (bind_Ok _ _ _ _ _ Es).
  - intros Hlt. assert (Hil' : (i < length addrs)%nat) by nia.
    destruct (lookup_lt_is_Some_2 addrs i Hil') as [a Ha]. exists a. split; [done|].
    pose proof (block_pos_at m super ino addrs len i a s Hl Ha) as Ep'.
    rewrite Ei in Eq. rewrite Eq in Ep'. injection Ep' as ->.
    pose proof (bo_in _ _ (ly_blocks _ _ _ _ _ Hl)) as Hin. rewrite Forall_lookup in Hin.
    specialize (Hin _ _ Ha). cbn beta in Hin. pose proof (ly_size _ _ _ _ _ Hl).
    cbn [sys with_sys]. rewrite Epos by (rewrite Eo; lia). rewrite Eo. lia.
Qed.

Lemma aimed_shorter addrs t t' s k i off :
  aimed addrs t s k i off -> (t' <= t)%nat -> aimed addrs t' s k i off.
Proof. intros H Ht Hk. apply H. lia. Qed.

Lemma chunk_at m addrs x c a :
  blocks_ok m addrs -> addrs !! (x / BLK)%nat = Some a -> (x mod BLK + c <= BLK)%nat ->
  slice (a + x mod BLK) c m = slice x c (content m addrs) /\
  (a + x mod BLK + c <= length m)%nat /\ (x + c <= length (content m addrs))%nat.
Proof.
  intros [Hin Hal Hnd] Ha Hc. pose proof (blk_divmod x) as [Hx _].
  pose proof (content_length m addrs Hin) as Hcl. pose proof (lookup_lt_Some _ _ _ Ha).
  assert (Hai : (a + BLK <= length m)%nat) by (rewrite Forall_lookup in Hin; eauto).
  split_and!; [|lia|nia].
  rewrite <- (content_slice m addrs (x / BLK) a) by done. f_equal. lia.
Qed.

(** The loop of [fs_read]: the next [t] bytes of the file reach the buffer. *)
Lemma read_loop m super ino addrs len (p t i off lc cycle rem : nat) buf s :
  layout m super ino addrs len -> (p + t <= BLK * length addrs)%nat -> I (sys s) ->
  img (sys s) = m -> (t <= length buf)%nat -> aimed addrs t s 0 i off ->
  (p = BLK * i + off)%nat -> (off < BLK)%nat -> (lc + BLK * cycle + rem = t)%nat ->
  (lc = 0 /\ cycle = 0 /\ off + rem <= BLK)%nat \/ (lc = 0 /\ off = 0 /\ rem < BLK)%nat \/
    (0 < lc /\ off + lc = BLK /\ rem < BLK)%nat ->
  exists d, fs_blocks ops (range 1023 (Z.of_nat i) DATA_BLOCK_NUM 1) super (inode_block m ino)
      (xfer_read ops) 0 (Z.of_nat lc) (Z.of_nat cycle) (Z.of_nat rem) buf s
      = Ok (splice 0 (slice p t (content m addrs)) buf, with_sys d s) /\ I d /\ img d = m.
Proof.
  intros Hl Ht Hi Em Hb Haim Ep Hoff Esum Hcase. set (C := content m addrs).
  assert (HC : length C = (BLK * length addrs)%nat) by (apply content_length, Hl).
  set (P := fun x b (m' : list Z) => m' = m /\ b = splice 0 (slice p x C) buf).
  assert (Hlen : forall x, (x <= t)%nat -> length (slice p x C) = x)
    by (intros; apply slice_length; lia).
  destruct (fs_blocks_run m super ino addrs len Hl (xfer_read ops) p t Ht P
    ltac:(by intros ? ? ? [-> _])) with (fuel := 1023%nat) (k := 0%nat) (i := i) (off := off)
    (lc := lc) (cycle := cycle) (rem := rem) (buf := buf) (s := s)
    as (d & buf' & E & Hd & Em' & ->).
  - intros s0 x c b a Hi0 [Em0 ->] Hc Hxc Hin Ha Hpos.
    destruct (chunk_at m addrs (p + x) c a (ly_blocks _ _ _ _ _ Hl) Ha Hin) as (Es & Hm & _).
    destruct (sys_read s0 c Hi0) as (d & Er & Hd & Ed); [rewrite Hpos, Em0; lia|].
    eexists d, _. unfold xfer_read. rewrite (bind_Ok _ _ _ _ _ Er). cbn [snd].
    split; [reflexivity|]. split; [done|]. split; [congruence|].
    rewrite Em0, Hpos, Nat2Z.id, Es. fold C. rewrite slice_app.
    rewrite <- splice_append by (rewrite !slice_length; lia). by rewrite Hlen by lia.
  - intros s0 x b Hi0 [Em0 ->] Hx. destruct (sys_read s0 0 Hi0) as (d & Er & Hd & Ed); [lia|].
    exists d. unfold xfer_read. change 0 with (Z.of_nat 0). rewrite (bind_Ok _ _ _ _ _ Er).
    cbn [snd]. rewrite slice_0, splice_nil, Ed by (rewrite splice_length; rewrite ?Hlen; lia).
    split; [done|]. by split.
  - done.
  - split; [done|]. by rewrite slice_0, splice_nil by lia.
  - split; [lia|done].
  - done.
  - lia.
  - lia.
  - done.
  - exists d. split_and!; try done.
Qed.

Lemma fs_read_run s io j f addrs len buf n :
  ready s io j f addrs len -> 0 <= n < 2 ^ 63 ->
  let p := file_position f in
  let k := cut len p n in
  k <= Z.of_nat (length buf) ->
  exists d, fs_read ops self io buf n s
      = Ok ((k, splice 0 (slice (Z.to_nat p) (Z.to_nat k) (content (img (sys s)) addrs)) buf),
            with_files (<[j := set_position (p + k) f]> (opened_files s)) (with_sys d s)) /\
    I d /\ img d = img (sys s).
Proof.
  intros Hr Hn p k Hk. destruct (fs_prepare_run s io j f addrs len n Hr Hn) as (d1 & E1 & Hd1 & Em1).
  destruct Hr as [Ho Hf Hi Hl Hp]. pose proof (layout_len _ _ _ _ _ Hl) as Hlen.
  fold p in E1, Hp. fold k in E1. set (m := img (sys s)) in *.
  assert (Hk0 : 0 <= k <= len - p) by (unfold k, cut; lia).
  destruct (split_spec p k) as (lc & cycle & rem & off & i & Esp & Ei & Eo & Ep & Hoff & Esum & Hcase);
    [lia|lia|].
  destruct (first_seek (with_flk self (with_sys d1 s)) m (super_block s) (f_inode f) addrs len p i off)
    as (d2 & E2 & Hd2 & Em2 & Haim & Hil); try done.
  destruct (ly_len _ _ _ _ _ Hl) as [_ Hcl]. pose proof BLK_Z as HB.
  pose proof (ly_cnt _ _ _ _ _ Hl).
  destruct (read_loop m (super_block s) (f_inode f) addrs len (Z.to_nat p) (Z.to_nat k) i off
    lc cycle rem buf (with_sys d2 (with_flk self (with_sys d1 s)))) as (d3 & E3 & Hd3 & Em3);
    try done; try nia.
  { eapply aimed_shorter; [exact Haim|lia]. }
  destruct (run_setpos (with_sys d3 s) io j f (p + k)) as (r & E4); [done|done|lia|].
  exists d3. split_and!; try done.
  unfold fs_read. rewrite (bind_Ok _ _ _ _ _ E1).
  rewrite (bind_Ok _ _ _ _ _ (run_acquire (with_sys d1 s) Hf)), bind_run. cbn [get obind].
  rewrite Esp. cbn [super_block with_flk with_sys]. rewrite E2.
  rewrite Ei, s32_small by lia. rewrite (bind_Ok _ _ _ _ _ E3).
  erewrite bind_Ok by (by apply run_release).
  rewrite u64_small, s64_small by lia.
  replace (with_flk (-1) _) with (with_sys d3 s)
    by (unfold with_sys, with_flk; cbn; by rewrite Hf).
  by rewrite (bind_Ok _ _ _ _ _ E4).
Qed.

(** ** Writing *)

(** The byte at [y] belongs to none of the blocks. *)
Definition outside (addrs : list nat) (y : nat) : Prop :=
  forall i a, addrs !! i = Some a -> ~ (a <= y < a + BLK)%nat.

(** A write to the blocks leaves the inode alone. *)
Lemma layout_write m m' super ino addrs len :
  layout m super ino addrs len -> length m' = length m ->
  (forall y, outside addrs y -> m' !! y = m !! y) -> layout m' super ino addrs len.
Proof.
  intros Hl Hlen Hout.
  assert (Einode : inode_block m' ino = inode_block m ino).
  { destruct Hl as [(ni & _ & Hni & Hb) [H0 H1] _ _ _ _]. unfold inode_block.
    apply list_eq. intros x. destruct (decide (x < BLK)%nat).
    - rewrite !slice_lookup by done. apply Hout. intros i a Ha.
      destruct (Hb i a Ha) as (b & _ & Hb0 & Ea). pose proof BLK_Z. lia.
    - rewrite !lookup_ge_None_2; [done|..]; unfold slice; rewrite length_take; lia. }
  destruct Hl as [H1 H2 H3 H4 [H5 H6 H7] H8]. constructor; rewrite ?Einode, ?Hlen; try done.
  constructor; rewrite ?Hlen; done.
Qed.

Lemma write_loop m super ino addrs len (p t i off lc cycle rem : nat) buf s :
  layout m super ino addrs len -> (p + t <= BLK * length addrs)%nat -> I (sys s) ->
  img (sys s) = m -> (t <= length buf)%nat -> aimed addrs t s 0 i off ->
  (p = BLK * i + off)%nat -> (off < BLK)%nat -> (lc + BLK * cycle + rem = t)%nat ->
  (lc = 0 /\ cycle = 0 /\ off + rem <= BLK)%nat \/ (lc = 0 /\ off = 0 /\ rem < BLK)%nat \/
    (0 < lc /\ off + lc = BLK /\ rem < BLK)%nat ->
  exists d b, fs_blocks ops (range 1023 (Z.of_nat i) DATA_BLOCK_NUM 1) super (inode_block m ino)
      (xfer_write ops) 0 (Z.of_nat lc) (Z.of_nat cycle) (Z.of_nat rem) buf s
      = Ok (b, with_sys d s) /\ I d /\ length (img d) = length m /\
    content (img d) addrs = splice p (take t buf) (content m addrs) /\
    (forall y, outside addrs y -> img d !! y = m !! y).
Proof.
  intros Hl Ht Hi Em Hb Haim Ep Hoff Esum Hcase. set (C := content m addrs).
  assert (HC : length C = (BLK * length addrs)%nat) by (apply content_length, Hl).
  set (P := fun x (b m' : list Z) => b = buf /\ length m' = length m /\
    content m' addrs = splice p (take x buf) C /\ (forall y, outside addrs y -> m' !! y = m !! y)).
  destruct (fs_blocks_run m super ino addrs len Hl (xfer_write ops) p t Ht P
    ltac:(by intros ? ? ? (_ & ? & _))) with (fuel := 1023%nat) (k := 0%nat) (i := i) (off := off)
    (lc := lc) (cycle := cycle) (rem := rem) (buf := buf) (s := s)
    as (d & buf' & E & Hd & _ & Elen & Ec & Eout).
  - intros s0 x c b a Hi0 (-> & El0 & Ec0 & Eo0) Hc Hxc Hin Ha Hpos.
    set (bs := slice x c buf). assert (Hbs : length bs = c) by (apply slice_length; lia).
    destruct (ly_blocks _ _ _ _ _ Hl) as [Hbi Hba Hbn].
    assert (Hok : blocks_ok (img (sys s0)) addrs) by (constructor; rewrite ?El0; done).
    destruct (chunk_at (img (sys s0)) addrs (p + x) c a Hok Ha Hin) as (_ & Hm & _).
    destruct (sys_write s0 bs Hi0) as (r & d & Er & Hd & Ed); [rewrite Hpos, Hbs; lia|].
    destruct (decide (bs = [])) as [E0|_]; [rewrite E0 in Hbs; simpl in Hbs; lia|].
    rewrite Hpos in Ed.
    exists d, buf. unfold xfer_write. rewrite !Nat2Z.id. fold bs. rewrite (bind_Ok _ _ _ _ _ Er).
    split; [done|]. split; [done|]. rewrite Ed. split_and!; [done|rewrite splice_length; lia| |].
    + rewrite (content_splice _ addrs _ a) by (done || rewrite Hbs; lia).
      rewrite <- (proj1 (blk_divmod (p + x))), Ec0.
      replace (p + x)%nat with (p + length (take x buf))%nat by (rewrite length_take; lia).
      rewrite splice_append by (rewrite length_take, Hbs; lia). f_equal. apply take_take_drop.
    + intros y Hy. rewrite splice_lookup_out; [by apply Eo0|lia|].
      specialize (Hy _ _ Ha). lia.
  - intros s0 x b Hi0 HP Hx. destruct (sys_write s0 [] Hi0) as (r & d & Er & Hd & Ed); [done|].
    exists d. unfold xfer_write. unfold slice. rewrite take_0, (bind_Ok _ _ _ _ _ Er).
    cbn in Ed. by rewrite Ed.
  - done.
  - split_and!; try done; [by rewrite Em| |by rewrite Em]. rewrite Em, take_0, splice_nil; [done|lia].
  - split; [lia|done].
  - done.
  - lia.
  - lia.
  - done.
  - exists d, buf'. split_and!; try done.
Qed.

Lemma fs_write_run s io j f addrs len buf :
  ready s io j f addrs len -> Z.of_nat (length buf) < 2 ^ 63 ->
  let p := file_position f in
  let k := cut len p (Z.of_nat (length buf)) in
  exists d, fs_write ops self io buf s
      = Ok (k, with_files (<[j := set_position (p + k) f]> (opened_files s)) (with_sys d s)) /\
    I d /\ layout (img d) (super_block s) (f_inode f) addrs len /\
    content (img d) addrs = splice (Z.to_nat p) (take (Z.to_nat k) buf) (content (img (sys s)) addrs) /\
    (forall y, outside addrs y -> img d !! y = img (sys s) !! y).
Proof.
  intros Hr Hn p k. destruct (fs_prepare_run s io j f addrs len (Z.of_nat (length buf)) Hr)
    as (d1 & E1 & Hd1 & Em1); [lia|].
  destruct Hr as [Ho Hf Hi Hl Hp]. pose proof (layout_len _ _ _ _ _ Hl) as Hlen.
  fold p in E1, Hp. fold k in E1. set (m := img (sys s)) in *.
  assert (Hk0 : 0 <= k <= len - p /\ k <= Z.of_nat (length buf)) by (unfold k, cut; lia).
  destruct (split_spec p k) as (lc & cycle & rem & off & i & Esp & Ei & Eo & Ep & Hoff & Esum & Hcase);
    [lia|lia|].
  destruct (first_seek (with_sys d1 s) m (super_block s) (f_inode f) addrs len p i off)
    as (d2 & E2 & Hd2 & Em2 & Haim & Hil); try done.
  destruct (ly_len _ _ _ _ _ Hl) as [_ Hcl]. pose proof BLK_Z as HB.
  pose proof (ly_cnt _ _ _ _ _ Hl).
  destruct (write_loop m (super_block s) (f_inode f) addrs len (Z.to_nat p) (Z.to_nat k) i off
    lc cycle rem buf (with_flk self (with_sys d2 (with_sys d1 s)))) as (d3 & b & E3 & Hd3 & Em3 & Ec & Eout);
    try done; try nia.
  { eapply aimed_shorter; [exact Haim|lia]. }
  destruct (run_setpos (with_sys d3 s) io j f (p + k)) as (r & E4); [done|done|lia|].
  exists d3. split_and!; try done; [|by eapply layout_write].
  unfold fs_write. rewrite (bind_Ok _ _ _ _ _ E1), bind_run. cbn [get obind].
  rewrite Esp. cbn [super_block with_flk with_sys]. rewrite E2.
  erewrite bind_Ok by (by apply run_acquire).
  rewrite Ei, s32_small by lia. rewrite (bind_Ok _ _ _ _ _ E3).
  erewrite bind_Ok by (by apply run_release).
  rewrite u64_small, s64_small by lia.
  replace (with_flk (-1) _) with (with_sys d3 s)
    by (unfold with_sys, with_flk; cbn; by rewrite Hf).
  by rewrite (bind_Ok _ _ _ _ _ E4).
Qed.
End KfsProofs.
