(* ===== verification/KfsSpec.v ===== *)
(** kfs.c: what the file system guarantees.

    The theorems about [fs_open], [fs_close], [fs_read] and [fs_write] over any
    disk that meets the interfaces [Seekable] and [Writable], the proof that the
    memory-backed object of io.c meets them, and an image the theorems are evaluated on. *)

From S2P Require Import Prelude CString Io Kfs.

(** ** The memory-backed object as a disk *)

Definition lit_ok (l : io_lit) : Prop :=
  lit_size l = Z.of_nat (length (lit_buf l)) /\ lit_size l < 2 ^ 31.

Lemma iolit_room l n :
  lit_ok l -> (Z.to_nat (lit_pos l) + n <= length (lit_buf l))%nat -> 0 <= lit_pos l ->
  (u64 (lit_size l - lit_pos l) <? Z.of_nat n) = false.
Proof. intros [E H] Hn Hp. apply Z.ltb_ge. rewrite u64_small; lia. Qed.

Notation lit_at := (fun l => Z.to_nat (lit_pos l)).
Notation lit_inv := (fun l => lit_ok l /\ 0 <= lit_pos l).

#[global] Instance iolit_seekable : Seekable iolit_ops lit_buf lit_at lit_inv.
Proof.
  refine (@Build_Seekable io_lit iolit_ops _ _ _ iolit_read eq_refl _ iolit_ctl eq_refl _).
  - intros l n [Hl Hp] Hn Hin. exists l. unfold iolit_read. rewrite bind_run. cbn [get obind].
    rewrite (iolit_room l n Hl Hin Hp), Nat2Z.id, memcpy_run.
    + split_and!; try done. unfold mret, M_ret. do 3 f_equal. apply splice_all.
      by rewrite slice_length, repeat_length by lia.
    + rewrite repeat_length. lia.
    + rewrite length_drop. lia.
  - intros l p [Hl Hp] Hr. eexists _, _. split; [reflexivity|]. cbn [lit_buf lit_pos lit_size].
    split_and!; try done; try apply Hl.
    + apply u64_range.
    + intros H _. unfold get_int. rewrite s32_small, u64_small by lia. done.
Defined.

#[global] Instance iolit_writable : Writable iolit_ops lit_buf lit_at lit_inv.
Proof.
  refine (@Build_Writable io_lit iolit_ops _ _ _ iolit_write eq_refl _).
  intros l bs [Hl Hp] Hne Hin. eexists. unfold iolit_write. rewrite bind_run. cbn [get obind].
  rewrite (iolit_room l (length bs) Hl Hin Hp), memcpy_run by (rewrite ?length_drop; lia).
  split; [reflexivity|]. cbn [lit_buf lit_pos lit_size].
  assert (Es : take (Z.to_nat (lit_pos l)) (lit_buf l)
      ++ splice 0 (take (length bs) bs) (drop (Z.to_nat (lit_pos l)) (lit_buf l))
      = splice (Z.to_nat (lit_pos l)) bs (lit_buf l)).
  { rewrite firstn_all. unfold splice. rewrite take_0, drop_drop. done. }
  rewrite Es. split_and!; try done. destruct Hl as [E H].
  split; cbn [lit_buf lit_size]; [by rewrite splice_length|done].
Defined.

(** ** Results *)


(** An image of four blocks: the directory with the one file "f", its inode, an
    inode never used, and a data block that holds "hello"; the file is opened
    at position 1. *)
Definition demo_boot : list Z :=
  [1; 0; 0; 0; 2; 0; 0; 0; 1; 0; 0; 0] ++ repeat 0 52 ++ [102] ++ repeat 0 4031.
Definition demo_inode : list Z := [5; 0; 0; 0] ++ repeat 0 4092.
Definition demo_img : list Z :=
  demo_boot ++ demo_inode ++ repeat 0 4096 ++ [104; 101; 108; 108; 111] ++ repeat 0 4091.
Definition demo_file : file_t := mkFile 1000 1 5 0 IN_USE.
Definition demo_fs : fs_state io_lit :=
  mkFs (mkLit demo_img 16384 0) demo_boot (demo_file :: repeat (mkFile 0 0 0 0 0) 31) ∅ 1001 (-1).

Lemma demo_ready :
  ready lit_buf (fun l => lit_ok l /\ 0 <= lit_pos l) demo_fs 1000 0 demo_file [12288%nat] 5.
Proof.
  assert (Hlen : Z.of_nat (length demo_img) = 16384) by (vm_compute; done).
  constructor.
  - split_and!; [done|done|]. intros [|j'] f' E; [done|]. cbn [demo_fs opened_files] in E.
    change (demo_file :: ?l) with ([demo_file] ++ l) in E.
    rewrite lookup_app_r in E by (simpl; lia). apply list_elem_of_lookup_2 in E.
    apply list_elem_of_In, repeat_spec in E. by subst f'.
  - done.
  - split; [split|]; cbn [demo_fs sys lit_size lit_buf lit_pos]; [done|done|done].
  - constructor; cbn [demo_fs sys lit_buf super_block demo_file f_inode].
    + exists 2. split_and!; try done. intros [|i] a Ha; [|done]. injection Ha as <-.
      exists 0. by vm_compute.
    + rewrite Hlen. lia.
    + split; [by vm_compute|]. simpl. lia.
    + simpl. lia.
    + constructor; [|by repeat constructor|by apply NoDup_singleton].
      constructor; [|constructor]. apply Nat2Z.inj_le. rewrite Hlen. by vm_compute.
    + rewrite Hlen. lia.
  - cbn. lia.
Qed.




Lemma open_at_set {D} (s s' : fs_state D) io j f p :
  open_at s io j f -> opened_files s' = <[j := set_position p f]> (opened_files s) ->
  open_at s' io j (set_position p f).
Proof.
  intros (El & Ei & Hu) Ef. unfold open_at. rewrite Ef. split_and!.
  - apply list_lookup_insert_eq. by eapply lookup_lt_Some.
  - done.
  - intros j' f' E Eio. destruct (decide (j' = j)) as [->|Hne]; [done|].
    rewrite list_lookup_insert_ne in E by done. by eapply Hu.
Qed.



(** ** Opening and closing *)

(** A directory whose names are terminated. *)
Record dir_ok (super : list Z) : Prop := {
  do_len : length super = BLK;
  do_bytes : Forall (fun c => 0 <= c) super;
  do_names : forall i, 0 <= i < 63 -> terminated (dentry_name super i)
}.

(** The inode of the first entry with a name. *)
Fixpoint lookup_name (super : list Z) (name : list Z) (idxs : list Z) : option Z :=
  match idxs with
  | [] => None
  | i :: rest =>
      if bool_decide (cstr (dentry_name super i) = cstr name) then dentry_inode super i
      else lookup_name super name rest
  end.
Definition directory (super name : list Z) : option Z :=
  lookup_name super name (range 63 0 DIR_ENTRY_CT 1).

Section Open.
Context {D : Type} (ops : io_ops D) (img : D -> list Z) (pos : D -> nat) (I : D -> Prop)
  `{!Seekable ops img pos I} (self : Z).

Lemma find_dentry_run super name idxs (s : fs_state D) :
  dir_ok super -> terminated name -> Forall (fun c => 0 <= c) name ->
  (forall i, i ∈ idxs -> 0 <= i < 63) ->
  find_dentry super name idxs s = Ok (default (u32 (-1)) (lookup_name super name idxs), s).
Proof.
  intros [Hl Hb Ht] Hn Hnb. induction idxs as [|i idxs IH]; intros Hin; [done|].
  cbn [find_dentry lookup_name].
  assert (Hi : 0 <= i < 63) by (apply Hin; by left).
  assert (E : strcmp (Some (dentry_name super i)) (Some name)
    = Some (sign (str_compare (cstr (dentry_name super i)) (cstr name)))).
  { apply strcmp_chars_spec; auto. by apply Forall_drop. }
  rewrite (bind_Ok _ _ _ _ _ (run_field _ _ s E)).
  destruct (le32_Some super (64 + DIR_ENTRY_SZ * i + FS_NAMELEN)) as [ino Ei];
    [unfold DIR_ENTRY_SZ, FS_NAMELEN; lia| |].
  { rewrite Hl, BLK_Z. unfold DIR_ENTRY_SZ, FS_NAMELEN. lia. }
  case_bool_decide as Eq.
  - apply sign_0 in Eq. rewrite Eq. cbn iota. unfold dentry_inode. rewrite Ei. done.
  - destruct (Z.eqb_spec (sign (str_compare (cstr (dentry_name super i)) (cstr name))) 0) as [E0|].
    + by apply sign_0 in E0.
    + apply IH. intros i' Hi'. apply Hin. by right.
Qed.

Lemma range63 i : i ∈ range 63 0 DIR_ENTRY_CT 1 -> 0 <= i < 63.
Proof. rewrite range_elem by lia. unfold DIR_ENTRY_CT. intros (k & ? & -> & ?). lia. Qed.

Lemma find_directory (s : fs_state D) name :
  dir_ok (super_block s) -> terminated name -> Forall (fun c => 0 <= c) name ->
  find_dentry (super_block s) name (range 63 0 DIR_ENTRY_CT 1) (with_flk self s)
  = Ok (default (u32 (-1)) (directory (super_block s) name), with_flk self s).
Proof. intros. apply find_dentry_run; auto using range63. Qed.

Lemma fs_open_missing (s : fs_state D) name :
  flk s = -1 -> dir_ok (super_block s) -> terminated name -> Forall (fun c => 0 <= c) name ->
  directory (super_block s) name = None ->
  fs_open ops self name s = Ok ((- ENOENT, None), with_flk self s).
Proof.
  intros Hf Hd Hn Hb Hdir. unfold fs_open. rewrite (bind_Ok _ _ _ _ _ (run_acquire self s Hf)).
  rewrite bind_run. cbn [get obind]. cbn [super_block with_flk].
  rewrite (bind_Ok _ _ _ _ _ (find_directory s name Hd Hn Hb)), Hdir. done.
Qed.

Lemma free_slot_spec files k i :
  free_slot files k = Some i ->
  exists j f, i = (k + j)%nat /\ files !! j = Some f /\ f_io f = 0.
Proof.
  revert k. induction files as [|g files IH]; intros k; [done|]. cbn [free_slot].
  destruct (Z.eqb_spec (f_io g) 0).
  - intros [= <-]. exists 0%nat, g. split_and!; try done.
  - intros H. apply IH in H as (j & f & -> & Hj & Hf). exists (S j), f. split_and!; try done. lia.
Qed.

(** Opening an existing file with a free slot in the table. *)
Lemma fs_open_found s name ino addrs len i :
  flk s = -1 -> I (sys s) -> dir_ok (super_block s) -> terminated name ->
  Forall (fun c => 0 <= c) name -> directory (super_block s) name = Some ino ->
  layout (img (sys s)) (super_block s) ino addrs len ->
  free_slot (opened_files s) 0 = Some i ->
  exists d, fs_open ops self name s
      = Ok ((0, Some (next_io s)),
            mkFs d (super_block s) (<[i := mkFile (next_io s) 0 len ino IN_USE]> (opened_files s))
              (<[next_io s := 1]> (refcnts s)) (next_io s + 1) (-1)) /\
    I d /\ img d = img (sys s).
Proof.
  intros Hf Hi Hd Hn Hb Hdir Hl Hfree.
  destruct (ly_ino _ _ _ _ _ Hl) as [H0 H1]. pose proof (ly_size _ _ _ _ _ Hl) as Hsz.
  destruct (ly_len _ _ _ _ _ Hl) as [Ebl _]. pose proof BLK_Z as HB.
  assert (Eb : u32 (u32 (FS_BLKSZ * ino) + FS_BLKSZ) = (ino + 1) * 4096)
    by (unfold FS_BLKSZ; rewrite (u32_small (4096 * ino)), u32_small; lia).
  destruct (sys_seek ops img pos I (with_flk self s) ((ino + 1) * 4096)) as
    (r & d & Es & Hd1 & Eid & Epos); [done|lia|].
  cbn [sys with_flk] in *. specialize (Epos ltac:(lia) ltac:(lia)).
  destruct (dsk_read d BLK Hd1) as (d2 & Er & Hd2 & Eid2); [lia|rewrite Eid, Epos; lia|].
  exists d2. split_and!; [|done|congruence].
  unfold fs_open. rewrite (bind_Ok _ _ _ _ _ (run_acquire self s Hf)), bind_run.
  cbn [get obind]. cbn [super_block with_flk].
  rewrite (bind_Ok _ _ _ _ _ (find_directory s name Hd Hn Hb)), Hdir.
  change (default (u32 (-1)) (Some ino)) with ino.
  destruct (Z.eqb_spec ino (u32 (-1))) as [->|_]; [change (u32 (-1)) with 4294967295 in *; lia|].
  rewrite Eb, (bind_Ok _ _ _ _ _ Es).
  rewrite (bind_Ok _ _ _ _ _ (run_field _ _ _ dsk_rops)). change FS_BLKSZ with (Z.of_nat BLK).
  rewrite (bind_Ok _ _ _ _ _ (run_on_sys _ (with_sys d (with_flk self s)) _ _ Er)).
  cbn beta iota. destruct (Z.ltb_spec (Z.of_nat BLK) 0); [lia|].
  rewrite bind_run. cbn [get obind]. cbn [with_sys with_flk opened_files next_io].
  rewrite bind_run. cbn [modify obind]. rewrite Hfree.
  rewrite Epos, Eid. change (slice (Z.to_nat ((ino + 1) * 4096)) BLK (img (sys s)))
    with (inode_block (img (sys s)) ino).
  rewrite (bind_Ok _ _ _ _ _ (run_field _ _ _ Ebl)), bind_run. cbn [set_files modify obind].
  by erewrite bind_Ok by (by apply run_release).
Qed.
End Open.

(** Opening a file.  When the directory has the name, the inode's file is
    laid out on the image and the table has a free slot, [fs_open] returns 0
    and a fresh I/O object; the first free slot then holds that object at
    position 0 with the size of the file, every other slot is as it was, the
    lock is free again, and the file is ready for [fs_read] and [fs_write]. *)
Theorem fs_open_spec {D : Type} (ops : io_ops D) (img : D -> list Z) (pos : D -> nat)
    (I : D -> Prop) `{!Seekable ops img pos I} (self : Z) (s : fs_state D) (name : list Z)
    (ino : Z) (addrs : list nat) (len : Z) (i : nat)
    (Hlock : flk s = -1) (Hdisk : I (sys s)) (Hdirok : dir_ok (super_block s))
    (Hname : terminated name) (Hbytes : Forall (fun c => 0 <= c) name)
    (Hdir : directory (super_block s) name = Some ino)
    (Hlay : layout (img (sys s)) (super_block s) ino addrs len)
    (Hfree : free_slot (opened_files s) 0 = Some i)
    (Hfresh : Forall (fun f => f_io f <> next_io s) (opened_files s)) :
  exists s', fs_open ops self name s = Ok ((0, Some (next_io s)), s') /\
    opened_files s' = <[i := mkFile (next_io s) 0 len ino IN_USE]> (opened_files s) /\
    ready img I s' (next_io s) i (mkFile (next_io s) 0 len ino IN_USE) addrs len.
Proof.
  destruct (fs_open_found ops img pos I self s name ino addrs len i) as (d & E & Hd & Em); try done.
  eexists. split; [exact E|]. split; [done|].
  apply free_slot_spec in Hfree as (j & f & -> & Hj & _). cbn [Nat.add].
  constructor; cbn; try done.
  - split_and!; cbn.
    + apply list_lookup_insert_eq. by eapply lookup_lt_Some.
    + done.
    + intros j' f' E' Eio. destruct (decide (j' = j)) as [->|Hne]; [done|].
      rewrite list_lookup_insert_ne in E' by done.
      rewrite Forall_lookup in Hfresh. by destruct (Hfresh _ _ E').
  - by rewrite Em.
  - destruct (ly_len _ _ _ _ _ Hlay) as [_ H]. lia.
Qed.

Lemma demo_dir_ok : dir_ok demo_boot.
Proof.
  constructor.
  - by vm_compute.
  - apply (bool_decide_unpack _). by vm_compute.
  - assert (G : Forall (fun i => 0 ∈ dentry_name demo_boot i) (range 63 0 63 1)).
    { apply (bool_decide_unpack _). by vm_compute. }
    intros i Hi. rewrite Forall_forall in G. apply G.
    assert (Hr : forall n from, from <= i < from + Z.of_nat n -> i < 63 -> i ∈ range n from 63 1).
    { induction n as [|n IH]; intros from H1 H2; [lia|]. cbn [range].
      destruct (Z.ltb_spec from 63); [|lia]. apply elem_of_cons.
      destruct (decide (i = from)); [by left|right]. apply IH; lia. }
    apply (Hr 63%nat 0); lia.
Qed.

Lemma fs_open_spec_witness :
  exists s', fs_open iolit_ops 7 [102; 0] demo_fs = Ok ((0, Some 1001), s').
Proof.
  destruct (fs_open_spec iolit_ops lit_buf (fun l => Z.to_nat (lit_pos l))
    (fun l => lit_ok l /\ 0 <= lit_pos l) 7 demo_fs [102; 0] 0 [12288%nat] 5 1) as (s' & E & _).
  - reflexivity.
  - apply demo_ready.
  - exact demo_dir_ok.
  - apply (bool_decide_unpack _). by vm_compute.
  - repeat constructor; lia.
  - vm_compute. reflexivity.
  - apply demo_ready.
  - vm_compute. reflexivity.
  - apply (bool_decide_unpack _). by vm_compute.
  - exists s'. exact E.
Defined.

(** Looking for a file that does not exist blocks the file system: [fs_open]
    returns -ENOENT without releasing the lock, and from then on no call of
    [fs_open] by any thread returns, nor does any [ioctl], read or write on a
    file that is open. *)
Theorem fs_open_missing_blocks {D : Type} (ops : io_ops D) (self self' : Z) (s : fs_state D)
    (name name' : list Z) (io : Z) (j : nat) (f : file_t) (cmd arg n : Z) (buf : list Z)
    (Hself : self <> -1) (Hlock : flk s = -1) (Hdirok : dir_ok (super_block s))
    (Hname : terminated name) (Hbytes : Forall (fun c => 0 <= c) name)
    (Hdir : directory (super_block s) name = None) (Hopen : open_at s io j f) :
  exists s', fs_open ops self name s = Ok ((- ENOENT, None), s') /\
    fs_open ops self' name' s' = Fuel /\ fs_ioctl self' io cmd arg s' = Fuel /\
    fs_read ops self' io buf n s' = Fuel /\ fs_write ops self' io buf s' = Fuel.
Proof.
  exists (with_flk self s).
  assert (Hw : lock_acquire self' (with_flk self s) = Fuel).
  { unfold lock_acquire. rewrite bind_run. cbn [get obind flk with_flk].
    destruct (Z.eqb_spec self (-1)); [done|]. done. }
  assert (Hi : forall cmd arg, fs_ioctl self' io cmd arg (with_flk self s) = Fuel).
  { intros cmd0 arg0. unfold fs_ioctl. rewrite bind_run. cbn [get obind].
    rewrite (last_slot_at (with_flk self s) io j f Hopen).
    rewrite (bind_Ok _ _ _ _ _ (run_field _ f _ (proj1 Hopen : opened_files (with_flk self s) !! j = _))).
    by rewrite bind_run, Hw. }
  split_and!; [by apply fs_open_missing| |apply Hi| |].
  - unfold fs_open. by rewrite bind_run, Hw.
  - unfold fs_read, fs_prepare. by rewrite bind_run, bind_run, Hi.
  - unfold fs_write, fs_prepare. by rewrite bind_run, bind_run, Hi.
Qed.

Lemma fs_open_missing_blocks_witness :
  exists s', fs_open iolit_ops 7 [120; 0] demo_fs = Ok ((- ENOENT, None), s') /\
    fs_open iolit_ops 8 [102; 0] s' = Fuel.
Proof.
  destruct (fs_open_missing_blocks iolit_ops 7 8 demo_fs [120; 0] [102; 0] 1000 0 demo_file 0 0 0 [])
    as (s' & E1 & E2 & _).
  - discriminate.
  - reflexivity.
  - exact demo_dir_ok.
  - apply (bool_decide_unpack _). by vm_compute.
  - repeat constructor; lia.
  - vm_compute. reflexivity.
  - apply demo_ready.
  - exists s'. exact (conj E1 E2).
Defined.

Lemma map_insert_io (files : list file_t) i f g :
  files !! i = Some f -> f_io g = f_io f -> f_io <$> (<[i := g]> files) = f_io <$> files.
Proof.
  intros Hi Hg. rewrite list_fmap_insert, Hg. apply list_insert_id.
  by rewrite list_lookup_fmap, Hi.
Qed.

Lemma free_slot_io (files files' : list file_t) k :
  f_io <$> files = f_io <$> files' -> free_slot files k = free_slot files' k.
Proof.
  revert files' k. induction files as [|f files IH]; intros [|g files'] k E; try done.
  cbn in E. injection E as E1 E2. cbn [free_slot]. rewrite E1. by rewrite (IH files').
Qed.

(** Closing a file does not give its slot back: [fs_close] leaves the I/O
    object of every slot as it is (it only clears a usage flag nobody reads), so
    the free slot the next [fs_open] uses, if there is one, is the same as if the
    file had stayed open, and the lock is not touched. *)
Theorem fs_close_keeps_slot {D : Type} (s : fs_state D) (io : Z) :
  exists s', fs_close io s = Ok (tt, s') /\
    f_io <$> opened_files s' = f_io <$> opened_files s /\
    free_slot (opened_files s') 0 = free_slot (opened_files s) 0 /\ flk s' = flk s.
Proof.
  assert (G : exists s', fs_close io s = Ok (tt, s') /\
    f_io <$> opened_files s' = f_io <$> opened_files s /\ flk s' = flk s).
  { unfold fs_close. rewrite bind_run. cbn [get obind].
    assert (Hs : forall files k i, first_slot files io k = Some i -> exists j f, i = (k + j)%nat /\ files !! j = Some f).
    { induction files as [|f files IH]; intros k i; [done|]. cbn [first_slot].
      destruct (f_io f =? io).
      - intros [= <-]. exists 0%nat, f. split; [lia|done].
      - intros H. apply IH in H as (j & g & -> & Hj). exists (S j), g. split; [lia|done]. }
    destruct (first_slot (opened_files s) io 0) as [i|] eqn:Ei; [|by exists s].
    apply Hs in Ei as (j & f & -> & Hj). cbn [Nat.add]. rewrite bind_run. cbn [modify obind].
    casesplit; [|by eexists].
    rewrite (bind_Ok _ _ _ _ _ (run_field _ f _ Hj)). eexists. split; [reflexivity|].
    split; [|done]. cbn [opened_files]. by eapply map_insert_io. }
  destruct G as (s' & E & Ef & Hl). exists s'. split_and!; try done. by apply free_slot_io.
Qed.

(** ** An open file as a seekable object *)

Section FileObject.
Context {D : Type} (ops : io_ops D) (img : D -> list Z) (pos : D -> nat) (I : D -> Prop)
  `{!Seekable ops img pos I} (self io : Z) (j : nat) (addrs : list nat) (len : Z).

Definition file_img (s : fs_state D) : list Z := take (Z.to_nat len) (content (img (sys s)) addrs).
Definition file_pos (s : fs_state D) : nat :=
  match opened_files s !! j with Some f => Z.to_nat (file_position f) | None => 0%nat end.
Definition file_inv (s : fs_state D) : Prop :=
  exists f, open_at s io j f /\ flk s = -1 /\ I (sys s) /\
    layout (img (sys s)) (super_block s) (f_inode f) addrs len /\ 0 <= file_position f.

Lemma file_img_length s : file_inv s -> Z.of_nat (length (file_img s)) = len.
Proof.
  intros (f & _ & _ & _ & Hl & _). destruct (ly_len _ _ _ _ _ Hl) as [_ Hc].
  unfold file_img. rewrite length_take, content_length by apply Hl. pose proof BLK_Z. nia.
Qed.

Lemma ready_file_inv s f : ready img I s io j f addrs len -> file_inv s.
Proof. intros [Ho Hf Hi Hl [H0 _]]. by exists f. Qed.

#[global] Instance file_seekable : Seekable (new_file_ops ops self io) file_img file_pos file_inv.
Proof using Seekable0.
  refine (@Build_Seekable (fs_state D) (new_file_ops ops self io) file_img file_pos file_inv _ eq_refl _ _ eq_refl _).
  - intros s n Hinv Hn Hin. pose proof (file_img_length s Hinv) as Hlen.
    destruct Hinv as (f & Ho & Hf & Hi & Hl & H0).
    assert (Ep : file_pos s = Z.to_nat (file_position f)) by (unfold file_pos; by rewrite (proj1 Ho)).
    rewrite Ep in Hin |- *.
    assert (Hr : ready img I s io j f addrs len) by (constructor; try done; lia).
    pose proof (layout_len _ _ _ _ _ Hl).
    destruct (fs_read_run ops img pos I self s io j f addrs len (repeat 0 n) (Z.of_nat n) Hr) as (d & E & Hd & Em);
      [lia|unfold cut; rewrite repeat_length; lia|].
    assert (Ek : cut len (file_position f) (Z.of_nat n) = Z.of_nat n) by (unfold cut; lia).
    rewrite Ek, Nat2Z.id in E.
    set (s' := with_files _ _) in E. exists s'.
    assert (Ebytes : slice (Z.to_nat (file_position f)) n (content (img (sys s)) addrs)
      = slice (Z.to_nat (file_position f)) n (file_img s)).
    { unfold file_img, slice. rewrite !take_drop_commute, take_take. do 2 f_equal. lia. }
    assert (Elen : length (slice (Z.to_nat (file_position f)) n (content (img (sys s)) addrs)) = n)
      by (rewrite Ebytes; apply slice_length; lia).
    split_and!.
    + rewrite Nat2Z.id, (bind_Ok _ _ _ _ _ E). cbn [fst snd]. unfold mret, M_ret. do 3 f_equal.
      rewrite splice_all by (by rewrite Elen, repeat_length). rewrite Nat2Z.id, <- Ebytes.
      apply take_ge. lia.
    + exists (set_position (file_position f + Z.of_nat n) f). split_and!.
      * by apply (open_at_set s).
      * done.
      * done.
      * cbn [s' sys super_block with_files with_sys f_inode set_position]. by rewrite Em.
      * cbn. lia.
    + unfold file_img. cbn [s' sys with_files with_sys]. by rewrite Em.
  - intros s p (f & Ho & Hf & Hi & Hl & H0) Hp.
    destruct (run_setpos_any self s io j f p Ho Hf) as (r & E). eexists r, _. split; [exact E|]. split_and!.
    + exists (set_position (u64 (get_int p)) f). split_and!; try done; [by apply (open_at_set s)|].
      cbn. apply u64_range.
    + done.
    + intros Hp1 _. unfold file_pos. cbn [opened_files with_files].
      rewrite list_lookup_insert_eq by (by eapply lookup_lt_Some, Ho). cbn. unfold get_int.
      by rewrite s32_small, u64_small by lia.
Defined.
End FileObject.
