(* ===== verification/Mkfs.v ===== *)
(** mkfs.c: the host program that builds a file-system image, and the file system
    on the images it builds.

    An argument of the program is a path, without its terminator, with the
    contents of the file it names.  [stale] is what the memory of the array of
    inodes holds before it is filled; the rest of an inode is never written. *)

From S2P Require Import Prelude CString Io Kfs KfsSpec.

(** The bytes of a 32-bit field. *)
Definition le4 (v : Z) : list Z := [v mod 256; v / 256 mod 256; v / 65536 mod 256; v / 16777216 mod 256].

(** [strncpy] of the host library into a field of [FS_NAMELEN] bytes: a name that
    is shorter is padded, a longer one is cut. *)
Definition name_field (name : list Z) : list Z := take 32 (name ++ repeat 0 32).

(** "../user/bin/" and "user/bin/". *)
Definition up_user_bin : list Z := [46; 46; 47; 117; 115; 101; 114; 47; 98; 105; 110; 47].
Definition user_bin : list Z := [117; 115; 101; 114; 47; 98; 105; 110; 47].
Definition SLASH : Z := 47.

Definition shortname (path : list Z) : list Z :=
  if bool_decide (take 12 path = up_user_bin) then drop 12 path
  else if bool_decide (take 9 path = user_bin) then drop 9 path
  else path.

(** The entry [i] of the directory. *)
Definition put_dentry (i : nat) (name boot : list Z) : list Z :=
  splice (64 + 64 * i + 32) (le4 (Z.of_nat i)) (splice (64 + 64 * i) (name_field name) boot).

(** The loop that adds the entries; [n] is [number_inodes]. *)
Fixpoint add_dentries (paths : list (list Z)) (n : nat) (boot : list Z) : outcome (list Z) :=
  match paths with
  | [] => Ok boot
  | p :: rest =>
      if bool_decide (SLASH ∈ shortname p) then Panic "index(shortname, '/') == 0"
      else if (63 <=? n)%nat then Undef "dir_entries index"
      else add_dentries rest (S n) (put_dentry n (shortname p) boot)
  end.

(** The numbers of the data blocks a file of [len] bytes is given. *)
Definition num_data_blocks_for_file (len : nat) : nat := (len / BLK + 1)%nat.

(** One inode: the block numbers from [first] on and the length. *)
Definition fill_inode (first : nat) (len : nat) (inode : list Z) : list Z :=
  splice 0 (le4 (Z.of_nat len))
    (splice 4 (concat ((fun b => le4 (Z.of_nat b)) <$> seq first (num_data_blocks_for_file len))) inode).

(** The loop that adds the inodes: the inodes and the next data block. *)
Fixpoint add_inodes (stale : nat -> list Z) (files : list (list Z)) (inode_idx data_block_idx : nat)
    : outcome (list (list Z) * nat) :=
  match files with
  | [] => Ok ([], data_block_idx)
  | c :: rest =>
      if (1023 <? num_data_blocks_for_file (length c))%nat then Undef "data_block_num index"
      else
        obind (add_inodes stale rest (S inode_idx) (data_block_idx + num_data_blocks_for_file (length c)))
          (fun '(inodes, next) => Ok (fill_inode data_block_idx (length c) (stale inode_idx) :: inodes, next))
  end.

(** [while (read(fd, buf, sizeof(buf)) > 0) write(fsfd, buf, FS_BLKSZ);]: the
    blocks written; a short read leaves the rest of [buf] as it was. *)
Fixpoint copy_file (fuel : nat) (c buf : list Z) : outcome (list (list Z)) :=
  match fuel with
  | O => Fuel
  | S fuel' =>
      if bool_decide (c = []) then Ok []
      else
        let buf' := splice 0 (take BLK c) buf in
        obind (copy_file fuel' (drop BLK c) buf') (fun bs => Ok (buf' :: bs))
  end.

Fixpoint copy_files (files : list (list Z)) : outcome (list (list Z)) :=
  match files with
  | [] => Ok []
  | c :: rest =>
      obind (copy_file (S (length c)) c (repeat 0 BLK)) (fun bs =>
        obind (copy_files rest) (fun bs' => Ok (bs ++ bs')))
  end.

(** [main]: the image written. *)
Definition mkfs (stale : nat -> list Z) (args : list (list Z * list Z)) : outcome (list Z) :=
  let number_inodes := Z.of_nat (length args) in
  obind (add_dentries (args.*1) 0 (repeat 0 BLK)) (fun boot =>
    obind (add_inodes stale (args.*2) 0 0) (fun '(inodes, data_block_idx) =>
      let boot_block := splice 0 (le4 number_inodes ++ le4 number_inodes ++ le4 (Z.of_nat data_block_idx)) boot in
      obind (copy_files (args.*2)) (fun blocks =>
        Ok (boot_block ++ concat inodes ++ concat blocks)))).

(** ** Blocks of an image *)

Lemma concat_chunks (B : nat) (bs : list (list Z)) :
  Forall (fun b => length b = B) bs ->
  length (concat bs) = (B * length bs)%nat /\
  forall i b, bs !! i = Some b -> slice (B * i) B (concat bs) = b.
Proof.
  induction 1 as [|b bs Hb Hbs [IHl IHs]]; [split; [simpl; lia|done]|]. cbn [concat length]. split.
  - rewrite length_app, IHl, Hb. lia.
  - intros [|i] b' E.
    + injection E as <-. unfold slice. rewrite Nat.mul_0_r, drop_0, take_app_le by lia. by apply take_ge; lia.
    + cbn in E. rewrite <- (IHs i b' E). unfold slice. rewrite drop_app_ge by lia. do 2 f_equal. lia.
Qed.

Lemma slice_splice_in (o x m : nat) (d l : list Z) :
  (o + length d <= length l)%nat -> (x + m <= length d)%nat ->
  slice (o + x) m (splice o d l) = slice x m d.
Proof.
  intros Hl Hm. apply list_eq. intros i. destruct (decide (i < m)%nat).
  - rewrite !slice_lookup by done. rewrite splice_lookup_in by lia. f_equal. lia.
  - rewrite !lookup_ge_None_2; [done|..]; unfold slice; rewrite length_take; lia.
Qed.

Lemma le4_bytes v : Forall (fun c => 0 <= c) (le4 v).
Proof. unfold le4. repeat constructor; apply Z.mod_pos_bound; lia. Qed.

Lemma le32_le4 l off v : 0 <= v < 4294967296 -> slice (Z.to_nat off) 4 l = le4 v -> le32 l off = Some v.
Proof. intros Hv E. unfold le32. rewrite E. unfold le4. f_equal. Z.div_mod_to_equations. lia. Qed.

(** ** The loops of the builder *)

Lemma ceil_step n : (0 < n)%nat -> ((n + 4095) / 4096 = S ((n - 4096 + 4095) / 4096))%nat.
Proof.
  intros Hn. destruct (Nat.le_gt_cases n 4096).
  - replace (n - 4096)%nat with 0%nat by lia. change ((0 + 4095) / 4096)%nat with 0%nat.
    symmetry. apply (Nat.div_unique _ _ _ (n - 1)); lia.
  - replace (n + 4095)%nat with (1 * 4096 + (n - 4096 + 4095))%nat by lia. rewrite Nat.div_add_l by lia. lia.
Qed.

(** The blocks of one file. *)
Definition blocks_of (c : list Z) (bs : list (list Z)) : Prop :=
  Forall (fun b => length b = BLK) bs /\ length bs = ((length c + 4095) / 4096)%nat /\ take (length c) (concat bs) = c.

Lemma copy_file_run fuel c buf :
  length buf = BLK -> (length c < fuel)%nat -> exists bs, copy_file fuel c buf = Ok bs /\ blocks_of c bs.
Proof.
  revert c buf. induction fuel as [|fuel IH]; intros c buf Hb Hf; [lia|]. cbn [copy_file].
  case_bool_decide as Hc; [subst c; by exists []|].
  assert (Hl : (0 < length c)%nat) by (destruct c; [done|simpl; lia]).
  assert (Htl : (length (take BLK c) <= BLK)%nat) by (rewrite length_take; lia).
  assert (Hb' : length (splice 0 (take BLK c) buf) = BLK) by (rewrite splice_length; lia).
  destruct (IH (drop BLK c) (splice 0 (take BLK c) buf) Hb') as (bs & E & H1 & H2 & H3).
  { rewrite length_drop. unfold BLK in *. lia. }
  rewrite E. cbn [obind]. eexists. split; [reflexivity|]. split_and!.
  - by constructor.
  - cbn [length]. rewrite H2, length_drop. unfold BLK. rewrite <- ceil_step; lia.
  - cbn [concat]. unfold splice at 1. rewrite take_0. cbn [app]. rewrite <- app_assoc.
    destruct (decide (length c <= BLK)%nat) as [Hle|Hgt].
    + rewrite (take_ge c) by done. rewrite take_app_le by lia. by apply take_ge; lia.
    + assert (El : length (take BLK c) = BLK) by (rewrite length_take; lia).
      rewrite El, (drop_ge buf) by lia. cbn [app]. rewrite take_app_ge by lia. rewrite El.
      rewrite length_drop in H3. rewrite H3. apply take_drop.
Qed.

Lemma copy_files_run files :
  exists ds, copy_files files = Ok (concat ds) /\ Forall2 blocks_of files ds.
Proof.
  induction files as [|c files (ds & E & H)]; [by exists []|]. cbn [copy_files].
  destruct (copy_file_run (S (length c)) c (repeat 0 BLK)) as (bs & Ec & Hbs); [by rewrite repeat_length|lia|].
  exists (bs :: ds). rewrite Ec, E. cbn [obind concat]. split; [done|]. by constructor.
Qed.

(** The number of the first data block of file [i]. *)
Definition first_block (files : list (list Z)) (i : nat) : nat :=
  sum_list ((fun c => num_data_blocks_for_file (length c)) <$> take i files).

Lemma first_block_cons c files i :
  first_block (c :: files) (S i) = (num_data_blocks_for_file (length c) + first_block files i)%nat.
Proof. done. Qed.

Lemma add_inodes_run stale files idx d :
  Forall (fun c => (num_data_blocks_for_file (length c) <= 1023)%nat) files ->
  exists inodes next, add_inodes stale files idx d = Ok (inodes, next) /\ length inodes = length files /\
    forall i c, files !! i = Some c ->
      inodes !! i = Some (fill_inode (d + first_block files i) (length c) (stale (idx + i)%nat)).
Proof.
  intros Hf. revert idx d. induction Hf as [|c files Hc Hf IH]; intros idx d; [by exists [], d|].
  cbn [add_inodes]. rewrite (proj2 (Nat.ltb_ge _ _)) by done.
  destruct (IH (S idx) (d + num_data_blocks_for_file (length c))%nat) as (inodes & next & E & Hl & Hi).
  rewrite E. cbn [obind]. eexists _, _. split; [reflexivity|]. split; [cbn; by rewrite Hl|].
  intros [|i] c' Ec.
  - injection Ec as ->. change (first_block _ 0) with 0%nat. by rewrite !Nat.add_0_r.
  - change (inodes !! i = Some (fill_inode (d + first_block (c :: files) (S i)) (length c') (stale (idx + S i)%nat))).
    change (files !! i = Some c') in Ec. rewrite (Hi i c' Ec), first_block_cons.
    by rewrite Nat.add_assoc, Nat.add_succ_comm.
Qed.

Lemma name_field_length name : length (name_field name) = 32%nat.
Proof. unfold name_field. rewrite length_take, length_app, repeat_length. lia. Qed.

Lemma put_dentry_length i name boot :
  length boot = BLK -> (i < 63)%nat -> length (put_dentry i name boot) = BLK.
Proof.
  intros Hb Hi. unfold put_dentry, BLK in *.
  rewrite splice_length; rewrite splice_length; rewrite ?name_field_length; cbn [length le4]; lia.
Qed.

(** An entry changes only itself. *)
Lemma put_dentry_other i name boot off m :
  length boot = BLK -> (i < 63)%nat -> (off + m <= 64 + 64 * i \/ 64 + 64 * S i <= off)%nat ->
  slice off m (put_dentry i name boot) = slice off m boot.
Proof.
  intros Hb Hi Ho. unfold put_dentry, BLK in *.
  rewrite !slice_splice_disjoint; rewrite ?splice_length; rewrite ?name_field_length; cbn [length le4]; (done || lia).
Qed.
Lemma put_dentry_entry i name boot :
  length boot = BLK -> (i < 63)%nat ->
  slice (64 + 64 * i) 32 (put_dentry i name boot) = name_field name /\
  slice (64 + 64 * i + 32) 4 (put_dentry i name boot) = le4 (Z.of_nat i).
Proof.
  intros Hb Hi. unfold put_dentry, BLK in *. pose proof (name_field_length name) as Hn. split.
  - rewrite slice_splice_disjoint; [|rewrite splice_length; rewrite ?Hn; cbn [length le4]; lia|lia].
    pose proof (slice_splice_same (64 + 64 * i) (name_field name) boot ltac:(lia)) as E. by rewrite Hn in E.
  - apply (slice_splice_same (64 + 64 * i + 32) (le4 (Z.of_nat i))).
    rewrite splice_length; rewrite ?Hn; cbn [length le4]; lia.
Qed.

Lemma splice_Forall (P : Z -> Prop) o d l : Forall P d -> Forall P l -> Forall P (splice o d l).
Proof. intros Hd Hl. unfold splice. rewrite !Forall_app. auto using Forall_take, Forall_drop. Qed.
Lemma Forall_replicate_0 n : Forall (fun c => 0 <= c) (repeat 0 n).
Proof. apply Forall_forall. intros x Hx. apply list_elem_of_In, repeat_spec in Hx. lia. Qed.

Lemma add_dentries_run paths n boot :
  length boot = BLK -> Forall (fun p => SLASH ∉ shortname p) paths -> (n + length paths <= 63)%nat ->
  exists boot', add_dentries paths n boot = Ok boot' /\ length boot' = BLK /\
    (forall off m, (off + m <= 64 + 64 * n \/ 64 + 64 * (n + length paths) <= off)%nat ->
       slice off m boot' = slice off m boot) /\
    (forall i p, paths !! i = Some p ->
       slice (64 + 64 * (n + i)) 32 boot' = name_field (shortname p) /\
       slice (64 + 64 * (n + i) + 32) 4 boot' = le4 (Z.of_nat (n + i))) /\
    (Forall (fun c => 0 <= c) boot -> Forall (fun p => Forall (fun c => 0 < c) (shortname p)) paths ->
     Forall (fun c => 0 <= c) boot').
Proof.
  intros Hb Hs. revert n boot Hb. induction Hs as [|p paths Hp Hs IH]; intros n boot Hb Hn; cbn [length] in *.
  { exists boot. split_and!; done. }
  cbn [add_dentries]. rewrite bool_decide_eq_false_2 by done. rewrite (proj2 (Nat.leb_gt _ _)) by lia.
  destruct (IH (S n) (put_dentry n (shortname p) boot)) as (boot' & E & Hl & Hout & Hin & Hnn).
  { apply put_dentry_length; [done|lia]. } { lia. }
  exists boot'. split_and!; try done.
  - intros off m Ho. rewrite Hout by lia. apply put_dentry_other; [done|lia|lia].
  - intros [|i] q Eq.
    + injection Eq as ->. rewrite Nat.add_0_r, !Hout by lia. apply put_dentry_entry; [done|lia].
    + replace (n + S i)%nat with (S n + i)%nat by lia. by apply Hin.
  - intros Hboot Hch. apply Forall_cons in Hch as [Hc Hch]. apply Hnn; [|done].
    unfold put_dentry, name_field. apply splice_Forall; [apply le4_bytes|]. apply splice_Forall; [|done].
    apply Forall_take, Forall_app. split; [eapply Forall_impl; [exact Hc|]; cbn; lia|by apply Forall_replicate_0].
Qed.

(** ** The boot block *)

Lemma repeat_replicate {A} (x : A) n : repeat x n = replicate n x.
Proof. induction n as [|n IH]; [done|]. cbn. by rewrite IH. Qed.

(** What the arguments must be: at most 63 files, whose names fit a directory
    entry with a terminator and are distinct, and whose contents fit the 1022
    blocks a file can have. *)
Record buildable (args : list (list Z * list Z)) : Prop := {
  ba_count : (length args <= 63)%nat;
  ba_names : Forall (fun p => SLASH ∉ shortname p /\ shortname p <> [] /\ (length (shortname p) < 32)%nat /\
    Forall (fun c => 0 < c) (shortname p)) (args.*1);
  ba_distinct : NoDup (shortname <$> args.*1);
  ba_sizes : Forall (fun c => Z.of_nat (length c) <= 4186112) (args.*2)
}.

(** The directory of the image. *)
Record boot_of (names : list (list Z)) (super : list Z) : Prop := {
  bt_len : length super = BLK;
  bt_num : num_inodes super = Some (Z.of_nat (length names));
  bt_bytes : Forall (fun c => 0 <= c) super;
  bt_entry : forall i name, names !! i = Some name ->
    slice (64 + 64 * i) 32 super = name_field name /\ slice (64 + 64 * i + 32) 4 super = le4 (Z.of_nat i);
  bt_free : forall i, (length names <= i < 63)%nat -> slice (64 + 64 * i) 1 super = [0]
}.

Lemma boot_run args nd :
  buildable args -> exists boot, add_dentries (args.*1) 0 (repeat 0 BLK) = Ok boot /\
    boot_of (shortname <$> args.*1)
      (splice 0 (le4 (Z.of_nat (length args)) ++ le4 (Z.of_nat (length args)) ++ le4 nd) boot).
Proof.
  intros [Hc Hn _ _].
  destruct (add_dentries_run (args.*1) 0 (repeat 0 BLK)) as (boot & E & Hl & Hout & Hin & Hnn).
  { by rewrite repeat_length. }
  { eapply Forall_impl; [exact Hn|]. intros p Hp. apply Hp. }
  { rewrite length_fmap. lia. }
  exists boot. split; [done|]. rewrite length_fmap in Hout. cbn [Nat.add] in Hout, Hin.
  set (h := le4 _ ++ le4 _ ++ le4 nd). assert (Hh : length h = 12%nat) by done.
  assert (Hsp : forall off m, (12 <= off)%nat -> slice off m (splice 0 h boot) = slice off m boot).
  { intros off m Ho. apply slice_splice_disjoint; rewrite Hh; [rewrite Hl; unfold BLK; lia|lia]. }
  constructor.
  - rewrite splice_length; [done|]. rewrite Hh, Hl. unfold BLK. lia.
  - rewrite !length_fmap. apply le32_le4; [lia|].
    refine (eq_trans (slice_splice_in 0 4 4 h boot _ _) _); [rewrite Hh, Hl; unfold BLK; lia|rewrite Hh; lia|done].
  - apply splice_Forall; [unfold h; rewrite !Forall_app; auto using le4_bytes|]. apply Hnn.
    + apply Forall_replicate_0.
    + eapply Forall_impl; [exact Hn|]. intros p Hp. apply Hp.
  - intros i name Ei. rewrite list_lookup_fmap in Ei. destruct (args.*1 !! i) as [p|] eqn:Ep; [|done].
    injection Ei as <-. rewrite !Hsp by lia. by apply Hin.
  - rewrite !length_fmap. intros i Hi. rewrite Hsp by lia. rewrite Hout by lia.
    apply list_eq. intros [|j]; [|by rewrite lookup_ge_None_2 by (unfold slice; rewrite length_take; lia)].
    rewrite slice_lookup by lia. rewrite repeat_replicate, lookup_replicate_2; [done|]. unfold BLK. lia.
Qed.

(** The name in an entry. *)
Lemma slice_front (off m : nat) (l : list Z) : drop off l = slice off m l ++ drop m (drop off l).
Proof. unfold slice. by rewrite take_drop. Qed.

Lemma entry_name off super name :
  slice off 32 super = name_field name -> (length name < 32)%nat -> Forall (fun c => 0 < c) name ->
  cstr (drop off super) = name /\ terminated (drop off super).
Proof.
  intros E Hl Hn. rewrite (slice_front off 32), E. unfold name_field.
  assert (Es : take 32 (name ++ repeat 0 32) = name ++ 0 :: repeat 0 (31 - length name)).
  { rewrite take_app_ge by lia. f_equal. rewrite !repeat_replicate, take_replicate.
    rewrite <- replicate_S. f_equal. lia. }
  rewrite Es, <- app_assoc. cbn [app]. split.
  - apply cstr_fixed. eapply Forall_impl; [exact Hn|]. cbn. lia.
  - unfold terminated. apply elem_of_app. right. by left.
Qed.
Lemma entry_free off super : slice off 1 super = [0] -> cstr (drop off super) = [] /\ terminated (drop off super).
Proof. intros E. rewrite (slice_front off 1), E. split; [done|by left]. Qed.

Lemma entry_at i : Z.to_nat (64 + DIR_ENTRY_SZ * Z.of_nat i) = (64 + 64 * i)%nat.
Proof. unfold DIR_ENTRY_SZ. lia. Qed.

Section Boot.
Context (names : list (list Z)) (super : list Z) (Hb : boot_of names super).
Context (Hcount : (length names <= 63)%nat) (Hdist : NoDup names)
  (Hnames : Forall (fun n => n <> [] /\ (length n < 32)%nat /\ Forall (fun c => 0 < c) n) names).

Lemma dentry_cases (i : nat) : (i < 63)%nat ->
  cstr (dentry_name super (Z.of_nat i)) = default [] (names !! i) /\ terminated (dentry_name super (Z.of_nat i)).
Proof.
  intros Hi. unfold dentry_name. rewrite entry_at. destruct (names !! i) as [n|] eqn:En.
  - rewrite Forall_lookup in Hnames. destruct (Hnames _ _ En) as (_ & Hl & Hn).
    by apply (entry_name _ _ n (proj1 (bt_entry _ _ Hb i n En))).
  - apply lookup_ge_None in En. apply entry_free, (bt_free _ _ Hb). lia.
Qed.

Lemma boot_dir_ok : dir_ok super.
Proof.
  constructor; [apply Hb|apply Hb|]. intros i Hi.
  rewrite <- (Z2Nat.id i) by lia. apply dentry_cases. lia.
Qed.

Lemma boot_lookup k name n from :
  names !! k = Some name -> (from <= k)%nat -> (k < from + n)%nat ->
  lookup_name super (name ++ [0]) (range n (Z.of_nat from) DIR_ENTRY_CT 1) = Some (Z.of_nat k).
Proof.
  intros Ek. revert from. pose proof (lookup_lt_Some _ _ _ Ek) as Hk.
  pose proof (proj1 (Forall_lookup _ _) Hnames _ _ Ek) as (Hne & Hl & Hn).
  assert (Ec : cstr (name ++ [0]) = name).
  { apply cstr_fixed. eapply Forall_impl; [exact Hn|]. cbn. lia. }
  induction n as [|n IH]; intros from Hf Hn'; [lia|]. cbn [range lookup_name].
  rewrite (proj2 (Z.ltb_lt _ _)) by (unfold DIR_ENTRY_CT; lia). cbn [lookup_name].
  destruct (dentry_cases from) as [Ed _]; [lia|]. rewrite Ed, Ec.
  destruct (decide (from = k)) as [->|Hne'].
  - rewrite Ek, bool_decide_eq_true_2 by done. unfold dentry_inode, FS_NAMELEN.
    apply le32_le4; [lia|]. destruct (bt_entry _ _ Hb k name Ek) as [_ E]. rewrite <- E. f_equal.
    unfold DIR_ENTRY_SZ. lia.
  - rewrite bool_decide_eq_false_2.
    + replace (Z.of_nat from + 1) with (Z.of_nat (S from)) by lia. apply IH; lia.
    + destruct (names !! from) as [n'|] eqn:Ef; cbn; [|done]. intros ->.
      apply Hne'. by eapply NoDup_lookup.
Qed.

Lemma boot_directory k name : names !! k = Some name -> directory super (name ++ [0]) = Some (Z.of_nat k).
Proof.
  intros Ek. pose proof (lookup_lt_Some _ _ _ Ek). apply (boot_lookup k name 63 0 Ek); lia.
Qed.
End Boot.

(** ** Inodes and data *)

Lemma fill_inode_facts first len inode :
  length inode = BLK -> (num_data_blocks_for_file len <= 1023)%nat ->
  Z.of_nat (first + num_data_blocks_for_file len) < 4294967296 -> Z.of_nat len < 4294967296 ->
  length (fill_inode first len inode) = BLK /\
  byte_len (fill_inode first len inode) = Some (Z.of_nat len) /\
  forall j, (j < num_data_blocks_for_file len)%nat ->
    data_block_num (fill_inode first len inode) (Z.of_nat j) = Some (Z.of_nat (first + j)).
Proof.
  intros Hl Hn Hf Hlen. unfold fill_inode. set (nb := num_data_blocks_for_file len) in *.
  set (fields := (fun b => le4 (Z.of_nat b)) <$> seq first nb).
  destruct (concat_chunks 4 fields) as [Hcl Hcs].
  { apply Forall_forall. intros b Hb. apply list_elem_of_fmap in Hb as (x & -> & _). done. }
  assert (Hnf : length fields = nb) by (unfold fields; by rewrite length_fmap, length_seq).
  rewrite Hnf in Hcl. unfold BLK in *.
  assert (Hl1 : length (splice 4 (concat fields) inode) = 4096%nat) by (rewrite splice_length; lia).
  split_and!.
  - rewrite splice_length; cbn [length le4]; lia.
  - unfold byte_len. apply le32_le4; [lia|]. apply (slice_splice_same 0 (le4 (Z.of_nat len))). cbn [length le4]. lia.
  - intros j Hj. unfold data_block_num. apply le32_le4; [lia|].
    replace (Z.to_nat (4 + 4 * Z.of_nat j)) with (4 + 4 * j)%nat by lia.
    rewrite slice_splice_disjoint by (cbn [length le4]; lia). rewrite slice_splice_in by lia.
    apply Hcs. unfold fields. rewrite list_lookup_fmap, lookup_seq_lt by done. done.
Qed.

(** Where the data of file [k] begin, among the data blocks written. *)
Definition data_at (ds : list (list (list Z))) (k : nat) : nat := sum_list (length <$> take k ds).

Lemma concat_lookup (ds : list (list (list Z))) k bs j b :
  ds !! k = Some bs -> bs !! j = Some b -> concat ds !! (data_at ds k + j)%nat = Some b.
Proof.
  revert k. induction ds as [|d ds IH]; intros [|k] Ek Ej; try done.
  - injection Ek as ->. cbn. rewrite lookup_app_l; [done|]. by eapply lookup_lt_Some.
  - cbn [concat]. unfold data_at in *. cbn [take fmap list_fmap sum_list]. rewrite <- Nat.add_assoc.
    rewrite lookup_app_r by (cbn; lia). rewrite <- (IH k Ek Ej). f_equal. cbn. lia.
Qed.

Lemma ceil_floor n : ((n + 4095) / 4096 <= n / 4096 + 1)%nat /\
  (n / 4096 + 1 = (n + 4095) / 4096 + (if decide (n mod 4096 = 0)%nat then 1 else 0))%nat.
Proof.
  pose proof (Nat.div_mod_eq n 4096) as E. pose proof (Nat.mod_upper_bound n 4096 ltac:(lia)) as Hr.
  set (q := (n / 4096)%nat) in *. set (r := (n mod 4096)%nat) in *.
  destruct (decide (r = 0%nat)) as [Hz|Hz].
  - assert ((n + 4095) / 4096 = q)%nat by (symmetry; apply (Nat.div_unique _ _ _ 4095); lia). lia.
  - assert ((n + 4095) / 4096 = q + 1)%nat by (symmetry; apply (Nat.div_unique _ _ _ (r - 1)); lia). lia.
Qed.

(** Block numbers run ahead of the data by one for every file before [k] that
    fills its last block. *)
Lemma first_block_data files ds k :
  Forall2 blocks_of files ds ->
  first_block files k
  = (data_at ds k + length (filter (fun c : list Z => (length c mod 4096 = 0)%nat) (take k files)))%nat.
Proof.
  intros H. revert k. induction H as [|c bs files ds Hc H IH]; intros [|k]; try done.
  rewrite first_block_cons, IH. change (data_at (bs :: ds) (S k)) with (length bs + data_at ds k)%nat.
  cbn [take]. rewrite filter_cons. destruct Hc as (_ & -> & _).
  unfold num_data_blocks_for_file, BLK. rewrite (proj2 (ceil_floor (length c))).
  generalize ((length c + 4095) / 4096)%nat. intros x.
  destruct (decide _); cbn [length]; generalize (length (filter (fun c : list Z => (length c mod 4096 = 0)%nat) (take k files)));
    clear; intros; lia.
Qed.

(** ** The image *)

Lemma sum_bound (B : nat) (l : list nat) : Forall (fun x => (x <= B)%nat) l -> (sum_list l <= B * length l)%nat.
Proof. induction 1; cbn; lia. Qed.

Lemma lookup_cons_S {A} (x : A) l i : (x :: l) !! S i = l !! i.
Proof. done. Qed.

(** The parts of an image, and its blocks. *)
Record image_parts (stale : nat -> list Z) (args : list (list Z * list Z)) (super : list Z)
    (inodes : list (list Z)) (ds : list (list (list Z))) : Prop := {
  ip_boot : boot_of (shortname <$> args.*1) super;
  ip_count : length inodes = length args;
  ip_inode : forall k c, args.*2 !! k = Some c ->
    inodes !! k = Some (fill_inode (first_block (args.*2) k) (length c) (stale k));
  ip_data : Forall2 blocks_of (args.*2) ds
}.
Definition image_of (super : list Z) (inodes : list (list Z)) (ds : list (list (list Z))) : list Z :=
  concat (super :: inodes ++ concat ds).

Lemma mkfs_run stale args :
  buildable args -> exists super inodes ds, mkfs stale args = Ok (image_of super inodes ds) /\
    image_parts stale args super inodes ds.
Proof.
  intros Hb. destruct (add_inodes_run stale (args.*2) 0 0) as (inodes & next & Ei & Hl & Hi).
  { eapply Forall_impl; [exact (ba_sizes _ Hb)|]. intros c Hc. cbn beta in Hc.
    unfold num_data_blocks_for_file, BLK.
    assert (length c / 4096 <= 1022)%nat by (apply Nat.Div0.div_le_upper_bound; lia). lia. }
  destruct (boot_run args (Z.of_nat next) Hb) as (boot & Eb & Hboot).
  destruct (copy_files_run (args.*2)) as (ds & Ed & Hds).
  eexists _, inodes, ds. unfold mkfs. rewrite Eb, Ei. cbn [obind]. rewrite Ed. cbn [obind]. split.
  - unfold image_of. cbn [concat]. by rewrite concat_app.
  - constructor; [exact Hboot|by rewrite Hl, length_fmap|exact Hi|done].
Qed.

Section Image.
Context (stale : nat -> list Z) (Hstale : forall i, length (stale i) = BLK).
Context (args : list (list Z * list Z)) (Hargs : buildable args).
Context (super : list Z) (inodes : list (list Z)) (ds : list (list (list Z)))
  (Hparts : image_parts stale args super inodes ds).

Lemma size_num (k : nat) c : args.*2 !! k = Some c ->
  Z.of_nat (length c) <= 4186112 /\ (num_data_blocks_for_file (length c) <= 1023)%nat /\
  ((length c + 4095) / 4096 <= 1022)%nat.
Proof using Hargs.
  intros Ec. pose proof (proj1 (Forall_lookup _ _) (ba_sizes _ Hargs) _ _ Ec) as Hc. cbn beta in Hc.
  unfold num_data_blocks_for_file, BLK.
  assert (length c / 4096 <= 1022)%nat by (apply Nat.Div0.div_le_upper_bound; lia).
  assert ((length c + 4095) / 4096 < 1023)%nat by (apply Nat.Div0.div_lt_upper_bound; lia). lia.
Qed.

Lemma first_block_bound k : Z.of_nat (first_block (args.*2) k) <= 64449.
Proof using Hargs.
  unfold first_block. pose proof (ba_count _ Hargs) as Hc.
  assert (Hs := sum_bound 1023 ((fun c : list Z => num_data_blocks_for_file (length c)) <$> take k (args.*2))).
  rewrite length_fmap, length_take, length_fmap in Hs.
  etrans; [apply inj_le, Hs|lia]. apply Forall_fmap, Forall_take, Forall_lookup. intros i c Ei. apply (size_num i c Ei).
Qed.

Lemma data_count : Z.of_nat (length (concat ds)) <= 64386.
Proof using Hargs Hparts.
  pose proof (ba_count _ Hargs) as Hc. pose proof (ip_data _ _ _ _ _ Hparts) as Hd.
  assert (Hl : length ds = length args) by (rewrite <- (Forall2_length _ _ _ Hd); by rewrite length_fmap).
  assert (E : length (concat ds) = sum_list (length <$> ds)) by (clear; induction ds as [|d l IH]; [done|]; cbn; by rewrite length_app, IH).
  rewrite E. assert (Hs := sum_bound 1022 (length <$> ds)). rewrite length_fmap, Hl in Hs.
  etrans; [apply inj_le, Hs|lia]. apply Forall_fmap, Forall_lookup. intros i bs Ei.
  destruct (Forall2_lookup_r _ _ _ _ _ Hd Ei) as (c & Ec & _ & Hlen & _). cbn. rewrite Hlen.
  apply (size_num i c Ec).
Qed.

Lemma inode_facts k c : args.*2 !! k = Some c ->
  let ino := fill_inode (first_block (args.*2) k) (length c) (stale k) in
  length ino = BLK /\ byte_len ino = Some (Z.of_nat (length c)) /\
  forall j, (j < num_data_blocks_for_file (length c))%nat ->
    data_block_num ino (Z.of_nat j) = Some (Z.of_nat (first_block (args.*2) k + j)).
Proof using Hargs Hstale.
  intros Ec. destruct (size_num k c Ec) as (H1 & H2 & _). pose proof (first_block_bound k).
  apply fill_inode_facts; [apply Hstale|done|lia|lia].
Qed.

Lemma parts_blocks : Forall (fun b => length b = BLK) (super :: inodes ++ concat ds).
Proof using Hargs Hparts Hstale.
  constructor; [apply (ip_boot _ _ _ _ _ Hparts)|]. apply Forall_app. split.
  - apply Forall_lookup. intros k ino Ek. pose proof (lookup_lt_Some _ _ _ Ek) as Hk.
    rewrite (ip_count _ _ _ _ _ Hparts) in Hk.
    destruct (lookup_lt_is_Some_2 (args.*2) k) as [c Ec]; [by rewrite length_fmap|].
    rewrite (ip_inode _ _ _ _ _ Hparts k c Ec) in Ek. injection Ek as <-. by apply inode_facts.
  - apply Forall_concat. apply Forall_lookup. intros k bs Ek.
    destruct (Forall2_lookup_r _ _ _ _ _ (ip_data _ _ _ _ _ Hparts) Ek) as (c & _ & H & _). done.
Qed.

(** The place of the blocks of file [k] in the image. *)
Definition file_addrs (k : nat) (bs : list (list Z)) : list nat :=
  (fun j => (BLK * (1 + length args + data_at ds k + j))%nat) <$> seq 0 (length bs).

Lemma image_length : length (image_of super inodes ds) = (BLK * (1 + length args + length (concat ds)))%nat.
Proof using Hargs Hparts Hstale.
  unfold image_of. rewrite (proj1 (concat_chunks BLK _ parts_blocks)). cbn [length].
  rewrite length_app, (ip_count _ _ _ _ _ Hparts). lia.
Qed.

Lemma image_data k bs j b :
  ds !! k = Some bs -> bs !! j = Some b ->
  slice (BLK * (1 + length args + data_at ds k + j)) BLK (image_of super inodes ds) = b.
Proof using Hargs Hparts Hstale.
  intros Ek Ej. apply (proj2 (concat_chunks BLK _ parts_blocks)).
  rewrite <- (ip_count _ _ _ _ _ Hparts). change (1 + length inodes + data_at ds k + j)%nat with (S (length inodes + data_at ds k + j)).
  rewrite lookup_cons_S, lookup_app_r by lia. replace (length inodes + data_at ds k + j - length inodes)%nat with (data_at ds k + j)%nat by lia.
  by eapply concat_lookup.
Qed.

Lemma image_inode k c : args.*2 !! k = Some c ->
  inode_block (image_of super inodes ds) (Z.of_nat k) = fill_inode (first_block (args.*2) k) (length c) (stale k).
Proof using Hargs Hparts Hstale.
  intros Ec. unfold inode_block. replace (Z.to_nat ((Z.of_nat k + 1) * 4096)) with (BLK * S k)%nat by (unfold BLK; lia).
  apply (proj2 (concat_chunks BLK _ parts_blocks)). pose proof (ip_inode _ _ _ _ _ Hparts k c Ec) as Ei.
  rewrite lookup_cons_S, lookup_app_l; [done|]. by eapply lookup_lt_Some.
Qed.

Lemma blk_mul m : Z.of_nat (BLK * m) = 4096 * Z.of_nat m.
Proof. by rewrite Nat2Z.inj_mul, BLK_Z. Qed.

Lemma file_content k bs : ds !! k = Some bs ->
  content (image_of super inodes ds) (file_addrs k bs) = concat bs.
Proof using Hargs Hparts Hstale.
  intros Ek. unfold content, file_addrs. f_equal. apply list_eq. intros j.
  rewrite !list_lookup_fmap. destruct (bs !! j) as [b|] eqn:Ej.
  - rewrite lookup_seq_lt by (by eapply lookup_lt_Some). cbn [fmap option_fmap option_map].
    f_equal. by apply (image_data k bs j b).
  - rewrite lookup_seq_ge; [done|]. by apply lookup_ge_None.
Qed.

(** A file before which no file fills its last block is laid out as kfs.c expects. *)
Lemma file_layout k c bs :
  args.*2 !! k = Some c -> ds !! k = Some bs ->
  Forall (fun c => (length c mod 4096 <> 0)%nat) (take k (args.*2)) ->
  layout (image_of super inodes ds) super (Z.of_nat k) (file_addrs k bs) (Z.of_nat (length c)).
Proof using Hargs Hparts Hstale.
  intros Ec Ek Hbefore.
  pose proof (ip_data _ _ _ _ _ Hparts) as Hd.
  destruct (Forall2_lookup_lr _ _ _ _ _ _ Hd Ec Ek) as (_ & Hlen & _).
  destruct (size_num k c Ec) as (Hs1 & Hs2 & Hs3).
  assert (Hk : (k < length args)%nat) by (apply lookup_lt_Some in Ec; by rewrite length_fmap in Ec).
  assert (Hfb : first_block (args.*2) k = data_at ds k).
  { rewrite (first_block_data _ _ _ Hd). rewrite filter_none; [cbn; lia|].
    intros x Hx. rewrite Forall_forall in Hbefore. by apply Hbefore. }
  destruct (inode_facts k c Ec) as (_ & Hbl & Hnum). rewrite Hfb in Hbl, Hnum.
  pose proof (image_inode k c Ec) as Ei. rewrite Hfb in Ei. pose proof data_count as Hdc.
  pose proof image_length as Hil. pose proof BLK_Z as HB. pose proof (ba_count _ Hargs) as Hca.
  assert (Hend : forall j, (j < length bs)%nat -> (data_at ds k + j < length (concat ds))%nat).
  { intros j Hj. destruct (lookup_lt_is_Some_2 bs j Hj) as [b Eb].
    eapply lookup_lt_Some. by apply (concat_lookup ds k bs j b). }
  constructor.
  - exists (Z.of_nat (length args)). split_and!; [|lia|lia|].
    + pose proof (bt_num _ _ (ip_boot _ _ _ _ _ Hparts)) as E. by rewrite !length_fmap in E.
    + intros j a Ea. unfold file_addrs in Ea. rewrite list_lookup_fmap in Ea.
      destruct (seq 0 (length bs) !! j) as [j'|] eqn:Es; [|done]. apply lookup_seq in Es as [-> Hj].
      change (Some (BLK * (1 + length args + data_at ds k + j))%nat = Some a) in Ea. apply (inj Some) in Ea as <-.
      exists (Z.of_nat (data_at ds k + j)). rewrite Ei. split_and!; [|lia|rewrite blk_mul; lia].
      apply Hnum. rewrite Hlen in Hj. unfold num_data_blocks_for_file, BLK. pose proof (ceil_floor (length c)). lia.
  - rewrite Hil, blk_mul. lia.
  - rewrite Ei. split; [done|]. unfold file_addrs. rewrite length_fmap, length_seq, Hlen.
    pose proof (Nat.div_mod_eq (length c + 4095) 4096). pose proof (Nat.mod_upper_bound (length c + 4095) 4096). lia.
  - unfold file_addrs. rewrite length_fmap, length_seq, Hlen. lia.
  - unfold file_addrs. constructor.
    + apply Forall_fmap, Forall_forall. intros j Hj. apply elem_of_seq in Hj. unfold compose. rewrite Hil.
      specialize (Hend j ltac:(lia)). rewrite <- Nat.mul_succ_r. apply Nat.mul_le_mono_l. lia.
    + apply Forall_fmap, Forall_forall. intros j _. unfold compose. rewrite Nat.mul_comm. apply Nat.Div0.mod_mul.
    + apply NoDup_fmap; [|apply NoDup_seq]. intros x y Exy. apply Nat.mul_cancel_l in Exy; [lia|done].
  - rewrite Hil, blk_mul. lia.
Qed.
End Image.

(** ** Mounting *)

Lemma fs_mount_run {D : Type} (ops : io_ops D) (img : D -> list Z) (pos : D -> nat) (I : D -> Prop)
    `{!Seekable ops img pos I} (s : fs_state D) :
  I (sys s) -> pos (sys s) = 0%nat -> (BLK <= length (img (sys s)))%nat -> length (super_block s) = BLK ->
  exists d, fs_mount ops s = Ok (0, mkFs d (slice 0 BLK (img (sys s))) (opened_files s) (refcnts s) (next_io s) (-1)) /\
    I d /\ img d = img (sys s).
Proof.
  intros Hi Hp Hl Hsb. destruct (full_read ops img pos I (sys s) BLK Hi) as (d & E & Hd & Em); [intros _; lia|].
  rewrite Hp in E. exists d. split; [|done].
  unfold fs_mount. rewrite bind_run. cbn [set_flk modify obind]. change FS_BLKSZ with (Z.of_nat BLK).
  rewrite (bind_Ok _ _ _ _ _ (run_on_sys _ (with_flk (-1) s) _ _ E)), bind_run. cbn [modify obind fst snd].
  change (Z.of_nat BLK <? 0) with false. cbn iota. cbn [super_block with_sys with_flk].
  rewrite splice_all; [done|]. rewrite slice_length; [done|lia].
Qed.

(** ** Results *)

(** Mounting a built image and opening one of its files: the file is ready to be
    read, and its bytes on the disk are its contents. *)
Lemma mkfs_open_run (stale : nat -> list Z) (args : list (list Z * list Z))
    (Hstale : forall i, length (stale i) = BLK) (Hargs : buildable args) :
  exists image, mkfs stale args = Ok image /\
    forall (D : Type) (ops : io_ops D) (img : D -> list Z) (pos : D -> nat) (I : D -> Prop)
      (Hseek : Seekable ops img pos I) (self : Z) (s : fs_state D) (k i : nat) (path c : list Z),
    I (sys s) -> img (sys s) = image -> pos (sys s) = 0%nat -> length (super_block s) = BLK ->
    free_slot (opened_files s) 0 = Some i -> Forall (fun f => f_io f <> next_io s) (opened_files s) ->
    args !! k = Some (path, c) -> Forall (fun c => (length c mod 4096 <> 0)%nat) (take k (args.*2)) ->
    exists s1 s2 f addrs, fs_mount ops s = Ok (0, s1) /\
      fs_open ops self (shortname path ++ [0]) s1 = Ok ((0, Some (next_io s)), s2) /\
      ready img I s2 (next_io s) i f addrs (Z.of_nat (length c)) /\ file_position f = 0 /\
      take (length c) (content (img (sys s2)) addrs) = c.
Proof.
  destruct (mkfs_run stale args Hargs) as (super & inodes & ds & E & Hp).
  exists (image_of super inodes ds). split; [done|].
  intros D ops img pos I Hseek self s k i path c Hi Himg Hpos Hsb Hfree Hfresh Ek Hbefore.
  assert (Ec : args.*2 !! k = Some c) by (by rewrite list_lookup_fmap, Ek).
  assert (Enm : (shortname <$> args.*1) !! k = Some (shortname path)) by (by rewrite !list_lookup_fmap, Ek).
  destruct (Forall2_lookup_l _ _ _ _ _ (ip_data _ _ _ _ _ Hp) Ec) as (bs & Eb & _ & _ & Hcat).
  pose proof (file_layout stale Hstale args Hargs super inodes ds Hp k c bs Ec Eb Hbefore) as Hlay.
  pose proof (image_length stale Hstale args Hargs super inodes ds Hp) as Hil.
  destruct (fs_mount_run ops img pos I s Hi Hpos) as (d & Em & Hd & Eimg); [rewrite Himg, Hil; lia|done|].
  assert (Esup : slice 0 BLK (img (sys s)) = super).
  { rewrite Himg. apply (proj2 (concat_chunks BLK _ (parts_blocks stale Hstale args Hargs super inodes ds Hp)) 0%nat super). done. }
  rewrite Esup in Em. set (s1 := mkFs d super _ _ _ _) in Em.
  assert (Hnames : Forall (fun n => n <> [] /\ (length n < 32)%nat /\ Forall (fun c => 0 < c) n) (shortname <$> args.*1)).
  { apply Forall_fmap. eapply Forall_impl; [exact (ba_names _ Hargs)|]. intros p (_ & H). exact H. }
  assert (Hcnt : (length (shortname <$> args.*1) <= 63)%nat) by (rewrite !length_fmap; apply Hargs).
  pose proof (ip_boot _ _ _ _ _ Hp) as Hboot.
  destruct (proj1 (Forall_lookup _ _) Hnames _ _ Enm) as (_ & _ & Hpos').
  destruct (fs_open_found ops img pos I self s1 (shortname path ++ [0]) (Z.of_nat k) (file_addrs args ds k bs)
    (Z.of_nat (length c)) i) as (d2 & Eo & Hd2 & Eimg2); try done.
  { exact (boot_dir_ok _ _ Hboot Hcnt Hnames). }
  { apply elem_of_app. right. by left. }
  { apply Forall_app. split; [eapply Forall_impl; [exact Hpos'|]; cbn; lia|repeat constructor; lia]. }
  { by apply (boot_directory _ _ Hboot Hcnt (ba_distinct _ Hargs) Hnames). }
  { cbn [s1 sys]. rewrite Eimg, Himg. exact Hlay. }
  set (f := mkFile _ _ _ _ _) in Eo. set (s2 := mkFs d2 _ _ _ _ _) in Eo.
  assert (Er : img (sys s2) = image_of super inodes ds) by (cbn [s2 sys]; rewrite Eimg2; cbn [s1 sys]; congruence).
  assert (Hready : ready img I s2 (next_io s) i f (file_addrs args ds k bs) (Z.of_nat (length c))).
  { apply free_slot_spec in Hfree as (j & g & -> & Hj & _). constructor; try done.
    - split_and!; [|done|].
      + cbn. apply list_lookup_insert_eq. by eapply lookup_lt_Some.
      + intros j' f' E' Eio. destruct (decide (j' = (0 + j)%nat)) as [->|Hne]; [done|]. cbn [s2 opened_files] in E'.
        rewrite list_lookup_insert_ne in E' by done. rewrite Forall_lookup in Hfresh. by destruct (Hfresh _ _ E').
    - rewrite Er. exact Hlay.
    - cbn. lia. }
  exists s1, s2, f. eexists. split_and!; [done|done|exact Hready|done|].
  rewrite Er, (file_content stale Hstale args Hargs super inodes ds Hp k bs Eb). exact Hcat.
Qed.


(** ** Two images *)

(** "hi" under "user/bin/f" and "abc" under "g". *)
Definition demo_args : list (list Z * list Z) := [(user_bin ++ [102], [104; 105]); ([103], [97; 98; 99])].
Definition demo_stale (_ : nat) : list Z := repeat 0 BLK.
Definition image_or_nil (o : outcome (list Z)) : list Z := match o with Ok i => i | _ => [] end.
Definition mounted (image : list Z) : fs_state io_lit :=
  mkFs (mkLit image (Z.of_nat (length image)) 0) (repeat 0 BLK) (repeat (mkFile 0 0 0 0 0) 32) ∅ 1000 (-1).

Lemma demo_buildable : buildable demo_args.
Proof.
  constructor.
  - by vm_compute; lia.
  - apply (bool_decide_unpack _). by vm_compute.
  - apply (bool_decide_unpack _). by vm_compute.
  - repeat constructor; by vm_compute.
Qed.
Lemma demo_image_size : Z.of_nat (length (image_or_nil (mkfs demo_stale demo_args))) < 2 ^ 31.
Proof. by vm_compute. Qed.


(** A file that fills its block, and a file after it: the inode of the second says
    data block 2, where the image ends; its data are in block 1. *)
Lemma mkfs_full_block :
  let image := image_or_nil (mkfs demo_stale [([102], repeat 7 BLK); ([103], [97; 98; 99])]) in
  data_block_num (inode_block image 1) 0 = Some 2 /\
  Z.of_nat (length image) = (1 + 2 + 2) * 4096 /\ slice (BLK * (1 + 2 + 1)) 3 image = [97; 98; 99].
Proof. vm_compute. split_and!; reflexivity. Qed.
