(* ===== verification/Vioblk.v ===== *)
(** vioblk.c: the VirtIO block device driver, and the part of virtio.c that
    attaches it.

    The state has the device structure of the driver with its queue memory, the
    registers, the interrupt controller, the lock, the kernel heap and the
    device itself.  What the device does with a request is a parameter
    ([serve]); [BlockHw] states the behaviour the driver relies on: a block
    read delivers the bytes at the sector asked for, a block write stores them,
    and sectors are 512 bytes. *)

From S2P Require Import Prelude CString PhysMem Intr Io Device Virtio Kfs.

Definition VIOBLK_IRQ_PRIO : Z := 1.
Definition VIRTIO_BLK_F_BLK_SIZE : Z := 6.
Definition VIRTIO_BLK_F_TOPOLOGY : Z := 10.
Definition VIRTIO_BLK_T_IN : Z := 0.
Definition VIRTIO_BLK_T_OUT : Z := 1.
Definition VIOBLK_SECTOR_SIZE : Z := 512.
Definition VIOBLK_USED_NOTF : Z := 1.
(** [sizeof(struct vioblk_device)] and the offsets of the queue's members. *)
Definition VIOBLK_SZ : Z := 216.
Definition AVAIL_OFF : Z := 88.
Definition USED_OFF : Z := 96.
Definition DESC_OFF : Z := 112.
Definition HEADER_OFF : Z := 176.
Definition STATUS_OFF : Z := 192.
(** The addresses of [vioblk_isr] and [vioblk_open]. *)
Definition VIOBLK_ISR : Z := 0x80010000.
Definition VIOBLK_OPEN : Z := 0x80020000.

Record virtq_desc := mkDesc { d_addr : Z; d_len : Z; d_flags : Z; d_next : Z }.

(** The member [vq]: [waiting] says that a thread is on the wait list of
    [used_updated]. *)
Record vqueue := mkVq {
  waiting : bool; avail_flags : Z; avail_idx : Z; avail_ring0 : Z;
  desc : list virtq_desc; req_type : Z; req_sector : Z
}.

(** [v_addr] is the address of the structure. *)
Record vioblk_device := mkVdev {
  v_addr : Z; v_refcnt : Z; v_instno : Z; v_irqno : Z; v_opened : Z; v_blksz : Z;
  v_pos : Z; v_size : Z; v_blkcnt : Z; vq : vqueue; blkbuf : list Z
}.

Record vstate (HW : Type) := mkV {
  v_regs : virtio_mmio_regs; v_dev : vioblk_device; v_intr : intr_state; v_devs : devtab;
  vlk : Z; (* thread holding the lock, or -1 *)
  v_heap : kmem; hw : HW
}.
Arguments mkV {HW}.
Arguments v_regs {HW}.
Arguments v_dev {HW}.
Arguments v_intr {HW}.
Arguments v_devs {HW}.
Arguments vlk {HW}.
Arguments v_heap {HW}.
Arguments hw {HW}.

Definition set_v_pos p d := mkVdev (v_addr d) (v_refcnt d) (v_instno d) (v_irqno d) (v_opened d) (v_blksz d) p
  (v_size d) (v_blkcnt d) (vq d) (blkbuf d).
Definition set_v_refcnt r d := mkVdev (v_addr d) r (v_instno d) (v_irqno d) (v_opened d) (v_blksz d) (v_pos d)
  (v_size d) (v_blkcnt d) (vq d) (blkbuf d).
Definition set_v_opened o d := mkVdev (v_addr d) (v_refcnt d) (v_instno d) (v_irqno d) o (v_blksz d) (v_pos d)
  (v_size d) (v_blkcnt d) (vq d) (blkbuf d).
Definition set_vq q d := mkVdev (v_addr d) (v_refcnt d) (v_instno d) (v_irqno d) (v_opened d) (v_blksz d) (v_pos d)
  (v_size d) (v_blkcnt d) q (blkbuf d).
Definition set_blkbuf b d := mkVdev (v_addr d) (v_refcnt d) (v_instno d) (v_irqno d) (v_opened d) (v_blksz d) (v_pos d)
  (v_size d) (v_blkcnt d) (vq d) b.
Definition set_waiting w q := mkVq w (avail_flags q) (avail_idx q) (avail_ring0 q) (desc q) (req_type q) (req_sector q).
Definition set_desc_flags (f : Z -> Z) (e : virtq_desc) :=
  mkDesc (d_addr e) (d_len e) (u16 (f (d_flags e))) (d_next e).

(** ** The device *)

(** What the device does with a request: type, sector, whether the data
    descriptor lets it write the block buffer, and the buffer.  The result is
    the buffer and the device afterwards. *)
Class BlockDev (HW : Type) := serve : HW -> Z -> Z -> bool -> list Z -> list Z * HW.

(** [image] is the contents of the device. *)
Class BlockHw {HW : Type} (B : BlockDev HW) (image : HW -> list Z) : Prop := {
  serve_in : forall h sector buf,
    0 <= sector -> 512 * sector + Z.of_nat (length buf) <= Z.of_nat (length (image h)) ->
    exists h', serve h VIRTIO_BLK_T_IN sector true buf
        = (slice (Z.to_nat (512 * sector)) (length buf) (image h), h') /\ image h' = image h;
  serve_out : forall h sector buf,
    0 <= sector -> 512 * sector + Z.of_nat (length buf) <= Z.of_nat (length (image h)) ->
    exists h', serve h VIRTIO_BLK_T_OUT sector false buf = (buf, h') /\
      image h' = splice (Z.to_nat (512 * sector)) buf (image h)
}.

(** ** The driver *)

Section Vioblk.
Context {HW : Type} {B : BlockDev HW}.
(** The running thread, and the bytes memory holds before anything is stored. *)
Context (self : Z) (stale : Z -> Z).

Notation V := (M (vstate HW)).

Definition mod_dev (f : vioblk_device -> vioblk_device) : V unit := modify (fun s =>
  mkV (v_regs s) (f (v_dev s)) (v_intr s) (v_devs s) (vlk s) (v_heap s) (hw s)).
Definition mod_regs (f : virtio_mmio_regs -> virtio_mmio_regs) : V unit := modify (fun s =>
  mkV (f (v_regs s)) (v_dev s) (v_intr s) (v_devs s) (vlk s) (v_heap s) (hw s)).
Definition set_vlk (t : Z) : V unit := modify (fun s =>
  mkV (v_regs s) (v_dev s) (v_intr s) (v_devs s) t (v_heap s) (hw s)).
Definition on_vintr {A} (m : M intr_state A) : V A := fun s =>
  obind (m (v_intr s)) (fun '(a, i) =>
    Ok (a, mkV (v_regs s) (v_dev s) i (v_devs s) (vlk s) (v_heap s) (hw s))).
Definition on_devs {A} (m : M devtab A) : V A := fun s =>
  obind (m (v_devs s)) (fun '(a, t) =>
    Ok (a, mkV (v_regs s) (v_dev s) (v_intr s) t (vlk s) (v_heap s) (hw s))).
Definition on_heap {A} (m : M kmem A) : V A := fun s =>
  obind (m (v_heap s)) (fun '(a, h) =>
    Ok (a, mkV (v_regs s) (v_dev s) (v_intr s) (v_devs s) (vlk s) h (hw s))).

(** The lock as one thread sees it: acquiring it while it is held waits for a
    release by its holder, which is a run that does not return here. *)
Definition waits {A} : V A := fun _ => Fuel.
Definition vlk_acquire : V unit :=
  s ← get;
  if negb (vlk s =? -1) then waits else set_vlk self.
Definition vlk_release : V unit :=
  s ← get;
  cassert (vlk s =? self) ;; set_vlk (-1).

Definition vioblk_isr : V unit :=
  r ← gets v_regs;
  if negb (Z.land (interrupt_status r) VIOBLK_USED_NOTF =? 0) then
    mod_dev (fun d => set_vq (set_waiting false (vq d)) d) ;;
    mod_regs (fun r => set_ack (interrupt_status r) r)
  else mret tt.

(** The device carries out the request in the queue and raises its event. *)
Definition device_serves : V unit := modify (fun s =>
  let q := vq (v_dev s) in
  let wr := negb (Z.land (default 0 (d_flags <$> desc q !! 2%nat)) VIRTQ_DESC_F_WRITE =? 0) in
  let '(buf, h) := serve (hw s) (req_type q) (req_sector q) wr (blkbuf (v_dev s)) in
  mkV (raise VIOBLK_USED_NOTF (v_regs s)) (set_blkbuf buf (v_dev s)) (v_intr s) (v_devs s) (vlk s)
    (v_heap s) h).

(** [condition_wait(&dev->vq.used_updated)].  Interrupts are off from before the
    notification until the thread is on the wait list, so the interrupt comes
    after; it reaches the service routine if the line has a priority, and the
    thread goes on if the routine has taken it off the list. *)
Definition wait_used : V unit :=
  mod_dev (fun d => set_vq (set_waiting true (vq d)) d) ;;
  device_serves ;;
  s ← get;
  (if 0 <? priority (plicr (v_intr s)) (v_irqno (v_dev s)) then vioblk_isr else mret tt) ;;
  s ← get;
  if waiting (vq (v_dev s)) then waits else mret tt.

(** A request: fill in the header, set or clear the write flag of the data
    descriptor, make the request available, notify and wait. *)
Definition request (typ sector : Z) (flags : Z -> Z) : V unit :=
  mod_dev (fun d =>
    let q := vq d in
    set_vq (mkVq (waiting q) (avail_flags q) (u16 (avail_idx q + 1)) (avail_ring0 q)
              (alter (set_desc_flags flags) 2%nat (desc q)) typ (u64 sector)) d) ;;
  mod_regs (virtio_notify_avail 0) ;;
  wait_used.

(** [int sector = dev->pos / dev->blksz], and the bytes of this round: [n], but
    not past the end of the block. *)
Definition sector_of (d : vioblk_device) : Z := s32 (v_pos d / v_blksz d).
Definition count_of (d : vioblk_device) (sector n : Z) : Z :=
  let count := s32 n in
  let boundary := s32 (u32 (u32 (sector + 1) * v_blksz d)) in
  if u64 boundary <? u64 (v_pos d + count) then s32 (u64 (boundary - v_pos d)) else count.

(** [memcpy] out of and into a buffer of [length l] bytes. *)
Definition copy_out (l : list Z) (off count : Z) : V (list Z) :=
  if (count <? 0) || (Z.of_nat (length l) <? off + count) then undef "memcpy outside the buffer"
  else mret (slice (Z.to_nat off) (Z.to_nat count) l).

Fixpoint read_loop (fuel : nat) (bufsz : Z) (got : list Z) : V (list Z) :=
  if 0 <? bufsz then
    match fuel with
    | O => waits
    | S fuel' =>
        d ← gets v_dev;
        (if v_blksz d =? 0 then undef "division by zero" else mret tt) ;;
        let sector := sector_of d in
        request VIRTIO_BLK_T_IN sector (fun f => Z.lor f VIRTQ_DESC_F_WRITE) ;;
        d ← gets v_dev;
        let count := count_of d sector bufsz in
        bs ← copy_out (blkbuf d) (v_pos d mod v_blksz d) count;
        mod_dev (fun d => set_v_pos (u64 (v_pos d + count)) d) ;;
        read_loop fuel' (u64 (bufsz - count)) (got ++ bs)
    end
  else mret got.

(** The length of a transfer: what is asked for, cut to what is left. *)
Definition clamp (d : vioblk_device) (n : Z) : Z :=
  if v_size d <? u64 (v_pos d + n) then u64 (v_size d - v_pos d) else n.

Definition vioblk_read (bufsz0 : Z) : V (Z * list Z) :=
  d ← gets v_dev;
  if v_opened d =? 0 then mret (- EBADFMT, [])
  else
    let bufsz := if LONG_MAX <? bufsz0 then LONG_MAX else bufsz0 in
    if bufsz =? 0 then mret (0, [])
    else
      let bufsz := clamp d bufsz in
      vlk_acquire ;;
      got ← read_loop (Z.to_nat bufsz) bufsz [];
      vlk_release ;;
      d' ← gets v_dev;
      mret (s64 (v_pos d' - v_pos d), got).

Definition vioblk_getlen (d : vioblk_device) (arg : Z) : Z * Z := (s32 (v_size d), v_size d).
Definition vioblk_getpos (d : vioblk_device) (arg : Z) : Z * Z := (s32 (v_pos d), v_pos d).
Definition vioblk_setpos (d : vioblk_device) (arg : Z) : Z * vioblk_device := (s32 arg, set_v_pos arg d).
Definition vioblk_getblksz (d : vioblk_device) (arg : Z) : Z * Z := (s32 (v_blksz d), set_int arg (v_blksz d)).

(** The result and the object the argument points to afterwards. *)
Definition vioblk_ioctl (cmd arg : Z) : V (Z * Z) :=
  vlk_acquire ;;
  d ← gets v_dev;
  ret ← (if cmd =? IOCTL_GETLEN then mret (vioblk_getlen d arg)
         else if cmd =? IOCTL_GETPOS then mret (vioblk_getpos d arg)
         else if cmd =? IOCTL_SETPOS then
           let '(r, d') := vioblk_setpos d arg in mod_dev (fun _ => d') ;; mret (r, arg)
         else if cmd =? IOCTL_GETBLKSZ then mret (vioblk_getblksz d arg)
         else mret (- ENOTSUP, arg));
  vlk_release ;;
  mret ret.

(** A new block of the heap, with the bytes memory holds there. *)
Definition kmalloc_bytes (n : Z) : V (list Z) :=
  a ← on_heap (kmalloc n);
  mret ((fun i => stale (a + Z.of_nat i)) <$> seq 0 (Z.to_nat n)).

Fixpoint write_loop (fuel : nat) (buf : list Z) (n : Z) : V unit :=
  if 0 <? n then
    match fuel with
    | O => waits
    | S fuel' =>
        d ← gets v_dev;
        (if v_blksz d =? 0 then undef "division by zero" else mret tt) ;;
        let sector := sector_of d in
        let count := count_of d sector n in
        let pos_pre := v_pos d in
        let pos_new := u32 (sector * v_blksz d) in
        vlk_release ;;
        vioblk_ioctl IOCTL_SETPOS pos_new ;;
        read_blk ← kmalloc_bytes (v_blksz d);
        r ← vioblk_read (v_blksz d);
        let read_blk := splice 0 r.2 read_blk in
        vioblk_ioctl IOCTL_SETPOS pos_pre ;;
        vlk_acquire ;;
        d ← gets v_dev;
        bs ← copy_out buf 0 count;
        (if v_blksz d <? v_pos d mod v_blksz d + count then undef "memcpy outside the buffer" else mret tt) ;;
        let read_blk := splice (Z.to_nat (v_pos d mod v_blksz d)) bs read_blk in
        mod_dev (set_blkbuf read_blk) ;;
        request VIRTIO_BLK_T_OUT sector (fun f => Z.land f (Z.lnot VIRTQ_DESC_F_WRITE)) ;;
        mod_dev (fun d => set_v_pos (u64 (v_pos d + count)) d) ;;
        write_loop fuel' (drop (Z.to_nat count) buf) (u64 (n - count))
    end
  else mret tt.

Definition vioblk_write (buf : list Z) : V Z :=
  d ← gets v_dev;
  if v_opened d =? 0 then mret (- EBADFMT)
  else
    let n := Z.of_nat (length buf) in
    let n := if LONG_MAX <? n then LONG_MAX else n in
    if n =? 0 then mret 0
    else
      let n := clamp d n in
      vlk_acquire ;;
      write_loop (Z.to_nat n) buf n ;;
      vlk_release ;;
      d' ← gets v_dev;
      mret (s64 (v_pos d' - v_pos d)).

(** [vioblk_open] and [vioblk_close]; the I/O object is the one of the device. *)
Definition vioblk_open : V Z :=
  mod_dev (set_v_refcnt 1) ;;
  d ← gets v_dev;
  if negb (v_opened d =? 0) then mret 0
  else
    mod_dev (fun d => let q := vq d in
      set_vq (mkVq (waiting q) 0 0 0 (desc q) (req_type q) (req_sector q)) d) ;;
    mod_regs (fun r => set_status (Z.lor (vstatus r) VIRTIO_STAT_DRIVER_OK) r) ;;
    on_vintr (intr_enable_irq (v_irqno d)) ;;
    mod_dev (set_v_opened 1) ;;
    mret 0.

Definition vioblk_close : V unit :=
  mod_dev (fun d => set_v_refcnt (u32 (v_refcnt d - 1)) d) ;;
  d ← gets v_dev;
  if v_refcnt d <=? 0 then
    on_vintr (intr_disable_irq (v_irqno d)) ;;
    mod_regs (virtio_reset_virtq 0) ;;
    mod_dev (set_v_opened 0)
  else mret tt.

Definition vioblk_ops : io_ops (vstate HW) :=
  mkOps (Some vioblk_close) (Some vioblk_read) (Some vioblk_write) (Some vioblk_ioctl).

(** ** Attaching *)

Definition needed_features : list Z :=
  virtio_featset_add (virtio_featset_add virtio_featset_init VIRTIO_F_RING_RESET) VIRTIO_F_INDIRECT_DESC.
Definition wanted_features : list Z :=
  virtio_featset_add (virtio_featset_add virtio_featset_init VIRTIO_BLK_F_BLK_SIZE) VIRTIO_BLK_F_TOPOLOGY.

(** The descriptors of a device structure at [a]. *)
Definition vq_desc (a blksz : Z) : list virtq_desc :=
  [ mkDesc (a + DESC_OFF + 16) 48 VIRTQ_DESC_F_INDIRECT 0;
    mkDesc (a + HEADER_OFF) 16 VIRTQ_DESC_F_NEXT 1;
    mkDesc (a + VIOBLK_SZ) blksz VIRTQ_DESC_F_NEXT 2;
    mkDesc (a + STATUS_OFF) 1 VIRTQ_DESC_F_WRITE 0 ].

(** The rest of [vioblk_attach] once the structure is allocated at [a]. *)
Definition vioblk_install (a blksz irqno : Z) : V unit :=
  (if blksz =? 0 then undef "division by zero" else mret tt) ;;
  r ← gets v_regs;
  let size := u64 (blk_capacity r * VIOBLK_SECTOR_SIZE) in
  mod_dev (fun _ => mkVdev a 0 (u16 (device_id r)) (u16 irqno) 0 blksz 0 size (size / blksz)
    (mkVq false 0 0 0 (vq_desc a blksz) 0 0)
    ((fun i => stale (a + VIOBLK_SZ + Z.of_nat i)) <$> seq 0 (Z.to_nat blksz))) ;;
  mod_regs (virtio_attach_virtq 0 1 (a + DESC_OFF) (a + USED_OFF) (a + AVAIL_OFF)) ;;
  mod_regs (virtio_enable_virtq 0) ;;
  on_vintr (intr_register_isr irqno VIOBLK_IRQ_PRIO VIOBLK_ISR a) ;;
  on_devs (device_register (Some BLK_NAME) VIOBLK_OPEN a) ;;
  set_vlk (-1) ;;
  mod_regs (fun r => set_status (Z.lor (vstatus r) VIRTIO_STAT_DRIVER_OK) r).

(** [enabled] is the feature set on the stack, which is not initialised. *)
Definition vioblk_attach (enabled0 : list Z) (irqno : Z) : V unit :=
  r ← gets v_regs;
  cassert (device_id r =? VIRTIO_ID_BLOCK) ;;
  mod_regs (fun r => set_status (Z.lor (vstatus r) VIRTIO_STAT_DRIVER) r) ;;
  r ← gets v_regs;
  match virtio_negotiate_features enabled0 wanted_features needed_features r with
  | Ok (result, enabled_features, r') =>
      mod_regs (fun _ => r') ;;
      if negb (result =? 0) then mret tt
      else
        let blksz := if negb (virtio_featset_test enabled_features VIRTIO_BLK_F_BLK_SIZE =? 0)
                     then blk_blk_size r' else 512 in
        a ← on_heap (kmalloc (VIOBLK_SZ + blksz));
        vioblk_install a blksz irqno
  | Panic w => panic w
  | Undef w => undef w
  | _ => waits
  end.

(** virtio.c; the console driver is the weak definition that panics. *)
Definition viocons_attach : V unit := panic "viocons not included!".

Definition virtio_attach (enabled0 : list Z) (irqno : Z) : V unit :=
  r ← gets v_regs;
  if negb (magic_value r =? VIRTIO_MAGIC) then mret tt
  else if negb (version r =? 2) then mret tt
  else if device_id r =? VIRTIO_ID_NONE then mret tt
  else
    mod_regs (set_status 0) ;;
    mod_regs (set_status VIRTIO_STAT_ACKNOWLEDGE) ;;
    if device_id r =? VIRTIO_ID_CONSOLE then viocons_attach
    else if device_id r =? VIRTIO_ID_BLOCK then vioblk_attach enabled0 irqno
    else mret tt.
End Vioblk.

(** ** Requests *)

Lemma u16_bit z k : 0 <= k < 16 -> Z.testbit (u16 z) k = Z.testbit z k.
Proof. intros. unfold u16. change 65536 with (2 ^ 16). by rewrite Z.mod_pow2_bits_low by lia. Qed.

Lemma land_one_zero z k : 0 <= k -> (Z.land z (2 ^ k) =? 0) = negb (Z.testbit z k).
Proof.
  intros Hk. destruct (Z.testbit z k) eqn:E; cbn [negb].
  - apply Z.eqb_neq. intros H. assert (Z.testbit (Z.land z (2 ^ k)) k = true) as H'.
    { rewrite Z.land_spec, E, Z.pow2_bits_true by lia. done. }
    rewrite H, Z.bits_0 in H'. done.
  - apply Z.eqb_eq, Z.bits_inj_0. intros j. rewrite Z.land_spec.
    destruct (decide (j = k)) as [->|Hne]; [by rewrite E|].
    by rewrite Z.pow2_bits_false, andb_false_r by done.
Qed.

Lemma write_flag_set f : (Z.land (u16 (Z.lor f VIRTQ_DESC_F_WRITE)) VIRTQ_DESC_F_WRITE =? 0) = false.
Proof.
  change VIRTQ_DESC_F_WRITE with (2 ^ 1). rewrite land_one_zero, u16_bit, Z.lor_spec by lia.
  by rewrite Z.pow2_bits_true, orb_true_r by lia.
Qed.
Lemma write_flag_clear f :
  (Z.land (u16 (Z.land f (Z.lnot VIRTQ_DESC_F_WRITE))) VIRTQ_DESC_F_WRITE =? 0) = true.
Proof.
  change VIRTQ_DESC_F_WRITE with (2 ^ 1). rewrite land_one_zero, u16_bit, Z.land_spec, Z.lnot_spec by lia.
  by rewrite Z.pow2_bits_true, andb_false_r by lia.
Qed.
Lemma used_raised x : (Z.land (Z.lor x VIOBLK_USED_NOTF) VIOBLK_USED_NOTF =? 0) = false.
Proof.
  change VIOBLK_USED_NOTF with (2 ^ 0). rewrite land_one_zero, Z.lor_spec, Z.pow2_bits_true by lia.
  by rewrite orb_true_r.
Qed.

Section VioblkProofs.
Context {HW : Type} {B : BlockDev HW} (image : HW -> list Z) `{!BlockHw B image}.
Context (self : Z).
Implicit Types s : vstate HW.

(** An open device with blocks of 512 bytes. *)
Record vok s : Prop := {
  vo_open : v_opened (v_dev s) <> 0;
  vo_blksz : v_blksz (v_dev s) = 512;
  vo_buf : length (blkbuf (v_dev s)) = 512%nat;
  vo_desc : length (desc (vq (v_dev s))) = 4%nat;
  vo_size : v_size (v_dev s) = Z.of_nat (length (image (hw s)));
  vo_mod : (Z.of_nat (length (image (hw s)))) mod 512 = 0;
  vo_lt : Z.of_nat (length (image (hw s))) < 2 ^ 31;
  vo_irq : 0 < priority (plicr (v_intr s)) (v_irqno (v_dev s))
}.

(** What a request leaves alone. *)
Definition same s s' : Prop :=
  v_pos (v_dev s') = v_pos (v_dev s) /\ vlk s' = vlk s /\ v_heap s' = v_heap s.

(** The state after a request that leaves the buffer [b] and the device [h]. *)
Definition after_request typ sector flags b h s : vstate HW :=
  let d := v_dev s in
  let q := vq d in
  let r := raise VIOBLK_USED_NOTF (virtio_notify_avail 0 (v_regs s)) in
  mkV (set_ack (interrupt_status r) r)
    (set_blkbuf b (set_vq (mkVq false (avail_flags q) (u16 (avail_idx q + 1)) (avail_ring0 q)
       (alter (set_desc_flags flags) 2%nat (desc q)) typ (u64 sector)) d))
    (v_intr s) (v_devs s) (vlk s) (v_heap s) h.

Lemma request_run typ sector flags s f b h :
  desc (vq (v_dev s)) !! 2%nat = Some f -> 0 < priority (plicr (v_intr s)) (v_irqno (v_dev s)) ->
  serve (hw s) typ (u64 sector) (negb (Z.land (u16 (flags (d_flags f))) VIRTQ_DESC_F_WRITE =? 0))
    (blkbuf (v_dev s)) = (b, h) ->
  request typ sector flags s = Ok (tt, after_request typ sector flags b h s).
Proof.
  intros Hf Hp Es. unfold request, mod_dev, mod_regs. do 2 (rewrite bind_run; cbn [modify obind]).
  unfold wait_used, mod_dev. rewrite bind_run. cbn [modify obind].
  unfold device_serves. rewrite bind_run. cbn [modify obind hw v_dev vq desc req_type req_sector set_vq set_waiting blkbuf].
  rewrite list_lookup_alter, Hf, decide_True by done.
  cbn [fmap option_fmap option_map default from_option id d_flags set_desc_flags].
  rewrite Es. rewrite bind_run. cbn [get obind v_intr v_dev v_irqno set_blkbuf set_vq].
  rewrite (proj2 (Z.ltb_lt _ _) Hp). rewrite bind_run. unfold vioblk_isr. rewrite bind_run.
  cbn [gets obind v_regs]. cbn [interrupt_status raise]. rewrite used_raised. cbn [negb]. reflexivity.
Qed.

Lemma vok_desc2 s : vok s -> exists f, desc (vq (v_dev s)) !! 2%nat = Some f.
Proof. intros Hs. apply lookup_lt_is_Some_2. rewrite (vo_desc _ Hs). lia. Qed.

Lemma vok_after typ sector flags b h s :
  vok s -> length b = 512%nat -> length (image h) = length (image (hw s)) ->
  vok (after_request typ sector flags b h s).
Proof.
  intros [] Hb Hh. constructor; cbn; rewrite ?Hh; try done. by rewrite length_alter.
Qed.

Lemma request_in s sector :
  vok s -> 0 <= sector -> 512 * (sector + 1) <= Z.of_nat (length (image (hw s))) ->
  exists s', request VIRTIO_BLK_T_IN sector (fun f => Z.lor f VIRTQ_DESC_F_WRITE) s = Ok (tt, s') /\
    vok s' /\ same s s' /\ image (hw s') = image (hw s) /\
    blkbuf (v_dev s') = slice (Z.to_nat (512 * sector)) 512 (image (hw s)).
Proof.
  intros Hs H0 H1. destruct (vok_desc2 s Hs) as [f Hf]. pose proof (vo_lt _ Hs).
  destruct (serve_in (hw s) sector (blkbuf (v_dev s)) H0) as (h & Es & Eh); [rewrite (vo_buf _ Hs); lia|].
  rewrite (vo_buf _ Hs) in Es. eexists. split.
  { eapply request_run; [exact Hf|apply Hs|]. rewrite write_flag_set, u64_small by lia. exact Es. }
  split_and!; try done. apply vok_after; [done| |by rewrite Eh]. apply slice_length. lia.
Qed.

Lemma request_out s sector :
  vok s -> 0 <= sector -> 512 * (sector + 1) <= Z.of_nat (length (image (hw s))) ->
  exists s', request VIRTIO_BLK_T_OUT sector (fun f => Z.land f (Z.lnot VIRTQ_DESC_F_WRITE)) s = Ok (tt, s') /\
    vok s' /\ same s s' /\ image (hw s') = splice (Z.to_nat (512 * sector)) (blkbuf (v_dev s)) (image (hw s)).
Proof.
  intros Hs H0 H1. destruct (vok_desc2 s Hs) as [f Hf]. pose proof (vo_lt _ Hs). pose proof (vo_buf _ Hs) as Hb.
  destruct (serve_out (hw s) sector (blkbuf (v_dev s)) H0) as (h & Es & Eh); [rewrite Hb; lia|].
  eexists. split.
  { eapply request_run; [exact Hf|apply Hs|]. rewrite write_flag_clear, u64_small by lia. exact Es. }
  split_and!; try done. apply vok_after; [done|done|]. rewrite Eh, splice_length; [done|rewrite Hb; lia].
Qed.

(** ** One round of a transfer *)

(** The bytes of a round at position [p] of [n] left. *)
Definition chunk (p n : Z) : Z := Z.min n (512 - p mod 512).

Lemma sector_at (d : vioblk_device) :
  v_blksz d = 512 -> 0 <= v_pos d < 2 ^ 31 -> sector_of d = v_pos d / 512.
Proof. intros E H. unfold sector_of. rewrite E, s32_small; [done|]. Z.div_mod_to_equations. lia. Qed.

Lemma count_at (d : vioblk_device) n :
  v_blksz d = 512 -> 0 <= v_pos d -> 0 < n -> v_pos d + n < 2 ^ 31 ->
  count_of d (v_pos d / 512) n = chunk (v_pos d) n.
Proof.
  intros E H0 Hn Hl. unfold count_of, chunk. rewrite E.
  assert (Hq : 0 <= v_pos d / 512 < 4194304) by (Z.div_mod_to_equations; lia).
  pose proof (Z.div_mod (v_pos d) 512 ltac:(lia)). pose proof (Z.mod_pos_bound (v_pos d) 512 ltac:(lia)).
  rewrite (u32_small (v_pos d / 512 + 1)), (s32_small n) by lia.
  destruct (decide (v_pos d / 512 = 4194303)) as [Eq|Hne].
  - rewrite Eq in *. change (s32 (u32 ((4194303 + 1) * 512))) with (-2147483648).
    change (u64 (-2147483648)) with 18446744071562067968.
    rewrite u64_small by lia. destruct (Z.ltb_spec 18446744071562067968 (v_pos d + n)); lia.
  - rewrite (u32_small ((v_pos d / 512 + 1) * 512)), s32_small by lia.
    rewrite !u64_small by lia.
    destruct (Z.ltb_spec ((v_pos d / 512 + 1) * 512) (v_pos d + n)); [|lia].
    rewrite s32_small by lia. lia.
Qed.

(** A block and the chunk in it stay inside the device. *)
Lemma chunk_bounds (L p n : Z) :
  L mod 512 = 0 -> 0 <= p -> 0 < n -> p + n <= L ->
  0 < chunk p n <= n /\ p mod 512 + chunk p n <= 512 /\ 512 * (p / 512 + 1) <= L /\
  0 <= p / 512 /\ p = 512 * (p / 512) + p mod 512 /\ 0 <= p mod 512 < 512.
Proof.
  intros. unfold chunk. pose proof (Z.mod_pos_bound p 512 ltac:(lia)).
  pose proof (Z.div_mod p 512 ltac:(lia)). pose proof (Z.div_mod L 512 ltac:(lia)).
  split_and!; lia.
Qed.

Lemma copy_out_run (l : list Z) off count s :
  0 <= count -> off + count <= Z.of_nat (length l) ->
  copy_out l off count s = Ok (slice (Z.to_nat off) (Z.to_nat count) l, s).
Proof.
  intros H1 H2. unfold copy_out. destruct (Z.ltb_spec count 0), (Z.ltb_spec (Z.of_nat (length l)) (off + count));
    try lia. done.
Qed.

Definition move_to (p : Z) s : vstate HW :=
  mkV (v_regs s) (set_v_pos p (v_dev s)) (v_intr s) (v_devs s) (vlk s) (v_heap s) (hw s).

Lemma vok_move p s : vok s -> vok (move_to p s).
Proof. by intros []. Qed.

Lemma slice_slice {A} (l : list A) a b c m : (b + c <= m)%nat -> slice b c (slice a m l) = slice (a + b) c l.
Proof.
  intros. apply list_eq. intros i. destruct (decide (i < c)%nat).
  - rewrite !slice_lookup by lia. f_equal. lia.
  - rewrite !lookup_ge_None_2; [done|..]; unfold slice; rewrite length_take; lia.
Qed.

(** ** Reading *)

Lemma read_loop_run fuel n s got :
  vok s -> 0 <= v_pos (v_dev s) -> v_pos (v_dev s) + Z.of_nat n <= Z.of_nat (length (image (hw s))) ->
  (n <= fuel)%nat ->
  exists s', read_loop fuel (Z.of_nat n) got s
      = Ok (got ++ slice (Z.to_nat (v_pos (v_dev s))) n (image (hw s)), s') /\
    vok s' /\ image (hw s') = image (hw s) /\ v_pos (v_dev s') = v_pos (v_dev s) + Z.of_nat n /\
    vlk s' = vlk s /\ v_heap s' = v_heap s.
Proof.
  revert n s got. induction fuel as [|fuel IH]; intros n s got Hs H0 Hn Hf; cbn [read_loop].
  { replace n with 0%nat by lia. exists s. cbn. rewrite slice_0, app_nil_r, Z.add_0_r. done. }
  destruct (Z.ltb_spec 0 (Z.of_nat n)) as [Hlt|Hge].
  2:{ replace n with 0%nat by lia. exists s. cbn. rewrite slice_0, app_nil_r, Z.add_0_r. done. }
  pose proof (vo_lt _ Hs) as HL. pose proof (vo_blksz _ Hs) as Hb. set (p := v_pos (v_dev s)) in *.
  set (m := image (hw s)) in *.
  destruct (chunk_bounds (Z.of_nat (length m)) p (Z.of_nat n)) as (Hc & Hin & Hblk & Hq & Ep & Hm);
    [apply Hs|lia|lia|lia|].
  destruct (request_in s (p / 512) Hs Hq Hblk) as (s1 & Er & Hs1 & (Epos & Elk & Ehp) & Eim & Ebuf).
  rewrite bind_run. cbn [gets obind]. rewrite Hb. cbn [Z.eqb]. rewrite bind_run. cbn [mret M_ret obind].
  rewrite (sector_at (v_dev s) Hb) by lia. fold p.
  rewrite (bind_Ok _ _ _ _ _ Er), bind_run. cbn [gets obind].
  fold p in Epos.
  assert (Ec : count_of (v_dev s1) (p / 512) (Z.of_nat n) = chunk p (Z.of_nat n))
    by (rewrite <- Epos; apply count_at; [apply Hs1|lia..]).
  rewrite Ec, Epos, (vo_blksz _ Hs1). set (c := chunk p (Z.of_nat n)) in *.
  erewrite bind_Ok by (apply copy_out_run; [lia|rewrite (vo_buf _ Hs1); lia]).
  rewrite bind_run. cbn [mod_dev modify obind].
  fold (move_to (u64 (v_pos (v_dev s1) + c)) s1). rewrite Epos, !u64_small by lia.
  destruct (IH (Z.to_nat (Z.of_nat n - c)) (move_to (p + c) s1)
    (got ++ slice (Z.to_nat (p mod 512)) (Z.to_nat c) (blkbuf (v_dev s1)))) as (s' & E & Hs' & Eim' & Ep' & Elk' & Ehp');
    [by apply vok_move|cbn; lia|cbn; rewrite Eim; fold m; lia|lia|].
  rewrite Z2Nat.id in E, Ep' by lia. cbn [move_to v_dev v_pos set_v_pos hw vlk v_heap] in E, Ep', Eim', Elk', Ehp'.
  exists s'. split_and!; try done; try congruence; [|by rewrite Eim', Eim|lia].
  rewrite E, Ebuf, Eim. fold m. do 2 f_equal. rewrite <- app_assoc. f_equal.
  rewrite slice_slice by lia. replace n with (Z.to_nat c + Z.to_nat (Z.of_nat n - c))%nat at 2 by lia.
  rewrite slice_app. f_equal; f_equal; lia.
Qed.

Definition with_vlk (t : Z) s : vstate HW :=
  mkV (v_regs s) (v_dev s) (v_intr s) (v_devs s) t (v_heap s) (hw s).

Lemma vlk_acquire_run s : vlk s = -1 -> vlk_acquire self s = Ok (tt, with_vlk self s).
Proof. intros E. unfold vlk_acquire. rewrite bind_run. cbn [get obind]. by rewrite E. Qed.
Lemma vlk_release_run s : vlk s = self -> vlk_release self s = Ok (tt, with_vlk (-1) s).
Proof.
  intros E. unfold vlk_release. rewrite bind_run. cbn [get obind]. rewrite E, Z.eqb_refl. done.
Qed.
Lemma vok_vlk t s : vok s -> vok (with_vlk t s).
Proof. by intros []. Qed.

(** The bytes a transfer of [n] moves: at most what is left. *)
Definition left s (n : nat) : nat := Nat.min n (length (image (hw s)) - Z.to_nat (v_pos (v_dev s))).

Lemma clamp_left s n :
  vok s -> 0 <= v_pos (v_dev s) <= v_size (v_dev s) -> Z.of_nat n <= LONG_MAX ->
  clamp (v_dev s) (Z.of_nat n) = Z.of_nat (left s n).
Proof.
  intros Hs Hp Hn. pose proof (vo_lt _ Hs). pose proof (vo_size _ Hs). unfold clamp, left, LONG_MAX in *.
  rewrite (u64_small (_ + _)) by lia.
  destruct (Z.ltb_spec (v_size (v_dev s)) (v_pos (v_dev s) + Z.of_nat n)); [rewrite u64_small|]; lia.
Qed.

Lemma read_run s (n : nat) :
  vok s -> vlk s = -1 -> 0 <= v_pos (v_dev s) <= v_size (v_dev s) -> Z.of_nat n <= LONG_MAX ->
  exists s', vioblk_read self (Z.of_nat n) s
      = Ok ((Z.of_nat (left s n), slice (Z.to_nat (v_pos (v_dev s))) (left s n) (image (hw s))), s') /\
    vok s' /\ image (hw s') = image (hw s) /\
    v_pos (v_dev s') = v_pos (v_dev s) + Z.of_nat (left s n) /\ vlk s' = -1 /\ v_heap s' = v_heap s.
Proof.
  intros Hs Hk Hp Hn. pose proof (vo_lt _ Hs). pose proof (vo_size _ Hs).
  unfold vioblk_read. rewrite bind_run. cbn [gets obind].
  rewrite (proj2 (Z.eqb_neq _ _) (vo_open _ Hs)), (proj2 (Z.ltb_ge _ _) Hn).
  destruct (Z.eqb_spec (Z.of_nat n) 0) as [E0|Hne].
  { exists s. unfold left. replace n with 0%nat by lia. cbn. rewrite Z.add_0_r. split_and!; done. }
  rewrite (clamp_left s n Hs Hp Hn), (bind_Ok _ _ _ _ _ (vlk_acquire_run s Hk)), Nat2Z.id.
  destruct (read_loop_run (left s n) (left s n) (with_vlk self s) []) as (s1 & E & Hs1 & Eim & Epos & Elk & Ehp);
    [by apply vok_vlk|cbn; lia|cbn; unfold left; lia|lia|].
  rewrite (bind_Ok _ _ _ _ _ E), app_nil_l.
  erewrite bind_Ok by (apply vlk_release_run; exact Elk).
  rewrite bind_run. cbn [gets obind v_dev with_vlk]. eexists. split.
  { unfold mret, M_ret. rewrite Epos. cbn [v_dev with_vlk]. do 3 f_equal.
    rewrite s64_small; [lia|unfold left; lia]. }
  split_and!; try done. by apply vok_vlk.
Qed.

(** ** Writing *)

Lemma setpos_run p s :
  vlk s = -1 -> vioblk_ioctl self IOCTL_SETPOS p s = Ok ((s32 p, p), move_to p s).
Proof.
  intros Hk. unfold vioblk_ioctl. rewrite (bind_Ok _ _ _ _ _ (vlk_acquire_run s Hk)).
  rewrite bind_run. cbn [gets obind]. rewrite bind_run.
  change (IOCTL_SETPOS =? IOCTL_GETLEN) with false. change (IOCTL_SETPOS =? IOCTL_GETPOS) with false.
  change (IOCTL_SETPOS =? IOCTL_SETPOS) with true. cbn iota. cbn [vioblk_setpos].
  rewrite bind_run. cbn [mod_dev modify obind mret M_ret].
  erewrite bind_Ok by (by apply vlk_release_run). destruct s. cbn in *. by rewrite Hk.
Qed.

(** A block replaced in place: the bytes of the chunk change, no others. *)
Lemma splice_block {A} (m bs : list A) (o r : nat) :
  (o + 512 <= length m)%nat -> (r + length bs <= 512)%nat ->
  splice o (splice r bs (slice o 512 m)) m = splice (o + r) bs m.
Proof.
  intros Ho Hr. pose proof (slice_length o 512 m Ho) as Hb.
  assert (Hl : length (splice r bs (slice o 512 m)) = 512%nat) by (rewrite splice_length; lia).
  apply list_eq. intros i. destruct (decide (o <= i < o + 512)%nat) as [Hi|Hi].
  - rewrite (splice_lookup_in o) by lia. destruct (decide (r <= i - o < r + length bs)%nat) as [Hj|Hj].
    + rewrite !splice_lookup_in by lia. f_equal. lia.
    + rewrite !splice_lookup_out by lia. rewrite slice_lookup by lia. f_equal. lia.
  - rewrite !splice_lookup_out by lia. done.
Qed.

(** The heap serves [k] more blocks. *)
Fixpoint heap_serves (k : nat) (h : kmem) : Prop :=
  match k with
  | O => True
  | S k' => exists a h', kmalloc 512 h = Ok (a, h') /\ heap_serves k' h'
  end.

(** The blocks that [n] bytes at [p] touch: the rounds of the loop. *)
Definition rounds (p n : Z) : Z := if n =? 0 then 0 else (p + n - 1) / 512 - p / 512 + 1.

Lemma rounds_step p n :
  0 <= p -> 0 < n -> 0 < rounds p n /\ rounds (p + chunk p n) (n - chunk p n) = rounds p n - 1.
Proof.
  intros Hp Hn. unfold rounds, chunk. destruct (Z.eqb_spec n 0); [lia|].
  split; [Z.div_mod_to_equations; lia|].
  destruct (Z.eqb_spec (n - Z.min n (512 - p mod 512)) 0); Z.div_mod_to_equations; lia.
Qed.

Definition with_heap (h : kmem) s : vstate HW :=
  mkV (v_regs s) (v_dev s) (v_intr s) (v_devs s) (vlk s) h (hw s).

Context (stale : Z -> Z).

Lemma kmalloc_bytes_run s a h :
  kmalloc 512 (v_heap s) = Ok (a, h) ->
  exists l, kmalloc_bytes stale 512 s = Ok (l, with_heap h s) /\ length l = 512%nat.
Proof.
  intros E. eexists. unfold kmalloc_bytes. rewrite bind_run. unfold on_heap. rewrite E.
  split; [reflexivity|]. by rewrite length_fmap, length_seq.
Qed.

(** The read of the block a round is about to change. *)
Lemma read_block s q :
  vok s -> vlk s = -1 -> 0 <= q -> 512 * (q + 1) <= Z.of_nat (length (image (hw s))) ->
  v_pos (v_dev s) = 512 * q ->
  exists s', vioblk_read self 512 s
      = Ok ((512, slice (Z.to_nat (512 * q)) 512 (image (hw s))), s') /\
    vok s' /\ image (hw s') = image (hw s) /\ vlk s' = -1 /\ v_heap s' = v_heap s.
Proof.
  intros Hs Hk Hq Hb Ep. pose proof (vo_size _ Hs).
  assert (El : left s 512 = 512%nat) by (unfold left; rewrite Ep; lia).
  destruct (read_run s 512 Hs Hk) as (s' & E & Hs' & Eim & _ & Elk & Ehp); [lia|unfold LONG_MAX; lia|].
  rewrite El, Ep in E. exists s'. done.
Qed.

Definition with_buf (b : list Z) s : vstate HW :=
  mkV (v_regs s) (set_blkbuf b (v_dev s)) (v_intr s) (v_devs s) (vlk s) (v_heap s) (hw s).

(** One round of the loop of [vioblk_write]. *)
Lemma write_round fuel n s buf a h :
  vok s -> vlk s = self -> 0 <= v_pos (v_dev s) -> (0 < n <= length buf)%nat ->
  v_pos (v_dev s) + Z.of_nat n <= Z.of_nat (length (image (hw s))) ->
  kmalloc 512 (v_heap s) = Ok (a, h) ->
  let c := chunk (v_pos (v_dev s)) (Z.of_nat n) in
  exists s', write_loop self stale (S fuel) buf (Z.of_nat n) s
      = write_loop self stale fuel (drop (Z.to_nat c) buf) (Z.of_nat n - c) s' /\
    vok s' /\ vlk s' = self /\ v_heap s' = h /\ v_pos (v_dev s') = v_pos (v_dev s) + c /\
    image (hw s') = splice (Z.to_nat (v_pos (v_dev s))) (take (Z.to_nat c) buf) (image (hw s)).
Proof.
  intros Hs Hk H0 Hnb Hn Hm. cbn zeta. pose proof (vo_lt _ Hs) as HL. pose proof (vo_blksz _ Hs) as Hb.
  set (p := v_pos (v_dev s)) in *. set (m := image (hw s)) in *.
  destruct (chunk_bounds (Z.of_nat (length m)) p (Z.of_nat n)) as (Hc & Hin & Hblk & Hq & Ep & Hpm);
    [apply Hs|lia|lia|lia|].
  set (c := chunk p (Z.of_nat n)) in *. set (q := p / 512) in *.
  cbn [write_loop]. destruct (Z.ltb_spec 0 (Z.of_nat n)) as [_|]; [|lia].
  rewrite bind_run. cbn [gets obind]. rewrite Hb. cbn [Z.eqb]. rewrite bind_run. cbn [mret M_ret obind].
  rewrite (sector_at (v_dev s) Hb) by lia. rewrite (count_at (v_dev s)) by (done || lia). fold p q c.
  rewrite (u32_small (q * 512)) by lia.
  rewrite (bind_Ok _ _ _ _ _ (vlk_release_run s Hk)).
  rewrite (bind_Ok _ _ _ _ _ (setpos_run (q * 512) (with_vlk (-1) s) eq_refl)).
  set (s1 := move_to (q * 512) (with_vlk (-1) s)).
  destruct (kmalloc_bytes_run s1 a h Hm) as (l & El & Hll). rewrite (bind_Ok _ _ _ _ _ El).
  set (s2 := with_heap h s1).
  assert (Hs2 : vok s2) by (by destruct Hs).
  destruct (read_block s2 q Hs2 eq_refl Hq) as (s3 & Er & Hs3 & Eim3 & Elk3 & Ehp3); [done|cbn; lia|].
  rewrite (bind_Ok _ _ _ _ _ Er). cbn [snd]. cbn [s2 s1 with_heap move_to with_vlk hw] in Eim3 |- *. fold m.
  fold m in Eim3.
  set (blk := slice (Z.to_nat (512 * q)) 512 m). assert (Hblkl : length blk = 512%nat) by (apply slice_length; lia).
  rewrite splice_all by lia.
  rewrite (bind_Ok _ _ _ _ _ (setpos_run p s3 Elk3)).
  erewrite bind_Ok by (apply vlk_acquire_run; exact Elk3).
  rewrite bind_run. cbn [gets obind v_dev with_vlk move_to v_pos set_v_pos v_blksz]. rewrite (vo_blksz _ Hs3).
  erewrite bind_Ok by (apply copy_out_run; lia).
  rewrite (proj2 (Z.ltb_ge 512 (p mod 512 + c))) by lia. rewrite bind_run. cbn [mret M_ret obind].
  change (slice (Z.to_nat 0) (Z.to_nat c) buf) with (take (Z.to_nat c) (drop 0 buf)). rewrite drop_0. set (bs := take (Z.to_nat c) buf).
  assert (Hbs : length bs = Z.to_nat c) by (unfold bs; rewrite length_take; lia).
  rewrite bind_run. cbn [mod_dev modify obind].
  set (nb := splice (Z.to_nat (p mod 512)) bs blk).
  assert (Hnbl : length nb = 512%nat) by (unfold nb; rewrite splice_length; lia).
  set (s4 := with_buf nb (with_vlk self (move_to p s3))).
  assert (Hs4 : vok s4) by (destruct Hs3; by constructor).
  destruct (request_out s4 q Hs4 Hq) as (s5 & Eo & Hs5 & (Epos5 & Elk5 & Ehp5) & Eim5).
  { cbn. rewrite Eim3. done. }
  rewrite (bind_Ok _ _ _ _ _ Eo), bind_run. cbn [mod_dev modify obind].
  fold (move_to (u64 (v_pos (v_dev s5) + c)) s5). rewrite Epos5.
  change (v_pos (v_dev s4)) with p. rewrite !u64_small by lia.
  eexists. split; [reflexivity|]. split_and!; try done.
  - by apply vok_move.
  - cbn. rewrite Ehp5. exact Ehp3.
  - cbn [hw move_to]. rewrite Eim5. cbn [hw s4 with_buf with_vlk move_to blkbuf v_dev set_blkbuf]. rewrite Eim3.
    unfold nb, blk. rewrite splice_block by lia. f_equal. lia.
Qed.

Lemma write_loop_run fuel n s buf :
  vok s -> vlk s = self -> 0 <= v_pos (v_dev s) -> (n <= length buf)%nat -> (n <= fuel)%nat ->
  v_pos (v_dev s) + Z.of_nat n <= Z.of_nat (length (image (hw s))) ->
  heap_serves (Z.to_nat (rounds (v_pos (v_dev s)) (Z.of_nat n))) (v_heap s) ->
  exists s', write_loop self stale fuel buf (Z.of_nat n) s = Ok (tt, s') /\
    vok s' /\ vlk s' = self /\ v_pos (v_dev s') = v_pos (v_dev s) + Z.of_nat n /\
    image (hw s') = splice (Z.to_nat (v_pos (v_dev s))) (take n buf) (image (hw s)).
Proof.
  revert n s buf. induction fuel as [|fuel IH]; intros n s buf Hs Hk H0 Hb Hf Hn Hh.
  { replace n with 0%nat by lia. exists s. cbn. rewrite take_0, splice_nil, Z.add_0_r by lia. done. }
  destruct (decide (n = 0%nat)) as [->|Hne].
  { exists s. cbn. rewrite take_0, splice_nil, Z.add_0_r by lia. done. }
  destruct (rounds_step (v_pos (v_dev s)) (Z.of_nat n) H0) as [Hr Hr']; [lia|].
  replace (Z.to_nat (rounds (v_pos (v_dev s)) (Z.of_nat n)))
    with (S (Z.to_nat (rounds (v_pos (v_dev s)) (Z.of_nat n) - 1))) in Hh by lia.
  destruct Hh as (a & h & Hm & Hh).
  destruct (write_round fuel n s buf a h Hs Hk H0) as (s1 & E & Hs1 & Hk1 & Eh1 & Ep1 & Em1); [lia|done|done|].
  destruct (chunk_bounds (Z.of_nat (length (image (hw s)))) (v_pos (v_dev s)) (Z.of_nat n))
    as (Hc & _); [apply Hs|lia|lia|lia|].
  set (c := chunk (v_pos (v_dev s)) (Z.of_nat n)) in *. rewrite E.
  assert (Hbs : length (take (Z.to_nat c) buf) = Z.to_nat c) by (rewrite length_take; lia).
  assert (Hlen : length (image (hw s1)) = length (image (hw s))) by (rewrite Em1, splice_length; lia).
  replace (Z.of_nat n - c) with (Z.of_nat (n - Z.to_nat c)) in Hr' |- * by lia.
  destruct (IH (n - Z.to_nat c)%nat s1 (drop (Z.to_nat c) buf)) as (s' & E' & Hs' & Hk' & Ep' & Em');
    [done|done|lia|rewrite length_drop; lia|lia|rewrite Ep1, Hlen; lia|rewrite Ep1, Eh1, Hr'; done|].
  exists s'. split_and!; try done; [lia|]. rewrite Em', Em1, Ep1.
  replace (Z.to_nat (v_pos (v_dev s) + c)) with (Z.to_nat (v_pos (v_dev s)) + length (take (Z.to_nat c) buf))%nat by lia.
  rewrite splice_append by (rewrite Hbs, length_take, length_drop; lia). f_equal.
  replace n with (Z.to_nat c + (n - Z.to_nat c))%nat at 2 by lia.
  apply take_take_drop.
Qed.

Lemma write_run s (buf : list Z) :
  vok s -> vlk s = -1 -> 0 <= v_pos (v_dev s) <= v_size (v_dev s) -> Z.of_nat (length buf) <= LONG_MAX ->
  let k := left s (length buf) in
  heap_serves (Z.to_nat (rounds (v_pos (v_dev s)) (Z.of_nat k))) (v_heap s) ->
  exists s', vioblk_write self stale buf s = Ok (Z.of_nat k, s') /\
    vok s' /\ vlk s' = -1 /\ v_pos (v_dev s') = v_pos (v_dev s) + Z.of_nat k /\
    image (hw s') = splice (Z.to_nat (v_pos (v_dev s))) (take k buf) (image (hw s)).
Proof.
  intros Hs Hk Hp Hn k Hh. pose proof (vo_lt _ Hs). pose proof (vo_size _ Hs).
  unfold vioblk_write. rewrite bind_run. cbn [gets obind].
  rewrite (proj2 (Z.eqb_neq _ _) (vo_open _ Hs)), (proj2 (Z.ltb_ge _ _) Hn).
  destruct (Z.eqb_spec (Z.of_nat (length buf)) 0) as [E0|Hne].
  { assert (Ek : k = 0%nat) by (unfold k, left; lia).
    exists s. rewrite Ek, take_0, splice_nil, Z.add_0_r by lia. done. }
  rewrite (clamp_left s _ Hs Hp Hn), (bind_Ok _ _ _ _ _ (vlk_acquire_run s Hk)), Nat2Z.id. fold k.
  destruct (write_loop_run k k (with_vlk self s) buf) as (s1 & E & Hs1 & Elk & Epos & Eim);
    [by apply vok_vlk|done|cbn; lia|unfold k, left; lia|lia|cbn; unfold k, left; lia|done|].
  rewrite (bind_Ok _ _ _ _ _ E).
  erewrite bind_Ok by (apply vlk_release_run; exact Elk).
  rewrite bind_run. cbn [gets obind v_dev with_vlk]. eexists. split.
  { unfold mret, M_ret. rewrite Epos. cbn [v_dev with_vlk]. do 2 f_equal.
    rewrite s64_small; [lia|unfold k, left; lia]. }
  split_and!; try done. by apply vok_vlk.
Qed.
End VioblkProofs.

(** ** The device behind the file system *)

Section VioblkDisk.
Context {HW : Type} {B : BlockDev HW} (image : HW -> list Z) `{!BlockHw B image}.
Context (self : Z) (stale : Z -> Z).

Definition vinv (s : vstate HW) : Prop := vok image s /\ vlk s = -1 /\ 0 <= v_pos (v_dev s).
Definition vimg (s : vstate HW) : list Z := image (hw s).
Definition vat (s : vstate HW) : nat := Z.to_nat (v_pos (v_dev s)).

#[global] Instance vioblk_seekable : Seekable (vioblk_ops self stale) vimg vat vinv.
Proof using BlockHw0.
  refine (@Build_Seekable (vstate HW) (vioblk_ops self stale) _ _ _ (vioblk_read self) eq_refl _
            (vioblk_ioctl self) eq_refl _).
  - intros s n (Hs & Hk & Hp) Hn Hin. unfold vat, vimg in *. pose proof (vo_lt _ _ Hs).
    pose proof (vo_size _ _ Hs).
    assert (El : left image s n = n) by (unfold left; lia).
    destruct (read_run image self s n Hs Hk) as (s' & E & Hs' & Eim & Ep & Elk & _);
      [lia|unfold LONG_MAX; lia|].
    rewrite El in E, Ep. exists s'. split; [exact E|]. split; [|exact Eim].
    split; [done|]. split; [done|lia].
  - intros s p (Hs & Hk & Hp) Hr. exists (s32 p, p), (move_to p s). split; [by apply setpos_run|].
    split; [|done]. split; [by apply vok_move|]. split; [done|cbn; lia].
Defined.
End VioblkDisk.

(** ** Attaching and opening *)

Section Attach.
Context {HW : Type} {B : BlockDev HW} (image : HW -> list Z) `{!BlockHw B image}.
Context (self : Z) (stale : Z -> Z).

(** A machine with a block device that can be attached on line [irqno]. *)
Record attachable (s : vstate HW) (irqno : Z) (devs : list (list Z * Z * Z)) : Prop := {
  at_magic : magic_value (v_regs s) = VIRTIO_MAGIC;
  at_version : version (v_regs s) = 2;
  at_id : device_id (v_regs s) = VIRTIO_ID_BLOCK;
  at_kept : features_kept (v_regs s) = true;
  at_offers : Forall (offers (v_regs s) needed_features) feat_idxs;
  at_blksz : Z.testbit (device_features (v_regs s) 0) VIRTIO_BLK_F_BLK_SIZE = true ->
    blk_blk_size (v_regs s) = 512;
  at_size : blk_capacity (v_regs s) * 512 = Z.of_nat (length (image (hw s)));
  at_small : Z.of_nat (length (image (hw s))) < 2 ^ 31;
  at_irq : 0 < irqno < NIRQ;
  at_tab : length (isrtab (v_intr s)) = 32%nat;
  at_devs : holds (v_devs s) devs;
  at_room : (length devs < 16)%nat;
  at_heap : exists a h, kmalloc 728 (v_heap s) = Ok (a, h)
}.

Lemma same_hw_status x r : features_kept r = true -> same_hw r (set_status x r).
Proof. done. Qed.

Lemma attach_blksz r r' enabled :
  same_hw r r' -> nth 0 enabled 0 = Z.land (device_features r 0) 1088 ->
  (Z.testbit (device_features r 0) VIRTIO_BLK_F_BLK_SIZE = true -> blk_blk_size r = 512) ->
  (if negb (virtio_featset_test enabled VIRTIO_BLK_F_BLK_SIZE =? 0) then blk_blk_size r' else 512) = 512.
Proof.
  intros Hw He Hb. unfold virtio_featset_test. change (Z.to_nat (VIRTIO_BLK_F_BLK_SIZE / 32)) with 0%nat.
  change (VIRTIO_BLK_F_BLK_SIZE mod 32) with 6. rewrite He. change 1 with (2 ^ 0).
  rewrite land_one_zero, negb_involutive, Z.shiftr_spec, Z.land_spec by lia.
  change (Z.testbit 1088 (0 + 6)) with true. rewrite andb_true_r.
  destruct (Z.testbit (device_features r 0) (0 + 6)) eqn:E; [|done].
  destruct Hw as (_ & _ & _ & _ & _ & _ & _ & ->). by apply Hb.
Qed.

(** What attaching leaves for [vioblk_open], with the structure at [a] and the
    heap [h]. *)
Definition attached (s' s : vstate HW) (irqno : Z) (devs : list (list Z * Z * Z)) (a : Z) (h : kmem) : Prop :=
  v_opened (v_dev s') = 0 /\ v_blksz (v_dev s') = 512 /\ length (blkbuf (v_dev s')) = 512%nat /\
  length (desc (vq (v_dev s'))) = 4%nat /\ v_size (v_dev s') = Z.of_nat (length (image (hw s))) /\
  v_pos (v_dev s') = 0 /\ v_irqno (v_dev s') = irqno /\ hw s' = hw s /\ vlk s' = -1 /\
  v_addr (v_dev s') = a /\ v_heap s' = h /\
  isrtab (v_intr s') = <[Z.to_nat irqno := mkIsr VIOBLK_ISR a VIOBLK_IRQ_PRIO]> (isrtab (v_intr s)) /\
  holds (v_devs s') (devs ++ [(BLK_NAME, VIOBLK_OPEN, a)]).

(** The steps of [vioblk_install] as functions on states. *)
Definition up_dev f s : vstate HW :=
  mkV (v_regs s) (f (v_dev s)) (v_intr s) (v_devs s) (vlk s) (v_heap s) (hw s).
Definition up_regs f s : vstate HW :=
  mkV (f (v_regs s)) (v_dev s) (v_intr s) (v_devs s) (vlk s) (v_heap s) (hw s).
Definition up_tabs i t s : vstate HW :=
  mkV (v_regs s) (v_dev s) i t (vlk s) (v_heap s) (hw s).

Lemma run_mod_dev f s : mod_dev f s = Ok (tt, up_dev f s).
Proof. done. Qed.
Lemma run_mod_regs f s : mod_regs f s = Ok (tt, up_regs f s).
Proof. done. Qed.
Lemma run_set_vlk t (s : vstate HW) : set_vlk t s = Ok (tt, with_vlk t s).
Proof. done. Qed.
Lemma run_on_vintr {A} (m : M intr_state A) s x i :
  m (v_intr s) = Ok (x, i) -> on_vintr m s = Ok (x, up_tabs i (v_devs s) s).
Proof. intros E. unfold on_vintr. by rewrite E. Qed.
Lemma run_on_devs {A} (m : M devtab A) s x t :
  m (v_devs s) = Ok (x, t) -> on_devs m s = Ok (x, up_tabs (v_intr s) t s).
Proof. intros E. unfold on_devs. by rewrite E. Qed.

Lemma install_run s a irqno devs :
  0 < irqno < NIRQ -> length (isrtab (v_intr s)) = 32%nat -> holds (v_devs s) devs -> (length devs < 16)%nat ->
  blk_capacity (v_regs s) * 512 = Z.of_nat (length (image (hw s))) ->
  Z.of_nat (length (image (hw s))) < 2 ^ 31 ->
  exists s', vioblk_install stale a 512 irqno s = Ok (tt, s') /\ attached s' s irqno devs a (v_heap s) /\
    driver_features (v_regs s') = driver_features (v_regs s).
Proof.
  intros Hi Ht Hd Hr Hc Hs. unfold NIRQ in Hi.
  destruct (register_run (v_devs s) devs BLK_NAME VIOBLK_OPEN a Hd) as (tab' & Ereg & Htab');
    [split; [apply (bool_decide_unpack _); by vm_compute|repeat constructor; lia]|done|done|].
  assert (Eisr : exists i, intr_register_isr irqno VIOBLK_IRQ_PRIO VIOBLK_ISR a (v_intr s) = Ok (tt, i) /\
    isrtab i = <[Z.to_nat irqno := mkIsr VIOBLK_ISR a VIOBLK_IRQ_PRIO]> (isrtab (v_intr s))).
  { eexists. unfold intr_register_isr. rewrite (proj2 (Z.ltb_ge irqno 0)), (proj2 (Z.leb_gt NIRQ irqno)) by (unfold NIRQ; lia).
    by split. }
  destruct Eisr as (i & Eisr & Hisr).
  unfold vioblk_install. change (512 =? 0) with false. cbn iota.
  rewrite bind_run. cbn [mret M_ret obind]. rewrite bind_run. cbn [gets obind].
  rewrite (bind_Ok _ _ _ _ _ (run_mod_dev _ _)), (bind_Ok _ _ _ _ _ (run_mod_regs _ _)),
    (bind_Ok _ _ _ _ _ (run_mod_regs _ _)).
  match goal with |- context [(on_vintr _ ≫= _) ?x] => set (s1 := x) end.
  assert (Hs1 : v_devs s1 = v_devs s /\ v_intr s1 = v_intr s /\ hw s1 = hw s) by done.
  destruct Hs1 as (Hd1 & Hi1 & Hh1). rewrite <- Hi1 in Eisr. rewrite <- Hd1 in Ereg.
  rewrite (bind_Ok _ _ _ _ _ (run_on_vintr _ s1 _ _ Eisr)).
  rewrite (bind_Ok _ _ _ _ _ (run_on_devs _ (up_tabs i (v_devs s1) s1) _ _ Ereg)).
  rewrite (bind_Ok _ _ _ _ _ (run_set_vlk _ _)), run_mod_regs.
  eexists. split; [reflexivity|]. split; [|done]. unfold attached. split_and!; try done.
  - change (u64 (blk_capacity (v_regs s) * VIOBLK_SECTOR_SIZE) = Z.of_nat (length (image (hw s)))).
    unfold VIOBLK_SECTOR_SIZE. rewrite u64_small; lia.
  - apply u16_small. lia.
Qed.

(** The probe of [virtio_attach] reaches [vioblk_attach] with the status reset. *)
Definition probed s : vstate HW :=
  mkV (set_status VIRTIO_STAT_ACKNOWLEDGE (set_status 0 (v_regs s))) (v_dev s) (v_intr s) (v_devs s)
    (vlk s) (v_heap s) (hw s).
Lemma probe_run s irqno enabled0 :
  magic_value (v_regs s) = VIRTIO_MAGIC -> version (v_regs s) = 2 -> device_id (v_regs s) = VIRTIO_ID_BLOCK ->
  virtio_attach stale enabled0 irqno s = vioblk_attach stale enabled0 irqno (probed s).
Proof.
  intros Hm Hv Hid. unfold virtio_attach. rewrite bind_run. cbn [gets obind]. by rewrite Hm, Hv, Hid.
Qed.

Definition with_regs_heap r h s : vstate HW :=
  mkV r (v_dev s) (v_intr s) (v_devs s) (vlk s) h (hw s).

(** [vioblk_attach] up to the allocation. *)
Lemma vioblk_attach_run s irqno enabled0 en r a h :
  device_id (v_regs s) = VIRTIO_ID_BLOCK ->
  virtio_negotiate_features enabled0 wanted_features needed_features
    (set_status (Z.lor (vstatus (v_regs s)) VIRTIO_STAT_DRIVER) (v_regs s)) = Ok (0, en, r) ->
  (if negb (virtio_featset_test en VIRTIO_BLK_F_BLK_SIZE =? 0) then blk_blk_size r else 512) = 512 ->
  kmalloc 728 (v_heap s) = Ok (a, h) ->
  vioblk_attach stale enabled0 irqno s = vioblk_install stale a 512 irqno (with_regs_heap r h s).
Proof.
  intros Hid En Eb Eh. unfold vioblk_attach. rewrite bind_run. cbn [gets obind]. rewrite Hid.
  erewrite bind_Ok by (apply run_assert; reflexivity). rewrite bind_run. cbn [mod_regs modify obind v_regs].
  rewrite bind_run. cbn [gets obind v_regs]. rewrite En. rewrite bind_run. cbn [mod_regs modify obind].
  change (negb (0 =? 0)) with false. cbn iota. rewrite Eb. rewrite bind_run. unfold on_heap. cbn [v_heap].
  change (VIOBLK_SZ + 512) with 728. rewrite Eh. reflexivity.
Qed.

Lemma attach_run s irqno devs enabled0 a h :
  attachable s irqno devs -> kmalloc 728 (v_heap s) = Ok (a, h) -> length enabled0 = 4%nat ->
  exists s', virtio_attach stale enabled0 irqno s = Ok (tt, s') /\ attached s' s irqno devs a h /\
    driver_features (v_regs s') 0 = Z.land (device_features (v_regs s) 0) 1088.
Proof.
  intros [] Eh Hlen.
  set (r1 := set_status (Z.lor (vstatus (v_regs (probed s))) VIRTIO_STAT_DRIVER) (v_regs (probed s))).
  destruct (negotiate_run enabled0 wanted_features needed_features r1 Hlen at_kept0 at_offers0)
    as (en & r2 & En & Hw & Hst & Hf).
  destruct (Hf 0) as [Hf0 _]; [lia|]. destruct Hf0 as [He Hd]; [done|].
  pose proof (attach_blksz r1 r2 en Hw He at_blksz0) as Eb.
  assert (Ecap : blk_capacity r2 = blk_capacity (v_regs s)) by apply Hw.
  destruct (install_run (with_regs_heap r2 h (probed s)) a irqno devs) as (s' & E & Ha & Hdf);
    try done; [by cbn; rewrite Ecap|].
  exists s'. split_and!; [|done|by rewrite Hdf].
  rewrite probe_run by done. by rewrite (vioblk_attach_run (probed s) irqno enabled0 en r2 a h).
Qed.
End Attach.

Section OpenRun.
Context {HW : Type} {B : BlockDev HW} (image : HW -> list Z).

(** [vioblk_open] on a device that has been attached. *)
Lemma open_run (s : vstate HW) e :
  v_opened (v_dev s) = 0 -> 0 < v_irqno (v_dev s) < NIRQ ->
  isrtab (v_intr s) !! Z.to_nat (v_irqno (v_dev s)) = Some e -> isr e <> 0 -> 0 < prio e ->
  exists s', vioblk_open s = Ok (0, s') /\ v_opened (v_dev s') = 1 /\
    v_blksz (v_dev s') = v_blksz (v_dev s) /\ blkbuf (v_dev s') = blkbuf (v_dev s) /\
    desc (vq (v_dev s')) = desc (vq (v_dev s)) /\ v_size (v_dev s') = v_size (v_dev s) /\
    v_pos (v_dev s') = v_pos (v_dev s) /\ v_refcnt (v_dev s') = 1 /\ hw s' = hw s /\ vlk s' = vlk s /\
    v_heap s' = v_heap s /\ isrtab (v_intr s') = isrtab (v_intr s) /\ 0 < priority (plicr (v_intr s')) (v_irqno (v_dev s')).
Proof.
  intros Ho Hi He Hf Hp. unfold NIRQ in Hi. unfold vioblk_open, mod_dev, mod_regs.
  rewrite bind_run. cbn [modify obind]. rewrite bind_run. cbn [gets obind v_dev v_opened set_v_refcnt v_irqno].
  rewrite Ho. cbn [Z.eqb negb]. do 2 (rewrite bind_run; cbn [modify obind]).
  rewrite bind_run. unfold on_vintr, intr_enable_irq. cbn [v_intr].
  erewrite bind_Ok by (apply isr_at_run; [lia|exact He]).
  rewrite (proj2 (Z.eqb_neq _ _) Hf). cbn [modify obind]. rewrite bind_run. cbn [modify obind].
  eexists. split; [reflexivity|]. cbn. split_and!; try done.
  change (0 < priority (plic_set_source_priority (v_irqno (v_dev s)) (prio e) (plicr (v_intr s))) (v_irqno (v_dev s))).
  rewrite priority_set by (unfold src_ok; lia). by rewrite Z.eqb_refl.
Qed.

(** Opening what has just been attached. *)
Lemma attached_open s s1 irqno devs a h :
  attachable image s irqno devs -> attached image s1 s irqno devs a h ->
  exists s2, vioblk_open s1 = Ok (0, s2) /\ vok image s2 /\ vlk s2 = -1 /\ v_pos (v_dev s2) = 0 /\
    image (hw s2) = image (hw s) /\ v_heap s2 = h /\ isrtab (v_intr s2) = isrtab (v_intr s1).
Proof.
  intros Hat (Ho & Hb & Hl & Hd & Hsz & Hp & Hirq & Hhw & Hk & Ha & Hh & Ht & _).
  pose proof (at_irq _ _ _ _ Hat). pose proof (at_tab _ _ _ _ Hat).
  destruct (open_run s1 (mkIsr VIOBLK_ISR a VIOBLK_IRQ_PRIO))
    as (s2 & E2 & Ho2 & Hb2 & Hl2 & Hd2 & Hsz2 & Hp2 & _ & Hhw2 & Hk2 & Hh2 & Ht2 & Hpr);
    [done|by rewrite Hirq|rewrite Hirq, Ht; apply list_lookup_insert_eq; unfold NIRQ in *; lia|done|done|].
  exists s2. split_and!; try done; try congruence.
  pose proof (at_size _ _ _ _ Hat). pose proof (at_small _ _ _ _ Hat).
  constructor; rewrite ?Hhw2, ?Hhw; try congruence; try lia.
  replace (Z.of_nat (length (image (hw s)))) with (blk_capacity (v_regs s) * 512) by done.
  apply Z.mod_mul. lia.
Qed.
End OpenRun.

(** ** Results *)

(** Reading the block device.  On an open device with 512-byte blocks whose
    position lies in the device, [vioblk_read] returns the number of bytes asked
    for, cut to what is left of the device, and delivers exactly those bytes of
    the device from the position on, however they fall on block boundaries; it
    advances the position, does not change the device, takes nothing from the
    heap, and leaves the lock free.  It always returns: the loop ends. *)
Theorem vioblk_read_spec {HW : Type} (B : BlockDev HW) (image : HW -> list Z) (Hw : BlockHw B image)
    (self : Z) (s : vstate HW) (n : nat) (Hs : vok image s) (Hlock : vlk s = -1)
    (Hpos : 0 <= v_pos (v_dev s) <= v_size (v_dev s)) (Hn : Z.of_nat n <= LONG_MAX) :
  let k := Nat.min n (length (image (hw s)) - Z.to_nat (v_pos (v_dev s))) in
  exists s', vioblk_read self (Z.of_nat n) s
      = Ok ((Z.of_nat k, slice (Z.to_nat (v_pos (v_dev s))) k (image (hw s))), s') /\
    vok image s' /\ image (hw s') = image (hw s) /\
    v_pos (v_dev s') = v_pos (v_dev s) + Z.of_nat k /\ vlk s' = -1 /\ v_heap s' = v_heap s.
Proof. by apply read_run. Qed.


(** Attaching and opening a block device makes it ready for transfers: for a
    device that offers the needed features on a line below [NIRQ], with room in
    the device table and the heap, [virtio_attach] enters the device in the
    table and its service routine on its line, and [vioblk_open] then gives an
    open device at position 0, of the size of the device, with the line on.
    The driver never tells the device to use indirect descriptors, although it
    needs them: it asks only for the two features it wants. *)
Theorem attach_open_ready {HW : Type} (B : BlockDev HW) (image : HW -> list Z) (Hw : BlockHw B image)
    (stale : Z -> Z) (s : vstate HW) (irqno : Z) (devs : list (list Z * Z * Z)) (enabled0 : list Z)
    (Hat : attachable image s irqno devs) (Hen : length enabled0 = 4%nat) :
  exists s1 s2 a, virtio_attach stale enabled0 irqno s = Ok (tt, s1) /\
    holds (v_devs s1) (devs ++ [(BLK_NAME, VIOBLK_OPEN, a)]) /\
    isrtab (v_intr s1) !! Z.to_nat irqno = Some (mkIsr VIOBLK_ISR a VIOBLK_IRQ_PRIO) /\
    Z.testbit (driver_features (v_regs s1) 0) VIRTIO_F_INDIRECT_DESC = false /\
    vioblk_open s1 = Ok (0, s2) /\ vok image s2 /\ vlk s2 = -1 /\ v_pos (v_dev s2) = 0 /\
    image (hw s2) = image (hw s).
Proof.
  destruct (at_heap _ _ _ _ Hat) as (a & h & Eh).
  destruct (attach_run image stale s irqno devs enabled0 a h Hat Eh Hen) as (s1 & E1 & Ha & Hf).
  destruct (attached_open image s s1 irqno devs a h Hat Ha) as (s2 & E2 & Hok & Hk2 & Hp2 & Him & _).
  pose proof (at_irq _ _ _ _ Hat). pose proof (at_tab _ _ _ _ Hat).
  destruct Ha as (_ & _ & _ & _ & _ & _ & _ & _ & _ & _ & _ & Ht & Hdev).
  exists s1, s2, a. split_and!; try done.
  - rewrite Ht. apply list_lookup_insert_eq. unfold NIRQ in *. lia.
  - by rewrite Hf, Z.land_spec, andb_false_r.
Qed.

(** A device that keeps its sectors in memory. *)
#[local] Instance ram_dev : BlockDev (list Z) := fun h typ sector wr buf =>
  let off := Z.to_nat (512 * sector) in
  if typ =? VIRTIO_BLK_T_IN then (if wr then slice off (length buf) h else buf, h)
  else if typ =? VIRTIO_BLK_T_OUT then (buf, splice off buf h)
  else (buf, h).
Lemma ram_dev_ok : BlockHw ram_dev (fun h => h).
Proof. constructor; intros h sector buf _ _; by eexists. Qed.

(** A machine with one device of two sectors. *)
Definition demo_regs : virtio_mmio_regs :=
  mkRegs VIRTIO_MAGIC 2 VIRTIO_ID_BLOCK (fun i => if i =? 0 then 2 ^ 28 + 2 ^ 6 else if i =? 1 then 2 ^ 8 + 1 else 0)
    true 0 0 (fun _ => 0) 0 (mkVirtq 0 0 0 0 0 0 0) 0 0 0 2 512.
Definition demo_vdev : vioblk_device :=
  mkVdev 0x80100000 1 2 8 1 512 500 1024 2 (mkVq false 0 0 0 (vq_desc 0x80100000 512) 0 0) (repeat 0 512).
Definition demo_vstate (d : vioblk_device) : vstate (list Z) :=
  mkV demo_regs d (mkIntr (repeat (mkIsr 0 0 0) 32) (<[PLIC_IOBASE + 32 := 1]> ∅) 0 0 0 0)
    (repeat no_device 16) (-1) (mkKmem ∅ 0 0x80100000 0x80101000 0 0) (repeat 7 512 ++ repeat 9 512).

Lemma demo_vok : vok (fun h => h) (demo_vstate demo_vdev).
Proof. constructor; try reflexivity; discriminate. Qed.

Lemma vioblk_read_spec_witness :
  exists s', vioblk_read 1 20 (demo_vstate demo_vdev) = Ok ((20, repeat 7 12 ++ repeat 9 8), s').
Proof.
  destruct (vioblk_read_spec ram_dev (fun h => h) ram_dev_ok 1 (demo_vstate demo_vdev) 20 demo_vok)
    as (s' & E & _); [reflexivity|vm_compute; done|vm_compute; done|].
  exists s'. refine (eq_trans E _). reflexivity.
Defined.


Lemma attach_open_ready_witness :
  exists s1 s2, virtio_attach (fun _ => 0) [0; 0; 0; 0] 8 (demo_vstate demo_vdev) = Ok (tt, s1) /\
    vioblk_open s1 = Ok (0, s2) /\ vok (fun h => h) s2.
Proof.
  destruct (attach_open_ready ram_dev (fun h => h) ram_dev_ok (fun _ => 0) (demo_vstate demo_vdev) 8 []
    [0; 0; 0; 0]) as (s1 & s2 & a & E1 & _ & _ & _ & E2 & Hv & _).
  - constructor; try reflexivity; try (unfold NIRQ; simpl; lia).
    + apply (bool_decide_unpack _). by vm_compute.
    + constructor; [reflexivity|simpl; lia|constructor].
    + eexists _, _. vm_compute. reflexivity.
  - reflexivity.
  - exists s1, s2. exact (conj E1 (conj E2 Hv)).
Defined.
