(* ===== verification/Storage.v ===== *)
(** The file system on the block device: kfs.c over vioblk.c.

    The two components meet in [struct io_ops]: kfs.c reads and seeks through
    the operations of vioblk.c, and the theorem composes the interface the
    driver provides with the one the file system relies on. *)

From S2P Require Import Prelude CString PhysMem Intr Io Device Virtio Kfs KfsSpec Vioblk.


(** The image of KfsSpec.v on a device of 32 sectors. *)
Definition disk_dev : vioblk_device :=
  mkVdev 0x80100000 1 2 8 1 512 0 16384 32 (mkVq false 0 0 0 (vq_desc 0x80100000 512) 0 0) (repeat 0 512).
Definition disk_state : vstate (list Z) :=
  mkV demo_regs disk_dev (mkIntr (repeat (mkIsr 0 0 0) 32) (<[PLIC_IOBASE + 32 := 1]> ∅) 0 0 0 0)
    (repeat no_device 16) (-1) (mkKmem ∅ 0 0x80100000 0x80101000 0 0) demo_img.
Definition disk_fs : fs_state (vstate (list Z)) :=
  mkFs disk_state demo_boot (demo_file :: repeat (mkFile 0 0 0 0 0) 31) ∅ 1001 (-1).

Lemma disk_ready : ready (vimg (fun h => h)) (vinv (fun h => h)) disk_fs 1000 0 demo_file [12288%nat] 5.
Proof.
  pose proof demo_ready as [Ho Hf _ Hl Hp]. constructor; [exact Ho|exact Hf| |exact Hl|exact Hp].
  split; [|split; [reflexivity|discriminate]].
  constructor; try reflexivity; try discriminate; by vm_compute.
Qed.

