(* ===== verification/Elf.v ===== *)
(** elf.c: the program loader.

    The loader runs on an I/O object of any kind and the kernel's memory: page
    tables, free pages and the frames behind user addresses.  Reading into a
    segment stores the bytes at its addresses, translated in the active space,
    so that an address whose page is not mapped stops the kernel. *)

From S2P Require Import Prelude PhysMem PageTable KernelMap UserMem CString Io Kfs KfsSpec.

Definition READ_FAILURE : Z := 1.
Definition DATA_SHORTAGE : Z := 2.
Definition MAGIC : Z := 3.
Definition CLASS : Z := 4.
Definition LITTLE_ENDIAN : Z := 5.
Definition ABI : Z := 6.
Definition MACHINE : Z := 7.
Definition PROG_READ_FAILURE : Z := 8.
Definition PROG_ADDR : Z := 9.
Definition PROG_SEC_READ : Z := 10.
Definition magic_numb_1 : Z := 0x7F.
Definition magic_numb_2 : Z := 0x45.
Definition magic_numb_3 : Z := 0x4C.
Definition magic_numb_4 : Z := 0x46.
Definition ELF64 : Z := 2.
Definition EI_ENDIAN : Z := 1.
Definition System_V : Z := 0.
Definition RISCV : Z := 0xF3.
Definition PT_LOAD : Z := 1.
Definition PT_X : Z := 1.
Definition PT_W : Z := 2.
Definition PT_R : Z := 4.
Definition EHDR_SZ : Z := 64.
Definition PHDR_SZ : Z := 56.

(** ** Headers *)

(** A little-endian field of [n] bytes at [off]. *)
Fixpoint le_bytes (n off : nat) (l : list Z) : Z :=
  match n with
  | O => 0
  | S n' => nth off l 0 + 256 * le_bytes n' (S off) l
  end.

Record Elf64_Ehdr := mkEhdr {
  e_ident : list Z; e_machine : Z; e_entry : Z; e_phoff : Z; e_phentsize : Z; e_phnum : Z
}.
Definition read_ehdr (l : list Z) : Elf64_Ehdr :=
  mkEhdr (take 16 l) (le_bytes 2 18 l) (le_bytes 8 24 l) (le_bytes 8 32 l) (le_bytes 2 54 l) (le_bytes 2 56 l).

Record Elf64_Phdr := mkPhdr {
  p_type : Z; p_flags : Z; p_offset : Z; p_vaddr : Z; p_filesz : Z
}.
#[global] Instance phdr_eq_dec : EqDecision Elf64_Phdr.
Proof. solve_decision. Defined.
Definition read_phdr (l : list Z) : Elf64_Phdr :=
  mkPhdr (le_bytes 4 0 l) (le_bytes 4 4 l) (le_bytes 8 8 l) (le_bytes 8 16 l) (le_bytes 8 32 l).

Definition flag_convert (fl : Z) : Z :=
  let pte_flags := 0 in
  let pte_flags := if negb (Z.land fl PT_X =? 0) then Z.lor pte_flags PTE_X else pte_flags in
  let pte_flags := if negb (Z.land fl PT_W =? 0) then Z.lor pte_flags PTE_W else pte_flags in
  if negb (Z.land fl PT_R =? 0) then Z.lor pte_flags PTE_R else pte_flags.

(** ** The loader *)

Record est (D : Type) := mkEst { e_io : D; e_mem : kmem }.
Arguments mkEst {D}.
Arguments e_io {D}.
Arguments e_mem {D}.

Section Elf.
Context {D : Type} (ops : io_ops D).
(** What the stack holds where the program header is read to. *)
Context (stack : list Z).

Notation E := (M (est D)).
Definition on_io {A} (m : M D A) : E A := fun s =>
  obind (m (e_io s)) (fun '(a, d) => Ok (a, mkEst d (e_mem s))).
Definition on_mem {A} (m : M kmem A) : E A := fun s =>
  obind (m (e_mem s)) (fun '(a, k) => Ok (a, mkEst (e_io s) k)).

(** The checks of the header: the error of the first that fails. *)
Definition header_error (h : Elf64_Ehdr) : option Z :=
  let buffer i := nth i (e_ident h) 0 in
  if negb (buffer 0%nat =? magic_numb_1) || negb (buffer 1%nat =? magic_numb_2) ||
     negb (buffer 2%nat =? magic_numb_3) || negb (buffer 3%nat =? magic_numb_4) then Some MAGIC
  else if negb (buffer 4%nat =? ELF64) then Some CLASS
  else if negb (buffer 5%nat =? EI_ENDIAN) then Some LITTLE_ENDIAN
  else if negb (buffer 7%nat =? System_V) then Some ABI
  else if negb (e_machine h =? RISCV) then Some MACHINE
  else None.

(** One segment; [fl] are the flags it ends up with.  The result is the error,
    if there is one.  The comparison with [p_filesz] is unsigned. *)
Definition load_segment (ph : Elf64_Phdr) (fl : Z) : E (option Z) :=
  if (p_vaddr ph <? USER_START_VMA) || (USER_END_VMA <? u64 (p_vaddr ph + p_filesz ph)) then mret (Some PROG_ADDR)
  else
    on_mem (memory_alloc_and_map_range (p_vaddr ph) (p_filesz ph) (Z.lor PTE_R PTE_W)) ;;
    on_io (ioseek ops (p_offset ph)) ;;
    r ← on_io (ioread_full ops (p_filesz ph));
    on_mem (vstore (p_vaddr ph) r.2) ;;
    on_mem (memory_set_range_flags (p_vaddr ph) (p_filesz ph) fl) ;;
    if u64 r.1 <? p_filesz ph then mret (Some PROG_SEC_READ) else mret None.

(** The loop over the program headers; [seg_flags] gives the final flags. *)
Fixpoint load_loop (idxs : list Z) (h : Elf64_Ehdr) (seg_flags : Z -> Z) : E (option Z) :=
  match idxs with
  | [] => mret None
  | i :: rest =>
      on_io (ioseek ops (u64 (e_phoff h + i * e_phentsize h))) ;;
      r ← on_io (ioread_full ops PHDR_SZ);
      if r.1 <? 0 then mret (Some PROG_READ_FAILURE)
      else
        let ph := read_phdr (splice 0 r.2 stack) in
        e ← (if p_type ph =? PT_LOAD then load_segment ph (seg_flags (p_flags ph)) else mret None);
        match e with
        | Some err => mret (Some err)
        | None => load_loop rest h seg_flags
        end
  end.

(** The part the two entry points of the file share; the result is the return
    value and the entry point stored, if one is. *)
Definition elf_load_with (seg_flags : Z -> Z) : E (Z * option Z) :=
  r ← on_io (ioread_full ops EHDR_SZ);
  if r.1 <? 0 then mret (- READ_FAILURE, None)
  else if r.1 <? EHDR_SZ then mret (- DATA_SHORTAGE, None)
  else
    let h := read_ehdr r.2 in
    match header_error h with
    | Some err => mret (- err, None)
    | None =>
        e ← load_loop (range (Z.to_nat (e_phnum h)) 0 (e_phnum h) 1) h seg_flags;
        match e with
        | Some err => mret (- err, None)
        | None => mret (0, Some (e_entry h))
        end
    end.

Definition elf_load : E (Z * option Z) :=
  elf_load_with (fun fl => Z.lor (flag_convert fl) PTE_U).

Definition elf_load_for_test_use (rwxug_flags : Z) : E (Z * option Z) :=
  elf_load_with (fun fl =>
    if rwxug_flags =? PTE_X then Z.land (Z.lor (flag_convert fl) PTE_U) (Z.lnot PTE_X)
    else Z.lor (flag_convert fl) PTE_U).
End Elf.

(** ** Images *)

(** The header and the program headers of an image. *)
Definition image_ehdr (img : list Z) : Elf64_Ehdr := read_ehdr (slice 0 64 img).
Definition phdr_at (img : list Z) (h : Elf64_Ehdr) (i : Z) : Elf64_Phdr :=
  read_phdr (slice (Z.to_nat (e_phoff h + i * e_phentsize h)) 56 img).
Definition phdrs (img : list Z) : list Elf64_Phdr :=
  phdr_at img (image_ehdr img) <$> range (Z.to_nat (e_phnum (image_ehdr img))) 0 (e_phnum (image_ehdr img)) 1.
Definition segments (img : list Z) : list Elf64_Phdr := filter (fun ph => p_type ph = PT_LOAD) (phdrs img).

(** An executable for this machine. *)
Definition executable (h : Elf64_Ehdr) : Prop :=
  take 4 (e_ident h) = [127; 69; 76; 70] /\ nth 4 (e_ident h) 0 = 2 /\ nth 5 (e_ident h) 0 = 1 /\
  nth 7 (e_ident h) 0 = 0 /\ e_machine h = 243.

(** A segment inside the file and inside the user region. *)
Definition seg_ok (img : list Z) (ph : Elf64_Phdr) : Prop :=
  0 <= p_offset ph /\ 0 <= p_filesz ph /\ p_offset ph + p_filesz ph <= Z.of_nat (length img) /\
  USER_START_VMA <= p_vaddr ph /\ p_vaddr ph + p_filesz ph <= USER_END_VMA.

(** The program headers lie inside the file. *)
Definition phdrs_ok (img : list Z) : Prop :=
  let h := image_ehdr img in
  0 <= e_phoff h /\ 0 <= e_phentsize h /\
  forall i, 0 <= i < e_phnum h -> e_phoff h + i * e_phentsize h + 56 <= Z.of_nat (length img).

(** The pages the loader maps for a segment: as many as its size needs, from the
    page of its address on.  They cover the segment when it does not extend into
    one page more, as it may when the address is not aligned. *)
Definition seg_pages (ph : Elf64_Phdr) : Z := page_count (p_filesz ph).
Definition covered (ph : Elf64_Phdr) : Prop :=
  p_vaddr ph mod PAGE_SIZE + p_filesz ph <= PAGE_SIZE * seg_pages ph \/ p_filesz ph = 0.

(** Two segments whose pages are different. *)
Definition apart (p q : Elf64_Phdr) : Prop :=
  p_vaddr p / PAGE_SIZE + seg_pages p <= p_vaddr q / PAGE_SIZE \/
  p_vaddr q / PAGE_SIZE + seg_pages q <= p_vaddr p / PAGE_SIZE.

(** An address on one of the pages of a segment. *)
Definition on_pages_of (ph : Elf64_Phdr) (x : Z) : Prop :=
  p_vaddr ph / PAGE_SIZE <= x / PAGE_SIZE < p_vaddr ph / PAGE_SIZE + seg_pages ph.

(** The pages all the segments need, with two tables for each. *)
Definition room_for (segs : list Elf64_Phdr) : nat := sum_list ((fun ph => 3 * Z.to_nat (seg_pages ph))%nat <$> segs).

Definition seg_bytes (img : list Z) (ph : Elf64_Phdr) : list Z :=
  slice (Z.to_nat (p_offset ph)) (Z.to_nat (p_filesz ph)) img.

(** The segment is in the space: its bytes are those of the file, on pages with
    the flags [fl]. *)
Definition loaded (m : gmap Z Z) (root : Z) (img : list Z) (fl : Z) (ph : Elf64_Phdr) : Prop :=
  forall i, 0 <= i < p_filesz ph ->
    ubyte m root (p_vaddr ph + i) = img !! Z.to_nat (p_offset ph + i) /\
    exists e, umap_at m root (p_vaddr ph + i) = Some e /\ flags e = map_flags 0 fl.

Lemma header_error_None h : length (e_ident h) = 16%nat -> header_error h = None <-> executable h.
Proof.
  intros Hl. unfold header_error, executable.
  destruct (e_ident h) as [|a [|b [|c [|d rest]]]]; try done.
  cbn [nth take]. unfold magic_numb_1, magic_numb_2, magic_numb_3, magic_numb_4, ELF64, EI_ENDIAN, System_V, RISCV.
  split.
  - intros H. repeat match type of H with context [?x =? ?y] =>
      destruct (Z.eqb_spec x y); cbn [negb orb] in H; [|discriminate H] end. by subst.
  - intros (E & E4 & E5 & E7 & Em). injection E as -> -> -> ->. cbn [nth] in *.
    by rewrite E4, E5, E7, Em.
Qed.

(** ** Pages of a segment *)

Lemma seg_pages_nonneg img ph : seg_ok img ph -> 0 <= seg_pages ph.
Proof. intros (_ & H & _). by apply page_count_nonneg. Qed.

Lemma seg_bounds img ph :
  seg_ok img ph -> p_vaddr ph + PAGE_SIZE * seg_pages ph <= 4294967296.
Proof.
  intros (_ & H0 & _ & Hlo & Hhi). unfold seg_pages, page_count, PAGE_SIZE, USER_START_VMA, USER_END_VMA in *.
  wrap_lia.
Qed.

(** Every byte of a covered segment is on one of its pages. *)
Lemma covered_page img ph i :
  seg_ok img ph -> covered ph -> 0 <= i < p_filesz ph ->
  exists k, 0 <= k < seg_pages ph /\ (p_vaddr ph + i) / PAGE_SIZE = p_vaddr ph / PAGE_SIZE + k.
Proof.
  intros (_ & H0 & _ & Hlo & _) [Hc|Hc] Hi; [|lia].
  exists ((p_vaddr ph + i) / PAGE_SIZE - p_vaddr ph / PAGE_SIZE).
  unfold PAGE_SIZE, USER_START_VMA in *. split; [|lia].
  generalize dependent (seg_pages ph). intros n Hc. wrap_lia.
Qed.

Lemma page_of_offset v k : (v + PAGE_SIZE * k) / PAGE_SIZE = v / PAGE_SIZE + k.
Proof. unfold PAGE_SIZE. wrap_lia. Qed.

Lemma off_pages ph x :
  user_addr x -> USER_START_VMA <= p_vaddr ph -> ~ on_pages_of ph x ->
  forall k, 0 <= k < seg_pages ph -> p_vaddr ph + PAGE_SIZE * k < 4294967296 ->
  (VPN1 x, VPN0 x) <> pg (p_vaddr ph + PAGE_SIZE * k).
Proof.
  intros Hx Hlo Hn k Hk Hhi E. apply Hn. unfold on_pages_of.
  change (pg x = pg (p_vaddr ph + PAGE_SIZE * k)) in E. apply pg_inj in E; [|done|].
  - rewrite page_of_offset in E. lia.
  - unfold PAGE_SIZE in *. lia.
Qed.

(** ** The loader's accesses to memory *)

(** Mapping the pages of a segment, storing its bytes and setting its flags. *)
Lemma seg_memory k l root img ph fl :
  vm_inv k l root -> seg_ok img ph -> covered ph -> Forall (fun b => 0 <= b < 256) img ->
  (3 * Z.to_nat (seg_pages ph) + 1 <= length (fresh k l))%nat ->
  exists k1 k2 k3 l', memory_alloc_and_map_range (p_vaddr ph) (p_filesz ph) (Z.lor PTE_R PTE_W) k
      = Ok (p_vaddr ph, k1) /\
    vstore (p_vaddr ph) (seg_bytes img ph) k1 = Ok (tt, k2) /\
    memory_set_range_flags (p_vaddr ph) (p_filesz ph) fl k2 = Ok (tt, k3) /\
    vm_inv k3 l' root /\ satp k3 = satp k /\
    (length (fresh k l) <= length (fresh k3 l') + 3 * Z.to_nat (seg_pages ph))%nat /\
    loaded (mem k3) root img fl ph /\
    (forall x, user_addr x -> ~ on_pages_of ph x -> as_before (mem k) (mem k3) root x).
Proof.
  intros Hv Hok Hcov Hby Hroom. pose proof (seg_bounds img ph Hok) as Hb.
  pose proof (seg_pages_nonneg img ph Hok) as Hpn.
  pose proof Hok as (Ho & Hf & Hin & Hlo & Hhi).
  destruct (map_range_run k l root (p_vaddr ph) (p_filesz ph) (Z.lor PTE_R PTE_W) Hv Hlo Hf Hb Hroom)
    as (k1 & l1 & E1 & Hv1 & Es1 & Hin1 & Hout1 & Hl1 & K1).
  assert (Elen : Z.of_nat (length (seg_bytes img ph)) = p_filesz ph)
    by (unfold seg_bytes; rewrite slice_length; lia).
  assert (Hrw : forall i, 0 <= i < p_filesz ph -> mapped (mem k1) root PTE_W (p_vaddr ph + i)).
  { intros i Hi. destruct (covered_page img ph i Hok Hcov Hi) as (q & Hq & Eq).
    destruct (Hin1 q Hq) as (e & Ee & Ef). exists e.
    rewrite (same_page_umap _ _ _ (p_vaddr ph + PAGE_SIZE * q)) by (by rewrite page_of_offset).
    rewrite Ef. unfold PTE_W, PTE_R. rewrite !map_flags_bit by lia.
    split_and!; [done|by rewrite ?orb_true_r..]. }
  destruct (vstore_run root l1 (seg_bytes img ph) k1 (p_vaddr ph)) as (k2 & E2 & Hs2 & Hb2); try done.
  { unfold user_range. rewrite Elen. unfold USER_END_VMA in *. lia. }
  { by rewrite Elen. }
  { unfold seg_bytes, slice. by apply Forall_take, Forall_drop. }
  destruct (set_range_run k2 l1 root (p_vaddr ph) (p_filesz ph) fl) as
    (k3 & E3 & Hv3 & Hin3 & Hout3 & Es3 & Ef3 & K3); try done.
  { apply Hs2. }
  { intros q Hq. rewrite (ss_umap_at _ _ _ _ _ Hs2). destruct (Hin1 q Hq) as (e & Ee & _). by exists e. }
  exists k1, k2, k3, l1. split_and!; try done.
  - destruct Hs2. congruence.
  - rewrite Ef3, (ss_fresh _ _ _ _ Hs2). done.
  - intros i Hi. destruct (covered_page img ph i Hok Hcov Hi) as (q & Hq & Eq).
    destruct (Hin1 q Hq) as (e & Ee & _).
    assert (Epg : (p_vaddr ph + i) / PAGE_SIZE = (p_vaddr ph + PAGE_SIZE * q) / PAGE_SIZE)
      by (by rewrite page_of_offset).
    assert (Em2 : umap_at (mem k2) root (p_vaddr ph + i) = Some e).
    { rewrite (ss_umap_at _ _ _ _ _ Hs2). by rewrite (same_page_umap _ _ _ _ Epg). }
    assert (Em3 : umap_at (mem k3) root (p_vaddr ph + i) = Some (with_flags (map_flags 0 fl) e)).
    { rewrite (same_page_umap _ _ _ _ Epg), Hin3 by done.
      by rewrite <- (same_page_umap _ _ _ _ Epg), Em2. }
    split.
    + rewrite (ubyte_kept k2 l1 k3 l1 root _ e _ (ss_inv _ _ _ _ Hs2) K3 Em2 Em3) by done.
      rewrite Hb2 by (unfold user_addr, USER_END_VMA in *; lia). rewrite Elen.
      destruct (decide _) as [_|]; [|lia]. unfold seg_bytes.
      rewrite slice_lookup by lia. f_equal. lia.
    + eexists. split; [exact Em3|]. cbn. apply u8_small, u8_range.
  - intros x Hx Hoff.
    assert (Hne : forall q, 0 <= q < seg_pages ph -> (VPN1 x, VPN0 x) <> pg (p_vaddr ph + PAGE_SIZE * q))
      by (intros; apply off_pages; try done; unfold PAGE_SIZE in *; lia).
    assert (U1 : umap_at (mem k1) root x = umap_at (mem k) root x) by (apply Hout1; auto with kern).
    assert (U2 : umap_at (mem k2) root x = umap_at (mem k) root x) by (by rewrite (ss_umap_at _ _ _ _ _ Hs2)).
    assert (U3 : umap_at (mem k3) root x = umap_at (mem k2) root x) by (apply Hout3; auto with kern).
    split; [congruence|]. destruct (umap_at (mem k) root x) as [e|] eqn:E.
    + rewrite (ubyte_kept k2 l1 k3 l1 root x e e (ss_inv _ _ _ _ Hs2) K3) by congruence.
      rewrite Hb2 by done. rewrite Elen. destruct (decide _) as [Hin'|].
      { exfalso. apply Hoff. destruct (covered_page img ph (x - p_vaddr ph) Hok Hcov) as (q & Hq & Eq); [lia|].
        replace (p_vaddr ph + (x - p_vaddr ph)) with x in Eq by lia. unfold on_pages_of. lia. }
      by apply (ubyte_kept k l k1 l1 root x e e).
    + unfold ubyte. by rewrite E, U3, U2.
Qed.

Lemma loaded_frame m m' root img fl ph :
  loaded m root img fl ph -> (forall i, 0 <= i < p_filesz ph -> as_before m m' root (p_vaddr ph + i)) ->
  loaded m' root img fl ph.
Proof.
  intros Hl Hb i Hi. destruct (Hb i Hi) as [Eu Eb]. rewrite Eu, Eb. by apply Hl.
Qed.

Lemma room_for_cons ph segs :
  room_for (ph :: segs) = (3 * Z.to_nat (seg_pages ph) + room_for segs)%nat.
Proof. done. Qed.

(** An address of a covered segment is not on the pages of another. *)
Lemma apart_off img p q i :
  seg_ok img p -> covered p -> apart p q -> 0 <= i < p_filesz p -> ~ on_pages_of q (p_vaddr p + i).
Proof.
  intros Hok Hc Hap Hi Hon. destruct (covered_page img p i Hok Hc Hi) as (k & Hk & E).
  unfold on_pages_of, apart in *. lia.
Qed.

(** ** Running the loader *)

Section ElfProofs.
Context {D : Type} (ops : io_ops D) (img : D -> list Z) (pos : D -> nat) (I : D -> Prop)
  `{!Seekable ops img pos I}.
Context (stack : list Z) (Hstack : length stack = 56%nat) (seg_flags : Z -> Z).
Context (m : list Z) (Hm : Z.of_nat (length m) < 2 ^ 31) (Hbytes : Forall (fun b => 0 <= b < 256) m).
Implicit Types s : est D.

Lemma run_on_io {A} (f : M D A) s a d :
  f (e_io s) = Ok (a, d) -> on_io f s = Ok (a, mkEst d (e_mem s)).
Proof. intros E. unfold on_io. by rewrite E. Qed.
Lemma run_on_mem {A} (f : M kmem A) s a k :
  f (e_mem s) = Ok (a, k) -> on_mem f s = Ok (a, mkEst (e_io s) k).
Proof. intros E. unfold on_mem. by rewrite E. Qed.

(** The reading part of a segment: the bytes of the file. *)
Lemma seg_read d ph :
  I d -> img d = m -> seg_ok m ph ->
  exists r d1 d2, ioseek ops (p_offset ph) d = Ok (r, d1) /\
    ioread_full ops (p_filesz ph) d1 = Ok ((p_filesz ph, seg_bytes m ph), d2) /\ I d2 /\ img d2 = m.
Proof using Hm Seekable0.
  clear Hstack. intros Hi Em (Ho & Hf & Hin & _).
  destruct (seek_to ops img pos I d (p_offset ph) Hi) as (r & d1 & Es & Hd1 & Em1 & Ep1); [rewrite Em; lia|lia|].
  destruct (full_read ops img pos I d1 (Z.to_nat (p_filesz ph)) Hd1) as (d2 & Er & Hd2 & Em2);
    [intros _; rewrite Ep1, Em1, Em; lia|]. rewrite Z2Nat.id in Er by lia.
  exists r, d1, d2. split_and!; [done| |done|congruence]. by rewrite Er, Ep1, Em1, Em.
Qed.

Lemma seg_run s l root ph fl :
  I (e_io s) -> img (e_io s) = m -> seg_ok m ph -> covered ph -> vm_inv (e_mem s) l root ->
  (3 * Z.to_nat (seg_pages ph) + 1 <= length (fresh (e_mem s) l))%nat ->
  exists d k l', load_segment ops ph fl s = Ok (None, mkEst d k) /\ I d /\ img d = m /\
    vm_inv k l' root /\ satp k = satp (e_mem s) /\
    (length (fresh (e_mem s) l) <= length (fresh k l') + 3 * Z.to_nat (seg_pages ph))%nat /\
    loaded (mem k) root m fl ph /\
    (forall x, user_addr x -> ~ on_pages_of ph x -> as_before (mem (e_mem s)) (mem k) root x).
Proof using Hm Hbytes Hstack Seekable0.
  intros Hi Em Hok Hcov Hv Hroom.
  destruct (seg_memory (e_mem s) l root m ph fl Hv Hok Hcov Hbytes Hroom)
    as (k1 & k2 & k3 & l' & E1 & E2 & E3 & Hrest).
  destruct (seg_read (e_io s) ph Hi Em Hok) as (r & d1 & d2 & Es & Er & Hd2 & Em2).
  exists d2, k3, l'. split; [|done]. destruct Hok as (_ & Hfz & _ & Hlo & Hhi).
  unfold load_segment, USER_START_VMA, USER_END_VMA in *. rewrite u64_small by lia.
  destruct (Z.ltb_spec (p_vaddr ph) 3221225472), (Z.ltb_spec 3489660928 (p_vaddr ph + p_filesz ph)); try lia.
  cbn [orb]. rewrite (bind_Ok _ _ _ _ _ (run_on_mem _ s _ _ E1)).
  rewrite (bind_Ok _ _ _ _ _ (run_on_io _ (mkEst (e_io s) k1) _ _ Es)).
  rewrite (bind_Ok _ _ _ _ _ (run_on_io _ (mkEst d1 k1) _ _ Er)). cbn [fst snd].
  rewrite (bind_Ok _ _ _ _ _ (run_on_mem _ (mkEst d2 k1) _ _ E2)).
  rewrite (bind_Ok _ _ _ _ _ (run_on_mem _ (mkEst d2 k2) _ _ E3)).
  rewrite u64_small by lia. by rewrite Z.ltb_irrefl.
Qed.

Lemma load_loop_run h root idxs : forall s l,
  I (e_io s) -> img (e_io s) = m -> 0 <= e_phoff h -> 0 <= e_phentsize h ->
  Forall (fun i => 0 <= i /\ e_phoff h + i * e_phentsize h + 56 <= Z.of_nat (length m)) idxs ->
  let segs := filter (fun ph => p_type ph = PT_LOAD) (phdr_at m h <$> idxs) in
  Forall (seg_ok m) segs -> Forall covered segs -> ForallOrdPairs apart segs ->
  vm_inv (e_mem s) l root -> (room_for segs + 1 <= length (fresh (e_mem s) l))%nat ->
  exists d k l', load_loop ops stack idxs h seg_flags s = Ok (None, mkEst d k) /\
    I d /\ img d = m /\ vm_inv k l' root /\ satp k = satp (e_mem s) /\
    Forall (fun ph => loaded (mem k) root m (seg_flags (p_flags ph)) ph) segs /\
    (forall x, user_addr x -> Forall (fun ph => ~ on_pages_of ph x) segs ->
       as_before (mem (e_mem s)) (mem k) root x).
Proof using Hm Hbytes Hstack Seekable0.
  intros s l Hi Em Hpo Hpe Hidx. revert s l Hi Em. cbn zeta.
  induction Hidx as [|i idxs [Hi0 Hin] _ IH]; intros s l Hi Em Hok Hcov Hap Hv Hroom.
  { exists (e_io s), (e_mem s), l. destruct s. by split_and!. }
  cbn [load_loop]. rewrite u64_small by nia.
  destruct (seek_to ops img pos I (e_io s) (e_phoff h + i * e_phentsize h) Hi) as (r & d1 & Es & Hd1 & Em1 & Ep1);
    [rewrite Em; nia|nia|].
  rewrite (bind_Ok _ _ _ _ _ (run_on_io _ s _ _ Es)).
  destruct (full_read ops img pos I d1 56 Hd1) as (d2 & Er & Hd2 & Em2); [intros _; rewrite Ep1, Em1, Em; lia|].
  rewrite (bind_Ok _ _ _ _ _ (run_on_io _ (mkEst d1 (e_mem s)) _ _ Er)). cbn [fst snd].
  change (Z.of_nat 56 <? 0) with false. cbn iota. rewrite Em1, Em, Ep1.
  rewrite splice_all by (rewrite slice_length; lia).
  change (read_phdr (slice _ 56 m)) with (phdr_at m h i).
  assert (Em2' : img d2 = m) by congruence.
  rewrite !fmap_cons in *. rewrite filter_cons in Hok, Hcov, Hap, Hroom |- *.
  destruct (Z.eqb_spec (p_type (phdr_at m h i)) PT_LOAD) as [El|El]; destruct (decide _) as [El'|El']; try done.
  - set (ph := phdr_at m h i) in *. apply Forall_cons in Hok as [Hs Hok]. apply Forall_cons in Hcov as [Hc Hcov].
    inversion_clear Hap as [|? ? Hq Hap']. rewrite room_for_cons in Hroom.
    destruct (seg_run (mkEst d2 (e_mem s)) l root ph (seg_flags (p_flags ph)))
      as (d3 & k3 & l3 & E3 & Hd3 & Em3 & Hv3 & Es3 & Hl3 & Hld & Hout); try done; [cbn [e_mem]; lia|].
    rewrite (bind_Ok _ _ _ _ _ E3).
    destruct (IH (mkEst d3 k3) l3) as (d & k & l' & E & Hd & Emd & Hvk & Esk & Hlds & Houts); try done;
      [cbn [e_mem] in *; lia|]. cbn [e_mem] in *.
    exists d, k, l'. split_and!; try done; [congruence| |].
    + constructor; [|done]. eapply loaded_frame; [exact Hld|]. intros j Hj. apply Houts.
      * destruct Hs as (_ & _ & _ & ? & ?). unfold user_addr, USER_END_VMA in *. lia.
      * eapply Forall_impl; [exact Hq|]. intros q Hapq. by apply (apart_off m).
    + intros x Hx [Hx1 Hxs]%Forall_cons. eapply as_before_trans; [by apply Hout|by apply Houts].
  - rewrite bind_run. cbn [mret M_ret obind].
    apply (IH (mkEst d2 (e_mem s)) l); done.
Qed.
End ElfProofs.

(** What it takes for the loader to succeed on an image. *)
Record loadable (img : list Z) : Prop := {
  ld_len : 64 <= Z.of_nat (length img) < 2 ^ 31;
  ld_bytes : Forall (fun b => 0 <= b < 256) img;
  ld_exec : executable (image_ehdr img);
  ld_phdrs : phdrs_ok img;
  ld_segs : Forall (seg_ok img) (segments img);
  ld_cov : Forall covered (segments img);
  ld_apart : ForallOrdPairs apart (segments img)
}.

Section ElfRun.
Context {D : Type} (ops : io_ops D) (img : D -> list Z) (pos : D -> nat) (I : D -> Prop)
  `{!Seekable ops img pos I}.
Context (stack : list Z) (Hstack : length stack = 56%nat) (seg_flags : Z -> Z) (s : est D).
Context (Hi : I (e_io s)) (Hpos : pos (e_io s) = 0%nat).
Let m := img (e_io s).

Lemma ehdr_read : 64 <= Z.of_nat (length m) ->
  exists d, I d /\ img d = m /\ length (e_ident (image_ehdr m)) = 16%nat /\
    elf_load_with ops stack seg_flags s
    = match header_error (image_ehdr m) with
      | Some err => Ok ((- err, None), mkEst d (e_mem s))
      | None => (e ← load_loop ops stack (range (Z.to_nat (e_phnum (image_ehdr m))) 0 (e_phnum (image_ehdr m)) 1)
                       (image_ehdr m) seg_flags;
                 match e with
                 | Some err => mret (- err, None)
                 | None => mret (0, Some (e_entry (image_ehdr m)))
                 end) (mkEst d (e_mem s))
      end.
Proof using Hi Hpos Seekable0.
  clear Hstack. intros Hlen.
  destruct (full_read ops img pos I (e_io s) 64 Hi) as (d & E & Hd & Em); [intros _; rewrite Hpos; fold m; lia|].
  rewrite Hpos in E. fold m in E, Em. exists d. split_and!; [done|done| |].
  { cbn. rewrite length_take. unfold slice. rewrite length_take, length_drop. lia. }
  unfold elf_load_with. change EHDR_SZ with (Z.of_nat 64).
  rewrite (bind_Ok _ _ _ _ _ (run_on_io _ s _ _ E)). cbn [fst snd].
  change (Z.of_nat 64 <? 0) with false. rewrite Z.ltb_irrefl. cbn iota. fold (image_ehdr m).
  by destruct (header_error (image_ehdr m)).
Qed.

Lemma elf_load_run l root :
  loadable m -> vm_inv (e_mem s) l root -> (room_for (segments m) + 1 <= length (fresh (e_mem s) l))%nat ->
  exists d k l', elf_load_with ops stack seg_flags s
      = Ok ((0, Some (e_entry (image_ehdr m))), mkEst d k) /\ I d /\ img d = m /\
    vm_inv k l' root /\ satp k = satp (e_mem s) /\
    Forall (fun ph => loaded (mem k) root m (seg_flags (p_flags ph)) ph) (segments m) /\
    (forall x, user_addr x -> Forall (fun ph => ~ on_pages_of ph x) (segments m) ->
       as_before (mem (e_mem s)) (mem k) root x).
Proof using Hi Hpos Hstack Seekable0.
  intros [Hlen Hby Hx (Hp1 & Hp2 & Hp3) Hok Hcov Hap] Hv Hroom.
  destruct (ehdr_read ltac:(lia)) as (d1 & Hd1 & Em1 & Hid & ->).
  rewrite (proj2 (header_error_None _ Hid) Hx).
  destruct (load_loop_run ops img pos I stack Hstack seg_flags m ltac:(lia) Hby (image_ehdr m) root
    (range (Z.to_nat (e_phnum (image_ehdr m))) 0 (e_phnum (image_ehdr m)) 1)
    (mkEst d1 (e_mem s)) l) as (d & k & l' & E & Hrest); try done.
  { apply Forall_forall. intros i Hin. rewrite range_elem in Hin by lia. destruct Hin as (j & Hj & -> & Hlt).
    split; [lia|]. apply Hp3. lia. }
  exists d, k, l'. split; [by rewrite (bind_Ok _ _ _ _ _ E)|done].
Qed.

Lemma elf_load_refuses :
  64 <= Z.of_nat (length m) -> ~ executable (image_ehdr m) ->
  exists err d, elf_load_with ops stack seg_flags s = Ok ((err, None), mkEst d (e_mem s)) /\ err < 0.
Proof using Hi Hpos Seekable0.
  intros Hlen Hx. destruct (ehdr_read Hlen) as (d & _ & _ & Hid & ->).
  destruct (header_error (image_ehdr m)) as [err|] eqn:He; [|by destruct Hx; apply header_error_None].
  eexists _, _. split; [reflexivity|].
  unfold header_error in He. repeat match goal with H : (if ?b then _ else _) = _ |- _ => destruct b end;
    (discriminate He || (injection He as <-; reflexivity)).
Qed.
End ElfRun.

(** ** Results *)

(** C18. Loading a program.  On any seekable object at position 0 that holds an
    image, in a well-formed address space with enough pages: when the header is
    that of a 64-bit little-endian RISC-V executable, the program headers and
    the loadable segments lie inside the file, the segments lie in the user
    region on different pages and none extends past the pages mapped for it,
    [elf_load] returns 0 and the entry point of the header; every byte of a
    segment's addresses is the byte of the file, on a page with the access the
    program header gives and user permission; every address off the segments'
    pages has the mapping and the byte it had; and the space stays well formed.
    When the header is not that of such an executable it returns a negative
    value, stores no entry point and leaves memory as it was. *)
Theorem elf_load_spec {D : Type} (ops : io_ops D) (img : D -> list Z) (pos : D -> nat)
    (I : D -> Prop) `{!Seekable ops img pos I} (stack : list Z) (s : est D) (l : list Z) (root : Z)
    (Hstack : length stack = 56%nat) (Hi : I (e_io s)) (Hpos : pos (e_io s) = 0%nat) :
  let m := img (e_io s) in
  let segs := segments m in
  (loadable m -> vm_inv (e_mem s) l root -> (room_for segs + 1 <= length (fresh (e_mem s) l))%nat ->
   exists s' l', elf_load ops stack s = Ok ((0, Some (e_entry (image_ehdr m))), s') /\
     vm_inv (e_mem s') l' root /\
     (forall ph i, ph ∈ segs -> 0 <= i < p_filesz ph ->
        ubyte (mem (e_mem s')) root (p_vaddr ph + i) = m !! Z.to_nat (p_offset ph + i) /\
        exists e, umap_at (mem (e_mem s')) root (p_vaddr ph + i) = Some e /\
          flags e = map_flags 0 (Z.lor (flag_convert (p_flags ph)) PTE_U)) /\
     (forall x, user_addr x -> Forall (fun ph => ~ on_pages_of ph x) segs ->
        as_before (mem (e_mem s)) (mem (e_mem s')) root x)) /\
  (64 <= Z.of_nat (length m) -> ~ executable (image_ehdr m) ->
   exists err s', elf_load ops stack s = Ok ((err, None), s') /\ err < 0 /\ e_mem s' = e_mem s).
Proof.
  cbn zeta. split.
  - intros Hld Hv Hroom.
    destruct (elf_load_run ops img pos I stack Hstack (fun fl => Z.lor (flag_convert fl) PTE_U) s Hi Hpos l root
      Hld Hv Hroom) as (d & k & l' & E & _ & _ & Hvk & _ & Hlds & Hout).
    exists (mkEst d k), l'. split_and!; try done. intros ph i Hin Hr.
    rewrite Forall_forall in Hlds. by apply (Hlds ph Hin i).
  - intros Hlen Hx. destruct (elf_load_refuses ops img pos I stack (fun fl => Z.lor (flag_convert fl) PTE_U)
      s Hi Hpos Hlen Hx) as (err & d & E & He). by exists err, (mkEst d (e_mem s)).
Qed.

(** A segment that extends past the pages mapped for it, as one that is not
    page-aligned may: when the page after them is not mapped, loading it stops
    the kernel with a page fault. *)
Theorem segment_past_pages {D : Type} (ops : io_ops D) (img : D -> list Z) (pos : D -> nat)
    (I : D -> Prop) `{!Seekable ops img pos I} (s : est D) (l : list Z) (root fl : Z) (ph : Elf64_Phdr)
    (Hi : I (e_io s)) (Hlen : Z.of_nat (length (img (e_io s))) < 2 ^ 31) (Hok : seg_ok (img (e_io s)) ph)
    (Hcov : ~ covered ph) (Hv : vm_inv (e_mem s) l root)
    (Hroom : (3 * Z.to_nat (seg_pages ph) + 1 <= length (fresh (e_mem s) l))%nat)
    (Hnext : umap_at (mem (e_mem s)) root (p_vaddr ph + PAGE_SIZE * seg_pages ph) = None) :
  load_segment ops ph fl s = Panic "Store page fault".
Proof.
  set (m := img (e_io s)) in *. pose proof (seg_bounds m ph Hok) as Hb.
  pose proof Hok as (Ho & Hf & Hin & Hlo & Hhi).
  destruct (map_range_run (e_mem s) l root (p_vaddr ph) (p_filesz ph) (Z.lor PTE_R PTE_W) Hv Hlo Hf Hb Hroom)
    as (k1 & l1 & E1 & Hv1 & Es1 & Hin1 & Hout1 & _).
  destruct (seg_read ops img pos I m Hlen (e_io s) ph Hi eq_refl Hok) as (r & d1 & d2 & Es & Er & _).
  set (n := seg_pages ph) in *. assert (Hn : 0 <= n) by (by apply (seg_pages_nonneg m)).
  assert (Hc : p_filesz ph <> 0 /\ PAGE_SIZE * n < p_vaddr ph mod PAGE_SIZE + p_filesz ph)
    by (unfold covered in Hcov; fold n in Hcov; lia).
  assert (Hn1 : 0 < n) by (unfold n, seg_pages, page_count, PAGE_SIZE in *; wrap_lia).
  set (k := PAGE_SIZE * n - p_vaddr ph mod PAGE_SIZE).
  assert (Hk : 0 <= k < p_filesz ph) by (pose proof (page_off (p_vaddr ph)); unfold k, PAGE_SIZE in *; lia).
  assert (Epk : (p_vaddr ph + k) / PAGE_SIZE = (p_vaddr ph + PAGE_SIZE * n) / PAGE_SIZE).
  { rewrite page_of_offset. unfold k, PAGE_SIZE. clear. wrap_lia. }
  assert (Elen : Z.of_nat (length (seg_bytes m ph)) = p_filesz ph)
    by (unfold seg_bytes; rewrite slice_length; lia).
  assert (Ev : vstore (p_vaddr ph) (seg_bytes m ph) k1 = Panic "Store page fault").
  { apply (vstore_fault root l1 _ (Z.to_nat k)); try done.
    - unfold user_range. rewrite Elen. unfold USER_END_VMA in *. lia.
    - lia.
    - intros i Hi'. set (q := (p_vaddr ph + i) / PAGE_SIZE - p_vaddr ph / PAGE_SIZE).
      assert (Hq : 0 <= q < n) by (unfold q, k, PAGE_SIZE in *; wrap_lia).
      destruct (Hin1 q Hq) as (e & Ee & Ef). exists e.
      rewrite (same_page_umap _ _ _ (p_vaddr ph + PAGE_SIZE * q)) by (rewrite page_of_offset; unfold q; lia).
      rewrite Ef. unfold PTE_W, PTE_R. rewrite !map_flags_bit by lia.
      split_and!; [done|by rewrite ?orb_true_r..].
    - rewrite Z2Nat.id by lia. rewrite (same_page_umap _ _ _ _ Epk).
      unfold umap_at. rewrite Hout1; [done|auto with kern..|].
      intros q Hq. change (page_count (p_filesz ph)) with n in Hq. apply (off_pages ph); try done.
      + pose proof (page_off (p_vaddr ph)). unfold user_addr. unfold k in Hk.
        unfold PAGE_SIZE, USER_START_VMA, USER_END_VMA in *. lia.
      + unfold on_pages_of. rewrite page_of_offset. lia.
      + unfold PAGE_SIZE in *. lia. }
  unfold load_segment, USER_START_VMA, USER_END_VMA in *. rewrite u64_small by lia.
  destruct (Z.ltb_spec (p_vaddr ph) 3221225472), (Z.ltb_spec 3489660928 (p_vaddr ph + p_filesz ph)); try lia.
  cbn [orb]. rewrite (bind_Ok _ _ _ _ _ (run_on_mem _ s _ _ E1)).
  rewrite (bind_Ok _ _ _ _ _ (run_on_io _ (mkEst (e_io s) k1) _ _ Es)).
  rewrite (bind_Ok _ _ _ _ _ (run_on_io _ (mkEst d1 k1) _ _ Er)). cbn [fst snd].
  rewrite bind_run. unfold on_mem. cbn [e_mem e_io]. by rewrite Ev.
Qed.

(** An image with one segment of two bytes at the start of the user region: the
    header, one program header, and the bytes 104 and 105. *)
Definition demo_elf : list Z :=
  [127; 69; 76; 70; 2; 1; 1; 0; 0; 0; 0; 0; 0; 0; 0; 0] ++ [2; 0; 243; 0; 1; 0; 0; 0] ++
  [0; 0; 0; 192; 0; 0; 0; 0] ++ [64; 0; 0; 0; 0; 0; 0; 0] ++ repeat 0 14 ++ [56; 0; 1; 0] ++ repeat 0 6 ++
  [1; 0; 0; 0; 5; 0; 0; 0] ++ [120; 0; 0; 0; 0; 0; 0; 0] ++ [0; 0; 0; 192; 0; 0; 0; 0] ++ repeat 0 8 ++
  [2; 0; 0; 0; 0; 0; 0; 0] ++ repeat 0 16 ++ [104; 105].
Definition demo_seg : Elf64_Phdr := mkPhdr 1 5 120 3221225472 2.
Definition demo_est : est io_lit := mkEst (mkLit demo_elf 122 0) demo_vm.

Lemma demo_segments : segments demo_elf = [demo_seg].
Proof. vm_compute. reflexivity. Qed.

Lemma demo_loadable : loadable demo_elf.
Proof.
  constructor; rewrite ?demo_segments.
  - split; vm_compute; [discriminate|reflexivity].
  - apply (bool_decide_unpack _). vm_compute. done.
  - split_and!; vm_compute; reflexivity.
  - split_and!; [vm_compute; discriminate|vm_compute; discriminate|].
    intros i Hi'. assert (i = 0) as -> by (vm_compute in Hi'; destruct Hi' as [H1 H2]; destruct i; [done|by destruct p|by destruct H1]).
    vm_compute. discriminate.
  - constructor; [|constructor]. split_and!; vm_compute; discriminate.
  - constructor; [|constructor]. left. vm_compute. discriminate.
  - constructor; constructor.
Qed.

(** The second byte of the segment is 105, on a page the user may read and execute. *)
Lemma elf_load_spec_witness :
  exists s', elf_load iolit_ops (repeat 0 56) demo_est = Ok ((0, Some 3221225472), s') /\
    ubyte (mem (e_mem s')) demo_root 3221225473 = Some 105.
Proof.
  destruct (elf_load_spec iolit_ops lit_buf (fun l => Z.to_nat (lit_pos l)) (fun l => lit_ok l /\ 0 <= lit_pos l)
    (repeat 0 56) demo_est demo_pages demo_root) as [H _].
  - reflexivity.
  - split; [split; reflexivity|reflexivity].
  - reflexivity.
  - change (lit_buf (e_io demo_est)) with demo_elf in H. rewrite demo_segments in H.
    destruct (H demo_loadable demo_vm_inv) as (s' & l' & E & _ & Hb & _).
    + vm_compute. lia.
    + exists s'. split; [exact E|]. destruct (Hb demo_seg 1) as [Eb _]; [by left|cbn; lia|]. exact Eb.
Defined.

(** Two bytes at the last address of a page. *)
Definition demo_bad_seg : Elf64_Phdr := mkPhdr 1 5 120 3221229567 2.

Lemma segment_past_pages_witness : load_segment iolit_ops demo_bad_seg PTE_U demo_est = Panic "Store page fault".
Proof.
  apply (segment_past_pages iolit_ops lit_buf (fun l => Z.to_nat (lit_pos l)) (fun l => lit_ok l /\ 0 <= lit_pos l)
    demo_est demo_pages demo_root PTE_U demo_bad_seg).
  - split; [split; reflexivity|reflexivity].
  - vm_compute. reflexivity.
  - split_and!; vm_compute; discriminate.
  - intros [H|H]; [vm_compute in H; by apply H|discriminate H].
  - exact demo_vm_inv.
  - vm_compute. lia.
  - vm_compute. reflexivity.
Defined.
