(* ===== verification/Process.v ===== *)
(** process.c and syscall.c: processes, their descriptor tables and the system
    calls.

    The state has the timer and scheduler (with the kernel's memory under them),
    the process structures by address, the process table, the reference counts
    of I/O objects, and the state of the drivers and the file system, [world];
    user memory is in the kernel's memory, behind the page tables of the active
    space.  An I/O object is identified by its address; [ops_of] is
    the operations it points to, and [dev_open] and [fs_open_at] are
    [device_open] and [fs_open] on the name at a user address. *)

From S2P Require Import Prelude PhysMem PageTable KernelMap UserMem Clone Thread ThreadSpec Timer CString Io Device Kfs Elf.

Definition NPROC : Z := 16.
Definition MAIN_PID : Z := 0.
Definition PROCESS_IOMAX : Z := 16.
Definition USER_STACK_VMA : Z := USER_END_VMA.
(** [sizeof(struct process)] and [sizeof(struct alarm)]. *)
Definition PROCESS_SZ : Z := 144.
Definition ALARM_SZ : Z := 40.

Definition SYSCALL_EXIT : Z := 0.
Definition SYSCALL_MSGOUT : Z := 1.
Definition SYSCALL_DEVOPEN : Z := 10.
Definition SYSCALL_FSOPEN : Z := 11.
Definition SYSCALL_CLOSE : Z := 20.
Definition SYSCALL_READ : Z := 21.
Definition SYSCALL_WRITE : Z := 22.
Definition SYSCALL_IOCTL : Z := 23.
Definition SYSCALL_EXEC : Z := 30.
Definition SYSCALL_FORK : Z := 31.
Definition SYSCALL_USLEEP : Z := 40.
Definition SYSCALL_WAIT : Z := 41.

Record process := mkProc { pid : Z; ptid : Z; mtag : Z; iotab : list Z }.

Record pst (R : Type) := mkPst {
  ptm : timerst; procs : Z -> process; proctab : list Z; refs : Z -> Z;
  world : R;
  messages : list (Z * Z * Z); (* the lines [sysmsgout] printed: thread name, thread, message *)
  procmgr_initialized : Z
}.
Arguments mkPst {R}.
Arguments ptm {R}.
Arguments procs {R}.
Arguments proctab {R}.
Arguments refs {R}.
Arguments world {R}.
Arguments messages {R}.
Arguments procmgr_initialized {R}.

(** How a system call ends: it returns a value, the calling thread is suspended
    and goes on later (or has ended), or the processor is in user mode at a new
    program's entry point. *)
Inductive sysret := Ret (r : Z) | Suspended | Jump (u : umode).

Section Process.
Context {R : Type}.
Context (ops_of : Z -> io_ops R) (dev_open : Z -> Z -> M R (Z * option Z))
  (fs_open_at : Z -> M R (Z * option Z)).
(** The static structures, what the stack holds, and a bound on the alarms. *)
Context (main_thread main_proc : Z) (stack : list Z) (nalarms : nat).

Notation PM := (M (pst R)).

Definition on_tm {A} (m : M timerst A) : PM A := fun s =>
  obind (m (ptm s)) (fun '(a, t) =>
    Ok (a, mkPst t (procs s) (proctab s) (refs s) (world s) (messages s) (procmgr_initialized s))).
Definition on_thr {A} (m : T A) : PM A := on_tm (on_tthr m).
Definition on_pg {A} (m : M kmem A) : PM A := on_thr (on_pages m).
Definition on_world {A} (m : M R A) : PM A := fun s =>
  obind (m (world s)) (fun '(a, w) =>
    Ok (a, mkPst (ptm s) (procs s) (proctab s) (refs s) w (messages s) (procmgr_initialized s))).
(** The loader, on the drivers and the kernel's memory. *)
Definition on_elf {A} (m : M (est R) A) : PM A := fun s =>
  obind (m (mkEst (world s) (pages (tthr (ptm s))))) (fun '(a, e) =>
    Ok (a, mkPst (with_tthr (with_pages (e_mem e) (tthr (ptm s))) (ptm s)) (procs s) (proctab s) (refs s)
             (e_io e) (messages s) (procmgr_initialized s))).

Definition upd_proc (p : Z) (f : process -> process) : PM unit := modify (fun s =>
  mkPst (ptm s) (upd (procs s) p (f (procs s p))) (proctab s) (refs s) (world s) (messages s)
    (procmgr_initialized s)).
Definition set_proctab (t : list Z) : PM unit := modify (fun s =>
  mkPst (ptm s) (procs s) t (refs s) (world s) (messages s) (procmgr_initialized s)).
Definition set_refs (r : Z -> Z) : PM unit := modify (fun s =>
  mkPst (ptm s) (procs s) (proctab s) r (world s) (messages s) (procmgr_initialized s)).
Definition set_iotab (t : list Z) (p : process) : process := mkProc (pid p) (ptid p) (mtag p) t.
Definition set_ptid (t : Z) (p : process) : process := mkProc (pid p) t (mtag p) (iotab p).

(** Writing the member [mtag]; the scheduler reads it at each switch. *)
Definition set_mtag (p m : Z) : PM unit :=
  upd_proc p (fun pr => mkProc (pid pr) (ptid pr) m (iotab pr)) ;;
  on_thr (modify (with_mtag p m)).

Definition current_process : PM Z :=
  tid ← on_thr running_thread;
  on_thr (thread_process tid).

(** [iotab[fd]]; the table has no entry outside [0, PROCESS_IOMAX). *)
Definition rd_iotab (p fd : Z) : PM Z :=
  s ← get;
  if fd <? 0 then undef "iotab index"
  else match iotab (procs s p) !! Z.to_nat fd with
       | Some io => mret io
       | None => undef "iotab index"
       end.
Definition wr_iotab (p fd io : Z) : PM unit :=
  rd_iotab p fd ;; upd_proc p (fun pr => set_iotab (<[Z.to_nat fd := io]> (iotab pr)) pr).

(** ** process.c *)

Definition procmgr_init : PM unit :=
  tid ← on_thr running_thread;
  k ← on_pg (gets main_mtag);
  upd_proc main_proc (fun p => mkProc MAIN_PID tid (mtag p) (repeat 0 16)) ;;
  set_mtag main_proc k ;;
  on_thr (thread_set_process tid main_proc) ;;
  modify (fun s => mkPst (ptm s) (procs s) (proctab s) (refs s) (world s) (messages s) 1).

(** [load] is the loader: [elf_load], or [elf_load_for_test_use] with its flags. *)
Definition process_exec_with (load : io_ops R -> M (est R) (Z * option Z)) (exeio : Z) : PM sysret :=
  if exeio =? 0 then mret (Ret (- EINVAL))
  else
    on_pg memory_unmap_and_free_user ;;
    r ← on_elf (load (ops_of exeio));
    if r.1 <? 0 then mret (Ret r.1)
    else
      u ← on_thr (thread_jump_to_user USER_STACK_VMA (default 0 r.2));
      mret (Jump u).

Definition process_exec (exeio : Z) : PM sysret :=
  process_exec_with (fun ops => elf_load ops stack) exeio.
Definition process_exec_for_test_use (exeio rwxug_flags : Z) : PM sysret :=
  process_exec_with (fun ops => elf_load_for_test_use ops stack rwxug_flags) exeio.

(** The loop of [process_exit] over the descriptors. *)
Fixpoint close_all (p : Z) (idxs : list Z) : PM unit :=
  match idxs with
  | [] => mret tt
  | i :: rest =>
      io ← rd_iotab p i;
      (if negb (io =? 0) then on_world (ioclose (ops_of io)) ;; wr_iotab p i 0 else mret tt) ;;
      close_all p rest
  end.

Definition process_exit : PM unit :=
  p ← current_process;
  if p =? 0 then panic "No current process exist"
  else
    on_pg memory_space_reclaim ;;
    close_all p (range 16 0 NPROC 1) ;;
    s ← get;
    set_proctab (<[Z.to_nat (pid (procs s p)) := 0]> (proctab s)) ;;
    on_thr (thread_exit main_thread).

(** ** syscall.c *)

Definition sysexit : PM sysret := process_exit ;; mret Suspended.

Definition sysmsgout (msg : Z) : PM sysret :=
  result ← on_pg (memory_validate_vstr msg PTE_U);
  if negb (result =? 0) then mret (Ret result)
  else
    tid ← on_thr running_thread;
    nm ← on_thr (thread_name tid);
    modify (fun s => mkPst (ptm s) (procs s) (proctab s) (refs s) (world s)
                       (messages s ++ [(nm, tid, msg)]) (procmgr_initialized s)) ;;
    mret (Ret 0).

(** The loop that looks for a descriptor when [fd] is negative: it stops at the
    first entry that is not NULL. *)
Fixpoint next_fd (p : Z) (idxs : list Z) : PM Z :=
  match idxs with
  | [] => mret MAX_OPEN_FILE_CT
  | i :: rest =>
      io ← rd_iotab p i;
      if negb (io =? 0) then mret i else next_fd p rest
  end.

(** The descriptor the calls that take a negative one work on, or an error. *)
Definition pick_fd (p fd : Z) : PM (Z + Z) :=
  if p =? 0 then mret (inl (- ENOENT))
  else if MAX_OPEN_FILE_CT <=? fd then mret (inl (- ENOENT))
  else if fd <? 0 then
    fd' ← next_fd p (range 32 0 MAX_OPEN_FILE_CT 1);
    if fd' =? MAX_OPEN_FILE_CT then mret (inl (- ENOENT)) else mret (inr fd')
  else mret (inr fd).

(** The common part of [sysdevopen] and [sysfsopen]: [open] is the call that
    opens, [err] what a failure returns. *)
Definition open_into (fd0 err : Z) (open : M R (Z * option Z)) : PM sysret :=
  p ← current_process;
  f ← pick_fd p fd0;
  match f with
  | inl e => mret (Ret e)
  | inr fd =>
      old ← rd_iotab p fd;
      r ← on_world open;
      wr_iotab p fd (default old r.2) ;;
      if r.1 <? 0 then mret (Ret err) else mret (Ret fd)
  end.

Definition sysdevopen (fd name instno : Z) : PM sysret := open_into fd (- ENODEV) (dev_open name instno).
Definition sysfsopen (fd name : Z) : PM sysret := open_into fd (- ENOENT) (fs_open_at name).

(** The object behind a descriptor that must be given, or an error. *)
Definition fd_object (p fd : Z) : PM (Z + Z) :=
  if p =? 0 then mret (inl (- ENOENT))
  else if (fd <? 0) || (MAX_OPEN_FILE_CT <=? fd) then mret (inl (- ENOENT))
  else
    io ← rd_iotab p fd;
    if io =? 0 then mret (inl (- EIO)) else mret (inr io).

Definition sysclose (fd : Z) : PM sysret :=
  p ← current_process;
  o ← fd_object p fd;
  match o with
  | inl e => mret (Ret e)
  | inr io =>
      (match op_close (ops_of io) with Some f => on_world f | None => undef "close is NULL" end) ;;
      wr_iotab p fd 0 ;;
      mret (Ret 0)
  end.

(** The bytes of user memory a call reads.  When some of them cannot be read it
    depends on the driver whether it gets to them, and so whether the kernel
    panics. *)
Definition user_bytes (a n : Z) : PM (list Z) :=
  r ← on_pg (peek (Z.to_nat n) a);
  match r with Some bs => mret bs | None => undef "user memory not readable" end.
Fixpoint bytes_of (n : nat) (v : Z) : list Z :=
  match n with O => [] | S n' => v mod 256 :: bytes_of n' (v / 256) end.

Definition sysread (fd buf bufsz : Z) : PM sysret :=
  v ← on_pg (memory_validate_vptr_len buf bufsz (Z.lor PTE_U PTE_W));
  if negb (v =? 0) then mret (Ret v)
  else
    p ← current_process;
    o ← fd_object p fd;
    match o with
    | inl e => mret (Ret e)
    | inr io =>
        r ← on_world (ioread (ops_of io) bufsz);
        on_pg (vstore buf r.2) ;;
        mret (Ret r.1)
    end.

Definition syswrite (fd buf len : Z) : PM sysret :=
  p ← current_process;
  o ← fd_object p fd;
  match o with
  | inl e => mret (Ret e)
  | inr io =>
      bs ← user_bytes buf len;
      n ← on_world (iowrite (ops_of io) bs);
      mret (Ret n)
  end.

Definition sysioctl (fd0 cmd arg : Z) : PM sysret :=
  p ← current_process;
  f ← pick_fd p fd0;
  match f with
  | inl e => mret (Ret e)
  | inr fd =>
      io ← rd_iotab p fd;
      if io =? 0 then mret (Ret (- EIO))
      else
        bs ← user_bytes arg 8;
        let v := le_bytes 8 0 bs in
        r ← on_world (ioctl (ops_of io) cmd v);
        (if r.2 =? v then mret tt else on_pg (vstore arg (bytes_of 8 r.2))) ;;
        mret (Ret r.1)
  end.

Definition sysexec (fd : Z) : PM sysret :=
  p ← current_process;
  o ← fd_object p fd;
  match o with
  | inl e => mret (Ret e)
  | inr io => process_exec io
  end.

(** The first free entry of the process table. *)
Fixpoint free_proc (tab : list Z) (i : Z) : option Z :=
  match tab with
  | [] => None
  | a :: rest => if a =? 0 then Some i else free_proc rest (i + 1)
  end.

(** The loop that shares the descriptors: each object gets one more reference. *)
Fixpoint share (ios : list Z) (r : Z -> Z) : Z -> Z :=
  match ios with
  | [] => r
  | io :: rest => share rest (if negb (io =? 0) then upd r io (u32 (r io + 1)) else r)
  end.

(** [clone] is [memory_space_clone(0)] and [tfr_tp] the thread pointer in the
    parent's trap frame. *)
Definition sysfork_with (clone : M kmem Z) (tfr_tp : Z) : PM sysret :=
  parent_proc ← current_process;
  child_proc ← on_pg (kmalloc PROCESS_SZ);
  s ← get;
  match free_proc (proctab s) 0 with
  | None => panic "Too Many Process"
  | Some i =>
      upd_proc child_proc (fun p => mkProc i (ptid p) (mtag p) (iotab p)) ;;
      set_proctab (<[Z.to_nat i := child_proc]> (proctab s)) ;;
      m ← on_pg clone;
      set_mtag child_proc m ;;
      s ← get;
      let ios := iotab (procs s parent_proc) in
      upd_proc child_proc (set_iotab ios) ;;
      set_refs (share ios (refs s)) ;;
      s ← get;
      tid ← on_thr (thread_fork_to_user child_proc (ptid (procs s child_proc)) tfr_tp);
      upd_proc child_proc (set_ptid tid) ;;
      mret (Ret tid)
  end.

Definition sysfork (main_pt1 tfr_tp : Z) : PM sysret :=
  sysfork_with (memory_space_clone main_pt1 0) tfr_tp.

Definition syswait (tid : Z) : PM sysret :=
  r ← (if tid =? 0 then on_thr thread_join_any else on_thr (thread_join tid));
  match r with Some t => mret (Ret t) | None => mret Suspended end.

(** [nm] is the address of the string "alarm_us". *)
Definition sysusleep (nm us : Z) : PM sysret :=
  al ← on_pg (kmalloc ALARM_SZ);
  on_tm (alarm_init 0 al nm) ;;
  r ← on_tm (alarm_sleep_us nalarms al us);
  match r with Some _ => mret Suspended | None => mret (Ret 0) end.

(** The registers of the trap frame that the handler uses. *)
Record trap_frame := mkTfr { tfr_sepc : Z; tfr_tp : Z; a0 : Z; a1 : Z; a2 : Z; a7 : Z }.

Definition syscall (main_pt1 nm : Z) (tfr : trap_frame) : PM sysret :=
  let scnum := s32 (a7 tfr) in
  if scnum =? SYSCALL_EXIT then sysexit
  else if scnum =? SYSCALL_MSGOUT then sysmsgout (a0 tfr)
  else if scnum =? SYSCALL_DEVOPEN then sysdevopen (s32 (a0 tfr)) (a1 tfr) (s32 (a2 tfr))
  else if scnum =? SYSCALL_FSOPEN then sysfsopen (s32 (a0 tfr)) (a1 tfr)
  else if scnum =? SYSCALL_CLOSE then sysclose (s32 (a0 tfr))
  else if scnum =? SYSCALL_READ then sysread (s32 (a0 tfr)) (a1 tfr) (a2 tfr)
  else if scnum =? SYSCALL_WRITE then syswrite (s32 (a0 tfr)) (a1 tfr) (a2 tfr)
  else if scnum =? SYSCALL_IOCTL then sysioctl (s32 (a0 tfr)) (s32 (a1 tfr)) (a2 tfr)
  else if scnum =? SYSCALL_EXEC then sysexec (s32 (a0 tfr))
  else if scnum =? SYSCALL_FORK then sysfork main_pt1 (tfr_tp tfr)
  else if scnum =? SYSCALL_WAIT then syswait (s32 (a0 tfr))
  else if scnum =? SYSCALL_USLEEP then sysusleep nm (a0 tfr)
  else mret (Ret (-1)).

(** The program counter is advanced before the call; a call that returns leaves
    its value in [a0]. *)
Definition syscall_handler (main_pt1 nm : Z) (tfr : trap_frame) : PM (trap_frame * sysret) :=
  r ← syscall main_pt1 nm tfr;
  mret (mkTfr (u64 (tfr_sepc tfr + 4)) (tfr_tp tfr) (match r with Ret v => u64 v | _ => a0 tfr end)
          (a1 tfr) (a2 tfr) (a7 tfr), r).

End Process.

(** ** Runs *)

Section Runs.
Context {R : Type}.
Implicit Types s : pst R.


Lemma run_rd_iotab p fd io s :
  0 <= fd -> iotab (procs s p) !! Z.to_nat fd = Some io -> rd_iotab p fd s = Ok (io, s).
Proof.
  intros H0 H. unfold rd_iotab. rewrite bind_run. cbn [get obind].
  destruct (Z.ltb_spec fd 0); [lia|]. by rewrite H.
Qed.
Lemma rd_iotab_outside p fd s :
  length (iotab (procs s p)) = 16%nat -> 16 <= fd -> exists w, rd_iotab p fd s = Undef w.
Proof.
  intros Hl H. unfold rd_iotab. rewrite bind_run. cbn [get obind].
  destruct (Z.ltb_spec fd 0); [lia|]. rewrite lookup_ge_None_2 by lia. by eexists.
Qed.

(** The state with another descriptor table for a process. *)
Definition with_iotab (p : Z) (t : list Z) (s : pst R) : pst R :=
  mkPst (ptm s) (upd (procs s) p (set_iotab t (procs s p))) (proctab s) (refs s) (world s)
    (messages s) (procmgr_initialized s).
Definition with_world (w : R) (s : pst R) : pst R :=
  mkPst (ptm s) (procs s) (proctab s) (refs s) w (messages s) (procmgr_initialized s).

Lemma run_wr_iotab p fd io old s :
  0 <= fd -> iotab (procs s p) !! Z.to_nat fd = Some old ->
  wr_iotab p fd io s = Ok (tt, with_iotab p (<[Z.to_nat fd := io]> (iotab (procs s p))) s).
Proof. intros H0 H. unfold wr_iotab. by rewrite (bind_Ok _ _ _ _ _ (run_rd_iotab p fd old s H0 H)). Qed.

Lemma run_on_world {A} (m : M R A) s a w : m (world s) = Ok (a, w) -> on_world m s = Ok (a, with_world w s).
Proof. intros E. unfold on_world. by rewrite E. Qed.

Lemma fd_object_run p fd io s :
  p <> 0 -> 0 <= fd < PROCESS_IOMAX -> iotab (procs s p) !! Z.to_nat fd = Some io ->
  fd_object p fd s = Ok (if io =? 0 then inl (- EIO) else inr io, s).
Proof.
  unfold PROCESS_IOMAX. intros Hp Hf H. unfold fd_object. rewrite (proj2 (Z.eqb_neq p 0) Hp).
  rewrite (proj2 (Z.ltb_ge fd 0)), (proj2 (Z.leb_gt MAX_OPEN_FILE_CT fd)) by (unfold MAX_OPEN_FILE_CT; lia).
  cbn [orb]. rewrite (bind_Ok _ _ _ _ _ (run_rd_iotab p fd io s ltac:(lia) H)). by destruct (io =? 0).
Qed.
Lemma fd_object_bad p fd s :
  p <> 0 -> fd < 0 \/ MAX_OPEN_FILE_CT <= fd -> fd_object p fd s = Ok (inl (- ENOENT), s).
Proof.
  intros Hp H. unfold fd_object. rewrite (proj2 (Z.eqb_neq p 0) Hp).
  destruct (Z.ltb_spec fd 0); [done|]. destruct (Z.leb_spec MAX_OPEN_FILE_CT fd); [done|lia].
Qed.
Lemma fd_object_outside p fd s :
  p <> 0 -> length (iotab (procs s p)) = 16%nat -> PROCESS_IOMAX <= fd < MAX_OPEN_FILE_CT ->
  exists w, fd_object p fd s = Undef w.
Proof.
  unfold PROCESS_IOMAX, MAX_OPEN_FILE_CT. intros Hp Hl H. unfold fd_object, MAX_OPEN_FILE_CT.
  rewrite (proj2 (Z.eqb_neq p 0) Hp), (proj2 (Z.ltb_ge fd 0)), (proj2 (Z.leb_gt 32 fd)) by lia. cbn [orb].
  destruct (rd_iotab_outside p fd s Hl) as [w E]; [lia|]. exists w. by rewrite bind_run, E.
Qed.
Lemma pick_fd_given p fd s :
  p <> 0 -> 0 <= fd < MAX_OPEN_FILE_CT -> pick_fd p fd s = Ok (inr fd, s).
Proof.
  intros Hp H. unfold pick_fd. rewrite (proj2 (Z.eqb_neq p 0) Hp).
  by rewrite (proj2 (Z.leb_gt _ _)), (proj2 (Z.ltb_ge _ _)) by lia.
Qed.

(** The search for a descriptor: the first entry in use, or past the table. *)
Lemma next_fd_run p (l : list Z) (i0 : Z) s n :
  0 <= i0 -> drop (Z.to_nat i0) (iotab (procs s p)) = l -> i0 + Z.of_nat n = MAX_OPEN_FILE_CT ->
  (length l < n)%nat ->
  match list_find (fun io => io <> 0) l with
  | Some (j, _) => next_fd p (range n i0 MAX_OPEN_FILE_CT 1) s = Ok (i0 + Z.of_nat j, s)
  | None => exists w, next_fd p (range n i0 MAX_OPEN_FILE_CT 1) s = Undef w
  end.
Proof.
  revert i0 n. induction l as [|io l IH]; intros i0 n H0 Hd Hn Hlen; cbn [list_find].
  - destruct n as [|n]; [simpl in Hlen; lia|]. cbn [range]. rewrite (proj2 (Z.ltb_lt _ _)) by lia. cbn [next_fd].
    assert (Hlk : iotab (procs s p) !! Z.to_nat i0 = None).
    { pose proof (f_equal length Hd) as E. rewrite length_drop in E. simpl in E. apply lookup_ge_None_2. lia. }
    exists "iotab index"%string. rewrite bind_run. unfold rd_iotab. rewrite bind_run. cbn [get obind].
    rewrite (proj2 (Z.ltb_ge _ _)) by lia. by rewrite Hlk.
  - destruct n as [|n]; [simpl in Hlen; lia|]. cbn [range]. rewrite (proj2 (Z.ltb_lt _ _)) by lia. cbn [next_fd].
    assert (Hlk : iotab (procs s p) !! Z.to_nat i0 = Some io).
    { rewrite <- (Nat.add_0_r (Z.to_nat i0)), <- lookup_drop, Hd. done. }
    rewrite (bind_Ok _ _ _ _ _ (run_rd_iotab p i0 io s H0 Hlk)).
    destruct (decide (io <> 0)) as [Hne|Heq].
    + rewrite (proj2 (Z.eqb_neq io 0) Hne). cbn. by rewrite Z.add_0_r.
    + destruct (Z.eqb_spec io 0) as [_|]; [|tauto]. cbn [negb].
      assert (Hd' : drop (Z.to_nat (i0 + 1)) (iotab (procs s p)) = l).
      { replace (Z.to_nat (i0 + 1)) with (Z.to_nat i0 + 1)%nat by lia.
        rewrite <- drop_drop, Hd. done. }
      specialize (IH (i0 + 1) n ltac:(lia) Hd' ltac:(lia) ltac:(simpl in Hlen; lia)).
      destruct (list_find (fun io => io <> 0) l) as [[j x]|]; cbn [fmap option_fmap option_map prod_map fst]; [|done].
      rewrite IH. do 2 f_equal. cbn. lia.
Qed.
End Runs.

Section Results.
Context {R : Type}.
Implicit Types s : pst R.

(** [current_process] looks only at the threads. *)
Lemma current_process_frame s s' p :
  current_process s = Ok (p, s) -> ptm s' = ptm s -> current_process s' = Ok (p, s').
Proof.
  intros E Ep. unfold current_process in *. apply bind_Ok_inv in E as (tid & s1 & E1 & E2).
  unfold on_thr, on_tm in *. rewrite bind_run. rewrite Ep.
  destruct (on_tthr running_thread (ptm s)) as [[t1 m1]| | | |] eqn:R1; try done. cbn [obind] in E1 |- *.
  injection E1 as <- <-. cbn [ptm] in E2 |- *.
  destruct (on_tthr (thread_process t1) m1) as [[t2 m2]| | | |] eqn:R2; try done. cbn [obind] in E2 |- *.
  injection E2 as <- E2. assert (Em : m2 = ptm s) by (rewrite <- E2; done). rewrite Em, <- Ep. by destruct s'.
Qed.

Context (ops_of : Z -> io_ops R) (dev_open : Z -> Z -> M R (Z * option Z))
  (fs_open_at : Z -> M R (Z * option Z)).

Lemma open_into_run fd err open s p old r o w :
  current_process s = Ok (p, s) -> p <> 0 -> 0 <= fd < PROCESS_IOMAX ->
  iotab (procs s p) !! Z.to_nat fd = Some old -> open (world s) = Ok ((r, o), w) ->
  open_into fd err open s
  = Ok (Ret (if r <? 0 then err else fd),
        with_iotab p (<[Z.to_nat fd := default old o]> (iotab (procs s p))) (with_world w s)).
Proof.
  unfold PROCESS_IOMAX. intros Hc Hp Hfd Ho Hop. unfold open_into. rewrite (bind_Ok _ _ _ _ _ Hc).
  rewrite (bind_Ok _ _ _ _ _ (pick_fd_given p fd s Hp ltac:(unfold MAX_OPEN_FILE_CT; lia))).
  rewrite (bind_Ok _ _ _ _ _ (run_rd_iotab p fd old s ltac:(lia) Ho)).
  rewrite (bind_Ok _ _ _ _ _ (run_on_world open s _ _ Hop)).
  erewrite bind_Ok by (eapply run_wr_iotab; [lia|exact Ho]). cbn [fst snd]. by destruct (r <? 0).
Qed.

Lemma run_user_bytes a n bs s :
  vload (Z.to_nat n) a (pages (tthr (ptm s))) = Ok (bs, pages (tthr (ptm s))) -> user_bytes a n s = Ok (bs, s).
Proof.
  intros E. unfold user_bytes, on_pg, on_thr, on_tm, on_tthr, on_pages, peek. rewrite bind_run, E.
  by destruct s as [[[]]].
Qed.

Lemma syswrite_run fd buf len bs s p io n w :
  current_process s = Ok (p, s) -> p <> 0 -> 0 <= fd < PROCESS_IOMAX ->
  iotab (procs s p) !! Z.to_nat fd = Some io -> io <> 0 ->
  vload (Z.to_nat len) buf (pages (tthr (ptm s))) = Ok (bs, pages (tthr (ptm s))) ->
  iowrite (ops_of io) bs (world s) = Ok (n, w) ->
  syswrite ops_of fd buf len s = Ok (Ret n, with_world w s).
Proof.
  intros Hc Hp Hfd Ho Hio Hb Hw. unfold syswrite. rewrite (bind_Ok _ _ _ _ _ Hc).
  rewrite (bind_Ok _ _ _ _ _ (fd_object_run p fd io s Hp Hfd Ho)), (proj2 (Z.eqb_neq io 0) Hio).
  rewrite (bind_Ok _ _ _ _ _ (run_user_bytes buf len bs s Hb)).
  by rewrite (bind_Ok _ _ _ _ _ (run_on_world _ s _ _ Hw)).
Qed.

Lemma sysclose_run fd s p io f w :
  current_process s = Ok (p, s) -> p <> 0 -> 0 <= fd < PROCESS_IOMAX ->
  iotab (procs s p) !! Z.to_nat fd = Some io -> io <> 0 ->
  op_close (ops_of io) = Some f -> f (world s) = Ok (tt, w) ->
  sysclose ops_of fd s
  = Ok (Ret 0, with_iotab p (<[Z.to_nat fd := 0]> (iotab (procs s p))) (with_world w s)).
Proof.
  intros Hc Hp Hfd Ho Hio Hf Hw. unfold sysclose. rewrite (bind_Ok _ _ _ _ _ Hc).
  rewrite (bind_Ok _ _ _ _ _ (fd_object_run p fd io s Hp Hfd Ho)), (proj2 (Z.eqb_neq io 0) Hio), Hf.
  rewrite (bind_Ok _ _ _ _ _ (run_on_world _ s _ _ Hw)).
  unfold PROCESS_IOMAX in Hfd. erewrite bind_Ok by (eapply run_wr_iotab; [lia|exact Ho]). done.
Qed.

Lemma sysclose_empty fd s p :
  current_process s = Ok (p, s) -> p <> 0 -> 0 <= fd < PROCESS_IOMAX ->
  iotab (procs s p) !! Z.to_nat fd = Some 0 -> sysclose ops_of fd s = Ok (Ret (- EIO), s).
Proof.
  intros Hc Hp Hfd Ho. unfold sysclose. rewrite (bind_Ok _ _ _ _ _ Hc).
  by rewrite (bind_Ok _ _ _ _ _ (fd_object_run p fd 0 s Hp Hfd Ho)).
Qed.

Lemma iotab_with p t s : iotab (procs (with_iotab p t s) p) = t.
Proof. cbn. by rewrite upd_eq. Qed.
End Results.

(** ** Results *)


(** Descriptors beyond the table.  The system calls accept descriptors below 32
    but the table of a process has 16 entries: with a descriptor from 16 to 31,
    [sysclose], [syswrite], [sysioctl], [sysexec], [sysdevopen] and [sysfsopen]
    all access memory beyond the process structure. *)
Theorem descriptor_out_of_bounds {R : Type} (ops_of : Z -> io_ops R)
    (dev_open : Z -> Z -> M R (Z * option Z)) (fs_open_at : Z -> M R (Z * option Z)) (stack : list Z)
    (s : pst R) (p fd x y z : Z)
    (Hcur : current_process s = Ok (p, s)) (Hp : p <> 0) (Htab : length (iotab (procs s p)) = 16%nat)
    (Hfd : PROCESS_IOMAX <= fd < MAX_OPEN_FILE_CT) :
  (exists why, sysclose ops_of fd s = Undef why) /\ (exists why, syswrite ops_of fd x y s = Undef why) /\
  (exists why, sysioctl ops_of fd x y s = Undef why) /\ (exists why, sysexec ops_of stack fd s = Undef why) /\
  (exists why, sysdevopen dev_open fd x y s = Undef why) /\ (exists why, sysfsopen fs_open_at fd x s = Undef why).
Proof.
  destruct (fd_object_outside p fd s Hp Htab Hfd) as [w E].
  destruct (rd_iotab_outside p fd s Htab) as [w' E']; [unfold PROCESS_IOMAX in *; lia|].
  assert (Ep : pick_fd p fd s = Ok (inr fd, s)) by (apply pick_fd_given; [done|unfold PROCESS_IOMAX in *; lia]).
  split_and!.
  1: exists w; unfold sysclose. 2: exists w; unfold syswrite. 3: exists w'; unfold sysioctl.
  4: exists w; unfold sysexec. 5: exists w'; unfold sysdevopen, open_into. 6: exists w'; unfold sysfsopen, open_into.
  all: rewrite (bind_Ok _ _ _ _ _ Hcur).
  1,2,4: by rewrite bind_run, E.
  all: by rewrite (bind_Ok _ _ _ _ _ Ep), bind_run, E'.
Qed.

(** Asking for the next available descriptor.  A negative descriptor makes
    [sysfsopen] look for an entry of the table, but it takes the first one that
    is in use: that object is replaced without being closed, and the descriptor
    of an open file now names another.  A process that has nothing open does not
    get a descriptor: the search runs off the table. *)
Theorem next_descriptor_in_use {R : Type} (fs_open_at : Z -> M R (Z * option Z)) (s : pst R)
    (p fd name io : Z) (w : R)
    (Hcur : current_process s = Ok (p, s)) (Hp : p <> 0) (Htab : length (iotab (procs s p)) = 16%nat)
    (Hfd : fd < 0) (Hopen : fs_open_at name (world s) = Ok ((0, Some io), w)) :
  match list_find (fun x => x <> 0) (iotab (procs s p)) with
  | Some (j, old) =>
      old <> 0 /\ sysfsopen fs_open_at fd name s
        = Ok (Ret (Z.of_nat j), with_iotab p (<[j := io]> (iotab (procs s p))) (with_world w s))
  | None => exists why, sysfsopen fs_open_at fd name s = Undef why
  end.
Proof.
  pose proof (next_fd_run p (iotab (procs s p)) 0 s 32 ltac:(lia) eq_refl eq_refl ltac:(lia)) as Hn.
  assert (Epick : forall k : Z + Z -> M (pst R) sysret, (pick_fd p fd ≫= k) s
    = ((fd' ← next_fd p (range 32 0 MAX_OPEN_FILE_CT 1);
        if fd' =? MAX_OPEN_FILE_CT then mret (inl (- ENOENT)) else mret (inr fd')) ≫= k) s).
  { intros k. unfold pick_fd. rewrite (proj2 (Z.eqb_neq p 0) Hp).
    by rewrite (proj2 (Z.leb_gt _ _)), (proj2 (Z.ltb_lt _ _)) by (unfold MAX_OPEN_FILE_CT; lia). }
  unfold sysfsopen. destruct (list_find _ _) as [[j old]|] eqn:Ef.
  - apply list_find_Some in Ef as (Hj & Hne & _). split; [done|].
    pose proof (lookup_lt_Some _ _ _ Hj) as Hlt.
    assert (Efd : 0 <= Z.of_nat j < PROCESS_IOMAX) by (unfold PROCESS_IOMAX; lia).
    assert (Ej : iotab (procs s p) !! Z.to_nat (Z.of_nat j) = Some old) by (by rewrite Nat2Z.id).
    pose proof (open_into_run (Z.of_nat j) (- ENOENT) (fs_open_at name) s p old 0 (Some io) w Hcur Hp Efd Ej Hopen) as E.
    rewrite Nat2Z.id in E. refine (eq_trans _ E). unfold open_into.
    rewrite !(bind_Ok _ _ _ _ _ Hcur), Epick.
    rewrite (bind_Ok _ _ _ _ _ (pick_fd_given p (Z.of_nat j) s Hp ltac:(unfold MAX_OPEN_FILE_CT; unfold PROCESS_IOMAX in *; lia))).
    rewrite Z.add_0_l in Hn. rewrite bind_run, (bind_Ok _ _ _ _ _ Hn).
    rewrite (proj2 (Z.eqb_neq (Z.of_nat j) MAX_OPEN_FILE_CT)) by (unfold MAX_OPEN_FILE_CT; lia). done.
  - destruct Hn as [why E]. exists why. unfold open_into. rewrite (bind_Ok _ _ _ _ _ Hcur), Epick.
    by rewrite bind_run, bind_run, E.
Qed.

(** How often an object occurs in a table. *)
Definition uses (ios : list Z) (io : Z) : Z := Z.of_nat (length (filter (fun x => x = io) ios)).

Lemma share_count ios r io :
  io <> 0 -> 0 <= r io < 2 ^ 32 -> share ios r io = u32 (r io + uses ios io).
Proof.
  intros Hio. revert r. induction ios as [|x ios IH]; intros r Hr; cbn [share].
  - unfold uses. cbn. rewrite Z.add_0_r, u32_small; [done|lia].
  - unfold uses. rewrite filter_cons. destruct (Z.eqb_spec x 0) as [->|Hx]; cbn [negb].
    + destruct (decide (0 = io)); [congruence|]. by apply IH.
    + destruct (decide (x = io)) as [->|Hne].
      * rewrite IH by (rewrite upd_eq; apply u32_range). rewrite upd_eq. unfold uses. cbn [length].
        unfold u32. rewrite Zplus_mod_idemp_l. f_equal. lia.
      * rewrite IH by (by rewrite upd_ne by congruence). by rewrite upd_ne by congruence.
Qed.

(** The state after one of the updates of [sysfork]. *)
Definition with_ptm {R} (t : timerst) (s : pst R) : pst R :=
  mkPst t (procs s) (proctab s) (refs s) (world s) (messages s) (procmgr_initialized s).
Definition with_procs {R} (f : Z -> process) (s : pst R) : pst R :=
  mkPst (ptm s) f (proctab s) (refs s) (world s) (messages s) (procmgr_initialized s).
Definition with_tabs {R} (t : list Z) (r : Z -> Z) (s : pst R) : pst R :=
  mkPst (ptm s) (procs s) t r (world s) (messages s) (procmgr_initialized s).

Lemma run_on_pg {R A} (m : M kmem A) (s : pst R) a k :
  m (pages (tthr (ptm s))) = Ok (a, k) ->
  on_pg m s = Ok (a, with_ptm (with_tthr (with_pages k (tthr (ptm s))) (ptm s)) s).
Proof. intros E. unfold on_pg, on_thr, on_tm, on_tthr, on_pages. by rewrite E. Qed.
Lemma run_on_thr {R A} (m : T A) (s : pst R) a t :
  m (tthr (ptm s)) = Ok (a, t) -> on_thr m s = Ok (a, with_ptm (with_tthr t (ptm s)) s).
Proof. intros E. unfold on_thr, on_tm, on_tthr. by rewrite E. Qed.
Lemma run_upd_proc {R} p f (s : pst R) :
  upd_proc p f s = Ok (tt, with_procs (upd (procs s) p (f (procs s p))) s).
Proof. done. Qed.
Lemma run_set_mtag {R} p m (s : pst R) :
  set_mtag p m s = Ok (tt, with_ptm (with_tthr (with_mtag p m (tthr (ptm s))) (ptm s))
    (with_procs (upd (procs s) p (mkProc (pid (procs s p)) (ptid (procs s p)) m (iotab (procs s p)))) s)).
Proof. done. Qed.
Lemma run_set_proctab {R} t (s : pst R) : set_proctab t s = Ok (tt, with_tabs t (refs s) s).
Proof. done. Qed.
Lemma run_set_refs {R} r (s : pst R) : set_refs r s = Ok (tt, with_tabs (proctab s) r s).
Proof. done. Qed.
Lemma bind_get {S A} (f : S -> M S A) s : (get ≫= f) s = f s s.
Proof. done. Qed.

Lemma with_pages_twice k1 k2 (t : kthreads) : with_pages k2 (with_pages k1 t) = with_pages k2 t.
Proof. done. Qed.

(** A forked process shares its parent's descriptors.  When the allocations of
    [sysfork] succeed it returns the new thread: the new process has the first
    free place of the process table, its table of descriptors equals the
    parent's and its memory space is the cloned one, each I/O object has as many
    more references as the table has entries for it, and no other process has
    changed.  When the process table is full the kernel panics. *)
Lemma fork_shares_descriptors {R : Type} (clone : M kmem Z) (tfr_tp p child m tid : Z) (s : pst R)
    (k1 k2 : kmem) (t3 : kthreads)
    (Hcur : current_process s = Ok (p, s)) (Hne : child <> p)
    (Hrefs : forall io, 0 <= refs s io < 2 ^ 32)
    (Hkmalloc : kmalloc PROCESS_SZ (pages (tthr (ptm s))) = Ok (child, k1))
    (Hclone : clone k1 = Ok (m, k2))
    (Hthread : thread_fork_to_user child (ptid (procs s child)) tfr_tp
      (with_mtag child m (with_pages k2 (tthr (ptm s)))) = Ok (tid, t3)) :
  match free_proc (proctab s) 0 with
  | None => exists why, sysfork_with clone tfr_tp s = Panic why
  | Some i =>
      exists s', sysfork_with clone tfr_tp s = Ok (Ret tid, s') /\
        proctab s' = <[Z.to_nat i := child]> (proctab s) /\
        procs s' child = mkProc i tid m (iotab (procs s p)) /\
        (forall x, x <> child -> procs s' x = procs s x) /\
        (forall io, io <> 0 -> refs s' io = u32 (refs s io + uses (iotab (procs s p)) io)) /\
        tthr (ptm s') = t3
  end.
Proof.
  unfold sysfork_with. rewrite (bind_Ok _ _ _ _ _ Hcur).
  rewrite (bind_Ok _ _ _ _ _ (run_on_pg _ _ _ _ Hkmalloc)).
  set (s1 := with_ptm _ s). rewrite bind_get. change (proctab s1) with (proctab s).
  destruct (free_proc (proctab s) 0) as [i|]; [|by eexists].
  rewrite (bind_Ok _ _ _ _ _ (run_upd_proc _ _ _)), (bind_Ok _ _ _ _ _ (run_set_proctab _ _)).
  set (s2 := with_tabs _ _ _).
  assert (Hclone2 : clone (pages (tthr (ptm s2))) = Ok (m, k2)) by exact Hclone.
  rewrite (bind_Ok _ _ _ _ _ (run_on_pg _ _ _ _ Hclone2)), (bind_Ok _ _ _ _ _ (run_set_mtag _ _ _)), bind_get.
  set (s3 := with_ptm _ (with_procs _ _)).
  assert (E3 : procs s3 child = mkProc i (ptid (procs s child)) m (iotab (procs s child))).
  { cbn [s3 s2 s1 with_ptm with_procs with_tabs procs]. by rewrite !upd_eq. }
  assert (N3 : forall x, x <> child -> procs s3 x = procs s x).
  { intros x Hx. cbn [s3 s2 s1 with_ptm with_procs with_tabs procs]. by rewrite !upd_ne. }
  rewrite (bind_Ok _ _ _ _ _ (run_upd_proc _ _ _)), (bind_Ok _ _ _ _ _ (run_set_refs _ _)), bind_get.
  rewrite E3, (N3 p) by congruence. set (s4 := with_tabs _ _ _). unfold set_iotab in *. cbn [pid ptid mtag iotab] in s4.
  assert (E4 : procs s4 = upd (procs s3) child (mkProc i (ptid (procs s child)) m (iotab (procs s p)))) by done.
  assert (Hthr4 : thread_fork_to_user child (ptid (procs s4 child)) tfr_tp (tthr (ptm s4)) = Ok (tid, t3)).
  { rewrite E4, upd_eq. exact Hthread. }
  rewrite (bind_Ok _ _ _ _ _ (run_on_thr _ _ _ _ Hthr4)). set (s5 := with_ptm _ s4).
  assert (E5 : procs s5 = procs s4) by done.
  rewrite (bind_Ok _ _ _ _ _ (run_upd_proc _ _ _)), E5, E4, upd_eq.
  eexists. split; [reflexivity|]. cbn [procs with_procs proctab refs set_ptid]. rewrite upd_eq. split_and!; try done.
  - intros x Hx. rewrite !upd_ne by congruence. by apply N3.
  - intros io Hio. by apply share_count.
Qed.

(** ** A process *)

(** The main thread's process at 7000 has the file 100 open at descriptor 2;
    opening gives the object 200; writes return their length. *)
Definition demo_ops (io : Z) : io_ops Z :=
  mkOps (Some (fun w => Ok (tt, w + 1000))) None (Some (fun bs w => Ok (Z.of_nat (length bs), w + Z.of_nat (length bs)))) None.
Definition demo_open (name : Z) : M Z (Z * option Z) := fun w => Ok ((0, Some 200), w).
Definition demo_threads : kthreads :=
  with_threads (upd (threads demo_boot) 1000 (set_proc 7000 (threads demo_boot 1000))) demo_boot.
Definition demo_pst : pst Z :=
  mkPst (mkTimer demo_threads (fun _ => mkAlarm 0 0) 0 0 0 0 false false 0)
    (fun _ => mkProc 0 0 0 (<[2%nat := 100]> (repeat 0 16))) (7000 :: repeat 0 15) (fun _ => 1) 0 [] 1.

Lemma demo_current : current_process demo_pst = Ok (7000, demo_pst).
Proof. vm_compute. reflexivity. Qed.

(** The same process in an address space with one readable page. *)
Definition demo_reader : pst Z :=
  with_ptm (with_tthr (with_pages big_parent (tthr (ptm demo_pst))) (ptm demo_pst)) demo_pst.

Lemma demo_reader_current : current_process demo_reader = Ok (7000, demo_reader).
Proof. vm_compute. reflexivity. Qed.

Lemma big_parent_mapped i :
  0 <= i < 8 -> mapped (mem big_parent) demo_root PTE_R (USER_START_VMA + i).
Proof.
  intros Hi. unfold mapped. rewrite (same_page_umap _ _ _ USER_START_VMA).
  - eexists. split; [vm_compute; reflexivity|split; reflexivity].
  - unfold USER_START_VMA, PAGE_SIZE. wrap_lia.
Qed.


Lemma descriptor_out_of_bounds_witness : exists why, sysclose demo_ops 16 demo_pst = Undef why.
Proof.
  destruct (descriptor_out_of_bounds demo_ops (fun n _ => demo_open n) demo_open [] demo_pst 7000 16 0 0 0
    demo_current) as (H & _).
  - discriminate.
  - reflexivity.
  - vm_compute. split; [discriminate|reflexivity].
  - exact H.
Defined.

(** The search gives descriptor 2, where the file 100 was open. *)
Lemma next_descriptor_in_use_witness :
  100 <> 0 /\ sysfsopen demo_open (-1) 60 demo_pst
    = Ok (Ret 2, with_iotab 7000 (<[2%nat := 200]> (iotab (procs demo_pst 7000))) (with_world 0 demo_pst)).
Proof.
  apply (next_descriptor_in_use demo_open demo_pst 7000 (-1) 60 200 0 demo_current).
  - discriminate.
  - reflexivity.
  - reflexivity.
  - reflexivity.
Defined.

Definition thr_after (o : outcome (Z * kthreads)) : kthreads :=
  match o with Ok (_, t) => t | _ => demo_threads end.
Definition mem_after (o : outcome (Z * kmem)) : kmem :=
  match o with Ok (_, k) => k | _ => pages demo_threads end.
Definition demo_child : Z := 2147553136.
Definition demo_k1 : kmem := mem_after (kmalloc PROCESS_SZ (pages (tthr (ptm demo_pst)))).
Definition demo_t3 : kthreads := thr_after (thread_fork_to_user demo_child 0 1000 (with_mtag demo_child 5 (with_pages demo_k1 demo_threads))).

Lemma thr_after_ok o t : (match o with Ok (a, _) => Some a | _ => None end) = Some t -> o = Ok (t, thr_after o).
Proof. destruct o as [[? ?]| | | |]; try done. by intros [= <-]. Qed.
Lemma mem_after_ok o t : (match o with Ok (a, _) => Some a | _ => None end) = Some t -> o = Ok (t, mem_after o).
Proof. destruct o as [[? ?]| | | |]; try done. by intros [= <-]. Qed.
Lemma demo_kmalloc : kmalloc PROCESS_SZ (pages (tthr (ptm demo_pst))) = Ok (demo_child, demo_k1).
Proof. unfold demo_k1. apply mem_after_ok. vm_compute. reflexivity. Qed.
Lemma demo_fork_thread :
  thread_fork_to_user demo_child (ptid (procs demo_pst demo_child)) 1000
    (with_mtag demo_child 5 (with_pages demo_k1 (tthr (ptm demo_pst))))
  = Ok (1, demo_t3).
Proof. unfold demo_t3. apply thr_after_ok. vm_compute. reflexivity. Qed.

Lemma fork_shares_descriptors_witness :
  exists s', sysfork_with (fun k => Ok (5, k)) 1000 demo_pst = Ok (Ret 1, s') /\
    proctab s' = 7000 :: demo_child :: repeat 0 14 /\ refs s' 100 = 2 /\
    procs s' demo_child = mkProc 1 1 5 (iotab (procs demo_pst 7000)).
Proof.
  destruct (fork_shares_descriptors (fun k => Ok (5, k)) 1000 7000 demo_child 5 1 demo_pst demo_k1 demo_k1 demo_t3
    demo_current) as (s' & E & Ht & Hc & _ & Hr & _).
  - discriminate.
  - intros io. split; [discriminate|reflexivity].
  - exact demo_kmalloc.
  - reflexivity.
  - exact demo_fork_thread.
  - exists s'. split; [exact E|]. split; [exact Ht|]. split; [|exact Hc]. rewrite Hr by discriminate. reflexivity.
Defined.
