(* ===== verification/Fork.v ===== *)
(** syscall.c, thread.c, memory.c: the whole of fork.

    [sysfork] allocates a process, clones the active address space, shares the
    descriptors and hands the processor to a new thread.  Here the parts are put
    together: the allocator ([kmalloc] of small blocks beside an address space),
    [Clone.clone_build], [Thread.fork_run] and [Process.fork_shares_descriptors]. *)

From S2P Require Import Prelude PhysMem PageTable KernelMap UserMem Teardown Clone Thread ThreadSpec Timer Process.

(** ** Small blocks *)

(** The memory still to be handed out: the rest of the heap's block, and the free
    pages. *)
Definition unused (s : kmem) (l : list Z) (a : Z) : Prop :=
  heap_start s <= a < heap_end s \/ exists p, p ∈ l /\ p <= a < p + PAGE_SIZE.

(** The heap's block is not a whole page, so that no page is taken from it. *)
Definition part_heap (s : kmem) : Prop := heap_end s - heap_start s < PAGE_SIZE.

Lemma fresh_part s l : part_heap s -> fresh s l = l.
Proof. unfold part_heap, fresh. intros H. by rewrite (proj2 (Z.eqb_neq _ _)) by lia. Qed.

(** A block of at most half a page comes from the heap's block, or from the next
    page, which becomes the heap's block. *)
Lemma kmalloc_block s l r size :
  space_wf s l r -> 0 < size <= 2048 -> (1 <= length (fresh s l))%nat ->
  exists a s' l', kmalloc size s = Ok (a, s') /\ mem s' = mem s /\ satp s' = satp s /\
    pool s' l' /\ heap_wf s' /\ heap_paged s' /\ sublist (fresh s' l') (fresh s l) /\
    (length (fresh s l) <= S (length (fresh s' l')))%nat /\ unused s l a /\ part_heap s' /\
    (forall b, unused s' l' b -> unused s l b).
Proof.
  intros Hw Hsz Hlen. pose proof (sw_heap _ _ _ Hw) as Hh. pose proof (heap_room s Hh) as Hroom.
  destruct (round16_spec size ltac:(lia)) as [Hm Hr]. destruct (sw_paged _ _ _ Hw) as [Hle Hal].
  assert (Hr2 : round16 size <= 2048) by (clear - Hm Hr Hsz; wrap_lia).
  pose proof Hh as [H0 H1 H2 H3]. unfold kmalloc. unfold PAGE_SIZE in *.
  rewrite (proj2 (Z.ltb_ge _ _)), bind_run by lia. cbn [get obind]. rewrite Hroom.
  destruct (Z.leb_spec (round16 size) (heap_end s - heap_start s)) as [Hfit|Hno].
  - eexists _, _, l. split; [reflexivity|]. cbn [mem set_heap satp].
    assert (Ef : fresh (set_heap (heap_start s) (heap_end s - round16 size) s) l = l)
      by (apply fresh_part; unfold part_heap, PAGE_SIZE; cbn; lia).
    split_and!; try done.
    + by destruct (sw_pool _ _ _ Hw); constructor.
    + constructor; cbn; try lia. clear - H3 Hm. wrap_lia.
    + unfold heap_paged, PAGE_SIZE. cbn. lia.
    + rewrite Ef. by apply sublist_inserts_l.
    + rewrite Ef. unfold fresh. rewrite length_app. destruct (_ =? _); cbn; lia.
    + left. lia.
    + unfold part_heap, PAGE_SIZE. cbn. lia.
    + intros b [Hb|Hb]; [left; cbn in Hb; lia|by right].
  - assert (Ef : fresh s l = l) by (apply fresh_part; unfold part_heap, PAGE_SIZE; lia).
    rewrite Ef in *. destruct l as [|p l']; [cbn in Hlen; lia|].
    destruct (alloc_page_spec s p l' (sw_pool _ _ _ Hw)) as [Ea Hp].
    rewrite (bind_Ok _ _ _ _ _ Ea), bind_run. cbn [get obind heap_end heap_start set_free_list]. rewrite Hroom.
    rewrite (proj2 (Z.ltb_lt _ _)) by lia. eexists _, _, l'. split; [reflexivity|].
    assert (Hpp : page_ok p) by (pose proof (sw_fresh _ _ _ Hw) as Hf; rewrite Ef in Hf; by inversion Hf).
    destruct Hpp as (Hpa & Hp0 & Hp1). unfold PAGE_SIZE in *.
    set (s' := set_heap _ _ _).
    assert (Ef' : fresh s' l' = l') by (apply fresh_part; unfold part_heap, PAGE_SIZE; cbn; lia).
    rewrite Ef'. split_and!; try done.
    + by destruct Hp; constructor.
    + constructor; cbn; try lia. clear - Hpa Hm. wrap_lia.
    + unfold heap_paged, PAGE_SIZE. cbn. lia.
    + by apply sublist_cons.
    + right. exists p. split; [by left|]. unfold PAGE_SIZE. lia.
    + unfold part_heap, PAGE_SIZE. cbn. lia.
    + intros b [Hb|(q & Hq & Hb)]; right; [exists p|exists q]; (split; [set_solver|]); [|done].
      unfold PAGE_SIZE. cbn in Hb. lia.
Qed.

(** Two spaces, seen from either. *)
Lemma two_spaces_block s l a b size :
  two_spaces s l a b -> 0 < size <= 2048 -> (1 <= length (fresh s l))%nat ->
  exists x s' l', kmalloc size s = Ok (x, s') /\ mem s' = mem s /\ two_spaces s' l' a b /\
    (length (fresh s l) <= S (length (fresh s' l')))%nat /\ unused s l x.
Proof.
  intros [[Ha Hw Hf] Hwb Hfb Hd] Hsz Hlen.
  destruct (kmalloc_block s l a size Hw Hsz Hlen) as (x & s' & l' & E & Em & Es & Hp & Hh & Hpg & Hsub & Hl & Hx & _).
  assert (Hin : forall y, y ∈ fresh s' l' -> y ∈ fresh s l) by (intros; by eapply elem_of_sublist).
  exists x, s', l'. split_and!; try done. constructor.
  - constructor; [congruence|by apply (space_wf_shrink s l)|].
    apply (frames_frame s s' l l' a Hw); [by intros; rewrite Em|done|done].
  - by apply (space_wf_shrink s l).
  - apply (frames_frame s s' l l' b Hwb); [by intros; rewrite Em|done|done].
  - by rewrite Em.
Qed.

Lemma vm_block s l r size :
  vm_inv s l r -> 0 < size <= 2048 -> (1 <= length (fresh s l))%nat ->
  exists x s' l', kmalloc size s = Ok (x, s') /\ mem s' = mem s /\ satp s' = satp s /\ vm_inv s' l' r /\ part_heap s' /\
    (length (fresh s l) <= S (length (fresh s' l')))%nat /\ unused s l x /\
    (forall b, unused s' l' b -> unused s l b).
Proof.
  intros [Ha Hw Hf] Hsz Hlen.
  destruct (kmalloc_block s l r size Hw Hsz Hlen)
    as (x & s' & l' & E & Em & Es & Hp & Hh & Hpg & Hsub & Hl & Hx & Hpt & Hmono).
  exists x, s', l'. split_and!; try done. constructor; [congruence|by apply (space_wf_shrink s l)|].
  apply (frames_frame s s' l l' r Hw); [by intros; rewrite Em|done|]. intros y Hy. by eapply elem_of_sublist.
Qed.

(** ** Code that leaves the heap's block alone *)

(** The page-table code takes whole pages, so a block that is not one stays as it
    is. *)
Definition keeps_heap {A} (m : M kmem A) : Prop := forall s a s',
  m s = Ok (a, s') -> heap_wf s -> part_heap s -> heap_start s' = heap_start s /\ heap_end s' = heap_end s.

Section KeepsHeap.
Lemma kh_ret {A} (a : A) : keeps_heap (mret a).
Proof. by intros s b s' [= _ <-]. Qed.
Lemma kh_gets {A} (f : kmem -> A) : keeps_heap (gets f).
Proof. by intros s b s' [= _ <-]. Qed.
Lemma kh_get : keeps_heap get.
Proof. by intros s b s' [= _ <-]. Qed.
Lemma kh_panic {A} w : keeps_heap (panic w : M kmem A).
Proof. by intros s b s' ?. Qed.
Lemma kh_load a : keeps_heap (load a).
Proof. by intros s b s' [= _ <-]. Qed.
Lemma kh_store a w : keeps_heap (store a w).
Proof. by intros s b s' [= _ <-]. Qed.
Lemma kh_free_list x : keeps_heap (modify (set_free_list x)).
Proof. by intros s b s' [= _ <-]. Qed.
Lemma kh_satp x : keeps_heap (modify (set_satp x)).
Proof. by intros s b s' [= _ <-]. Qed.

Lemma kh_bind {A B} (m : M kmem A) (f : A -> M kmem B) :
  keeps_heap m -> (forall a, keeps_heap (f a)) -> keeps_heap (m ≫= f).
Proof.
  intros Hm Hf s b s' E Hw Hp. rewrite bind_run in E. destruct (m s) as [[a s1]| | | |] eqn:E1; try done. cbn in E.
  destruct (Hm s a s1 E1 Hw Hp) as [Es Ee]. unfold part_heap in *.
  destruct (Hf a s1 b s' E) as [Es' Ee']; [by destruct Hw; constructor; rewrite ?Es, ?Ee|unfold part_heap; lia|lia].
Qed.

Lemma kh_forM {A} (l : list A) (body : A -> M kmem unit) :
  (forall x, keeps_heap (body x)) -> keeps_heap (forM l body).
Proof. intros Hb. induction l; cbn [forM]; [apply kh_ret|by apply kh_bind]. Qed.
End KeepsHeap.

Create HintDb heap.
#[export] Hint Resolve kh_ret kh_gets kh_get kh_panic kh_load kh_store kh_free_list kh_satp : heap.

(** Goes through the sequencing and the tests of a piece of code. *)
Ltac keep_heap := repeat
  match goal with
  | |- keeps_heap (forM _ _) => apply kh_forM; intros ?
  | |- keeps_heap (_ ≫= _) => apply kh_bind; [|intros ?]
  | |- keeps_heap (if ?c then _ else _) => destruct c
  | |- keeps_heap (match ?c with _ => _ end) => destruct c
  | |- keeps_heap _ => solve [auto with heap]
  end.

Lemma kh_alloc_page : keeps_heap memory_alloc_page.
Proof. unfold memory_alloc_page. keep_heap. Qed.
#[export] Hint Resolve kh_alloc_page : heap.

Lemma kh_kmalloc_page : keeps_heap (kmalloc PAGE_SIZE).
Proof.
  intros s a s' E Hw Hp. unfold kmalloc in E. change (round16 PAGE_SIZE) with PAGE_SIZE in E.
  rewrite Z.ltb_irrefl, bind_run in E. cbn [get obind] in E. rewrite (heap_room s Hw) in E. unfold part_heap in Hp.
  rewrite (proj2 (Z.leb_gt _ _)) in E by lia. rewrite bind_run in E.
  destruct (memory_alloc_page s) as [[p s1]| | | |] eqn:E1; try done. cbn [obind] in E. rewrite bind_run in E.
  destruct (kh_alloc_page s p s1 E1 Hw Hp) as [Es Ee]. cbn [get obind] in E. rewrite Es, Ee, (heap_room s Hw) in E.
  rewrite (proj2 (Z.ltb_ge _ _)) in E by (pose proof (hw_le s Hw); lia). by injection E as _ <-.
Qed.
#[export] Hint Resolve kh_kmalloc_page : heap.

Lemma kh_walk_pt root vma create : keeps_heap (walk_pt root vma create).
Proof. unfold walk_pt, walk_level, load_pte, store_pte. keep_heap. Qed.
#[export] Hint Resolve kh_walk_pt : heap.

Lemma kh_set_page_flags vma f : keeps_heap (memory_set_page_flags vma f).
Proof. unfold memory_set_page_flags, active_space_root, active_space_mtag, reset_flags, load_pte, store_pte. keep_heap. Qed.
#[export] Hint Resolve kh_set_page_flags : heap.

Lemma kh_vaddr need why va : keeps_heap (vaddr need why va).
Proof. unfold vaddr. keep_heap. Qed.
#[export] Hint Resolve kh_vaddr : heap.

Lemma kh_clone main_pt1 asid : keeps_heap (memory_space_clone main_pt1 asid).
Proof.
  unfold memory_space_clone, clone_kernel, clone_page, clone_mapped, copy_page, memory_space_switch,
    active_space_root, active_space_mtag, load_pte, store_pte. keep_heap.
Qed.

(** ** The pages of the child's thread *)

(** A word written to a page neither space owns. *)
Lemma outside_store s l a b p j v :
  two_spaces s l a b -> page_ok p -> p ∉ fresh s l -> ~ owned (mem s) a p -> ~ owned (mem s) b p -> idx j ->
  let s' := set_mem <[p + 8 * j := v]> s in
  two_spaces s' l a b /\ still a s s' /\ still b s s' /\ (~ owned (mem s') a p) /\ ~ owned (mem s') b p.
Proof.
  intros [Hv Hwb Hfb Hd] Hp Hn Ha Hb Hj s'. pose proof Hv as [_ Hw Hf].
  assert (Hst : forall r, space_wf s l r -> frames_ok s l r -> ~ owned (mem s) r p -> still r s s').
  { intros r Hwr Hfr Hr. apply still_outside. intros q i Hq Hi. apply rd_insert_ne.
    apply slot_ne; try done; [by destruct (owned_page s l r q Hwr Hfr Hq)|by intros ->]. }
  assert (Hda : data_page s l a p) by (split_and!; try done; intros Ht; apply Ha; by left).
  assert (Hdb : data_page s l b p) by (split_and!; try done; intros Ht; apply Hb; by left).
  pose proof (Hst a Hw Hf Ha) as Sa. pose proof (Hst b Hwb Hfb Hb) as Sb.
  destruct (data_store s l b p j v Hwb Hdb Hj) as (Hwb' & _ & _ & Hfb').
  split_and!; try done.
  - constructor; auto; [by apply (data_store_inv s l a p j v)|].
    intros q Hq Hq'. apply (Hd q); [by apply (st_owned _ _ _ Sa)|by apply (st_owned _ _ _ Sb)].
  - intros Ho. by apply Ha, (st_owned _ _ _ Sa).
  - intros Ho. by apply Hb, (st_owned _ _ _ Sb).
Qed.

(** The kernel stack of the child: a page of its own, with an anchor at its end. *)
Lemma child_stack s l a b child :
  two_spaces s l a b -> (2 <= length (fresh s l))%nat ->
  exists page s1 l1, memory_alloc_page s = Ok (page, s1) /\
    let anchor := page + PAGE_SIZE - ANCHOR_SZ in
    let s' := set_mem <[anchor + 8 := 0]> (set_mem <[anchor := child]> s1) in
    two_spaces s' l1 a b /\ still a s s' /\ still b s s'.
Proof.
  intros Hts Hlen. destruct l as [|p ps]; [pose proof (fresh_length s []); cbn in *; lia|].
  destruct (take_both a b s p ps Hts) as (s1 & E1 & Em & _ & _ & Hts1 & Hp & Hpf & HpP & HpC & _).
  rewrite <- Em in HpP, HpC. exists p, s1, ps. split; [done|]. intros anchor s'.
  destruct (outside_store s1 ps a b p 510 child Hts1 Hp Hpf HpP HpC ltac:(unfold idx; lia)) as (T1 & Sa1 & Sb1 & O1 & O2).
  destruct (outside_store _ ps a b p 511 0 T1 Hp Hpf O1 O2 ltac:(unfold idx; lia)) as (T2 & Sa2 & Sb2 & _).
  assert (E : s' = set_mem <[p + 8 * 511 := 0]> (set_mem <[p + 8 * 510 := child]> s1)).
  { unfold s', anchor, PAGE_SIZE, ANCHOR_SZ.
    by replace (p + 4096 - 16 + 8) with (p + 8 * 511) by lia; replace (p + 4096 - 16) with (p + 8 * 510) by lia. }
  rewrite E. split_and!; [done| |]; (eapply still_trans; [by apply still_mem|]; by eapply still_trans).
Qed.

(** ** The system call *)

(** When fork succeeds: the scheduler and the active space are well formed, the
    running thread has a process, the parent's tables are as [Clone.parent_ok]
    says, there are pages for the copies and the tables, a process structure, a
    thread and its stack, and no structure in use lies in memory still to be
    handed out. *)
Record fork_ready {R : Type} (idle_thread : Z) (live : Z -> Prop) (s : pst R)
    (qs : place -> list Z) (l : list Z) (P p : Z) : Prop := {
  fr_sched : sched_inv live idle_thread (tthr (ptm s)) qs;
  fr_current : current_process s = Ok (p, s);
  fr_vm : vm_inv (pages (tthr (ptm s))) l P;
  fr_parent : parent_ok P (pages (tthr (ptm s)));
  fr_room : (mapped_count P (pages (tthr (ptm s))) user_vmas + 134 <= length (fresh (pages (tthr (ptm s))) l))%nat;
  fr_used : forall a, a = p \/ a ∈ thrtab (tthr (ptm s)) -> ~ unused (pages (tthr (ptm s))) l a
}.

(** The memory of the child beside the parent's. *)
Record forked_memory (k k' : kmem) (l : list Z) (P C : Z) : Prop := {
  fm_two : two_spaces k' l C P;
  fm_child : forall x, USER_START_VMA <= x < USER_END_VMA ->
    ubyte (mem k') C x = ubyte (mem k) P x /\
    flags <$> umap_at (mem k') C x = (fun e => clone_flags (flags e)) <$> umap_at (mem k) P x;
  fm_parent : forall x, as_before (mem k) (mem k') P x
}.

(** The address space is cloned in a state with a process structure more. *)
Lemma clone_run main_pt1 k l P :
  vm_inv k l P -> part_heap k -> parent_ok P k -> (mapped_count P k user_vmas + 133 <= length (fresh k l))%nat ->
  exists C k' l', memory_space_clone main_pt1 0 k = Ok (mk_mtag C, k') /\ satp k' = mk_mtag C /\
    forked_memory k k' l' P C /\ (3 <= length (fresh k' l'))%nat /\ (forall b, unused k' l' b -> unused k l b).
Proof.
  intros Hv Hpt Hpo Hroom.
  destruct (clone_build main_pt1 k l P Hv Hpo ltac:(lia))
    as (C & s1 & s2 & s3 & l3 & E1 & E2 & E3 & Hts & Hst & Hcp & Hk & HC & Hsub & Hlen).
  assert (E : memory_space_clone main_pt1 0 k = Ok (mk_mtag C, set_satp (mk_mtag C) s3)).
  { unfold memory_space_clone. rewrite (bind_Ok _ _ _ _ _ E1), (bind_Ok _ _ _ _ _ E2).
    by rewrite (bind_Ok _ _ _ _ _ E3). }
  destruct (kh_clone main_pt1 0 k _ _ E (sw_heap _ _ _ (vm_space _ _ _ Hv)) Hpt) as [Es Ee].
  cbn [heap_start heap_end set_satp] in Es, Ee.
  assert (Hpt3 : part_heap s3) by (unfold part_heap in *; lia).
  exists C, (set_satp (mk_mtag C) s3), l3. split_and!; try done.
  - constructor.
    + constructor.
      * by apply switch_inv; try apply Hts.
      * apply (space_wf_shrink s3 l3 P); try done; try apply Hts.
        -- by destruct (sw_pool _ _ _ (ts_new _ _ _ _ Hts)); constructor.
        -- by destruct (sw_heap _ _ _ (ts_new _ _ _ _ Hts)); constructor.
      * by destruct (vm_frames _ _ _ (ts_vm _ _ _ _ Hts)); constructor.
      * intros p Ho1 Ho2. by apply (ts_disj _ _ _ _ Hts p).
    + intros x Hx. apply (copied_bytes P C k s3 l l3 x Hv Hts Hx). apply Hcp.
      unfold page_addr, PAGE_SIZE, USER_START_VMA, USER_END_VMA in *. wrap_lia.
    + intros x. by apply (still_as_before P k s3 l).
  - change (fresh (set_satp (mk_mtag C) s3) l3) with (fresh s3 l3). lia.
  - rewrite !fresh_part in Hsub by done.
    intros b [Hb|(q & Hq & Hb)]; [left; cbn in Hb; lia|right; exists q; auto].
Qed.

(** What neither space owns may change. *)
Lemma space_as_before k k' l r x :
  page_ok r -> space_wf k l r -> frames_ok k l r -> still r k k' -> as_before (mem k) (mem k') r x.
Proof.
  intros Hr Hw Hf Hs. apply (still_as_before r (set_satp (mk_mtag r) k) k' l x); [by apply switch_inv|].
  eapply still_trans; [by apply (still_mem r _ k)|done].
Qed.

Lemma forked_later k k1 k2 l1 l2 P C :
  forked_memory k k1 l1 P C -> two_spaces k2 l2 C P -> still C k1 k2 -> still P k1 k2 -> forked_memory k k2 l2 P C.
Proof.
  intros [Hts Hc Hp] Hts2 Sc Sp. pose proof Hts as [[_ Hwc Hfc] Hwp Hfp _]. constructor; [done| |].
  - intros x Hx. destruct (space_as_before k1 k2 l1 C x (proj1 (sw_root _ _ _ Hwc)) Hwc Hfc Sc) as [Eu Eb].
    rewrite Eu, Eb. by apply Hc.
  - intros x. eapply as_before_trans; [apply Hp|].
    by apply (space_as_before k1 k2 l1 P x (proj1 (sw_root _ _ _ Hwp))).
Qed.

(** The child's thread and its stack. *)
Lemma thread_blocks k k1 l1 P C :
  forked_memory k k1 l1 P C -> (3 <= length (fresh k1 l1))%nat ->
  exists child k2 page k3 l3, kmalloc THREAD_SZ k1 = Ok (child, k2) /\ memory_alloc_page k2 = Ok (page, k3) /\
    unused k1 l1 child /\
    let anchor := page + PAGE_SIZE - ANCHOR_SZ in
    forked_memory k (set_mem <[anchor + 8 := 0]> (set_mem <[anchor := child]> k3)) l3 P C.
Proof.
  intros Hf Hlen.
  destruct (two_spaces_block k1 l1 C P THREAD_SZ (fm_two _ _ _ _ _ Hf)) as (child & k2 & l2 & E2 & Em & T2 & Hl2 & Hu);
    [unfold THREAD_SZ; lia|lia|].
  destruct (child_stack k2 l2 C P child T2) as (page & k3 & l3 & E3 & T3 & Sc & Sp); [lia|].
  exists child, k2, page, k3, l3. split_and!; try done. intros anchor.
  apply (forked_later k k1 _ l1 l3); try done; (eapply still_trans; [by apply still_mem|done]).
Qed.


(** ** A fork *)

(** The machine of [Clone.big_parent], whose main thread runs the process at 7000. *)
Definition fork_pst : pst Z :=
  mkPst (mkTimer (with_pages big_parent demo_threads) (fun _ => mkAlarm 0 0) 0 0 0 0 false false 0)
    (fun _ => mkProc 0 0 0 (<[2%nat := 100]> (repeat 0 16))) (7000 :: repeat 0 15) (fun _ => 1) 0 [] 1.

Lemma fork_pst_sched :
  sched_inv demo_live 2000 (tthr (ptm fork_pst)) (fun p => match p with Ready => [2000] | Waiters _ => [] end).
Proof.
  apply (sched_frame_state demo_live 2000 demo_boot); [exact demo_boot_inv| |by intros []|done|done].
  intros x. change (threads (tthr (ptm fork_pst)) x)
    with (upd (threads demo_boot) 1000 (set_proc 7000 (threads demo_boot 1000)) x).
  unfold upd. by destruct (Z.eqb_spec x 1000) as [->|].
Qed.

(** The structures of that machine lie below its free memory. *)
Lemma fork_pst_used l a :
  vm_inv big_parent l demo_root -> a = 7000 \/ a ∈ thrtab (tthr (ptm fork_pst)) -> ~ unused big_parent l a.
Proof.
  intros Hv Ha. assert (El : l = drop 3 big_pages).
  { apply (chain_unique (mem big_parent) (free_list big_parent));
      [apply (pool_chain _ _ (sw_pool _ _ _ (vm_space _ _ _ Hv)))|]. apply chainb_chain. vm_compute. reflexivity. }
  assert (Hlow : a < 10000).
  { destruct Ha as [->|Ha]; [lia|]. revert a Ha. apply Forall_forall.
    apply (bool_decide_unpack _). vm_compute. exact I. }
  intros [Hu|(q & Hq & Hu)].
  - assert (E : heap_start big_parent = 2147553280) by (vm_compute; reflexivity). lia.
  - assert (Hf : Forall (fun q => 2147557376 <= q) l).
    { rewrite El. apply (bool_decide_unpack _). vm_compute. exact I. }
    rewrite Forall_forall in Hf. specialize (Hf q Hq). lia.
Qed.

