(* ===== verification/Exit.v ===== *)
(** process.c, syscall.c: the end of a process.

    [sysexit] gives up the address space of the process, closes its descriptors,
    frees its entry of the process table and ends its thread.  The parts are those
    of [Reclaim], [Process] and [Thread]; what the next thread runs in is
    [ThreadSpace.own_space]. *)

From S2P Require Import Prelude PhysMem PageTable KernelMap UserMem Teardown Clone Reclaim Thread ThreadSpec ThreadSpace Timer Io Process.

(** ** Closing the descriptors *)

Section Close.
Context {R : Type} (ops_of : Z -> io_ops R).

(** The objects a table of descriptors names, closed in its order. *)
Definition close_objects (ios : list Z) : M R unit := forM ios (fun io => ioclose (ops_of io)).

(** What closing changes: the world and the descriptors of one process. *)
Record closed (p : Z) (s s' : pst R) (ios : list Z) (w : R) : Prop := {
  cl_tab : iotab (procs s' p) = ios;
  cl_own : pid (procs s' p) = pid (procs s p) /\ ptid (procs s' p) = ptid (procs s p) /\ mtag (procs s' p) = mtag (procs s p);
  cl_other : forall x, x <> p -> procs s' x = procs s x;
  cl_ptm : ptm s' = ptm s;
  cl_proctab : proctab s' = proctab s;
  cl_refs : refs s' = refs s;
  cl_msgs : messages s' = messages s;
  cl_world : world s' = w
}.

Lemma range_step n i : (0 < n)%nat -> i < 16 -> range n i 16 1 = i :: range (n - 1) (i + 1) 16 1.
Proof.
  intros Hn Hi. destruct n as [|n]; [lia|]. cbn [range]. rewrite Nat.sub_succ, Nat.sub_0_r.
  destruct (Z.ltb_spec i 16); [done|lia].
Qed.

Lemma close_all_run p ios : forall done s w,
  iotab (procs s p) = done ++ ios -> length (done ++ ios) = 16%nat ->
  close_objects (filter (fun io => io <> 0) ios) (world s) = Ok (tt, w) ->
  exists s', close_all ops_of p (range (length ios) (Z.of_nat (length done)) 16 1) s = Ok (tt, s') /\
    closed p s s' (done ++ repeat 0 (length ios)) w.
Proof.
  induction ios as [|io ios IH]; intros done s w Ht Hl Hc.
  { cbn in Hc. injection Hc as <-. exists s. by split. }
  rewrite length_app in Hl. cbn [length] in Hl.
  rewrite range_step; [|cbn [length]; lia|lia]. cbn [length close_all]. rewrite Nat.sub_succ, Nat.sub_0_r.
  assert (Hio : iotab (procs s p) !! Z.to_nat (Z.of_nat (length done)) = Some io).
  { rewrite Nat2Z.id, Ht. by apply list_lookup_middle. }
  rewrite (bind_Ok _ _ _ _ _ (run_rd_iotab p _ io s (Nat2Z.is_nonneg _) Hio)).
  assert (Edone : forall x, Z.of_nat (length done) + 1 = Z.of_nat (length (done ++ [x : Z]))).
  { intros x. rewrite length_app. cbn [length]. lia. }
  rewrite filter_cons in Hc. destruct (Z.eqb_spec io 0) as [->|Hne]; cbn [negb].
  - destruct (decide (0 <> 0)); [done|]. rewrite bind_run, run_ret. cbn [obind]. rewrite (Edone 0).
    destruct (IH (done ++ [0]) s w) as (s' & E & Hcl); [by rewrite <- app_assoc| |done|].
    { rewrite !length_app. cbn [length]. lia. }
    exists s'. split; [done|]. by rewrite <- app_assoc in Hcl.
  - rewrite decide_True in Hc by done. cbn [close_objects forM] in Hc.
    apply bind_Ok_inv in Hc as ([] & w1 & Hc1 & Hc2).
    assert (Hio' : iotab (procs (with_world w1 s) p) !! Z.to_nat (Z.of_nat (length done)) = Some io) by exact Hio.
    rewrite (bind_Ok _ _ _ tt (with_iotab p (done ++ 0 :: ios) (with_world w1 s))).
    2: { rewrite (bind_Ok _ _ _ _ _ (run_on_world _ s _ _ Hc1)), (run_wr_iotab p _ 0 io _ (Nat2Z.is_nonneg _) Hio').
         change (procs (with_world w1 s)) with (procs s). rewrite Nat2Z.id, Ht, insert_app_r_alt, Nat.sub_diag by done. done. }
    rewrite (Edone 0). set (s1 := with_iotab p _ _).
    assert (E1 : procs s1 p = set_iotab (done ++ 0 :: ios) (procs s p)) by (cbn; by rewrite upd_eq).
    destruct (IH (done ++ [0]) s1 w) as (s' & E & [C1 (C2 & C3 & C4) C5 C6 C7 C8 C9 C10]).
    + rewrite E1. cbn. by rewrite <- app_assoc.
    + rewrite !length_app. cbn [length]. lia.
    + done.
    + exists s'. split; [done|]. constructor; try done.
      * by rewrite <- app_assoc in C1.
      * rewrite C2, C3, C4, E1. done.
      * intros x Hx. rewrite C5 by done. cbn. by rewrite upd_ne.
Qed.
End Close.

(** ** The system call *)

(** When a process can end: the scheduler is well formed, the running thread is
    neither the main nor the idle thread and its parent's [child_exit] is in use,
    and its process, at [p], has a space of its own beside the main one, with
    nothing global in it. *)
Record exit_ready {R : Type} (main_thread idle_thread : Z) (live : Z -> Prop) (s : pst R)
    (qs : place -> list Z) (l : list Z) (P main p : Z) : Prop := {
  er_sched : sched_inv live idle_thread (tthr (ptm s)) qs;
  er_thread : tp (tthr (ptm s)) <> main_thread /\ tp (tthr (ptm s)) <> idle_thread;
  er_parent : let t := tthr (ptm s) in
    parent (threads t (tp t)) <> 0 /\ live (child_exit (parent (threads t (tp t))));
  er_current : current_process s = Ok (p, s) /\ p <> 0;
  er_tab : length (iotab (procs s p)) = 16%nat;
  er_spaces : two_spaces (pages (tthr (ptm s))) l P main;
  er_free : l <> [];
  er_tags : satp (pages (tthr (ptm s))) = mk_mtag P /\ main_mtag (pages (tthr (ptm s))) = mk_mtag main;
  er_kernel : kernel_part nonglobal_leaf nonglobal_tab (mem (pages (tthr (ptm s)))) P;
  er_user : forall i j e, idx i -> idx j -> umap (mem (pages (tthr (ptm s)))) P i j = Some e ->
    has (flags e) PTE_G = false
}.


(** ** A process that ends *)

(** The child of [ThreadSpace.demo_forked], in the memory of [Reclaim.demo_ended];
    it has the files 100 and 101 open, and closing adds 1000. *)
Definition exit_pst : pst Z :=
  mkPst (mkTimer (with_pages demo_ended demo_forked) (fun _ => mkAlarm 0 0) 0 0 0 0 false false 0)
    (fun _ => mkProc 1 1 0 ([100; 0; 101] ++ repeat 0 13)) (7000 :: 8000 :: repeat 0 14) (fun _ => 1) 0 [] 1.

Lemma exit_pst_sched : exists qs, sched_inv demo_live 2000 (tthr (ptm exit_pst)) qs.
Proof.
  assert (H : exists qs, sched_inv demo_live 2000 demo_forked qs).
  { apply (steps_inv (step 1000 2000 demo_live) (fun s => exists qs, sched_inv demo_live 2000 s qs) demo_boot);
      [apply step_inv|eexists; exact demo_boot_inv|exact demo_forked_steps]. }
  destruct H as [qs Hi]. exists qs. by apply inv_pages.
Qed.

