(* ===== verification/Boot.v ===== *)
(** main.c: from start-up to the first program; and what [process_exec] does.

    [kernel_init] is the initialisation calls at the start of [main]; [run_init] is
    the rest of [main] from the point where interrupts are enabled: open the block
    device, mount the file system on it, open the first program and execute it.
    Between the two [main] attaches the devices ([Attach]); [Main] puts the three
    together. *)

From S2P Require Import Prelude PhysMem PageTable KernelMap UserMem Clone Teardown Thread ThreadSpec Timer CString Io Device Kfs KfsSpec Mkfs Elf Process.

(** ** Executing a program *)

(** The active space has nothing mapped for the user, and the kernel's part of it
    and the free list are in order. *)
Record user_free (k : kmem) (l : list Z) (root : Z) : Prop := {
  uf_inv : vm_inv k l root;
  uf_kernel : kernel_part user_leaf user_tab (mem k) root;
  uf_none : has1 (mem k) root = false;
  uf_free : l <> [] /\ (length l <= ram_pages)%nat
}.

Section Exec.
Context {R : Type} (ops_of : Z -> io_ops R) (exeio : Z) (img : R -> list Z) (pos : R -> nat) (I : R -> Prop)
  `{!Seekable (ops_of exeio) img pos I}.
Context (stack : list Z) (s : pst R) (Hio : exeio <> 0).
Context (Hi : I (world s)) (Hpos : pos (world s) = 0%nat).
Let thr : kthreads := tthr (ptm s).
Let m : list Z := img (world s).

(** The state with other memory and another state of the drivers. *)
Definition after (k : kmem) (w : R) : pst R :=
  mkPst (with_tthr (with_pages k thr) (ptm s)) (procs s) (proctab s) (refs s) w (messages s)
    (procmgr_initialized s).

Lemma run_exec_load (k1 : kmem) load r e :
  memory_unmap_and_free_user (pages thr) = Ok (tt, k1) ->
  load (ops_of exeio) (mkEst (world s) k1) = Ok (r, e) ->
  process_exec_with ops_of load exeio s
  = (if r.1 <? 0 then mret (Ret r.1)
     else u ← on_thr (thread_jump_to_user USER_STACK_VMA (default 0 r.2)); mret (Jump u))
      (after (e_mem e) (e_io e)).
Proof.
  intros E1 E2. unfold process_exec_with. rewrite (proj2 (Z.eqb_neq exeio 0) Hio).
  rewrite (bind_Ok _ _ _ _ _ (run_on_pg _ s _ _ E1)). rewrite bind_run. unfold on_elf at 1.
  cbn [world ptm with_ptm tthr with_tthr pages with_pages]. rewrite E2. cbn [obind]. done.
Qed.

Lemma jump_run usp upc (t : kthreads) :
  tp t <> 0 ->
  thread_jump_to_user usp upc t = Ok (mkUmode upc false usp (stack_base (threads t (tp t))), with_sie true t).
Proof.
  intros Ht. unfold thread_jump_to_user, intr_disable, sret. run_prim. done.
Qed.

Lemma exec_run l root :
  length stack = 56%nat -> tp thr <> 0 -> user_free (pages thr) l root -> loadable m ->
  (room_for (segments m) + 1 <= length (fresh (pages thr) l))%nat ->
  exists k w l', process_exec ops_of stack exeio s
      = Ok (Jump (mkUmode (e_entry (image_ehdr m)) false USER_STACK_VMA (stack_base (threads thr (tp thr)))),
            with_ptm (with_tthr (with_sie true (with_pages k thr)) (ptm s)) (after k w)) /\
    vm_inv k l' root /\ satp k = satp (pages thr) /\
    Forall (fun ph => loaded (mem k) root m (Z.lor (flag_convert (p_flags ph)) PTE_U) ph) (segments m) /\
    (forall x, user_addr x -> Forall (fun ph => ~ on_pages_of ph x) (segments m) -> umap_at (mem k) root x = None).
Proof using Hi Hpos Hio Seekable0.
  intros Hst Htp [Hv Hk Hn [Hl Hlen]] Hld Hroom.
  destruct (unmap_user_run (pages thr) l root Hv Hl Hk Hlen) as (k1 & freed & E1 & _ & _ & _ & Hsame).
  rewrite (Hsame Hn) in E1.
  destruct (elf_load_run (ops_of exeio) img pos I stack Hst (fun fl => Z.lor (flag_convert fl) PTE_U)
    (mkEst (world s) (pages thr)) Hi Hpos l root Hld Hv Hroom) as (w & k & l' & E2 & _ & _ & Hv' & Hs' & Hlds & Hout).
  exists k, w, l'. split_and!; try done.
  - unfold process_exec. rewrite (run_exec_load _ _ _ _ E1 E2). cbn [fst snd default e_mem e_io].
    change (0 <? 0) with false. cbn iota. cbn [default].
    rewrite (bind_Ok _ _ _ _ _ (run_on_thr _ (after k w) _ _ (jump_run _ _ (with_pages k thr) Htp))). done.
  - intros x Hx Hoff. destruct (Hout x Hx Hoff) as [-> _]. unfold umap_at, umap, has0. cbn [e_mem]. by rewrite Hn.
Qed.

Lemma exec_refused l root :
  vm_inv (pages thr) l root -> kernel_part user_leaf user_tab (mem (pages thr)) root ->
  l <> [] -> (length l <= ram_pages)%nat ->
  64 <= Z.of_nat (length m) -> ~ executable (image_ehdr m) ->
  exists err k w, process_exec ops_of stack exeio s = Ok (Ret err, after k w) /\ err < 0 /\
    exists freed done, torn user_leaf (pages thr) l root done [] k freed /\
      forall i j, idx i -> idx j -> (i, j) ∉ done -> umap (mem (pages thr)) root i j = None.
Proof using Hi Hpos Hio Seekable0.
  intros Hv Hk Hl Hlen Hm Hx.
  destruct (unmap_user_run (pages thr) l root Hv Hl Hk Hlen) as (k1 & freed & E1 & done & Ht & Hd & _).
  destruct (elf_load_refuses (ops_of exeio) img pos I stack (fun fl => Z.lor (flag_convert fl) PTE_U)
    (mkEst (world s) k1) Hi Hpos Hm Hx) as (err & w & E2 & He).
  exists err, k1, w. split_and!; [|done|by exists freed, done].
  unfold process_exec. rewrite (run_exec_load _ _ _ _ E1 E2). cbn [fst]. by rewrite (proj2 (Z.ltb_lt _ _) He).
Qed.
End Exec.


(** C24. A program that cannot be executed.  When the image is not an executable,
    [process_exec] returns an error to its caller, but it has unmapped the
    caller's pages before it looked at the image: no page with user permission is
    mapped any more, so that the program that made the call cannot go on. *)
Theorem exec_failure_unmaps {R : Type} (ops_of : Z -> io_ops R) (exeio : Z) (img : R -> list Z) (pos : R -> nat)
    (I : R -> Prop) `{!Seekable (ops_of exeio) img pos I} (stack : list Z) (s : pst R) (l : list Z) (root : Z)
    (Hio : exeio <> 0) (Hi : I (world s)) (Hpos : pos (world s) = 0%nat)
    (Hv : vm_inv (pages (tthr (ptm s))) l root)
    (Hk : kernel_part user_leaf user_tab (mem (pages (tthr (ptm s)))) root)
    (Hl : l <> [] /\ (length l <= ram_pages)%nat)
    (Hm : 64 <= Z.of_nat (length (img (world s)))) (Hx : ~ executable (image_ehdr (img (world s)))) :
  exists err s', process_exec ops_of stack exeio s = Ok (Ret err, s') /\ err < 0 /\
    tp (tthr (ptm s')) = tp (tthr (ptm s)) /\
    forall i j e, idx i -> idx j -> umap (mem (pages (tthr (ptm s')))) root i j = Some e -> user_leaf e = false.
Proof.
  destruct Hl as [Hl Hlen].
  destruct (exec_refused ops_of exeio img pos I stack s Hio Hi Hpos l root Hv Hk Hl Hlen Hm Hx)
    as (err & k & w & E & He & freed & dn & Ht & Hd).
  eexists err, _. split_and!; [exact E|done|done|]. intros i j e Hii Hj Eu.
  change (umap (mem k) root i j = Some e) in Eu. rewrite (tn_umap _ _ _ _ _ _ _ _ Ht) in Eu by done.
  destruct (decide ((i, j) ∈ dn)) as [Hin|Hn].
  - unfold strip in Eu. destruct (umap (mem (pages (tthr (ptm s)))) root i j) as [e'|]; [|done].
    destruct (user_leaf e') eqn:Ee; [done|]. by injection Eu as <-.
  - by rewrite (Hd i j Hii Hj Hn) in Eu.
Qed.

(** ** Start-up *)

Section Start.
(** The initialisers of the console, the interrupt table and the device table,
    which Console.v, Intr.v and Device.v model on states of their own. *)
Context {R : Type} (console_init intr_init devmgr_init : M R unit).
Context (k : kimage) (main_thread idle_thread main_proc : Z) (main_anchor main_lowest idle_anchor idle_lowest : Z).

(** The initialisation calls of [main]. *)
Definition kernel_init : M (pst R) unit :=
  on_world console_init ;;
  on_pg (memory_init k) ;;
  on_world intr_init ;;
  on_world devmgr_init ;;
  on_thr (thread_init main_thread idle_thread main_anchor main_lowest idle_anchor idle_lowest) ;;
  procmgr_init main_proc ;;
  on_tm timer_init.

Lemma main_tab (s : kthreads) :
  thrtab s = main_thread :: replicate 14 0 ++ [idle_thread] -> thrtab_at 0 s = Ok (main_thread, s).
Proof. intros E. apply thrtab_at_run; [done|]. by rewrite E. Qed.

(** [procmgr_init] in the main thread. *)
Lemma procmgr_init_run (live : Z -> Prop) (s : pst R) qs :
  let t := tthr (ptm s) in
  main_thread <> 0 -> main_proc <> 0 -> tp t = main_thread -> id (threads t main_thread) = 0 ->
  thrtab t = main_thread :: replicate 14 0 ++ [idle_thread] -> sched_inv live idle_thread t qs ->
  exists s', procmgr_init main_proc s = Ok (tt, s') /\
    sched_inv live idle_thread (tthr (ptm s')) qs /\ pages (tthr (ptm s')) = pages t /\
    tp (tthr (ptm s')) = main_thread /\
    stack_base (threads (tthr (ptm s')) main_thread) = stack_base (threads t main_thread) /\
    sleep_list (ptm s') = sleep_list (ptm s) /\ world s' = world s /\
    procs s' main_proc = mkProc MAIN_PID 0 (main_mtag (pages t)) (repeat 0 16) /\
    proc_mtag (tthr (ptm s')) main_proc = main_mtag (pages t) /\
    current_process s' = Ok (main_proc, s').
Proof.
  intros t Hm Hp Ht Hid Htab Hi.
  set (t1 := with_mtag main_proc (main_mtag (pages t)) t).
  set (t2 := put_thr main_thread (set_proc main_proc) t1).
  assert (Etid : forall s0 : pst R, tthr (ptm s0) = t -> on_thr running_thread s0 = Ok (0, s0)).
  { intros s0 E. unfold on_thr, on_tm, on_tthr. rewrite E. unfold running_thread. run_prim. rewrite Ht.
    rewrite run_rd_thr by done. cbn [obind]. run_prim. rewrite Hid. destruct s0 as [[] ? ? ? ? ? ?]. cbn in *. by subst. }
  assert (Eset : thread_set_process 0 main_proc t1 = Ok (tt, t2)).
  { unfold thread_set_process, tid_thread. change (cassert ((0 <=? 0) || (0 <? NTHR))) with (mret tt : T unit).
    rewrite !bind_run. cbn [obind]. rewrite run_ret. cbn [obind]. rewrite bind_run, (main_tab t1 Htab). cbn [obind].
    rewrite (proj2 (Z.eqb_neq main_thread 0) Hm). cbn [negb]. run_prim. done. }
  assert (Eg : on_pg (gets main_mtag) s = Ok (main_mtag (pages t), s)).
  { unfold t. destruct s as [[[]] ? ? ? ? ? ?]. done. }
  assert (Hth : forall x, threads t2 x = if x =? main_thread then set_proc main_proc (threads t main_thread) else threads t x) by done.
  eexists. split_and!.
  - unfold procmgr_init. rewrite (bind_Ok _ _ _ _ _ (Etid s eq_refl)), (bind_Ok _ _ _ _ _ Eg).
    rewrite (bind_Ok _ _ _ _ _ (run_upd_proc _ _ _)), (bind_Ok _ _ _ _ _ (run_set_mtag _ _ _)).
    erewrite bind_Ok by (apply run_on_thr; exact Eset). done.
  - cbn [ptm tthr with_ptm with_tthr]. apply (sched_frame_state live idle_thread t); [done| |by intros []|done|done].
    intros x. rewrite Hth. by destruct (Z.eqb_spec x main_thread) as [->|].
  - done.
  - done.
  - cbn [ptm tthr with_ptm with_tthr]. by rewrite Hth, Z.eqb_refl.
  - done.
  - done.
  - cbn. by rewrite !upd_eq.
  - cbn. by rewrite upd_eq.
  - set (s' := mkPst _ _ _ _ _ _ _).
    assert (Et : tthr (ptm s') = t2) by done.
    assert (Er : forall (A : Type) (f : T A) a, f t2 = Ok (a, t2) -> on_thr f s' = Ok (a, s')).
    { intros A f a E. unfold on_thr, on_tm, on_tthr. rewrite Et, E. done. }
    unfold current_process. rewrite (bind_Ok _ _ _ 0 s').
    + apply Er. unfold thread_process, tid_thread. change (cassert ((0 <=? 0) || (0 <? NTHR))) with (mret tt : T unit).
      rewrite !bind_run. cbn [obind]. rewrite run_ret. cbn [obind]. rewrite bind_run, (main_tab t2 Htab). cbn [obind].
      rewrite (proj2 (Z.eqb_neq main_thread 0) Hm). cbn [negb]. run_prim. by rewrite Hth, Z.eqb_refl.
    + apply Er. unfold running_thread. run_prim. change (tp t2) with (tp t). rewrite Ht.
      rewrite run_rd_thr by done. cbn [obind]. run_prim. rewrite Hth, Z.eqb_refl. cbn [id set_proc]. by rewrite Hid.
Qed.

(** The current process depends on the threads alone. *)
Lemma current_process_ptm (s : pst R) p tm :
  current_process s = Ok (p, s) -> tthr tm = tthr (ptm s) ->
  current_process (with_ptm tm s) = Ok (p, with_ptm tm s).
Proof.
  intros H E. unfold current_process, on_thr, on_tm, on_tthr in *. rewrite bind_run in H |- *.
  cbn [ptm with_ptm]. rewrite E.
  destruct (running_thread (tthr (ptm s))) as [[tid t1]| | | |]; try done. cbn [obind ptm tthr with_tthr] in *.
  destruct (thread_process tid t1) as [[q t2]| | | |]; try done. cbn [obind] in *.
  injection H as -> Hs. apply (f_equal (fun x => tthr (ptm x))) in Hs. cbn in Hs. subst t2. rewrite <- E.
  by destruct tm.
Qed.

Lemma range_length n from to step : (length (range n from to step) <= n)%nat.
Proof. revert from. induction n as [|n IH]; intros from; cbn [range]; [done|]. casesplit; cbn; [|lia]. specialize (IH (from + step)). lia. Qed.

Lemma ram_pages_between a : RAM_START <= a -> (length (pages_between a RAM_END) <= ram_pages)%nat.
Proof.
  intros Ha. unfold pages_between, ram_pages. etransitivity; [apply range_length|].
  consts. wrap_lia.
Qed.

Lemma kernel_init_run (live : Z -> Prop) (nalarms : nat) (s : pst R) (t0 : kthreads) w1 w2 w3 :
  console_init (world s) = Ok (tt, w1) -> intr_init w1 = Ok (tt, w2) -> devmgr_init w2 = Ok (tt, w3) ->
  image_ok k -> ram_clear k (mem (pages t0)) ->
  (forall p i, p ∈ pages_between (kimg_end k) RAM_END -> idx i -> flags (ent (mem (pages t0)) (p + 8 * i)) = 0) ->
  main_thread <> 0 -> idle_thread <> 0 -> main_thread <> idle_thread -> main_proc <> 0 ->
  tthr (ptm s) = static_state main_thread idle_thread t0 -> sleep_list (ptm s) = 0 ->
  exists s', kernel_init s = Ok (tt, s') /\
    user_free (pages (tthr (ptm s'))) (pages_between (kimg_end k + PAGE_SIZE) RAM_END) (main_pt2 k) /\
    fresh (pages (tthr (ptm s'))) (pages_between (kimg_end k + PAGE_SIZE) RAM_END) = pages_between (kimg_end k) RAM_END /\
    timer_inv idle_thread live nalarms (ptm s') [] /\
    tp (tthr (ptm s')) = main_thread /\ stack_base (threads (tthr (ptm s')) main_thread) = main_anchor /\
    current_process s' = Ok (main_proc, s') /\ world s' = w3 /\
    procs s' main_proc = mkProc MAIN_PID 0 (mk_mtag (main_pt2 k)) (repeat 0 16) /\
    heap_region (pages (tthr (ptm s'))) = (kimg_end k, PAGE_SIZE) /\
    (forall t i, t ∈ [main_pt2 k; main_pt1_0x80000 k; main_pt0_0x80000 k] -> idx i ->
       ent (mem (pages (tthr (ptm s')))) (t + 8 * i) = ent (tables_mem k (mem (pages t0))) (t + 8 * i)).
Proof.
  intros Hw1 Hw2 Hw3 Hk Hc Hclean Hm Hid Hne Hp Hst Hsl.
  destruct (memory_init_run k (pages t0) Hk Hc) as (km & E1 & Esat & Emt & _ & _ & _ & _ & Hreg & Htab & Hvm).
  destruct (Hvm Hclean) as [Hv H1].
  assert (E1' : memory_init k (pages (tthr (ptm s))) = Ok (tt, km)) by (by rewrite Hst).
  destruct (thread_init_run main_thread idle_thread live (with_pages km t0) main_anchor main_lowest idle_anchor idle_lowest
    Hm Hid Hne) as (t1 & E2 & Htp1 & (Ep1 & Etab1 & Ei1 & Esb1) & Hi1).
  set (s1 := mkPst (with_tthr (with_pages km (tthr (ptm s))) (ptm s)) (procs s) (proctab s) (refs s) w3 (messages s)
    (procmgr_initialized s)).
  assert (E2' : thread_init main_thread idle_thread main_anchor main_lowest idle_anchor idle_lowest (tthr (ptm s1)) = Ok (tt, t1)).
  { cbn [s1 ptm tthr with_ptm with_tthr]. by rewrite Hst. }
  set (s2 := with_ptm (with_tthr t1 (ptm s1)) s1).
  assert (Hid1 : id (threads t1 main_thread) = MAIN_TID) by exact (f_equal (fun x => x.1.1.1.1.2) Ei1).
  destruct (procmgr_init_run live s2 _ Hm Hp Htp1 Hid1 Etab1 Hi1)
    as (s3 & E3 & Hi3 & Epg3 & Etp3 & Esb3 & Esl3 & Ew3 & Epr3 & Emt3 & Ecur3).
  set (s4 := with_ptm (mkTimer (tthr (ptm s3)) (alarms (ptm s3)) (sleep_list (ptm s3)) (next_tick (ptm s3)) 0 TICK_PERIOD
    true true 1) s3).
  assert (Epg : pages (tthr (ptm s4)) = km) by (change (pages (tthr (ptm s3)) = km); rewrite Epg3; exact Ep1).
  exists s4. rewrite Epg. split_and!; try done.
  - unfold kernel_init. rewrite (bind_Ok _ _ _ _ _ (run_on_world _ s _ _ Hw1)).
    rewrite (bind_Ok _ _ _ _ _ (run_on_pg _ (with_world w1 s) _ _ E1')).
    erewrite bind_Ok by (apply run_on_world; exact Hw2). erewrite bind_Ok by (apply run_on_world; exact Hw3).
    rewrite (bind_Ok _ _ _ _ _ (run_on_thr _ s1 _ _ E2')), (bind_Ok _ _ _ _ _ E3). done.
  - constructor; [done|by apply (init_kernel_part k (mem (pages t0)))|done|]. split.
    + intros Hn. pose proof (io_end k Hk). pose proof (io_end_al k Hk).
      assert (Hx : kimg_end k + PAGE_SIZE ∈ pages_between (kimg_end k + PAGE_SIZE) RAM_END)
        by (apply pages_between_elem; consts; wrap_lia).
      rewrite Hn in Hx. by apply not_elem_of_nil in Hx.
    + apply ram_pages_between. pose proof (io_end k Hk). destruct (sections k Hk) as (_ & _ & _ & _ & ? & ?). consts. lia.
  - by apply fresh_init.
  - apply (timer_init_inv idle_thread live nalarms (ptm s3) (ptm s4) _ ltac:(by rewrite Esl3) Hi3). done.
  - change (stack_base (threads (tthr (ptm s3)) main_thread) = main_anchor). by rewrite Esb3.
  - by apply current_process_ptm.
  - change (procs s4 main_proc) with (procs s3 main_proc). rewrite Epr3. do 2 f_equal.
    change (main_mtag (pages t1) = mk_mtag (main_pt2 k)). rewrite Ep1. exact Emt.
Qed.
End Start.

(** ** The first program *)

(** [INIT_PROC], "init_trek_rule30". *)
Definition INIT_NAME : list Z := [105; 110; 105; 116; 95; 116; 114; 101; 107; 95; 114; 117; 108; 101; 51; 48].
Definition INIT_PROC : list Z := INIT_NAME ++ [0].

Section Main.
(** The operations of the I/O object at an address, what the open functions of
    the drivers do, and the table of devices. *)
Context {D : Type} (ops_of : Z -> io_ops D).
Context (call : Z -> Z -> M D (Z * option Z)) (tab : devtab).
(** The running thread, and what the stack holds. *)
Context (self : Z) (stack : list Z).

Definition run_init : M (pst (fs_state D)) sysret :=
  on_thr intr_enable ;;
  b ← on_world (on_sys (device_open call tab BLK_NAME 0));
  if negb (b.1 =? 0) then panic "device_open failed"
  else
    let ops := ops_of (default 0 b.2) in
    result ← on_world (fs_mount ops);
    if negb (result =? 0) then panic "fs_mount failed"
    else
      o ← on_world (fs_open ops self INIT_PROC);
      if o.1 <? 0 then panic "process image not found"
      else
        e ← process_exec (new_file_ops ops self) stack (default 0 o.2);
        match e with
        | Ret _ => panic "process_exec failed"
        | _ => mret e
        end.
End Main.

(** C23. Start-up prepares the kernel.  For a kernel image laid out as the linker
    script lays it out, in memory that is clear after the image, the
    initialisation calls of [main] return; then nothing is mapped for the user,
    every page after the image is to be handed out, the scheduler's and the
    timer's invariants hold with nothing asleep, the main thread runs on its
    static stack, its process is the main process, with the kernel's space and no
    descriptor in use, and the drivers are as their own initialisers left them. *)
Theorem kernel_init_spec {R : Type} (console_init intr_init devmgr_init : M R unit) (k : kimage) (main_thread idle_thread main_proc ma ml ia il : Z)
    (live : Z -> Prop) (nalarms : nat) (s : pst R) (t0 : kthreads) (w1 w2 w3 : R)
    (Hw1 : console_init (world s) = Ok (tt, w1)) (Hw2 : intr_init w1 = Ok (tt, w2)) (Hw3 : devmgr_init w2 = Ok (tt, w3))
    (Hk : image_ok k) (Hram : ram_clear k (mem (pages t0)))
    (Hclean : forall p i, p ∈ pages_between (kimg_end k) RAM_END -> idx i ->
       flags (ent (mem (pages t0)) (p + 8 * i)) = 0)
    (Hm : main_thread <> 0) (Hid : idle_thread <> 0) (Hne : main_thread <> idle_thread) (Hp : main_proc <> 0)
    (Hstatic : tthr (ptm s) = static_state main_thread idle_thread t0) (Hsleep : sleep_list (ptm s) = 0) :
  exists s', kernel_init console_init intr_init devmgr_init k main_thread idle_thread main_proc ma ml ia il s = Ok (tt, s') /\
    user_free (pages (tthr (ptm s'))) (pages_between (kimg_end k + PAGE_SIZE) RAM_END) (main_pt2 k) /\
    fresh (pages (tthr (ptm s'))) (pages_between (kimg_end k + PAGE_SIZE) RAM_END) = pages_between (kimg_end k) RAM_END /\
    timer_inv idle_thread live nalarms (ptm s') [] /\
    tp (tthr (ptm s')) = main_thread /\ stack_base (threads (tthr (ptm s')) main_thread) = ma /\
    current_process s' = Ok (main_proc, s') /\ world s' = w3 /\
    procs s' main_proc = mkProc MAIN_PID MAIN_TID (mk_mtag (main_pt2 k)) (repeat 0 16).
Proof.
  destruct (kernel_init_run console_init intr_init devmgr_init k main_thread idle_thread main_proc ma ml ia il
    live nalarms s t0 w1 w2 w3) as (s' & ? & ? & ? & ? & ? & ? & ? & ? & ? & _); try done. by exists s'.
Qed.

(** The end of [main].  When the block device can be opened and holds an image
    that mkfs built from a list of files with a loadable program under the name
    of the first program, and nothing is mapped for the user yet, the program is
    executed: the processor is in user mode at its entry point, and the user's
    addresses hold the bytes of its segments as they are in the file mkfs was
    given. *)
Lemma run_init_run {D : Type} (ops_of : Z -> io_ops D) (img : D -> list Z) (pos : D -> nat) (I : D -> Prop)
    (blkio : Z) `{!Seekable (ops_of blkio) img pos I} (call : Z -> Z -> M D (Z * option Z)) (tab : devtab) (self : Z) (stack : list Z)
    (s : pst (fs_state D)) (stale : nat -> list Z) (args : list (list Z * list Z)) (image : list Z)
    (n i : nat) (path c : list Z) (d : D) (l : list Z) (root : Z)
    (Hstale : forall i, length (stale i) = BLK) (Hargs : buildable args) (Himage : mkfs stale args = Ok image)
    (Hfile : args !! n = Some (path, c)) (Hname : shortname path = INIT_NAME)
    (Hbefore : Forall (fun c => (length c mod 4096 <> 0)%nat) (take n (args.*2))) (Hload : loadable c)
    (Hdev : device_open call tab BLK_NAME 0 (sys (world s)) = Ok ((0, Some blkio), d))
    (Hdisk : I d /\ img d = image /\ pos d = 0%nat)
    (Hsuper : length (super_block (world s)) = BLK) (Hslot : free_slot (opened_files (world s)) 0 = Some i)
    (Hio : next_io (world s) <> 0 /\ Forall (fun f => f_io f <> next_io (world s)) (opened_files (world s)))
    (Hstack : length stack = 56%nat) (Htp : tp (tthr (ptm s)) <> 0)
    (Hfree : user_free (pages (tthr (ptm s))) l root)
    (Hroom : (room_for (segments c) + 1 <= length (fresh (pages (tthr (ptm s))) l))%nat) :
  exists u s', run_init ops_of call tab self stack s = Ok (Jump u, s') /\
    u_pc u = e_entry (image_ehdr c) /\ u_supervisor u = false /\ u_sp u = USER_END_VMA /\
    u_sscratch u = stack_base (threads (tthr (ptm s)) (tp (tthr (ptm s)))) /\ sie (tthr (ptm s')) = true /\
    forall ph j, ph ∈ segments c -> 0 <= j < p_filesz ph ->
      ubyte (mem (pages (tthr (ptm s')))) root (p_vaddr ph + j) = c !! Z.to_nat (p_offset ph + j).
Proof.
  destruct Hdisk as (Hd & Hdi & Hdp), Hio as [Hio Hio'].
  destruct (mkfs_open_run stale args Hstale Hargs) as (image' & Em & Hopen).
  rewrite Em in Himage. injection Himage as ->.
  set (w1 := with_sys d (world s)).
  destruct (Hopen D (ops_of blkio) img pos I _ self w1 n i path c) as (w2 & w3 & f & addrs & E2 & E3 & Hr & Hp0 & Hc); try done.
  rewrite Hname in E3.
  assert (E1 : on_sys (device_open call tab BLK_NAME 0) (world s) = Ok ((0, Some blkio), w1)) by (unfold on_sys; by rewrite Hdev).
  set (t := with_sie true (tthr (ptm s))).
  set (s3 := mkPst (with_tthr t (ptm s)) (procs s) (proctab s) (refs s) w3 (messages s) (procmgr_initialized s)).
  assert (Hin : file_inv img I (next_io w1) i addrs (Z.of_nat (length c)) (world s3)) by (by apply (ready_file_inv img I _ i addrs _ w3 f)).
  assert (Hfi : file_img img addrs (Z.of_nat (length c)) (world s3) = c).
  { unfold file_img. by rewrite Nat2Z.id. }
  assert (Hfp : file_pos i (world s3) = 0%nat).
  { change (world s3) with w3. unfold file_pos. rewrite (proj1 (rd_open _ _ _ _ _ _ _ _ Hr)). by rewrite Hp0. }
  destruct (exec_run (new_file_ops (ops_of blkio) self) (next_io w1) (file_img img addrs (Z.of_nat (length c)))
    (file_pos i) (file_inv img I (next_io w1) i addrs (Z.of_nat (length c))) stack s3 Hio Hin Hfp l root Hstack Htp Hfree)
    as (k & w & l' & E4 & _ & _ & Hlds & _); [rewrite Hfi; exact Hload|rewrite Hfi; exact Hroom|].
  rewrite Hfi in E4, Hlds. eexists _, _. split.
  - unfold run_init. rewrite (bind_Ok _ _ _ _ _ (run_on_thr intr_enable s _ t eq_refl)).
    rewrite (bind_Ok _ _ _ _ _ (run_on_world _ (with_ptm (with_tthr t (ptm s)) s) _ _ E1)). cbn [fst snd].
    change (default 0 (Some blkio)) with blkio.
    change (negb (0 =? 0)) with false. cbn iota.
    set (s1 := with_world w1 _).
    rewrite (bind_Ok _ _ _ _ _ (run_on_world _ s1 _ _ E2)).
    change (negb (0 =? 0)) with false. cbn iota. set (s2 := with_world w2 _).
    rewrite (bind_Ok _ _ _ _ _ (run_on_world _ s2 _ _ E3)). cbn [fst snd].
    change (0 <? 0) with false. cbn iota. change (default 0 (Some (next_io w1))) with (next_io w1).
    by rewrite (bind_Ok _ _ _ _ _ E4).
  - split_and!; [done..|]. intros ph j Hph Hj. rewrite Forall_forall in Hlds. by apply (Hlds ph Hph j).
Qed.

(** ** Runs *)

Definition exec_pst {R : Type} (k : kmem) (w : R) : pst R :=
  mkPst (mkTimer (with_tp 1000 (with_pages k demo_s0)) (fun _ => mkAlarm 0 0) 0 0 0 0 false false 0)
    (fun _ => mkProc 0 0 0 (repeat 0 16)) (repeat 0 16) (fun _ => 0) w [] 0.

Lemma demo_user_free : user_free demo_vm demo_pages demo_root.
Proof.
  constructor; [exact demo_vm_inv| |vm_compute; reflexivity|].
  - apply kernel_part_none. apply (bool_decide_unpack _). vm_compute. done.
  - split; [discriminate|vm_compute; lia].
Qed.


Lemma exec_failure_unmaps_witness :
  exists err s', process_exec (fun _ => iolit_ops) (repeat 0 56) 1 (exec_pst demo_torn (mkLit (repeat 0 64) 64 0)) = Ok (Ret err, s') /\
    err < 0 /\ umap_at (mem demo_torn) demo_root USER_START_VMA <> None /\
    forall i j e, idx i -> idx j -> umap (mem (pages (tthr (ptm s')))) demo_root i j = Some e -> user_leaf e = false.
Proof.
  destruct (exec_failure_unmaps (fun _ => iolit_ops) 1 lit_buf (fun l => Z.to_nat (lit_pos l))
    (fun l => lit_ok l /\ 0 <= lit_pos l) (repeat 0 56) (exec_pst demo_torn (mkLit (repeat 0 64) 64 0))
    (drop 3 demo_pages) demo_root) as (err & s' & E & He & _ & Hu).
  - discriminate.
  - split; [split; reflexivity|reflexivity].
  - reflexivity.
  - exact demo_torn_inv.
  - apply kernel_part_none. apply (bool_decide_unpack _). vm_compute. done.
  - split; [discriminate|vm_compute; lia].
  - vm_compute. discriminate.
  - intros H. vm_compute in H. by destruct H as (H & _).
  - exists err, s'. split; [exact E|]. split; [exact He|]. split; [vm_compute; discriminate|exact Hu].
Defined.

(** A machine before start-up: the static structures of thread.c and clear memory. *)
Definition cold {R : Type} (w : R) : pst R :=
  mkPst (mkTimer (static_state 1000 2000 (with_pages (mkKmem ∅ 0 0 0 0 0) demo_s0)) (fun _ => mkAlarm 0 0) 0 0 0 0 false false 0)
    (fun _ => mkProc 0 0 0 []) (repeat 0 16) (fun _ => 0) w [] 0.

Lemma cold_clear : ram_clear demo_image (mem (mkKmem ∅ 0 0 0 0 0)) /\
  forall p i, p ∈ pages_between (kimg_end demo_image) RAM_END -> idx i ->
    flags (ent (mem (mkKmem ∅ 0 0 0 0 0)) (p + 8 * i)) = 0.
Proof.
  split; [constructor; [|reflexivity]; intros t i _ _; unfold rd; cbn [mem]; by rewrite lookup_empty|].
  intros p i _ _. apply clean_words. apply map_Forall_empty.
Qed.

Lemma kernel_init_spec_witness :
  exists s', kernel_init (mret tt) (mret tt) (mret tt) demo_image 1000 2000 3000 5000 4000 7000 6000 (cold tt) = Ok (tt, s') /\
    tp (tthr (ptm s')) = 1000 /\ current_process s' = Ok (3000, s').
Proof.
  destruct (kernel_init_spec (mret tt) (mret tt) (mret tt) demo_image 1000 2000 3000 5000 4000 7000 6000 (fun _ => True) 16 (cold tt)
    (with_pages (mkKmem ∅ 0 0 0 0 0) demo_s0) tt tt tt) as (s' & E & _ & _ & _ & Ht & _ & Hc & _).
  - reflexivity.
  - reflexivity.
  - reflexivity.
  - exact demo_image_ok.
  - exact (proj1 cold_clear).
  - exact (proj2 cold_clear).
  - discriminate.
  - discriminate.
  - discriminate.
  - discriminate.
  - reflexivity.
  - reflexivity.
  - exists s'. split; [exact E|]. split; [exact Ht|exact Hc].
Defined.

(** A disk with the program of Elf.v under the name of the first program. *)
Definition init_args : list (list Z * list Z) := [(user_bin ++ INIT_NAME, demo_elf)].
Definition init_image : list Z := image_or_nil (mkfs demo_stale init_args).

Lemma init_buildable : buildable init_args.
Proof.
  constructor.
  - by vm_compute; lia.
  - apply (bool_decide_unpack _). by vm_compute.
  - apply (bool_decide_unpack _). by vm_compute.
  - repeat constructor; by vm_compute.
Qed.

Lemma init_image_built : mkfs demo_stale init_args = Ok init_image.
Proof.
  destruct (mkfs_open_run demo_stale init_args) as (image & E & _); [intros; apply repeat_length|exact init_buildable|].
  unfold init_image. by rewrite E.
Qed.
