(* ===== verification/Attach.v ===== *)
(** main.c, uart.c, virtio.c: attaching the devices.

    A [board] is what the drivers share: the kernel heap, the interrupt
    controller and the table of service routines, the table of devices, and the
    devices themselves, by the address of their registers.  The two loops of
    [main] are [attach_uarts] and [attach_virtio]; [open_device] is what the open
    functions they register do, and [blk_ops] are the operations of the I/O object
    of a block device. *)

From S2P Require Import Prelude CString Uart PhysMem PageTable Thread Intr Io Device Kfs Virtio Vioblk.

Definition UART0_IOBASE : Z := 0x10000000.
Definition UART1_IOBASE : Z := 0x10000100.
Definition UART0_IRQNO : Z := 10.
Definition VIRT0_IOBASE : Z := 0x10001000.
Definition VIRT1_IOBASE : Z := 0x10002000.
Definition VIRT0_IRQNO : Z := 1.
Definition UART_IRQ_PRIO : Z := 3.
(** [sizeof(struct uart_device)], and the addresses of [uart_isr], [uart_open] and
    [uart_open_ebusy]. *)
Definition UART_SZ : Z := 216.
Definition UART_ISR : Z := 0x80030000.
Definition UART_OPEN : Z := 0x80040000.
Definition UART_OPEN_EBUSY : Z := 0x80050000.

(** A VirtIO slot: its registers, the structure of its driver, the device. *)
Record slot (HW : Type) := mkSlot { sl_regs : virtio_mmio_regs; sl_dev : vioblk_device; sl_hw : HW }.
Arguments mkSlot {HW}.
Arguments sl_regs {HW}.
Arguments sl_dev {HW}.
Arguments sl_hw {HW}.

(** [ports] and [slots] are the hardware by the address of its registers; [uarts]
    the structures of the serial driver by their address; [blk_regs] the member
    [regs] of the structures of the block driver; [b_con] the console. *)
Record board (HW C : Type) := mkBoard {
  b_heap : kmem; b_intr : intr_state; b_devs : devtab; devmgr_initialized : Z; b_vlk : Z;
  ports : Z -> Uart.uart_regs; uarts : Z -> Uart.uart_device;
  slots : gmap Z (slot HW); blk_regs : Z -> Z; b_con : C
}.
Arguments mkBoard {HW C}.
Arguments b_heap {HW C}.
Arguments b_intr {HW C}.
Arguments b_devs {HW C}.
Arguments devmgr_initialized {HW C}.
Arguments b_vlk {HW C}.
Arguments ports {HW C}.
Arguments uarts {HW C}.
Arguments slots {HW C}.
Arguments blk_regs {HW C}.
Arguments b_con {HW C}.

Section Board.
Context {HW C : Type} {B : BlockDev HW}.
(** The running thread, the bytes memory holds before anything is stored, and
    what the stack holds where [vioblk_attach] has its feature set. *)
Context (self : Z) (stale : Z -> Z) (enabled0 : list Z).
Notation board := (board HW C).
Notation BM := (M board).

Definition set_b_heap (h : kmem) (b : board) : board :=
  mkBoard h (b_intr b) (b_devs b) (devmgr_initialized b) (b_vlk b) (ports b) (uarts b) (slots b) (blk_regs b) (b_con b).
Definition set_b_intr (i : intr_state) (b : board) : board :=
  mkBoard (b_heap b) i (b_devs b) (devmgr_initialized b) (b_vlk b) (ports b) (uarts b) (slots b) (blk_regs b) (b_con b).
Definition set_b_devs (t : devtab) (b : board) : board :=
  mkBoard (b_heap b) (b_intr b) t (devmgr_initialized b) (b_vlk b) (ports b) (uarts b) (slots b) (blk_regs b) (b_con b).
Definition set_uart (a : Z) (d : Uart.uart_device) (b : board) : board :=
  mkBoard (b_heap b) (b_intr b) (b_devs b) (devmgr_initialized b) (b_vlk b) (ports b) (upd (uarts b) a d)
    (slots b) (blk_regs b) (b_con b).
Definition set_blk_regs (f : Z -> Z) (b : board) : board :=
  mkBoard (b_heap b) (b_intr b) (b_devs b) (devmgr_initialized b) (b_vlk b) (ports b) (uarts b) (slots b) f (b_con b).
Definition set_b_con (c : C) (b : board) : board :=
  mkBoard (b_heap b) (b_intr b) (b_devs b) (devmgr_initialized b) (b_vlk b) (ports b) (uarts b) (slots b) (blk_regs b) c.

Definition on_b_heap {A} (m : M kmem A) : BM A := fun b =>
  obind (m (b_heap b)) (fun '(x, h) => Ok (x, set_b_heap h b)).
Definition on_b_intr {A} (m : M intr_state A) : BM A := fun b =>
  obind (m (b_intr b)) (fun '(x, i) => Ok (x, set_b_intr i b)).
Definition on_b_devs {A} (m : M devtab A) : BM A := fun b =>
  obind (m (b_devs b)) (fun '(x, t) => Ok (x, set_b_devs t b)).
Definition on_b_con {A} (m : M C A) : BM A := fun b =>
  obind (m (b_con b)) (fun '(x, c) => Ok (x, set_b_con c b)).

(** The board as the block driver sees it from one slot. *)
Definition view (sl : slot HW) (b : board) : vstate HW :=
  mkV (sl_regs sl) (sl_dev sl) (b_intr b) (b_devs b) (b_vlk b) (b_heap b) (sl_hw sl).
Definition put_slot (base : Z) (v : vstate HW) (b : board) : board :=
  mkBoard (v_heap v) (v_intr v) (v_devs v) (devmgr_initialized b) (vlk v) (ports b) (uarts b)
    (<[base := mkSlot (v_regs v) (v_dev v) (hw v)]> (slots b)) (blk_regs b) (b_con b).
Definition on_slot {A} (base : Z) (m : M (vstate HW) A) : BM A := fun b =>
  match slots b !! base with
  | None => Undef "no device at this address"
  | Some sl => obind (m (view sl b)) (fun '(x, v) => Ok (x, put_slot base v b))
  end.

(** device.c *)
Definition devmgr_init : BM unit := modify (fun b =>
  mkBoard (b_heap b) (b_intr b) (b_devs b) 1 (b_vlk b) (ports b) (uarts b) (slots b) (blk_regs b) (b_con b)).

(** ** Attaching *)

(** The two conditions of a structure are initialised as empty; their lists are part
    of the scheduler's state. *)
Definition uart_attach (mmio_base irqno : Z) : BM unit :=
  if mmio_base =? UART0_IOBASE then
    on_b_devs (device_register (Some SER_NAME) UART_OPEN_EBUSY 0) ;; mret tt
  else
    dev ← on_b_heap (kcalloc 1 UART_SZ);
    modify (fun b => set_uart dev (Uart.uart_setup (ports b mmio_base) irqno) b) ;;
    on_b_intr (intr_register_isr irqno UART_IRQ_PRIO UART_ISR dev) ;;
    on_b_devs (device_register (Some SER_NAME) UART_OPEN dev) ;; mret tt.

(** [virtio_attach] at a slot; the second line is the assignment [dev->regs = regs]
    of [vioblk_attach], for the structure of the slot. *)
Definition attach_slot (mmio_base irqno : Z) : BM unit :=
  on_slot mmio_base (virtio_attach stale enabled0 irqno) ;;
  modify (fun b => match slots b !! mmio_base with
                   | Some sl => set_blk_regs (upd (blk_regs b) (v_addr (sl_dev sl)) mmio_base) b
                   | None => b
                   end).

Definition attach_uarts : BM unit :=
  forM (range 3 0 3 1) (fun i => uart_attach (UART0_IOBASE + (UART1_IOBASE - UART0_IOBASE) * i) (UART0_IRQNO + i)).

Definition attach_virtio : BM unit :=
  forM (range 8 0 8 1) (fun i => attach_slot (VIRT0_IOBASE + (VIRT1_IOBASE - VIRT0_IOBASE) * i) (VIRT0_IRQNO + i)).

(** ** Opening *)

Definition open_uart (dev : Z) : BM (Z * option Z) := fun b =>
  let '(r, d) := Uart.uart_open (uarts b dev) in
  let b' := set_uart dev d b in
  if r =? 0 then obind (on_b_intr (intr_enable_irq (Uart.irqno d)) b') (fun '(_, b'') => Ok ((0, Some dev), b''))
  else Ok ((r, None), b').

Definition on_blk {A} (dev : Z) (m : M (vstate HW) A) : BM A := fun b => on_slot (blk_regs b dev) m b.

(** The open function at an address, on its [aux]. *)
Definition open_device (fn aux : Z) : BM (Z * option Z) :=
  if fn =? UART_OPEN_EBUSY then mret (Uart.uart_open_ebusy, None)
  else if fn =? UART_OPEN then open_uart aux
  else if fn =? VIOBLK_OPEN then r ← on_blk aux vioblk_open; mret (r, Some aux)
  else undef "call through a bad pointer".

(** The operations of the I/O object of the block device at [dev]. *)
Definition blk_ops (dev : Z) : io_ops board :=
  mkOps (Some (on_blk dev vioblk_close)) (Some (fun n => on_blk dev (vioblk_read self n)))
    (Some (fun bs => on_blk dev (vioblk_write self stale bs)))
    (Some (fun cmd arg => on_blk dev (vioblk_ioctl self cmd arg))).
End Board.

(** ** The heap block *)

(** A part of the heap block has been handed out: nothing but its words has
    changed. *)
Record carved (k k' : kmem) : Prop := {
  cv_start : heap_start k' = heap_start k;
  cv_end : heap_start k <= heap_end k' <= heap_end k;
  cv_al : heap_end k' mod 16 = 0;
  cv_free : free_list k' = free_list k;
  cv_tags : satp k' = satp k /\ main_mtag k' = main_mtag k;
  cv_mem : forall x, x < heap_end k' \/ heap_end k <= x -> rd (mem k') x = rd (mem k) x
}.

Lemma carved_trans k1 k2 k3 : carved k1 k2 -> carved k2 k3 -> carved k1 k3.
Proof.
  intros [H1 H2 H3 H4 [H5 H6] H7] [G1 G2 G3 G4 [G5 G6] G7]. constructor; try (split; congruence); try congruence; [lia|].
  intros x Hx. rewrite G7, H7; [done|lia|lia].
Qed.

Lemma carved_wf k k' : heap_wf k -> carved k k' -> heap_wf k'.
Proof. intros [] []. constructor; lia. Qed.

Lemma kmalloc_carved k n :
  heap_wf k -> in_bounds n -> round16 n <= PAGE_SIZE -> round16 n <= heap_end k - heap_start k ->
  exists k', kmalloc n k = Ok (heap_end k - round16 n, k') /\ carved k k' /\ heap_end k' = heap_end k - round16 n.
Proof.
  intros Hw Hb Hp Hr. pose proof (round16_spec n Hb) as [Hm Hge]. pose proof (heap_room k Hw) as Hroom. destruct Hw.
  eexists. split.
  - unfold kmalloc. rewrite (proj2 (Z.ltb_ge _ _) Hp), bind_run. cbn [get obind]. rewrite Hroom, (proj2 (Z.leb_le _ _) Hr). done.
  - split; [|done]. constructor; cbn; try done; [unfold in_bounds in *; lia|]. by apply sub_aligned.
Qed.

Lemma zero_words_rd n a m x :
  x < a \/ a + 8 * Z.of_nat n <= x -> rd (zero_words n a m) x = rd m x.
Proof.
  revert a m. induction n as [|n IH]; intros a m Hx; cbn [zero_words]; [done|].
  rewrite IH by lia. apply rd_insert_ne. lia.
Qed.

Lemma kcalloc_carved k n :
  heap_wf k -> 0 < n <= PAGE_SIZE -> n mod 8 = 0 -> round16 n <= PAGE_SIZE -> round16 n <= heap_end k - heap_start k ->
  exists k', kcalloc 1 n k = Ok (heap_end k - round16 n, k') /\ carved k k' /\ heap_end k' = heap_end k - round16 n.
Proof.
  intros Hw Hn H8 Hp Hr. assert (Hb : in_bounds n) by (unfold in_bounds, PAGE_SIZE in *; lia).
  pose proof (round16_spec n Hb) as [_ Hge].
  destruct (kmalloc_carved k n Hw Hb Hp Hr) as (k1 & E & [] & He). eexists. split; [|split].
  - unfold kcalloc. rewrite Z.mul_1_l, u64_small by (unfold PAGE_SIZE in *; lia).
    destruct (Z.ltb_spec (SIZE_MAX / n) 1) as [H|_].
    { unfold SIZE_MAX, PAGE_SIZE in *. assert (1 <= 18446744073709551615 / n) by (apply Z.div_le_lower_bound; lia). lia. }
    rewrite (bind_Ok _ _ _ _ _ E). unfold memset_zero. rewrite bind_run. cbn [modify obind]. rewrite H8. done.
  - constructor; try done. intros x Hx. cbn [set_mem mem heap_end] in *. change (0 =? 0) with true. cbn iota.
    rewrite zero_words_rd; [by apply cv_mem0|]. rewrite Z2Nat.id by (apply Z.div_pos; lia). rewrite He in Hx. wrap_lia.
  - done.
Qed.

(** ** The loops *)

Definition port_base (i : Z) : Z := UART0_IOBASE + (UART1_IOBASE - UART0_IOBASE) * i.
Definition slot_base (i : Z) : Z := VIRT0_IOBASE + (VIRT1_IOBASE - VIRT0_IOBASE) * i.

Section Run.
Context {HW C : Type} {B : BlockDev HW} (stale : Z -> Z) (enabled0 : list Z).
Notation board := (board HW C).

Lemma run_on_b_heap {A} (m : M kmem A) (b : board) x h :
  m (b_heap b) = Ok (x, h) -> on_b_heap m b = Ok (x, set_b_heap h b).
Proof. intros E. unfold on_b_heap. by rewrite E. Qed.
Lemma run_on_b_intr {A} (m : M intr_state A) (b : board) x i :
  m (b_intr b) = Ok (x, i) -> on_b_intr m b = Ok (x, set_b_intr i b).
Proof. intros E. unfold on_b_intr. by rewrite E. Qed.
Lemma run_on_b_devs {A} (m : M devtab A) (b : board) x t :
  m (b_devs b) = Ok (x, t) -> on_b_devs m b = Ok (x, set_b_devs t b).
Proof. intros E. unfold on_b_devs. by rewrite E. Qed.
Lemma run_on_slot {A} base (m : M (vstate HW) A) (b : board) sl x v :
  slots b !! base = Some sl -> m (view sl b) = Ok (x, v) -> on_slot base m b = Ok (x, put_slot base v b).
Proof. intros Es E. unfold on_slot. by rewrite Es, E. Qed.

Lemma view_put base v (b : board) : view (mkSlot (v_regs v) (v_dev v) (hw v)) (put_slot base v b) = v.
Proof. by destruct v. Qed.

Lemma ser_name_ok : name_ok SER_NAME.
Proof. split; [apply (bool_decide_unpack _); by vm_compute|repeat constructor; lia]. Qed.
Lemma blk_name_ok : name_ok BLK_NAME.
Proof. split; [apply (bool_decide_unpack _); by vm_compute|repeat constructor; lia]. Qed.

Lemma register_isr_run irq fn aux p i :
  0 <= irq < NIRQ -> 0 < p -> intr_register_isr irq p fn aux i = Ok (tt, set_isrtab (<[Z.to_nat irq := mkIsr fn aux p]> (isrtab i)) i).
Proof.
  intros [H1 H2] Hp. unfold intr_register_isr. rewrite (proj2 (Z.ltb_ge _ _) H1), (proj2 (Z.leb_gt _ _) H2). cbn [orb].
  by rewrite (proj2 (Z.leb_gt _ _) Hp).
Qed.

(** The console's port is only entered in the table. *)
Lemma console_port_run irq (b : board) devs :
  holds (b_devs b) devs -> (length devs < 16)%nat ->
  exists t, uart_attach UART0_IOBASE irq b = Ok (tt, set_b_devs t b) /\ holds t (devs ++ [(SER_NAME, UART_OPEN_EBUSY, 0)]).
Proof.
  intros Hd Hl. destruct (register_run (b_devs b) devs SER_NAME UART_OPEN_EBUSY 0 Hd ser_name_ok) as (t & E & Ht); [done|done|].
  exists t. split; [|done]. unfold uart_attach. rewrite Z.eqb_refl. by rewrite (bind_Ok _ _ _ _ _ (run_on_b_devs _ _ _ _ E)).
Qed.

(** Any other port gets a structure from the heap, its service routine and an
    entry in the table. *)
Definition port_attached (b : board) (a base irq : Z) (h : kmem) (t : devtab) : board :=
  mkBoard h (set_isrtab (<[Z.to_nat irq := mkIsr UART_ISR a UART_IRQ_PRIO]> (isrtab (b_intr b))) (b_intr b)) t
    (devmgr_initialized b) (b_vlk b) (ports b) (upd (uarts b) a (Uart.uart_setup (ports b base) irq)) (slots b) (blk_regs b) (b_con b).

Lemma port_run base irq (b : board) devs :
  base <> UART0_IOBASE -> 0 <= irq < NIRQ -> holds (b_devs b) devs -> (length devs < 16)%nat ->
  heap_wf (b_heap b) -> 224 <= heap_end (b_heap b) - heap_start (b_heap b) ->
  let a := heap_end (b_heap b) - 224 in
  exists h t, uart_attach base irq b = Ok (tt, port_attached b a base irq h t) /\
    holds t (devs ++ [(SER_NAME, UART_OPEN, a)]) /\ carved (b_heap b) h /\ heap_end h = a.
Proof.
  intros Hb Hi Hd Hl Hw Hr a.
  destruct (kcalloc_carved (b_heap b) UART_SZ Hw) as (h & E & Hc & He); [done|done|done|done|].
  change (round16 UART_SZ) with 224 in E, He. fold a in E, He.
  destruct (register_run (b_devs b) devs SER_NAME UART_OPEN a Hd ser_name_ok) as (t & Et & Ht); [done|done|].
  exists h, t. split; [|done]. unfold uart_attach. rewrite (proj2 (Z.eqb_neq _ _) Hb).
  rewrite (bind_Ok _ _ _ _ _ (run_on_b_heap _ _ _ _ E)). rewrite bind_run. cbn [modify obind].
  erewrite bind_Ok by (apply run_on_b_intr, register_isr_run; [done|done]).
  erewrite bind_Ok by (apply run_on_b_devs; exact Et). done.
Qed.

(** A slot without a device, and before its driver has a structure. *)
Definition absent (sl : slot HW) : Prop :=
  (magic_value (sl_regs sl) <> VIRTIO_MAGIC \/ version (sl_regs sl) <> 2 \/ device_id (sl_regs sl) = VIRTIO_ID_NONE) /\
  v_addr (sl_dev sl) = 0.

Lemma absent_run base irq (b : board) sl :
  slots b !! base = Some sl -> absent sl ->
  attach_slot stale enabled0 base irq b = Ok (tt, set_blk_regs (upd (blk_regs b) 0 base) b).
Proof.
  intros Es [Ha H0]. unfold attach_slot. rewrite (bind_Ok _ _ _ tt b).
  { unfold modify. by rewrite Es, H0. }
  unfold on_slot. rewrite Es. assert (E : virtio_attach stale enabled0 irq (view sl b) = Ok (tt, view sl b)).
  { unfold virtio_attach. rewrite bind_run. cbn [gets obind view v_regs].
    destruct (Z.eqb_spec (magic_value (sl_regs sl)) VIRTIO_MAGIC); [|done]. cbn [negb].
    destruct (Z.eqb_spec (version (sl_regs sl)) 2); [|done]. cbn [negb].
    destruct (Z.eqb_spec (device_id (sl_regs sl)) VIRTIO_ID_NONE); [done|]. tauto. }
  rewrite E. cbn [obind]. do 2 f_equal. destruct b, sl. unfold put_slot. cbn in *. f_equal. by apply insert_id.
Qed.

Lemma absent_slots_run l : forall b : board,
  (forall i, i ∈ l -> exists sl, slots b !! slot_base i = Some sl /\ absent sl) ->
  exists f, forM l (fun i => attach_slot stale enabled0 (slot_base i) (VIRT0_IRQNO + i)) b = Ok (tt, set_blk_regs f b) /\
    forall a, a <> 0 -> f a = blk_regs b a.
Proof.
  induction l as [|i l IH]; intros b Hl.
  { exists (blk_regs b). split; [|done]. by destruct b. }
  destruct (Hl i) as (sl & Es & Ha); [by left|].
  destruct (IH (set_blk_regs (upd (blk_regs b) 0 (slot_base i)) b)) as (f & E & Hf); [intros k Hk; apply Hl; by right|].
  exists f. split.
  - erewrite forM_cons by exact (absent_run _ _ _ sl Es Ha). exact E.
  - intros a Hne. rewrite Hf by done. cbn. by apply upd_ne.
Qed.
End Run.

(** A board at start-up with a block device in slot [j] and nothing in the others;
    the tables are empty. *)
Record board_ready {HW C : Type} (image : HW -> list Z) (b : board HW C) (j : Z) (sl : slot HW) : Prop := {
  br_devs : holds (b_devs b) [];
  br_tab : length (isrtab (b_intr b)) = 32%nat;
  br_slot : 0 <= j < 8 /\ slots b !! slot_base j = Some sl;
  br_absent : forall i, 0 <= i < 8 -> i <> j -> exists sl', slots b !! slot_base i = Some sl' /\ absent sl';
  br_probe : magic_value (sl_regs sl) = VIRTIO_MAGIC /\ version (sl_regs sl) = 2 /\ device_id (sl_regs sl) = VIRTIO_ID_BLOCK;
  br_features : features_kept (sl_regs sl) = true /\ Forall (offers (sl_regs sl) needed_features) feat_idxs;
  br_blksz : Z.testbit (device_features (sl_regs sl) 0) VIRTIO_BLK_F_BLK_SIZE = true -> blk_blk_size (sl_regs sl) = 512;
  br_size : blk_capacity (sl_regs sl) * 512 = Z.of_nat (length (image (sl_hw sl)));
  br_small : Z.of_nat (length (image (sl_hw sl))) < 2 ^ 31
}.

(** The heap block has room for the structures: 224 bytes for a port and 736 for
    the block device with its buffer. *)
Definition drivers_fit (h : kmem) : Prop :=
  heap_wf h /\ 0 < heap_start h /\ 224 + 224 + 736 <= heap_end h - heap_start h.

(** The devices in the table after the loops, their structures at [a1], [a2] and
    [a3]. *)
Definition all_devs (a1 a2 a3 : Z) : list (list Z * Z * Z) :=
  [(SER_NAME, UART_OPEN_EBUSY, 0); (SER_NAME, UART_OPEN, a1); (SER_NAME, UART_OPEN, a2); (BLK_NAME, VIOBLK_OPEN, a3)].

Section Devices.
Context {HW C : Type} {B : BlockDev HW} (image : HW -> list Z) `{!BlockHw B image}.
Context (stale : Z -> Z) (enabled0 : list Z) (Hen : length enabled0 = 4%nat).
Context (b : board HW C) (j : Z) (sl : slot HW) (Hb : board_ready image b j sl) (Hheap : drivers_fit (b_heap b)).
Let e := heap_end (b_heap b).

Lemma attach_uarts_run :
  exists b1, attach_uarts b = Ok (tt, b1) /\
    holds (b_devs b1) [(SER_NAME, UART_OPEN_EBUSY, 0); (SER_NAME, UART_OPEN, e - 224); (SER_NAME, UART_OPEN, e - 448)] /\
    isrtab (b_intr b1) = <[12%nat := mkIsr UART_ISR (e - 448) UART_IRQ_PRIO]> (<[11%nat := mkIsr UART_ISR (e - 224) UART_IRQ_PRIO]> (isrtab (b_intr b))) /\
    uarts b1 (e - 224) = Uart.uart_setup (ports b (port_base 1)) 11 /\
    uarts b1 (e - 448) = Uart.uart_setup (ports b (port_base 2)) 12 /\
    slots b1 = slots b /\ b_con b1 = b_con b /\ carved (b_heap b) (b_heap b1) /\ heap_end (b_heap b1) = e - 448.
Proof.
  destruct Hheap as (Hw & _ & Hr). pose proof (br_devs _ _ _ _ Hb) as Hd.
  unfold attach_uarts. change (range 3 0 3 1) with [0; 1; 2].
  destruct (console_port_run UART0_IRQNO b [] Hd) as (t0 & E0 & H0); [cbn; lia|].
  destruct (port_run (port_base 1) 11 (set_b_devs t0 b) _ ltac:(done) ltac:(done) H0) as (h1 & t1 & E1 & H1 & Hc1 & He1);
    [cbn; lia|done|cbn; lia|].
  set (b1 := port_attached _ _ _ _ _ _) in E1.
  destruct (port_run (port_base 2) 12 b1 _ ltac:(done) ltac:(done) H1) as (h2 & t2 & E2 & H2 & Hc2 & He2);
    [cbn; lia|by eapply carved_wf|cbn; destruct Hc1; cbn in *; lia|].
  cbn [b_heap set_b_devs] in *. change (b_heap b1) with h1 in *. fold e in He1.
  assert (Ee : heap_end h1 - 224 = e - 448) by (rewrite He1; unfold e; lia). rewrite Ee in *.
  eexists. split_and!.
  - erewrite forM_cons by exact E0. erewrite forM_cons by exact E1. erewrite forM_cons by exact E2. reflexivity.
  - exact H2.
  - reflexivity.
  - cbn. rewrite upd_ne by lia. by rewrite upd_eq.
  - cbn. by rewrite upd_eq.
  - done.
  - done.
  - cbn. by eapply carved_trans.
  - done.
Qed.

(** The slot with the device, after the ports. *)
Lemma block_slot_run (b1 : board HW C) devs a :
  slots b1 = slots b -> holds (b_devs b1) devs -> (length devs < 16)%nat ->
  length (isrtab (b_intr b1)) = 32%nat -> heap_wf (b_heap b1) ->
  736 <= heap_end (b_heap b1) - heap_start (b_heap b1) -> heap_end (b_heap b1) - 736 = a ->
  let irq := VIRT0_IRQNO + j in
  exists b2 sl2 v, attach_slot stale enabled0 (slot_base j) irq b1 = Ok (tt, b2) /\
    holds (b_devs b2) (devs ++ [(BLK_NAME, VIOBLK_OPEN, a)]) /\
    isrtab (b_intr b2) = <[Z.to_nat irq := mkIsr VIOBLK_ISR a VIOBLK_IRQ_PRIO]> (isrtab (b_intr b1)) /\
    uarts b2 = uarts b1 /\ b_con b2 = b_con b1 /\ blk_regs b2 a = slot_base j /\
    slots b2 = <[slot_base j := sl2]> (slots b) /\ (carved (b_heap b1) (b_heap b2) /\ heap_end (b_heap b2) = a) /\
    vioblk_open (view sl2 b2) = Ok (0, v) /\ vinv image v /\ v_pos (v_dev v) = 0 /\
    vimg image v = image (sl_hw sl) /\ v_heap v = b_heap b2.
Proof using BlockHw0 Hb Hen.
  intros Es Hd Hl Ht Hw Hr Ea irq.
  destruct Hb as [_ _ [Hj Hs] _ (Hm & Hv & Hid) [Hk Ho] Hbs Hsz Hsm].
  destruct (kmalloc_carved (b_heap b1) 728 Hw) as (h & Eh & Hc & He); [by split|by vm_compute|done|].
  change (round16 728) with 736 in Eh, He. rewrite Ea in Eh, He.
  assert (Hat : attachable image (view sl b1) irq devs).
  { constructor; try done; [unfold irq, NIRQ, VIRT0_IRQNO; lia|by exists a, h]. }
  destruct (attach_run image stale (view sl b1) irq devs enabled0 a h Hat Eh Hen) as (v1 & E1 & Ha & _).
  destruct (attached_open image _ v1 irq devs a h Hat Ha) as (v & E2 & Hok & Hlk & Hp & Him & Hh & _).
  destruct Ha as (_ & _ & _ & _ & _ & _ & _ & _ & _ & Haddr & Hh1 & Htab & Hdev).
  assert (Es1 : slots b1 !! slot_base j = Some sl) by (by rewrite Es).
  set (sl2 := mkSlot (v_regs v1) (v_dev v1) (hw v1)). set (b2 := put_slot (slot_base j) v1 b1).
  exists (set_blk_regs (upd (blk_regs b1) a (slot_base j)) b2), sl2, v. split_and!; try done.
  - unfold attach_slot. rewrite (bind_Ok _ _ _ tt b2 (run_on_slot _ _ _ sl tt v1 Es1 E1)). unfold modify.
    assert (Es2 : slots b2 !! slot_base j = Some sl2) by apply lookup_insert_eq. rewrite Es2.
    change (v_addr (sl_dev sl2)) with (v_addr (v_dev v1)). by rewrite Haddr.
  - cbn. by rewrite upd_eq.
  - cbn. by rewrite Es.
  - cbn. by rewrite Hh1.
  - cbn. by rewrite Hh1.
  - split; [done|]. split; [done|]. lia.
  - cbn. by rewrite Hh, Hh1.
Qed.

(** What the loops leave. *)
Record devices_attached (b' : board HW C) (a1 a2 a3 : Z) : Prop := {
  da_tab : holds (b_devs b') (all_devs a1 a2 a3);
  da_addrs : a1 = e - 224 /\ a2 = e - 448 /\ a3 = e - 1184;
  da_isrs : isrtab (b_intr b') = <[Z.to_nat (VIRT0_IRQNO + j) := mkIsr VIOBLK_ISR a3 VIOBLK_IRQ_PRIO]>
    (<[12%nat := mkIsr UART_ISR a2 UART_IRQ_PRIO]> (<[11%nat := mkIsr UART_ISR a1 UART_IRQ_PRIO]> (isrtab (b_intr b))));
  da_uarts : uarts b' a1 = Uart.uart_setup (ports b (port_base 1)) 11 /\
    uarts b' a2 = Uart.uart_setup (ports b (port_base 2)) 12;
  da_heap : carved (b_heap b) (b_heap b') /\ heap_end (b_heap b') = a3;
  da_con : b_con b' = b_con b;
  da_blk : exists sl', blk_regs b' a3 = slot_base j /\ slots b' !! slot_base j = Some sl' /\
    exists v, vioblk_open (view sl' b') = Ok (0, v) /\ vinv image v /\ v_pos (v_dev v) = 0 /\
      vimg image v = image (sl_hw sl) /\ v_heap v = b_heap b'
}.

Lemma attach_devices_run :
  exists b', (attach_uarts ;; attach_virtio stale enabled0) b = Ok (tt, b') /\
    devices_attached b' (e - 224) (e - 448) (e - 1184).
Proof using BlockHw0 Hb Hen Hheap.
  destruct attach_uarts_run as (b1 & E1 & Hd1 & Ht1 & Hu1 & Hu2 & Es1 & Ec1 & Hc1 & He1).
  destruct Hb as [_ Htab [Hj Hs] Habs _ _ _ _ _]. destruct Hheap as (Hw & Hpos & Hroom). pose proof (cv_end _ _ Hc1). pose proof (cv_start _ _ Hc1).
  assert (Hin : j ∈ range 8 0 8 1) by (apply range_elem; [lia|]; exists j; lia).
  apply list_elem_of_split in Hin as (l1 & l2 & El).
  assert (Hother : forall i, i ∈ l1 \/ i ∈ l2 -> 0 <= i < 8 /\ i <> j).
  { intros i Hi. pose proof (range_NoDup 8 0 8 1 ltac:(lia)) as Hnd. rewrite El in Hnd.
    apply NoDup_app in Hnd as (_ & Hd & Hnd). apply NoDup_cons in Hnd as [Hn _].
    assert (Hir : i ∈ range 8 0 8 1) by (rewrite El; set_solver).
    apply range_elem in Hir as (k & Hk & -> & _); [|lia]. split; [lia|]. intros Heq. rewrite Heq in Hi.
    destruct Hi as [Hi|Hi]; [by apply (Hd j Hi); left|done]. }
  destruct (absent_slots_run stale enabled0 l1 b1) as (f1 & E2 & Hf1).
  { intros i Hi. rewrite Es1. apply Habs; apply Hother; by left. }
  destruct (block_slot_run (set_blk_regs f1 b1) _ (e - 1184) Es1 Hd1) as (b3 & sl3 & v & E3 & Hd3 & Ht3 & Hu3 & Ec3 & Hr3 & Es3 & [Hc3 He3] & Hv);
    [cbn; lia|cbn; by rewrite Ht1, !length_insert|cbn; by eapply carved_wf|cbn; lia|cbn; lia|].
  destruct (absent_slots_run stale enabled0 l2 b3) as (f3 & E4 & Hf3).
  { intros i Hi. destruct (Hother i) as [Hi8 Hne]; [by right|]. rewrite Es3, lookup_insert_ne by (unfold slot_base, VIRT1_IOBASE, VIRT0_IOBASE; lia).
    by apply Habs. }
  exists (set_blk_regs f3 b3). split.
  - rewrite (bind_Ok _ _ _ _ _ E1). unfold attach_virtio. rewrite El. fold slot_base.
    erewrite forM_app by exact E2. erewrite forM_cons by exact E3. exact E4.
  - constructor; cbn; try done.
    + by rewrite Ht3; cbn; rewrite Ht1.
    + by rewrite Hu3.
    + split; [by eapply carved_trans|done].
    + by rewrite Ec3; cbn; rewrite Ec1.
    + exists sl3. split_and!; [rewrite Hf3 by (unfold e in *; lia); done|rewrite Es3; apply lookup_insert_eq|].
      exists v. exact Hv.
Qed.
End Devices.

(** ** The block device as a disk *)

Section Disk.
Context {HW C : Type} {B : BlockDev HW} (image : HW -> list Z) `{!BlockHw B image}.
Context (self : Z) (stale : Z -> Z) (dev : Z).
Notation board := (board HW C).

Definition blk_inv (b : board) : Prop :=
  exists sl, slots b !! blk_regs b dev = Some sl /\ vinv image (view sl b).
Definition blk_img (b : board) : list Z :=
  match slots b !! blk_regs b dev with Some sl => image (sl_hw sl) | None => [] end.
Definition blk_pos (b : board) : nat :=
  match slots b !! blk_regs b dev with Some sl => Z.to_nat (v_pos (sl_dev sl)) | None => 0%nat end.

(** What an operation of the driver does to the device, seen from the board. *)
Lemma on_blk_run {A} (m : M (vstate HW) A) (b : board) sl x v :
  slots b !! blk_regs b dev = Some sl -> m (view sl b) = Ok (x, v) ->
  exists b', on_blk dev m b = Ok (x, b') /\ (vinv image v -> blk_inv b') /\ blk_img b' = vimg image v /\ blk_pos b' = vat v /\
    b_heap b' = v_heap v /\ b_intr b' = v_intr v /\ b_devs b' = v_devs v.
Proof using Type.
  intros Es E. exists (put_slot (blk_regs b dev) v b). unfold on_blk. rewrite (run_on_slot _ _ _ _ _ _ Es E).
  assert (Es' : slots (put_slot (blk_regs b dev) v b) !! blk_regs b dev = Some (mkSlot (v_regs v) (v_dev v) (hw v))) by apply lookup_insert_eq.
  split; [done|]. unfold blk_inv, blk_img, blk_pos. change (blk_regs (put_slot _ v b) dev) with (blk_regs b dev). rewrite Es'.
  split_and!; try done. intros Hv. eexists. split; [done|]. by rewrite view_put.
Qed.

#[global] Instance blk_seekable : Seekable (blk_ops (C := C) self stale dev) blk_img blk_pos blk_inv.
Proof using BlockHw0.
  refine (@Build_Seekable board (blk_ops self stale dev) _ _ _ (fun n => on_blk dev (vioblk_read self n)) eq_refl _
            (fun cmd arg => on_blk dev (vioblk_ioctl self cmd arg)) eq_refl _).
  - intros b n (sl & Es & Hv) Hn. unfold blk_img at 1 2, blk_pos at 1 2. rewrite Es. intros Hin.
    destruct (dsk_read (Seekable := vioblk_seekable image self stale) (view sl b) n Hv Hn Hin) as (v & E & Hv' & Him).
    destruct (on_blk_run _ b sl _ _ Es E) as (b' & E' & Hi' & Him' & _). exists b'. split; [exact E'|].
    split; [by apply Hi'|]. rewrite Him'. unfold blk_img. by rewrite Es.
  - intros b p (sl & Es & Hv) Hp.
    destruct (dsk_seek (Seekable := vioblk_seekable image self stale) (view sl b) p Hv Hp) as (r & v & E & Hv' & Him & Hpos).
    destruct (on_blk_run _ b sl _ _ Es E) as (b' & E' & Hi' & Him' & Hp' & _). exists r, b'. split; [exact E'|].
    split; [by apply Hi'|]. rewrite Him', Hp'. unfold blk_img. rewrite Es. by split.
Defined.
End Disk.

(** ** Opening what has been attached *)

Section Open.
Context {HW C : Type} {B : BlockDev HW} (image : HW -> list Z) `{!BlockHw B image}.
Context (b0 : board HW C) (j : Z) (sl : slot HW).
Context (b : board HW C) (a1 a2 a3 : Z) (Hb : devices_attached image b0 j sl b a1 a2 a3).

Definition dev_at (name : list Z) (i : Z) : option device :=
  entry_of <$> (instances (all_devs a1 a2 a3) name !! Z.to_nat i).

Lemma open_named name i :
  name_ok name -> 0 <= i ->
  device_open open_device (b_devs b) name i b =
    match dev_at name i with Some d => open_device (openfn d) (daux d) b | None => Ok ((- ENODEV, None), b) end.
Proof using Hb.
  intros Hn Hi. destruct (da_tab _ _ _ _ _ _ _ _ Hb) as [Ht _ Ho]. unfold device_open. rewrite Ht.
  rewrite (open_scan_run _ _ name 0 i Ho Hn Hi), Z.sub_0_r. cbn [obind]. fold (dev_at name i). by destruct (dev_at name i).
Qed.

(** An interrupt line with a routine can be switched on. *)
Lemma enable_run irq en (s : intr_state) :
  0 < irq < NIRQ -> isrtab s !! Z.to_nat irq = Some en -> isr en <> 0 ->
  exists s', intr_enable_irq irq s = Ok (tt, s') /\ priority (plicr s') irq = prio en /\ isrtab s' = isrtab s.
Proof using Type.
  intros Hi He Hf. unfold NIRQ in Hi. unfold intr_enable_irq.
  erewrite bind_Ok by (apply isr_at_run; [lia|exact He]). rewrite (proj2 (Z.eqb_neq _ _) Hf). eexists. split; [reflexivity|].
  split; [|done]. change (priority (plic_set_source_priority irq (prio en) (plicr s)) irq = prio en).
  rewrite priority_set by (unfold src_ok; lia). by rewrite Z.eqb_refl.
Qed.

Lemma open_port a r irq :
  uarts b a = Uart.uart_setup r irq -> 0 < irq < NIRQ ->
  isrtab (b_intr b) !! Z.to_nat irq = Some (mkIsr UART_ISR a UART_IRQ_PRIO) ->
  exists b1, open_uart a b = Ok ((0, Some a), b1) /\ Uart.refcnt (uarts b1 a) = 1 /\
    Uart.ier (Uart.regs (uarts b1 a)) = Uart.IER_DREIE /\ priority (plicr (b_intr b1)) irq = UART_IRQ_PRIO.
Proof using Type.
  intros Hu Hi He. destruct (enable_run irq _ (b_intr b) Hi He) as (s' & Es & Hp & _); [done|].
  unfold open_uart. rewrite Hu. set (d := (Uart.uart_open (Uart.uart_setup r irq)).2).
  change (Uart.uart_open (Uart.uart_setup r irq)) with (0, d). cbn iota beta. change (0 =? 0) with true. cbn iota.
  change (Uart.irqno d) with irq. rewrite (run_on_b_intr (intr_enable_irq irq) (set_uart a d b) _ _ Es).
  eexists. split; [reflexivity|]. cbn. rewrite upd_eq. by split_and!.
Qed.

Lemma open_block :
  exists b1, device_open open_device (b_devs b) BLK_NAME 0 b = Ok ((0, Some a3), b1) /\
    blk_inv image a3 b1 /\ blk_img image a3 b1 = image (sl_hw sl) /\ blk_pos a3 b1 = 0%nat /\ b_heap b1 = b_heap b.
Proof using Hb.
  destruct (da_blk _ _ _ _ _ _ _ _ Hb) as (sl' & Hr & Hs & v & E & Hv & Hp & Him & Hh).
  rewrite <- Hr in Hs. destruct (on_blk_run image a3 vioblk_open b sl' 0 v Hs E) as (b1 & E1 & Hi & Hi1 & Hp1 & Hh1 & _).
  exists b1. rewrite (open_named BLK_NAME 0 blk_name_ok) by lia. change (dev_at BLK_NAME 0) with (Some (mkDevice (Some BLK_NAME) VIOBLK_OPEN a3)).
  cbn [openfn daux]. unfold open_device. change (VIOBLK_OPEN =? UART_OPEN_EBUSY) with false.
  change (VIOBLK_OPEN =? UART_OPEN) with false. rewrite Z.eqb_refl. cbn iota. rewrite (bind_Ok _ _ _ _ _ E1).
  split_and!; [done|by apply Hi|congruence|rewrite Hp1; unfold vat; by rewrite Hp|congruence].
Qed.
End Open.

(** ** Results *)


(** A board with the device of [Vioblk.demo_vstate] in the last slot. *)
Definition empty_slot : slot (list Z) :=
  mkSlot (mkRegs VIRTIO_MAGIC 2 VIRTIO_ID_NONE (fun _ => 0) true 0 0 (fun _ => 0) 0 (mkVirtq 0 0 0 0 0 0 0) 0 0 0 0 0)
    (mkVdev 0 0 0 0 0 0 0 0 0 (mkVq false 0 0 0 [] 0 0) []) [].
Definition block_slot (img : list Z) (n : Z) : slot (list Z) :=
  mkSlot (mkRegs VIRTIO_MAGIC 2 VIRTIO_ID_BLOCK (fun i => if i =? 0 then 2 ^ 28 + 2 ^ 6 else if i =? 1 then 2 ^ 8 + 1 else 0)
      true 0 0 (fun _ => 0) 0 (mkVirtq 0 0 0 0 0 0 0) 0 0 0 n 512)
    (mkVdev 0 0 0 0 0 0 0 0 0 (mkVq false 0 0 0 [] 0 0) []) img.
Definition demo_slots (img : list Z) (n : Z) : gmap Z (slot (list Z)) :=
  list_to_map ((slot_base 7, block_slot img n) :: ((fun i => (slot_base i, empty_slot)) <$> [0; 1; 2; 3; 4; 5; 6])).
Definition demo_board (img : list Z) (n : Z) : board (list Z) unit :=
  mkBoard (mkKmem ∅ 0 0x80100000 0x80101000 0 0) (mkIntr (repeat (mkIsr 0 0 0) 32) ∅ 0 0 0 0) (repeat no_device 16) 0 0
    (fun _ => Uart.mkRegs 0 0 0 0 []) (fun _ => Uart.zero_dev (Uart.mkRegs 0 0 0 0 []))
    (demo_slots img n) (fun _ => 0) tt.

Lemma demo_board_ready img n :
  0 <= n -> n * 512 = Z.of_nat (length img) -> Z.of_nat (length img) < 2 ^ 31 ->
  board_ready (fun h => h) (demo_board img n) 7 (block_slot img n).
Proof.
  intros Hn Hl Hs. constructor; try done.
  - constructor; [done|cbn; lia|constructor].
  - intros i Hi Hne. exists empty_slot.
    assert (Hc : i = 0 \/ i = 1 \/ i = 2 \/ i = 3 \/ i = 4 \/ i = 5 \/ i = 6) by lia.
    split; [|by split; [right; right|]]. destruct Hc as [->|[->|[->|[->|[->|[->| ->]]]]]]; done.
  - split; [done|]. apply (bool_decide_unpack _). by vm_compute.
Qed.

