(* ===== verification/Main.v ===== *)
(** main.c: from power-on to the first program.

    [main] is the initialisation of [Boot.kernel_init], the loops of [Attach] and
    [Boot.run_init], on the state of the whole machine: processes, threads and
    memory, with the file system and the board as their world.  The drivers
    allocate from the kernel's heap, so the loops run on the board with that heap
    ([on_drivers]); [main] writes nothing to the disk, so no driver allocates after
    them. *)

From S2P Require Import Prelude Uart PhysMem PageTable KernelMap UserMem Teardown Thread ThreadSpec Timer Intr CString Io Device Virtio Kfs KfsSpec Mkfs Vioblk Elf Process Boot Attach.

Section Main.
Context {HW C : Type} {B : BlockDev HW}.
(** The console's initialiser; the running thread; the bytes memory and the stack
    hold before anything is stored. *)
Context (console_init : M C unit) (self : Z) (stale : Z -> Z) (enabled0 stack : list Z).
(** The image, and the addresses of the static threads, process and stacks. *)
Context (k : kimage) (main_thread idle_thread main_proc main_anchor main_lowest idle_anchor idle_lowest : Z).
Notation machine := (pst (fs_state (board HW C))).

Definition on_drivers {A} (m : M (board HW C) A) : M machine A := fun s =>
  obind (m (set_b_heap (pages (tthr (ptm s))) (sys (world s)))) (fun '(x, b) =>
    Ok (x, with_ptm (with_tthr (with_pages (b_heap b) (tthr (ptm s))) (ptm s)) (with_world (with_sys b (world s)) s))).

Definition main : M machine sysret :=
  kernel_init (on_sys (on_b_con console_init)) (on_sys (on_b_intr intr_init)) (on_sys devmgr_init)
    k main_thread idle_thread main_proc main_anchor main_lowest idle_anchor idle_lowest ;;
  on_drivers attach_uarts ;;
  on_drivers (attach_virtio stale enabled0) ;;
  s ← get;
  run_init (blk_ops self stale) open_device (b_devs (sys (world s))) self stack.

Lemma run_on_drivers {A} (m : M (board HW C) A) s x b :
  m (set_b_heap (pages (tthr (ptm s))) (sys (world s))) = Ok (x, b) ->
  on_drivers m s = Ok (x, with_ptm (with_tthr (with_pages (b_heap b) (tthr (ptm s))) (ptm s)) (with_world (with_sys b (world s)) s)).
Proof. intros E. unfold on_drivers. by rewrite E. Qed.

(** The loops one after the other see each other's heap. *)
Lemma on_drivers_seq (m1 m2 : M (board HW C) unit) s b :
  (m1 ;; m2) (set_b_heap (pages (tthr (ptm s))) (sys (world s))) = Ok (tt, b) ->
  (on_drivers m1 ;; on_drivers m2) s
  = Ok (tt, with_ptm (with_tthr (with_pages (b_heap b) (tthr (ptm s))) (ptm s)) (with_world (with_sys b (world s)) s)).
Proof.
  intros E. apply bind_Ok_inv in E as ([] & b1 & E1 & E2). rewrite (bind_Ok _ _ _ _ _ (run_on_drivers _ _ _ _ E1)).
  set (s1 := with_ptm _ _). assert (Eb : set_b_heap (pages (tthr (ptm s1))) (sys (world s1)) = b1) by (by destruct b1).
  rewrite (run_on_drivers m2 s1 tt b) by (by rewrite Eb). done.
Qed.
End Main.

(** ** The heap block and the page tables *)

Section Carved.
Context (k : kimage) (m0 : gmap Z Z) (km km' : kmem).
Hypothesis Hk : image_ok k.
Hypothesis Hclear : ram_clear k m0.
Let l := pages_between (kimg_end k + PAGE_SIZE) RAM_END.
Hypothesis Hfree : user_free km l (main_pt2 k).
Hypothesis Hreg : heap_region km = (kimg_end k, PAGE_SIZE).
Hypothesis Htabs : forall t i, t ∈ [main_pt2 k; main_pt1_0x80000 k; main_pt0_0x80000 k] -> idx i ->
  ent (mem km) (t + 8 * i) = ent (tables_mem k m0) (t + 8 * i).
Hypothesis Hcarved : carved km km'.
Hypothesis Hsome : heap_end km' < heap_end km.

Lemma carved_table t i :
  t ∈ [main_pt2 k; main_pt1_0x80000 k; main_pt0_0x80000 k] -> idx i -> rd (mem km') (t + 8 * i) = rd (mem km) (t + 8 * i).
Proof using Hk Hreg Hcarved.
  intros Ht Hi. destruct (io_tabs k Hk t Ht) as [Ha Hr]. pose proof (io_end_al k Hk). pose proof Hreg as [= Hs He].
  pose proof Hcarved as [_ Hc _ _ _ Hm]. apply Hm. left. unfold idx in Hi. consts. wrap_lia.
Qed.

Lemma carved_page p i : p ∈ l -> idx i -> rd (mem km') (p + 8 * i) = rd (mem km) (p + 8 * i).
Proof using Hk Hreg Hcarved.
  intros Hp Hi. apply pages_between_elem in Hp as [Hp _]. pose proof Hreg as [= Hs He]. apply Hcarved. right.
  unfold idx in Hi. lia.
Qed.

(** Handing out a part of the heap block leaves the space ready for the first
    program; the block is no longer a page that a table could take. *)
Lemma carved_user_free : user_free km' l (main_pt2 k) /\ fresh km' l = l.
Proof using Hk Hclear Hfree Hreg Htabs Hcarved Hsome.
  pose proof Hfree as [[Hact Hsp Hfr] _ Hnone Hl]. pose proof Hreg as [= Hs He]. pose proof Hcarved as [Cs Ce Ca Cf [Ct _] _].
  assert (Hf : fresh km' l = l).
  { unfold fresh. destruct (Z.eqb_spec (heap_end km' - heap_start km') PAGE_SIZE); [lia|done]. }
  assert (Hsub : sublist (fresh km' l) (fresh km l)) by (rewrite Hf; apply sublist_inserts_l; done).
  assert (Htab : forall t i, is_table (mem km) (main_pt2 k) t -> idx i -> rd (mem km') (t + 8 * i) = rd (mem km) (t + 8 * i)).
  { intros t i [->|[[H1 _]|(a & _ & H0 & _)]] Hi; [apply carved_table; [by left|done]|congruence|].
    unfold has0 in H0. by rewrite Hnone in H0. }
  split; [|done]. constructor; [constructor| | |done].
  - congruence.
  - apply (space_frame km km' l l (main_pt2 k) Hsp Htab); try done.
    + destruct (sw_pool _ _ _ Hsp) as [Hc Hn Hp]. constructor; try done. rewrite Cf. apply (chain_frame (mem km)); [|done].
      intros x Hx. rewrite <- (Z.add_0_r x). change 0 with (8 * 0). by apply carved_page.
    + eapply carved_wf; [apply Hsp|done].
    + destruct (sw_paged _ _ _ Hsp). split; lia.
    + intros p i Hp Hi. unfold ent. rewrite Hf in Hp. rewrite carved_page by done.
      apply (sw_clean _ _ _ Hsp p i); [|done]. rewrite <- Hf in Hp. by eapply elem_of_sublist.
  - apply (frames_frame km km' l l (main_pt2 k) Hsp Htab Hfr). intros x Hx. by eapply elem_of_sublist.
  - apply (init_kernel_part k m0); [done|done|]. intros t i Ht Hi. rewrite <- Htabs by done. unfold ent. by rewrite carved_table.
  - rewrite <- Hnone. by apply (frame_has1 km km' (main_pt2 k)).
Qed.
End Carved.

(** ** Power-on to the first program *)

(** The machine before [main]: an image laid out by the linker script, memory that
    starts as zero after it, the static variables as they are initialised, no file
    open, and a board with a block device in slot [j]. *)
Record cold_start {HW C : Type} (image : HW -> list Z) (k : kimage) (main_thread idle_thread main_proc : Z)
    (s : pst (fs_state (board HW C))) (t0 : kthreads) (j : Z) (sl : slot HW) : Prop := {
  cs_image : image_ok k;
  cs_ram : ram_clear k (mem (pages t0)) /\
    forall p i, p ∈ pages_between (kimg_end k) RAM_END -> idx i -> flags (ent (mem (pages t0)) (p + 8 * i)) = 0;
  cs_addrs : main_thread <> 0 /\ idle_thread <> 0 /\ main_thread <> idle_thread /\ main_proc <> 0;
  cs_static : tthr (ptm s) = static_state main_thread idle_thread t0 /\ sleep_list (ptm s) = 0;
  cs_files : length (super_block (world s)) = BLK /\ next_io (world s) <> 0 /\ opened_files (world s) <> [] /\
    Forall (fun f => f_io f = 0) (opened_files (world s));
  cs_board : board_ready image (sys (world s)) j sl
}.

(** A disk image that mkfs built, with a loadable program [c] under the name of the
    first program. *)
Record boot_disk (image : list Z) (c : list Z) : Prop := {
  bd_build : exists stale args n path, (forall i, length (stale i) = BLK) /\ buildable args /\ mkfs stale args = Ok image /\
    args !! n = Some (path, c) /\ shortname path = INIT_NAME /\
    Forall (fun c => (length c mod 4096 <> 0)%nat) (take n (args.*2));
  bd_load : loadable c
}.

Lemma no_open_files (l : list file_t) io :
  l <> [] -> io <> 0 -> Forall (fun f => f_io f = 0) l -> free_slot l 0 = Some 0%nat /\ Forall (fun f => f_io f <> io) l.
Proof.
  intros Hn Hio Hf. split.
  - destruct l as [|f l]; [done|]. apply Forall_cons_1 in Hf as [Hf _]. cbn. by rewrite Hf.
  - eapply Forall_impl; [exact Hf|]. intros f Hz. by rewrite Hz.
Qed.

(** The loops after the initialisation: the block device can be opened, and the
    space is still ready for the first program. *)
Lemma attach_loops_run {HW C : Type} {B : BlockDev HW} (image : HW -> list Z) `{!BlockHw B image} (stale : Z -> Z) (enabled0 : list Z)
    (k : kimage) (m0 : gmap Z Z) (s : pst (fs_state (board HW C))) (j : Z) (sl : slot HW) :
  let l := pages_between (kimg_end k + PAGE_SIZE) RAM_END in
  image_ok k -> ram_clear k m0 -> length enabled0 = 4%nat -> user_free (pages (tthr (ptm s))) l (main_pt2 k) ->
  heap_region (pages (tthr (ptm s))) = (kimg_end k, PAGE_SIZE) ->
  (forall t i, t ∈ [main_pt2 k; main_pt1_0x80000 k; main_pt0_0x80000 k] -> idx i ->
     ent (mem (pages (tthr (ptm s)))) (t + 8 * i) = ent (tables_mem k m0) (t + 8 * i)) ->
  board_ready image (sys (world s)) j sl ->
  exists b h dev b1, let s' := with_ptm (with_tthr (with_pages h (tthr (ptm s))) (ptm s)) (with_world (with_sys b (world s)) s) in
    (on_drivers attach_uarts ;; on_drivers (attach_virtio stale enabled0)) s = Ok (tt, s') /\
    user_free h l (main_pt2 k) /\ fresh h l = l /\
    device_open open_device (b_devs b) BLK_NAME 0 b = Ok ((0, Some dev), b1) /\
    blk_inv image dev b1 /\ blk_img image dev b1 = image (sl_hw sl) /\ blk_pos dev b1 = 0%nat.
Proof.
  intros l Hk Hram Hen Huf Hreg Htabs Hb. set (b0 := set_b_heap (pages (tthr (ptm s))) (sys (world s))).
  assert (Hb0 : board_ready image b0 j sl) by (destruct Hb; by constructor).
  assert (Hheap : drivers_fit (b_heap b0)).
  { pose proof (sw_heap _ _ _ (vm_space _ _ _ (uf_inv _ _ _ Huf))). pose proof Hreg as [= Hs He]. pose proof (io_end k Hk).
    destruct (sections k Hk) as (_ & _ & _ & _ & ? & ?). split; [done|]. cbn. consts. lia. }
  destruct (attach_devices_run image stale enabled0 Hen b0 j sl Hb0 Hheap) as (b & E & Ha).
  destruct (open_block image b0 j sl b _ _ _ Ha) as (b1 & E1 & Hi1 & Him1 & Hp1 & _).
  destruct (da_heap _ _ _ _ _ _ _ _ Ha) as [Hcv Hend].
  destruct (carved_user_free k m0 (pages (tthr (ptm s))) (b_heap b) Hk Hram Huf Hreg Htabs Hcv) as [Huf' Hfr'].
  { rewrite Hend. cbn. lia. }
  exists b, (b_heap b), (heap_end (b_heap b0) - 1184), b1. split_and!; try done. by apply on_drivers_seq.
Qed.


(** ** A run *)

(** The disk of [Boot.init_image] in the last slot of the board of [Attach]. *)
Definition init_blocks : Z := Z.of_nat (length init_image) / 512.
Definition boot_machine : pst (fs_state (board (list Z) unit)) :=
  cold (mkFs (demo_board init_image init_blocks) (repeat 0 BLK) (repeat (mkFile 0 0 0 0 0) 32) ∅ 1000 (-1)).

Lemma boot_machine_cold :
  cold_start (fun h => h) demo_image 1000 2000 3000 boot_machine (with_pages (mkKmem ∅ 0 0 0 0 0) demo_s0) 7
    (block_slot init_image init_blocks).
Proof.
  constructor; [exact demo_image_ok|exact cold_clear|done|done| |].
  - split_and!; [by vm_compute|done|done|]. by repeat constructor.
  - apply demo_board_ready; vm_compute; done.
Qed.

