(* ===== verification/Types.v ===== *)
(** Types of the state: what the declarations of the C structures promise, and that
    no system call breaks it.

    The tables of threads, processes and descriptors have their declared lengths;
    reference counts are 32-bit and times 64-bit unsigned integers; and the scheduler
    and the process manager, which share the structures of processes, agree on their
    address spaces.  [typed I Q m] says that [m] keeps [I] and returns a value in [Q];
    it goes through sequencing and tests ([keep_types]). *)

From S2P Require Import Prelude PhysMem PageTable UserMem Clone Thread ThreadSpec Timer Io Elf Process.

Definition typed {St A} (I : St -> Prop) (Q : A -> Prop) (m : M St A) : Prop :=
  forall s a s', I s -> m s = Ok (a, s') -> I s' /\ Q a.
Notation any := (fun _ => True).

Section Typed.
Context {St : Type} {I : St -> Prop}.

Lemma typed_any {A} (Q : A -> Prop) (m : M St A) : typed I Q m -> typed I any m.
Proof. intros H s a s' Hi E. by destruct (H s a s' Hi E). Qed.
Lemma typed_ret {A} (Q : A -> Prop) (a : A) : Q a -> typed I Q (mret a).
Proof. by intros Ha s b s' Hi [= <- <-]. Qed.
Lemma typed_get : typed I I get.
Proof. by intros s b s' Hi [= <- <-]. Qed.
Lemma typed_gets {A} (Q : A -> Prop) (f : St -> A) : (forall s, I s -> Q (f s)) -> typed I Q (gets f).
Proof. intros H s b s' Hi [= <- <-]. auto. Qed.
Lemma typed_panic {A} (Q : A -> Prop) w : typed I Q (panic w).
Proof. by intros s b s' _ ?. Qed.
Lemma typed_undef {A} (Q : A -> Prop) w : typed I Q (undef w).
Proof. by intros s b s' _ ?. Qed.
Lemma typed_fuel {A} (Q : A -> Prop) : typed I Q ((fun _ => Fuel) : M St A).
Proof. by intros s b s' _ ?. Qed.
Lemma typed_halt {A} (Q : A -> Prop) : typed I Q ((fun _ => Halt) : M St A).
Proof. by intros s b s' _ ?. Qed.
Lemma typed_cassert c : typed I any (cassert c).
Proof. unfold cassert. destruct c; [by apply typed_ret|apply typed_panic]. Qed.
Lemma typed_modify f : (forall s, I s -> I (f s)) -> typed I any (modify f).
Proof. intros H s b s' Hi [= _ <-]. auto. Qed.
Lemma typed_bind {A B} (P : A -> Prop) (Q : B -> Prop) (m : M St A) (f : A -> M St B) :
  typed I P m -> (forall a, P a -> typed I Q (f a)) -> typed I Q (m ≫= f).
Proof.
  intros Hm Hf s b s' Hi (a & s1 & H1 & H2)%bind_Ok_inv. destruct (Hm _ _ _ Hi H1) as [Hi1 Ha].
  exact (Hf a Ha _ _ _ Hi1 H2).
Qed.
End Typed.

Create HintDb types.
#[export] Hint Resolve typed_ret typed_get typed_panic typed_undef typed_fuel typed_halt typed_cassert : types.
#[export] Hint Extern 1 (typed _ _ (gets _)) => apply typed_gets; done : types.
#[export] Hint Extern 1 (typed _ _ (mret _)) => apply typed_ret; done : types.
#[export] Hint Extern 3 (typed _ any get) => apply (typed_any _ _ typed_get) : types.

(** Goes through sequencing and tests; a value that is returned on the way is
    used without its type. *)
Ltac keep_types := repeat
  match goal with
  | |- typed _ _ (_ ≫= _) => eapply (typed_bind any); [|intros ? _]
  | |- typed _ _ (if ?c then _ else _) => destruct c
  | |- typed _ _ (match ?c with _ => _ end) => destruct c
  | |- typed _ _ (modify _) => apply typed_modify; done
  | |- typed _ _ _ => solve [auto with types]
  end.

(** ** Threads *)

(** The table of threads is as long as declared, and the address space of the
    process at [p] is [tag p]. *)
Record threads_typed (tag : Z -> Z) (s : kthreads) : Prop := {
  tt_tab : length (thrtab s) = Z.to_nat NTHR;
  tt_tag : forall p, proc_mtag s p = tag p
}.

Section Threads.
Context (tag : Z -> Z).
Notation kept m := (typed (threads_typed tag) any m).

Lemma typed_rd_thr a : kept (rd_thr a).
Proof. unfold rd_thr. keep_types. Qed.
Lemma typed_upd_thr a f : kept (upd_thr a f).
Proof. unfold upd_thr. keep_types. apply typed_modify. intros s []. by constructor. Qed.
Lemma typed_modify_thr f :
  (forall s, length (thrtab (f s)) = length (thrtab s) /\ proc_mtag (f s) = proc_mtag s) -> kept (modify f).
Proof. intros H. apply typed_modify. intros s []. destruct (H s) as [H1 H2]. constructor; [by rewrite H1|by rewrite H2]. Qed.
Lemma typed_on_pages {A} (m : M kmem A) : kept (on_pages m).
Proof.
  intros s a s' [] H. unfold on_pages in H. destruct (m (pages s)) as [[b k]| | | |]; try done. injection H as <- <-.
  split; [|done]. by constructor.
Qed.
Lemma typed_set_list p l : kept (set_list p l).
Proof. destruct p; by apply typed_modify_thr. Qed.
Hint Resolve typed_rd_thr typed_upd_thr typed_on_pages typed_set_list : types.
Hint Extern 2 (typed _ _ (modify _)) => apply typed_modify_thr; intros; cbn; rewrite ?length_insert; done : types.

Lemma typed_tlinsert p a : kept (tlinsert p a).
Proof. unfold tlinsert. keep_types. Qed.
Lemma typed_tlremove p : kept (tlremove p).
Proof. unfold tlremove. keep_types. Qed.
Lemma typed_tlappend p q : kept (tlappend p q).
Proof. unfold tlappend. keep_types. Qed.
Lemma typed_tlempty p : kept (tlempty p).
Proof. unfold tlempty. keep_types. Qed.
Lemma typed_tlclear p : kept (tlclear p).
Proof. unfold tlclear. keep_types. Qed.
Lemma typed_CURTHR : kept (CURTHR).
Proof. unfold CURTHR. keep_types. Qed.
Lemma typed_intr_disable : kept (intr_disable).
Proof. unfold intr_disable. keep_types. Qed.
Lemma typed_intr_enable : kept (intr_enable).
Proof. unfold intr_enable. keep_types. Qed.
Lemma typed_intr_restore b : kept (intr_restore b).
Proof. unfold intr_restore. keep_types. Qed.
Lemma typed_set_state a x : kept (set_thread_state a x).
Proof. unfold set_thread_state. keep_types. Qed.
Hint Resolve typed_tlinsert typed_tlremove typed_tlappend typed_tlempty typed_tlclear typed_CURTHR typed_intr_disable
  typed_intr_enable typed_intr_restore typed_set_state : types.

Lemma typed_suspend_in prev saved : kept (suspend_in prev saved).
Proof. unfold suspend_in. keep_types. Qed.
Hint Resolve typed_suspend_in : types.
Lemma typed_suspend_out : kept (suspend_out).
Proof. unfold suspend_out. keep_types. Qed.
Hint Resolve typed_suspend_out : types.
Lemma typed_suspend_self : kept (suspend_self).
Proof. unfold suspend_self. keep_types. Qed.
Hint Resolve typed_suspend_self : types.
Lemma typed_condition_init c nm : kept (condition_init c nm).
Proof. unfold condition_init. keep_types. Qed.
Lemma typed_condition_wait c : kept (condition_wait c).
Proof. unfold condition_wait. keep_types. Qed.
Lemma typed_wake_all fuel : forall c t, kept (wake_all fuel c t).
Proof. induction fuel as [|fuel IH]; intros c t; cbn [wake_all]; keep_types. Qed.
Hint Resolve typed_condition_init typed_condition_wait typed_wake_all : types.
Lemma typed_broadcast c : kept (condition_broadcast c).
Proof. unfold condition_broadcast. keep_types. Qed.
Lemma typed_thrtab_at tid : kept (thrtab_at tid).
Proof. unfold thrtab_at. keep_types. Qed.
Hint Resolve typed_broadcast typed_thrtab_at : types.

Lemma typed_reparent a b tids : kept (reparent a b tids).
Proof. induction tids; cbn [reparent]; keep_types. Qed.
Hint Resolve typed_reparent : types.
Lemma typed_recycle tid : kept (recycle_thread tid).
Proof. unfold recycle_thread. keep_types. Qed.
Hint Resolve typed_recycle : types.
Lemma typed_scan cur tids : forall n, kept (scan_children cur tids n).
Proof. induction tids; intros n; cbn [scan_children]; keep_types. Qed.
Hint Resolve typed_scan : types.
Lemma typed_join tid : kept (thread_join tid).
Proof. unfold thread_join, join_round. keep_types. Qed.
Hint Resolve typed_join : types.
Lemma typed_join_any : kept (thread_join_any).
Proof. unfold thread_join_any. keep_types. Qed.
Lemma typed_exit main_thread : kept (thread_exit main_thread).
Proof. unfold thread_exit, halt_success. keep_types. Qed.
Lemma typed_fork p tid par : kept (thread_fork_to_user p tid par).
Proof. unfold thread_fork_to_user. keep_types. Qed.
Lemma typed_jump sp pc : kept (thread_jump_to_user sp pc).
Proof. unfold thread_jump_to_user, sret. keep_types. Qed.
Lemma typed_running : kept (running_thread).
Proof. unfold running_thread. keep_types. Qed.
Lemma typed_process tid : kept (thread_process tid).
Proof. unfold thread_process, tid_thread. keep_types. Qed.
Lemma typed_name tid : kept (thread_name tid).
Proof. unfold thread_name, tid_thread. keep_types. Qed.
End Threads.
#[export] Hint Resolve typed_join typed_join_any typed_exit typed_fork typed_jump typed_running typed_process typed_name
  typed_on_pages typed_condition_init typed_condition_wait typed_broadcast typed_intr_disable : types.

(** ** Timers *)

Definition is_u64 (z : Z) : Prop := 0 <= z <= UINT64_MAX.

Record timer_typed (tag : Z -> Z) (s : timerst) : Prop := {
  tm_thr : threads_typed tag (tthr s);
  tm_now : is_u64 (mtime s);
  tm_wake : forall a, is_u64 (twake (alarms s a))
}.

Section Timers.
Context (tag : Z -> Z).
Notation kept m := (typed (timer_typed tag) any m).

Lemma typed_on_tthr {A} (m : T A) : typed (threads_typed tag) any m -> kept (on_tthr m).
Proof.
  intros Hm s a s' [] H. unfold on_tthr in H. destruct (m (tthr s)) as [[b k]| | | |] eqn:E; try done. injection H as <- <-.
  destruct (Hm _ _ _ tm_thr0 E) as [Ht _]. split; [|done]. by constructor.
Qed.
Lemma typed_set_twake a t : is_u64 t -> kept (set_twake a t).
Proof.
  intros Ht. unfold set_twake. keep_types. apply typed_modify. intros s []. constructor; try done.
  intros b. cbn. unfold upd. by destruct (b =? a).
Qed.
Lemma typed_set_next a n : kept (set_al_next a n).
Proof.
  unfold set_al_next. keep_types. apply typed_modify. intros s []. constructor; try done.
  intros b. cbn. unfold upd. by destruct (b =? a); cbn.
Qed.
Lemma typed_rd_alarm a : typed (timer_typed tag) (fun al => is_u64 (twake al)) (rd_alarm a).
Proof. unfold rd_alarm. destruct (a =? 0); [auto with types|]. apply typed_gets. by intros s []. Qed.
Lemma typed_now : typed (timer_typed tag) is_u64 get_mtime.
Proof. apply typed_gets. by intros s []. Qed.
Lemma typed_modify_timer f :
  (forall s, tthr (f s) = tthr s /\ mtime (f s) = mtime s /\ alarms (f s) = alarms s) -> kept (modify f).
Proof. intros H. apply typed_modify. intros s []. destruct (H s) as (E1 & E2 & E3). constructor; by rewrite ?E1, ?E2, ?E3. Qed.
Hint Resolve typed_on_tthr typed_set_next typed_rd_alarm typed_now : types.
Hint Extern 2 (typed _ any (rd_alarm _)) => apply (typed_any _ _ (typed_rd_alarm _)) : types.
Hint Extern 2 (typed _ _ (modify _)) => apply typed_modify_timer; done : types.
Hint Extern 2 (typed _ _ hangs) => apply typed_fuel : types.

Lemma typed_alarm_init dflt al nm : kept (alarm_init dflt al nm).
Proof.
  unfold alarm_init. eapply (typed_bind any); [auto with types|intros _ _]. eapply typed_bind; [apply typed_now|intros now Hn].
  eapply (typed_bind any); [by apply typed_set_twake|]. auto with types.
Qed.
Lemma typed_insert_loop fuel al : forall prev, kept (insert_loop fuel al prev).
Proof. induction fuel as [|fuel IH]; intros prev; cbn [insert_loop]; keep_types. Qed.
Hint Resolve typed_insert_loop : types.
Lemma typed_alarm_insert n al : kept (alarm_insert n al).
Proof. unfold alarm_insert, insert_behind, set_mtcmp, csrs_sie_stie, enable_mmode_timer_intr. keep_types. Qed.
Hint Resolve typed_alarm_insert : types.

(** The wake-up time is cut at the largest 64-bit integer instead of wrapping. *)
Lemma typed_alarm_sleep n al tcnt : is_u64 tcnt -> kept (alarm_sleep n al tcnt).
Proof.
  intros Ht. unfold alarm_sleep. eapply (typed_bind any); [by apply (typed_any _ _ typed_now)|intros now _].
  eapply typed_bind; [apply typed_rd_alarm|intros a Ha]. eapply (typed_bind any); [|intros _ _; keep_types].
  unfold is_u64 in *. destruct (Z.ltb_spec (UINT64_MAX - twake a) tcnt); apply typed_set_twake; unfold is_u64; [done|lia].
Qed.
Lemma typed_wake_due fuel now : forall hd, kept (wake_due fuel now hd).
Proof. induction fuel as [|fuel IH]; intros hd; cbn [wake_due]; keep_types. Qed.
Hint Resolve typed_wake_due : types.
Lemma typed_timer_intr n : kept (timer_intr_handler n).
Proof.
  unfold timer_intr_handler, set_mtcmp, enable_mmode_timer_intr. eapply (typed_bind any); [auto with types|intros ? _].
  eapply (typed_bind any); [apply (typed_any _ _ typed_now)|intros ? _]. keep_types.
Qed.
Lemma typed_sleep_us n al us : kept (alarm_sleep_us n al us).
Proof. apply typed_alarm_sleep. unfold is_u64. pose proof (u64_range (us * (TIMER_FREQ / 1000 / 1000))). unfold UINT64_MAX. lia. Qed.
End Timers.
#[export] Hint Resolve typed_on_tthr typed_alarm_init typed_timer_intr typed_sleep_us : types.

(** ** Processes *)

Record pst_typed {R : Type} (s : pst R) : Prop := {
  ps_timer : timer_typed (fun p => mtag (procs s p)) (ptm s);
  ps_tab : length (proctab s) = Z.to_nat NPROC;
  ps_io : forall p, length (iotab (procs s p)) = Z.to_nat PROCESS_IOMAX;
  ps_refs : forall io, 0 <= refs s io < 2 ^ 32
}.

Section Processes.
Context {R : Type}.
Context (ops_of : Z -> io_ops R) (dev_open : Z -> Z -> M R (Z * option Z)) (fs_open_at : Z -> M R (Z * option Z)).
Context (main_thread : Z) (stack : list Z) (nalarms : nat).
Notation kept m := (typed (@pst_typed R) any m).

Lemma typed_on_tm {A} (m : M timerst A) : (forall tag, typed (timer_typed tag) any m) -> kept (on_tm m).
Proof using Type.
  intros Hm s a s' [] H. unfold on_tm in H. destruct (m (ptm s)) as [[b t]| | | |] eqn:E; try done. injection H as <- <-.
  destruct (Hm _ _ _ _ ps_timer0 E). split; [|done]. by constructor.
Qed.
Lemma typed_on_thr {A} (m : T A) : (forall tag, typed (threads_typed tag) any m) -> kept (on_thr m).
Proof using Type. intros Hm. apply typed_on_tm. auto with types. Qed.
Lemma typed_on_pg {A} (m : M kmem A) : kept (on_pg m).
Proof using Type. apply typed_on_thr. auto with types. Qed.
Lemma typed_on_world {A} (m : M R A) : kept (on_world m).
Proof using Type.
  intros s a s' [] H. unfold on_world in H. destruct (m (world s)) as [[b t]| | | |] eqn:E; try done. injection H as <- <-.
  split; [|done]. by constructor.
Qed.
Lemma typed_on_elf {A} (m : M (est R) A) : kept (on_elf m).
Proof using Type.
  intros s a s' [[[] ] ] H. unfold on_elf in H. destruct (m _) as [[b t]| | | |] eqn:E; try done. injection H as <- <-.
  split; [|done]. constructor; [constructor; [by constructor|done|done]|done..].
Qed.
Lemma typed_upd_proc p f : (forall pr, mtag (f pr) = mtag pr) ->
  (forall pr, length (iotab pr) = Z.to_nat PROCESS_IOMAX -> length (iotab (f pr)) = Z.to_nat PROCESS_IOMAX) -> kept (upd_proc p f).
Proof using Type.
  intros Hm Hl. apply typed_modify. intros s [[[] ] ]. constructor; [constructor; [constructor|..]|..]; try done; intros x; cbn.
  - rewrite tt_tag0. unfold upd. destruct (Z.eqb_spec x p) as [->|]; [by rewrite Hm|done].
  - unfold upd. destruct (Z.eqb_spec x p) as [->|]; [by apply Hl|done].
Qed.

(** The two views of the member [mtag] are written together. *)
Lemma typed_set_mtag p m : kept (set_mtag p m).
Proof using Type.
  intros s a s' [[[] ] ] E. unfold set_mtag in E. apply bind_Ok_inv in E as ([] & s1 & [= <-] & [= _ <-]).
  split; [|done]. constructor; [constructor; [constructor|..]|..]; try done; intros x; cbn; unfold upd;
    destruct (Z.eqb_spec x p) as [->|]; by cbn.
Qed.
Lemma typed_rd_iotab p fd : kept (rd_iotab p fd).
Proof using Type. unfold rd_iotab. keep_types. Qed.
Lemma typed_wr_iotab p fd io : kept (wr_iotab p fd io).
Proof using Type.
  unfold wr_iotab. eapply (typed_bind any); [apply typed_rd_iotab|intros _ _]. apply typed_upd_proc; [done|].
  intros pr H. cbn. by rewrite length_insert.
Qed.
Lemma typed_set_proctab t : length t = Z.to_nat NPROC -> kept (set_proctab t).
Proof using Type. intros Ht. apply typed_modify. intros s []. by constructor. Qed.
Hint Resolve typed_on_tm typed_on_thr typed_on_pg typed_on_world typed_on_elf typed_set_mtag typed_rd_iotab typed_wr_iotab : types.

Lemma typed_current : kept current_process.
Proof using Type. unfold current_process. keep_types. Qed.
Hint Resolve typed_current : types.

Lemma typed_close_all p idxs : kept (close_all ops_of p idxs).
Proof using Type. induction idxs; cbn [close_all]; keep_types. Qed.
Lemma typed_next_fd p idxs : kept (next_fd p idxs).
Proof using Type. induction idxs; cbn [next_fd]; keep_types. Qed.
Hint Resolve typed_close_all typed_next_fd : types.
Lemma typed_pick_fd p fd : kept (pick_fd p fd).
Proof using Type. unfold pick_fd. keep_types. Qed.
Lemma typed_fd_object p fd : kept (fd_object p fd).
Proof using Type. unfold fd_object. keep_types. Qed.
Lemma typed_user_bytes a n : kept (user_bytes a n).
Proof using Type. unfold user_bytes. keep_types. Qed.
Hint Resolve typed_pick_fd typed_fd_object typed_user_bytes : types.

Lemma typed_exec io : kept (process_exec ops_of stack io).
Proof using Type. unfold process_exec, process_exec_with. keep_types. Qed.
Lemma typed_process_exit : kept (process_exit ops_of main_thread).
Proof using Type.
  unfold process_exit. eapply (typed_bind any); [auto with types|intros p _]. destruct (p =? 0); [auto with types|].
  do 2 (eapply (typed_bind any); [auto with types|intros _ _]). eapply typed_bind; [apply typed_get|intros s Hs].
  eapply (typed_bind any); [|intros _ _; keep_types]. apply typed_set_proctab. rewrite length_insert. apply Hs.
Qed.

(** A count of references stays a 32-bit integer when an object is shared. *)
Lemma share_typed ios : forall r, (forall io, 0 <= r io < 2 ^ 32) -> forall io, 0 <= share ios r io < 2 ^ 32.
Proof using Type.
  induction ios as [|i ios IH]; intros r Hr; [done|]. cbn [share]. apply IH. destruct (negb _); [|done].
  intros x. unfold upd. destruct (x =? i); [|done]. apply u32_range.
Qed.
Lemma typed_fork_with clone tp : kept (sysfork_with clone tp).
Proof using Type.
  unfold sysfork_with. do 2 (eapply (typed_bind any); [auto with types|intros ? _]).
  eapply typed_bind; [apply typed_get|intros s Hs]. destruct (free_proc _ _) as [i|]; [|auto with types].
  eapply (typed_bind any); [by apply typed_upd_proc|intros _ _].
  eapply (typed_bind any); [apply typed_set_proctab; rewrite length_insert; apply Hs|intros _ _].
  do 2 (eapply (typed_bind any); [auto with types|intros ? _]). eapply typed_bind; [apply typed_get|intros s1 Hs1].
  eapply (typed_bind any); [apply typed_upd_proc; [done|intros; apply Hs1]|intros _ _].
  eapply (typed_bind any); [|intros _ _; keep_types; by apply typed_upd_proc].
  apply typed_modify. intros s2 []. constructor; try done. apply share_typed, Hs1.
Qed.

Lemma typed_msgout msg : kept (sysmsgout msg).
Proof using Type. unfold sysmsgout. keep_types. apply typed_modify. intros s []. by constructor. Qed.
Lemma typed_open fd err (open : M R (Z * option Z)) : kept (open_into fd err open).
Proof using Type. unfold open_into. keep_types. Qed.
Lemma typed_close fd : kept (sysclose ops_of fd).
Proof using Type. unfold sysclose. keep_types. Qed.
Lemma typed_read fd buf n : kept (sysread ops_of fd buf n).
Proof using Type. unfold sysread. keep_types. Qed.
Lemma typed_write fd buf n : kept (syswrite ops_of fd buf n).
Proof using Type. unfold syswrite. keep_types. Qed.
Lemma typed_ioctl fd cmd arg : kept (sysioctl ops_of fd cmd arg).
Proof using Type. unfold sysioctl. keep_types. Qed.
Hint Resolve typed_exec typed_process_exit typed_fork_with typed_msgout typed_open typed_close typed_read typed_write typed_ioctl : types.
Lemma typed_sysexec fd : kept (sysexec ops_of stack fd).
Proof using Type. unfold sysexec. keep_types. Qed.
Lemma typed_wait tid : kept (syswait tid).
Proof using Type. unfold syswait. keep_types. Qed.
Lemma typed_usleep nm us : kept (sysusleep nalarms nm us).
Proof using Type. unfold sysusleep. keep_types. Qed.
Hint Resolve typed_sysexec typed_wait typed_usleep : types.

Lemma typed_syscall main_pt1 nm tfr :
  kept (syscall ops_of dev_open fs_open_at main_thread stack nalarms main_pt1 nm tfr).
Proof using Type. unfold syscall, sysexit, sysdevopen, sysfsopen, sysfork. keep_types. Qed.
End Processes.

(** ** Runs of the system *)

Section Runs.
Context {R : Type}.
Context (ops_of : Z -> io_ops R) (dev_open : Z -> Z -> M R (Z * option Z)) (fs_open_at : Z -> M R (Z * option Z)).
Context (main_thread : Z) (stack : list Z) (nalarms : nat) (main_pt1 nm : Z).

(** What happens between two instructions of user programs: a system call that
    returns to user mode or to another thread, the timer's interrupt, the passing of
    time, and what devices and their interrupt routines do to the drivers' state. *)
Inductive sys_step : pst R -> pst R -> Prop :=
| sys_call tfr tfr' r s s' :
    syscall_handler ops_of dev_open fs_open_at main_thread stack nalarms main_pt1 nm tfr s = Ok ((tfr', r), s') -> sys_step s s'
| sys_tick s s' : on_tm (timer_intr_handler nalarms) s = Ok (tt, s') -> sys_step s s'
| sys_time t s : is_u64 t -> sys_step s (with_ptm (with_mtime t (ptm s)) s)
| sys_device w s : sys_step s (with_world w s).

Lemma sys_step_typed s s' : pst_typed s -> sys_step s s' -> pst_typed s'.
Proof using Type.
  intros Hs H. revert Hs. destruct H as [tfr tfr' r s0 s1 E|s0 s1 E|t s0 Ht|w s0]; intros Hs.
  - apply bind_Ok_inv in E as (x & s2 & E & [= _ _ <-]). by destruct (typed_syscall _ _ _ _ _ _ _ _ _ _ _ _ Hs E).
  - by destruct (typed_on_tm (timer_intr_handler nalarms) (fun tag => typed_timer_intr tag nalarms) _ _ _ Hs E).
  - destruct Hs as [[] ]. by constructor.
  - destruct Hs. by constructor.
Qed.
End Runs.


Lemma demo_pst_typed : pst_typed demo_pst.
Proof. constructor; [constructor; [constructor| |]| | |]; try done. Qed.

