(* ===== verification/Console.v ===== *)
(** console.c with the polled half of uart.c, and halt.c's use of it.

    The first serial port is hardware: [Com0] is what a read or a write of one of
    its registers does, and [Polled16550] what the data sheet of the NS16550a
    promises about it.  The console keeps the last character written and the
    last one read, to convert line endings.  [fuel] bounds the polls of one
    status wait; [Polled16550] gives the bound that is enough. *)

From S2P Require Import Prelude Uart CString Io.
Import Uart.

(** Offsets of the registers in [struct uart_regs]. *)
Definition R_DATA : Z := 0. (* rbr, thr, dll *)
Definition R_IER : Z := 1. (* ier, dlm *)
Definition R_LCR : Z := 3.
Definition R_LSR : Z := 5.

(** Reads and writes of the port's registers; a read may change the hardware. *)
Class Com0 (H : Type) := { reg_rd : Z -> H -> Z * H; reg_wr : Z -> Z -> H -> H }.

(** [cprev_out] and [cprev_in] are the two static variables [cprev]; [con_sie] is
    the interrupt-enable bit of the processor. *)
Record console (H : Type) := mkCon {
  hw : H; console_initialized : Z; cprev_out : Z; cprev_in : Z; intr_initialized : bool; con_sie : bool
}.
Arguments mkCon {H}.
Arguments hw {H}.
Arguments console_initialized {H}.
Arguments cprev_out {H}.
Arguments cprev_in {H}.
Arguments intr_initialized {H}.
Arguments con_sie {H}.

Section Console.
Context {H : Type} {C : Com0 H}.
Context (fuel : nat).
Notation CM := (M (console H)).

Definition with_hw (h : H) (s : console H) : console H :=
  mkCon h (console_initialized s) (cprev_out s) (cprev_in s) (intr_initialized s) (con_sie s).
Definition set_cprev_out (c : Z) (s : console H) : console H :=
  mkCon (hw s) (console_initialized s) c (cprev_in s) (intr_initialized s) (con_sie s).
Definition set_cprev_in (c : Z) (s : console H) : console H :=
  mkCon (hw s) (console_initialized s) (cprev_out s) c (intr_initialized s) (con_sie s).
Definition set_con_sie (b : bool) (s : console H) : console H :=
  mkCon (hw s) (console_initialized s) (cprev_out s) (cprev_in s) (intr_initialized s) b.

Definition rd_reg (r : Z) : CM Z := fun s => let '(v, h) := reg_rd r (hw s) in Ok (v, with_hw h s).
Definition wr_reg (r v : Z) : CM unit := modify (fun s => with_hw (reg_wr r v (hw s)) s).

(** ** Polled input and output (uart.c) *)

Definition com0_init : CM unit :=
  wr_reg R_IER 0 ;;
  wr_reg R_LCR LCR_DLAB ;;
  wr_reg R_DATA 1 ;;
  wr_reg R_IER 0 ;;
  wr_reg R_LCR 0.

(** [while (!(UART0.lsr & mask)) continue;] *)
Fixpoint spin (n : nat) (mask : Z) : CM unit :=
  match n with
  | O => fun _ => Fuel
  | S n' =>
      v ← rd_reg R_LSR;
      if Z.land v mask =? 0 then spin n' mask else mret tt
  end.

Definition com0_putc (c : Z) : CM unit := spin fuel LSR_THRE ;; wr_reg R_DATA c.
Definition com0_getc : CM Z := spin fuel LSR_DR ;; rd_reg R_DATA.

(** ** The console *)

Definition console_init : CM unit :=
  com0_init ;;
  modify (fun s => mkCon (hw s) 1 (cprev_out s) (cprev_in s) (intr_initialized s) (con_sie s)).

Definition console_putchar (c : Z) : CM unit :=
  (if c =? CR then com0_putc c ;; com0_putc NL
   else if c =? NL then
     s ← get;
     (if negb (cprev_out s =? CR) then com0_putc CR else mret tt) ;;
     com0_putc c
   else com0_putc c) ;;
  modify (set_cprev_out c).

(** The [do] loop; [n] bounds the newlines it skips. *)
Fixpoint getchar_loop (n : nat) : CM Z :=
  match n with
  | O => fun _ => Fuel
  | S n' =>
      c ← com0_getc;
      s ← get;
      if (c =? NL) && (cprev_in s =? CR) then getchar_loop n' else mret c
  end.

Definition console_getchar (n : nat) : CM Z :=
  c ← getchar_loop n;
  modify (set_cprev_in c) ;;
  if c =? CR then mret NL else mret c.

(** [console_puts] on the memory from [str] on. *)
Fixpoint console_puts (str : list Z) : CM unit :=
  match str with
  | [] => undef "unterminated string"
  | c :: str' => if c =? 0 then console_putchar NL else console_putchar c ;; console_puts str'
  end.

(** [*p = c] for [p] at an index of the buffer. *)
Definition buf_put (buf : list Z) (p : nat) (c : Z) : CM (list Z) :=
  if (p <? length buf)%nat then mret (<[p := c]> buf) else undef "buffer".

(** CONSOLE_RAW is not defined: nothing is echoed.  [k] bounds the keys and [n]
    the newlines one call of [console_getchar] skips. *)
Fixpoint getsn_loop (k n : nat) (buf : list Z) (p : nat) (room : Z) : CM (list Z) :=
  match k with
  | O => fun _ => Fuel
  | S k' =>
      c ← console_getchar n;
      if c =? CR then getsn_loop k' n buf p room
      else if c =? NL then buf_put buf p 0
      else if (c =? 8) || (c =? 127) then
        if negb (p =? 0)%nat then getsn_loop k' n buf (p - 1) (u64 (room + 1))
        else getsn_loop k' n buf p room
      else if 1 <? room then
        buf' ← buf_put buf p c;
        getsn_loop k' n buf' (S p) (room - 1)
      else getsn_loop k' n buf p room
  end.

Definition console_getsn (k n : nat) (buf : list Z) (room : Z) : CM (list Z) := getsn_loop k n buf 0 room.

(** The sink of [vgprintf]: a run that does not return stays so. *)
Definition vprintf_putc (c : Z) (st : outcome (unit * console H)) : outcome (unit * console H) :=
  obind st (fun '(_, s) => console_putchar c s).

(** [intr_disable] and [intr_restore] of intr.h. *)
Definition con_disable : CM bool := b ← gets con_sie; modify (set_con_sie false) ;; mret b.
Definition con_restore (b : bool) : CM unit := modify (set_con_sie b).

Definition console_vprintf (fmt : list Z) (ap : list va) : CM Z :=
  s ← get;
  saved ← (if intr_initialized s then con_disable else mret false);
  nout ← (fun s => match vgprintf vprintf_putc (Ok (tt, s)) fmt ap with
                   | None => Undef "format and arguments"
                   | Some (n, st) => obind st (fun '(_, s') => Ok (n, s'))
                   end);
  (if intr_initialized s then con_restore saved else mret tt) ;;
  mret nout.

Definition console_printf (fmt : list Z) (ap : list va) : CM Z := console_vprintf fmt ap.

(** The format "%s: %s:%d: " of [console_labeled_printf]. *)
Definition label_fmt : list Z := [37; 115; 58; 32; 37; 115; 58; 37; 100; 58; 32; 0].
Definition console_labeled_printf (label src_flname : list Z) (src_lineno : Z) (fmt : list Z) (ap : list va) : CM unit :=
  s ← get;
  saved ← (if intr_initialized s then con_disable else mret false);
  console_printf label_fmt [VStr (Some label); VStr (Some src_flname); VInt src_lineno] ;;
  console_vprintf fmt ap ;;
  console_putchar NL ;;
  (if intr_initialized s then con_restore saved else mret tt).

(** [panic] of halt.c: the message, then the test device stops the machine. *)
Definition panic_msg {A} (msg : option (list Z)) : CM A :=
  (match msg with Some m => console_puts m | None => mret tt end) ;;
  panic "halt_failure".
End Console.

(** ** What the port promises

    [sent h] is the bytes transmitted so far and [line h] those that have arrived
    or will arrive; [ready h] holds while the divisor latch is off and
    [latched h] while it is on.  A status read reports room in the transmitter
    within [txw h] reads and, when a byte is to come, its arrival within [rxw h]
    reads; a write after room was reported is transmitted, and a read after a
    byte was reported gives the next byte. *)
Class Polled16550 {H} (C : Com0 H) (sent line : H -> list Z) (ready latched : H -> Prop)
    (txw rxw : H -> nat) (bound : nat) : Prop := {
  ier_quiet h : sent (reg_wr R_IER 0 h) = sent h /\ line (reg_wr R_IER 0 h) = line h;
  dlab_on h : latched (reg_wr R_LCR LCR_DLAB h) /\ sent (reg_wr R_LCR LCR_DLAB h) = sent h /\
    line (reg_wr R_LCR LCR_DLAB h) = line h;
  divisor h r v : latched h -> r = R_DATA \/ r = R_IER ->
    latched (reg_wr r v h) /\ sent (reg_wr r v h) = sent h /\ line (reg_wr r v h) = line h;
  dlab_off h : latched h -> ready (reg_wr R_LCR 0 h) /\ sent (reg_wr R_LCR 0 h) = sent h /\
    line (reg_wr R_LCR 0 h) = line h;
  lsr_quiet h v h' : ready h -> reg_rd R_LSR h = (v, h') -> ready h' /\ sent h' = sent h /\ line h' = line h;
  lsr_tx h v h' : ready h -> reg_rd R_LSR h = (v, h') -> Z.land v LSR_THRE = 0 -> (txw h' < txw h)%nat;
  lsr_rx h v h' : ready h -> reg_rd R_LSR h = (v, h') -> line h <> [] -> Z.land v LSR_DR = 0 -> (rxw h' < rxw h)%nat;
  thr_sends h v h' c : ready h -> reg_rd R_LSR h = (v, h') -> Z.land v LSR_THRE <> 0 ->
    ready (reg_wr R_DATA c h') /\ sent (reg_wr R_DATA c h') = sent h' ++ [c] /\ line (reg_wr R_DATA c h') = line h';
  rbr_gives h v h' : ready h -> reg_rd R_LSR h = (v, h') -> Z.land v LSR_DR <> 0 ->
    exists c h2, reg_rd R_DATA h' = (c, h2) /\ line h' = c :: line h2 /\ ready h2 /\ sent h2 = sent h';
  waits h : (txw h <= bound)%nat /\ (rxw h <= bound)%nat
}.

(** What the console sends for a character, after [prev], and for a text. *)
Definition con_char (prev c : Z) : list Z :=
  if c =? CR then [CR; NL] else if c =? NL then (if prev =? CR then [NL] else [CR; NL]) else [c].
Fixpoint con_text (prev : Z) (l : list Z) : list Z :=
  match l with [] => [] | c :: l' => con_char prev c ++ con_text c l' end.

(** A text without CR is sent as the terminal would send it. *)
Lemma con_text_no_cr l : forall prev, prev <> CR -> CR ∉ l -> con_text prev l = normalize_out l.
Proof.
  induction l as [|c l IH]; intros prev Hp Hl; [done|]. apply not_elem_of_cons in Hl as [Hc Hl].
  cbn [con_text normalize_out]. unfold con_char.
  rewrite (proj2 (Z.eqb_neq c CR)), (proj2 (Z.eqb_neq prev CR)), (IH c) by congruence.
  by destruct (c =? NL).
Qed.

(** What a key does to a line with room for [n] characters with the NUL. *)
Definition con_edit (n : Z) (l : list Z) (c : Z) : list Z :=
  if (c =? 8) || (c =? 127) then take (length l - 1) l
  else if Z.of_nat (length l) + 1 <? n then l ++ [c] else l.

Lemma con_edit_bound n l c : Z.of_nat (length l) < n -> Z.of_nat (length (con_edit n l c)) < n.
Proof.
  intros Hl. unfold con_edit. repeat casesplit; zbool; try done.
  - rewrite length_take. lia.
  - rewrite length_app. simpl. lia.
Qed.

(** The state of the loop: the line so far fills the front of the buffer, which is
    as it was from [n] on. *)
Definition editing (n : Z) (buf0 buf l : list Z) : Prop :=
  length buf = length buf0 /\ take (length l) buf = l /\ drop (Z.to_nat n) buf = drop (Z.to_nat n) buf0.

Lemma editing_put n buf0 buf l c :
  editing n buf0 buf l -> Z.of_nat (length l) < n <= Z.of_nat (length buf0) ->
  editing n buf0 (<[length l := c]> buf) (l ++ [c]).
Proof.
  intros (Hlen & Ht & Hd) Hn. unfold editing. rewrite length_insert, length_app, Nat.add_1_r. split_and!; [done| |].
  - apply insert_at_length; [done|lia].
  - rewrite drop_insert_lt by lia. done.
Qed.
Lemma editing_back n buf0 buf l : editing n buf0 buf l -> editing n buf0 buf (take (length l - 1) l).
Proof.
  intros (Hlen & Ht & Hd). split_and!; try done. rewrite length_take.
  transitivity (take (length l - 1) (take (length l) buf)); [rewrite take_take; f_equal; lia|by rewrite Ht].
Qed.

Section ConsoleProofs.
Context {H : Type} {C : Com0 H} {sent line : H -> list Z} {ready latched : H -> Prop}
  {txw rxw : H -> nat} {bound fuel : nat}.
Context `{Hport : !Polled16550 C sent line ready latched txw rxw bound}.
Context (Hfuel : (bound < fuel)%nat).
Implicit Types s : console H.

(** The rest of the state, and the state with other hardware. *)
Definition same_con s s' : Prop := s' = with_hw (hw s') s.
Lemma same_con_trans s1 s2 s3 : same_con s1 s2 -> same_con s2 s3 -> same_con s1 s3.
Proof. unfold same_con, with_hw. destruct s1, s2, s3; cbn. intros [= -> -> -> -> ->] [= -> -> -> -> ->]. done. Qed.

(** Waiting for a status bit that comes within [w] polls. *)
Lemma spin_run (w : H -> nat) (mask : Z) n s :
  (forall h v h', ready h -> line h = line (hw s) -> reg_rd R_LSR h = (v, h') -> Z.land v mask = 0 -> (w h' < w h)%nat) ->
  ready (hw s) -> (w (hw s) < n)%nat ->
  exists h0 v h', spin n mask s = Ok (tt, with_hw h' s) /\ ready h0 /\ reg_rd R_LSR h0 = (v, h') /\
    Z.land v mask <> 0 /\ sent h' = sent (hw s) /\ line h' = line (hw s).
Proof.
  revert s. induction n as [|n IH]; intros s Hw Hr Hn; [lia|]. cbn [spin].
  destruct (reg_rd R_LSR (hw s)) as [v h] eqn:E.
  destruct (lsr_quiet _ _ _ Hr E) as (Hr' & Hs & Hl).
  rewrite bind_run. unfold rd_reg. rewrite E. cbn [obind].
  destruct (Z.eqb_spec (Z.land v mask) 0) as [Ez|Hnz].
  - destruct (IH (with_hw h s)) as (h0 & v' & h' & E' & H0 & Hrd & Hnz & Hs' & Hl'); cbn [hw with_hw] in *.
    + intros h1 v1 h1' Hr1 El1. apply Hw; [done|congruence].
    + done.
    + pose proof (Hw _ _ _ Hr eq_refl E Ez). lia.
    + exists h0, v', h'. rewrite E'. split_and!; try done; congruence.
  - exists (hw s), v, h. split_and!; done.
Qed.

Lemma putc_run c s : ready (hw s) ->
  exists s', com0_putc fuel c s = Ok (tt, s') /\ same_con s s' /\ ready (hw s') /\
    sent (hw s') = sent (hw s) ++ [c] /\ line (hw s') = line (hw s).
Proof.
  intros Hr. destruct (spin_run txw LSR_THRE fuel s) as (h0 & v & h' & E & H0 & Hrd & Hnz & Hs & Hl).
  - intros h1 v1 h1' Hr1 _. by apply lsr_tx.
  - done.
  - pose proof (waits (hw s)). lia.
  - destruct (thr_sends _ _ _ c H0 Hrd Hnz) as (Hr' & Hs' & Hl').
    exists (with_hw (reg_wr R_DATA c h') s). unfold com0_putc. rewrite (bind_Ok _ _ _ _ _ E).
    split_and!; try done; cbn [hw with_hw]; congruence.
Qed.

Lemma getc_run c l s : ready (hw s) -> line (hw s) = c :: l ->
  exists s', com0_getc fuel s = Ok (c, s') /\ same_con s s' /\ ready (hw s') /\
    sent (hw s') = sent (hw s) /\ line (hw s') = l.
Proof.
  intros Hr Hl. destruct (spin_run rxw LSR_DR fuel s) as (h0 & v & h' & E & H0 & Hrd & Hnz & Hs & Hl').
  - intros h1 v1 h1' Hr1 El1 E1. apply (lsr_rx _ _ _ Hr1 E1). rewrite El1, Hl. done.
  - done.
  - pose proof (waits (hw s)). lia.
  - destruct (rbr_gives _ _ _ H0 Hrd Hnz) as (c' & h2 & E2 & El2 & Hr2 & Hs2).
    rewrite Hl', Hl in El2. injection El2 as <- El2.
    exists (with_hw h2 s). unfold com0_getc. rewrite (bind_Ok _ _ _ _ _ E).
    unfold rd_reg. cbn [hw with_hw]. rewrite E2. split_and!; try done; cbn [hw with_hw]; congruence.
Qed.

(** A state reached by output only. *)
Definition out_frame s s' : Prop := s' = set_cprev_out (cprev_out s') (with_hw (hw s') s).
Lemma out_frame_trans s1 s2 s3 : out_frame s1 s2 -> out_frame s2 s3 -> out_frame s1 s3.
Proof.
  unfold out_frame, set_cprev_out, with_hw. destruct s1, s2, s3; cbn.
  intros [= -> -> -> ->] [= -> -> -> ->]. done.
Qed.
Lemma same_con_prev s s' : same_con s s' -> cprev_out s' = cprev_out s /\ cprev_in s' = cprev_in s.
Proof. unfold same_con, with_hw. destruct s, s'; cbn. by intros [= -> -> -> -> ->]. Qed.
Lemma same_con_out s s' c : same_con s s' -> out_frame s (set_cprev_out c s').
Proof. unfold same_con, out_frame, with_hw, set_cprev_out. destruct s, s'; cbn. by intros [= -> -> -> -> ->]. Qed.

Lemma putchar_run c s : ready (hw s) ->
  exists s', console_putchar fuel c s = Ok (tt, s') /\ out_frame s s' /\ ready (hw s') /\ cprev_out s' = c /\
    sent (hw s') = sent (hw s) ++ con_char (cprev_out s) c /\ line (hw s') = line (hw s).
Proof.
  intros Hr. unfold console_putchar, con_char.
  assert (Hone : forall d, exists s', com0_putc fuel d s = Ok (tt, s') /\ same_con s s' /\ ready (hw s') /\
    sent (hw s') = sent (hw s) ++ [d] /\ line (hw s') = line (hw s)) by (intros d; by apply putc_run).
  assert (Htwo : forall d e, exists s', (com0_putc fuel d ;; com0_putc fuel e) s = Ok (tt, s') /\ same_con s s' /\
    ready (hw s') /\ sent (hw s') = sent (hw s) ++ [d; e] /\ line (hw s') = line (hw s)).
  { intros d e. destruct (Hone d) as (s1 & E1 & F1 & R1 & S1 & L1).
    destruct (putc_run e s1 R1) as (s2 & E2 & F2 & R2 & S2 & L2).
    exists s2. rewrite (bind_Ok _ _ _ _ _ E1). split_and!; try done.
    - by eapply same_con_trans.
    - by rewrite S2, S1, <- app_assoc.
    - congruence. }
  assert (Hend : forall (m : M (console H) unit) bs,
    (exists s', m s = Ok (tt, s') /\ same_con s s' /\ ready (hw s') /\ sent (hw s') = sent (hw s) ++ bs /\
       line (hw s') = line (hw s)) ->
    exists s', (m ;; modify (set_cprev_out c)) s = Ok (tt, s') /\ out_frame s s' /\ ready (hw s') /\
      cprev_out s' = c /\ sent (hw s') = sent (hw s) ++ bs /\ line (hw s') = line (hw s)).
  { intros m bs (s1 & E1 & F1 & R1 & S1 & L1). exists (set_cprev_out c s1). rewrite (bind_Ok _ _ _ _ _ E1).
    split_and!; try done. by apply same_con_out. }
  apply Hend. destruct (Z.eqb_spec c CR) as [->|_]; [apply Htwo|].
  destruct (Z.eqb_spec c NL) as [->|_]; [|apply Hone].
  rewrite bind_run. cbn [get obind]. destruct (cprev_out s =? CR); [apply Hone|apply Htwo].
Qed.

(** A whole text through the sink of [vgprintf]. *)
Lemma emit_console out s : ready (hw s) ->
  exists s', emit (vprintf_putc fuel) out (Ok (tt, s)) = Ok (tt, s') /\ out_frame s s' /\ ready (hw s') /\
    sent (hw s') = sent (hw s) ++ con_text (cprev_out s) out /\ line (hw s') = line (hw s).
Proof.
  revert s. induction out as [|c out IH]; intros s Hr.
  - exists s. cbn. rewrite app_nil_r. split_and!; try done. by destruct s.
  - destruct (putchar_run c s Hr) as (s1 & E1 & F1 & R1 & P1 & S1 & L1).
    destruct (IH s1 R1) as (s2 & E2 & F2 & R2 & S2 & L2).
    exists s2. cbn [con_text]. split_and!; try done.
    + rewrite <- E2. unfold emit. cbn [foldl]. f_equal. unfold vprintf_putc. cbn [obind]. by rewrite E1.
    + by eapply out_frame_trans.
    + by rewrite S2, S1, P1, <- app_assoc.
    + congruence.
Qed.

Lemma puts_run str rest s : ready (hw s) -> 0 ∉ str ->
  exists s', console_puts fuel (str ++ 0 :: rest) s = Ok (tt, s') /\ out_frame s s' /\ ready (hw s') /\
    sent (hw s') = sent (hw s) ++ con_text (cprev_out s) (str ++ [NL]) /\ line (hw s') = line (hw s).
Proof.
  revert s. induction str as [|c str IH]; intros s Hr Hz; cbn [app console_puts].
  - destruct (putchar_run NL s Hr) as (s1 & E1 & F1 & R1 & P1 & S1 & L1).
    exists s1. rewrite Z.eqb_refl. cbn [con_text]. rewrite app_nil_r. done.
  - apply not_elem_of_cons in Hz as [Hc Hz]. rewrite (proj2 (Z.eqb_neq c 0)) by congruence.
    destruct (putchar_run c s Hr) as (s1 & E1 & F1 & R1 & P1 & S1 & L1).
    destruct (IH s1 R1 Hz) as (s2 & E2 & F2 & R2 & S2 & L2).
    exists s2. rewrite (bind_Ok _ _ _ _ _ E1). cbn [con_text]. split_and!; try done.
    + by eapply out_frame_trans.
    + by rewrite S2, S1, P1, <- app_assoc.
    + congruence.
Qed.

(** The character [console_getchar] returns after the newlines it skips. *)
Lemma getchar_run k n c l s :
  ready (hw s) -> line (hw s) = replicate k NL ++ c :: l -> (k < n)%nat ->
  cprev_in s = CR \/ k = 0%nat -> (cprev_in s = CR -> c <> NL) ->
  exists s', console_getchar fuel n s = Ok (if c =? CR then NL else c, s') /\ ready (hw s') /\
    cprev_in s' = c /\ sent (hw s') = sent (hw s) /\ line (hw s') = l.
Proof.
  intros Hr Hl Hk Hp Hc.
  assert (Hloop : exists s', getchar_loop fuel n s = Ok (c, s') /\ same_con s s' /\ ready (hw s') /\
    sent (hw s') = sent (hw s) /\ line (hw s') = l).
  { revert s n Hr Hl Hk Hp Hc. induction k as [|k IH]; intros s n Hr Hl Hk Hp Hc;
      (destruct n as [|n]; [lia|]); cbn [getchar_loop replicate app] in *.
    - destruct (getc_run _ _ s Hr Hl) as (s1 & E1 & F1 & R1 & S1 & L1). exists s1.
      rewrite (bind_Ok _ _ _ _ _ E1), bind_run. cbn [get obind].
      rewrite (proj2 (same_con_prev _ _ F1)).
      destruct (Z.eqb_spec c NL), (Z.eqb_spec (cprev_in s) CR); cbn [andb]; by try tauto.
    - destruct Hp as [Hp|]; [|done]. destruct (getc_run _ _ s Hr Hl) as (s1 & E1 & F1 & R1 & S1 & L1).
      rewrite (bind_Ok _ _ _ _ _ E1), bind_run. cbn [get obind].
      pose proof (proj2 (same_con_prev _ _ F1)) as Ep. rewrite Ep, Hp, !Z.eqb_refl. cbn [andb].
      destruct (IH s1 n) as (s2 & E2 & F2 & R2 & S2 & L2); try done; [lia|left; congruence|rewrite Ep; auto|].
      exists s2. split_and!; try done; [by eapply same_con_trans|congruence]. }
  destruct Hloop as (s1 & E1 & F1 & R1 & S1 & L1). exists (set_cprev_in c s1).
  unfold console_getchar. rewrite (bind_Ok _ _ _ _ _ E1), bind_run. cbn [modify obind].
  by destruct (c =? CR).
Qed.

(** One key. *)
Lemma con_getsn_key k j n N c buf0 buf l more s :
  ready (hw s) -> line (hw s) = replicate j NL ++ c :: more -> (j < n)%nat ->
  cprev_in s = CR \/ j = 0%nat -> c <> CR -> c <> NL ->
  Z.of_nat (length l) < N <= Z.of_nat (length buf0) -> N < 2 ^ 64 -> editing N buf0 buf l ->
  exists buf' s', getsn_loop fuel (S k) n buf (length l) (N - Z.of_nat (length l)) s
      = getsn_loop fuel k n buf' (length (con_edit N l c)) (N - Z.of_nat (length (con_edit N l c))) s' /\
    editing N buf0 buf' (con_edit N l c) /\ ready (hw s') /\ cprev_in s' = c /\
    sent (hw s') = sent (hw s) /\ line (hw s') = more.
Proof.
  intros Hr Hl Hj Hp Hcr Hnl HN HN64 He.
  destruct (getchar_run j n c more s Hr Hl Hj Hp ltac:(done)) as (s1 & E1 & R1 & P1 & S1 & L1).
  rewrite (proj2 (Z.eqb_neq c CR)) in E1 by done. cbn [getsn_loop]. rewrite (bind_Ok _ _ _ _ _ E1).
  rewrite (proj2 (Z.eqb_neq c CR)), (proj2 (Z.eqb_neq c NL)) by done. unfold con_edit.
  destruct ((c =? 8) || (c =? 127)).
  - exists buf, s1. split; [|split; [by apply editing_back|done]]. rewrite length_take.
    destruct (Nat.eqb_spec (length l) 0) as [E0|Hne]; cbn [negb].
    + by rewrite Nat.min_l, E0 by lia.
    + rewrite Nat.min_l by lia. f_equal. rewrite u64_small; lia.
  - destruct (Z.ltb_spec 1 (N - Z.of_nat (length l))), (Z.ltb_spec (Z.of_nat (length l) + 1) N); try lia.
    + exists (<[length l := c]> buf), s1. pose proof (proj1 He) as Hlen.
      split; [|split; [by apply editing_put|done]]. unfold buf_put.
      rewrite (proj2 (Nat.ltb_lt _ _)) by lia. rewrite bind_run. cbn [mret M_ret obind].
      rewrite length_app. cbn [length]. rewrite Nat.add_1_r. f_equal. lia.
    + by exists buf, s1.
Qed.

Lemma con_getsn_run N buf0 e more : forall ks k j n buf l s,
  ready (hw s) -> line (hw s) = replicate j NL ++ ks ++ e :: more -> (j < n)%nat ->
  cprev_in s = CR \/ j = 0%nat -> (cprev_in s = CR -> ks = [] -> e = CR) -> e = CR \/ e = NL ->
  Forall (fun c => c <> CR /\ c <> NL) ks -> (length ks < k)%nat ->
  Z.of_nat (length l) < N <= Z.of_nat (length buf0) -> N < 2 ^ 64 -> editing N buf0 buf l ->
  exists buf' s', getsn_loop fuel k n buf (length l) (N - Z.of_nat (length l)) s = Ok (buf', s') /\
    editing N buf0 buf' (foldl (con_edit N) l ks ++ [0]) /\ ready (hw s') /\
    sent (hw s') = sent (hw s) /\ line (hw s') = more.
Proof.
  induction ks as [|c ks IH]; intros k j n buf l s Hr Hl Hj Hp Hpe He Hks Hk HN HN64 Hed;
    (destruct k as [|k]; [simpl in Hk; lia|]).
  - cbn [foldl app] in *. destruct (getchar_run j n e more s Hr Hl Hj Hp) as (s1 & E1 & R1 & P1 & S1 & L1).
    { intros Ep. rewrite (Hpe Ep eq_refl). done. }
    cbn [getsn_loop]. rewrite (bind_Ok _ _ _ _ _ E1).
    replace (if e =? CR then NL else e) with NL by (destruct He as [->| ->]; done).
    change (NL =? CR) with false. change (NL =? NL) with true. cbn iota.
    unfold buf_put. pose proof (proj1 Hed) as Hlen. rewrite (proj2 (Nat.ltb_lt _ _)) by lia.
    exists (<[length l := 0]> buf), s1. split_and!; try done. by apply editing_put.
  - apply Forall_cons in Hks as [[Hcr Hnl] Hks]. simpl in Hk.
    destruct (con_getsn_key k j n N c buf0 buf l (ks ++ e :: more) s) as (buf1 & s1 & E1 & Hed1 & R1 & P1 & S1 & L1); try done.
    destruct (IH k 0%nat n buf1 (con_edit N l c) s1) as (buf2 & s2 & E2 & Hed2 & R2 & S2 & L2); try done.
    + lia.
    + by right.
    + intros Ec. congruence.
    + lia.
    + split; [apply con_edit_bound|]; lia.
    + exists buf2, s2. rewrite E1, E2. split_and!; try done. congruence.
Qed.

(** [console_init] leaves the port ready, with nothing sent or read. *)
Lemma console_init_ready s :
  exists s', console_init s = Ok (tt, s') /\ ready (hw s') /\ sent (hw s') = sent (hw s) /\
    line (hw s') = line (hw s) /\ console_initialized s' = 1.
Proof.
  eexists. split; [reflexivity|]. cbn [hw with_hw console_initialized].
  destruct (ier_quiet (hw s)) as [S1 L1]. set (h1 := reg_wr R_IER 0 (hw s)) in *.
  destruct (dlab_on h1) as (D2 & S2 & L2). set (h2 := reg_wr R_LCR LCR_DLAB h1) in *.
  destruct (divisor h2 R_DATA 1 D2) as (D3 & S3 & L3); [by left|]. set (h3 := reg_wr R_DATA 1 h2) in *.
  destruct (divisor h3 R_IER 0 D3) as (D4 & S4 & L4); [by right|]. set (h4 := reg_wr R_IER 0 h3) in *.
  destruct (dlab_off h4 D4) as (R5 & S5 & L5). split_and!; try done; congruence.
Qed.
End ConsoleProofs.

(** ** Results *)

(** C37. Formatted output on the console.  For a format whose arguments fit, over any
    port that keeps the promises of the data sheet and with more polls allowed
    than it takes to send a byte, [console_vprintf] returns the number of
    characters of the text, having sent the text with its line endings
    converted, with the interrupt state restored and nothing read; a text
    without CR is sent as the terminal sends it, each newline as CR NL. *)
Theorem console_vprintf_spec {H : Type} {C : Com0 H} (sent line : H -> list Z) (ready latched : H -> Prop)
    (txw rxw : H -> nat) (bound fuel : nat) `{!Polled16550 C sent line ready latched txw rxw bound}
    (s : console H) (fmt : list Z) (ap : list va)
    (Hfuel : (bound < fuel)%nat) (Hready : ready (hw s)) (Hfit : args_ok fmt ap = true) :
  exists out s', console_vprintf fuel fmt ap s = Ok (Z.of_nat (length out), s') /\ printed fmt ap = Some out /\
    sent (hw s') = sent (hw s) ++ con_text (cprev_out s) out /\
    (cprev_out s <> CR -> CR ∉ out -> sent (hw s') = sent (hw s) ++ normalize_out out) /\
    line (hw s') = line (hw s) /\ ready (hw s') /\ con_sie s' = con_sie s /\ cprev_in s' = cprev_in s.
Proof.
  destruct (vgprintf_total (fun c l => l ++ [c]) [] fmt ap Hfit) as [[n out] E].
  assert (Ep : printed fmt ap = Some out) by (unfold printed; by rewrite E).
  set (s0 := if intr_initialized s then set_con_sie false s else s).
  assert (E0 : hw s0 = hw s /\ cprev_out s0 = cprev_out s /\ cprev_in s0 = cprev_in s /\
    (intr_initialized s = false -> con_sie s0 = con_sie s)).
  { unfold s0. by destruct (intr_initialized s). }
  destruct E0 as (Eh & Eo & Ei & Es). assert (R0 : ready (hw s0)) by (by rewrite Eh).
  destruct (emit_console (fuel := fuel) Hfuel out s0 R0) as (s1 & E1 & F1 & R1 & S1 & L1).
  exists out. exists (if intr_initialized s then set_con_sie (con_sie s) s1 else s1).
  assert (Hv : ((fun s => match vgprintf (vprintf_putc fuel) (Ok (tt, s)) fmt ap with
               | None => Undef "format and arguments"
               | Some (n, st) => obind st (fun '(_, s') => Ok (n, s')) end) : M (console H) Z) s0
    = Ok (Z.of_nat (length out), s1)).
  { rewrite vgprintf_emit, Ep. cbn [fmap option_fmap option_map]. by rewrite E1. }
  assert (Ftail : con_sie s1 = con_sie s0 /\ cprev_in s1 = cprev_in s0).
  { unfold out_frame in F1. rewrite F1. done. }
  destruct Ftail as [Fs Fi]. rewrite Eh, Eo in S1. rewrite Eh in L1. split.
  { unfold console_vprintf. rewrite bind_run. cbn [get obind]. unfold s0 in Hv.
    destruct (intr_initialized s).
    - rewrite (bind_Ok con_disable _ s (con_sie s) (set_con_sie false s)) by done.
      by rewrite (bind_Ok _ _ _ _ _ Hv).
    - rewrite (bind_Ok (mret false) _ s false s) by done. by rewrite (bind_Ok _ _ _ _ _ Hv). }
  assert (Ec : CR ∉ out -> cprev_out s <> CR -> con_text (cprev_out s) out = normalize_out out).
  { intros. by apply con_text_no_cr. }
  destruct (intr_initialized s); cbn [hw set_con_sie con_sie cprev_in]; split_and!; try done; try congruence.
  all: intros; by rewrite S1, Ec.
Qed.

(** C38. A line from the console.  When the input is a line of keys ended by CR or NL
    - after any newlines that follow an earlier CR, which are skipped -
    [console_getsn] returns; the buffer holds, NUL-terminated, the line the keys
    edit (backspace and delete remove the last character, a character is taken
    only while there is room for it and the NUL), it is as it was from [n] on,
    exactly the keys and their terminator have been consumed, and nothing is
    echoed. *)
Theorem console_getsn_spec {H : Type} {C : Com0 H} (sent line : H -> list Z) (ready latched : H -> Prop)
    (txw rxw : H -> nat) (bound fuel : nat) `{!Polled16550 C sent line ready latched txw rxw bound}
    (s : console H) (k j m : nat) (buf ks more : list Z) (n e : Z)
    (Hfuel : (bound < fuel)%nat) (Hready : ready (hw s))
    (Hin : line (hw s) = replicate j NL ++ ks ++ e :: more) (Hend : e = CR \/ e = NL)
    (Hskip : cprev_in s = CR \/ j = 0%nat) (Hlast : cprev_in s = CR -> ks = [] -> e = CR)
    (Hks : Forall (fun c => 0 < c < 256 /\ c <> CR /\ c <> NL) ks)
    (Hk : (length ks < k)%nat) (Hm : (j < m)%nat) (Hn : 1 <= n <= Z.of_nat (length buf)) (Hn64 : n < 2 ^ 64) :
  exists buf' s', console_getsn fuel k m buf n s = Ok (buf', s') /\
    cstr buf' = foldl (con_edit n) [] ks /\ Z.of_nat (length (cstr buf')) < n /\
    length buf' = length buf /\ drop (Z.to_nat n) buf' = drop (Z.to_nat n) buf /\
    line (hw s') = more /\ sent (hw s') = sent (hw s).
Proof.
  destruct (con_getsn_run (fuel := fuel) Hfuel n buf e more ks k j m buf [] s) as (buf' & s' & E & Hed & R & S & L); try done.
  { eapply Forall_impl; [exact Hks|]. cbn. tauto. }
  { simpl. lia. }
  set (l := foldl (con_edit n) [] ks) in *.
  assert (Hl : Forall (fun c => c <> 0) l /\ Z.of_nat (length l) < n).
  { unfold l. clear -Hks Hn.
    assert (G : forall l, Forall (fun c => c <> 0) l -> Z.of_nat (length l) < n ->
      Forall (fun c => c <> 0) (foldl (con_edit n) l ks) /\ Z.of_nat (length (foldl (con_edit n) l ks)) < n).
    { induction Hks as [|c ks Hc Hks IH]; intros l Hl Hb; [done|]. apply IH; [|by apply con_edit_bound].
      unfold con_edit. repeat casesplit; try done; [by apply Forall_take|].
      apply Forall_app. split; [done|]. constructor; [lia|constructor]. }
    apply (G []); [constructor|simpl; lia]. }
  destruct Hl as [Hnz Hb]. destruct Hed as (Hlen & Ht & Hd).
  assert (Ec : cstr buf' = l).
  { rewrite <- (take_drop (length (l ++ [0])) buf'), Ht, <- app_assoc. by apply cstr_fixed. }
  exists buf', s'. rewrite Ec. split_and!; try done.
  rewrite <- E. unfold console_getsn. simpl. by rewrite Z.sub_0_r.
Qed.

(** ** A port

    A port that needs at most two status reads after each byte it sends, and before
    each byte that arrives; a byte written while it is busy is lost. *)
Record port := mkPort { dlab : bool; busy : nat; arrive : nat; p_out : list Z; p_in : list Z }.

Definition port_rd (r : Z) (h : port) : Z * port :=
  if r =? R_LSR then
    (Z.lor (if (busy h =? 0)%nat then LSR_THRE else 0)
       (if (arrive h =? 0)%nat && negb (bool_decide (p_in h = [])) then LSR_DR else 0),
     mkPort (dlab h) (Nat.min (busy h) 2 - 1) (Nat.min (arrive h) 2 - 1) (p_out h) (p_in h))
  else if (r =? R_DATA) && negb (dlab h) then
    match p_in h with
    | c :: l => (c, mkPort (dlab h) (busy h) 2 (p_out h) l)
    | [] => (0, h)
    end
  else (0, h).
Definition port_wr (r v : Z) (h : port) : port :=
  if r =? R_LCR then mkPort (Z.testbit v 7) (busy h) (arrive h) (p_out h) (p_in h)
  else if (r =? R_DATA) && negb (dlab h) && (busy h =? 0)%nat then mkPort (dlab h) 2 (arrive h) (p_out h ++ [v]) (p_in h)
  else h.
#[global] Instance port_com0 : Com0 port := { reg_rd := port_rd; reg_wr := port_wr }.

Definition port_ready (h : port) : Prop := dlab h = false.
Definition port_latched (h : port) : Prop := dlab h = true.
#[global] Instance port_polled :
  Polled16550 port_com0 p_out p_in port_ready port_latched (fun h => Nat.min (busy h) 2) (fun h => Nat.min (arrive h) 2) 2.
Proof.
  unfold port_ready, port_latched. split; cbn [reg_rd reg_wr port_com0].
  - intros h. done.
  - intros h. done.
  - intros h r v Hd [->| ->]; cbn; rewrite ?Hd; done.
  - intros h Hd. done.
  - intros h v h' Hd [= _ <-]. done.
  - intros h v h' Hd [= <- <-] Hz. cbn [busy].
    destruct (Nat.eqb_spec (busy h) 0) as [_|]; [|lia]. exfalso.
    by destruct ((arrive h =? 0)%nat && _) in Hz.
  - intros h v h' Hd [= <- <-] Hl Hz. cbn [arrive].
    destruct (Nat.eqb_spec (arrive h) 0) as [_|]; [|lia]. exfalso.
    rewrite bool_decide_eq_false_2 in Hz by done. by destruct (busy h =? 0)%nat in Hz.
  - intros h v h' c Hd [= <- <-] Hz. unfold port_wr. cbn [dlab busy p_out p_in].
    destruct (Nat.eqb_spec (busy h) 0) as [Eb|_]; [by rewrite Hd, Eb|]. exfalso. apply Hz.
    by destruct ((arrive h =? 0)%nat && _).
  - intros h v h' Hd [= <- <-] Hz. unfold port_rd. cbn [dlab busy p_out p_in]. rewrite Hd.
    destruct (p_in h) as [|c l] eqn:El.
    + exfalso. apply Hz. rewrite bool_decide_eq_true_2 by done. rewrite andb_false_r. by destruct (busy h =? 0)%nat.
    + by eexists _, _.
  - intros h. lia.
Qed.

Definition demo_con (inp : list Z) : console port := mkCon (mkPort false 0 1 [] inp) 1 0 0 true true.

Lemma console_vprintf_spec_witness :
  exists s', console_vprintf 3 [37; 117; 10; 0] [VInt 42] (demo_con []) = Ok (3, s') /\
    p_out (hw s') = [52; 50; 13; 10] /\ con_sie s' = true.
Proof.
  destruct (console_vprintf_spec p_out p_in port_ready port_latched (fun h => Nat.min (busy h) 2)
    (fun h => Nat.min (arrive h) 2) 2 3 (demo_con []) [37; 117; 10; 0] [VInt 42]) as (out & s' & E & Ep & Es & _ & _ & _ & Ec & _).
  - apply Nat.lt_succ_diag_r.
  - reflexivity.
  - reflexivity.
  - vm_compute in Ep. injection Ep as <-. exists s'. split; [exact E|]. split; [exact Es|exact Ec].
Defined.

(** "ab", backspace, "c", CR, into a buffer of 4. *)
Lemma console_getsn_spec_witness :
  exists buf' s', console_getsn 3 5 1 [9; 9; 9; 9] 4 (demo_con [97; 98; 8; 99; 13; 10]) = Ok (buf', s') /\
    cstr buf' = [97; 99] /\ p_in (hw s') = [10].
Proof.
  destruct (console_getsn_spec p_out p_in port_ready port_latched (fun h => Nat.min (busy h) 2)
    (fun h => Nat.min (arrive h) 2) 2 3 (demo_con [97; 98; 8; 99; 13; 10]) 5 0 1 [9; 9; 9; 9] [97; 98; 8; 99] [10] 4 13)
    as (buf' & s' & E & Ec & _ & _ & _ & El & _).
  - apply Nat.lt_succ_diag_r.
  - reflexivity.
  - reflexivity.
  - by left.
  - by right.
  - discriminate.
  - repeat constructor; discriminate.
  - apply Nat.lt_succ_diag_r.
  - apply Nat.lt_succ_diag_r.
  - split; [discriminate|discriminate].
  - reflexivity.
  - exists buf', s'. split; [exact E|]. split; [exact Ec|exact El].
Defined.
