(* ===== verification/Excp.v ===== *)
(** excp.c: the exception handlers.

    The trap entry calls one of them with the cause and the saved registers.  A
    system call goes to [syscall_handler], a page fault of a user program to
    [memory_handle_page_fault] with the faulting address [stval]; every other
    exception stops the kernel. *)

From S2P Require Import Prelude PhysMem PageTable KernelMap UserMem Clone Thread Timer CString Io Kfs Elf Process.

Definition RISCV_SCAUSE_INSTR_ADDR_MISALIGNED : Z := 0.
Definition RISCV_SCAUSE_INSTR_ACCESS_FAULT : Z := 1.
Definition RISCV_SCAUSE_ILLEGAL_INSTR : Z := 2.
Definition RISCV_SCAUSE_BREAKPOINT : Z := 3.
Definition RISCV_SCAUSE_LOAD_ADDR_MISALIGNED : Z := 4.
Definition RISCV_SCAUSE_LOAD_ACCESS_FAULT : Z := 5.
Definition RISCV_SCAUSE_STORE_ADDR_MISALIGNED : Z := 6.
Definition RISCV_SCAUSE_STORE_ACCESS_FAULT : Z := 7.
Definition RISCV_SCAUSE_ECALL_FROM_UMODE : Z := 8.
Definition RISCV_SCAUSE_ECALL_FROM_SMODE : Z := 9.
Definition RISCV_SCAUSE_INSTR_PAGE_FAULT : Z := 12.
Definition RISCV_SCAUSE_LOAD_PAGE_FAULT : Z := 13.
Definition RISCV_SCAUSE_STORE_PAGE_FAULT : Z := 15.

(** [excp_names]; the entries between the causes are NULL. *)
Definition excp_names : list (option string) :=
  [ Some "Misaligned instruction address"; Some "Instruction access fault"; Some "Illegal instruction";
    Some "Breakpoint"; Some "Misaligned load address"; Some "Load access fault";
    Some "Misaligned store address"; Some "Store access fault"; Some "Environment call from U mode";
    Some "Environment call from S mode"; None; None; Some "Instruction page fault"; Some "Load page fault";
    None; Some "Store page fault" ]%string.

(** How a handler ends: the user program goes on with these registers, or the
    system call did not return to it. *)
Inductive uret := Resume (tfr : trap_frame) | Away (r : sysret).

Section Excp.
Context {R : Type} (ops_of : Z -> io_ops R) (dev_open : Z -> Z -> M R (Z * option Z))
  (fs_open_at : Z -> M R (Z * option Z)) (main_thread : Z) (stack : list Z) (nalarms : nat)
  (main_pt1 nm : Z).

(** The panic carries the line that is printed before it. *)
Definition default_excp_handler {A} (code : Z) : M (pst R) A :=
  match (if (0 <=? code) && (code <? Z.of_nat (length excp_names)) then mjoin (excp_names !! Z.to_nat code) else None) with
  | None => panic "Exception"
  | Some name => panic name
  end.

Definition smode_excp_handler {A} (code : Z) : M (pst R) A := default_excp_handler code.

Definition umode_excp_handler (code stval : Z) (tfr : trap_frame) : M (pst R) uret :=
  if code =? RISCV_SCAUSE_ECALL_FROM_UMODE then
    r ← syscall_handler ops_of dev_open fs_open_at main_thread stack nalarms main_pt1 nm tfr;
    mret (match r.2 with Ret _ => Resume r.1 | other => Away other end)
  else if (code =? RISCV_SCAUSE_STORE_PAGE_FAULT) || (code =? RISCV_SCAUSE_LOAD_PAGE_FAULT)
       || (code =? RISCV_SCAUSE_INSTR_PAGE_FAULT) then
    on_pg (memory_handle_page_fault stval) ;;
    mret (Resume tfr)
  else default_excp_handler code.

Lemma default_panics {A} code (s : pst R) : exists msg, default_excp_handler (A := A) code s = Panic msg.
Proof. unfold default_excp_handler. case_match; by eexists. Qed.
End Excp.

Definition page_fault (code : Z) : Prop :=
  code = RISCV_SCAUSE_STORE_PAGE_FAULT \/ code = RISCV_SCAUSE_LOAD_PAGE_FAULT \/ code = RISCV_SCAUSE_INSTR_PAGE_FAULT.


(** A process in an empty address space. *)
Definition demo_user : pst Z :=
  with_ptm (with_tthr (with_pages demo_vm (tthr (ptm demo_pst))) (ptm demo_pst)) demo_pst.
Definition demo_tfr : trap_frame := mkTfr 3221225472 1000 2 0 0 SYSCALL_CLOSE.

