(* ===== verification/User.v ===== *)
(** src/src/user: the user programs.

    A program runs on the system calls of syscall.h, a class: [W] is the rest of
    the world, the kernel with its devices.  A program returns from its [main]
    (start.s then calls [_exit]), ends, is replaced by another one, or does what C
    leaves undefined.  The contents of an array that is not initialised is an
    argument.  [Recorder] and [UserTerminal] state what the programs rely on: a
    message is printed, a terminal delivers what is typed and shows what is
    written. *)

From S2P Require Import Prelude CString Io.

(** ** Programs *)

Inductive uend := Exited | Replaced (fd : Z).
Inductive ures (W A : Type) :=
| URet (a : A) (w : W)
| UEnd (e : uend) (w : W)
| UUndef (why : string)
| UMore. (* the loop has used up its bound *)
Arguments URet {W A}.
Arguments UEnd {W A}.
Arguments UUndef {W A}.
Arguments UMore {W A}.

Definition U (W A : Type) : Type := W -> ures W A.
#[global] Instance U_ret W : MRet (U W) := fun A a w => URet a w.
#[global] Instance U_bind W : MBind (U W) := fun A B f m w =>
  match m w with
  | URet a w' => f a w'
  | UEnd e w' => UEnd e w'
  | UUndef why => UUndef why
  | UMore => UMore
  end.

(** The system calls.  [sc_read] returns the result and the bytes stored in the
    buffer, [sc_ioctl] the result and the value of the argument afterwards;
    [sc_exec] the result when it fails, or nothing. *)
Class Syscalls (W : Type) := {
  sc_msgout : list Z -> W -> W;
  sc_devopen : Z -> list Z -> Z -> W -> Z * W;
  sc_fsopen : Z -> list Z -> W -> Z * W;
  sc_close : Z -> W -> Z * W;
  sc_read : Z -> Z -> W -> (Z * list Z) * W;
  sc_write : Z -> list Z -> W -> Z * W;
  sc_ioctl : Z -> Z -> Z -> W -> (Z * Z) * W;
  sc_exec : Z -> W -> option Z * W;
  sc_fork : W -> Z * W
}.

(** A C string literal. *)
Fixpoint chars (s : string) : list Z :=
  match s with
  | EmptyString => []
  | String a s' => Z.of_nat (Ascii.nat_of_ascii a) :: chars s'
  end.
Definition lit (s : string) : list Z := chars s ++ [0].

Section Programs.
Context {W : Type} `{!Syscalls W}.
Notation UM := (U W).

Definition call {A} (f : W -> A * W) : UM A := fun w => let '(a, w') := f w in URet a w'.
Definition _msgout (msg : list Z) : UM unit := fun w => URet tt (sc_msgout msg w).
Definition _exit {A} : UM A := fun w => UEnd Exited w.
Definition _devopen (fd : Z) (name : list Z) (instno : Z) : UM Z := call (sc_devopen fd name instno).
Definition _fsopen (fd : Z) (name : list Z) : UM Z := call (sc_fsopen fd name).
Definition _close (fd : Z) : UM Z := call (sc_close fd).
Definition _read (fd n : Z) : UM (Z * list Z) := call (sc_read fd n).
Definition _write (fd : Z) (bs : list Z) : UM Z := call (sc_write fd bs).
Definition _ioctl (fd cmd arg : Z) : UM (Z * Z) := call (sc_ioctl fd cmd arg).
Definition _fork : UM Z := call sc_fork.
Definition _exec (fd : Z) : UM Z := fun w =>
  match sc_exec fd w with
  | (Some r, w') => URet r w'
  | (None, w') => UEnd (Replaced fd) w'
  end.

Definition ubad {A} (why : string) : UM A := fun _ => UUndef why.
(** [a[i] = c] for an array. *)
Definition ustore (a : list Z) (i c : Z) : UM (list Z) :=
  if (0 <=? i) && (i <? Z.of_nat (length a)) then mret (<[Z.to_nat i := c]> a) else ubad "store outside an array".
Definition ustrlen (s : list Z) : UM Z :=
  match strlen s with Some n => mret n | None => ubad "unterminated string" end.
(** [slen = strlen(s); _write(0, s, slen)] *)
Definition put_str (s : list Z) : UM unit :=
  n ← ustrlen s; _write 0 (take (Z.to_nat n) s) ;; mret tt.
(** [_read(0, c, 1)] into the one character [c]. *)
Definition read_char (c : Z) : UM Z :=
  r ← _read 0 1; mret (List.hd c r.2).

(** Opening with the message and the end of the program on failure. *)
Definition or_exit (r : Z) (msg : string) : UM unit :=
  if r <? 0 then _msgout (lit msg) ;; _exit else mret tt.

(** ** The first programs *)

Definition init0_main : UM unit := _msgout (lit "Hello, world!").

Definition init1_main : UM unit :=
  let greeting := chars "Hello, world!" ++ [13; 10; 0] in
  result ← _devopen 0 (lit "ser") 1;
  if result <? 0 then mret tt
  else put_str greeting ;; _close 0 ;; mret tt.

(** The programs that open a file at [fd] and become it. *)
Definition open_and_exec (fd : Z) (name : string) : UM unit :=
  result ← _fsopen fd (lit name);
  or_exit result "_fsopen failed" ;;
  _exec fd ;; mret tt.
Definition on_serial (instno : Z) (name : string) : UM unit :=
  result ← _devopen 0 (lit "ser") instno;
  or_exit result "_devopen failed" ;;
  open_and_exec 1 name.

Definition init2_main : UM unit := on_serial 1 "rule30".

Definition init_fib_fib_main : UM unit := _fork ;; open_and_exec 0 "fib".

Definition init_fib_rule30_main : UM unit :=
  r ← _fork;
  if negb (r =? 0) then open_and_exec 1 "fib" else on_serial 1 "rule30".

Definition init_trek_rule30_main : UM unit :=
  r ← _fork;
  if negb (r =? 0) then on_serial 1 "trek" else on_serial 2 "rule30".

(** ** fib.c *)

Fixpoint fib (n : nat) : Z :=
  match n with
  | O => 0
  | S n' => match n' with
            | O => 1
            | S n'' => u32 (fib n'' + fib n')
            end
  end.

Definition FIB_FMT : list Z := chars "f(%u) = %u" ++ [10; 0].

Fixpoint fib_lines (ns : list nat) (linebuf : list Z) : UM unit :=
  match ns with
  | [] => mret tt
  | n :: ns' =>
      match snprintf linebuf 64 FIB_FMT [VInt (Z.of_nat n); VInt (fib n)] with
      | None => ubad "snprintf"
      | Some (_, linebuf') => _msgout linebuf' ;; fib_lines ns' linebuf'
      end
  end.
Definition fib_main (linebuf : list Z) : UM unit := fib_lines (seq 0 60) linebuf ;; _exit.

(** ** Reading a line *)

(** The loop of greeting.c, cat.c, syscall_ioctl.c and number.c that reads a line
    into an array of [cap] characters from index [n] on; the result has the array,
    the last character and the index.  It ends after [cap + 1] rounds at most. *)
Fixpoint line_loop (fuel : nat) (cap : Z) (toolong buf : list Z) (c n : Z) : UM (list Z * Z * Z) :=
  match fuel with
  | O => fun _ => UMore
  | S fuel' =>
      c ← read_char c;
      if c =? CR then
        _write 0 [NL] ;;
        _write 0 [CR] ;;
        buf ← ustore buf n 0;
        mret (buf, CR, n)
      else if n <? cap then
        _write 0 [c] ;;
        buf ← ustore buf n c;
        line_loop fuel' cap toolong buf c (n + 1)
      else
        put_str toolong ;;
        mret (buf, c, n)
  end.
Definition read_line (cap : Z) (toolong buf : list Z) (c n : Z) : UM (list Z * Z * Z) :=
  line_loop (S (Z.to_nat cap)) cap toolong buf c n.

Definition NAME_TOO_LONG : list Z := chars "Name is too long! " ++ [10; 13; 0].
Definition FILE_TOO_LONG : list Z := chars "File name is too long! " ++ [10; 13; 0].
Definition OUT_OF_RANGE : list Z := chars "Your number is out of range! " ++ [10; 13; 0].

(** greeting.c: the greeting has, in UTF-8, two arrows and an omega. *)
Definition HELLO_FMT : list Z :=
  chars "Hello, %s! This is enjoy life " ++ [226; 134; 150] ++ chars "(^" ++ [207; 137] ++ chars "^)" ++ [226; 134; 151]
  ++ chars " love riscv!" ++ [10; 13; 0].

Definition greeting_main (username message : list Z) (c : Z) : UM unit :=
  result ← _devopen 0 (lit "ser") 1;
  or_exit result "_devopen failed" ;;
  c ← read_char c;
  put_str (lit "Enter your username: ") ;;
  l ← read_line 32 NAME_TOO_LONG username c 0;
  let '(username, c, _) := l in
  match snprintf message 128 HELLO_FMT [VStr (Some username)] with
  | None => ubad "unterminated string"
  | Some (_, message) =>
      put_str message ;;
      put_str (lit "Hit any key to end the program: ") ;;
      read_char c ;; mret tt
  end.

Definition cat_main (filename buf : list Z) (c : Z) : UM unit :=
  result ← _devopen 0 (lit "ser") 1;
  or_exit result "_devopen failed" ;;
  c ← read_char c;
  put_str (lit "File name: ") ;;
  l ← read_line 32 FILE_TOO_LONG filename c 0;
  let '(filename, c, _) := l in
  result ← _fsopen 1 filename;
  or_exit result "_fsopen failed" ;;
  _ioctl 1 IOCTL_GETLEN 0 ;;
  r ← _read 1 4096;
  or_exit r.1 "_read failed" ;;
  let buf := splice 0 r.2 buf in
  put_str buf ;;
  _msgout buf ;;
  put_str ([10; 13] ++ lit "Hit any key to end the program: ") ;;
  read_char c ;; mret tt.

(** syscall_ioctl.c: a part of the file is read into an array and written to the
    terminal; then the position is set for the next one, and the array printed. *)
Definition show_part (buf : list Z) : UM (list Z) :=
  r ← _read 1 (Z.of_nat (length buf));
  let buf := splice 0 r.2 buf in
  _write 0 buf ;; mret buf.
Definition show_then_seek (buf : list Z) (pos : Z) (title : string) : UM unit :=
  buf ← show_part buf;
  _ioctl 1 IOCTL_SETPOS pos ;;
  _msgout buf ;;
  _msgout (lit title).

Definition syscall_ioctl_main (filename buf buf_first_clip buf_second_clip buf_third_clip buf_fourth_clip : list Z) (c : Z) : UM unit :=
  result ← _devopen 0 (lit "ser") 1;
  or_exit result "_devopen failed" ;;
  c ← read_char c;
  put_str (lit "Enter file to open: ") ;;
  l ← read_line 32 NAME_TOO_LONG filename c 0;
  let '(filename, _, _) := l in
  _msgout (lit "-------- Reading 101 Bytes from File --------") ;;
  _fsopen 1 filename ;;
  show_then_seek buf 20 "-------- Reading 81 Bytes from File after Setting Pos = 20 --------" ;;
  show_then_seek buf_first_clip 40 "-------- Reading 61 Bytes from File after Setting Pos = 40 --------" ;;
  show_then_seek buf_second_clip 60 "-------- Reading 41 Bytes from File after Setting Pos = 60 --------" ;;
  show_then_seek buf_third_clip 80 "-------- Reading 21 Bytes from File after Setting Pos = 20 --------" ;;
  b ← show_part buf_fourth_clip;
  _msgout b.

(** ** number.c *)

(** [atoi] of the C library on the memory from [s] on: white space, a sign, digits. *)
Fixpoint atoi_digits (s : list Z) (acc : Z) : option Z :=
  match s with
  | [] => None
  | c :: s' => if (48 <=? c) && (c <=? 57) then atoi_digits s' (10 * acc + (c - 48)) else Some acc
  end.
Fixpoint atoi (s : list Z) : option Z :=
  match s with
  | [] => None
  | c :: s' =>
      if (c =? 32) || ((9 <=? c) && (c <=? 13)) then atoi s'
      else if c =? 45 then Z.opp <$> atoi_digits s' 0
      else if c =? 43 then atoi_digits s' 0
      else atoi_digits s 0
  end.

(** One round of the game; the result has the guess and the variables that the
    rounds share, among them the index [n], which is not set back to 0, and the
    prompt. *)
Definition guess_round (msg buf : list Z) (c n : Z) : UM (Z * list Z * list Z * Z * Z) :=
  put_str msg ;;
  l ← read_line 3 OUT_OF_RANGE buf c n;
  let '(buf, c, n') := l in
  let msg := if (c =? CR) then msg else OUT_OF_RANGE in
  match atoi buf with
  | None => ubad "unterminated string"
  | Some guess =>
      put_str (lit (if 53 <? guess then "Too high!" else if guess <? 53 then "Too low!" else "Correct!")) ;;
      mret (guess, msg, buf, c, n')
  end.

Fixpoint guess_loop (fuel : nat) (guess : Z) (msg buf : list Z) (c n : Z) : UM Z :=
  if guess =? 53 then mret c
  else match fuel with
  | O => fun _ => UMore
  | S fuel' =>
      g ← guess_round msg buf c n;
      let '(guess, msg, buf, c, n) := g in
      guess_loop fuel' guess msg buf c n
  end.

Definition number_main (fuel : nat) (buf : list Z) (c : Z) : UM unit :=
  result ← _devopen 0 (lit "ser") 1;
  or_exit result "_devopen failed" ;;
  c ← guess_loop fuel 0 (lit "Guess a number between 0 and 100: ") buf c 0;
  put_str (lit "Hit any key to end the game: ") ;;
  read_char c ;; mret tt.
End Programs.

(** ** What the programs rely on *)

(** A message is printed up to its NUL. *)
Class Recorder {W : Type} (SC : Syscalls W) (msgs : W -> list (list Z)) : Prop :=
  msgout_recorded : forall m w, terminated m -> msgs (sc_msgout m w) = msgs w ++ [cstr m].

(** Descriptor 0 is a terminal: [inp] is what is still to be typed and [out] what it
    has shown. *)
Class UserTerminal {W : Type} (SC : Syscalls W) (inp out : W -> list Z) : Prop := {
  ut_read : forall w c rest, inp w = c :: rest ->
    exists w', sc_read 0 1 w = ((1, [c]), w') /\ inp w' = rest /\ out w' = out w;
  ut_write : forall w bs, exists r w', sc_write 0 bs w = (r, w') /\ out w' = out w ++ bs /\ inp w' = inp w
}.

Lemma ubind_ret {W A B} (m : U W A) (f : A -> U W B) w a w' : m w = URet a w' -> (m ≫= f) w = f a w'.
Proof. intros E. unfold mbind, U_bind. by rewrite E. Qed.
Lemma ubind_bad {W A B} (m : U W A) (f : A -> U W B) w why : m w = UUndef why -> (m ≫= f) w = UUndef why.
Proof. intros E. unfold mbind, U_bind. by rewrite E. Qed.

(** ** The Fibonacci numbers *)

Fixpoint fib_pair (n : nat) : Z * Z :=
  match n with O => (0, 1) | S n' => let '(a, b) := fib_pair n' in (b, a + b) end.
Definition fibonacci (n : nat) : Z := (fib_pair n).1.

Lemma fibonacci_step n : fibonacci (S (S n)) = fibonacci n + fibonacci (S n).
Proof. unfold fibonacci. cbn [fib_pair]. by destruct (fib_pair n). Qed.

Lemma fib_wraps n : fib n = u32 (fibonacci n) /\ fib (S n) = u32 (fibonacci (S n)).
Proof.
  induction n as [|n [IH1 IH2]]; [done|]. split; [done|]. rewrite fibonacci_step.
  change (fib (S (S n))) with (u32 (fib n + fib (S n))). rewrite IH1, IH2. unfold u32. by rewrite <- Z.add_mod by lia.
Qed.

(** A number in decimal, and a line of the program's output. *)
Definition dec (v : Z) : list Z := default [] (format_digits 40 v 10 []).
Definition fib_line (n : nat) : list Z :=
  chars "f(" ++ dec (Z.of_nat n) ++ chars ") = " ++ dec (u32 (fibonacci n)) ++ [NL].

Lemma dec_value v : 0 <= v < 2 ^ 64 -> value 10 (dec v) = v.
Proof. intros Hv. unfold dec. by destruct (format_digits_40 10 v (or_introl eq_refl) Hv) as (ds & -> & _ & ? & _). Qed.

(** The sixty lines, computed. *)
Definition line_ok (n : nat) : bool :=
  bool_decide (printed FIB_FMT [VInt (Z.of_nat n); VInt (u32 (fibonacci n))] = Some (fib_line n)) &&
  (length (fib_line n) <? 64)%nat && forallb (fun c => negb (c =? 0)) (fib_line n).
Lemma lines_ok : forallb line_ok (seq 0 60) = true.
Proof. vm_compute. reflexivity. Qed.

Lemma line_printed n buf :
  (n < 60)%nat -> length buf = 64%nat ->
  exists r, snprintf buf 64 FIB_FMT [VInt (Z.of_nat n); VInt (fib n)] = Some (r, splice 0 (fib_line n ++ [0]) buf) /\
    (length (fib_line n) < 64)%nat /\ 0 ∉ fib_line n.
Proof.
  intros Hn Hb. rewrite (proj1 (fib_wraps n)).
  assert (Hok : line_ok n = true) by (eapply (proj1 (forallb_forall line_ok _) lines_ok), in_seq; lia).
  apply andb_true_iff in Hok as [[Hp%bool_decide_eq_true Hl%Nat.ltb_lt]%andb_true_iff Hz].
  eexists. split_and!; [|done|].
  - unfold snprintf. rewrite (vsnprintf_text buf 64 _ _ _ Hp) by lia. change (64 =? 0) with false. cbn iota.
    rewrite take_ge by lia. done.
  - intros Hin. rewrite forallb_forall in Hz. apply list_elem_of_In in Hin. by specialize (Hz 0 Hin).
Qed.

Lemma cstr_spliced s buf : (length s < length buf)%nat -> 0 ∉ s ->
  let m := splice 0 (s ++ [0]) buf in terminated m /\ cstr m = s /\ length m = length buf.
Proof.
  intros Hl Hz m. assert (Em : m = s ++ 0 :: drop (0 + length (s ++ [0])) buf) by (unfold m, splice; cbn; by rewrite <- app_assoc).
  split; [rewrite Em; unfold terminated; set_solver|]. split.
  - rewrite Em. generalize (drop (0 + length (s ++ [0])) buf) as rest. clear -Hz. intros rest. induction s as [|c s IH]; [done|]. cbn. destruct (Z.eqb_spec c 0); [set_solver|].
    rewrite IH; [done|set_solver].
  - unfold m. rewrite splice_length; [done|]. rewrite length_app. cbn. lia.
Qed.

Lemma fib_lines_run {W} (SC : Syscalls W) (msgs : W -> list (list Z)) `{!Recorder SC msgs} ns : forall buf w,
  Forall (fun n => (n < 60)%nat) ns -> length buf = 64%nat ->
  exists w', fib_lines ns buf w = URet tt w' /\ msgs w' = msgs w ++ (fib_line <$> ns).
Proof.
  induction ns as [|n ns IH]; intros buf w Hns Hb; [exists w; by rewrite app_nil_r|].
  apply Forall_cons in Hns as [Hn Hns]. destruct (line_printed n buf Hn Hb) as (r & E & Hl & Hz).
  destruct (cstr_spliced (fib_line n) buf) as (Ht & Hc & Hlen); [lia|done|]. cbn [fib_lines]. rewrite E.
  destruct (IH (splice 0 (fib_line n ++ [0]) buf) (sc_msgout (splice 0 (fib_line n ++ [0]) buf) w)) as (w' & E' & Hm);
    [done|by rewrite Hlen|]. exists w'. split; [exact E'|].
  rewrite Hm, (msgout_recorded _ w Ht), Hc, <- app_assoc. done.
Qed.

(** C39. fib.c prints the Fibonacci numbers.  The program ends by [_exit] after printing
    exactly sixty messages, for n from 0 to 59 the text "f(n) = v" and a newline, n and
    v in decimal, where v is the n-th Fibonacci number modulo 2^32: the recursive
    function agrees with the sequence up to the wrap-around of [unsigned int], which
    starts at n = 48.  No line is cut by the buffer. *)
Theorem fib_main_spec {W : Type} (SC : Syscalls W) (msgs : W -> list (list Z)) (Hrec : Recorder SC msgs) (linebuf : list Z) (w : W)
    (Hbuf : length linebuf = 64%nat) :
  exists w', fib_main linebuf w = UEnd Exited w' /\ msgs w' = msgs w ++ (fib_line <$> seq 0 60) /\
    (forall n, (n < 48)%nat -> fib n = fibonacci n) /\ fib 48 <> fibonacci 48 /\
    (forall n, fib n = fibonacci n mod 2 ^ 32 /\ value 10 (dec (fib n)) = fib n).
Proof.
  destruct (fib_lines_run SC msgs (seq 0 60) linebuf w) as (w' & E & Hm); [|done|].
  { apply Forall_forall. intros n Hn%list_elem_of_In%in_seq. lia. }
  exists w'. split; [|split; [exact Hm|split; [|split]]].
  - exact (ubind_ret (fib_lines (seq 0 60) linebuf) (fun _ => _exit) w tt w' E).
  - intros n Hn. rewrite (proj1 (fib_wraps n)). apply Z.eqb_eq.
    assert (Hall : forallb (fun n => u32 (fibonacci n) =? fibonacci n) (seq 0 48) = true) by (vm_compute; reflexivity).
    apply (proj1 (forallb_forall _ _) Hall), in_seq. lia.
  - rewrite (proj1 (fib_wraps 48)). vm_compute. discriminate.
  - intros n. rewrite (proj1 (fib_wraps n)). split; [done|]. apply dec_value. pose proof (u32_range (fibonacci n)). lia.
Qed.

(** ** Lines *)

Section Lines.
Context {W : Type} (SC : Syscalls W) (inp out : W -> list Z) `{!UserTerminal SC inp out}.

Lemma read_char_run c0 (w : W) c rest :
  inp w = c :: rest -> exists w', read_char c0 w = URet c w' /\ inp w' = rest /\ out w' = out w.
Proof.
  intros Hi. destruct (ut_read w c rest Hi) as (w' & E & H1 & H2). exists w'. split; [|done].
  unfold read_char, _read, call, mbind, U_bind. by rewrite E.
Qed.
Lemma write_shown w bs : exists r w', _write 0 bs w = URet r w' /\ out w' = out w ++ bs /\ inp w' = inp w.
Proof.
  destruct (ut_write w bs) as (r & w' & E & H). exists r, w'. split; [|done]. unfold _write, call. by rewrite E.
Qed.
Lemma put_str_run s (w : W) : terminated s ->
  exists w', put_str s w = URet tt w' /\ out w' = out w ++ cstr s /\ inp w' = inp w.
Proof.
  intros Ht. unfold put_str, ustrlen. rewrite strlen_cstr by done.
  destruct (write_shown w (take (Z.to_nat (Z.of_nat (length (cstr s)))) s)) as (r & w' & E & Ho & Hi). exists w'. split.
  - unfold mbind, U_bind. cbn. by rewrite E.
  - split; [|done]. rewrite Ho, Nat2Z.id. by rewrite take_cstr.
Qed.

Lemma ustore_run buf i c (w : W) : 0 <= i < Z.of_nat (length buf) -> ustore buf i c w = URet (<[Z.to_nat i := c]> buf) w.
Proof.
  intros [H1 H2]. unfold ustore. by rewrite (proj2 (Z.leb_le _ _) H1), (proj2 (Z.ltb_lt _ _) H2).
Qed.
Lemma ustore_bad buf i c (w : W) : Z.of_nat (length buf) <= i -> exists why, ustore buf i c w = UUndef why.
Proof.
  intros H. unfold ustore. rewrite (proj2 (Z.ltb_ge _ _) H), andb_false_r. by eexists.
Qed.

(** How the loop ends, from index [i] of an array of [N] characters on, when
    [line] is typed and then the return key. *)
Definition line_ends (N i : nat) (toolong buf line rest : list Z) (w : W) (r : ures W (list Z * Z * Z)) : Prop :=
  match (i + length line ?= N)%nat with
  | Lt => exists w', r = URet (splice i (line ++ [0]) buf, CR, Z.of_nat (i + length line)) w' /\
      out w' = out w ++ line ++ [NL; CR] /\ inp w' = rest
  | Eq => exists why, r = UUndef why
  | Gt => exists w', r = URet (splice i (take (N - i) line) buf, nth (N - i) line 0, Z.of_nat N) w' /\
      out w' = out w ++ take (N - i) line ++ cstr toolong /\ inp w' = drop (S (N - i)) line ++ CR :: rest
  end.

Lemma splice_step i c l (buf : list Z) : (i < length buf)%nat -> splice (S i) l (<[i := c]> buf) = splice i (c :: l) buf.
Proof.
  intros Hi. unfold splice. rewrite (take_S_r _ _ c) by (by apply list_lookup_insert_eq).
  rewrite take_insert_ge, drop_insert_lt, <- app_assoc by lia. cbn [length app]. by rewrite Nat.add_succ_r.
Qed.

(** The return key ends the line; at the end of the array its terminator does not
    fit. *)
Lemma return_run N toolong rest fuel buf c i w :
  length buf = N -> (i <= N)%nat -> inp w = CR :: rest ->
  line_ends N i toolong buf [] rest w (line_loop (S fuel) (Z.of_nat N) toolong buf c (Z.of_nat i) w).
Proof.
  intros Hb Hi Hin. cbn [line_loop]. destruct (read_char_run c w CR rest Hin) as (w1 & E1 & Hi1 & Ho1). rewrite (ubind_ret _ _ _ _ _ E1).
  change (CR =? CR) with true. cbn iota. destruct (write_shown w1 [NL]) as (r2 & w2 & E2 & Ho2 & Hi2).
  rewrite (ubind_ret _ _ _ _ _ E2). destruct (write_shown w2 [CR]) as (r3 & w3 & E3 & Ho3 & Hi3).
  rewrite (ubind_ret _ _ _ _ _ E3). unfold line_ends. cbn [length]. rewrite Nat.add_0_r.
  destruct (Nat.compare_spec i N) as [->|Hlt|Hgt]; [| |lia].
  - destruct (ustore_bad buf (Z.of_nat N) 0 w3) as (why & E); [lia|]. exists why. by rewrite (ubind_bad _ _ _ _ E).
  - exists w3. rewrite (ubind_ret _ _ _ _ _ (ustore_run buf (Z.of_nat i) 0 w3 ltac:(lia))). rewrite Nat2Z.id.
    split_and!; [|by rewrite Ho3, Ho2, Ho1, <- app_assoc|congruence].
    unfold mret, U_ret. do 3 f_equal. cbn [app]. rewrite <- (splice_step i 0 [] buf) by lia.
    by rewrite splice_nil by (rewrite length_insert; lia).
Qed.

Lemma line_loop_run N toolong rest line : forall fuel buf c i w,
  CR ∉ line -> length buf = N -> (i <= N)%nat -> (N - i < fuel)%nat -> terminated toolong ->
  inp w = line ++ CR :: rest ->
  line_ends N i toolong buf line rest w (line_loop fuel (Z.of_nat N) toolong buf c (Z.of_nat i) w).
Proof.
  induction line as [|x line IH]; intros [|fuel] buf c i w Hcr Hb Hi Hf Ht Hin; try lia.
  - by apply return_run.
  - cbn [line_loop]. destruct (read_char_run c w x (line ++ CR :: rest) Hin) as (w1 & E1 & Hi1 & Ho1). rewrite (ubind_ret _ _ _ _ _ E1).
    destruct (Z.eqb_spec x CR) as [->|Hx]; [set_solver|]. destruct (Z.ltb_spec (Z.of_nat i) (Z.of_nat N)) as [Hlt|Hge].
    + destruct (write_shown w1 [x]) as (r2 & w2 & E2 & Ho2 & Hi2). rewrite (ubind_ret _ _ _ _ _ E2).
      rewrite (ubind_ret _ _ _ _ _ (ustore_run buf (Z.of_nat i) x w2 ltac:(lia))), Nat2Z.id.
      replace (Z.of_nat i + 1) with (Z.of_nat (S i)) by lia.
      assert (Hrec := IH fuel (<[i := x]> buf) x (S i) w2 ltac:(set_solver) ltac:(by rewrite length_insert) ltac:(lia) ltac:(lia) Ht
        ltac:(by rewrite Hi2)).
      unfold line_ends in *. cbn [length]. replace (i + S (length line))%nat with (S i + length line)%nat by lia.
      replace (N - i)%nat with (S (N - S i)) by lia.
      destruct (S i + length line ?= N)%nat eqn:Ec.
      * exact Hrec.
      * destruct Hrec as (w' & E & Ho & Hi'). exists w'. rewrite E. rewrite splice_step by lia.
        split_and!; [done| |done]. rewrite Ho, Ho2, Ho1, <- app_assoc. done.
      * destruct Hrec as (w' & E & Ho & Hi'). exists w'. rewrite E. rewrite splice_step by lia.
        split_and!; [done| |done]. rewrite Ho, Ho2, Ho1, <- app_assoc. done.
    + assert (i = N) as -> by lia. destruct (put_str_run toolong w1 Ht) as (w2 & E2 & Ho2 & Hi2).
      rewrite (ubind_ret _ _ _ _ _ E2). unfold line_ends. cbn [length].
      rewrite (proj2 (Nat.compare_gt_iff _ _)) by lia. exists w2. rewrite Nat.sub_diag. cbn [take nth drop].
      rewrite splice_nil by lia. split_and!; [done|by rewrite Ho2, Ho1|by rewrite Hi2].
Qed.
End Lines.

(** C40. Reading a line at the terminal, as greeting.c, cat.c and syscall_ioctl.c do with
    arrays of 32 characters and number.c with 3: when a line without a return
    character and then the return key are typed, the loop ends; a line shorter than
    the array is in the array with its NUL and has been echoed, followed by a newline
    and a return; a line longer than the array is cut, without a NUL, and the message
    is shown, the rest of the line being left to be read; and a line that fills the
    array exactly makes the program store the NUL behind it. *)
Theorem read_line_spec {W : Type} (SC : Syscalls W) (inp out : W -> list Z) (Hterm : UserTerminal SC inp out)
    (N : nat) (toolong buf line rest : list Z) (c : Z) (w : W)
    (Hcr : CR ∉ line) (Hbuf : length buf = N) (Hmsg : terminated toolong) (Hin : inp w = line ++ CR :: rest) :
  let r := read_line (Z.of_nat N) toolong buf c 0 w in
  ((length line < N)%nat -> exists w', r = URet (splice 0 (line ++ [0]) buf, CR, Z.of_nat (length line)) w' /\
     out w' = out w ++ line ++ [NL; CR] /\ inp w' = rest) /\
  ((N < length line)%nat -> exists w', r = URet (take N line, nth N line 0, Z.of_nat N) w' /\
     out w' = out w ++ take N line ++ cstr toolong /\ inp w' = drop (S N) line ++ CR :: rest) /\
  (length line = N -> exists why, r = UUndef why).
Proof.
  intros r. assert (H : line_ends inp out N 0 toolong buf line rest w r).
  { unfold r, read_line. apply (line_loop_run SC inp out N toolong rest line); try done; lia. }
  unfold line_ends in H. rewrite Nat.sub_0_r, Nat.add_0_l in H. split_and!; intros Hl.
  - by rewrite (proj2 (Nat.compare_lt_iff _ _) Hl) in H.
  - rewrite (proj2 (Nat.compare_gt_iff _ _) Hl) in H.
    assert (Et : splice 0 (take N line) buf = take N line).
    { unfold splice. rewrite take_0, drop_ge by (rewrite length_take; lia). by rewrite app_nil_r. }
    by rewrite Et in H.
  - by rewrite (proj2 (Nat.compare_eq_iff _ _) Hl) in H.
Qed.

(** number.c does not set its index back between two guesses: when a first guess had
    two digits and the second has two as well, the digits are put behind each other
    and the program reads beyond its array. *)
Lemma second_guess_undefined {W : Type} (SC : Syscalls W) (inp out : W -> list Z) (Hterm : UserTerminal SC inp out)
    (msg rest : list Z) (d1 d2 x y c : Z) (w : W)
    (Hdig : Forall (fun d => 48 <= d <= 57) [d1; d2; x; y]) (Hmsg : terminated msg) (Hin : inp w = [x; y] ++ CR :: rest) :
  exists why, guess_round msg [d1; d2; 0] c 2 w = UUndef why.
Proof.
  destruct (put_str_run SC inp out msg w Hmsg) as (w1 & E1 & _ & Hi1).
  unfold guess_round. rewrite (ubind_ret _ _ _ _ _ E1).
  assert (H : line_ends inp out 3 2 OUT_OF_RANGE [d1; d2; 0] [x; y] rest w1 (read_line 3 OUT_OF_RANGE [d1; d2; 0] c 2 w1)).
  { unfold read_line. apply (line_loop_run SC inp out 3 OUT_OF_RANGE rest [x; y] 4 [d1; d2; 0] c 2 w1); cbn; try done; try lia.
    - repeat (apply Forall_cons in Hdig as [? Hdig]). unfold CR. set_unfold. lia.
    - apply (bool_decide_unpack _). by vm_compute.
    - by rewrite Hi1. }
  destruct H as (w2 & E2 & _). rewrite (ubind_ret _ _ _ _ _ E2). exists "unterminated string".
  repeat (apply Forall_cons in Hdig as [? Hdig]).
  assert (Ea : atoi (splice 2 (take (3 - 2) [x; y]) [d1; d2; 0]) = None).
  { cbn. repeat (first [rewrite (proj2 (Z.eqb_neq _ _)) by lia|rewrite (proj2 (Z.leb_le _ _)) by lia|rewrite (proj2 (Z.leb_gt _ _)) by lia]; cbn [orb andb]).
    done. }
  by rewrite Ea.
Qed.

(** ** Runs *)

(** A world that records messages and has a tape for a terminal; files cannot be
    opened. *)
Record tape_world := mkTape { tw_msgs : list (list Z); tw_in : list Z; tw_out : list Z }.
#[local] Instance tape_calls : Syscalls tape_world := {
  sc_msgout m w := mkTape (tw_msgs w ++ [cstr m]) (tw_in w) (tw_out w);
  sc_devopen fd _ _ w := (fd, w);
  sc_fsopen _ _ w := (-3, w);
  sc_close _ w := (0, w);
  sc_read _ n w := let bs := take (Z.to_nat n) (tw_in w) in
    ((Z.of_nat (length bs), bs), mkTape (tw_msgs w) (drop (Z.to_nat n) (tw_in w)) (tw_out w));
  sc_write _ bs w := (Z.of_nat (length bs), mkTape (tw_msgs w) (tw_in w) (tw_out w ++ bs));
  sc_ioctl _ _ v w := ((-1, v), w);
  sc_exec _ w := (Some (-1), w);
  sc_fork w := (1, w)
}.
Lemma tape_recorder : Recorder tape_calls tw_msgs.
Proof. by intros m w _. Qed.
Lemma tape_terminal : UserTerminal tape_calls tw_in tw_out.
Proof.
  constructor.
  - intros w c rest E. exists (mkTape (tw_msgs w) rest (tw_out w)). split; [|done]. cbn. by rewrite E.
  - intros w bs. by eexists _, _.
Qed.

Lemma fib_main_spec_witness :
  exists w, fib_main (repeat 0 64) (mkTape [] [] []) = UEnd Exited w /\
    tw_msgs w !! 48%nat = Some (chars "f(48) = 512559680" ++ [NL]).
Proof.
  destruct (fib_main_spec tape_calls tw_msgs tape_recorder (repeat 0 64) (mkTape [] [] [])) as (w & E & Hm & _).
  - reflexivity.
  - exists w. split; [exact E|]. rewrite Hm. vm_compute. reflexivity.
Defined.

Lemma read_line_spec_witness :
  exists why, read_line 32 NAME_TOO_LONG (repeat 1 32) 0 0 (mkTape [] (repeat 97 32 ++ [CR]) []) = UUndef why.
Proof.
  refine (proj2 (proj2 (read_line_spec tape_calls tw_in tw_out tape_terminal 32 NAME_TOO_LONG (repeat 1 32) (repeat 97 32) [] 0
    (mkTape [] (repeat 97 32 ++ [CR]) []) _ _ _ _)) _).
  - apply (bool_decide_unpack _). vm_compute. exact I.
  - reflexivity.
  - apply (bool_decide_unpack _). vm_compute. exact I.
  - reflexivity.
  - reflexivity.
Defined.

(** A user of four letters is greeted. *)
Example greeting_run :
  greeting_main (repeat 1 32) (repeat 1 128) 0 (mkTape [] (65 :: chars "Anna" ++ [CR; 66]) []) =
  URet tt (mkTape [] [] (chars "Enter your username: Anna" ++ [NL; CR] ++ chars "Hello, Anna! This is enjoy life " ++ [226; 134; 150]
    ++ chars "(^" ++ [207; 137] ++ chars "^)" ++ [226; 134; 151] ++ chars " love riscv!" ++ [NL; CR]
    ++ chars "Hit any key to end the program: ")).
Proof. vm_compute. reflexivity. Qed.

(** The first program of init_trek_rule30.c says that it cannot open its file. *)
Example init_trek_run :
  init_trek_rule30_main (mkTape [] [] []) = UEnd Exited (mkTape [chars "_fsopen failed"] [] []).
Proof. vm_compute. reflexivity. Qed.
